(* ===== verification/_CoqProject ===== *)
-Q . S2P
Prelude.v
GoString.v
GoFloat.v
FloatFacts.v
Sha256.v
GoHeap.v
DeepCopy.v
ApiTypes.v
Samples.v
Resources.v
PolicyWindow.v
PolicyFilter.v
PolicyScore.v
ScoreOrder.v
PluginState.v
PluginReserve.v
PluginCycle.v
AgentResources.v
LocalLedger.v
LocalScheduler.v
AgentLedger.v
Backend.v
RealBackend.v
AgentNames.v
AgentProg.v
AgentStatus.v
AgentController.v
AgentConvergence.v
Handover.v
Placement.v
GoFlag.v
Binaries.v
