(* ===== verification/Prelude.v ===== *)
(** * astra-scheduler: a verification development

    ** The program

    astra-scheduler places AI workloads on Kubernetes nodes and manages their
    budgets there.  Three custom resources carry the state: a workload profile
    (what a pod needs), a node resource profile (what a node offers and how
    loaded it is) and, per node, an allocation ledger object with one entry
    per admitted workload.

    - The central policy (src/internal/scheduler/policy) decides whether a
      node may host a workload (filter constraints), how well it fits (scorers)
      and which amounts to allocate.
    - The scheduler plugin (src/internal/scheduler/plugin) calls the policy
      from the hooks of the Kubernetes scheduling framework, keeps one cycle
      state per pod, and in Reserve/Unreserve writes the ledger object, racing
      with other clients of the API server.
    - The node agent (src/internal/agent) reads the ledgers of its node,
      plans a budget per allocation (local scheduler, with resource managers,
      constraints and a reservation ledger), applies the plans through a
      backend and publishes status, totals and an hourly forecast, which the
      central policy reads again.

    ** The files

    - [Prelude]: this file; machine integers with wrap-around, the panic
      monad, tables keyed by a name, list lemmas, tactics, the [go] hints.
    - [GoString]: the Go string functions the program uses (EqualFold,
      TrimSpace, Split, Trim, Atoi, Quote, ...) on ASCII strings.
    - [GoFloat]: binary64 arithmetic on the Standard Library's [spec_float].
      [FloatFacts]: its operations give a nearest float, so they are monotone
      and exact on representable results.
    - [Sha256]: SHA-256 and hexadecimal printing, with the published vectors.
    - [GoHeap]: Go's memory: addresses, pointers, slices and structs, reading a
      typed value out of a heap, and what a copy function promises.
      [DeepCopy]: the types of api/v1alpha1 as descriptors and every function
      of zz_generated.deepcopy.go, over an interface [MetaV1] of the Kubernetes
      metadata types.
    - [ApiTypes]: api/v1alpha1, one Record per struct.  [Samples]: objects the
      witnesses use.
    - [Resources]: six-dimensional resource vectors, central and agent side
      (resource_policy.go, the helpers of local/ledger.go), with the order and
      sum the theorems speak about.
    - [PolicyWindow]: time windows, intervals and the hourly envelope
      (time_window_policy.go and part of simple_policy.go).
    - [PolicyFilter]: filter_constraint.go.  [PolicyScore]: scorer.go,
      demand_shape.go and the scoring and allocation half of simple_policy.go.
      [ScoreOrder]: the theorems about them.
    - [PluginState]: state.go, resolver.go, filter.go, score.go.
    - [PluginReserve]: reserve.go, over an interface [ApiServer] of an object
      store with optimistic concurrency and its laws; [Store] implements it.
      [PluginCycle]: the hooks of both files in one scheduling cycle.
    - [AgentResources]: agent/resources and agent/constraints; the two Go
      interfaces are the records [Manager] and [Constraint] with their laws
      ([ManagerLaws], [ConstraintLaws]).
    - [LocalLedger]: local/ledger.go.  [LocalScheduler]: local/scheduler.go and
      local/action_policy.go.
    - [AgentLedger]: allocation_ledger.go and hourly_forecast.go.
    - [Backend]: the backend interface as a record and the fake backend
      (backend/backend.go, fake.go).  [RealBackend]: backend/real.go,
      isolation.go, low_level_resource.go and the choice between the two.
    - [AgentNames]: the names of replacement pods (controller.go).
    - [AgentProg]: programs that call the API server, the clock and the
      backend, as trees of calls; [traces] are their possible histories when
      every answer is arbitrary, [run] executes them against an oracle.
    - [AgentStatus]: status_recorder.go.  [AgentController]: controller.go, the
      reconcile loop, applying plans, migration.
    - [AgentConvergence]: theorems about the reconcile loop as a whole: how many
      calls it makes, and when it has nothing to do.
    - [Handover]: the two halves composed: the ledger Reserve writes is the one
      the agent plans from.  [Placement]: the loop from the published status to
      the next admission.
    - [GoFlag]: Go's package flag.  [Binaries]: cmd/agent, cmd/operator,
      cmd/scheduler and the construction of the plugin (plugin.go), as programs
      that log, call the controller runtime (the class [World]) and exit.

    ** Conventions

    Go's int32, int64 and int are [Z] with the wrap-around of each operation
    written out.  Pointers are [option]; a nil dereference the source does not
    guard is the outcome [Panic] of the monad [go].  (value, error) results
    are sums.  A map is a [gmap], or an association list where the order of
    iteration can be observed.  Outside [DeepCopy] objects are
    values and a deep copy is the identity on them, which the theorem of that
    file justifies.  Strings are byte sequences; what is said of TrimSpace,
    ToLower and %q is explained in [GoString].  Floating point follows amd64,
    where the compiler does not fuse operations.

    Concurrency is modelled where the program has it: Score calls as an
    arbitrary order of atomic records of the locked cycle state, API writes as
    a relation in which other clients may write between a read and the write.
    The agent is a program over calls: a theorem about [traces] holds for every
    sequence of answers, and so for whatever other clients do in between.  The
    number of attempts of a retry loop there is the parameter [steps], at least
    one (five in the library the code uses).  In [PluginReserve],
    the relation [retry_run] allows any number of attempts that end in a
    conflict, which includes the runs of the bounded loop RetryOnConflict.
    All recursions are structural; no fuel is needed.

    ** What is proved

    - Central filter: no panic, and admission equals a declarative condition
      ([PolicyFilter]); window comparison equals existence of a common minute
      ([PolicyWindow]).
    - Scores and allocations ([ScoreOrder], on [FloatFacts]): with rounding
      taken into account the headroom score is a percentage, more free
      resources never lower the policy's score of a node, and what is allocated
      on an admitted node fits it.
    - Scheduling cycle ([PluginState]): the best tier is the argmax whatever
      the order of the calls, intermediate and final scores respect the tiers
      and the range 0..100.  ([PluginCycle]): the hooks decide on one version of
      every object, whatever the server answers in between; of two candidates
      that differ in their free resources only, the one with more never gets
      the lower final score.  (The final score of one node is relative to the
      other candidates and is not monotone in its resources by itself.)
    - Ledger writes ([PluginReserve]): nothing of others is lost by Reserve,
      Unreserve undoes Reserve, a run without interference succeeds, names
      and labels are legal and injective on legal node names.
    - Composition ([Handover]): a reserved workload reaches the agent of its
      node with the request, windows and priority of the profile Reserve
      resolved and the granted resources, in a ledger whose changes wake that
      agent.  ([Placement]): admissions on
      published statuses never exceed the node's capacity; two admissions on
      the same status can.
    - Planning ([LocalLedger], [LocalScheduler]): exact books of the
      reservation ledger under any sequence of operations and any keys, plans
      within capacity, one per allocation in the order of urgency, window, age
      and name, isolation of higher priorities, the budget of every plan from
      the time-window rule and what is left, no rejection of fitting demand.
    - Forecast and totals ([AgentLedger]): equal, for a profile with readable
      windows and a required budget, to what the central envelope counts, and
      to the local plan; exact within 32 bits.

    - Backends ([Backend], [RealBackend]): the published status balances with
      either backend, nvidia-smi output is read back exactly, the real backend
      degrades instead of failing and applies a plan exactly when its command
      succeeds in an environment that describes the plan, pressures are true percentages within stated bounds.
    - Agent ([AgentStatus], [AgentController], [AgentNames]): one reconcile
      hands the backend no more than the node has (for non-negative budgets), a
      pod is deleted only for a listed workload of this node and after its
      replacement runs, Applied is recorded only after the backend accepted, the
      phases of a plan are written in order (unless the ledger is gone) and, on
      a cluster that answers, to the end; a status write of a workload whose
      entry leads the statuses keeps the other workloads' entries and publishes
      exact totals; replacement names are legal.
    - Convergence ([AgentConvergence]): a reconcile makes a bounded number of
      calls whatever the answers; planning does not read recorded statuses, so
      a plan that was carried out is left alone and a settled node is only
      published; a workload that does not lead its ledger's statuses never
      settles.
    - Deep copies ([DeepCopy]): every generated copy equals its original and
      shares no memory with it.
    - Binaries ([Binaries]): agent and operator start with exactly what their
      flags say, the agent's backend and controller serve the same node and ConfigMap, the operator's
      endpoints are hardened unless a flag says otherwise, exit codes are
      honest.
    - Where the code falls short of its intent, the behaviour is proved as it
      is: a delete that loses a reservation, priorities spelled differently,
      a status entry taken by position (and the plan applied again and again
      that follows from it), a release that hides a ledger, a
      replacement that is its own replacement, a pressure computed once, a
      preference below the requirement, a negative budget that makes room for
      more than there is, a write that restores a stale status entry.

    ** Not modelled

    Scheme registration (the group version and the calls to AddToScheme are
    parameters or constants); the routing of log lines and their key-value
    pairs; the end-to-end test helpers.  The API server, the clock, the YAML
    decoder, nvidia-smi, the operator's isolation commands, the controller
    runtime, the kube-scheduler command and the flags of imported packages are
    parameters.  What is assumed of them is documented behaviour, idealised in
    two places: the laws [ApiServerLaws] let a create store the object as it
    was sent (a real server adds a UID and a creation time and ignores the
    status), and TrimSpace trims ASCII white space.  The CSV form of nvidia-smi
    ([smi_output]) and the exit of ctrl.GetConfigOrDie are written out from
    their documentation. *)

From stdpp Require Export base tactics list gmap strings pretty sorting.
From Stdlib Require Export ZArith Lia.

Declare Scope astra_scope.
Delimit Scope astra_scope with astra.
Open Scope Z_scope.
Open Scope astra_scope.

(** ** Machine integers

    Go's signed integers wrap around silently.  An [int32] ([int64]) value is
    a [Z] in the signed range; every arithmetic operator of the model that
    stands for a Go operator on such values applies the wrap-around. *)

Definition wrap (bits : Z) (z : Z) : Z :=
  (z + 2 ^ (bits - 1)) mod 2 ^ bits - 2 ^ (bits - 1).

Definition wrap32 (z : Z) : Z := wrap 32 z.
Definition wrap64 (z : Z) : Z := wrap 64 z.

Definition in_int32 (z : Z) : Prop := - 2 ^ 31 <= z < 2 ^ 31.
Definition in_int64 (z : Z) : Prop := - 2 ^ 63 <= z < 2 ^ 63.

Definition add32 (a b : Z) : Z := wrap32 (a + b).
Definition sub32 (a b : Z) : Z := wrap32 (a - b).
Definition mul32 (a b : Z) : Z := wrap32 (a * b).
(** Go's integer division truncates toward zero. *)
Definition quot32 (a b : Z) : Z := wrap32 (Z.quot a b).

Definition add64 (a b : Z) : Z := wrap64 (a + b).
Definition sub64 (a b : Z) : Z := wrap64 (a - b).
Definition mul64 (a b : Z) : Z := wrap64 (a * b).
Definition quot64 (a b : Z) : Z := wrap64 (Z.quot a b).

Notation "a +₃₂ b" := (add32 a b) (at level 50, left associativity) : astra_scope.
Notation "a -₃₂ b" := (sub32 a b) (at level 50, left associativity) : astra_scope.

#[export] Instance in_int32_dec z : Decision (in_int32 z).
Proof. unfold in_int32. apply _. Defined.
#[export] Instance in_int64_dec z : Decision (in_int64 z).
Proof. unfold in_int64. apply _. Defined.

(** ** Options standing for pointers *)

Definition from_ptr {A} (zero : A) (p : option A) : A :=
  match p with Some x => x | None => zero end.

(** ** Outcomes of code that can panic

    A nil-pointer dereference or an out-of-range index panics. *)

Inductive go (A : Type) : Type := Ret (a : A) | Panic.
Arguments Ret {A} a.
Arguments Panic {A}.

Definition go_bind {A B} (m : go A) (k : A -> go B) : go B :=
  match m with Ret a => k a | Panic => Panic end.

Notation "x <-! m ; k" := (go_bind m (fun x => k))
  (at level 100, m at next level, right associativity) : astra_scope.

(** [*p] of a pointer. *)
Definition deref {A} (p : option A) : go A :=
  match p with Some a => Ret a | None => Panic end.

(** ** Decimal printing: [%d] of a signed integer *)

Definition show_Z (z : Z) : string := pretty z.

(** ** Slices used as keyed tables

    The loops that look for an entry by name, and replace or append it. *)

Section Keyed.
Context {A : Type} (key : A -> string).

Fixpoint find_by (l : list A) (k : string) : option A :=
  match l with
  | [] => None
  | x :: rest => if decide (key x = k) then Some x else find_by rest k
  end.

Fixpoint upsert_by (l : list A) (e : A) : list A :=
  match l with
  | [] => [e]
  | x :: rest => if decide (key x = key e) then e :: rest else x :: upsert_by rest e
  end.
End Keyed.

(** ** Lemmas on machine integers *)

Lemma wrap32_id z : in_int32 z -> wrap32 z = z.
Proof.
  unfold in_int32, wrap32, wrap. intros H. rewrite Z.mod_small; lia.
Qed.

Lemma wrap64_id z : in_int64 z -> wrap64 z = z.
Proof.
  unfold in_int64, wrap64, wrap. intros H. rewrite Z.mod_small; lia.
Qed.

Lemma wrap32_range z : in_int32 (wrap32 z).
Proof.
  unfold in_int32, wrap32, wrap.
  pose proof (Z.mod_pos_bound (z + 2 ^ (32 - 1)) (2 ^ 32)). lia.
Qed.

Lemma wrap64_range z : in_int64 (wrap64 z).
Proof.
  unfold in_int64, wrap64, wrap.
  pose proof (Z.mod_pos_bound (z + 2 ^ (64 - 1)) (2 ^ 64)). lia.
Qed.

(** Wrapping is addition modulo [2^32]: an intermediate wrap-around does not
    change the wrapped total. *)
Lemma wrap32_add_l a b : wrap32 (wrap32 a + b) = wrap32 (a + b).
Proof.
  unfold wrap32, wrap.
  replace ((a + 2 ^ (32 - 1)) mod 2 ^ 32 - 2 ^ (32 - 1) + b + 2 ^ (32 - 1))
    with ((a + 2 ^ (32 - 1)) mod 2 ^ 32 + b) by lia.
  rewrite Z.add_mod_idemp_l by lia. do 2 f_equal. lia.
Qed.

Lemma add32_comm a b : add32 a b = add32 b a.
Proof. unfold add32. f_equal. lia. Qed.

Lemma add32_assoc a b c : add32 a (add32 b c) = add32 (add32 a b) c.
Proof.
  unfold add32. rewrite wrap32_add_l, Z.add_comm, wrap32_add_l.
  f_equal. lia.
Qed.

Lemma add32_0_l a : in_int32 a -> add32 0 a = a.
Proof. intros H. unfold add32. rewrite Z.add_0_l. by apply wrap32_id. Qed.

Lemma add32_exact a b : in_int32 (a + b) -> add32 a b = a + b.
Proof. apply wrap32_id. Qed.

Lemma sub32_exact a b : in_int32 (a - b) -> sub32 a b = a - b.
Proof. apply wrap32_id. Qed.

Lemma sub32_nonneg a b : in_int32 a -> 0 <= b <= a -> sub32 a b = a - b.
Proof. intros Ha Hb. apply sub32_exact. unfold in_int32 in *. lia. Qed.

Lemma add32_range a b : in_int32 (add32 a b).
Proof. apply wrap32_range. Qed.

Lemma sub32_range a b : in_int32 (sub32 a b).
Proof. apply wrap32_range. Qed.

(** ** Lemmas on lists *)

Lemma filter_all {A} (p : A -> bool) l : Forall (fun x => p x = true) l -> List.filter p l = l.
Proof. induction 1 as [|x l Hx _ IH]; [done|]. cbn. by rewrite Hx, IH. Qed.

Lemma filter_none {A} (p : A -> bool) l : Forall (fun x => p x = false) l -> List.filter p l = [].
Proof. induction 1 as [|x l Hx _ IH]; [done|]. cbn. by rewrite Hx, IH. Qed.

Lemma StronglySorted_impl {A} (R S : A -> A -> Prop) l :
  (forall x y, R x y -> S x y) -> StronglySorted R l -> StronglySorted S l.
Proof.
  intros HRS. induction 1 as [|x l _ IH Hx]; constructor; [done|].
  eapply Forall_impl; [exact Hx|]. auto.
Qed.

Lemma existsb_perm {A} (p : A -> bool) l k : l ≡ₚ k -> existsb p l = existsb p k.
Proof.
  induction 1 as [|x l k _ IH|x y l|l k m _ IH1 _ IH2]; cbn; try congruence.
  by destruct (p x), (p y).
Qed.

#[export] Instance filter_perm {A} (p : A -> bool) : Proper ((≡ₚ) ==> (≡ₚ)) (List.filter p).
Proof.
  induction 1 as [|x l k _ IH|x y l|l k m _ IH1 _ IH2]; cbn; try done.
  - by destruct (p x); [constructor|].
  - destruct (p x), (p y); try done. apply Permutation_swap.
  - by etrans.
Qed.

(** ** Lemmas on keyed tables *)

Section KeyedLemmas.
Context {A : Type} (key : A -> string).

Lemma upsert_by_keys l e :
  key <$> upsert_by key l e = if decide (key e ∈ key <$> l) then key <$> l else (key <$> l) ++ [key e].
Proof.
  induction l as [|x l IH]; cbn.
  - by rewrite decide_False by apply not_elem_of_nil.
  - destruct (decide (key x = key e)) as [E|E]; cbn.
    + rewrite decide_True by (rewrite E; by left). by rewrite E.
    + rewrite IH. destruct (decide (key e ∈ key <$> l)) as [Hin|Hin].
      * by rewrite decide_True by (by right).
      * rewrite decide_False; [done|]. rewrite elem_of_cons. intuition.
Qed.

Lemma upsert_by_NoDup l e : NoDup (key <$> l) -> NoDup (key <$> upsert_by key l e).
Proof.
  intros Hl. rewrite upsert_by_keys. case_decide as Hin; [done|]. apply NoDup_app.
  split_and!; [done| |apply NoDup_singleton]. intros x Hx. rewrite list_elem_of_singleton. by intros ->.
Qed.

Lemma upsert_by_in l e : e ∈ upsert_by key l e.
Proof. induction l as [|x l IH]; cbn; [by left|]. case_decide; [by left|by right]. Qed.

(** Every other entry is kept, and nothing else is added. *)
Lemma upsert_by_others l e x : key x <> key e -> x ∈ upsert_by key l e <-> x ∈ l.
Proof.
  intros Hx. induction l as [|y l IH]; cbn.
  - rewrite list_elem_of_singleton. split; [by intros ->|by intros ?%elem_of_nil].
  - case_decide as E; rewrite !elem_of_cons, ?IH; [|tauto].
    split; (intros [->|?]; [|by right]); done.
Qed.

Lemma find_upsert_by l e k :
  find_by key (upsert_by key l e) k = if decide (k = key e) then Some e else find_by key l k.
Proof.
  induction l as [|x l IH]; cbn.
  - destruct (decide (k = key e)) as [->|Hn]; [by rewrite decide_True by done|].
    by rewrite decide_False by congruence.
  - destruct (decide (key x = key e)) as [E|E]; cbn.
    + destruct (decide (k = key e)) as [->|Hn]; [by rewrite decide_True by done|].
      by rewrite !decide_False by congruence.
    + destruct (decide (key x = k)) as [<-|Hs]; [by rewrite decide_False by done|]. apply IH.
Qed.
End KeyedLemmas.

(** ** Automation *)

Create HintDb go.
Create HintDb go_copy.
Create HintDb go_exit.
#[export] Hint Resolve wrap32_range wrap64_range add32_range sub32_range : go.

(** Decide the boolean comparisons of the goal and of the hypotheses. *)
Ltac zbool :=
  repeat match goal with
  | H : (_ <? _) = true |- _ => apply Z.ltb_lt in H
  | H : (_ <? _) = false |- _ => apply Z.ltb_ge in H
  | H : (_ <=? _) = true |- _ => apply Z.leb_le in H
  | H : (_ <=? _) = false |- _ => apply Z.leb_gt in H
  | H : (_ =? _) = true |- _ => apply Z.eqb_eq in H
  | H : (_ =? _) = false |- _ => apply Z.eqb_neq in H
  | H : (_ >? _) = _ |- _ => rewrite Z.gtb_ltb in H
  | H : (_ >=? _) = _ |- _ => rewrite Z.geb_leb in H
  | H : _ && _ = true |- _ => apply andb_true_iff in H; destruct H
  | H : _ || _ = false |- _ => apply orb_false_iff in H; destruct H
  | H : negb _ = true |- _ => apply negb_true_iff in H
  | H : negb _ = false |- _ => apply negb_false_iff in H
  end.

(** Case analysis on every [if] of the goal. *)
Ltac if_split :=
  repeat match goal with
  | |- context [if ?b then _ else _] => destruct b eqn:?
  end.

Ltac i32 := unfold in_int32, in_int64 in *; zbool; lia.

(** Settle a decidable goal on concrete data by evaluation. *)
Ltac compute_decide := apply (bool_decide_unpack _); vm_compute; exact I.

(** ** Positions in a list *)

(** Past a prefix without the marked elements. *)
Lemma split_after {A} (P : A -> Prop) (pre post t1 t2 : list A) y :
  pre ++ post = t1 ++ y :: t2 -> P y -> Forall (fun x => ~ P x) pre -> exists u, t1 = pre ++ u.
Proof.
  revert t1. induction pre as [|x pre IH]; intros t1 E Hy Hp; [by exists t1|].
  apply Forall_cons in Hp as [Hx Hp]. destruct t1 as [|z t1]; cbn in E; [by injection E as -> _|].
  injection E as -> E. destruct (IH t1 E Hy Hp) as [u ->]. by exists u.
Qed.

(** The only marked element. *)
Lemma split_unique {A} (P : A -> Prop) (pre post t1 t2 : list A) x y :
  pre ++ x :: post = t1 ++ y :: t2 -> P y -> Forall (fun x => ~ P x) pre -> Forall (fun x => ~ P x) post ->
  t1 = pre /\ y = x /\ t2 = post.
Proof.
  intros E Hy Hp Hq. destruct (split_after P _ _ _ _ _ E Hy Hp) as [u ->].
  rewrite <- app_assoc in E. apply app_inv_head in E. destruct u as [|z u]; cbn in E.
  - injection E as -> ->. by rewrite app_nil_r.
  - injection E as -> E. rewrite E in Hq. apply Forall_app in Hq as [_ Hq]. apply Forall_cons in Hq as [Hq _]. done.
Qed.
