(* ===== verification/GoString.v ===== *)
(** * GoString: the parts of Go's [strings], [strconv], [utf8] and [time]
    packages the program uses.

    A Go string is a byte sequence; [string] (a sequence of 8-bit [ascii])
    models it exactly.  [range s] iterates over the runes obtained by UTF-8
    decoding ([runes]).  [ToLower] and [EqualFold] are Unicode aware in Go;
    the model maps the ASCII letters and the only non-ASCII code points whose
    lower case (U+0130, U+212A), respectively whose simple-fold orbit (U+017F,
    U+212A), reaches ASCII, and leaves every other code point alone.  The
    program only compares the results with ASCII constants or replaces every
    rune outside [[a-z0-9.-]] by a dash, and both observations are exact under
    that treatment. *)

From S2P Require Import Prelude.
From Stdlib Require Import Ascii String.
From stdpp Require Import strings.
Local Open Scope string_scope.
Local Open Scope list_scope.
Local Open Scope Z_scope.

Definition byte_of (c : ascii) : Z := Z.of_N (N_of_ascii c).
Definition ascii_of (z : Z) : ascii := ascii_of_N (Z.to_N z).
Definition bytes (s : string) : list Z := byte_of <$> list_ascii_of_string s.
Definition of_bytes (l : list Z) : string := string_of_list_ascii (ascii_of <$> l).

(** ** UTF-8 decoding, [utf8.DecodeRuneInString] *)

Definition RuneError : Z := 65533.

Definition between (lo hi b : Z) : bool := (lo <=? b) && (b <=? hi).
Definition cont (b : Z) : bool := between 128 191 b.

(** The accept ranges of the second byte, by the first byte. *)
Definition second_ok (b0 b1 : Z) : bool :=
  if b0 =? 224 then between 160 191 b1
  else if b0 =? 237 then between 128 159 b1
  else if b0 =? 240 then between 144 191 b1
  else if b0 =? 244 then between 128 143 b1
  else cont b1.

Fixpoint utf8_decode (l : list Z) : list Z :=
  match l with
  | [] => []
  | b0 :: t1 =>
      if b0 <? 128 then b0 :: utf8_decode t1
      else if between 194 223 b0 then
        match t1 with
        | b1 :: t2 =>
            if cont b1 then ((b0 - 192) * 64 + (b1 - 128)) :: utf8_decode t2
            else RuneError :: utf8_decode t1
        | _ => RuneError :: utf8_decode t1
        end
      else if between 224 239 b0 then
        match t1 with
        | b1 :: b2 :: t3 =>
            if second_ok b0 b1 && cont b2
            then ((b0 - 224) * 4096 + (b1 - 128) * 64 + (b2 - 128)) :: utf8_decode t3
            else RuneError :: utf8_decode t1
        | _ => RuneError :: utf8_decode t1
        end
      else if between 240 244 b0 then
        match t1 with
        | b1 :: b2 :: b3 :: t4 =>
            if second_ok b0 b1 && cont b2 && cont b3
            then ((b0 - 240) * 262144 + (b1 - 128) * 4096 + (b2 - 128) * 64 + (b3 - 128)) :: utf8_decode t4
            else RuneError :: utf8_decode t1
        | _ => RuneError :: utf8_decode t1
        end
      else RuneError :: utf8_decode t1
  end.

Definition runes (s : string) : list Z := utf8_decode (bytes s).

(** [utf8.AppendRune]: the inverse encoding. *)
Definition encode_rune (r : Z) : list Z :=
  if r <? 128 then [r]
  else if r <? 2048 then [192 + r / 64; 128 + r mod 64]
  else if r <? 65536 then [224 + r / 4096; 128 + (r / 64) mod 64; 128 + r mod 64]
  else [240 + r / 262144; 128 + (r / 4096) mod 64; 128 + (r / 64) mod 64; 128 + r mod 64].

(** ** [strings.ToLower] and [strings.EqualFold] *)

Definition rune_lower (r : Z) : Z :=
  if between 65 90 r then r + 32
  else if r =? 304 then 105
  else if r =? 8490 then 107
  else r.

Definition ToLower (s : string) : string :=
  of_bytes (concat (encode_rune ∘ rune_lower <$> runes s)).

Definition rune_fold (r : Z) : Z :=
  if between 65 90 r then r + 32
  else if r =? 383 then 115
  else if r =? 8490 then 107
  else r.

Definition EqualFold (s t : string) : bool :=
  bool_decide (rune_fold <$> runes s = rune_fold <$> runes t).

(** ** [strings.Trim], [strings.Split], [strings.Join], slicing *)

Fixpoint drop_while (p : Z -> bool) (l : list Z) : list Z :=
  match l with
  | [] => []
  | b :: t => if p b then drop_while p t else l
  end.

(** [strings.Trim(s, cutset)] for an ASCII cutset. *)
Definition trim_bytes (p : Z -> bool) (l : list Z) : list Z :=
  reverse (drop_while p (reverse (drop_while p l))).

Definition TrimCut (cutset : list Z) (s : string) : string :=
  of_bytes (trim_bytes (fun b => bool_decide (b ∈ cutset)) (bytes s)).

(** [strings.TrimSpace] on ASCII input: space, \t, \n, \v, \f, \r. *)
Definition is_space (b : Z) : bool := (b =? 32) || between 9 13 b.
Definition TrimSpace (s : string) : string := of_bytes (trim_bytes is_space (bytes s)).

(** [strings.Split(s, sep)] for a one-byte separator: never empty. *)
Fixpoint split_bytes (sep : Z) (l : list Z) : list (list Z) :=
  match l with
  | [] => [[]]
  | b :: t =>
      if b =? sep then [] :: split_bytes sep t
      else match split_bytes sep t with
           | w :: ws => (b :: w) :: ws
           | [] => [[b]]
           end
  end.

Definition Split (sep : Z) (s : string) : list string :=
  of_bytes <$> split_bytes sep (bytes s).

Fixpoint Join (parts : list string) (sep : string) : string :=
  match parts with
  | [] => ""
  | [p] => p
  | p :: ps => (p +:+ sep +:+ Join ps sep)%string
  end.

(** [s[:n]] for [n <= len(s)]. *)
Definition prefix_n (n : nat) (s : string) : string := substring 0 n s.

(** Go's [<] on strings: bytewise lexicographic order. *)
Definition str_ltb (a b : string) : bool := String.ltb a b.

(** ** [strconv] *)

Definition is_digit (b : Z) : bool := between 48 57 b.

(** The value of a digit sequence, most significant first. *)
Definition digits_value (l : list Z) : Z := fold_left (fun acc b => acc * 10 + (b - 48)) l 0.

(** [strconv.ParseInt(s, 10, bits)]: an optional sign, then at least one
    digit, and the value within the signed range; [None] is the error. *)
Definition ParseInt (bits : Z) (s : string) : option Z :=
  let l := bytes s in
  let '(neg, ds) := match l with
    | 43 :: t => (false, t)
    | 45 :: t => (true, t)
    | _ => (false, l)
    end in
  match ds with
  | [] => None
  | _ =>
      if forallb is_digit ds then
        let v := if neg : bool then - digits_value ds else digits_value ds in
        if (- 2 ^ (bits - 1) <=? v) && (v <? 2 ^ (bits - 1)) then Some v else None
      else None
  end.

(** The text of the error: the scan stops at the first byte that is not a
    digit, or as soon as the magnitude exceeds [bits] bits. *)
Fixpoint scan_error (bits acc : Z) (ds : list Z) : string :=
  match ds with
  | [] => "value out of range"
  | b :: t =>
      if negb (is_digit b) then "invalid syntax"
      else
        let acc := acc * 10 + (b - 48) in
        if 2 ^ bits - 1 <? acc then "value out of range" else scan_error bits acc t
  end.

(** [strconv.Atoi]: [ParseInt] at the width of [int] (64 bits). *)
Definition Atoi (s : string) : option Z := ParseInt 64 s.

(** [%02d] of a non-negative integer below 100. *)
Definition show_02d (z : Z) : string :=
  if z <? 10 then ("0" +:+ show_Z z)%string else show_Z z.

Definition show_bool (b : bool) : string := if b then "true" else "false".

(** [%q], [strconv.Quote], on ASCII input: quotes, backslashes and control
    characters are escaped; bytes above 127 are copied. *)
Definition hex_digit (d : Z) : Z := if d <? 10 then 48 + d else 87 + d.
Definition quote_byte (b : Z) : list Z :=
  if b =? 34 then [92; 34]
  else if b =? 92 then [92; 92]
  else if b =? 7 then [92; 97]
  else if b =? 8 then [92; 98]
  else if b =? 12 then [92; 102]
  else if b =? 10 then [92; 110]
  else if b =? 13 then [92; 114]
  else if b =? 9 then [92; 116]
  else if b =? 11 then [92; 118]
  else if (b <? 32) || (b =? 127) then [92; 120; hex_digit (b / 16); hex_digit (b mod 16)]
  else [b].
Definition Quote (s : string) : string :=
  of_bytes (34 :: concat (quote_byte <$> bytes s) ++ [34]).

(** [strconv.NumError.Error] for a failed [ParseInt]. *)
Definition ParseInt_error (bits : Z) (s : string) : string :=
  let ds := match bytes s with 43 :: t | 45 :: t => t | l => l end in
  "strconv.ParseInt: parsing " +:+ Quote s +:+ ": "
  +:+ (if decide (ds = []) then "invalid syntax" else scan_error bits 0 ds).

(** ** [time.Parse] with the layout 15:04

    The hour chunk ["15"] takes one or two digits, the minute chunk ["04"]
    exactly two, the colon is literal and nothing may follow. *)
Definition parse_clock (s : string) : option (Z * Z) :=
  let minute (h : Z) (rest : list Z) : option (Z * Z) :=
    match rest with
    | [c; m1; m2] =>
        if (c =? 58) && is_digit m1 && is_digit m2 then
          let m := (m1 - 48) * 10 + (m2 - 48) in
          if m <? 60 then Some (h, m) else None
        else None
    | _ => None
    end in
  match bytes s with
  | h1 :: t1 =>
      if is_digit h1 then
        match t1 with
        | h2 :: t2 =>
            if is_digit h2 then
              let h := (h1 - 48) * 10 + (h2 - 48) in
              if h <? 24 then minute h t2 else None
            else minute (h1 - 48) t1
        | [] => None
        end
      else None
  | [] => None
  end.

(** ** Lemmas *)

Lemma byte_of_range c : 0 <= byte_of c < 256.
Proof.
  unfold byte_of. pose proof (N_ascii_bounded c). lia.
Qed.

Lemma ascii_of_byte_of c : ascii_of (byte_of c) = c.
Proof. unfold ascii_of, byte_of. rewrite N2Z.id. apply ascii_N_embedding. Qed.

Lemma byte_of_ascii_of z : 0 <= z < 256 -> byte_of (ascii_of z) = z.
Proof.
  intros Hz. unfold ascii_of, byte_of. rewrite N_ascii_embedding; lia.
Qed.

Lemma of_bytes_bytes s : of_bytes (bytes s) = s.
Proof.
  unfold of_bytes, bytes. rewrite <- list_fmap_compose.
  rewrite (list_fmap_ext _ id).
  - rewrite list_fmap_id. apply string_of_list_ascii_of_string.
  - intros ? ? _. apply ascii_of_byte_of.
Qed.

Definition is_byte (z : Z) : Prop := 0 <= z < 256.

Lemma bytes_of_bytes l : Forall is_byte l -> bytes (of_bytes l) = l.
Proof.
  intros Hl. unfold of_bytes, bytes. rewrite list_ascii_of_string_of_list_ascii.
  induction Hl as [|z l Hz _ IH]; [done|]. cbn. rewrite byte_of_ascii_of by done.
  by f_equal.
Qed.

Lemma bytes_range s : Forall is_byte (bytes s).
Proof.
  unfold bytes. apply Forall_fmap, Forall_true. intros c. apply byte_of_range.
Qed.

Lemma bytes_app s t : bytes (s +:+ t) = bytes s ++ bytes t.
Proof.
  unfold bytes. induction s as [|c s IH]; [done|].
  change (byte_of c :: (byte_of <$> list_ascii_of_string (s +:+ t))
          = byte_of c :: (byte_of <$> list_ascii_of_string s)
                 ++ (byte_of <$> list_ascii_of_string t)).
  f_equal. exact IH.
Qed.

Lemma length_bytes s : length (bytes s) = String.length s.
Proof.
  unfold bytes. rewrite length_fmap. induction s; cbn; auto.
Qed.

Lemma bytes_inj s t : bytes s = bytes t -> s = t.
Proof. intros H. by rewrite <- (of_bytes_bytes s), H, of_bytes_bytes. Qed.

Lemma length_of_bytes l : String.length (of_bytes l) = length l.
Proof.
  unfold of_bytes. induction l; cbn; auto.
Qed.

(** An ASCII byte sequence decodes to itself. *)
Lemma utf8_decode_ascii l : Forall (fun b => b < 128) l -> utf8_decode l = l.
Proof.
  induction 1 as [|b l Hb _ IH]; [done|]. cbn [utf8_decode].
  apply Z.ltb_lt in Hb. rewrite Hb. by f_equal.
Qed.

Lemma runes_ascii s : Forall (fun b => b < 128) (bytes s) -> runes s = bytes s.
Proof. apply utf8_decode_ascii. Qed.

Lemma drop_while_suffix p l : exists k, l = k ++ drop_while p l /\ Forall (fun b => p b = true) k.
Proof.
  induction l as [|b l (k & Hk & Hp)]; [by exists []|]. cbn.
  destruct (p b) eqn:E; [|by exists []]. exists (b :: k). split; [by rewrite Hk at 1|].
  by constructor.
Qed.

Lemma drop_while_head p l b t : drop_while p l = b :: t -> p b = false.
Proof.
  induction l as [|c l IH]; [done|]. cbn. destruct (p c) eqn:E; [done|].
  by intros [= -> _].
Qed.

Lemma drop_while_id p l : (forall b t, l = b :: t -> p b = false) -> drop_while p l = l.
Proof. destruct l as [|b l]; [done|]. intros H. cbn. by rewrite (H b l). Qed.

Lemma trim_bytes_infix p l :
  exists k k', l = k ++ trim_bytes p l ++ k'.
Proof.
  unfold trim_bytes.
  destruct (drop_while_suffix p l) as (k & Hk & _).
  destruct (drop_while_suffix p (reverse (drop_while p l))) as (k' & Hk' & _).
  exists k, (reverse k'). rewrite Hk at 1. f_equal.
  rewrite <- reverse_app, <- Hk'. by rewrite reverse_involutive.
Qed.

Lemma Forall_trim_bytes (P : Z -> Prop) p l : Forall P l -> Forall P (trim_bytes p l).
Proof.
  intros H. destruct (trim_bytes_infix p l) as (k & k' & E). rewrite E in H.
  by apply Forall_app in H as [_ [H _]%Forall_app].
Qed.

Lemma length_trim_bytes p l : (length (trim_bytes p l) <= length l)%nat.
Proof.
  destruct (trim_bytes_infix p l) as (k & k' & E). rewrite E at 2.
  rewrite !length_app. lia.
Qed.

Lemma trim_bytes_last p l b t : trim_bytes p l = t ++ [b] -> p b = false.
Proof.
  unfold trim_bytes. intros H.
  apply (f_equal reverse) in H. rewrite reverse_involutive, reverse_app in H. cbn in H.
  by apply drop_while_head in H.
Qed.

Lemma trim_bytes_head p l b t : trim_bytes p l = b :: t -> p b = false.
Proof.
  unfold trim_bytes. set (m := drop_while p l). intros H.
  destruct (drop_while_suffix p (reverse m)) as (k & Hk & _).
  apply (f_equal reverse) in Hk. rewrite reverse_involutive, reverse_app, H in Hk.
  eapply (drop_while_head p l). fold m. by rewrite Hk.
Qed.

Lemma trim_bytes_id p l :
  (forall b t, l = b :: t -> p b = false) ->
  (forall b t, l = t ++ [b] -> p b = false) -> trim_bytes p l = l.
Proof.
  intros Hh Hl. unfold trim_bytes. rewrite (drop_while_id p l) by done.
  rewrite drop_while_id; [apply reverse_involutive|].
  intros b t E. apply (Hl b (reverse t)). apply (f_equal reverse) in E.
  rewrite reverse_involutive in E. rewrite E. by rewrite reverse_cons.
Qed.

Lemma trim_bytes_idemp p l : trim_bytes p (trim_bytes p l) = trim_bytes p l.
Proof.
  apply trim_bytes_id; intros b t E.
  - by eapply trim_bytes_head.
  - by eapply trim_bytes_last.
Qed.

Lemma drop_while_nil p l : drop_while p l = [] -> Forall (fun b => p b = true) l.
Proof.
  intros H. destruct (drop_while_suffix p l) as (k & Hk & Hp). rewrite H, app_nil_r in Hk. by rewrite Hk.
Qed.

Lemma trim_bytes_nil p l : trim_bytes p l = [] -> Forall (fun b => p b = true) l.
Proof.
  unfold trim_bytes. intros H%(f_equal reverse). rewrite reverse_involutive in H.
  apply drop_while_nil in H. rewrite Forall_reverse in H.
  destruct (drop_while p l) as [|b t] eqn:E; [by apply drop_while_nil|].
  apply Forall_cons in H as [H _]. apply drop_while_head in E. congruence.
Qed.

(** ** Printing and parsing integers *)

Lemma pretty_char_byte d : (d < 10)%N -> byte_of (pretty_N_char d) = 48 + Z.of_N d.
Proof.
  intros H. assert (C : d = 0%N \/ d = 1%N \/ d = 2%N \/ d = 3%N \/ d = 4%N \/ d = 5%N \/ d = 6%N
    \/ d = 7%N \/ d = 8%N \/ d = 9%N) by lia.
  repeat (destruct C as [->|C]; [reflexivity|]). by subst d.
Qed.

Lemma bytes_cons c s : bytes (String c s) = byte_of c :: bytes s.
Proof. done. Qed.

Lemma digits_value_snoc ds b : digits_value (ds ++ [b]) = digits_value ds * 10 + (b - 48).
Proof. unfold digits_value. by rewrite fold_left_app. Qed.

(** The digits a positive number puts in front of what is printed already. *)
Lemma pretty_N_go_digits x : forall s, exists ds,
  bytes (pretty_N_go x s) = ds ++ bytes s /\ Forall (fun b => is_digit b = true) ds /\
  digits_value ds = Z.of_N x /\ (x <> 0%N -> ds <> []).
Proof.
  induction (N.lt_wf_0 x) as [x _ IH]; intros s.
  destruct (decide (x = 0%N)) as [->|Hx].
  { exists []. rewrite pretty_N_go_0. by repeat split. }
  destruct (IH (x / 10)%N (N.div_lt x 10 ltac:(lia) eq_refl) (String (pretty_N_char (x mod 10)) s))
    as (ds & Hb & Hd & Hv & _).
  assert (Hm : (x mod 10 < 10)%N) by (apply N.mod_lt; lia).
  exists (ds ++ [byte_of (pretty_N_char (x mod 10))]). rewrite pretty_N_go_step, Hb by lia. split_and!.
  - by rewrite bytes_cons, <- app_assoc.
  - apply Forall_app. split; [done|]. repeat constructor. rewrite pretty_char_byte by done.
    revert Hm. generalize (x mod 10)%N. clear. intros d Hd.
    unfold is_digit, between. apply andb_true_iff. rewrite !Z.leb_le. lia.
  - rewrite digits_value_snoc, Hv, pretty_char_byte by done.
    pose proof (N.div_mod x 10 ltac:(done)) as E. revert E Hm.
    generalize (x / 10)%N (x mod 10)%N. clear. lia.
  - intros _. by destruct ds.
Qed.

Lemma show_nonneg_digits z : 0 <= z -> exists ds,
  bytes (show_Z z) = ds /\ Forall (fun b => is_digit b = true) ds /\ digits_value ds = z /\ ds <> [].
Proof.
  intros Hz. destruct z as [|p|p]; [| |lia].
  - exists [48]. split_and!; try done. by repeat constructor.
  - destruct (pretty_N_go_digits (Npos p) "") as (ds & Hb & Hd & Hv & Hn).
    exists ds. rewrite app_nil_r in Hb. split_and!; try done. by apply Hn.
Qed.

Lemma show_neg z : z < 0 -> show_Z z = "-" +:+ show_Z (- z).
Proof. by destruct z. Qed.

Lemma digit_not_sign b ds : is_digit b = true ->
  match b :: ds with 43 :: t => (false, t) | 45 :: t => (true, t) | _ => (false, b :: ds) end
  = (false, b :: ds).
Proof.
  unfold is_digit, between. intros H. zbool.
  assert (C : b = 48 \/ b = 49 \/ b = 50 \/ b = 51 \/ b = 52 \/ b = 53 \/ b = 54 \/ b = 55
    \/ b = 56 \/ b = 57) by lia.
  repeat (destruct C as [->|C]; [reflexivity|]). by subst b.
Qed.

Lemma forallb_Forall {A} (f : A -> bool) l : Forall (fun x => f x = true) l -> forallb f l = true.
Proof. induction 1 as [|x l Hx _ IH]; cbn; [done|]. by rewrite Hx, IH. Qed.

(** [strconv.ParseInt] reads back what [%d] prints. *)
Lemma ParseInt_show_Z bits z :
  - 2 ^ (bits - 1) <= z < 2 ^ (bits - 1) -> ParseInt bits (show_Z z) = Some z.
Proof.
  intros Hz. unfold ParseInt.
  assert (R : (- 2 ^ (bits - 1) <=? z) && (z <? 2 ^ (bits - 1)) = true)
    by (apply andb_true_iff; rewrite Z.leb_le, Z.ltb_lt; lia).
  destruct (decide (0 <= z)) as [Hp|Hn].
  - destruct (show_nonneg_digits z Hp) as (ds & -> & Hd & Hv & Hne).
    destruct ds as [|b ds]; [done|]. pose proof (forallb_Forall _ _ Hd) as Hf.
    apply Forall_cons in Hd as [Hb Hd].
    rewrite digit_not_sign by done. cbv beta iota zeta. rewrite Hf, Hv, R. done.
  - rewrite show_neg by lia. destruct (show_nonneg_digits (- z) ltac:(lia)) as (ds & Hs & Hd & Hv & Hne).
    rewrite bytes_app, Hs. change (bytes "-") with [45]. cbn [app].
    destruct ds as [|b ds]; [done|]. rewrite (forallb_Forall _ _ Hd), Hv, Z.opp_involutive, R. done.
Qed.

(** ** Splitting *)

Lemma split_bytes_none sep w : sep ∉ w -> split_bytes sep w = [w].
Proof.
  induction w as [|b w IH]; [done|]. intros [Hb Hw]%not_elem_of_cons. cbn.
  destruct (b =? sep) eqn:E; [zbool; congruence|]. by rewrite IH.
Qed.

Lemma split_bytes_app sep w rest :
  sep ∉ w -> split_bytes sep (w ++ sep :: rest) = w :: split_bytes sep rest.
Proof.
  induction w as [|b w IH]; cbn.
  - by rewrite Z.eqb_refl.
  - intros [Hb Hw]%not_elem_of_cons. destruct (b =? sep) eqn:E; [zbool; congruence|]. by rewrite IH.
Qed.

Lemma trim_bytes_cons p b l : p b = true -> trim_bytes p (b :: l) = trim_bytes p l.
Proof. intros H. unfold trim_bytes. cbn. by rewrite H. Qed.

Lemma TrimSpace_space s : TrimSpace (" " +:+ s) = TrimSpace s.
Proof. unfold TrimSpace. rewrite bytes_app. change (bytes " ") with [32]. cbn [app].
  by rewrite trim_bytes_cons. Qed.

Lemma bytes_TrimSpace s : bytes (TrimSpace s) = trim_bytes is_space (bytes s).
Proof. unfold TrimSpace. apply bytes_of_bytes, Forall_trim_bytes, bytes_range. Qed.

Lemma drop_while_snoc p b l : p b = true -> drop_while p (l ++ [b]) = drop_while p l ++ [b] \/
  (drop_while p l = [] /\ drop_while p (l ++ [b]) = []).
Proof.
  intros H. induction l as [|c l IH]; cbn; [rewrite H; auto|]. destruct (p c); [done|]. auto.
Qed.

Lemma trim_bytes_snoc p b l : p b = true -> trim_bytes p (l ++ [b]) = trim_bytes p l.
Proof.
  intros H. unfold trim_bytes. destruct (drop_while_snoc p b l H) as [->|[-> ->]]; [|done].
  rewrite reverse_app. cbn. by rewrite H.
Qed.

(** Byte strings that start and end with something else than a space. *)
Definition solid (l : list Z) : Prop :=
  (exists b t, l = b :: t /\ is_space b = false) /\ (exists b t, l = t ++ [b] /\ is_space b = false).

Lemma solid_app a m b : solid a -> solid b -> solid (a ++ m ++ b).
Proof.
  intros [(x & t & -> & Hx) _] [_ (y & u & -> & Hy)]. split.
  - by exists x, (t ++ m ++ u ++ [y]).
  - exists y, ((x :: t) ++ m ++ u). by rewrite <- !app_assoc.
Qed.

Lemma solid_trim l : solid l -> trim_bytes is_space l = l.
Proof.
  intros [(x & t & Ex & Hx) (y & u & Ey & Hy)]. apply trim_bytes_id; intros b k E.
  - congruence.
  - rewrite Ey in E. by apply app_inj_tail in E as [_ <-].
Qed.

Lemma trimmed_solid s : TrimSpace s = s -> s <> "" -> solid (bytes s).
Proof.
  intros H Hn. apply (f_equal bytes) in H. rewrite bytes_TrimSpace in H.
  assert (Hne : bytes s <> []). { intros E. apply Hn. by apply bytes_inj. }
  split.
  - destruct (bytes s) as [|b t] eqn:E; [done|]. exists b, t. split; [done|].
    eapply trim_bytes_head. exact H.
  - destruct (bytes s) as [|b t _] using rev_ind; [done|]. exists b, t. split; [done|].
    eapply trim_bytes_last. exact H.
Qed.
