(* ===== verification/GoFloat.v ===== *)
(** * GoFloat: Go's [float64]

    IEEE 754 binary64 with round to nearest even, through the Standard
    Library's executable [spec_float].  Every value is built by
    [float64_of_int] or by an operation, so it is in the canonical form the
    comparisons expect.  Go may fuse a product into a following sum on some
    architectures; the model is the unfused evaluation, which is what the
    compiler emits for amd64.  A conversion to [int64] of a value out of range
    is implementation defined; the model takes amd64's result. *)

From Stdlib Require Import Floats.SpecFloat.
From stdpp Require Import strings pretty.
From S2P Require Import Prelude GoString.
Local Open Scope string_scope.
Local Open Scope list_scope.
Local Open Scope Z_scope.

Definition float64 := spec_float.

Definition prec : Z := 53.
Definition emax : Z := 1024.

(** [float64(n)] of an integer. *)
Definition float64_of_int (n : Z) : float64 := binary_normalize prec emax n 0 false.

Definition fadd (x y : float64) : float64 := SFadd prec emax x y.
Definition fmul (x y : float64) : float64 := SFmul prec emax x y.
Definition fdiv (x y : float64) : float64 := SFdiv prec emax x y.

(** The constant [n/100], rounded once as the compiler does. *)
Definition hundredths (n : Z) : float64 := fdiv (float64_of_int n) (float64_of_int 100).

Definition f0 : float64 := S754_zero false.
Definition f1 : float64 := float64_of_int 1.

Definition fltb (x y : float64) : bool := SFltb x y.
Definition fleb (x y : float64) : bool := SFleb x y.
Definition fgtb (x y : float64) : bool := SFltb y x.
Definition feqb (x y : float64) : bool := SFeqb x y.

(** The magnitude of [m * 2^e] rounded half away from zero. *)
Definition round_half_away (m : positive) (e : Z) : Z :=
  if 0 <=? e then Z.pos m * 2 ^ e
  else (Z.pos m + 2 ^ (- e - 1)) / 2 ^ (- e).

(** [int64(math.Round(x))]. *)
Definition int64_of_round (x : float64) : Z :=
  let indefinite := - 2 ^ 63 in
  match x with
  | S754_zero _ => 0
  | S754_finite s m e =>
      let r := round_half_away m e in
      let r := if s then - r else r in
      if bool_decide (in_int64 r) then r else indefinite
  | S754_infinity _ | S754_nan => indefinite
  end.

(** The verb [%.2f]: the exact value in hundredths, ties to even. *)
Definition hundredths_even (m : positive) (e : Z) : Z :=
  let n := Z.pos m * 100 in
  if 0 <=? e then n * 2 ^ e
  else
    let d := 2 ^ (- e) in
    let q := n / d in
    let r := n mod d in
    if 2 * r <? d then q
    else if d <? 2 * r then q + 1
    else if Z.even q then q else q + 1.

Definition show_hundredths (n : Z) : string :=
  show_Z (n / 100) +:+ "." +:+ show_02d (n mod 100).

Definition show_2f (x : float64) : string :=
  match x with
  | S754_zero s => (if s then "-" else "") +:+ "0.00"
  | S754_finite s m e => (if s then "-" else "") +:+ show_hundredths (hundredths_even m e)
  | S754_infinity s => if s then "-Inf" else "+Inf"
  | S754_nan => "NaN"
  end.

(** ** Sanity checks on literals *)

Example literal_102 : hundredths 102 = S754_finite false 4593671619917906 (-52).
Proof. vm_compute. reflexivity. Qed.
Example print_105 : show_2f (hundredths 105) = "1.05".
Proof. vm_compute. reflexivity. Qed.
Example round_half_up : int64_of_round (fdiv (float64_of_int 5) (float64_of_int 2)) = 3.
Proof. vm_compute. reflexivity. Qed.
Example round_half_down : int64_of_round (fdiv (float64_of_int (-5)) (float64_of_int 2)) = -3.
Proof. vm_compute. reflexivity. Qed.
