(* ===== verification/FloatFacts.v ===== *)
(** * FloatFacts: rounding of binary64 operations

    The facts about [GoFloat] that the scoring theorems use: on non-negative
    finite values, sum, product and quotient give a float nearest to the exact
    result, so that they are monotone in every argument, exact where the result
    is a float, and compared the way their values are.  A value is the integer
    multiple of [2^-scale] it denotes; an exact result is a fraction of two
    integers. *)

From Stdlib Require Import Floats.SpecFloat.
From stdpp Require Import numbers.
From S2P Require Import Prelude GoString GoFloat.
Local Open Scope Z_scope.

(** ** Values *)

(** Small enough that the product of two values is still a multiple of
    [2^-scale]. *)
Definition scale : Z := 2148.

Definition least : Z := SpecFloat.emin prec emax.

(** Non-negative finite floats in canonical form. *)
Definition nneg (x : float64) : Prop :=
  match x with
  | S754_zero false => True
  | S754_finite false m e => bounded prec emax m e = true
  | _ => False
  end.

Definition value (x : float64) : Z :=
  match x with S754_finite false m e => Z.pos m * 2 ^ (e + scale) | _ => 0 end.

(** [x] is as close to [n / d], in units of [2^-scale], as any float. *)
Definition nearest (x : float64) (d n : Z) : Prop :=
  forall f, nneg f -> Z.abs (value x * d - n) <= Z.abs (value f * d - n).

(** ** Powers and digits *)

Lemma pow_pos e : 0 <= e -> 0 < 2 ^ e.
Proof. apply Z.pow_pos_nonneg. lia. Qed.

Lemma pow_split a b : 0 <= a -> 0 <= b -> 2 ^ (a + b) = 2 ^ a * 2 ^ b.
Proof. apply Z.pow_add_r. Qed.

Lemma pow_le a b : a <= b -> 2 ^ a <= 2 ^ b.
Proof. apply Z.pow_le_mono_r. lia. Qed.

Lemma digits2_pos_bounds p :
  2 ^ (Z.pos (digits2_pos p) - 1) <= Z.pos p < 2 ^ Z.pos (digits2_pos p).
Proof.
  induction p as [p IH|p IH|]; cbn [digits2_pos]; [| |cbn; lia];
    rewrite Pos2Z.inj_succ;
    replace (2 ^ (Z.succ (Z.pos (digits2_pos p)) - 1)) with (2 * 2 ^ (Z.pos (digits2_pos p) - 1))
      by (rewrite <- Z.pow_succ_r by lia; f_equal; lia);
    rewrite Z.pow_succ_r by lia; lia.
Qed.

Lemma Zdigits2_bounds m : 0 < m -> 1 <= Zdigits2 m /\ 2 ^ (Zdigits2 m - 1) <= m < 2 ^ Zdigits2 m.
Proof. destruct m as [|p|p]; [lia| |lia]. intros _. split; [cbn; lia|apply digits2_pos_bounds]. Qed.

Lemma Zdigits2_nonneg m : 0 <= Zdigits2 m.
Proof. by destruct m. Qed.

(** The digits are determined by the bounds. *)
Lemma Zdigits2_le m d : 0 <= m -> 0 <= d -> m < 2 ^ d -> Zdigits2 m <= d.
Proof.
  intros H0 Hd H. destruct (decide (m = 0)) as [->|]; [done|].
  destruct (Zdigits2_bounds m) as [? [? _]]; [lia|].
  destruct (Z.le_gt_cases (Zdigits2 m) d); [done|].
  pose proof (pow_le d (Zdigits2 m - 1)). lia.
Qed.

Lemma Zdigits2_ge m d : 2 ^ (d - 1) <= m -> 0 < m -> d <= Zdigits2 m.
Proof.
  intros H H0. destruct (Zdigits2_bounds m) as [? [_ ?]]; [done|].
  destruct (Z.le_gt_cases d (Zdigits2 m)); [done|].
  pose proof (pow_le (Zdigits2 m) (d - 1)). lia.
Qed.

Lemma fexp_spec e : SpecFloat.fexp prec emax e = Z.max (e - prec) least.
Proof. done. Qed.

(** What canonical form means. *)
Lemma bounded_spec m e :
  bounded prec emax m e = true <->
  e = SpecFloat.fexp prec emax (Zdigits2 (Z.pos m) + e) /\ e <= emax - prec.
Proof.
  unfold bounded, canonical_mantissa. cbn [Zdigits2]. rewrite andb_true_iff, Z.eqb_eq, Z.leb_le.
  intuition congruence.
Qed.

Lemma bounded_facts m e :
  bounded prec emax m e = true ->
  Z.pos m < 2 ^ 53 /\ -1074 <= e <= 971 /\ (-1074 < e -> 2 ^ 52 <= Z.pos m).
Proof.
  rewrite bounded_spec, fexp_spec. change prec with 53. change emax with 1024. change least with (-1074).
  intros [He Hle]. destruct (Zdigits2_bounds (Z.pos m)) as [? [Hlo Hhi]]; [lia|].
  split_and!; [|lia|lia|].
  - pose proof (pow_le (Zdigits2 (Z.pos m)) 53). lia.
  - intros. pose proof (pow_le 52 (Zdigits2 (Z.pos m) - 1)). lia.
Qed.

Lemma value_nonneg x : 0 <= value x.
Proof. destruct x as [| | |[] m e]; cbn [value]; lia. Qed.

(** ** Shifting *)

(** The number [n] lies in the unit interval [[m, m+1)], in steps of [u], where
    the two bits of the record say: at the start, in the first half, in the
    middle or in the second half. *)
Definition located (r : shr_record) (u n : Z) : Prop :=
  let '(Build_shr_record m half rest) := r in
  match half, rest with
  | false, false => n = m * u
  | false, true => m * u < n /\ 2 * n < (2 * m + 1) * u
  | true, false => 2 * n = (2 * m + 1) * u
  | true, true => (2 * m + 1) * u < 2 * n /\ n < (m + 1) * u
  end.

Lemma shr_1_bits m half rest :
  0 <= m -> exists m' b, shr_1 (Build_shr_record m half rest) = Build_shr_record m' b (half || rest) /\
    m = 2 * m' + Z.b2z b /\ m' = m / 2.
Proof.
  intros Hm. exists (m / 2), (Z.odd m). split_and!; [|by rewrite <- Z.div2_div; apply Z.div2_odd|done].
  rewrite <- Z.div2_div. destruct m as [|[p|p|]|p]; [done..|lia].
Qed.

Lemma shr_1_located r u n :
  0 < u -> 0 <= shr_m r -> located r u n ->
  located (shr_1 r) (2 * u) n /\ shr_m (shr_1 r) = shr_m r / 2.
Proof.
  destruct r as [m half rest]. cbn [shr_m]. intros Hu Hm H.
  destruct (shr_1_bits m half rest Hm) as (m' & b & -> & E & ->). split; [|done].
  remember (m / 2) as m'. unfold located in *. subst m.
  destruct b, half, rest; cbn [orb Z.b2z] in *; lia.
Qed.

Lemma iter_located r u n p :
  0 < u -> 0 <= shr_m r -> located r u n ->
  located (SpecFloat.iter_pos shr_1 p r) (u * 2 ^ Z.pos p) n /\ shr_m (SpecFloat.iter_pos shr_1 p r) = shr_m r / 2 ^ Z.pos p.
Proof.
  assert (double : forall q (r : shr_record) u, 0 < u -> 0 <= shr_m r -> located r u n ->
    (forall (r : shr_record) u, 0 < u -> 0 <= shr_m r -> located r u n ->
       located (SpecFloat.iter_pos shr_1 q r) (u * 2 ^ Z.pos q) n /\ shr_m (SpecFloat.iter_pos shr_1 q r) = shr_m r / 2 ^ Z.pos q) ->
    located (SpecFloat.iter_pos shr_1 q (SpecFloat.iter_pos shr_1 q r)) (u * 2 ^ Z.pos q~0) n /\
    shr_m (SpecFloat.iter_pos shr_1 q (SpecFloat.iter_pos shr_1 q r)) = shr_m r / 2 ^ Z.pos q~0).
  { intros q r' u' Hu Hm H IH. pose proof (pow_pos (Z.pos q)).
    assert (E : 2 ^ Z.pos q~0 = 2 ^ Z.pos q * 2 ^ Z.pos q) by (rewrite <- Z.pow_add_r by lia; f_equal; lia).
    destruct (IH r' u') as [H1 E1]; [done..|].
    destruct (IH (SpecFloat.iter_pos shr_1 q r') (u' * 2 ^ Z.pos q)) as [H2 E2];
      [nia|rewrite E1; apply Z.div_pos; lia|done|].
    rewrite E, Z.mul_assoc, E2, E1, Z.div_div by lia. done. }
  revert r u. induction p as [p IH|p IH|]; intros r u Hu Hm H; cbn [SpecFloat.iter_pos].
  - destruct (shr_1_located r u n) as [H1 E1]; [done..|].
    destruct (double p (shr_1 r) (2 * u)) as [H2 E2]; [lia|rewrite E1; apply Z.div_pos; lia|done|done|].
    replace (2 ^ Z.pos p~1) with (2 * 2 ^ Z.pos p~0) by (rewrite <- Z.pow_succ_r by lia; f_equal; lia).
    rewrite E2, E1, Z.div_div by lia. split; [|done]. by replace (u * (2 * 2 ^ Z.pos p~0)) with (2 * u * 2 ^ Z.pos p~0) by ring.
  - by apply double.
  - change (2 ^ 1) with 2. rewrite Z.mul_comm. by apply shr_1_located.
Qed.

Lemma shr_located r e k u n :
  0 <= k -> 0 < u -> 0 <= shr_m r -> located r u n ->
  exists r', shr r e k = (r', e + k) /\ located r' (u * 2 ^ k) n /\ shr_m r' = shr_m r / 2 ^ k.
Proof.
  intros Hk Hu Hm H. destruct k as [|p|p]; [| |lia]; cbn [shr]; eexists; (split; [f_equal; lia|]).
  - rewrite Z.mul_1_r, Z.div_1_r. done.
  - by apply iter_located.
Qed.

(** Rounding to the nearer end is off by half a step at most. *)
Lemma round_nearest_even_off r u n :
  0 < u -> located r u n ->
  let m := round_nearest_even (shr_m r) (loc_of_shr_record r) in
  shr_m r <= m <= shr_m r + 1 /\ 2 * Z.abs (m * u - n) <= u /\ shr_m r * u <= n < (shr_m r + 1) * u.
Proof.
  intros Hu. destruct r as [m [] []]; cbn [shr_m loc_of_shr_record round_nearest_even located];
    intros H; try (destruct (Z.even m)); lia.
Qed.

(** ** Rounding *)

(** The largest exact result considered: far from overflow. *)
Definition limit : Z := 2 ^ (1000 + scale).

(** The mantissa and exponent a rounding works with. *)
Lemma first_shift m e l d n :
  0 <= m -> 0 < d -> - scale <= e -> e <= SpecFloat.fexp prec emax (Zdigits2 m + e) ->
  located (shr_record_of_loc m l) (d * 2 ^ (e + scale)) n ->
  exists r E, shr_fexp prec emax m e l = (r, E) /\ E = SpecFloat.fexp prec emax (Zdigits2 m + e) /\
    located r (d * 2 ^ (E + scale)) n /\ 0 <= shr_m r < 2 ^ 53 /\ (-1074 < E -> 2 ^ 52 <= shr_m r).
Proof.
  intros Hm Hd He Hle H. set (E := SpecFloat.fexp prec emax (Zdigits2 m + e)) in *.
  assert (Hs : shr_m (shr_record_of_loc m l) = m) by (by destruct l as [|[]]).
  pose proof (pow_pos (e + scale)).
  destruct (shr_located (shr_record_of_loc m l) e (E - e) (d * 2 ^ (e + scale)) n) as (r & Er & Hr & Mr);
    [lia|nia|lia|done|].
  exists r, E. unfold shr_fexp. fold E. rewrite Er. split; [f_equal; lia|]. split; [done|]. split.
  { replace (E + scale) with (e + scale + (E - e)) by lia. rewrite pow_split, Z.mul_assoc by lia. done. }
  rewrite Mr, Hs. pose proof (pow_pos (E - e)) as Hp. split; [split; [apply Z.div_pos; lia|]|].
  - apply Z.div_lt_upper_bound; [lia|]. rewrite <- pow_split by lia.
    destruct (decide (m = 0)) as [->|]; [lia|]. destruct (Zdigits2_bounds m) as [? [_ Hhi]]; [lia|].
    pose proof (pow_le (Zdigits2 m) (E - e + 53)) as P. unfold E in *. rewrite fexp_spec in *.
    change prec with 53 in *. lia.
  - intros HE. apply Z.div_le_lower_bound; [lia|]. rewrite <- pow_split by lia.
    unfold E in *. rewrite fexp_spec in *. change prec with 53 in *. change least with (-1074) in *.
    assert (0 < m) as Hpos. { destruct (decide (m = 0)) as [->|]; [cbn in *; lia|lia]. }
    destruct (Zdigits2_bounds m Hpos) as [? [Hlo _]].
    pose proof (pow_le (Z.max (Zdigits2 m + e - 53) (-1074) - e + 52) (Zdigits2 m - 1)). lia.
Qed.

(** The last step of a rounding, on the rounded mantissa. *)
Definition finish (m e : Z) : float64 :=
  let '(r, e) := shr_fexp prec emax m e loc_Exact in
  match shr_m r with
  | Z0 => S754_zero false
  | Zpos p => if Z.leb e (Z.sub emax prec) then S754_finite false p e else S754_infinity false
  | _ => S754_nan
  end.

(** It leaves a canonical mantissa as it is, and normalizes one that was
    rounded up to [2^53]. *)
Lemma finish_canonical m e :
  0 <= m < 2 ^ 53 -> -1074 <= e <= 971 -> (-1074 < e -> 2 ^ 52 <= m) ->
  nneg (finish m e) /\ value (finish m e) = m * 2 ^ (e + scale).
Proof.
  intros Hm He Hn.
  assert (F : m = 0 \/ SpecFloat.fexp prec emax (Zdigits2 m + e) = e).
  { destruct (decide (m = 0)) as [|]; [by left|right]. rewrite fexp_spec. change prec with 53. change least with (-1074).
    pose proof (Zdigits2_le m 53). destruct (decide (e = -1074)); [lia|].
    pose proof (Zdigits2_ge m 53). replace (53 - 1) with 52 in * by lia. lia. }
  assert (S : exists e', shr_fexp prec emax m e loc_Exact = (Build_shr_record m false false, e') /\ (0 < m -> e' = e)).
  { unfold shr_fexp. cbn [shr_record_of_loc]. destruct F as [->|F].
    - unfold shr. destruct (_ - e) as [|p|p]; [exists e; split; [done|lia]| |exists e; split; [done|lia]].
      exists (e + Z.pos p). split; [|lia]. f_equal. clear.
      induction p as [p IH|p IH|]; cbn [SpecFloat.iter_pos]; [change (shr_1 _) with (Build_shr_record 0 false false)| |done];
        by rewrite !IH.
    - rewrite F, Z.sub_diag. exists e. done. }
  destruct S as (e' & S & Ee). unfold finish. rewrite S. cbn [shr_m].
  destruct m as [|p|p]; [done| |lia]. rewrite Ee by lia. change (emax - prec) with 971.
  rewrite (proj2 (Z.leb_le e 971)) by lia. split; [|done]. cbn [nneg].
  apply bounded_spec. destruct F as [|F]; [lia|]. change (emax - prec) with 971. split; [done|lia].
Qed.

Lemma finish_carry e : -1074 <= e <= 970 ->
  nneg (finish (2 ^ 53) e) /\ value (finish (2 ^ 53) e) = 2 ^ 53 * 2 ^ (e + scale).
Proof.
  intros He. assert (F : SpecFloat.fexp prec emax (Zdigits2 (2 ^ 53) + e) = e + 1).
  { rewrite fexp_spec. change (Zdigits2 (2 ^ 53)) with 54. change prec with 53. change least with (-1074). lia. }
  assert (S : shr_fexp prec emax (2 ^ 53) e loc_Exact = (Build_shr_record (2 ^ 52) false false, e + 1)).
  { unfold shr_fexp. rewrite F. by replace (e + 1 - e) with 1 by lia. }
  unfold finish. rewrite S. change (2 ^ 52) with (Z.pos (2 ^ 52)). cbn [shr_m].
  change (emax - prec) with 971. rewrite (proj2 (Z.leb_le (e + 1) 971)) by lia. split.
  - apply bounded_spec. rewrite fexp_spec. change (Zdigits2 (Z.pos (2 ^ 52))) with 53.
    change emax with 1024. change prec with 53. change least with (-1074). lia.
  - cbn [value]. replace (e + 1 + scale) with (Z.succ (e + scale)) by lia.
    rewrite Z.pow_succ_r by (unfold scale; lia). change (2 ^ 53) with (Z.pos (2 ^ 52) * 2). lia.
Qed.

(** Every float is a multiple of the step, or below the normal mantissas at
    its exponent. *)
Lemma float_multiple f E :
  nneg f -> -1074 <= E ->
  (exists k, value f = k * 2 ^ (E + scale)) \/ (-1074 < E /\ value f < 2 ^ 52 * 2 ^ (E + scale)).
Proof.
  intros Hf HE. destruct f as [[]| | |[] m e]; try done.
  { left. exists 0. done. }
  destruct (bounded_facts m e Hf) as (Hm & He & _). cbn [value].
  destruct (Z.le_gt_cases E e).
  - left. exists (Z.pos m * 2 ^ (e - E)). rewrite <- Z.mul_assoc, <- pow_split by (unfold scale; lia).
    do 2 f_equal. lia.
  - right. split; [lia|]. replace (E + scale) with (1 + (e + scale) + (E - e - 1)) by lia.
    rewrite (pow_split (1 + _)), (pow_split 1) by (unfold scale; lia).
    pose proof (pow_pos (e + scale)). pose proof (pow_pos (E - e - 1)). unfold scale in *.
    change (2 ^ 53) with (2 ^ 52 * 2) in Hm. nia.
Qed.

(** The multiple of the step within half a step is the nearest float. *)
Lemma nearest_multiple z m m' E d n :
  0 < d -> -1074 <= E -> value z = m * 2 ^ (E + scale) ->
  2 * Z.abs (m * (d * 2 ^ (E + scale)) - n) <= d * 2 ^ (E + scale) ->
  m' * (d * 2 ^ (E + scale)) <= n -> (-1074 < E -> 2 ^ 52 <= m') -> nearest z d n.
Proof.
  intros Hd HE Hz Hoff Hlo Hn f Hf. rewrite Hz.
  assert (0 < 2 ^ (E + scale)) as Hu by (apply pow_pos; unfold scale; lia).
  set (u := 2 ^ (E + scale)) in *. assert (0 < d * u) by nia.
  assert (multiple : forall k, Z.abs (m * u * d - n) <= Z.abs (k * u * d - n)).
  { intros k. replace (m * u * d) with (m * (d * u)) by ring. replace (k * u * d) with (k * (d * u)) by ring.
    set (w := d * u) in *. destruct (Z.lt_trichotomy k m) as [|[->|]]; [|lia|]; nia. }
  destruct (float_multiple f E Hf HE) as [[k ->]|[HE' Hlt]]; [apply multiple|].
  etransitivity; [apply (multiple (2 ^ 52))|]. specialize (Hn HE'). fold u in Hlt.
  set (c := 2 ^ 52) in *. assert (c * u * d <= n) by nia. assert (value f * d <= c * u * d) by nia. lia.
Qed.

(** Rounding a located number gives the float nearest to it. *)
Theorem round_aux_nearest m e l d n :
  0 <= m -> 0 < d -> - scale <= e -> e <= SpecFloat.fexp prec emax (Zdigits2 m + e) ->
  located (shr_record_of_loc m l) (d * 2 ^ (e + scale)) n -> n <= d * limit ->
  let z := binary_round_aux prec emax false m e l in nneg z /\ nearest z d n.
Proof.
  intros Hm Hd He Hle Hloc Hlim.
  destruct (first_shift m e l d n) as (r & E & Er & EE & Hr & Mr & Hn); [done..|].
  assert (HE : -1074 <= E) by (rewrite EE, fexp_spec; change least with (-1074); lia).
  assert (0 < d * 2 ^ (E + scale)) as Hu.
  { assert (0 < 2 ^ (E + scale)) by (apply pow_pos; unfold scale; lia). nia. }
  destruct (round_nearest_even_off r (d * 2 ^ (E + scale)) n) as (Hm' & Hoff & Hin); [done..|].
  set (m' := round_nearest_even (shr_m r) (loc_of_shr_record r)) in *.
  change (binary_round_aux prec emax false m e l) with
    (let '(mrs', e') := shr_fexp prec emax m e l in
     finish (round_nearest_even (shr_m mrs') (loc_of_shr_record mrs')) e').
  rewrite Er. fold m'.
  assert (HE' : E <= 970).
  { destruct (Z.le_gt_cases E (-1074)); [lia|]. specialize (Hn ltac:(lia)).
    destruct (Z.le_gt_cases E 970); [done|].
    assert (P : limit < 2 ^ 52 * 2 ^ (E + scale)).
    { unfold limit. rewrite <- pow_split by (unfold scale; lia). apply Z.pow_lt_mono_r; unfold scale; lia. }
    nia. }
  assert (F : nneg (finish m' E) /\ value (finish m' E) = m' * 2 ^ (E + scale)).
  { destruct (decide (m' = 2 ^ 53)) as [->|]; [apply finish_carry; lia|].
    apply finish_canonical; [lia|lia|]. intros. specialize (Hn ltac:(lia)). lia. }
  destruct F as [F1 F2]. split; [done|]. destruct Hin as [Hin _]. by apply (nearest_multiple _ m' (shr_m r) E).
Qed.

(** ** Consequences of being nearest *)

(** Larger exact results have larger floats. *)
Lemma nearest_mono x y d n d' n' :
  0 < d -> 0 < d' -> nneg x -> nneg y -> nearest x d n -> nearest y d' n' ->
  n * d' < n' * d -> value x <= value y.
Proof.
  intros Hd Hd' Hx Hy Nx Ny H. destruct (Z.le_gt_cases (value x) (value y)) as [|Hlt]; [done|].
  specialize (Nx y Hy). specialize (Ny x Hx). exfalso.
  assert ((value x + value y) * d <= 2 * n) by nia.
  assert (2 * n' <= (value x + value y) * d') by nia. nia.
Qed.

(** A float next to the exact result stays on its side. *)
Lemma nearest_le x f d n :
  0 < d -> nneg x -> nneg f -> nearest x d n -> n <= value f * d -> value x <= value f.
Proof.
  intros Hd Hx Hf N H. specialize (N f Hf).
  destruct (Z.le_gt_cases (value x) (value f)) as [|Hlt]; [done|]. nia.
Qed.

Lemma nearest_ge x f d n :
  0 < d -> nneg x -> nneg f -> nearest x d n -> value f * d <= n -> value f <= value x.
Proof.
  intros Hd Hx Hf N H. specialize (N f Hf).
  destruct (Z.le_gt_cases (value f) (value x)) as [|Hlt]; [done|]. nia.
Qed.

(** An exact result that is a float is returned. *)
Lemma nearest_exact x f d n :
  0 < d -> nneg x -> nneg f -> nearest x d n -> n = value f * d -> value x = value f.
Proof.
  intros. apply Z.le_antisymm; [eapply nearest_le|eapply nearest_ge]; try done; lia.
Qed.

(** ** Comparisons *)

(** Canonical floats are ordered by exponent, then by mantissa. *)
Lemma value_lt_exponent m e m' e' :
  bounded prec emax m e = true -> bounded prec emax m' e' = true -> e < e' ->
  Z.pos m * 2 ^ (e + scale) < Z.pos m' * 2 ^ (e' + scale).
Proof.
  intros H H' He. destruct (bounded_facts m e H) as (Hm & Hr & _).
  destruct (bounded_facts m' e' H') as (_ & _ & Hn). specialize (Hn ltac:(lia)).
  replace (e' + scale) with (1 + (e + scale) + (e' - e - 1)) by lia.
  rewrite (pow_split (1 + _)), (pow_split 1) by (unfold scale; lia).
  assert (0 < 2 ^ (e + scale)) by (apply pow_pos; unfold scale; lia).
  assert (0 < 2 ^ (e' - e - 1)) by (apply pow_pos; lia).
  change (2 ^ 1) with 2. assert (Z.pos m < Z.pos m' * 2) by lia.
  set (a := 2 ^ (e + scale)) in *. set (b := 2 ^ (e' - e - 1)) in *.
  assert (Z.pos m * a < Z.pos m' * 2 * a) by (by apply Z.mul_lt_mono_pos_r).
  assert (Z.pos m' * 2 * a * 1 <= Z.pos m' * 2 * a * b) by (apply Z.mul_le_mono_nonneg_l; lia). lia.
Qed.

Lemma value_pos m e : bounded prec emax m e = true -> 0 < Z.pos m * 2 ^ (e + scale).
Proof.
  intros H. destruct (bounded_facts m e H) as (_ & ? & _).
  apply Z.mul_pos_pos; [lia|]. apply pow_pos. unfold scale. lia.
Qed.

Lemma SFcompare_value x y :
  nneg x -> nneg y -> SFcompare x y = Some (value x ?= value y).
Proof.
  intros Hx Hy. destruct x as [[]| | |[] m e]; try done; destruct y as [[]| | |[] m' e']; try done;
    cbn [SFcompare value]; f_equal.
  - symmetry. apply Z.compare_lt_iff. by apply value_pos.
  - symmetry. apply Z.compare_gt_iff. by apply value_pos.
  - symmetry. destruct (Z.compare_spec e e') as [<-|Hlt|Hlt].
    + destruct (bounded_facts _ _ Hx) as (_ & ? & _).
      assert (0 < 2 ^ (e + scale)) by (apply pow_pos; unfold scale; lia).
      change (Pos.compare_cont Eq m m') with (Z.pos m ?= Z.pos m').
      destruct (Z.compare_spec (Z.pos m) (Z.pos m')) as [->| |]; [apply Z.compare_refl| |];
        [apply Z.compare_lt_iff|apply Z.compare_gt_iff]; by apply Z.mul_lt_mono_pos_r.
    + apply Z.compare_lt_iff. by apply value_lt_exponent.
    + apply Z.compare_gt_iff. by apply value_lt_exponent.
Qed.

Lemma fgtb_value x y : nneg x -> nneg y -> fgtb x y = (value x >? value y).
Proof.
  intros Hx Hy. unfold fgtb, SFltb. rewrite SFcompare_value by done.
  rewrite Z.gtb_ltb. unfold Z.ltb. done.
Qed.

Lemma fleb_value x y : nneg x -> nneg y -> fleb x y = (value x <=? value y).
Proof.
  intros Hx Hy. unfold fleb, SFleb. rewrite SFcompare_value by done. unfold Z.leb. by destruct (_ ?= _).
Qed.

Lemma feqb_value x y : nneg x -> nneg y -> feqb x y = (value x =? value y).
Proof.
  intros Hx Hy. unfold feqb, SFeqb. rewrite SFcompare_value, Z.eqb_compare by done. by destruct (_ ?= _).
Qed.

(** ** Integers *)

Lemma iter_double m d : Z.pos (Pos.iter xO m d) = Z.pos m * 2 ^ Z.pos d.
Proof.
  induction d as [|d IH] using Pos.peano_ind; [cbn; lia|].
  rewrite Pos.iter_succ, Pos2Z.inj_xO, IH, Pos2Z.inj_succ, Z.pow_succ_r by lia. lia.
Qed.

(** Aligning to the left keeps the value. *)
Lemma shl_align_spec m e e' m' e'' :
  shl_align m e e' = (m', e'') ->
  (e' < e /\ e'' = e' /\ Z.pos m' = Z.pos m * 2 ^ (e - e')) \/ (e <= e' /\ m' = m /\ e'' = e).
Proof.
  unfold shl_align. destruct (e' - e) as [|d|d] eqn:E; intros [= <- <-]; [right; lia..|left].
  split; [lia|]. split; [done|]. rewrite iter_double. do 2 f_equal. lia.
Qed.

Lemma shl_align_min m e e' :
  e' <= e -> Z.pos (fst (shl_align m e e')) = Z.pos m * 2 ^ (e - e').
Proof.
  intros H. destruct (shl_align m e e') as [m' e''] eqn:E. cbn [fst].
  apply shl_align_spec in E as [(_ & _ & E)|(? & -> & _)]; [done|].
  replace (e - e') with 0 by lia. lia.
Qed.

(** Digits of a mantissa shifted to the left. *)
Lemma Zdigits2_shift m k : 0 < m -> 0 <= k -> Zdigits2 (m * 2 ^ k) = Zdigits2 m + k.
Proof.
  intros Hm Hk. destruct (Zdigits2_bounds m Hm) as [? [Hlo Hhi]]. pose proof (pow_pos k Hk) as Hp.
  apply Z.le_antisymm.
  - apply Zdigits2_le; [nia|lia|]. rewrite pow_split by lia. nia.
  - apply Zdigits2_ge; [|nia]. replace (Zdigits2 m + k - 1) with (Zdigits2 m - 1 + k) by lia.
    rewrite pow_split by lia. nia.
Qed.

(** Rounding [m * 2^e], for a mantissa of any size. *)
Lemma binary_round_nearest m e :
  -1074 <= e -> Z.pos m * 2 ^ (e + scale) <= limit ->
  let z := binary_round prec emax false m e in nneg z /\ nearest z 1 (Z.pos m * 2 ^ (e + scale)).
Proof.
  intros He Hlim. cbv zeta. unfold binary_round. change (Z.pos (digits2_pos m)) with (Zdigits2 (Z.pos m)).
  destruct (shl_align _ _ _) as [m' e'] eqn:E. apply shl_align_spec in E.
  assert (Ee : -1074 <= e' /\ e' <= SpecFloat.fexp prec emax (Zdigits2 (Z.pos m') + e') /\
               Z.pos m' * 2 ^ (e' + scale) = Z.pos m * 2 ^ (e + scale)).
  { destruct E as [(Hlt & -> & E)|(Hle & -> & ->)]; [|lia].
    set (E' := SpecFloat.fexp prec emax (Zdigits2 (Z.pos m) + e)) in *.
    assert (-1074 <= E') by (unfold E'; rewrite fexp_spec; change least with (-1074); lia).
    rewrite E, Zdigits2_shift by lia.
    replace (Zdigits2 (Z.pos m) + (e - E') + E') with (Zdigits2 (Z.pos m) + e) by lia. fold E'.
    split; [done|]. split; [lia|]. rewrite <- Z.mul_assoc, <- pow_split by (unfold scale; lia).
    do 2 f_equal. lia. }
  destruct Ee as (He' & Hf & Hv). apply round_aux_nearest; [lia|lia|unfold scale; lia|done| |lia].
  cbn [located shr_record_of_loc]. lia.
Qed.

(** A mantissa that fits is not rounded. *)
Lemma representable m e :
  0 <= m < 2 ^ 53 -> -1074 <= e <= 900 -> exists f, nneg f /\ value f = m * 2 ^ (e + scale).
Proof.
  intros Hm He. destruct (decide (m = 0)) as [->|]; [by exists f0|].
  set (E := SpecFloat.fexp prec emax (Zdigits2 m + e)).
  pose proof (Zdigits2_le m 53). destruct (Zdigits2_bounds m) as [? [Hlo _]]; [lia|].
  assert (HE : -1074 <= E <= e).
  { unfold E. rewrite fexp_spec. change least with (-1074). change prec with 53. lia. }
  exists (finish (m * 2 ^ (e - E)) E).
  replace (m * 2 ^ (e + scale)) with (m * 2 ^ (e - E) * 2 ^ (E + scale)).
  - pose proof (pow_pos (e - E)). unfold E in *. rewrite fexp_spec in *.
    change prec with 53 in *. change least with (-1074) in *.
    set (d := Z.max (Zdigits2 m + e - 53) (-1074)) in *.
    apply finish_canonical; [split; [nia|]|lia|].
    + apply (Z.lt_le_trans _ (2 ^ (Zdigits2 m + (e - d)))); [rewrite pow_split by lia|apply pow_le; lia].
      destruct (Zdigits2_bounds m) as [_ [_ ?]]; [lia|]. nia.
    + intros. transitivity (2 ^ (Zdigits2 m - 1 + (e - d))); [apply pow_le; lia|].
      rewrite pow_split by lia. nia.
  - rewrite <- Z.mul_assoc, <- pow_split by (unfold scale; lia). do 2 f_equal. lia.
Qed.

Lemma float64_of_int_value n :
  0 <= n < 2 ^ 53 -> nneg (float64_of_int n) /\ value (float64_of_int n) = n * 2 ^ scale.
Proof.
  intros Hn. destruct n as [|p|p]; [done| |lia].
  destruct (representable (Z.pos p) 0) as (f & Hf & Ef); [lia..|]. change (0 + scale) with scale in Ef.
  assert (Z.pos p * 2 ^ (0 + scale) <= limit).
  { unfold limit. rewrite pow_split by done. change (0 + scale) with scale.
    pose proof (pow_le 53 1000). pose proof (pow_pos scale). unfold scale in *. nia. }
  destruct (binary_round_nearest p 0) as [H1 H2]; [lia|done|]. split; [done|].
  rewrite <- Ef. eapply nearest_exact; [| | |exact H2|]; [lia|done|done|].
  rewrite Ef. change (0 + scale) with scale. lia.
Qed.

(** ** Operations *)

Lemma digits_mul m m' : 0 < m -> 0 < m' -> Zdigits2 m <= Zdigits2 (m * m').
Proof.
  intros. destruct (Zdigits2_bounds m) as [? [? _]]; [done|]. apply Zdigits2_ge; nia.
Qed.

Lemma fmul_nearest x y :
  nneg x -> nneg y -> value x * value y <= 2 ^ scale * limit ->
  nneg (fmul x y) /\ nearest (fmul x y) (2 ^ scale) (value x * value y).
Proof.
  intros Hx Hy Hlim.
  destruct x as [[]| | |[] m e]; try done; destruct y as [[]| | |[] m' e']; try done;
    try (split; [done|]; intros f _; cbn [value fmul SFmul xorb]; lia).
  unfold fmul. cbn [SFmul xorb].
  destruct (bounded_facts _ _ Hx) as (_ & He & Hn). destruct (bounded_facts _ _ Hy) as (_ & He' & Hn').
  rewrite Pos2Z.inj_mul.
  assert (0 < 2 ^ scale) by (by apply pow_pos).
  apply round_aux_nearest; [lia|done|unfold scale; lia| | |done].
  - rewrite fexp_spec. change least with (-1074). change prec with 53.
    destruct (decide (e = -1074)); [destruct (decide (e' = -1074)); [lia|]|].
    + pose proof (digits_mul (Z.pos m') (Z.pos m)). rewrite Z.mul_comm.
      pose proof (Zdigits2_ge (Z.pos m') 53). lia.
    + pose proof (digits_mul (Z.pos m) (Z.pos m')). pose proof (Zdigits2_ge (Z.pos m) 53). lia.
  - cbn [located shr_record_of_loc value].
    transitivity (Z.pos m * Z.pos m' * (2 ^ (e + scale) * 2 ^ (e' + scale))); [ring|].
    rewrite <- !pow_split by (unfold scale; lia). do 2 f_equal. lia.
Qed.

Lemma fadd_nearest x y :
  nneg x -> nneg y -> value x + value y <= limit ->
  nneg (fadd x y) /\ nearest (fadd x y) 1 (value x + value y).
Proof.
  intros Hx Hy Hlim.
  destruct x as [[]| | |[] m e]; try done; destruct y as [[]| | |[] m' e']; try done;
    try (split; [done|]; intros f _; cbn [value fadd SFadd]; lia).
  destruct (bounded_facts _ _ Hx) as (_ & He & _). destruct (bounded_facts _ _ Hy) as (_ & He' & _).
  unfold fadd. cbn [SFadd cond_Zopp]. set (k := Z.min e e').
  assert (E : value (S754_finite false m e) + value (S754_finite false m' e') =
    Z.pos (fst (shl_align m e k) + fst (shl_align m' e' k)) * 2 ^ (k + scale)).
  { rewrite Pos2Z.inj_add, !shl_align_min, Z.mul_add_distr_r, <- !Z.mul_assoc, <- !pow_split
      by (unfold scale; lia).
    cbn [value]. f_equal; do 2 f_equal; lia. }
  rewrite E in *. change (Z.pos ?a + Z.pos ?b) with (Z.pos (a + b)). apply binary_round_nearest; lia.
Qed.

(** The remainder of a division says where in its interval the quotient is. *)
Lemma new_location_located m' q r k :
  0 < m' -> 0 < k -> 0 <= r < m' ->
  located (shr_record_of_loc q (new_location m' r)) (m' * k) ((m' * q + r) * k).
Proof.
  intros Hm Hk Hr. unfold new_location. destruct (Z.even m') eqn:Ev.
  - unfold new_location_even. destruct (Z.eqb_spec r 0) as [->|]; cbn [shr_record_of_loc located]; [lia|].
    destruct (Z.compare_spec (2 * r) m'); cbn [shr_record_of_loc located]; nia.
  - unfold new_location_odd. destruct (Z.eqb_spec r 0) as [->|]; cbn [shr_record_of_loc located]; [lia|].
    assert (2 * r <> m') by (intros <-; by rewrite Z.even_mul in Ev).
    destruct (Z.compare_spec (2 * r + 1) m'); cbn [shr_record_of_loc located]; nia.
Qed.

(** The quotient has about as many digits as its operands say. *)
Lemma digits_div m d m' :
  0 < m' -> 2 ^ (d - 1) <= m -> 0 <= m -> d - Zdigits2 m' <= Zdigits2 (m / m').
Proof.
  intros Hm' Hm H0. destruct (Zdigits2_bounds m' Hm') as [? [_ Hhi]].
  destruct (Z.le_gt_cases (d - Zdigits2 m') 0); [pose proof (Zdigits2_nonneg (m / m')); lia|].
  set (c := d - Zdigits2 m') in *. pose proof (pow_pos (c - 1)).
  assert (2 ^ (c - 1) <= m / m').
  { apply Z.div_le_lower_bound; [done|]. etransitivity; [|exact Hm].
    replace (d - 1) with (Zdigits2 m' + (c - 1)) by lia. rewrite pow_split by lia. nia. }
  apply Zdigits2_ge; lia.
Qed.

Lemma fdiv_nearest x y :
  nneg x -> nneg y -> 0 < value y -> value x * 2 ^ scale <= value y * limit ->
  nneg (fdiv x y) /\ nearest (fdiv x y) (value y) (value x * 2 ^ scale).
Proof.
  intros Hx Hy Hpos Hlim. destruct y as [| | |[] m' e']; try done.
  destruct x as [[]| | |[] m e]; try done.
  { split; [done|]. intros f _. cbn [value fdiv SFdiv xorb]. lia. }
  destruct (bounded_facts _ _ Hx) as (_ & He & _). destruct (bounded_facts _ _ Hy) as (_ & He' & _).
  unfold fdiv. cbn [SFdiv xorb]. unfold SFdiv_core_binary.
  set (E := Z.min _ (e - e')). set (s := e - e' - E).
  assert (Hs : 0 <= s) by lia.
  assert (Es : match s with Z0 => Z.pos m | Zpos _ => Z.shiftl (Z.pos m) s | Zneg _ => 0 end = Z.pos m * 2 ^ s).
  { destruct s as [|p|p] eqn:Hp; [lia| |lia]. by rewrite Z.shiftl_mul_pow2. }
  rewrite Es. pose proof (pow_pos s Hs) as Hp.
  pose proof (Z.div_mod (Z.pos m * 2 ^ s) (Z.pos m') ltac:(lia)) as Hdm.
  pose proof (Z.mod_pos_bound (Z.pos m * 2 ^ s) (Z.pos m') ltac:(lia)) as Hr.
  pose proof (digits_div (Z.pos m * 2 ^ s) (Zdigits2 (Z.pos m) + s) (Z.pos m')) as Hq.
  unfold Z.div, Z.modulo in Hdm, Hr, Hq.
  destruct (Z.div_eucl (Z.pos m * 2 ^ s) (Z.pos m')) as [q r] eqn:Eq.
  destruct (Zdigits2_bounds (Z.pos m)) as [? [Hlo _]]; [lia|].
  specialize (Hq ltac:(lia)). replace (Zdigits2 (Z.pos m) + s - 1) with (Zdigits2 (Z.pos m) - 1 + s) in Hq by lia.
  rewrite pow_split in Hq by lia. specialize (Hq ltac:(nia) ltac:(nia)).
  assert (HE : - scale <= E).
  { unfold E. rewrite fexp_spec. change least with (-1074). unfold scale. lia. }
  apply round_aux_nearest; [nia|done|done| | |done].
  - assert (E <= SpecFloat.fexp prec emax (Zdigits2 (Z.pos m) + e - (Zdigits2 (Z.pos m') + e'))) by (unfold E; lia).
    rewrite fexp_spec in *. lia.
  - cbn [value]. pose proof (pow_pos (e' + scale) ltac:(unfold scale; lia)).
    pose proof (pow_pos (E + scale) ltac:(lia)).
    replace (Z.pos m' * 2 ^ (e' + scale) * 2 ^ (E + scale)) with (Z.pos m' * (2 ^ (e' + scale) * 2 ^ (E + scale))) by ring.
    replace (Z.pos m * 2 ^ (e + scale) * 2 ^ scale) with ((Z.pos m' * q + r) * (2 ^ (e' + scale) * 2 ^ (E + scale))).
    + apply new_location_located; [lia|nia|done].
    + rewrite <- Hdm, <- !Z.mul_assoc, <- !pow_split by (unfold scale in *; lia). do 2 f_equal. lia.
Qed.

(** ** Rounding to an integer *)

(** Half a unit is added before the fraction is dropped. *)
Lemma int64_of_round_value x :
  nneg x -> value x <= 2 ^ 60 * 2 ^ scale ->
  int64_of_round x = (2 * value x + 2 ^ scale) / (2 * 2 ^ scale).
Proof.
  intros Hx Hlim. pose proof (pow_pos scale ltac:(done)) as Hs.
  destruct x as [[]| | |[] m e]; try (destruct Hx; fail).
  { cbn [value int64_of_round]. symmetry. apply Z.div_small. lia. }
  destruct (bounded_facts _ _ Hx) as (_ & He & _). cbn [value int64_of_round] in *.
  assert (E : round_half_away m e = (2 * (Z.pos m * 2 ^ (e + scale)) + 2 ^ scale) / (2 * 2 ^ scale)).
  { unfold round_half_away. destruct (Z.leb_spec 0 e).
    - rewrite pow_split by done.
      replace (2 * (Z.pos m * (2 ^ e * 2 ^ scale)) + 2 ^ scale) with (2 ^ scale + Z.pos m * 2 ^ e * (2 * 2 ^ scale)) by ring.
      rewrite Z.div_add, Z.div_small by lia. lia.
    - assert (0 < 2 ^ (e + scale)) by (apply pow_pos; unfold scale; lia).
      assert (0 < 2 ^ (- e)) by (apply pow_pos; lia).
      rewrite <- (Z.div_mul_cancel_r _ (2 ^ (- e)) (2 * 2 ^ (e + scale))) by lia.
      assert (A : 2 ^ (- e) * 2 ^ (e + scale) = 2 ^ scale) by (rewrite <- pow_split by (unfold scale; lia); f_equal; lia).
      assert (B : 2 * 2 ^ (- e - 1) = 2 ^ (- e)) by (rewrite <- Z.pow_succ_r by lia; f_equal; lia).
      f_equal; nia. }
  rewrite E. rewrite bool_decide_eq_true_2; [done|].
  assert (0 <= (2 * (Z.pos m * 2 ^ (e + scale)) + 2 ^ scale) / (2 * 2 ^ scale) <= 2 ^ 60); [|unfold in_int64; lia].
  split; [apply Z.div_pos; lia|]. apply Z.lt_succ_r, Z.div_lt_upper_bound; lia.
Qed.

Lemma int64_of_round_mono x y :
  nneg x -> nneg y -> value x <= value y -> value y <= 2 ^ 60 * 2 ^ scale ->
  0 <= int64_of_round x <= int64_of_round y.
Proof.
  intros Hx Hy Hle Hlim. pose proof (pow_pos scale ltac:(done)). pose proof (value_nonneg x).
  rewrite !int64_of_round_value by (done || lia).
  split; [apply Z.div_pos; lia|]. apply Z.div_le_mono; lia.
Qed.

Lemma int64_of_round_int x n :
  nneg x -> 0 <= n <= 2 ^ 60 -> value x = n * 2 ^ scale -> int64_of_round x = n.
Proof.
  intros Hx Hn E. pose proof (pow_pos scale ltac:(done)).
  rewrite int64_of_round_value, E by (done || nia).
  symmetry. apply (Z.div_unique_pos _ _ _ (2 ^ scale)); lia.
Qed.

(** ** Monotone operations *)

Lemma value_inj x y : nneg x -> nneg y -> value x = value y -> x = y.
Proof.
  intros Hx Hy E. destruct x as [[]| | |[] m e]; try (destruct Hx; fail);
    destruct y as [[]| | |[] m' e']; try (destruct Hy; fail); cbn [value] in E; [done|..].
  - pose proof (value_pos _ _ Hy). lia.
  - pose proof (value_pos _ _ Hx). lia.
  - destruct (Z.lt_trichotomy e e') as [H|[<-|H]].
    + pose proof (value_lt_exponent _ _ _ _ Hx Hy H). lia.
    + destruct (bounded_facts _ _ Hx) as (_ & ? & _).
      apply Z.mul_reg_r in E; [by injection E as ->|].
      pose proof (pow_pos (e + scale) ltac:(unfold scale; lia)). lia.
    + pose proof (value_lt_exponent _ _ _ _ Hy Hx H). lia.
Qed.

Lemma fadd_mono x y x' y' :
  nneg x -> nneg y -> nneg x' -> nneg y' -> value x <= value x' -> value y <= value y' ->
  value x' + value y' <= limit -> value (fadd x y) <= value (fadd x' y').
Proof.
  intros Hx Hy Hx' Hy' Ex Ey Hlim.
  destruct (fadd_nearest x y) as [? N]; [done|done|lia|].
  destruct (fadd_nearest x' y') as [? N']; [done..|].
  destruct (decide (value x + value y = value x' + value y')).
  - rewrite (value_inj x x'), (value_inj y y') by (done || lia). done.
  - apply (nearest_mono _ _ 1 (value x + value y) 1 (value x' + value y')); try done; lia.
Qed.

Lemma fmul_mono x y x' y' :
  nneg x -> nneg y -> nneg x' -> nneg y' -> value x <= value x' -> value y <= value y' ->
  value x' * value y' <= 2 ^ scale * limit -> value (fmul x y) <= value (fmul x' y').
Proof.
  intros Hx Hy Hx' Hy' Ex Ey Hlim. pose proof (value_nonneg x). pose proof (value_nonneg y).
  assert (value x * value y <= value x' * value y') by (apply Z.mul_le_mono_nonneg; lia).
  assert (0 < 2 ^ scale) by (by apply pow_pos).
  destruct (fmul_nearest x y) as [? N]; [done|done|lia|].
  destruct (fmul_nearest x' y') as [? N']; [done..|].
  destruct (decide (value x * value y = value x' * value y')) as [E|].
  - destruct (decide (value x * value y = 0)) as [E0|].
    + rewrite (nearest_exact (fmul x y) f0 (2 ^ scale) (value x * value y)) by done. apply value_nonneg.
    + assert (0 < value x /\ 0 < value y) as [? ?] by nia.
      assert (value x' * value y <= value x' * value y') by (apply Z.mul_le_mono_nonneg_l; lia).
      assert (value x = value x') by nia. assert (value y = value y') by nia.
      by rewrite (value_inj x x'), (value_inj y y').
  - eapply nearest_mono; [| | | |exact N|exact N'|]; try done. nia.
Qed.

Lemma fdiv_mono x x' y :
  nneg x -> nneg x' -> nneg y -> 0 < value y -> value x <= value x' ->
  value x' * 2 ^ scale <= value y * limit -> value (fdiv x y) <= value (fdiv x' y).
Proof.
  intros Hx Hx' Hy Hpos Ex Hlim. assert (0 < 2 ^ scale) by (by apply pow_pos).
  destruct (fdiv_nearest x y) as [? N]; [done..|nia|].
  destruct (fdiv_nearest x' y) as [? N']; [done..|].
  destruct (decide (value x = value x')) as [E|].
  - by rewrite (value_inj x x').
  - eapply nearest_mono; [| | | |exact N|exact N'|]; try done.
    apply Z.mul_lt_mono_pos_r; [done|]. nia.
Qed.
