(* ===== verification/Sha256.v ===== *)
(** * Sha256: [crypto/sha256.Sum256] and [hex.EncodeToString]

    FIPS 180-4 on byte lists.  The allocation names of the scheduler plugin
    carry a prefix of the digest. *)

From stdpp Require Import strings list.
From S2P Require Import Prelude GoString.
Local Open Scope string_scope.
Local Open Scope list_scope.
Local Open Scope Z_scope.

(** 32-bit words as [Z] in [0, 2^32). *)
Definition w32 (z : Z) : Z := Z.land z 4294967295.
Definition addw (a b : Z) : Z := w32 (a + b).
Definition rotr (n x : Z) : Z := Z.lor (Z.shiftr x n) (w32 (Z.shiftl x (32 - n))).
Definition notw (x : Z) : Z := Z.lxor x 4294967295.

Definition Ch (x y z : Z) : Z := Z.lxor (Z.land x y) (Z.land (notw x) z).
Definition Maj (x y z : Z) : Z := Z.lxor (Z.lxor (Z.land x y) (Z.land x z)) (Z.land y z).
Definition Sigma0 (x : Z) : Z := Z.lxor (Z.lxor (rotr 2 x) (rotr 13 x)) (rotr 22 x).
Definition Sigma1 (x : Z) : Z := Z.lxor (Z.lxor (rotr 6 x) (rotr 11 x)) (rotr 25 x).
Definition sigma0 (x : Z) : Z := Z.lxor (Z.lxor (rotr 7 x) (rotr 18 x)) (Z.shiftr x 3).
Definition sigma1 (x : Z) : Z := Z.lxor (Z.lxor (rotr 17 x) (rotr 19 x)) (Z.shiftr x 10).

(** The standard derives its constants from the first primes: the first 32
    bits of the fractional parts of their cube roots and square roots. *)
Fixpoint cube_root_below (bits : nat) (n root : Z) : Z :=
  match bits with
  | O => root
  | S b =>
      let next := root + 2 ^ Z.of_nat b in
      cube_root_below b n (if next ^ 3 <=? n then next else root)
  end.

Definition is_prime (n : nat) : bool := forallb (fun d => negb (n mod d =? 0)%nat) (seq 2 (n - 2)).
Definition primes : list Z := Z.of_nat <$> List.filter is_prime (seq 2 310).

Definition cube_root_bits (p : Z) : Z := w32 (cube_root_below 36 (p * 2 ^ 96) 0).
Definition square_root_bits (p : Z) : Z := w32 (Z.sqrt (p * 2 ^ 64)).

Definition K : list Z := Eval vm_compute in cube_root_bits <$> primes.
Definition H0 : list Z := Eval vm_compute in square_root_bits <$> take 8 primes.

(** Big-endian words of a byte list. *)
Fixpoint words (l : list Z) : list Z :=
  match l with
  | a :: b :: c :: d :: rest => (a * 16777216 + b * 65536 + c * 256 + d) :: words rest
  | _ => []
  end.

Definition bytes_of_word (w : Z) : list Z :=
  [Z.shiftr w 24 mod 256; Z.shiftr w 16 mod 256; Z.shiftr w 8 mod 256; w mod 256].

Definition bytes_of_length (n : Z) : list Z :=
  bytes_of_word (Z.shiftr n 32) ++ bytes_of_word (w32 n).

(** The message schedule, latest word first. *)
Fixpoint schedule (n : nat) (rev : list Z) : list Z :=
  match n with
  | O => rev
  | S n =>
      let at_ i := nth i rev 0 in
      schedule n (addw (addw (addw (sigma1 (at_ 1%nat)) (at_ 6%nat)) (sigma0 (at_ 14%nat))) (at_ 15%nat) :: rev)
  end.

Definition round (st : list Z) (kw : Z * Z) : list Z :=
  match st with
  | [a; b; c; d; e; f; g; h] =>
      let t1 := addw (addw (addw (addw h (Sigma1 e)) (Ch e f g)) kw.1) kw.2 in
      let t2 := addw (Sigma0 a) (Maj a b c) in
      [addw t1 t2; a; b; c; addw d t1; e; f; g]
  | _ => st
  end.

Definition block (st : list Z) (ws : list Z) : list Z :=
  let w := reverse (schedule 48 (reverse ws)) in
  zip_with addw st (fold_left round (zip K w) st).

Fixpoint blocks (n : nat) (st : list Z) (ws : list Z) : list Z :=
  match n with
  | O => st
  | S n => blocks n (block st (take 16 ws)) (drop 16 ws)
  end.

Definition padded (msg : list Z) : list Z :=
  let n := Z.of_nat (length msg) in
  msg ++ [128] ++ replicate (Z.to_nat ((55 - n) mod 64)) 0 ++ bytes_of_length (8 * n).

Definition Sum256 (msg : list Z) : list Z :=
  let p := padded msg in
  blocks (length p / 64) H0 (words p) ≫= bytes_of_word.

(** [hex.EncodeToString] *)
Definition hex_digit (n : Z) : Z := if n <? 10 then 48 + n else 87 + n.
Definition EncodeToString (l : list Z) : string :=
  of_bytes (l ≫= fun b => [hex_digit (b / 16); hex_digit (b mod 16)]).

(** ** Test vectors *)

Example sha256_abc : EncodeToString (Sum256 (bytes "abc")) =
  "ba7816bf8f01cfea414140de5dae2223b00361a396177a9cb410ff61f20015ad".
Proof. vm_compute. reflexivity. Qed.
Example sha256_empty : EncodeToString (Sum256 (bytes "")) =
  "e3b0c44298fc1c149afbf4c8996fb92427ae41e4649b934ca495991b7852b855".
Proof. vm_compute. reflexivity. Qed.
Example sha256_two_blocks :
  EncodeToString (Sum256 (bytes "abcdbcdecdefdefgefghfghighijhijkijkljklmklmnlmnomnopnopq")) =
  "248d6a61d20638b8e5c026930c3e6039a33ce45964ff2167f6ecedd419db06c1".
Proof. vm_compute. reflexivity. Qed.

(** ** Lemmas *)

Lemma zip_with_length_min {A B C} (f : A -> B -> C) l k :
  length (zip_with f l k) = Nat.min (length l) (length k).
Proof. revert k. induction l as [|x l IH]; intros [|y k]; cbn; auto. Qed.

Lemma round_length st kw : length st = 8%nat -> length (round st kw) = 8%nat.
Proof. intros H. do 9 (destruct st as [|? st]; [done|]; try done). Qed.

Lemma fold_round_length l st : length st = 8%nat -> length (fold_left round l st) = 8%nat.
Proof. revert st. induction l as [|kw l IH]; intros st H; cbn; [done|]. apply IH. by apply round_length. Qed.

Lemma blocks_length n st ws : length st = 8%nat -> length (blocks n st ws) = 8%nat.
Proof.
  revert st ws. induction n as [|n IH]; intros st ws H; cbn; [done|]. apply IH.
  unfold block. rewrite zip_with_length_min, fold_round_length; lia.
Qed.

Lemma bind_length_const {A B} (f : A -> list B) k l :
  (forall x, length (f x) = k) -> length (l ≫= f) = (length l * k)%nat.
Proof. intros Hf. induction l as [|x l IH]; [done|]. cbn. by rewrite length_app, Hf, IH. Qed.

Lemma Sum256_length msg : length (Sum256 msg) = 32%nat.
Proof. unfold Sum256. rewrite (bind_length_const _ 4) by done. by rewrite blocks_length. Qed.
