(* ===== verification/GoHeap.v ===== *)
(** * GoHeap: Go values in memory

    The other files work on immutable values, where a copy of a value is the
    value.  Here memory is explicit: a struct is a list of named fields, and
    pointers, slices and maps are references to cells of a heap.  [read] gives
    the tree a value denotes, following its references as its type tells, and
    [implements] is what a deep copy promises: the copy denotes the same tree
    in the cells it allocated alone.  The combinators are the statements the
    generated copy functions are made of. *)

From stdpp Require Import strings gmap.
From S2P Require Import Prelude GoString.
Local Open Scope string_scope.
Local Open Scope list_scope.
Local Set Warnings "-register-all".

(** ** Memory *)

Abbreviation loc := positive.

Inductive scalar := SInt (z : Z) | SString (s : string) | SBool (b : bool).

(** A slice is an array, an offset and a length. *)
Inductive gval :=
  | VScalar (s : scalar)
  | VStruct (fields : list (string * gval))
  | VPtr (p : option loc)
  | VSlice (p : option (loc * nat * nat))
  | VMap (p : option loc).

Inductive cell :=
  | CVal (v : gval)
  | CArray (vs : list gval)
  | CMap (kvs : list (string * gval)).

Abbreviation heap := (gmap loc cell).

(** ** Types *)

Inductive kind := KInt32 | KString | KBool.

Definition has_kind (s : scalar) (k : kind) : bool :=
  match s, k with
  | SInt z, KInt32 => bool_decide (in_int32 z)
  | SString _, KString | SBool _, KBool => true
  | _, _ => false
  end.

Inductive gty :=
  | TScalar (k : kind)
  | TStruct (fields : list (string * gty))
  | TPtr (t : gty)
  | TSlice (t : gty)
  | TMap (t : gty).

(** No references inside: assignment copies everything. *)
Fixpoint flat (t : gty) : bool :=
  match t with
  | TScalar _ => true
  | TStruct fs => forallb (fun f => flat f.2) fs
  | _ => false
  end.

Section GtyInd.
Variable P : gty -> Prop.
Hypothesis HScalar : forall k, P (TScalar k).
Hypothesis HStruct : forall fs, Forall (fun f => P f.2) fs -> P (TStruct fs).
Hypothesis HPtr : forall t, P t -> P (TPtr t).
Hypothesis HSlice : forall t, P t -> P (TSlice t).
Hypothesis HMap : forall t, P t -> P (TMap t).

Fixpoint gty_nested_ind (t : gty) : P t :=
  match t with
  | TScalar k => HScalar k
  | TStruct fs => HStruct fs ((fix go fs : Forall (fun f => P f.2) fs :=
      match fs with [] => Forall_nil_2 _ | f :: fs => Forall_cons_2 _ _ _ (gty_nested_ind f.2) (go fs) end) fs)
  | TPtr t => HPtr t (gty_nested_ind t)
  | TSlice t => HSlice t (gty_nested_ind t)
  | TMap t => HMap t (gty_nested_ind t)
  end.
End GtyInd.

(** ** What a value denotes *)

Inductive tree :=
  | LScalar (s : scalar)
  | LStruct (fields : list (string * tree))
  | LNil
  | LPtr (t : tree)
  | LSlice (ts : list tree)
  | LMap (kvs : list (string * tree)).

(** The fields of a struct, in their order and with their names. *)
Fixpoint read_fields (fs : list (string * (gval -> option tree))) (vs : list (string * gval))
    : option (list (string * tree)) :=
  match fs, vs with
  | [], [] => Some []
  | (name, rd) :: fs, (name', v) :: vs =>
      if decide (name = name') then
        t ← rd v; ts ← read_fields fs vs; Some ((name, t) :: ts)
      else None
  | _, _ => None
  end.

Fixpoint read (t : gty) (h : heap) (v : gval) {struct t} : option tree :=
  match t, v with
  | TScalar k, VScalar s => if has_kind s k then Some (LScalar s) else None
  | TStruct fs, VStruct vs => LStruct <$> read_fields (map (fun f => (f.1, read f.2 h)) fs) vs
  | TPtr _, VPtr None | TSlice _, VSlice None | TMap _, VMap None => Some LNil
  | TPtr t, VPtr (Some l) =>
      match h !! l with Some (CVal v) => LPtr <$> read t h v | _ => None end
  | TSlice t, VSlice (Some (l, off, n)) =>
      match h !! l with
      | Some (CArray vs) =>
          if decide (off + n <= length vs)%nat then LSlice <$> mapM (read t h) (take n (drop off vs)) else None
      | _ => None
      end
  | TMap t, VMap (Some l) =>
      match h !! l with
      | Some (CMap kvs) => LMap <$> mapM (fun kv => x ← read t h kv.2; Some (kv.1, x)) kvs
      | _ => None
      end
  | _, _ => None
  end.

(** ** Copy functions *)

(** From a value to its copy; [None] on a value of another type. *)
Definition copier := gval -> heap -> option (gval * heap).

(** Assignment. *)
Definition assign : copier := fun v h => Some (v, h).

Definition alloc (c : cell) (h : heap) : loc * heap :=
  let l := fresh (dom h) in (l, <[l := c]> h).
Arguments alloc _ _ : simpl never.

(** [if in.F != nil { *out = new(T); in.DeepCopyInto(out) }]: the body is
    [assign] for [**out = **in].  The new cell is not reachable before it is
    filled, so the order of the two does not matter. *)
Definition new_copy (body : copier) : copier := fun v h =>
  match v with
  | VPtr None => Some (v, h)
  | VPtr (Some l) =>
      match h !! l with
      | Some (CVal x) =>
          '(x', h) ← body x h;
          let '(l', h) := alloc (CVal x') h in Some (VPtr (Some l'), h)
      | _ => None
      end
  | _ => None
  end.

(** The loop over the elements. *)
Fixpoint copy_elements (body : copier) (vs : list gval) (h : heap) : option (list gval * heap) :=
  match vs with
  | [] => Some ([], h)
  | v :: vs =>
      '(v', h) ← body v h;
      '(vs', h) ← copy_elements body vs h;
      Some (v' :: vs', h)
  end.

(** [if in.F != nil { *out = make([]T, len); for i := range in { ... } }]:
    the body is [assign] for the builtin [copy]. *)
Definition make_copy (body : copier) : copier := fun v h =>
  match v with
  | VSlice None => Some (v, h)
  | VSlice (Some (l, off, n)) =>
      match h !! l with
      | Some (CArray vs) =>
          '(vs', h) ← copy_elements body (take n (drop off vs)) h;
          let '(l', h) := alloc (CArray vs') h in Some (VSlice (Some (l', 0%nat, n)), h)
      | _ => None
      end
  | _ => None
  end.

Definition get_field (name : string) (fs : list (string * gval)) : option gval :=
  snd <$> find (fun f => bool_decide (f.1 = name)) fs.

Definition set_field (name : string) (v : gval) (fs : list (string * gval)) : list (string * gval) :=
  map (fun f => if decide (f.1 = name) then (name, v) else f) fs.

(** The statements after [*out = *in], each for one field. *)
Fixpoint run_steps (steps : list (string * copier)) (fs out : list (string * gval)) (h : heap)
    : option (list (string * gval) * heap) :=
  match steps with
  | [] => Some (out, h)
  | (name, c) :: steps =>
      v ← get_field name fs;
      '(v', h) ← c v h;
      run_steps steps fs (set_field name v' out) h
  end.

Definition copy_into (steps : list (string * copier)) : copier := fun v h =>
  match v with
  | VStruct fs => '(out, h) ← run_steps steps fs fs h; Some (VStruct out, h)
  | _ => None
  end.

(** ** What a copy function promises *)

Definition implements (c : copier) (t : gty) : Prop :=
  forall h v x, read t h v = Some x ->
  exists v' fresh_cells, c v h = Some (v', fresh_cells ∪ h) /\ fresh_cells ##ₘ h /\ read t fresh_cells v' = Some x.

(** ** Lemmas: reading *)

Lemma read_fields_mono fs gs vs ts :
  Forall2 (fun f g => f.1 = g.1 /\ forall v t, f.2 v = Some t -> g.2 v = Some t) fs gs ->
  read_fields fs vs = Some ts -> read_fields gs vs = Some ts.
Proof.
  intros HF. revert vs ts. induction HF as [|[n f] [n' g] fs gs [E Hf] HF IH]; intros vs ts; [done|].
  cbn [fst snd] in *. subst n'. destruct vs as [|[m v] vs]; [done|]. cbn [read_fields]. case_decide; [|done].
  intros Hr. destruct (f v) as [t|] eqn:Ef; [|done]. cbn in Hr. rewrite (Hf _ _ Ef). cbn.
  destruct (read_fields fs vs) as [ts'|] eqn:Es; [|done]. by rewrite (IH _ _ Es).
Qed.

Lemma mapM_mono {A B} (f g : A -> option B) l k :
  (forall x y, f x = Some y -> g x = Some y) -> mapM f l = Some k -> mapM g l = Some k.
Proof.
  intros H E. apply mapM_Some. apply mapM_Some in E. eapply Forall2_impl; [exact E|]. auto.
Qed.

(** More memory does not change what a value denotes. *)
Lemma read_mono t h h' v x : h ⊆ h' -> read t h v = Some x -> read t h' v = Some x.
Proof.
  intros Hs. revert v x. induction t as [k|fs IH|t IH|t IH|t IH] using gty_nested_ind; intros v x H.
  - by destruct v.
  - destruct v as [|vs| | |]; try done. cbn [read] in *.
    destruct (read_fields _ vs) as [ts|] eqn:E in H; [|done]. cbn in H.
    rewrite (read_fields_mono (map (fun f => (f.1, read f.2 h)) fs) _ _ ts); [done| |exact E].
    clear E H. induction IH; constructor; auto.
  - destruct v as [| |[l|]| |]; try done. cbn [read] in *. destruct (h !! l) as [c|] eqn:E; [|done].
    assert (h' !! l = Some c) as -> by exact (lookup_weaken _ _ _ _ E Hs). destruct c; try done.
    destruct (read t h v) as [y|] eqn:Ey; [|done]. by rewrite (IH _ _ Ey).
  - destruct v as [| | |[[[l off] n]|]|]; try done. cbn [read] in *. destruct (h !! l) as [c|] eqn:E; [|done].
    assert (h' !! l = Some c) as -> by exact (lookup_weaken _ _ _ _ E Hs). destruct c; try done. case_decide; [|done].
    destruct (mapM (read t h) _) as [ys|] eqn:Ey; [|done]. by rewrite (mapM_mono _ _ _ _ IH Ey).
  - destruct v as [| | | |[l|]]; try done. cbn [read] in *. destruct (h !! l) as [c|] eqn:E; [|done].
    assert (h' !! l = Some c) as -> by exact (lookup_weaken _ _ _ _ E Hs). destruct c; try done.
    destruct (mapM _ kvs) as [ys|] eqn:Ey in H; [|done].
    erewrite mapM_mono; [exact H| |exact Ey].
    intros [k v] y. cbn. destruct (read t h v) as [z|] eqn:Ez; [|done]. by rewrite (IH _ _ Ez).
Qed.

(** A flat value needs no memory. *)
Lemma read_flat t h h' v : flat t = true -> read t h v = read t h' v.
Proof.
  revert v. induction t as [k|fs IH|t IH|t IH|t IH] using gty_nested_ind; intros v Hf; try done.
  destruct v as [|vs| | |]; try done. cbn [read]. f_equal. cbn [flat] in Hf. revert vs.
  induction IH as [|[n t] fs Ht IH IHF]; [done|]. intros vs. cbn [forallb] in Hf. apply andb_prop in Hf as [Hf1 Hf2].
  destruct vs as [|[m v] vs]; [done|]. cbn [map read_fields fst snd]. case_decide; [|done].
  cbn [snd] in Ht. rewrite (Ht v Hf1), (IHF Hf2 vs). done.
Qed.

(** ** Lemmas: the combinators keep the promise *)

Lemma implements_assign t : flat t = true -> implements assign t.
Proof.
  intros Hf h v x Hr. exists v, ∅. rewrite (left_id_L ∅ (∪)). split; [done|].
  split; [apply map_disjoint_empty_l|]. by rewrite (read_flat t _ h).
Qed.

(** Allocation on top of fresh cells. *)
Lemma alloc_fresh c f h :
  f ##ₘ h -> exists l, alloc c (f ∪ h) = (l, <[l := c]> f ∪ h) /\ f !! l = None /\ <[l := c]> f ##ₘ h.
Proof.
  intros Hd. set (l := fresh (dom (f ∪ h))). exists l.
  assert (Hl : (f ∪ h) !! l = None) by (apply not_elem_of_dom, is_fresh).
  apply lookup_union_None in Hl as [Hf Hh]. split_and!; [|done|by apply map_disjoint_insert_l_2].
  unfold alloc. fold l. by rewrite insert_union_l.
Qed.

Lemma implements_new body t : implements body t -> implements (new_copy body) (TPtr t).
Proof.
  intros Hb h v x Hr. destruct v as [| |[l|]| |]; try done; cbn [read] in Hr.
  - destruct (h !! l) as [[v| |]|] eqn:El; try done. destruct (read t h v) as [y|] eqn:Ey; [|done].
    injection Hr as <-. destruct (Hb h v y Ey) as (v' & f & Ec & Hd & Hy).
    destruct (alloc_fresh (CVal v') f h Hd) as (l' & Ea & Hf & Hd').
    exists (VPtr (Some l')), (<[l' := CVal v']> f). cbn [new_copy]. rewrite El, Ec. cbn. rewrite Ea.
    split; [done|]. split; [done|]. rewrite lookup_insert_eq.
    by rewrite (read_mono t f (<[l' := CVal v']> f) v' y (insert_subseteq _ _ _ Hf) Hy).
  - injection Hr as <-. exists (VPtr None), ∅. rewrite (left_id_L ∅ (∪)).
    split_and!; [done|apply map_disjoint_empty_l|done].
Qed.

Lemma copy_elements_spec body t vs h f xs :
  implements body t -> f ##ₘ h -> mapM (read t h) vs = Some xs ->
  exists vs' f', copy_elements body vs (f ∪ h) = Some (vs', f' ∪ h) /\ f' ##ₘ h /\ f ⊆ f' /\
    mapM (read t f') vs' = Some xs.
Proof.
  intros Hb. revert f xs. induction vs as [|v vs IH]; intros f xs Hd H.
  { injection H as <-. by exists [], f. }
  cbn in H. destruct (read t h v) as [x|] eqn:Ex; [|done]. cbn in H.
  destruct (mapM (read t h) vs) as [xs'|] eqn:Es; [|done]. injection H as <-.
  destruct (Hb (f ∪ h) v x) as (v' & g & Ec & Hg & Hx).
  { eapply read_mono; [|exact Ex]. by apply map_union_subseteq_r. }
  apply map_disjoint_union_r in Hg as [Hgf Hgh].
  destruct (IH (g ∪ f) xs') as (vs' & f' & Ev & Hd' & Hs & Hm); [by apply map_disjoint_union_l_2|done|].
  exists (v' :: vs'), f'. cbn [copy_elements]. rewrite Ec. cbn. rewrite (assoc_L (∪)), Ev. cbn.
  split_and!; [done|done| |].
  - etransitivity; [|exact Hs]. by apply map_union_subseteq_r.
  - cbn. rewrite (read_mono t g f' v' x); [|etransitivity; [apply map_union_subseteq_l|exact Hs]|done].
    cbn. by rewrite Hm.
Qed.

Lemma implements_make body t : implements body t -> implements (make_copy body) (TSlice t).
Proof.
  intros Hb h v x Hr. destruct v as [| | |[[[l off] n]|]|]; try done; cbn [read] in Hr.
  - destruct (h !! l) as [[|vs|]|] eqn:El; try done. case_decide as Hlen; [|done].
    destruct (mapM (read t h) _) as [xs|] eqn:Em; [|done]. injection Hr as <-.
    destruct (copy_elements_spec body t _ h ∅ xs Hb (map_disjoint_empty_l _) Em) as (vs' & f & Ec & Hd & _ & Hm).
    rewrite (left_id_L ∅ (∪)) in Ec.
    destruct (alloc_fresh (CArray vs') f h Hd) as (l' & Ea & Hf & Hd').
    assert (Hl : length vs' = n).
    { apply length_mapM in Hm, Em. rewrite Hm, <- Em, length_take, length_drop. lia. }
    exists (VSlice (Some (l', 0%nat, n))), (<[l' := CArray vs']> f). cbn [make_copy]. rewrite El, Ec. cbn. rewrite Ea.
    split; [done|]. split; [done|]. rewrite lookup_insert_eq, decide_True by lia. rewrite drop_0, take_ge by lia.
    by rewrite (mapM_mono _ _ _ _ (fun v x => read_mono t _ _ v x (insert_subseteq f l' (CArray vs') Hf)) Hm).
  - injection Hr as <-. exists (VSlice None), ∅. rewrite (left_id_L ∅ (∪)).
    split_and!; [done|apply map_disjoint_empty_l|done].
Qed.

(** *** Structs *)

(** The fields of a struct with their types, values and trees. *)
Record row := { row_name : string; row_type : gty; row_value : gval; row_tree : tree }.

Definition row_types (rows : list row) := map (fun r => (row_name r, row_type r)) rows.
Definition row_values (w : row -> gval) (rows : list row) := map (fun r => (row_name r, w r)) rows.
Definition row_trees (rows : list row) := map (fun r => (row_name r, row_tree r)) rows.

Lemma read_fields_rows fs h vs ts :
  read_fields (map (fun f => (f.1, read f.2 h)) fs) vs = Some ts ->
  exists rows, fs = row_types rows /\ vs = row_values row_value rows /\ ts = row_trees rows /\
    Forall (fun r => read (row_type r) h (row_value r) = Some (row_tree r)) rows.
Proof.
  revert vs ts. induction fs as [|[n t] fs IH]; intros [|[m v] vs] ts H; try done.
  { injection H as <-. by exists []. }
  cbn [map read_fields fst snd] in H. case_decide as E; [subst m|done].
  destruct (read t h v) as [x|] eqn:Ex; [|done]. cbn in H. destruct (read_fields _ vs) as [xs|] eqn:Es in H; [|done].
  injection H as <-. destruct (IH _ _ Es) as (rows & -> & -> & -> & HF).
  exists (Build_row n t v x :: rows). split_and!; [done..|]. by constructor.
Qed.

Lemma rows_read_fields h w rows :
  Forall (fun r => read (row_type r) h (w r) = Some (row_tree r)) rows ->
  read_fields (map (fun f => (f.1, read f.2 h)) (row_types rows)) (row_values w rows) = Some (row_trees rows).
Proof.
  induction 1 as [|r rows Hr HF IH]; [done|]. cbn [row_types row_values row_trees map read_fields fst snd].
  rewrite decide_True, Hr by done. cbn. fold (row_types rows) (row_values w rows). by rewrite IH.
Qed.

Lemma get_field_row name rows w :
  NoDup (row_name <$> rows) -> name ∈ row_name <$> rows ->
  exists r, r ∈ rows /\ row_name r = name /\ get_field name (row_values w rows) = Some (w r).
Proof.
  induction rows as [|r rows IH]; intros HN Hin; [by apply elem_of_nil in Hin|].
  cbn [fmap list_fmap] in *. apply NoDup_cons in HN as [_ HN].
  unfold get_field. cbn [row_values map find fst]. destruct (decide (row_name r = name)) as [E|E].
  - rewrite bool_decide_true by done. exists r. split_and!; [apply list_elem_of_here|done|done].
  - rewrite bool_decide_false by done. apply elem_of_cons in Hin as [?|Hin]; [congruence|].
    destruct (IH HN Hin) as (r' & Hr & En & Eg). exists r'. split_and!; [by apply list_elem_of_further|done|done].
Qed.

Lemma set_field_rows name x w rows :
  set_field name x (row_values w rows) =
  row_values (fun r => if decide (row_name r = name) then x else w r) rows.
Proof.
  unfold set_field, row_values. rewrite map_map. apply map_ext. intros r. cbn [fst].
  case_decide as E; [by rewrite E|done].
Qed.

(** The step for a field. *)
Definition step_for (name : string) (steps : list (string * copier)) : option copier :=
  snd <$> find (fun s => bool_decide (s.1 = name)) steps.

(** Every field has a step that copies it or is flat, and no step is for
    another field. *)
Definition steps_cover (steps : list (string * copier)) (fs : list (string * gty)) : Prop :=
  NoDup (fst <$> fs) /\ NoDup (fst <$> steps) /\ Forall (fun s => s.1 ∈ fst <$> fs) steps /\
  Forall (fun f => match step_for f.1 steps with Some c => implements c f.2 | None => flat f.2 = true end) fs.

Lemma step_for_absent name steps : name ∉ fst <$> steps -> step_for name steps = None.
Proof.
  unfold step_for. induction steps as [|[m c] steps IH]; intros H; [done|]. cbn [find fst fmap list_fmap] in *.
  apply not_elem_of_cons in H as [Hne H]. rewrite bool_decide_false by done. auto.
Qed.

Lemma row_unique rows r r' :
  NoDup (row_name <$> rows) -> r ∈ rows -> r' ∈ rows -> row_name r = row_name r' -> r = r'.
Proof.
  induction rows as [|x rows IH]; intros HN Hr Hr' E; [by apply elem_of_nil in Hr|].
  cbn [fmap list_fmap] in HN. apply NoDup_cons in HN as [Hx HN].
  apply elem_of_cons in Hr as [->|Hr], Hr' as [->|Hr']; [done| | |auto].
  - destruct Hx. rewrite E. by apply list_elem_of_fmap_2.
  - destruct Hx. rewrite <- E. by apply list_elem_of_fmap_2.
Qed.

Lemma run_steps_rows steps rows h (copied : list string) w f :
  NoDup (row_name <$> rows) -> NoDup (fst <$> steps) ->
  Forall (fun s => s.1 ∈ row_name <$> rows) steps ->
  Forall (fun r => read (row_type r) h (row_value r) = Some (row_tree r)) rows ->
  Forall (fun r => match step_for (row_name r) steps with
                   | Some c => implements c (row_type r)
                   | None => row_name r ∈ copied \/ flat (row_type r) = true
                   end) rows ->
  f ##ₘ h ->
  Forall (fun r => (row_name r ∈ copied -> read (row_type r) f (w r) = Some (row_tree r)) /\
                   (row_name r ∉ copied -> w r = row_value r)) rows ->
  (forall s, s ∈ steps -> s.1 ∉ copied) ->
  exists w' f', run_steps steps (row_values row_value rows) (row_values w rows) (f ∪ h) =
                  Some (row_values w' rows, f' ∪ h) /\
    f' ##ₘ h /\ Forall (fun r => read (row_type r) f' (w' r) = Some (row_tree r)) rows.
Proof.
  intros HN. revert copied w f. induction steps as [|[name c] steps IH]; intros copied w f HS Hin Hrd Hcov Hd Hw Hnd.
  - exists w, f. split; [done|]. split; [done|]. rewrite Forall_forall in Hrd, Hcov, Hw |- *. intros r Hr.
    destruct (Hw r Hr) as [H1 H2]. destruct (decide (row_name r ∈ copied)) as [Hc|Hc]; [auto|].
    rewrite (H2 Hc). destruct (Hcov r Hr) as [|Hf]; [done|]. rewrite (read_flat _ _ h) by done. auto.
  - cbn [fmap list_fmap fst] in HS. apply NoDup_cons in HS as [Hfresh HS]. apply Forall_cons in Hin as [Hname Hin].
    destruct (get_field_row name rows row_value HN Hname) as (r & Hr & En & Eg).
    assert (Hc : implements c (row_type r)).
    { rewrite Forall_forall in Hcov. specialize (Hcov r Hr). unfold step_for in Hcov. cbn [find fst] in Hcov.
      by rewrite bool_decide_true in Hcov. }
    assert (Hread : read (row_type r) (f ∪ h) (row_value r) = Some (row_tree r)).
    { eapply read_mono; [by apply map_union_subseteq_r|]. rewrite Forall_forall in Hrd. auto. }
    destruct (Hc _ _ _ Hread) as (v' & g & Ec & Hg & Hv). apply map_disjoint_union_r in Hg as [Hgf Hgh].
    cbn [run_steps]. rewrite Eg. cbn. rewrite Ec. cbn. rewrite set_field_rows, (assoc_L (∪)).
    apply (IH (name :: copied)); [done|done|done| |by apply map_disjoint_union_l_2| |].
    + rewrite Forall_forall in Hcov |- *. intros r' Hr'. specialize (Hcov r' Hr'). unfold step_for in Hcov |- *.
      cbn [find fst] in Hcov. destruct (decide (name = row_name r')) as [E|E].
      * fold (step_for (row_name r') steps). rewrite step_for_absent by (by rewrite <- E).
        left. rewrite E. apply list_elem_of_here.
      * rewrite bool_decide_false in Hcov by done. destruct (snd <$> find _ steps); [done|].
        destruct Hcov as [Hcov|]; [left; by apply list_elem_of_further|by right].
    + rewrite Forall_forall in Hw |- *. intros r' Hr'. destruct (Hw r' Hr') as [H1 H2].
      case_decide as E; (split; [intros Hc'|intros Hc'%not_elem_of_cons]).
      * rewrite (row_unique rows r' r) by (done || congruence).
        eapply read_mono; [by apply map_union_subseteq_l|exact Hv].
      * by destruct Hc'.
      * apply elem_of_cons in Hc' as [|Hc']; [done|]. eapply read_mono; [by apply map_union_subseteq_r|auto].
      * apply H2. tauto.
    + intros s Hs [E|Hc']%elem_of_cons; [|by eapply Hnd; [apply list_elem_of_further, Hs|]].
      apply Hfresh. rewrite <- E. by apply list_elem_of_fmap_2.
Qed.

Lemma implements_into steps fs : steps_cover steps fs -> implements (copy_into steps) (TStruct fs).
Proof.
  intros (HN & HS & Hin & Hcov) h v x Hr. destruct v as [|vs| | |]; try done. cbn [read] in Hr.
  destruct (read_fields _ vs) as [ts|] eqn:E in Hr; [|done]. injection Hr as <-.
  apply read_fields_rows in E as (rows & -> & -> & -> & Hrd).
  assert (En : fst <$> row_types rows = row_name <$> rows).
  { unfold row_types. clear. induction rows; [done|]. cbn. by f_equal. }
  rewrite En in HN, Hin.
  destruct (run_steps_rows steps rows h [] row_value ∅) as (w & f & Er & Hd & HF); try done.
  - unfold row_types in Hcov. apply Forall_map in Hcov. eapply Forall_impl; [exact Hcov|]. intros r. cbn [fst snd].
    destruct (step_for (row_name r) steps); auto.
  - apply map_disjoint_empty_l.
  - apply Forall_true. intros r. split; [by intros ?%elem_of_nil|done].
  - intros s _. apply not_elem_of_nil.
  - rewrite (left_id_L ∅ (∪)) in Er. exists (VStruct (row_values w rows)), f.
    cbn [copy_into]. rewrite Er. cbn. split; [done|]. split; [done|].
    by rewrite rows_read_fields.
Qed.

(** A field of a type with its own copy function for pointers:
    [if in.F != nil { *out = in.DeepCopy() }]. *)
Definition unless_nil (c : copier) : copier := fun v h =>
  match v with VPtr None => Some (v, h) | _ => c v h end.

Lemma implements_unless_nil c t : implements c (TPtr t) -> implements (unless_nil c) (TPtr t).
Proof.
  intros Hc h v x Hr. destruct v as [| |[l|]| |]; try done; [by apply Hc|].
  injection Hr as <-. exists (VPtr None), ∅. rewrite (left_id_L ∅ (∪)).
  split_and!; [done|apply map_disjoint_empty_l|done].
Qed.

(** ** What the promise is worth *)

(** Original and copy are the same value and share no memory: both stay what
    they are whatever is written to the cells of the other. *)
Definition isolates (c : copier) (t : gty) : Prop :=
  forall h v x, read t h v = Some x ->
  exists v' h', c v h = Some (v', h') /\ h ⊆ h' /\ read t h' v' = Some x /\
    (forall g, (forall l, l ∉ dom h -> g !! l = h' !! l) -> read t g v' = Some x) /\
    (forall g, (forall l, l ∈ dom h -> g !! l = h !! l) -> read t g v = Some x).

Lemma implements_isolates c t : implements c t -> isolates c t.
Proof.
  intros Hc h v x Hr. destruct (Hc h v x Hr) as (v' & f & Ec & Hd & Hx).
  exists v', (f ∪ h). split; [done|]. split; [by apply map_union_subseteq_r|].
  split; [by eapply read_mono; [apply map_union_subseteq_l|]|]. split.
  - intros g Hg. eapply read_mono; [|exact Hx]. apply map_subseteq_spec. intros l y Hl.
    rewrite Hg; [by apply lookup_union_Some_l|]. apply not_elem_of_dom.
    by eapply map_disjoint_Some_l.
  - intros g Hg. eapply read_mono; [|exact Hr]. apply map_subseteq_spec. intros l y Hl.
    rewrite Hg; [done|]. by eapply elem_of_dom_2.
Qed.

#[export] Hint Resolve implements_assign implements_new implements_make implements_unless_nil : go_copy.
