(* ===== verification/DeepCopy.v ===== *)
(** * DeepCopy: the copies of the API objects

    api/v1alpha1/zz_generated.deepcopy.go, over the memory of [GoHeap]: one
    [DeepCopyInto] and one [DeepCopy] per struct, and [DeepCopyObject] for the
    objects and their lists.  The types of the structs are those of the three
    _types.go files.  The copy functions of the Kubernetes metadata types are
    not part of the repository: they are the operations of the class [MetaV1]
    and their documented behaviour its laws. *)

From stdpp Require Import strings gmap.
From S2P Require Import Prelude GoString GoHeap.
Local Open Scope string_scope.
Local Open Scope list_scope.

(** k8s.io/apimachinery/pkg/apis/meta/v1 *)
Class MetaV1 := {
  TypeMeta_t : gty;
  ObjectMeta_t : gty;
  ListMeta_t : gty;
  Condition_t : gty;
  Time_t : gty;
  ObjectMeta_DeepCopyInto : copier;
  ListMeta_DeepCopyInto : copier;
  Condition_DeepCopyInto : copier;
  (** on pointers *)
  Time_DeepCopy : copier
}.

Class MetaV1Laws `{MetaV1} : Prop := {
  TypeMeta_flat : flat TypeMeta_t = true;
  ObjectMeta_copies : implements ObjectMeta_DeepCopyInto ObjectMeta_t;
  ListMeta_copies : implements ListMeta_DeepCopyInto ListMeta_t;
  Condition_copies : implements Condition_DeepCopyInto Condition_t;
  Time_copies : implements Time_DeepCopy (TPtr Time_t)
}.

(** [DeepCopy]: nil for nil, else a new struct with the fields copied. *)
Definition deep_copy (into : copier) : copier := new_copy into.

(** [DeepCopyObject]: the interface value, nil for a nil pointer. *)
Definition deep_copy_object (c : copier) (v : gval) (h : heap) : option (option gval * heap) :=
  '(v, h) ← c v h;
  Some (match v with VPtr None => None | _ => Some v end, h).

Local Abbreviation int32 := (TScalar KInt32).
Local Abbreviation string_ := (TScalar KString).
Local Abbreviation bool_ := (TScalar KBool).

Section Copies.
Context `{MetaV1}.

(** ** The structs *)

Definition GPUDeviceSpec_t : gty := TStruct [
  ("ID", string_); ("UUID", string_); ("Product", string_); ("MemoryGiB", int32); ("ComputeScore", int32);
  ("MIGEnabled", bool_)].

Definition RuntimeSupports_t : gty := TStruct [
  ("KVCache", bool_); ("TokenThroughput", bool_); ("PrefixCache", bool_); ("ContinuousBatching", bool_);
  ("RequestThrottling", bool_); ("PauseResume", bool_)].

Definition TokenThroughput_t : gty := TStruct [
  ("PrefillTokensPerSecond", int32); ("DecodeTokensPerSecond", int32); ("TotalTokensPerSecond", int32)].

Definition RuntimeCapacity_t : gty := TStruct [
  ("KVCacheGiB", int32); ("MaxConcurrentRequests", int32); ("MaxBatchTokens", int32);
  ("TokenThroughput", TPtr TokenThroughput_t)].

Definition RuntimeSpec_t : gty := TStruct [
  ("Type", string_); ("Supports", TPtr RuntimeSupports_t); ("Capacity", TPtr RuntimeCapacity_t)].

Definition NodeCapabilities_t : gty := TStruct [
  ("Sharing", bool_); ("Borrowing", bool_); ("Reclaim", bool_); ("Throttling", bool_); ("PauseResume", bool_);
  ("Eviction", bool_); ("MIGResize", bool_)].

Definition AINodeResourceProfileSpec_t : gty := TStruct [
  ("NodeName", string_); ("BackendType", string_); ("GPUs", TSlice GPUDeviceSpec_t);
  ("Runtime", TPtr RuntimeSpec_t); ("Capabilities", TPtr NodeCapabilities_t)].

Definition AllocationRef_t : gty := TStruct [
  ("Namespace", string_); ("WorkloadName", string_); ("AllocationName", string_)].

Definition MIGSliceStatus_t : gty := TStruct [
  ("ID", string_); ("UUID", string_); ("Profile", string_); ("MemoryGiB", int32); ("ComputeSlices", int32);
  ("Allocatable", bool_); ("Allocated", bool_); ("AllocatedTo", TPtr AllocationRef_t)].

Definition GPUDeviceStatus_t : gty := TStruct [
  ("ID", string_); ("UUID", string_); ("Allocated", bool_); ("MIGEnabled", bool_);
  ("AllocatedTo", TPtr AllocationRef_t); ("MIGSlices", TSlice MIGSliceStatus_t)].

Definition ResourceSummary_t : gty := TStruct [
  ("GPUCount", int32); ("GPUMemoryGiB", int32); ("KVCacheGiB", int32); ("PrefillTokensPerSecond", int32);
  ("DecodeTokensPerSecond", int32); ("TotalTokensPerSecond", int32)].

Definition HourlyResourceForecast_t : gty := TStruct [
  ("GeneratedAt", TPtr Time_t); ("Timezone", string_); ("ResourceBuckets", TSlice ResourceSummary_t)].

Definition RuntimePressure_t : gty := TStruct [
  ("GPUUtilizationPercent", int32); ("GPUMemoryUtilizationPercent", int32);
  ("KVCacheUtilizationPercent", int32); ("PrefillUtilizationPercent", int32);
  ("DecodeUtilizationPercent", int32); ("QueueDepth", int32); ("TTFTP95Ms", int32); ("TPOTP95Ms", int32);
  ("LatencyP99Ms", int32); ("SLORisk", string_)].

Definition RuntimeStatus_t : gty := TStruct [
  ("Pressure", TPtr RuntimePressure_t)].

Definition TimeWindow_t : gty := TStruct [
  ("Name", string_); ("Start", string_); ("End", string_); ("Timezone", string_)].

Definition WorkloadResourceRequest_t : gty := TStruct [
  ("Required", TPtr ResourceSummary_t); ("Preferred", TPtr ResourceSummary_t); ("Max", TPtr ResourceSummary_t)].

Definition AssignedGPU_t : gty := TStruct [
  ("GPUID", string_); ("MIGSliceID", string_)].

Definition AllocationActions_t : gty := TStruct [
  ("Reclaimable", bool_); ("Throttleable", bool_); ("Pauseable", bool_); ("Evictable", bool_)].

Definition NodeAllocationStatus_t : gty := TStruct [
  ("Name", string_); ("Namespace", string_); ("WorkloadName", string_); ("WorkloadType", string_);
  ("Priority", string_); ("DemandShape", string_); ("TimeWindows", TSlice TimeWindow_t);
  ("ResourceRequest", TPtr WorkloadResourceRequest_t); ("AssignedGPU", TPtr AssignedGPU_t);
  ("Resources", TPtr ResourceSummary_t); ("Current", TPtr ResourceSummary_t);
  ("HourlyForecast", TPtr HourlyResourceForecast_t); ("Actions", TPtr AllocationActions_t); ("Phase", string_)].

Definition AINodeResourceProfileStatus_t : gty := TStruct [
  ("Phase", string_); ("ObservedAt", TPtr Time_t); ("GPUs", TSlice GPUDeviceStatus_t);
  ("Allocatable", TPtr ResourceSummary_t); ("Allocated", TPtr ResourceSummary_t);
  ("Available", TPtr ResourceSummary_t); ("HourlyForecast", TPtr HourlyResourceForecast_t);
  ("Runtime", TPtr RuntimeStatus_t); ("Allocations", TSlice NodeAllocationStatus_t);
  ("Conditions", TSlice Condition_t)].

Definition AINodeResourceProfile_t : gty := TStruct [
  ("TypeMeta", TypeMeta_t); ("ObjectMeta", ObjectMeta_t); ("Spec", AINodeResourceProfileSpec_t);
  ("Status", AINodeResourceProfileStatus_t)].

Definition AINodeResourceProfileList_t : gty := TStruct [
  ("TypeMeta", TypeMeta_t); ("ListMeta", ListMeta_t); ("Items", TSlice AINodeResourceProfile_t)].

Definition KubernetesObjectRef_t : gty := TStruct [
  ("APIVersion", string_); ("Kind", string_); ("Name", string_); ("Namespace", string_)].

Definition WorkloadSLO_t : gty := TStruct [
  ("TTFTP95Ms", int32); ("LatencyP99Ms", int32); ("DeadlineHours", int32)].

Definition WorkloadPolicy_t : gty := TStruct [
  ("AllowBorrowing", bool_); ("AllowReclaimFromLowerPriority", bool_); ("Throttleable", bool_);
  ("Pauseable", bool_); ("Evictable", bool_)].

Definition AIWorkloadProfileSpec_t : gty := TStruct [
  ("WorkloadRef", KubernetesObjectRef_t); ("WorkloadType", string_); ("Priority", string_);
  ("DemandShape", string_); ("TimeWindows", TSlice TimeWindow_t); ("SLO", TPtr WorkloadSLO_t);
  ("Resources", TPtr WorkloadResourceRequest_t); ("Policy", TPtr WorkloadPolicy_t)].

Definition AIWorkloadProfileStatus_t : gty := TStruct [
  ("Phase", string_); ("CurrentWindow", string_); ("SLORisk", string_); ("Conditions", TSlice Condition_t)].

Definition AIWorkloadProfile_t : gty := TStruct [
  ("TypeMeta", TypeMeta_t); ("ObjectMeta", ObjectMeta_t); ("Spec", AIWorkloadProfileSpec_t);
  ("Status", AIWorkloadProfileStatus_t)].

Definition AIWorkloadProfileList_t : gty := TStruct [
  ("TypeMeta", TypeMeta_t); ("ListMeta", ListMeta_t); ("Items", TSlice AIWorkloadProfile_t)].

Definition AllocationWorkloadSpec_t : gty := TStruct [
  ("Name", string_); ("WorkloadRef", KubernetesObjectRef_t); ("SourcePodName", string_);
  ("SourcePodUID", string_); ("WorkloadType", string_); ("Priority", string_); ("DemandShape", string_);
  ("TimeWindows", TSlice TimeWindow_t); ("ResourceRequest", TPtr WorkloadResourceRequest_t);
  ("AssignedGPU", TPtr AssignedGPU_t); ("Resources", TPtr ResourceSummary_t);
  ("Desired", TPtr ResourceSummary_t); ("AllocationType", string_); ("Actions", TPtr AllocationActions_t);
  ("Reason", string_)].

Definition AIResourceAllocationSpec_t : gty := TStruct [
  ("NodeName", string_); ("Workloads", TSlice AllocationWorkloadSpec_t); ("Reason", string_);
  ("WorkloadRef", KubernetesObjectRef_t); ("WorkloadType", string_); ("Priority", string_);
  ("DemandShape", string_); ("TimeWindows", TSlice TimeWindow_t);
  ("ResourceRequest", TPtr WorkloadResourceRequest_t); ("AssignedGPU", TPtr AssignedGPU_t);
  ("Resources", TPtr ResourceSummary_t); ("AllocationType", string_); ("Actions", TPtr AllocationActions_t)].

Definition NodeAllocationLedger_t : gty := TStruct [
  ("Total", TPtr ResourceSummary_t); ("Allocated", TPtr ResourceSummary_t);
  ("Available", TPtr ResourceSummary_t)].

Definition AllocationWorkloadStatus_t : gty := TStruct [
  ("Name", string_); ("WorkloadRef", TPtr KubernetesObjectRef_t); ("SourcePodName", string_);
  ("Phase", string_); ("Priority", string_); ("DemandShape", string_); ("ActiveWindow", bool_);
  ("Desired", TPtr ResourceSummary_t); ("Applied", TPtr ResourceSummary_t);
  ("HourlyForecast", TPtr HourlyResourceForecast_t); ("AssignedGPU", TPtr AssignedGPU_t); ("Action", string_);
  ("Message", string_)].

Definition AIResourceAllocationStatus_t : gty := TStruct [
  ("Phase", string_); ("ObservedAt", TPtr Time_t); ("AppliedAt", TPtr Time_t);
  ("NodeLedger", TPtr NodeAllocationLedger_t); ("Workloads", TSlice AllocationWorkloadStatus_t);
  ("ObservedResources", TPtr ResourceSummary_t); ("Current", TPtr ResourceSummary_t);
  ("HourlyForecast", TPtr HourlyResourceForecast_t); ("Message", string_); ("Conditions", TSlice Condition_t)].

Definition AIResourceAllocation_t : gty := TStruct [
  ("TypeMeta", TypeMeta_t); ("ObjectMeta", ObjectMeta_t); ("Spec", AIResourceAllocationSpec_t);
  ("Status", AIResourceAllocationStatus_t)].

Definition AIResourceAllocationList_t : gty := TStruct [
  ("TypeMeta", TypeMeta_t); ("ListMeta", ListMeta_t); ("Items", TSlice AIResourceAllocation_t)].

(** ** Their copy functions *)

Definition GPUDeviceSpec_DeepCopyInto : copier := copy_into [].

Definition GPUDeviceSpec_DeepCopy : copier := deep_copy GPUDeviceSpec_DeepCopyInto.

Definition RuntimeSupports_DeepCopyInto : copier := copy_into [].

Definition RuntimeSupports_DeepCopy : copier := deep_copy RuntimeSupports_DeepCopyInto.

Definition TokenThroughput_DeepCopyInto : copier := copy_into [].

Definition TokenThroughput_DeepCopy : copier := deep_copy TokenThroughput_DeepCopyInto.

Definition RuntimeCapacity_DeepCopyInto : copier := copy_into [
  ("TokenThroughput", new_copy assign)].

Definition RuntimeCapacity_DeepCopy : copier := deep_copy RuntimeCapacity_DeepCopyInto.

Definition RuntimeSpec_DeepCopyInto : copier := copy_into [
  ("Supports", new_copy assign); ("Capacity", new_copy RuntimeCapacity_DeepCopyInto)].

Definition RuntimeSpec_DeepCopy : copier := deep_copy RuntimeSpec_DeepCopyInto.

Definition NodeCapabilities_DeepCopyInto : copier := copy_into [].

Definition NodeCapabilities_DeepCopy : copier := deep_copy NodeCapabilities_DeepCopyInto.

Definition AINodeResourceProfileSpec_DeepCopyInto : copier := copy_into [
  ("GPUs", make_copy assign); ("Runtime", new_copy RuntimeSpec_DeepCopyInto); ("Capabilities", new_copy assign)].

Definition AINodeResourceProfileSpec_DeepCopy : copier := deep_copy AINodeResourceProfileSpec_DeepCopyInto.

Definition AllocationRef_DeepCopyInto : copier := copy_into [].

Definition AllocationRef_DeepCopy : copier := deep_copy AllocationRef_DeepCopyInto.

Definition MIGSliceStatus_DeepCopyInto : copier := copy_into [
  ("AllocatedTo", new_copy assign)].

Definition MIGSliceStatus_DeepCopy : copier := deep_copy MIGSliceStatus_DeepCopyInto.

Definition GPUDeviceStatus_DeepCopyInto : copier := copy_into [
  ("AllocatedTo", new_copy assign); ("MIGSlices", make_copy MIGSliceStatus_DeepCopyInto)].

Definition GPUDeviceStatus_DeepCopy : copier := deep_copy GPUDeviceStatus_DeepCopyInto.

Definition ResourceSummary_DeepCopyInto : copier := copy_into [].

Definition ResourceSummary_DeepCopy : copier := deep_copy ResourceSummary_DeepCopyInto.

Definition HourlyResourceForecast_DeepCopyInto : copier := copy_into [
  ("GeneratedAt", unless_nil Time_DeepCopy); ("ResourceBuckets", make_copy assign)].

Definition HourlyResourceForecast_DeepCopy : copier := deep_copy HourlyResourceForecast_DeepCopyInto.

Definition RuntimePressure_DeepCopyInto : copier := copy_into [].

Definition RuntimePressure_DeepCopy : copier := deep_copy RuntimePressure_DeepCopyInto.

Definition RuntimeStatus_DeepCopyInto : copier := copy_into [
  ("Pressure", new_copy assign)].

Definition RuntimeStatus_DeepCopy : copier := deep_copy RuntimeStatus_DeepCopyInto.

Definition TimeWindow_DeepCopyInto : copier := copy_into [].

Definition TimeWindow_DeepCopy : copier := deep_copy TimeWindow_DeepCopyInto.

Definition WorkloadResourceRequest_DeepCopyInto : copier := copy_into [
  ("Required", new_copy assign); ("Preferred", new_copy assign); ("Max", new_copy assign)].

Definition WorkloadResourceRequest_DeepCopy : copier := deep_copy WorkloadResourceRequest_DeepCopyInto.

Definition AssignedGPU_DeepCopyInto : copier := copy_into [].

Definition AssignedGPU_DeepCopy : copier := deep_copy AssignedGPU_DeepCopyInto.

Definition AllocationActions_DeepCopyInto : copier := copy_into [].

Definition AllocationActions_DeepCopy : copier := deep_copy AllocationActions_DeepCopyInto.

Definition NodeAllocationStatus_DeepCopyInto : copier := copy_into [
  ("TimeWindows", make_copy assign); ("ResourceRequest", new_copy WorkloadResourceRequest_DeepCopyInto);
  ("AssignedGPU", new_copy assign); ("Resources", new_copy assign); ("Current", new_copy assign);
  ("HourlyForecast", new_copy HourlyResourceForecast_DeepCopyInto); ("Actions", new_copy assign)].

Definition NodeAllocationStatus_DeepCopy : copier := deep_copy NodeAllocationStatus_DeepCopyInto.

Definition AINodeResourceProfileStatus_DeepCopyInto : copier := copy_into [
  ("ObservedAt", unless_nil Time_DeepCopy); ("GPUs", make_copy GPUDeviceStatus_DeepCopyInto);
  ("Allocatable", new_copy assign); ("Allocated", new_copy assign); ("Available", new_copy assign);
  ("HourlyForecast", new_copy HourlyResourceForecast_DeepCopyInto);
  ("Runtime", new_copy RuntimeStatus_DeepCopyInto);
  ("Allocations", make_copy NodeAllocationStatus_DeepCopyInto); ("Conditions", make_copy Condition_DeepCopyInto)].

Definition AINodeResourceProfileStatus_DeepCopy : copier := deep_copy AINodeResourceProfileStatus_DeepCopyInto.

Definition AINodeResourceProfile_DeepCopyInto : copier := copy_into [
  ("TypeMeta", assign); ("ObjectMeta", ObjectMeta_DeepCopyInto);
  ("Spec", AINodeResourceProfileSpec_DeepCopyInto); ("Status", AINodeResourceProfileStatus_DeepCopyInto)].

Definition AINodeResourceProfile_DeepCopy : copier := deep_copy AINodeResourceProfile_DeepCopyInto.

Definition AINodeResourceProfile_DeepCopyObject : gval -> heap -> option (option gval * heap) :=
  deep_copy_object AINodeResourceProfile_DeepCopy.

Definition AINodeResourceProfileList_DeepCopyInto : copier := copy_into [
  ("TypeMeta", assign); ("ListMeta", ListMeta_DeepCopyInto);
  ("Items", make_copy AINodeResourceProfile_DeepCopyInto)].

Definition AINodeResourceProfileList_DeepCopy : copier := deep_copy AINodeResourceProfileList_DeepCopyInto.

Definition AINodeResourceProfileList_DeepCopyObject : gval -> heap -> option (option gval * heap) :=
  deep_copy_object AINodeResourceProfileList_DeepCopy.

Definition KubernetesObjectRef_DeepCopyInto : copier := copy_into [].

Definition KubernetesObjectRef_DeepCopy : copier := deep_copy KubernetesObjectRef_DeepCopyInto.

Definition WorkloadSLO_DeepCopyInto : copier := copy_into [].

Definition WorkloadSLO_DeepCopy : copier := deep_copy WorkloadSLO_DeepCopyInto.

Definition WorkloadPolicy_DeepCopyInto : copier := copy_into [].

Definition WorkloadPolicy_DeepCopy : copier := deep_copy WorkloadPolicy_DeepCopyInto.

Definition AIWorkloadProfileSpec_DeepCopyInto : copier := copy_into [
  ("WorkloadRef", assign); ("TimeWindows", make_copy assign); ("SLO", new_copy assign);
  ("Resources", new_copy WorkloadResourceRequest_DeepCopyInto); ("Policy", new_copy assign)].

Definition AIWorkloadProfileSpec_DeepCopy : copier := deep_copy AIWorkloadProfileSpec_DeepCopyInto.

Definition AIWorkloadProfileStatus_DeepCopyInto : copier := copy_into [
  ("Conditions", make_copy Condition_DeepCopyInto)].

Definition AIWorkloadProfileStatus_DeepCopy : copier := deep_copy AIWorkloadProfileStatus_DeepCopyInto.

Definition AIWorkloadProfile_DeepCopyInto : copier := copy_into [
  ("TypeMeta", assign); ("ObjectMeta", ObjectMeta_DeepCopyInto); ("Spec", AIWorkloadProfileSpec_DeepCopyInto);
  ("Status", AIWorkloadProfileStatus_DeepCopyInto)].

Definition AIWorkloadProfile_DeepCopy : copier := deep_copy AIWorkloadProfile_DeepCopyInto.

Definition AIWorkloadProfile_DeepCopyObject : gval -> heap -> option (option gval * heap) :=
  deep_copy_object AIWorkloadProfile_DeepCopy.

Definition AIWorkloadProfileList_DeepCopyInto : copier := copy_into [
  ("TypeMeta", assign); ("ListMeta", ListMeta_DeepCopyInto); ("Items", make_copy AIWorkloadProfile_DeepCopyInto)].

Definition AIWorkloadProfileList_DeepCopy : copier := deep_copy AIWorkloadProfileList_DeepCopyInto.

Definition AIWorkloadProfileList_DeepCopyObject : gval -> heap -> option (option gval * heap) :=
  deep_copy_object AIWorkloadProfileList_DeepCopy.

Definition AllocationWorkloadSpec_DeepCopyInto : copier := copy_into [
  ("WorkloadRef", assign); ("TimeWindows", make_copy assign);
  ("ResourceRequest", new_copy WorkloadResourceRequest_DeepCopyInto); ("AssignedGPU", new_copy assign);
  ("Resources", new_copy assign); ("Desired", new_copy assign); ("Actions", new_copy assign)].

Definition AllocationWorkloadSpec_DeepCopy : copier := deep_copy AllocationWorkloadSpec_DeepCopyInto.

Definition AIResourceAllocationSpec_DeepCopyInto : copier := copy_into [
  ("Workloads", make_copy AllocationWorkloadSpec_DeepCopyInto); ("WorkloadRef", assign);
  ("TimeWindows", make_copy assign); ("ResourceRequest", new_copy WorkloadResourceRequest_DeepCopyInto);
  ("AssignedGPU", new_copy assign); ("Resources", new_copy assign); ("Actions", new_copy assign)].

Definition AIResourceAllocationSpec_DeepCopy : copier := deep_copy AIResourceAllocationSpec_DeepCopyInto.

Definition NodeAllocationLedger_DeepCopyInto : copier := copy_into [
  ("Total", new_copy assign); ("Allocated", new_copy assign); ("Available", new_copy assign)].

Definition NodeAllocationLedger_DeepCopy : copier := deep_copy NodeAllocationLedger_DeepCopyInto.

Definition AllocationWorkloadStatus_DeepCopyInto : copier := copy_into [
  ("WorkloadRef", new_copy assign); ("Desired", new_copy assign); ("Applied", new_copy assign);
  ("HourlyForecast", new_copy HourlyResourceForecast_DeepCopyInto); ("AssignedGPU", new_copy assign)].

Definition AllocationWorkloadStatus_DeepCopy : copier := deep_copy AllocationWorkloadStatus_DeepCopyInto.

Definition AIResourceAllocationStatus_DeepCopyInto : copier := copy_into [
  ("ObservedAt", unless_nil Time_DeepCopy); ("AppliedAt", unless_nil Time_DeepCopy);
  ("NodeLedger", new_copy NodeAllocationLedger_DeepCopyInto);
  ("Workloads", make_copy AllocationWorkloadStatus_DeepCopyInto); ("ObservedResources", new_copy assign);
  ("Current", new_copy assign); ("HourlyForecast", new_copy HourlyResourceForecast_DeepCopyInto);
  ("Conditions", make_copy Condition_DeepCopyInto)].

Definition AIResourceAllocationStatus_DeepCopy : copier := deep_copy AIResourceAllocationStatus_DeepCopyInto.

Definition AIResourceAllocation_DeepCopyInto : copier := copy_into [
  ("TypeMeta", assign); ("ObjectMeta", ObjectMeta_DeepCopyInto);
  ("Spec", AIResourceAllocationSpec_DeepCopyInto); ("Status", AIResourceAllocationStatus_DeepCopyInto)].

Definition AIResourceAllocation_DeepCopy : copier := deep_copy AIResourceAllocation_DeepCopyInto.

Definition AIResourceAllocation_DeepCopyObject : gval -> heap -> option (option gval * heap) :=
  deep_copy_object AIResourceAllocation_DeepCopy.

Definition AIResourceAllocationList_DeepCopyInto : copier := copy_into [
  ("TypeMeta", assign); ("ListMeta", ListMeta_DeepCopyInto);
  ("Items", make_copy AIResourceAllocation_DeepCopyInto)].

Definition AIResourceAllocationList_DeepCopy : copier := deep_copy AIResourceAllocationList_DeepCopyInto.

Definition AIResourceAllocationList_DeepCopyObject : gval -> heap -> option (option gval * heap) :=
  deep_copy_object AIResourceAllocationList_DeepCopy.

(** ** All of them *)

Definition all_copies : list (copier * gty) :=
  [(GPUDeviceSpec_DeepCopy, GPUDeviceSpec_t); (RuntimeSupports_DeepCopy, RuntimeSupports_t);
   (TokenThroughput_DeepCopy, TokenThroughput_t); (RuntimeCapacity_DeepCopy, RuntimeCapacity_t);
   (RuntimeSpec_DeepCopy, RuntimeSpec_t); (NodeCapabilities_DeepCopy, NodeCapabilities_t);
   (AINodeResourceProfileSpec_DeepCopy, AINodeResourceProfileSpec_t);
   (AllocationRef_DeepCopy, AllocationRef_t); (MIGSliceStatus_DeepCopy, MIGSliceStatus_t);
   (GPUDeviceStatus_DeepCopy, GPUDeviceStatus_t); (ResourceSummary_DeepCopy, ResourceSummary_t);
   (HourlyResourceForecast_DeepCopy, HourlyResourceForecast_t); (RuntimePressure_DeepCopy, RuntimePressure_t);
   (RuntimeStatus_DeepCopy, RuntimeStatus_t); (TimeWindow_DeepCopy, TimeWindow_t);
   (WorkloadResourceRequest_DeepCopy, WorkloadResourceRequest_t); (AssignedGPU_DeepCopy, AssignedGPU_t);
   (AllocationActions_DeepCopy, AllocationActions_t); (NodeAllocationStatus_DeepCopy, NodeAllocationStatus_t);
   (AINodeResourceProfileStatus_DeepCopy, AINodeResourceProfileStatus_t);
   (AINodeResourceProfile_DeepCopy, AINodeResourceProfile_t);
   (AINodeResourceProfileList_DeepCopy, AINodeResourceProfileList_t);
   (KubernetesObjectRef_DeepCopy, KubernetesObjectRef_t); (WorkloadSLO_DeepCopy, WorkloadSLO_t);
   (WorkloadPolicy_DeepCopy, WorkloadPolicy_t); (AIWorkloadProfileSpec_DeepCopy, AIWorkloadProfileSpec_t);
   (AIWorkloadProfileStatus_DeepCopy, AIWorkloadProfileStatus_t);
   (AIWorkloadProfile_DeepCopy, AIWorkloadProfile_t);
   (AIWorkloadProfileList_DeepCopy, AIWorkloadProfileList_t);
   (AllocationWorkloadSpec_DeepCopy, AllocationWorkloadSpec_t);
   (AIResourceAllocationSpec_DeepCopy, AIResourceAllocationSpec_t);
   (NodeAllocationLedger_DeepCopy, NodeAllocationLedger_t);
   (AllocationWorkloadStatus_DeepCopy, AllocationWorkloadStatus_t);
   (AIResourceAllocationStatus_DeepCopy, AIResourceAllocationStatus_t);
   (AIResourceAllocation_DeepCopy, AIResourceAllocation_t);
   (AIResourceAllocationList_DeepCopy, AIResourceAllocationList_t)].

(** The registered kinds. *)
Definition all_objects : list ((gval -> heap -> option (option gval * heap)) * gty) :=
  [(AINodeResourceProfile_DeepCopyObject, AINodeResourceProfile_t);
   (AINodeResourceProfileList_DeepCopyObject, AINodeResourceProfileList_t);
   (AIResourceAllocation_DeepCopyObject, AIResourceAllocation_t);
   (AIResourceAllocationList_DeepCopyObject, AIResourceAllocationList_t);
   (AIWorkloadProfile_DeepCopyObject, AIWorkloadProfile_t);
   (AIWorkloadProfileList_DeepCopyObject, AIWorkloadProfileList_t)].

(** [DeepCopyObject] of a nil pointer is nil; else it is an isolated copy. *)
Definition object_isolates (f : gval -> heap -> option (option gval * heap)) (t : gty) : Prop :=
  forall h v x, read (TPtr t) h v = Some x ->
  exists r h', f v h = Some (r, h') /\
    match r with
    | None => x = LNil /\ h' = h
    | Some v' =>
        h ⊆ h' /\ read (TPtr t) h' v' = Some x /\
        (forall g, (forall l, l ∉ dom h -> g !! l = h' !! l) -> read (TPtr t) g v' = Some x) /\
        (forall g, (forall l, l ∈ dom h -> g !! l = h !! l) -> read (TPtr t) g v = Some x)
    end.

(** ** Lemmas *)

Section Laws.
Context `{!MetaV1Laws}.

#[local] Hint Resolve ObjectMeta_copies ListMeta_copies Condition_copies Time_copies TypeMeta_flat : go_copy.
#[local] Hint Extern 1 (flat _ = true) => first [exact TypeMeta_flat | reflexivity] : go_copy.

(** A struct: its steps cover its fields. *)
Local Ltac copies :=
  apply implements_into; split_and!;
  [apply (bool_decide_unpack _); vm_compute; exact I
  |apply (bool_decide_unpack _); vm_compute; exact I
  |apply (bool_decide_unpack _); vm_compute; exact I
  |repeat (apply Forall_cons; split); try (apply Forall_nil; exact I); cbv beta;
   match goal with |- match step_for ?n ?s with _ => _ end =>
     let r := eval hnf in (step_for n s) in change (step_for n s) with r; cbn [fst snd]; eauto 3 with go_copy end].

Lemma GPUDeviceSpec_copies : implements GPUDeviceSpec_DeepCopyInto GPUDeviceSpec_t.
Proof. copies. Qed.
#[local] Hint Resolve GPUDeviceSpec_copies : go_copy.

Lemma RuntimeSupports_copies : implements RuntimeSupports_DeepCopyInto RuntimeSupports_t.
Proof. copies. Qed.
#[local] Hint Resolve RuntimeSupports_copies : go_copy.

Lemma TokenThroughput_copies : implements TokenThroughput_DeepCopyInto TokenThroughput_t.
Proof. copies. Qed.
#[local] Hint Resolve TokenThroughput_copies : go_copy.

Lemma RuntimeCapacity_copies : implements RuntimeCapacity_DeepCopyInto RuntimeCapacity_t.
Proof. copies. Qed.
#[local] Hint Resolve RuntimeCapacity_copies : go_copy.

Lemma RuntimeSpec_copies : implements RuntimeSpec_DeepCopyInto RuntimeSpec_t.
Proof. copies. Qed.
#[local] Hint Resolve RuntimeSpec_copies : go_copy.

Lemma NodeCapabilities_copies : implements NodeCapabilities_DeepCopyInto NodeCapabilities_t.
Proof. copies. Qed.
#[local] Hint Resolve NodeCapabilities_copies : go_copy.

Lemma AINodeResourceProfileSpec_copies : implements AINodeResourceProfileSpec_DeepCopyInto AINodeResourceProfileSpec_t.
Proof. copies. Qed.
#[local] Hint Resolve AINodeResourceProfileSpec_copies : go_copy.

Lemma AllocationRef_copies : implements AllocationRef_DeepCopyInto AllocationRef_t.
Proof. copies. Qed.
#[local] Hint Resolve AllocationRef_copies : go_copy.

Lemma MIGSliceStatus_copies : implements MIGSliceStatus_DeepCopyInto MIGSliceStatus_t.
Proof. copies. Qed.
#[local] Hint Resolve MIGSliceStatus_copies : go_copy.

Lemma GPUDeviceStatus_copies : implements GPUDeviceStatus_DeepCopyInto GPUDeviceStatus_t.
Proof. copies. Qed.
#[local] Hint Resolve GPUDeviceStatus_copies : go_copy.

Lemma ResourceSummary_copies : implements ResourceSummary_DeepCopyInto ResourceSummary_t.
Proof. copies. Qed.
#[local] Hint Resolve ResourceSummary_copies : go_copy.

Lemma HourlyResourceForecast_copies : implements HourlyResourceForecast_DeepCopyInto HourlyResourceForecast_t.
Proof. copies. Qed.
#[local] Hint Resolve HourlyResourceForecast_copies : go_copy.

Lemma RuntimePressure_copies : implements RuntimePressure_DeepCopyInto RuntimePressure_t.
Proof. copies. Qed.
#[local] Hint Resolve RuntimePressure_copies : go_copy.

Lemma RuntimeStatus_copies : implements RuntimeStatus_DeepCopyInto RuntimeStatus_t.
Proof. copies. Qed.
#[local] Hint Resolve RuntimeStatus_copies : go_copy.

Lemma TimeWindow_copies : implements TimeWindow_DeepCopyInto TimeWindow_t.
Proof. copies. Qed.
#[local] Hint Resolve TimeWindow_copies : go_copy.

Lemma WorkloadResourceRequest_copies : implements WorkloadResourceRequest_DeepCopyInto WorkloadResourceRequest_t.
Proof. copies. Qed.
#[local] Hint Resolve WorkloadResourceRequest_copies : go_copy.

Lemma AssignedGPU_copies : implements AssignedGPU_DeepCopyInto AssignedGPU_t.
Proof. copies. Qed.
#[local] Hint Resolve AssignedGPU_copies : go_copy.

Lemma AllocationActions_copies : implements AllocationActions_DeepCopyInto AllocationActions_t.
Proof. copies. Qed.
#[local] Hint Resolve AllocationActions_copies : go_copy.

Lemma NodeAllocationStatus_copies : implements NodeAllocationStatus_DeepCopyInto NodeAllocationStatus_t.
Proof. copies. Qed.
#[local] Hint Resolve NodeAllocationStatus_copies : go_copy.

Lemma AINodeResourceProfileStatus_copies : implements AINodeResourceProfileStatus_DeepCopyInto AINodeResourceProfileStatus_t.
Proof. copies. Qed.
#[local] Hint Resolve AINodeResourceProfileStatus_copies : go_copy.

Lemma AINodeResourceProfile_copies : implements AINodeResourceProfile_DeepCopyInto AINodeResourceProfile_t.
Proof. copies. Qed.
#[local] Hint Resolve AINodeResourceProfile_copies : go_copy.

Lemma AINodeResourceProfileList_copies : implements AINodeResourceProfileList_DeepCopyInto AINodeResourceProfileList_t.
Proof. copies. Qed.
#[local] Hint Resolve AINodeResourceProfileList_copies : go_copy.

Lemma KubernetesObjectRef_copies : implements KubernetesObjectRef_DeepCopyInto KubernetesObjectRef_t.
Proof. copies. Qed.
#[local] Hint Resolve KubernetesObjectRef_copies : go_copy.

Lemma WorkloadSLO_copies : implements WorkloadSLO_DeepCopyInto WorkloadSLO_t.
Proof. copies. Qed.
#[local] Hint Resolve WorkloadSLO_copies : go_copy.

Lemma WorkloadPolicy_copies : implements WorkloadPolicy_DeepCopyInto WorkloadPolicy_t.
Proof. copies. Qed.
#[local] Hint Resolve WorkloadPolicy_copies : go_copy.

Lemma AIWorkloadProfileSpec_copies : implements AIWorkloadProfileSpec_DeepCopyInto AIWorkloadProfileSpec_t.
Proof. copies. Qed.
#[local] Hint Resolve AIWorkloadProfileSpec_copies : go_copy.

Lemma AIWorkloadProfileStatus_copies : implements AIWorkloadProfileStatus_DeepCopyInto AIWorkloadProfileStatus_t.
Proof. copies. Qed.
#[local] Hint Resolve AIWorkloadProfileStatus_copies : go_copy.

Lemma AIWorkloadProfile_copies : implements AIWorkloadProfile_DeepCopyInto AIWorkloadProfile_t.
Proof. copies. Qed.
#[local] Hint Resolve AIWorkloadProfile_copies : go_copy.

Lemma AIWorkloadProfileList_copies : implements AIWorkloadProfileList_DeepCopyInto AIWorkloadProfileList_t.
Proof. copies. Qed.
#[local] Hint Resolve AIWorkloadProfileList_copies : go_copy.

Lemma AllocationWorkloadSpec_copies : implements AllocationWorkloadSpec_DeepCopyInto AllocationWorkloadSpec_t.
Proof. copies. Qed.
#[local] Hint Resolve AllocationWorkloadSpec_copies : go_copy.

Lemma AIResourceAllocationSpec_copies : implements AIResourceAllocationSpec_DeepCopyInto AIResourceAllocationSpec_t.
Proof. copies. Qed.
#[local] Hint Resolve AIResourceAllocationSpec_copies : go_copy.

Lemma NodeAllocationLedger_copies : implements NodeAllocationLedger_DeepCopyInto NodeAllocationLedger_t.
Proof. copies. Qed.
#[local] Hint Resolve NodeAllocationLedger_copies : go_copy.

Lemma AllocationWorkloadStatus_copies : implements AllocationWorkloadStatus_DeepCopyInto AllocationWorkloadStatus_t.
Proof. copies. Qed.
#[local] Hint Resolve AllocationWorkloadStatus_copies : go_copy.

Lemma AIResourceAllocationStatus_copies : implements AIResourceAllocationStatus_DeepCopyInto AIResourceAllocationStatus_t.
Proof. copies. Qed.
#[local] Hint Resolve AIResourceAllocationStatus_copies : go_copy.

Lemma AIResourceAllocation_copies : implements AIResourceAllocation_DeepCopyInto AIResourceAllocation_t.
Proof. copies. Qed.
#[local] Hint Resolve AIResourceAllocation_copies : go_copy.

Lemma AIResourceAllocationList_copies : implements AIResourceAllocationList_DeepCopyInto AIResourceAllocationList_t.
Proof. copies. Qed.
#[local] Hint Resolve AIResourceAllocationList_copies : go_copy.

Lemma deep_copy_implements into t : implements into t -> isolates (deep_copy into) (TPtr t).
Proof. intros H1. apply implements_isolates. by apply implements_new. Qed.

(** What is copied is a new pointer, or nothing. *)
Lemma deep_copy_object_spec into t : implements into t -> object_isolates (deep_copy_object (deep_copy into)) t.
Proof.
  intros Hi h v x Hr. destruct (deep_copy_implements into t Hi h v x Hr) as (v' & h' & Ec & Hs & Hx & H1 & H2).
  unfold deep_copy_object. rewrite Ec. cbn [mbind option_bind]. destruct v as [| |[l|]| |]; try discriminate Hr.
  - cbn [read] in Hr. destruct (h !! l) as [[y| |]|]; try discriminate Hr.
    destruct (read t h y) as [z|]; [|discriminate Hr]. injection Hr as <-.
    destruct v' as [| |[l'|]| |]; try discriminate Hx. by exists (Some (VPtr (Some l'))), h'.
  - injection Hr as <-. injection Ec as <- <-. by exists None, h.
Qed.

(** C13: every [DeepCopy] of the API is deep: for a value of its type in any
    memory it succeeds, gives a value of the same type that denotes the same
    object, and the two share no memory: whatever is written to the cells of
    one, the other stays what it is.  [DeepCopyObject] does the same for the
    registered kinds and gives a nil interface for a nil pointer. *)
Theorem deep_copies_are_isolated :
  Forall (fun c => isolates c.1 (TPtr c.2)) all_copies /\
  Forall (fun c => object_isolates c.1 c.2) all_objects.
Proof.
  split.
  - unfold all_copies. repeat first [apply Forall_nil_2|apply Forall_cons_2]; cbn [fst snd]; apply deep_copy_implements;
      [apply GPUDeviceSpec_copies|apply RuntimeSupports_copies|apply TokenThroughput_copies|
       apply RuntimeCapacity_copies|apply RuntimeSpec_copies|apply NodeCapabilities_copies|
       apply AINodeResourceProfileSpec_copies|apply AllocationRef_copies|apply MIGSliceStatus_copies|
       apply GPUDeviceStatus_copies|apply ResourceSummary_copies|apply HourlyResourceForecast_copies|
       apply RuntimePressure_copies|apply RuntimeStatus_copies|apply TimeWindow_copies|
       apply WorkloadResourceRequest_copies|apply AssignedGPU_copies|apply AllocationActions_copies|
       apply NodeAllocationStatus_copies|apply AINodeResourceProfileStatus_copies|
       apply AINodeResourceProfile_copies|apply AINodeResourceProfileList_copies|
       apply KubernetesObjectRef_copies|apply WorkloadSLO_copies|apply WorkloadPolicy_copies|
       apply AIWorkloadProfileSpec_copies|apply AIWorkloadProfileStatus_copies|apply AIWorkloadProfile_copies|
       apply AIWorkloadProfileList_copies|apply AllocationWorkloadSpec_copies|
       apply AIResourceAllocationSpec_copies|apply NodeAllocationLedger_copies|
       apply AllocationWorkloadStatus_copies|apply AIResourceAllocationStatus_copies|
       apply AIResourceAllocation_copies|apply AIResourceAllocationList_copies].
  - unfold all_objects. repeat first [apply Forall_nil_2|apply Forall_cons_2]; cbn [fst snd]; apply deep_copy_object_spec;
      [apply AINodeResourceProfile_copies|apply AINodeResourceProfileList_copies|
       apply AIResourceAllocation_copies|apply AIResourceAllocationList_copies|apply AIWorkloadProfile_copies|
       apply AIWorkloadProfileList_copies].
Qed.
End Laws.
End Copies.

(** ** A concrete instance *)

(** Metadata with a slice and a pointer of its own. *)
Definition meta_t : gty := TStruct [("Name", string_); ("Finalizers", TSlice string_)].
Definition meta_copy : copier := copy_into [("Finalizers", make_copy assign)].

#[export] Instance sample_meta : MetaV1 :=
  {| TypeMeta_t := TStruct [("Kind", string_); ("APIVersion", string_)];
     ObjectMeta_t := meta_t; ListMeta_t := meta_t; Condition_t := meta_t; Time_t := int32;
     ObjectMeta_DeepCopyInto := meta_copy; ListMeta_DeepCopyInto := meta_copy;
     Condition_DeepCopyInto := meta_copy; Time_DeepCopy := new_copy assign |}.

Lemma meta_copies : implements meta_copy meta_t.
Proof.
  apply implements_into. split_and!; try (apply (bool_decide_unpack _); vm_compute; exact I).
  repeat (apply Forall_cons; split); [by cbn| |by apply Forall_nil].
  cbn. apply implements_make, implements_assign. done.
Qed.

#[export] Instance sample_meta_laws : MetaV1Laws.
Proof.
  split; [done|apply meta_copies..|]. apply implements_new, implements_assign. done.
Qed.

(** A runtime spec at address 1 whose support flags are at address 2. *)
Definition supports : gval :=
  VStruct [("KVCache", VScalar (SBool true)); ("TokenThroughput", VScalar (SBool true));
           ("PrefixCache", VScalar (SBool false)); ("ContinuousBatching", VScalar (SBool true));
           ("RequestThrottling", VScalar (SBool false)); ("PauseResume", VScalar (SBool false))].
Definition sample_heap : heap :=
  {[ 1%positive := CVal (VStruct [("Type", VScalar (SString "vllm")); ("Supports", VPtr (Some 2%positive));
                                  ("Capacity", VPtr None)]);
     2%positive := CVal supports ]}.

Lemma deep_copies_are_isolated_witness :
  exists x v' h', read (TPtr RuntimeSpec_t) sample_heap (VPtr (Some 1%positive)) = Some x /\
    RuntimeSpec_DeepCopy (VPtr (Some 1%positive)) sample_heap = Some (v', h') /\
    forall g, (forall l, l ∉ dom sample_heap -> g !! l = h' !! l) -> read (TPtr RuntimeSpec_t) g v' = Some x.
Proof.
  destruct deep_copies_are_isolated as [H _].
  assert (Hi : isolates RuntimeSpec_DeepCopy (TPtr RuntimeSpec_t)).
  { apply (proj1 (Forall_forall _ _) H (RuntimeSpec_DeepCopy, RuntimeSpec_t)). 
    unfold all_copies. do 4 apply list_elem_of_further. apply list_elem_of_here. }
  assert (exists x, read (TPtr RuntimeSpec_t) sample_heap (VPtr (Some 1%positive)) = Some x) as [x Hx]
    by (eexists; vm_compute; reflexivity).
  destruct (Hi _ _ _ Hx) as (v' & h' & Ec & _ & _ & Hg & _). exists x, v', h'. split; [exact Hx|]. split; [exact Ec|exact Hg].
Defined.

(** An assignment does not isolate: the pointer is shared. *)
Example assignment_shares :
  let h := {[ 1%positive := CVal (VScalar (SBool true)) ]} in
  exists v' h', assign (VPtr (Some 1%positive)) h = Some (v', h') /\
    read (TPtr bool_) (<[1%positive := CVal (VScalar (SBool false))]> h') v' <> read (TPtr bool_) h' v'.
Proof. intros h. do 2 eexists. split; [reflexivity|]. vm_compute. discriminate. Qed.
