(* ===== verification/ApiTypes.v ===== *)
(** * ApiTypes: the objects of api/v1alpha1

    One [Record] per Go struct with the source's fields, a pointer field as an
    [option], a slice as a [list], a string map as a [gmap] (Go reads a nil
    map as an empty one), an [int32] as a [Z] in the signed 32-bit range.
    The kubebuilder string enumerations stay strings, as in the source, with
    their constants.  [metav1.ObjectMeta] keeps the fields the program reads
    or writes; [metav1.Condition] values are carried around unread and stay
    opaque.  [metav1.Time] is a [Z] (an instant); a zero time is [None]. *)

From stdpp Require Import strings gmap.
From S2P Require Import Prelude.
Local Open Scope string_scope.
Local Open Scope list_scope.
Local Open Scope Z_scope.

(** ** constants.go *)

Definition DemandShapeMixed : string := "mixed".
Definition DemandShapeKVHeavy : string := "kv_heavy".
Definition DemandShapePrefillHeavy : string := "prefill_heavy".
Definition DemandShapeDecodeHeavy : string := "decode_heavy".

Definition WorkloadTypeOnline : string := "online".
Definition WorkloadTypeOffline : string := "offline".
Definition WorkloadTypeHybrid : string := "hybrid".
Definition WorkloadTypeBatch : string := "batch".

Definition WorkloadPriorityCritical : string := "critical".
Definition WorkloadPriorityHigh : string := "high".
Definition WorkloadPriorityMedium : string := "medium".
Definition WorkloadPriorityLow : string := "low".

Definition SLORiskLow : string := "low".
Definition SLORiskMedium : string := "medium".
Definition SLORiskHigh : string := "high".

Definition AllocationActionApply : string := "apply".
Definition AllocationActionThrottle : string := "throttle".
Definition AllocationActionPause : string := "pause".
Definition AllocationActionEvict : string := "evict".

Definition AllocationPhasePending : string := "Pending".
Definition AllocationPhasePendingApply : string := "PendingApply".
Definition AllocationPhaseApplying : string := "Applying".
Definition AllocationPhaseApplied : string := "Applied".
Definition AllocationPhaseMigrating : string := "Migrating".
Definition AllocationPhaseReleased : string := "Released".
Definition AllocationPhaseFailed : string := "Failed".

Definition AllocationTierRequired : string := "required".
Definition AllocationTierPreferred : string := "preferred".
Definition AllocationTierMax : string := "max".
Definition AllocationTierDegraded : string := "degraded".
Definition AllocationTierRejected : string := "rejected".

Definition ResourceGPUCount : string := "gpuCount".
Definition ResourceGPUMemoryGiB : string := "gpuMemoryGiB".
Definition ResourceKVCacheGiB : string := "kvCacheGiB".
Definition ResourcePrefillTokensPerSec : string := "prefillTokensPerSecond".
Definition ResourceDecodeTokensPerSec : string := "decodeTokensPerSecond".
Definition ResourceTotalTokensPerSecond : string := "totalTokensPerSecond".
Definition ResourceBalancedResourceFocus : string := "balanced".

(** groupversion_info.go: [GroupVersion.Group] and [GroupVersion.String()]. *)
Definition GroupVersion_Group : string := "astra.aiinfra.io".
Definition GroupVersion_String : string := "astra.aiinfra.io/v1alpha1".

(** ** Shared structs *)

Definition Time := Z.

Record ObjectMeta := {
  Name : string;
  Namespace : string;
  UID : string;
  Labels : gmap string string;
  Annotations : gmap string string;
  CreationTimestamp : option Time;
  DeletionTimestamp : option Time
}.

Inductive Condition := condition (payload : string).

Record ResourceSummary := {
  GPUCount : Z;
  GPUMemoryGiB : Z;
  KVCacheGiB : Z;
  PrefillTokensPerSecond : Z;
  DecodeTokensPerSecond : Z;
  TotalTokensPerSecond : Z
}.

Record KubernetesObjectRef := {
  ref_APIVersion : string;
  ref_Kind : string;
  ref_Name : string;
  ref_Namespace : string
}.

Record TimeWindow := {
  tw_Name : string;
  tw_Start : string;
  tw_End : string;
  tw_Timezone : string
}.

Record WorkloadSLO := {
  slo_TTFTP95Ms : Z;
  slo_LatencyP99Ms : Z;
  slo_DeadlineHours : Z
}.

Record WorkloadResourceRequest := {
  wrr_Required : option ResourceSummary;
  wrr_Preferred : option ResourceSummary;
  wrr_Max : option ResourceSummary
}.

Record WorkloadPolicy := {
  pol_AllowBorrowing : bool;
  pol_AllowReclaimFromLowerPriority : bool;
  pol_Throttleable : bool;
  pol_Pauseable : bool;
  pol_Evictable : bool
}.

(** ** AIWorkloadProfile *)

Record AIWorkloadProfileSpec := {
  wps_WorkloadRef : KubernetesObjectRef;
  wps_WorkloadType : string;
  wps_Priority : string;
  wps_DemandShape : string;
  wps_TimeWindows : list TimeWindow;
  wps_SLO : option WorkloadSLO;
  wps_Resources : option WorkloadResourceRequest;
  wps_Policy : option WorkloadPolicy
}.

Record AIWorkloadProfileStatus := {
  wpst_Phase : string;
  wpst_CurrentWindow : string;
  wpst_SLORisk : string;
  wpst_Conditions : list Condition
}.

Record AIWorkloadProfile := {
  wp_Meta : ObjectMeta;
  wp_Spec : AIWorkloadProfileSpec;
  wp_Status : AIWorkloadProfileStatus
}.

(** ** AINodeResourceProfile *)

Record GPUDeviceSpec := {
  gds_ID : string;
  gds_UUID : string;
  gds_Product : string;
  gds_MemoryGiB : Z;
  gds_ComputeScore : Z;
  gds_MIGEnabled : bool
}.

Record RuntimeSupports := {
  sup_KVCache : bool;
  sup_TokenThroughput : bool;
  sup_PrefixCache : bool;
  sup_ContinuousBatching : bool;
  sup_RequestThrottling : bool;
  sup_PauseResume : bool
}.

Record TokenThroughput := {
  tt_PrefillTokensPerSecond : Z;
  tt_DecodeTokensPerSecond : Z;
  tt_TotalTokensPerSecond : Z
}.

Record RuntimeCapacity := {
  rc_KVCacheGiB : Z;
  rc_MaxConcurrentRequests : Z;
  rc_MaxBatchTokens : Z;
  rc_TokenThroughput : option TokenThroughput
}.

Record RuntimeSpec := {
  rsp_Type : string;
  rsp_Supports : option RuntimeSupports;
  rsp_Capacity : option RuntimeCapacity
}.

Record NodeCapabilities := {
  cap_Sharing : bool;
  cap_Borrowing : bool;
  cap_Reclaim : bool;
  cap_Throttling : bool;
  cap_PauseResume : bool;
  cap_Eviction : bool;
  cap_MIGResize : bool
}.

Record AINodeResourceProfileSpec := {
  ns_NodeName : string;
  ns_BackendType : string;
  ns_GPUs : list GPUDeviceSpec;
  ns_Runtime : option RuntimeSpec;
  ns_Capabilities : option NodeCapabilities
}.

Record AllocationRef := {
  ar_Namespace : string;
  ar_WorkloadName : string;
  ar_AllocationName : string
}.

Record MIGSliceStatus := {
  mig_ID : string;
  mig_UUID : string;
  mig_Profile : string;
  mig_MemoryGiB : Z;
  mig_ComputeSlices : Z;
  mig_Allocatable : bool;
  mig_Allocated : bool;
  mig_AllocatedTo : option AllocationRef
}.

Record GPUDeviceStatus := {
  gst_ID : string;
  gst_UUID : string;
  gst_Allocated : bool;
  gst_MIGEnabled : bool;
  gst_AllocatedTo : option AllocationRef;
  gst_MIGSlices : list MIGSliceStatus
}.

Record RuntimePressure := {
  pr_GPUUtilizationPercent : Z;
  pr_GPUMemoryUtilizationPercent : Z;
  pr_KVCacheUtilizationPercent : Z;
  pr_PrefillUtilizationPercent : Z;
  pr_DecodeUtilizationPercent : Z;
  pr_QueueDepth : Z;
  pr_TTFTP95Ms : Z;
  pr_TPOTP95Ms : Z;
  pr_LatencyP99Ms : Z;
  pr_SLORisk : string
}.

Record RuntimeStatus := {
  rst_Pressure : option RuntimePressure
}.

Record AssignedGPU := {
  ag_GPUID : string;
  ag_MIGSliceID : string
}.

Record AllocationActions := {
  act_Reclaimable : bool;
  act_Throttleable : bool;
  act_Pauseable : bool;
  act_Evictable : bool
}.

Record HourlyResourceForecast := {
  hf_GeneratedAt : option Time;
  hf_Timezone : string;
  hf_ResourceBuckets : list ResourceSummary
}.

Record NodeAllocationStatus := {
  nas_Name : string;
  nas_Namespace : string;
  nas_WorkloadName : string;
  nas_WorkloadType : string;
  nas_Priority : string;
  nas_DemandShape : string;
  nas_TimeWindows : list TimeWindow;
  nas_ResourceRequest : option WorkloadResourceRequest;
  nas_AssignedGPU : option AssignedGPU;
  nas_Resources : option ResourceSummary;
  nas_Current : option ResourceSummary;
  nas_HourlyForecast : option HourlyResourceForecast;
  nas_Actions : option AllocationActions;
  nas_Phase : string
}.

Record AINodeResourceProfileStatus := {
  nst_Phase : string;
  nst_ObservedAt : option Time;
  nst_GPUs : list GPUDeviceStatus;
  nst_Allocatable : option ResourceSummary;
  nst_Allocated : option ResourceSummary;
  nst_Available : option ResourceSummary;
  nst_HourlyForecast : option HourlyResourceForecast;
  nst_Runtime : option RuntimeStatus;
  nst_Allocations : list NodeAllocationStatus;
  nst_Conditions : list Condition
}.

Record AINodeResourceProfile := {
  np_Meta : ObjectMeta;
  np_Spec : AINodeResourceProfileSpec;
  np_Status : AINodeResourceProfileStatus
}.

(** ** AIResourceAllocation *)

Record AllocationWorkloadSpec := {
  aws_Name : string;
  aws_WorkloadRef : KubernetesObjectRef;
  aws_SourcePodName : string;
  aws_SourcePodUID : string;
  aws_WorkloadType : string;
  aws_Priority : string;
  aws_DemandShape : string;
  aws_TimeWindows : list TimeWindow;
  aws_ResourceRequest : option WorkloadResourceRequest;
  aws_AssignedGPU : option AssignedGPU;
  aws_Resources : option ResourceSummary;
  aws_Desired : option ResourceSummary;
  aws_AllocationType : string;
  aws_Actions : option AllocationActions;
  aws_Reason : string
}.

Record AIResourceAllocationSpec := {
  as_NodeName : string;
  as_Workloads : list AllocationWorkloadSpec;
  as_Reason : string;
  as_WorkloadRef : KubernetesObjectRef;
  as_WorkloadType : string;
  as_Priority : string;
  as_DemandShape : string;
  as_TimeWindows : list TimeWindow;
  as_ResourceRequest : option WorkloadResourceRequest;
  as_AssignedGPU : option AssignedGPU;
  as_Resources : option ResourceSummary;
  as_AllocationType : string;
  as_Actions : option AllocationActions
}.

Record NodeAllocationLedger := {
  nal_Total : option ResourceSummary;
  nal_Allocated : option ResourceSummary;
  nal_Available : option ResourceSummary
}.

Record AllocationWorkloadStatus := {
  awst_Name : string;
  awst_WorkloadRef : option KubernetesObjectRef;
  awst_SourcePodName : string;
  awst_Phase : string;
  awst_Priority : string;
  awst_DemandShape : string;
  awst_ActiveWindow : bool;
  awst_Desired : option ResourceSummary;
  awst_Applied : option ResourceSummary;
  awst_HourlyForecast : option HourlyResourceForecast;
  awst_AssignedGPU : option AssignedGPU;
  awst_Action : string;
  awst_Message : string
}.

Record AIResourceAllocationStatus := {
  ast_Phase : string;
  ast_ObservedAt : option Time;
  ast_AppliedAt : option Time;
  ast_NodeLedger : option NodeAllocationLedger;
  ast_Workloads : list AllocationWorkloadStatus;
  ast_ObservedResources : option ResourceSummary;
  ast_Current : option ResourceSummary;
  ast_HourlyForecast : option HourlyResourceForecast;
  ast_Message : string;
  ast_Conditions : list Condition
}.

Record AIResourceAllocation := {
  al_Meta : ObjectMeta;
  al_Spec : AIResourceAllocationSpec;
  al_Status : AIResourceAllocationStatus
}.

(** ** Zero values: what a composite literal leaves out *)

Definition zero_Meta : ObjectMeta :=
  {| Name := ""; Namespace := ""; UID := ""; Labels := ∅; Annotations := ∅;
     CreationTimestamp := None; DeletionTimestamp := None |}.

Definition zero_ResourceSummary : ResourceSummary :=
  {| GPUCount := 0; GPUMemoryGiB := 0; KVCacheGiB := 0;
     PrefillTokensPerSecond := 0; DecodeTokensPerSecond := 0;
     TotalTokensPerSecond := 0 |}.

Definition zero_Ref : KubernetesObjectRef :=
  {| ref_APIVersion := ""; ref_Kind := ""; ref_Name := ""; ref_Namespace := "" |}.

Definition zero_RuntimeSupports : RuntimeSupports :=
  {| sup_KVCache := false; sup_TokenThroughput := false; sup_PrefixCache := false;
     sup_ContinuousBatching := false; sup_RequestThrottling := false;
     sup_PauseResume := false |}.

Definition zero_NodeCapabilities : NodeCapabilities :=
  {| cap_Sharing := false; cap_Borrowing := false; cap_Reclaim := false;
     cap_Throttling := false; cap_PauseResume := false; cap_Eviction := false;
     cap_MIGResize := false |}.

Definition zero_AllocationActions : AllocationActions :=
  {| act_Reclaimable := false; act_Throttleable := false; act_Pauseable := false;
     act_Evictable := false |}.

Definition zero_AIWorkloadProfileStatus : AIWorkloadProfileStatus :=
  {| wpst_Phase := ""; wpst_CurrentWindow := ""; wpst_SLORisk := "";
     wpst_Conditions := [] |}.

Definition zero_AINodeResourceProfileStatus : AINodeResourceProfileStatus :=
  {| nst_Phase := ""; nst_ObservedAt := None; nst_GPUs := []; nst_Allocatable := None;
     nst_Allocated := None; nst_Available := None; nst_HourlyForecast := None;
     nst_Runtime := None; nst_Allocations := []; nst_Conditions := [] |}.

Definition zero_AIResourceAllocationSpec : AIResourceAllocationSpec :=
  {| as_NodeName := ""; as_Workloads := []; as_Reason := ""; as_WorkloadRef := zero_Ref;
     as_WorkloadType := ""; as_Priority := ""; as_DemandShape := ""; as_TimeWindows := [];
     as_ResourceRequest := None; as_AssignedGPU := None; as_Resources := None;
     as_AllocationType := ""; as_Actions := None |}.

Definition zero_AIResourceAllocationStatus : AIResourceAllocationStatus :=
  {| ast_Phase := ""; ast_ObservedAt := None; ast_AppliedAt := None; ast_NodeLedger := None;
     ast_Workloads := []; ast_ObservedResources := None; ast_Current := None;
     ast_HourlyForecast := None; ast_Message := ""; ast_Conditions := [] |}.

(** Reading a string map: the zero value for an absent key. *)
Definition map_get (m : gmap string string) (k : string) : string := default "" (m !! k).

(** ** Decidable equality *)

#[export] Instance ResourceSummary_eq_dec : EqDecision ResourceSummary.
Proof. solve_decision. Defined.
#[export] Instance KubernetesObjectRef_eq_dec : EqDecision KubernetesObjectRef.
Proof. solve_decision. Defined.
#[export] Instance TimeWindow_eq_dec : EqDecision TimeWindow.
Proof. solve_decision. Defined.
#[export] Instance WorkloadResourceRequest_eq_dec : EqDecision WorkloadResourceRequest.
Proof. solve_decision. Defined.
#[export] Instance AssignedGPU_eq_dec : EqDecision AssignedGPU.
Proof. solve_decision. Defined.
#[export] Instance AllocationActions_eq_dec : EqDecision AllocationActions.
Proof. solve_decision. Defined.
#[export] Instance AllocationWorkloadSpec_eq_dec : EqDecision AllocationWorkloadSpec.
Proof. solve_decision. Defined.
#[export] Instance HourlyResourceForecast_eq_dec : EqDecision HourlyResourceForecast.
Proof. solve_decision. Defined.
#[export] Instance AllocationWorkloadStatus_eq_dec : EqDecision AllocationWorkloadStatus.
Proof. solve_decision. Defined.
