(* ===== verification/Samples.v ===== *)
(** * Samples: small concrete objects

    Nodes, workload profiles and allocations the closed examples of the other
    files are stated on. *)

From stdpp Require Import strings gmap.
From S2P Require Import Prelude ApiTypes.
Local Open Scope string_scope.
Local Open Scope list_scope.
Local Open Scope Z_scope.

(** [res g] asks for [g] GPUs with proportional memory, cache and throughput. *)
Definition res (g : Z) : ResourceSummary :=
  {| GPUCount := g; GPUMemoryGiB := 20 * g; KVCacheGiB := 4 * g;
     PrefillTokensPerSecond := 100 * g; DecodeTokensPerSecond := 50 * g;
     TotalTokensPerSecond := 150 * g |}.

Definition request (required preferred maximum : Z) : WorkloadResourceRequest :=
  {| wrr_Required := Some (res required); wrr_Preferred := Some (res preferred);
     wrr_Max := Some (res maximum) |}.

Definition named (name : string) : ObjectMeta :=
  {| Name := name; Namespace := "default"; UID := "uid-" +:+ name; Labels := ∅; Annotations := ∅;
     CreationTimestamp := Some 0; DeletionTimestamp := None |}.

Definition daytime : TimeWindow :=
  {| tw_Name := "daytime"; tw_Start := "09:00"; tw_End := "18:00"; tw_Timezone := "" |}.
Definition nighttime : TimeWindow :=
  {| tw_Name := "nighttime"; tw_Start := "22:00"; tw_End := "06:00"; tw_Timezone := "" |}.

Definition all_supports : RuntimeSupports :=
  {| sup_KVCache := true; sup_TokenThroughput := true; sup_PrefixCache := true;
     sup_ContinuousBatching := true; sup_RequestThrottling := true; sup_PauseResume := true |}.

Definition all_capabilities : NodeCapabilities :=
  {| cap_Sharing := true; cap_Borrowing := true; cap_Reclaim := true; cap_Throttling := true;
     cap_PauseResume := true; cap_Eviction := true; cap_MIGResize := true |}.

(** A ready node that can give [capacity] and still has [available]. *)
Definition node_with (capacity available : Z) (allocations : list NodeAllocationStatus)
    : AINodeResourceProfile :=
  {| np_Meta := named "node-a";
     np_Spec := {| ns_NodeName := "node-a"; ns_BackendType := "fake"; ns_GPUs := [];
                   ns_Runtime := Some {| rsp_Type := "vllm"; rsp_Supports := Some all_supports;
                                         rsp_Capacity := None |};
                   ns_Capabilities := Some all_capabilities |};
     np_Status := {| nst_Phase := "Ready"; nst_ObservedAt := None; nst_GPUs := [];
                     nst_Allocatable := Some (res capacity); nst_Allocated := None;
                     nst_Available := Some (res available); nst_HourlyForecast := None;
                     nst_Runtime := None; nst_Allocations := allocations; nst_Conditions := [] |} |}.

Definition workload (name priority : string) (windows : list TimeWindow)
    (required preferred maximum : Z) : AIWorkloadProfile :=
  {| wp_Meta := named name;
     wp_Spec := {| wps_WorkloadRef := {| ref_APIVersion := "apps/v1"; ref_Kind := "Deployment";
                                         ref_Name := name; ref_Namespace := "default" |};
                   wps_WorkloadType := "online"; wps_Priority := priority; wps_DemandShape := "mixed";
                   wps_TimeWindows := windows; wps_SLO := None;
                   wps_Resources := Some (request required preferred maximum);
                   wps_Policy := None |};
     wp_Status := zero_AIWorkloadProfileStatus |}.

Definition allocation (name priority : string) (windows : list TimeWindow)
    (required preferred maximum : Z) : AIResourceAllocation :=
  {| al_Meta := named name;
     al_Spec := {| as_NodeName := "node-a"; as_Workloads := []; as_Reason := "";
                   as_WorkloadRef := zero_Ref; as_WorkloadType := "online"; as_Priority := priority;
                   as_DemandShape := "mixed"; as_TimeWindows := windows;
                   as_ResourceRequest := Some (request required preferred maximum);
                   as_AssignedGPU := None; as_Resources := None; as_AllocationType := "";
                   as_Actions := None |};
     al_Status := zero_AIResourceAllocationStatus |}.

(** [a] with the resources the central scheduler granted. *)
Definition holding (r : ResourceSummary) (a : AIResourceAllocation) : AIResourceAllocation :=
  let s := al_Spec a in
  {| al_Meta := al_Meta a;
     al_Spec := {| as_NodeName := as_NodeName s; as_Workloads := as_Workloads s; as_Reason := as_Reason s;
                   as_WorkloadRef := as_WorkloadRef s; as_WorkloadType := as_WorkloadType s;
                   as_Priority := as_Priority s; as_DemandShape := as_DemandShape s;
                   as_TimeWindows := as_TimeWindows s; as_ResourceRequest := as_ResourceRequest s;
                   as_AssignedGPU := as_AssignedGPU s; as_Resources := Some r;
                   as_AllocationType := as_AllocationType s; as_Actions := as_Actions s |};
     al_Status := al_Status a |}.
