(* ===== verification/Resources.v ===== *)
(** * Resources: arithmetic on [ResourceSummary]

    Each package of the program carries its own copy of the six-field helper
    functions.  The copies of internal/scheduler/policy/resource_policy.go,
    time_window_policy.go and internal/agent/local/ledger.go are defined here
    field by field, with the int32 wrap-around; the remaining packages' copies
    are next to their callers and have the same bodies.  The lemmas relate
    them to the unbounded pointwise vector operations [rs_plus], [rs_minus]
    and to the pointwise order [rs_le]. *)

From stdpp Require Import strings.
From S2P Require Import Prelude ApiTypes.
Local Open Scope string_scope.
Local Open Scope list_scope.
Local Open Scope Z_scope.

(** ** The functions of the code *)

Definition nonNegative (value : Z) : Z := if value <? 0 then 0 else value.

Definition addResourceSummary (left right : ResourceSummary) : ResourceSummary :=
  {| GPUCount := GPUCount left +₃₂ GPUCount right;
     GPUMemoryGiB := GPUMemoryGiB left +₃₂ GPUMemoryGiB right;
     KVCacheGiB := KVCacheGiB left +₃₂ KVCacheGiB right;
     PrefillTokensPerSecond := PrefillTokensPerSecond left +₃₂ PrefillTokensPerSecond right;
     DecodeTokensPerSecond := DecodeTokensPerSecond left +₃₂ DecodeTokensPerSecond right;
     TotalTokensPerSecond := TotalTokensPerSecond left +₃₂ TotalTokensPerSecond right |}.

Definition subtractResourceSummary (left right : ResourceSummary) : ResourceSummary :=
  {| GPUCount := nonNegative (GPUCount left -₃₂ GPUCount right);
     GPUMemoryGiB := nonNegative (GPUMemoryGiB left -₃₂ GPUMemoryGiB right);
     KVCacheGiB := nonNegative (KVCacheGiB left -₃₂ KVCacheGiB right);
     PrefillTokensPerSecond := nonNegative (PrefillTokensPerSecond left -₃₂ PrefillTokensPerSecond right);
     DecodeTokensPerSecond := nonNegative (DecodeTokensPerSecond left -₃₂ DecodeTokensPerSecond right);
     TotalTokensPerSecond := nonNegative (TotalTokensPerSecond left -₃₂ TotalTokensPerSecond right) |}.

Definition resourceSummaryIsZero (summary : ResourceSummary) : bool :=
  (GPUCount summary =? 0) &&
  (GPUMemoryGiB summary =? 0) &&
  (KVCacheGiB summary =? 0) &&
  (PrefillTokensPerSecond summary =? 0) &&
  (DecodeTokensPerSecond summary =? 0) &&
  (TotalTokensPerSecond summary =? 0).

Definition int32ToString (value : Z) : string := show_Z value.

Definition resourceFitReason (resource : string) (required capacity : Z) : string :=
  "insufficient " +:+ resource +:+ " envelope: required=" +:+ int32ToString required
    +:+ " capacity=" +:+ int32ToString capacity.

Definition resourceSummaryFits (required capacity : ResourceSummary) : bool * string :=
  if GPUCount required >? GPUCount capacity then
    (false, resourceFitReason "gpuCount" (GPUCount required) (GPUCount capacity))
  else if GPUMemoryGiB required >? GPUMemoryGiB capacity then
    (false, resourceFitReason "gpuMemoryGiB" (GPUMemoryGiB required) (GPUMemoryGiB capacity))
  else if KVCacheGiB required >? KVCacheGiB capacity then
    (false, resourceFitReason "kvCacheGiB" (KVCacheGiB required) (KVCacheGiB capacity))
  else if PrefillTokensPerSecond required >? PrefillTokensPerSecond capacity then
    (false, resourceFitReason "prefillTokensPerSecond"
              (PrefillTokensPerSecond required) (PrefillTokensPerSecond capacity))
  else if DecodeTokensPerSecond required >? DecodeTokensPerSecond capacity then
    (false, resourceFitReason "decodeTokensPerSecond"
              (DecodeTokensPerSecond required) (DecodeTokensPerSecond capacity))
  else if TotalTokensPerSecond required >? TotalTokensPerSecond capacity then
    (false, resourceFitReason "totalTokensPerSecond"
              (TotalTokensPerSecond required) (TotalTokensPerSecond capacity))
  else (true, "resource envelope fits").

(** internal/agent/local/ledger.go *)

Definition fits (required available : ResourceSummary) : bool :=
  (GPUCount required <=? GPUCount available) &&
  (GPUMemoryGiB required <=? GPUMemoryGiB available) &&
  (KVCacheGiB required <=? KVCacheGiB available) &&
  (PrefillTokensPerSecond required <=? PrefillTokensPerSecond available) &&
  (DecodeTokensPerSecond required <=? DecodeTokensPerSecond available) &&
  (TotalTokensPerSecond required <=? TotalTokensPerSecond available).

Definition isZeroResource (value : ResourceSummary) : bool :=
  (GPUCount value =? 0) &&
  (GPUMemoryGiB value =? 0) &&
  (KVCacheGiB value =? 0) &&
  (PrefillTokensPerSecond value =? 0) &&
  (DecodeTokensPerSecond value =? 0) &&
  (TotalTokensPerSecond value =? 0).

Definition addResource (left right : ResourceSummary) : ResourceSummary :=
  {| GPUCount := GPUCount left +₃₂ GPUCount right;
     GPUMemoryGiB := GPUMemoryGiB left +₃₂ GPUMemoryGiB right;
     KVCacheGiB := KVCacheGiB left +₃₂ KVCacheGiB right;
     PrefillTokensPerSecond := PrefillTokensPerSecond left +₃₂ PrefillTokensPerSecond right;
     DecodeTokensPerSecond := DecodeTokensPerSecond left +₃₂ DecodeTokensPerSecond right;
     TotalTokensPerSecond := TotalTokensPerSecond left +₃₂ TotalTokensPerSecond right |}.

Definition subtractResource (left right : ResourceSummary) : ResourceSummary :=
  {| GPUCount := nonNegative (GPUCount left -₃₂ GPUCount right);
     GPUMemoryGiB := nonNegative (GPUMemoryGiB left -₃₂ GPUMemoryGiB right);
     KVCacheGiB := nonNegative (KVCacheGiB left -₃₂ KVCacheGiB right);
     PrefillTokensPerSecond := nonNegative (PrefillTokensPerSecond left -₃₂ PrefillTokensPerSecond right);
     DecodeTokensPerSecond := nonNegative (DecodeTokensPerSecond left -₃₂ DecodeTokensPerSecond right);
     TotalTokensPerSecond := nonNegative (TotalTokensPerSecond left -₃₂ TotalTokensPerSecond right) |}.

Definition maxInt32 (left right : Z) : Z := if left >? right then left else right.

Definition maxResource (left right : ResourceSummary) : ResourceSummary :=
  {| GPUCount := maxInt32 (GPUCount left) (GPUCount right);
     GPUMemoryGiB := maxInt32 (GPUMemoryGiB left) (GPUMemoryGiB right);
     KVCacheGiB := maxInt32 (KVCacheGiB left) (KVCacheGiB right);
     PrefillTokensPerSecond := maxInt32 (PrefillTokensPerSecond left) (PrefillTokensPerSecond right);
     DecodeTokensPerSecond := maxInt32 (DecodeTokensPerSecond left) (DecodeTokensPerSecond right);
     TotalTokensPerSecond := maxInt32 (TotalTokensPerSecond left) (TotalTokensPerSecond right) |}.

Definition describeResource (value : ResourceSummary) : string :=
  "gpu=" +:+ show_Z (GPUCount value) +:+ " gpuMemoryGiB=" +:+ show_Z (GPUMemoryGiB value)
  +:+ " kvCacheGiB=" +:+ show_Z (KVCacheGiB value)
  +:+ " prefillTPS=" +:+ show_Z (PrefillTokensPerSecond value)
  +:+ " decodeTPS=" +:+ show_Z (DecodeTokensPerSecond value)
  +:+ " totalTPS=" +:+ show_Z (TotalTokensPerSecond value).

(** ** The specification level: vectors of unbounded integers *)

Definition rs_all (P : Z -> Prop) (r : ResourceSummary) : Prop :=
  P (GPUCount r) /\ P (GPUMemoryGiB r) /\ P (KVCacheGiB r) /\
  P (PrefillTokensPerSecond r) /\ P (DecodeTokensPerSecond r) /\ P (TotalTokensPerSecond r).

Definition rs_all2 (R : Z -> Z -> Prop) (a b : ResourceSummary) : Prop :=
  R (GPUCount a) (GPUCount b) /\ R (GPUMemoryGiB a) (GPUMemoryGiB b) /\
  R (KVCacheGiB a) (KVCacheGiB b) /\
  R (PrefillTokensPerSecond a) (PrefillTokensPerSecond b) /\
  R (DecodeTokensPerSecond a) (DecodeTokensPerSecond b) /\
  R (TotalTokensPerSecond a) (TotalTokensPerSecond b).

Definition rs_map2 (f : Z -> Z -> Z) (a b : ResourceSummary) : ResourceSummary :=
  {| GPUCount := f (GPUCount a) (GPUCount b);
     GPUMemoryGiB := f (GPUMemoryGiB a) (GPUMemoryGiB b);
     KVCacheGiB := f (KVCacheGiB a) (KVCacheGiB b);
     PrefillTokensPerSecond := f (PrefillTokensPerSecond a) (PrefillTokensPerSecond b);
     DecodeTokensPerSecond := f (DecodeTokensPerSecond a) (DecodeTokensPerSecond b);
     TotalTokensPerSecond := f (TotalTokensPerSecond a) (TotalTokensPerSecond b) |}.

Definition rs_wf : ResourceSummary -> Prop := rs_all in_int32.
Definition rs_nonneg : ResourceSummary -> Prop := rs_all (fun z => 0 <= z).
Definition rs_le : ResourceSummary -> ResourceSummary -> Prop := rs_all2 Z.le.
Definition rs_plus : ResourceSummary -> ResourceSummary -> ResourceSummary := rs_map2 Z.add.
Definition rs_minus : ResourceSummary -> ResourceSummary -> ResourceSummary := rs_map2 Z.sub.

(** The unbounded sum of a list of summaries. *)
Definition rs_sum (l : list ResourceSummary) : ResourceSummary :=
  foldr rs_plus zero_ResourceSummary l.

#[export] Instance rs_all_dec P `{forall z, Decision (P z)} r : Decision (rs_all P r).
Proof. unfold rs_all. apply _. Defined.
#[export] Instance rs_all2_dec R `{forall x y, Decision (R x y)} a b : Decision (rs_all2 R a b).
Proof. unfold rs_all2. apply _. Defined.
#[export] Instance rs_wf_dec r : Decision (rs_wf r).
Proof. unfold rs_wf. apply _. Defined.
#[export] Instance rs_nonneg_dec r : Decision (rs_nonneg r).
Proof. unfold rs_nonneg. apply _. Defined.
#[export] Instance rs_le_dec a b : Decision (rs_le a b).
Proof. unfold rs_le. apply _. Defined.

(** ** Lemmas *)

(** Field-by-field reasoning: open the records and the pointwise relations. *)
Ltac rs_open :=
  unfold rs_wf, rs_nonneg, rs_le, rs_plus, rs_minus, rs_all, rs_all2, rs_map2 in *;
  cbn [GPUCount GPUMemoryGiB KVCacheGiB PrefillTokensPerSecond DecodeTokensPerSecond
       TotalTokensPerSecond zero_ResourceSummary] in *.

Ltac rs_solve := rs_open; destruct_and?; repeat split; i32.

Lemma rs_ext a b :
  GPUCount a = GPUCount b -> GPUMemoryGiB a = GPUMemoryGiB b -> KVCacheGiB a = KVCacheGiB b ->
  PrefillTokensPerSecond a = PrefillTokensPerSecond b ->
  DecodeTokensPerSecond a = DecodeTokensPerSecond b ->
  TotalTokensPerSecond a = TotalTokensPerSecond b -> a = b.
Proof. destruct a, b. cbn. congruence. Qed.

Lemma addResource_addResourceSummary a b : addResource a b = addResourceSummary a b.
Proof. done. Qed.

Lemma subtractResource_subtractResourceSummary a b :
  subtractResource a b = subtractResourceSummary a b.
Proof. done. Qed.

Lemma isZero_spec r : resourceSummaryIsZero r = true <-> r = zero_ResourceSummary.
Proof.
  unfold resourceSummaryIsZero. split.
  - intros H. zbool. by apply rs_ext.
  - by intros ->.
Qed.

Lemma fits_spec a b : fits a b = true <-> rs_le a b.
Proof. unfold fits, rs_le, rs_all2. rewrite !andb_true_iff, !Z.leb_le. tauto. Qed.

Lemma fits_bool a b : fits a b = bool_decide (rs_le a b).
Proof. apply eq_bool_prop_intro. rewrite bool_decide_spec. 
  rewrite Is_true_true. apply fits_spec. Qed.

(** The early-return cascade of [resourceSummaryFits] decides the same order
    as the conjunction of [fits]. *)
Lemma resourceSummaryFits_spec a b : (resourceSummaryFits a b).1 = true <-> rs_le a b.
Proof.
  unfold resourceSummaryFits. split.
  - if_split; cbn; intros; try done. rs_solve.
  - intros H. rs_open. destruct_and?. if_split; cbn; try done; i32.
Qed.

#[export] Instance rs_le_preorder : PreOrder rs_le.
Proof. split; [intros a|intros a b c Hab Hbc]; rs_solve. Qed.

#[export] Instance rs_le_antisymm : AntiSymm (=) rs_le.
Proof. intros a b Hab Hba. rs_open. apply rs_ext; lia. Qed.

#[export] Instance rs_plus_mono : Proper (rs_le ==> rs_le ==> rs_le) rs_plus.
Proof. intros a a' Ha b b' Hb. rs_solve. Qed.

Lemma rs_plus_comm a b : rs_plus a b = rs_plus b a.
Proof. apply rs_ext; rs_open; lia. Qed.

Lemma rs_plus_assoc a b c : rs_plus a (rs_plus b c) = rs_plus (rs_plus a b) c.
Proof. apply rs_ext; rs_open; lia. Qed.

Lemma rs_plus_0_l a : rs_plus zero_ResourceSummary a = a.
Proof. apply rs_ext; rs_open; lia. Qed.

Lemma rs_plus_0_r a : rs_plus a zero_ResourceSummary = a.
Proof. apply rs_ext; rs_open; lia. Qed.

Lemma rs_zero_wf : rs_wf zero_ResourceSummary.
Proof. rs_solve. Qed.

Lemma rs_zero_nonneg : rs_nonneg zero_ResourceSummary.
Proof. rs_solve. Qed.

Lemma rs_plus_nonneg a b : rs_nonneg a -> rs_nonneg b -> rs_nonneg (rs_plus a b).
Proof. intros. rs_solve. Qed.

Lemma rs_zero_le a : rs_nonneg a -> rs_le zero_ResourceSummary a.
Proof. intros. rs_solve. Qed.

Lemma rs_plus_cancel_le a b x y : rs_le (rs_plus a x) (rs_plus y b) -> rs_le b a -> rs_le x y.
Proof. intros. rs_solve. Qed.

(** Under the int32 bound the wrapped sum is the true sum. *)
Lemma addResourceSummary_exact a b :
  rs_wf (rs_plus a b) -> addResourceSummary a b = rs_plus a b.
Proof. intros H. rs_open. destruct_and?. apply rs_ext; cbn; by apply add32_exact. Qed.

Lemma addResourceSummary_wf a b : rs_wf (addResourceSummary a b).
Proof. rs_open. repeat split; apply add32_range. Qed.

Lemma addResourceSummary_comm a b : addResourceSummary a b = addResourceSummary b a.
Proof. apply rs_ext; cbn; apply add32_comm. Qed.

Lemma addResourceSummary_assoc a b c :
  addResourceSummary a (addResourceSummary b c) = addResourceSummary (addResourceSummary a b) c.
Proof. apply rs_ext; cbn; apply add32_assoc. Qed.

Lemma addResourceSummary_0_l a : rs_wf a -> addResourceSummary zero_ResourceSummary a = a.
Proof.
  intros H. rewrite addResourceSummary_exact by (rewrite rs_plus_0_l; done).
  apply rs_plus_0_l.
Qed.

Lemma nonNegative_spec z : nonNegative z = Z.max 0 z.
Proof. unfold nonNegative. if_split; i32. Qed.

Lemma nonNegative_range z : in_int32 z -> 0 <= nonNegative z /\ in_int32 (nonNegative z).
Proof. rewrite nonNegative_spec. intros. split; i32. Qed.

Lemma subtractResourceSummary_nonneg a b : rs_nonneg (subtractResourceSummary a b).
Proof. rs_open. unfold subtractResourceSummary; cbn.
  repeat split; apply nonNegative_range, sub32_range. Qed.

Lemma subtractResourceSummary_wf a b : rs_wf (subtractResourceSummary a b).
Proof. rs_open. unfold subtractResourceSummary; cbn.
  repeat split; apply nonNegative_range, sub32_range. Qed.

(** Subtracting a non-negative part of a summary is exact. *)
Lemma subtractResourceSummary_exact a b :
  rs_wf a -> rs_nonneg b -> rs_le b a -> subtractResourceSummary a b = rs_minus a b.
Proof.
  intros Ha Hb Hle. rs_open. destruct_and?.
  apply rs_ext; cbn; rewrite sub32_nonneg by (try done; lia);
    rewrite nonNegative_spec; lia.
Qed.

(** Subtraction is monotone: taking more away never leaves more. *)
Lemma rs_minus_plus a b : rs_plus (rs_minus a b) b = a.
Proof. apply rs_ext; rs_open; lia. Qed.

Lemma rs_minus_nonneg a b : rs_le b a -> rs_nonneg (rs_minus a b).
Proof. intros. rs_solve. Qed.

Lemma rs_minus_le a b : rs_nonneg b -> rs_le (rs_minus a b) a.
Proof. intros. rs_solve. Qed.

Lemma rs_wf_le a b : rs_nonneg a -> rs_le a b -> rs_wf b -> rs_wf a.
Proof. intros. rs_solve. Qed.

Lemma rs_le_plus_r a b : rs_nonneg b -> rs_le a (rs_plus a b).
Proof. intros. rs_solve. Qed.

Lemma rs_le_minus a b c : rs_le a (rs_minus c b) <-> rs_le (rs_plus a b) c.
Proof. split; intros; rs_solve. Qed.

Lemma maxInt32_spec a b : maxInt32 a b = Z.max a b.
Proof. unfold maxInt32. if_split; i32. Qed.

Lemma maxResource_spec a b : maxResource a b = rs_map2 Z.max a b.
Proof. apply rs_ext; cbn; apply maxInt32_spec. Qed.

Lemma maxResource_wf a b : rs_wf a -> rs_wf b -> rs_wf (maxResource a b).
Proof. rewrite maxResource_spec. intros. rs_solve. Qed.

Lemma maxResource_comm a b : maxResource a b = maxResource b a.
Proof. rewrite !maxResource_spec. apply rs_ext; rs_open; lia. Qed.

Lemma maxResource_assoc a b c : maxResource a (maxResource b c) = maxResource (maxResource a b) c.
Proof. rewrite !maxResource_spec. apply rs_ext; rs_open; lia. Qed.

Lemma rs_sum_app l k : rs_sum (l ++ k) = rs_plus (rs_sum l) (rs_sum k).
Proof.
  induction l as [|a l IH]; cbn; [by rewrite rs_plus_0_l|].
  fold (rs_sum (l ++ k)). rewrite IH. by rewrite rs_plus_assoc.
Qed.

#[export] Instance rs_sum_perm : Proper ((≡ₚ) ==> (=)) rs_sum.
Proof.
  induction 1 as [|a l k _ IH|a b l|l k m _ IH1 _ IH2]; cbn.
  - done.
  - fold (rs_sum l) (rs_sum k). by rewrite IH.
  - by rewrite !rs_plus_assoc, (rs_plus_comm b a).
  - by rewrite IH1.
Qed.

Lemma rs_sum_nonneg l : Forall rs_nonneg l -> rs_nonneg (rs_sum l).
Proof. induction 1; cbn; auto using rs_zero_nonneg, rs_plus_nonneg. Qed.

(** Adding up non-negative amounts whose total fits gives the true total. *)
Lemma fold_add_exact l acc :
  rs_nonneg acc -> Forall rs_nonneg l -> rs_wf (rs_plus acc (rs_sum l)) ->
  fold_left addResourceSummary l acc = rs_plus acc (rs_sum l).
Proof.
  intros Hacc Hl. revert acc Hacc. induction Hl as [|x l Hx Hl IH]; intros acc Hacc Hw; cbn in *.
  - by rewrite rs_plus_0_r.
  - assert (Hs : rs_nonneg (rs_sum l)) by (by apply rs_sum_nonneg).
    rewrite rs_plus_assoc in *. rewrite addResourceSummary_exact.
    + apply IH; [by apply rs_plus_nonneg|done].
    + eapply rs_wf_le; [by apply rs_plus_nonneg| |exact Hw]. by apply rs_le_plus_r.
Qed.

#[export] Hint Resolve rs_zero_wf rs_zero_nonneg rs_plus_nonneg addResourceSummary_wf
  subtractResourceSummary_nonneg subtractResourceSummary_wf rs_minus_nonneg rs_minus_le : go.
