(* ===== verification/PolicyWindow.v ===== *)
(** * PolicyWindow: time windows, priorities and hourly envelopes of the
    central policy

    internal/scheduler/policy/time_window_policy.go, resource_policy.go and
    the time-window, priority and workload-type helpers of simple_policy.go.
    Go's [(value, bool)] results are [option]s; a nil pointer argument is
    [None].  Times of day are minutes in [[0, 1440)]. *)

From stdpp Require Import strings.
From S2P Require Import Prelude GoString ApiTypes Resources.
Local Open Scope string_scope.
Local Open Scope list_scope.
Local Open Scope Z_scope.

(** ** simple_policy.go: budgets of a workload profile *)

Definition requiredResources (profile : option AIWorkloadProfile) : ResourceSummary :=
  match profile with
  | None => zero_ResourceSummary
  | Some p =>
      match wps_Resources (wp_Spec p) with
      | None => zero_ResourceSummary
      | Some r => from_ptr zero_ResourceSummary (wrr_Required r)
      end
  end.

Definition preferredResources (profile : option AIWorkloadProfile) : ResourceSummary :=
  match profile with
  | None => zero_ResourceSummary
  | Some p =>
      match wps_Resources (wp_Spec p) with
      | None => zero_ResourceSummary
      | Some r => match wrr_Preferred r with
                  | Some v => v
                  | None => zero_ResourceSummary
                  end
      end
  end.

(** resource_policy.go *)

Definition maxResourcesFromRequest (request : option WorkloadResourceRequest) : ResourceSummary :=
  match request with
  | None => zero_ResourceSummary
  | Some r =>
      match wrr_Max r with
      | Some v => v
      | None =>
          match wrr_Preferred r with
          | Some v => v
          | None =>
              match wrr_Required r with
              | Some v => v
              | None => zero_ResourceSummary
              end
          end
      end
  end.

Definition maxResources (profile : option AIWorkloadProfile) : ResourceSummary :=
  match profile with
  | None => zero_ResourceSummary
  | Some p =>
      match wps_Resources (wp_Spec p) with
      | None => zero_ResourceSummary
      | Some r => maxResourcesFromRequest (Some r)
      end
  end.

Definition requiredResourcesFromRequest (request : option WorkloadResourceRequest) : ResourceSummary :=
  match request with
  | None => zero_ResourceSummary
  | Some r => from_ptr zero_ResourceSummary (wrr_Required r)
  end.

(** ** simple_policy.go: daily windows *)

Record minuteInterval := { mi_start : Z; mi_end : Z }.

Definition parsePositiveInt (value : string) : option Z := Atoi value.

Definition parseHHMM (value : string) : option Z :=
  match Split 58 value with
  | [p0; p1] =>
      match parsePositiveInt p0 with
      | Some hour =>
          if (hour <? 0) || (hour >? 23) then None
          else
            match parsePositiveInt p1 with
            | Some minute =>
                if (minute <? 0) || (minute >? 59) then None
                else Some (hour * 60 + minute)
            | None => None
            end
      | None => None
      end
  | _ => None
  end.

Definition timeWindowIntervals (window : TimeWindow) : option (list minuteInterval) :=
  match parseHHMM (tw_Start window) with
  | None => None
  | Some s =>
      match parseHHMM (tw_End window) with
      | None => None
      | Some e =>
          if s =? e then Some [{| mi_start := 0; mi_end := 24 * 60 |}]
          else if s <? e then Some [{| mi_start := s; mi_end := e |}]
          else Some [{| mi_start := s; mi_end := 24 * 60 |}; {| mi_start := 0; mi_end := e |}]
      end
  end.

Definition intervalsOverlap (left right : list minuteInterval) : bool :=
  existsb (fun l => existsb (fun r =>
    (mi_start l <? mi_end r) && (mi_start r <? mi_end l)) right) left.

Definition timeWindowsOverlap (left right : list TimeWindow) : bool :=
  existsb (fun leftWindow =>
    match timeWindowIntervals leftWindow with
    | None => false
    | Some leftIntervals =>
        existsb (fun rightWindow =>
          match timeWindowIntervals rightWindow with
          | None => false
          | Some rightIntervals => intervalsOverlap leftIntervals rightIntervals
          end) right
    end) left.

(** ** simple_policy.go: workload types and priorities *)

Definition isOnlineWorkload (workloadType : string) : bool :=
  EqualFold workloadType WorkloadTypeOnline || EqualFold workloadType WorkloadTypeHybrid.

Definition isDelayTolerantWorkload (workloadType : string) : bool :=
  EqualFold workloadType WorkloadTypeOffline || EqualFold workloadType WorkloadTypeBatch.

Definition priorityRank (priority : string) : Z :=
  let p := ToLower priority in
  if decide (p = WorkloadPriorityCritical) then 4
  else if decide (p = WorkloadPriorityHigh) then 3
  else if decide (p = WorkloadPriorityMedium) then 2
  else if decide (p = WorkloadPriorityLow) then 1
  else 0.

Definition higherPriority (left right : string) : bool :=
  priorityRank left >? priorityRank right.

Definition canCurrentWorkloadReclaimFrom
    (profile : option AIWorkloadProfile) (allocation : NodeAllocationStatus) : bool :=
  match profile with
  | None => false
  | Some p =>
      if negb (isOnlineWorkload (wps_WorkloadType (wp_Spec p))) ||
         negb (higherPriority (wps_Priority (wp_Spec p)) (nas_Priority allocation))
      then false
      else isDelayTolerantWorkload (nas_WorkloadType allocation) ||
           match nas_Actions allocation with
           | Some a => act_Throttleable a || act_Pauseable a || act_Evictable a
           | None => false
           end
  end.

(** ** time_window_policy.go *)

Definition comparableTimeWindowAllocation
    (profile : option AIWorkloadProfile) (allocation : NodeAllocationStatus) : bool :=
  match profile with
  | None => false
  | Some p =>
      if negb (isOnlineWorkload (nas_WorkloadType allocation)) ||
         (length (nas_TimeWindows allocation) =? 0)%nat
      then false
      else EqualFold (wps_Priority (wp_Spec p)) (nas_Priority allocation)
  end.

Definition nodeCapacityForEnvelope (node : option AINodeResourceProfile) : option ResourceSummary :=
  match node with
  | None => None
  | Some n =>
      match nst_Allocatable (np_Status n) with
      | Some a => Some a
      | None =>
          match nst_Available (np_Status n), nst_Allocated (np_Status n) with
          | Some available, Some allocated => Some (addResourceSummary available allocated)
          | _, _ => None
          end
      end
  end.

Definition hour_ok (hour : Z) : bool := negb ((hour <? 0) || (hour >? 23)).

(** [len(buckets) <= hour] guards the slice read, so it never panics. *)
Definition bucket (f : option HourlyResourceForecast) (hour : Z) : option ResourceSummary :=
  match f with
  | None => None
  | Some h => hf_ResourceBuckets h !! Z.to_nat hour
  end.

Definition nodeForecastResourceForHour (node : option AINodeResourceProfile) (hour : Z) : ResourceSummary :=
  if negb (hour_ok hour) then zero_ResourceSummary
  else match node with
       | None => zero_ResourceSummary
       | Some n => from_ptr zero_ResourceSummary (bucket (nst_HourlyForecast (np_Status n)) hour)
       end.

Definition hourInTimeWindows (windows : list TimeWindow) (hour : Z) : bool :=
  if negb (hour_ok hour) then false
  else
    let minute := hour * 60 in
    existsb (fun window =>
      match timeWindowIntervals window with
      | None => false
      | Some intervals =>
          existsb (fun i => (mi_start i <=? minute) && (minute <? mi_end i)) intervals
      end) windows.

Definition resourcesForHour (windows : list TimeWindow) (required max : ResourceSummary) (hour : Z)
    : ResourceSummary :=
  if hourInTimeWindows windows hour && negb (resourceSummaryIsZero max) then max else required.

Definition allocationResourceForHour (allocation : NodeAllocationStatus) (hour : Z) : ResourceSummary :=
  if negb (hour_ok hour) then zero_ResourceSummary
  else
    match bucket (nas_HourlyForecast allocation) hour with
    | Some r => r
    | None =>
        match nas_ResourceRequest allocation with
        | Some request =>
            resourcesForHour (nas_TimeWindows allocation)
              (requiredResourcesFromRequest (Some request))
              (maxResourcesFromRequest (Some request)) hour
        | None =>
            match nas_Current allocation with
            | Some c => c
            | None => from_ptr zero_ResourceSummary (nas_Resources allocation)
            end
        end
    end.

Definition reclaimableResourceForHour
    (profile : option AIWorkloadProfile) (node : option AINodeResourceProfile) (hour : Z)
    : ResourceSummary :=
  match profile, node with
  | Some p, Some n =>
      if negb (hour_ok hour) then zero_ResourceSummary
      else fold_left (fun total allocation =>
             if negb (canCurrentWorkloadReclaimFrom (Some p) allocation) then total
             else addResourceSummary total (allocationResourceForHour allocation hour))
             (nst_Allocations (np_Status n)) zero_ResourceSummary
  | _, _ => zero_ResourceSummary
  end.

(** ** The specification: a daily window is a set of minutes *)

(** [minute_in_window t s e]: minute [t] of the day lies in the circular
    window from [s] (included) to [e] (excluded); equal ends mean all day. *)
Definition minute_in_window (t s e : Z) : Prop :=
  s = e \/ (s < e /\ s <= t < e) \/ (e < s /\ (s <= t \/ t < e)).

Definition is_minute (t : Z) : Prop := 0 <= t < 1440.

(** The minutes a window with readable bounds denotes. *)
Definition window_covers (w : TimeWindow) (t : Z) : Prop :=
  exists s e, parseHHMM (tw_Start w) = Some s /\ parseHHMM (tw_End w) = Some e /\
    minute_in_window t s e.

Definition interval_has (i : minuteInterval) (t : Z) : Prop := mi_start i <= t < mi_end i.

(** The intervals the code builds: within the day, and empty only as [[0,0)]. *)
Definition interval_wf (i : minuteInterval) : Prop :=
  0 <= mi_start i /\ mi_end i <= 1440 /\
  (mi_start i < mi_end i \/ (mi_start i = 0 /\ mi_end i = 0)).

(** ** Lemmas *)

Lemma parseHHMM_range v t : parseHHMM v = Some t -> is_minute t.
Proof.
  unfold parseHHMM, is_minute. intros H.
  repeat case_match; simplify_eq; zbool; lia.
Qed.

Lemma existsb_iff {A} (f : A -> bool) (P : A -> Prop) l :
  (forall x, f x = true <-> P x) -> existsb f l = true <-> exists x, x ∈ l /\ P x.
Proof.
  intros Hf. rewrite existsb_exists. split; intros (x & Hx & HP); exists x.
  - rewrite list_elem_of_In. split; [done|by apply Hf].
  - rewrite <- list_elem_of_In. split; [done|by apply Hf].
Qed.

Lemma window_covers_spec w s e t :
  parseHHMM (tw_Start w) = Some s -> parseHHMM (tw_End w) = Some e ->
  window_covers w t <-> minute_in_window t s e.
Proof.
  intros Hs He. unfold window_covers. split; [|by eauto 6].
  intros (s' & e' & Hs' & He' & H). by simplify_eq.
Qed.

(** The intervals of a readable window are non-negative and cover exactly the
    minutes of the day it denotes. *)
Lemma timeWindowIntervals_spec w l :
  timeWindowIntervals w = Some l ->
  Forall interval_wf l /\
  forall t, is_minute t -> (exists i, i ∈ l /\ interval_has i t) <-> window_covers w t.
Proof.
  unfold timeWindowIntervals. intros H.
  destruct (parseHHMM (tw_Start w)) as [s|] eqn:Hs; [|done].
  destruct (parseHHMM (tw_End w)) as [e|] eqn:He; [|done].
  pose proof (parseHHMM_range _ _ Hs) as Rs. pose proof (parseHHMM_range _ _ He) as Re.
  unfold is_minute in *.
  assert (Hc : forall t, window_covers w t <-> minute_in_window t s e)
    by (intros; by apply window_covers_spec).
  destruct (s =? e) eqn:E1; [|destruct (s <? e) eqn:E2]; simplify_eq; zbool;
    (split; [rewrite ?Forall_cons, Forall_nil; unfold interval_wf; cbn; lia|]);
    intros t Ht; rewrite Hc; unfold minute_in_window, interval_has.
  - split; [intros _; by left|]. intros _. eexists. split; [by left|]. cbn. lia.
  - split.
    + intros (i & ->%list_elem_of_singleton & Hi). cbn in Hi. lia.
    + intros Hm. eexists. split; [by left|]. cbn. lia.
  - split.
    + intros (i & [->| ->%list_elem_of_singleton]%elem_of_cons & Hi); cbn in Hi; lia.
    + intros [?|[?|[_ [Hm|Hm]]]]; try lia.
      * eexists. split; [by left|]. cbn. lia.
      * eexists. split; [by right; left|]. cbn. lia.
Qed.

Lemma timeWindowIntervals_None w t : timeWindowIntervals w = None -> ~ window_covers w t.
Proof.
  unfold timeWindowIntervals, window_covers. intros H (s & e & Hs & He & _).
  rewrite Hs, He in H. repeat case_match; done.
Qed.

Lemma intervalsOverlap_spec l r :
  Forall interval_wf l ->
  Forall interval_wf r ->
  intervalsOverlap l r = true <->
  exists t, is_minute t /\ (exists i, i ∈ l /\ interval_has i t) /\
            (exists j, j ∈ r /\ interval_has j t).
Proof.
  intros Hl Hr. rewrite Forall_forall in Hl, Hr. unfold intervalsOverlap.
  rewrite existsb_iff by (intros; apply existsb_iff; intros; apply iff_refl).
  unfold interval_has, is_minute. split.
  - intros (i & Hi & j & Hj & E). zbool. specialize (Hl _ Hi). specialize (Hr _ Hj).
    exists (Z.max (mi_start i) (mi_start j)). unfold interval_wf in *. split; [lia|].
    split; [exists i|exists j]; (split; [done|lia]).
  - intros (t & Ht & (i & Hi & Hit) & (j & Hj & Hjt)). exists i. split; [done|].
    exists j. split; [done|]. apply andb_true_iff. rewrite !Z.ltb_lt. lia.
Qed.

Lemma window_overlap_one w v :
  match timeWindowIntervals w with
  | None => false
  | Some a => match timeWindowIntervals v with
              | None => false
              | Some b => intervalsOverlap a b
              end
  end = true <->
  exists t, is_minute t /\ window_covers w t /\ window_covers v t.
Proof.
  destruct (timeWindowIntervals w) as [a|] eqn:Ea;
    [destruct (timeWindowIntervals v) as [b|] eqn:Eb|].
  - destruct (timeWindowIntervals_spec _ _ Ea) as [Fa Ca].
    destruct (timeWindowIntervals_spec _ _ Eb) as [Fb Cb].
    rewrite intervalsOverlap_spec by done.
    split; intros (t & Ht & H1 & H2); exists t; (split; [done|]);
      split; try (by apply Ca); by apply Cb.
  - split; [done|]. intros (t & _ & _ & H). by apply timeWindowIntervals_None with (t := t) in Eb.
  - split; [done|]. intros (t & _ & H & _). by apply timeWindowIntervals_None with (t := t) in Ea.
Qed.

Lemma hour_ok_spec h : hour_ok h = true <-> 0 <= h <= 23.
Proof. unfold hour_ok. rewrite negb_true_iff, orb_false_iff, Z.ltb_ge. rewrite Z.gtb_ltb, Z.ltb_ge. lia. Qed.

Lemma priorityRank_range p : 0 <= priorityRank p <= 4.
Proof. unfold priorityRank. repeat case_decide; lia. Qed.

(** ** Properties *)

(** C36: the window comparison of the scorer decides exactly whether some
    minute of the day belongs to a readable window of each side; windows that
    wrap around midnight and all-day windows included. *)
Theorem timeWindowsOverlap_iff (left right : list TimeWindow) :
  timeWindowsOverlap left right = true <->
  exists t, is_minute t /\
    (exists w, w ∈ left /\ window_covers w t) /\ (exists v, v ∈ right /\ window_covers v t).
Proof.
  unfold timeWindowsOverlap. rewrite existsb_exists. split.
  - intros (w & Hw & E). destruct (timeWindowIntervals w) as [a|] eqn:Ea; [|done].
    apply existsb_exists in E as (v & Hv & E).
    pose proof (window_overlap_one w v) as H. rewrite Ea in H.
    destruct (proj1 H E) as (t & Ht & Cw & Cv).
    rewrite <- list_elem_of_In in Hw, Hv. eauto 8.
  - intros (t & Ht & (w & Hw & Cw) & (v & Hv & Cv)). exists w.
    rewrite <- list_elem_of_In. split; [done|].
    pose proof (window_overlap_one w v) as H.
    destruct (timeWindowIntervals w) as [a|] eqn:Ea.
    + apply existsb_exists. exists v. rewrite <- list_elem_of_In. split; [done|].
      apply H. eauto.
    + by apply timeWindowIntervals_None with (t := t) in Ea.
Qed.

Lemma hourInTimeWindows_spec windows hour :
  0 <= hour <= 23 ->
  hourInTimeWindows windows hour = true <->
  exists w, w ∈ windows /\ window_covers w (hour * 60).
Proof.
  intros Hh. unfold hourInTimeWindows. rewrite (proj2 (hour_ok_spec hour) Hh). cbn [negb].
  apply existsb_iff. intros w.
  destruct (timeWindowIntervals w) as [l|] eqn:El.
  - destruct (timeWindowIntervals_spec _ _ El) as [_ Hc].
    rewrite <- Hc by (unfold is_minute; lia). apply existsb_iff. intros i.
    unfold interval_has. rewrite andb_true_iff, Z.leb_le, Z.ltb_lt. done.
  - split; [done|]. intros H. by apply timeWindowIntervals_None with (t := hour * 60) in El.
Qed.
