(* ===== verification/PolicyFilter.v ===== *)
(** * PolicyFilter: the hard constraints of the central scheduler

    internal/scheduler/policy/filter_constraint.go and the helpers of
    simple_policy.go it calls.  A [FilterConstraint] is a record of its two
    methods; [Check] returns in [go], because the constraints dereference the
    node pointer and its availability without testing them.  The registry
    filled by [init] is the constant list [filterConstraints]. *)

From stdpp Require Import strings.
From S2P Require Import Prelude GoString ApiTypes Resources PolicyWindow.
Local Open Scope string_scope.
Local Open Scope list_scope.
Local Open Scope Z_scope.

Record FilterDecision := { Allowed : bool; fd_Reason : string }.

Definition allow (reason : string) : FilterDecision := {| Allowed := true; fd_Reason := reason |}.
Definition deny (reason : string) : FilterDecision := {| Allowed := false; fd_Reason := reason |}.

(** ** simple_policy.go *)

Definition nodeIsReady (node : option AINodeResourceProfile) : bool :=
  match node with
  | None => false
  | Some n =>
      bool_decide (nst_Phase (np_Status n) = "") || EqualFold (nst_Phase (np_Status n)) "Ready"
  end.

Definition requiresKVCache (required : ResourceSummary) (profile : option AIWorkloadProfile) : bool :=
  match profile with
  | None => KVCacheGiB required >? 0
  | Some p =>
      (KVCacheGiB required >? 0) ||
      bool_decide (wps_DemandShape (wp_Spec p) = DemandShapeKVHeavy)
  end.

Definition requiresTokenThroughput (required : ResourceSummary) (profile : option AIWorkloadProfile) : bool :=
  match profile with
  | None =>
      (PrefillTokensPerSecond required >? 0) ||
      (DecodeTokensPerSecond required >? 0) ||
      (TotalTokensPerSecond required >? 0)
  | Some p =>
      (PrefillTokensPerSecond required >? 0) ||
      (DecodeTokensPerSecond required >? 0) ||
      (TotalTokensPerSecond required >? 0) ||
      bool_decide (wps_DemandShape (wp_Spec p) = DemandShapePrefillHeavy) ||
      bool_decide (wps_DemandShape (wp_Spec p) = DemandShapeDecodeHeavy)
  end.

Definition runtimeSupports (node : option AINodeResourceProfile) : RuntimeSupports :=
  match node with
  | None => zero_RuntimeSupports
  | Some n =>
      match ns_Runtime (np_Spec n) with
      | None => zero_RuntimeSupports
      | Some r => from_ptr zero_RuntimeSupports (rsp_Supports r)
      end
  end.

Definition nodeCapabilities (node : option AINodeResourceProfile) : NodeCapabilities :=
  match node with
  | None => zero_NodeCapabilities
  | Some n => from_ptr zero_NodeCapabilities (ns_Capabilities (np_Spec n))
  end.

Definition reject (resource : string) (required available : Z) : FilterDecision :=
  deny ("insufficient " +:+ resource +:+ ": required=" +:+ show_Z required
        +:+ " available=" +:+ show_Z available).

(** ** filter_constraint.go: the constraints *)

Record FilterConstraint := {
  fc_Name : string;
  fc_Check : option AIWorkloadProfile -> option AINodeResourceProfile -> go FilterDecision
}.

Definition BaseFilterConstraint_Check
    (profile : option AIWorkloadProfile) (node : option AINodeResourceProfile) : FilterDecision :=
  match profile with
  | None => deny "missing AIWorkloadProfile"
  | Some _ =>
      match node with
      | None => deny "missing AINodeResourceProfile"
      | Some n =>
          if negb (nodeIsReady node) then
            deny ("node AI resource profile is not ready: phase=" +:+ nst_Phase (np_Status n))
          else
            match nst_Available (np_Status n) with
            | None => deny "node has no available resource summary"
            | Some _ => allow "base filter constraints satisfied"
            end
      end
  end.

Definition BaseFilterConstraint : FilterConstraint :=
  {| fc_Name := "BaseFilterConstraint";
     fc_Check profile node := Ret (BaseFilterConstraint_Check profile node) |}.

Definition RuntimeHardConstraint_Check
    (profile : option AIWorkloadProfile) (node : option AINodeResourceProfile) : FilterDecision :=
  let required := requiredResources profile in
  let supports := runtimeSupports node in
  if requiresKVCache required profile && negb (sup_KVCache supports) then
    deny "node runtime does not support KV cache"
  else if requiresTokenThroughput required profile && negb (sup_TokenThroughput supports) then
    deny "node runtime does not support token throughput control"
  else allow "runtime hard constraints satisfied".

Definition RuntimeHardConstraint : FilterConstraint :=
  {| fc_Name := "RuntimeHardConstraint";
     fc_Check profile node := Ret (RuntimeHardConstraint_Check profile node) |}.

Definition NodeCapabilityHardConstraint_Check
    (profile : option AIWorkloadProfile) (node : option AINodeResourceProfile) : FilterDecision :=
  match profile with
  | None => allow "no workload policy hard constraints"
  | Some p =>
      match wps_Policy (wp_Spec p) with
      | None => allow "no workload policy hard constraints"
      | Some policy =>
          let capabilities := nodeCapabilities node in
          if pol_AllowBorrowing policy && negb (cap_Borrowing capabilities) then
            deny "node does not support resource borrowing"
          else if pol_AllowReclaimFromLowerPriority policy && negb (cap_Reclaim capabilities) then
            deny "node does not support resource reclaim"
          else if pol_Throttleable policy && negb (cap_Throttling capabilities) then
            deny "node does not support throttling"
          else if pol_Pauseable policy && negb (cap_PauseResume capabilities) then
            deny "node does not support pause/resume"
          else if pol_Evictable policy && negb (cap_Eviction capabilities) then
            deny "node does not support eviction"
          else allow "node capability hard constraints satisfied"
      end
  end.

Definition NodeCapabilityHardConstraint : FilterConstraint :=
  {| fc_Name := "NodeCapabilityHardConstraint";
     fc_Check profile node := Ret (NodeCapabilityHardConstraint_Check profile node) |}.

Definition RequiredResourceFitConstraint_Check
    (profile : option AIWorkloadProfile) (node : option AINodeResourceProfile) : go FilterDecision :=
  let required := requiredResources profile in
  n <-! deref node;
  available <-! deref (nst_Available (np_Status n));
  Ret (
    if GPUCount required >? GPUCount available then
      reject "gpuCount" (GPUCount required) (GPUCount available)
    else if GPUMemoryGiB required >? GPUMemoryGiB available then
      reject "gpuMemoryGiB" (GPUMemoryGiB required) (GPUMemoryGiB available)
    else if KVCacheGiB required >? KVCacheGiB available then
      reject "kvCacheGiB" (KVCacheGiB required) (KVCacheGiB available)
    else if PrefillTokensPerSecond required >? PrefillTokensPerSecond available then
      reject "prefillTokensPerSecond" (PrefillTokensPerSecond required) (PrefillTokensPerSecond available)
    else if DecodeTokensPerSecond required >? DecodeTokensPerSecond available then
      reject "decodeTokensPerSecond" (DecodeTokensPerSecond required) (DecodeTokensPerSecond available)
    else if TotalTokensPerSecond required >? TotalTokensPerSecond available then
      reject "totalTokensPerSecond" (TotalTokensPerSecond required) (TotalTokensPerSecond available)
    else allow "required AI resources fit node availability").

Definition RequiredResourceFitConstraint : FilterConstraint :=
  {| fc_Name := "RequiredResourceFitConstraint";
     fc_Check := RequiredResourceFitConstraint_Check |}.

(** The hour loop of [TimeWindowEnvelopeConstraint.Check], over the hours
    still to visit: [None] when every hour passes, the rejection otherwise. *)
Fixpoint envelope_hours (p : AIWorkloadProfile) (n : AINodeResourceProfile)
    (capacity currentRequired currentMax : ResourceSummary) (hours : list Z) : option FilterDecision :=
  match hours with
  | [] => None
  | hour :: rest =>
      let total := nodeForecastResourceForHour (Some n) hour in
      let total := addResourceSummary total
                     (resourcesForHour (wps_TimeWindows (wp_Spec p)) currentRequired currentMax hour) in
      let '(fits, reason) := resourceSummaryFits total capacity in
      if negb fits then
        let reclaimable := reclaimableResourceForHour (Some p) (Some n) hour in
        if negb (resourceSummaryIsZero reclaimable) &&
           (resourceSummaryFits (subtractResourceSummary total reclaimable) capacity).1
        then envelope_hours p n capacity currentRequired currentMax rest
        else Some (deny ("time-window hourly envelope rejected: workload=" +:+ Name (wp_Meta p)
                         +:+ " hour=" +:+ show_02d hour +:+ ":00 reason=" +:+ reason))
      else envelope_hours p n capacity currentRequired currentMax rest
  end.

Definition all_hours : list Z := Z.of_nat <$> seq 0 24.

Definition TimeWindowEnvelopeConstraint_Check
    (profile : option AIWorkloadProfile) (node : option AINodeResourceProfile) : FilterDecision :=
  match profile, node with
  | Some p, Some n =>
      if negb (isOnlineWorkload (wps_WorkloadType (wp_Spec p))) ||
         (length (wps_TimeWindows (wp_Spec p)) =? 0)%nat
      then allow "time-window hard check not required"
      else
        match nodeCapacityForEnvelope node with
        | None => allow "node has no allocatable capacity for time-window envelope check"
        | Some capacity =>
            let currentRequired := requiredResources profile in
            let currentMax := maxResources profile in
            if resourceSummaryIsZero currentMax
            then allow "workload has no max resource envelope"
            else
              match envelope_hours p n capacity currentRequired currentMax all_hours with
              | Some d => d
              | None => allow "hourly time-window resource envelopes fit"
              end
        end
  | _, _ => deny "missing profile or node for time-window check"
  end.

Definition TimeWindowEnvelopeConstraint : FilterConstraint :=
  {| fc_Name := "TimeWindowEnvelopeConstraint";
     fc_Check profile node := Ret (TimeWindowEnvelopeConstraint_Check profile node) |}.

(** ** filter_constraint.go: the registry *)

Definition filterConstraints : list FilterConstraint :=
  [BaseFilterConstraint; RuntimeHardConstraint; NodeCapabilityHardConstraint;
   RequiredResourceFitConstraint; TimeWindowEnvelopeConstraint].

Fixpoint RunAllConstraints (constraints : list FilterConstraint)
    (profile : option AIWorkloadProfile) (node : option AINodeResourceProfile) : go FilterDecision :=
  match constraints with
  | [] => Ret (allow "all filter constraints passed")
  | constraint :: rest =>
      decision <-! fc_Check constraint profile node;
      if negb (Allowed decision)
      then Ret (deny (fc_Name constraint +:+ " rejected: " +:+ fd_Reason decision))
      else RunAllConstraints rest profile node
  end.

(** [SimplePolicy.Filter]. *)
Definition Filter (profile : option AIWorkloadProfile) (node : option AINodeResourceProfile)
    : go FilterDecision :=
  RunAllConstraints filterConstraints profile node.

(** ** The specification of an admissible placement *)

(** What the node must support for the workload. *)
Definition runtime_ok (p : AIWorkloadProfile) (n : AINodeResourceProfile) : Prop :=
  (0 < KVCacheGiB (requiredResources (Some p)) \/
   wps_DemandShape (wp_Spec p) = DemandShapeKVHeavy ->
   sup_KVCache (runtimeSupports (Some n)) = true) /\
  (0 < PrefillTokensPerSecond (requiredResources (Some p)) \/
   0 < DecodeTokensPerSecond (requiredResources (Some p)) \/
   0 < TotalTokensPerSecond (requiredResources (Some p)) \/
   wps_DemandShape (wp_Spec p) = DemandShapePrefillHeavy \/
   wps_DemandShape (wp_Spec p) = DemandShapeDecodeHeavy ->
   sup_TokenThroughput (runtimeSupports (Some n)) = true).

Definition capability_ok (p : AIWorkloadProfile) (n : AINodeResourceProfile) : Prop :=
  forall pol, wps_Policy (wp_Spec p) = Some pol ->
  let c := nodeCapabilities (Some n) in
  (pol_AllowBorrowing pol = true -> cap_Borrowing c = true) /\
  (pol_AllowReclaimFromLowerPriority pol = true -> cap_Reclaim c = true) /\
  (pol_Throttleable pol = true -> cap_Throttling c = true) /\
  (pol_Pauseable pol = true -> cap_PauseResume c = true) /\
  (pol_Evictable pol = true -> cap_Eviction c = true).

(** The demand of the node in one hour once the workload is placed. *)
Definition hour_demand (p : AIWorkloadProfile) (n : AINodeResourceProfile) (hour : Z) : ResourceSummary :=
  addResourceSummary (nodeForecastResourceForHour (Some n) hour)
    (resourcesForHour (wps_TimeWindows (wp_Spec p)) (requiredResources (Some p))
       (maxResources (Some p)) hour).

Definition hour_ok_spec_demand (p : AIWorkloadProfile) (n : AINodeResourceProfile)
    (capacity : ResourceSummary) (hour : Z) : Prop :=
  rs_le (hour_demand p n hour) capacity \/
  (reclaimableResourceForHour (Some p) (Some n) hour <> zero_ResourceSummary /\
   rs_le (subtractResourceSummary (hour_demand p n hour)
            (reclaimableResourceForHour (Some p) (Some n) hour)) capacity).

(** The envelope obligation: it binds online and hybrid workloads that
    declare windows and a peak budget, on nodes whose capacity is known. *)
Definition envelope_ok (p : AIWorkloadProfile) (n : AINodeResourceProfile) : Prop :=
  isOnlineWorkload (wps_WorkloadType (wp_Spec p)) = true ->
  wps_TimeWindows (wp_Spec p) <> [] ->
  maxResources (Some p) <> zero_ResourceSummary ->
  forall capacity, nodeCapacityForEnvelope (Some n) = Some capacity ->
  forall hour, 0 <= hour <= 23 -> hour_ok_spec_demand p n capacity hour.

Definition admissible (profile : option AIWorkloadProfile) (node : option AINodeResourceProfile) : Prop :=
  exists p n available,
    profile = Some p /\ node = Some n /\
    nodeIsReady node = true /\
    nst_Available (np_Status n) = Some available /\
    runtime_ok p n /\ capability_ok p n /\
    rs_le (requiredResources profile) available /\ envelope_ok p n.

(** ** Lemmas *)

Lemma Base_Allowed profile node :
  Allowed (BaseFilterConstraint_Check profile node) = true <->
  exists p n available, profile = Some p /\ node = Some n /\
    nodeIsReady node = true /\ nst_Available (np_Status n) = Some available.
Proof.
  unfold BaseFilterConstraint_Check. split.
  - intros H. destruct profile as [p|]; [|done]. destruct node as [n|]; [|done].
    destruct (nodeIsReady (Some n)) eqn:R; [|done]. cbn [negb] in H.
    destruct (nst_Available (np_Status n)) as [a|] eqn:A; [|done]. eauto 8.
  - intros (p & n & a & -> & -> & R & A). by rewrite R, A.
Qed.

(** A guard [if wanted && !supported { reject }] and what follows it. *)
Lemma Allowed_guard (b : bool) reason k :
  Allowed (if b then deny reason else k) = negb b && Allowed k.
Proof. by destruct b. Qed.

Lemma guard_iff (a s : bool) : negb (a && negb s) = true <-> (a = true -> s = true).
Proof. destruct a, s; cbn; intuition congruence. Qed.

Lemma Runtime_Allowed p n :
  Allowed (RuntimeHardConstraint_Check (Some p) (Some n)) = true <-> runtime_ok p n.
Proof.
  unfold RuntimeHardConstraint_Check, runtime_ok, requiresKVCache, requiresTokenThroughput.
  rewrite !Allowed_guard, !andb_true_iff, !guard_iff, !orb_true_iff, !bool_decide_eq_true,
    !Z.gtb_ltb, !Z.ltb_lt. cbn [Allowed allow]. tauto.
Qed.

Lemma Capability_Allowed p n :
  Allowed (NodeCapabilityHardConstraint_Check (Some p) (Some n)) = true <-> capability_ok p n.
Proof.
  unfold NodeCapabilityHardConstraint_Check, capability_ok.
  destruct (wps_Policy (wp_Spec p)) as [pol|]; [|cbn; naive_solver].
  rewrite !Allowed_guard, !andb_true_iff, !guard_iff. cbn [Allowed allow].
  split; [intros H ? [= <-]; tauto|]. intros H. specialize (H _ eq_refl). tauto.
Qed.

Lemma RequiredFit_Allowed profile n available :
  nst_Available (np_Status n) = Some available ->
  exists d, RequiredResourceFitConstraint_Check profile (Some n) = Ret d /\
    (Allowed d = true <-> rs_le (requiredResources profile) available).
Proof.
  intros A. unfold RequiredResourceFitConstraint_Check. cbn. rewrite A. cbn.
  eexists. split; [done|]. unfold reject.
  rewrite !Allowed_guard, !andb_true_iff, !negb_true_iff, !Z.gtb_ltb, !Z.ltb_ge.
  unfold rs_le, rs_all2. cbn [Allowed allow]. tauto.
Qed.

Lemma all_hours_elem h : h ∈ all_hours <-> 0 <= h <= 23.
Proof.
  unfold all_hours. rewrite list_elem_of_fmap. setoid_rewrite elem_of_seq. split.
  - intros (k & -> & Hk). lia.
  - intros Hh. exists (Z.to_nat h). lia.
Qed.

(** The loop passes exactly when every visited hour fits, with or without
    reclaiming; a rejection it returns is a denial. *)
Lemma envelope_hours_spec p n capacity hours :
  match envelope_hours p n capacity (requiredResources (Some p)) (maxResources (Some p)) hours with
  | None => forall hour, hour ∈ hours -> hour_ok_spec_demand p n capacity hour
  | Some d => Allowed d = false /\
              exists hour, hour ∈ hours /\ ~ hour_ok_spec_demand p n capacity hour
  end.
Proof.
  induction hours as [|h hours IH]; cbn [envelope_hours].
  { intros hour H. by apply elem_of_nil in H. }
  fold (hour_demand p n h).
  pose proof (resourceSummaryFits_spec (hour_demand p n h) capacity) as Hfit.
  destruct (resourceSummaryFits (hour_demand p n h) capacity) as [fits reason].
  set (rc := reclaimableResourceForHour (Some p) (Some n) h) in *.
  pose proof (resourceSummaryFits_spec (subtractResourceSummary (hour_demand p n h) rc) capacity) as Hadj.
  pose proof (isZero_spec rc) as Hz. cbn in Hfit.
  assert (Hstep : (fits || (negb (resourceSummaryIsZero rc) &&
      (resourceSummaryFits (subtractResourceSummary (hour_demand p n h) rc) capacity).1)) = true
      <-> hour_ok_spec_demand p n capacity h).
  { unfold hour_ok_spec_demand. fold rc.
    rewrite orb_true_iff, andb_true_iff, negb_true_iff, Hfit, Hadj, <- not_true_iff_false, Hz.
    done. }
  destruct fits; cbn [negb orb] in *;
    [|destruct (negb (resourceSummaryIsZero rc) && _) eqn:E].
  1,2: destruct (envelope_hours _ _ _ _ _ hours) as [d|].
  1,3: (destruct IH as [Hd (hour & Hh & Hn)]; split; [done|];
        exists hour; rewrite elem_of_cons; auto).
  1,2: (intros hour [->|Hh]%elem_of_cons; [by apply Hstep|by apply IH]).
  split; [done|]. exists h. split; [apply elem_of_cons; by left|].
  rewrite <- Hstep. done.
Qed.

Lemma Envelope_Allowed p n :
  Allowed (TimeWindowEnvelopeConstraint_Check (Some p) (Some n)) = true <-> envelope_ok p n.
Proof.
  unfold TimeWindowEnvelopeConstraint_Check, envelope_ok.
  destruct (isOnlineWorkload _) eqn:O; cbn [negb orb]; [|cbn; split; [|done]; by intros ?].
  destruct (wps_TimeWindows (wp_Spec p)) as [|w ws] eqn:W; cbn [length Nat.eqb].
  { cbn. split; [by intros ? ? []|done]. }
  destruct (nodeCapacityForEnvelope (Some n)) as [cap|] eqn:C.
  2:{ cbn. split; [by intros ? ? ? ? ? [=]|done]. }
  pose proof (isZero_spec (maxResources (Some p))) as Hz.
  destruct (resourceSummaryIsZero _) eqn:Z.
  { cbn. split; [|done]. intros _ _ _ []. by apply Hz. }
  assert (maxResources (Some p) <> zero_ResourceSummary) by (intros E; by apply Hz in E).
  pose proof (envelope_hours_spec p n cap all_hours) as Hs.
  destruct (envelope_hours _ _ _ _ _ _) as [d|]; cbn.
  - destruct Hs as [-> (h & Hh & Hn)]. split; [done|]. intros H'. exfalso. apply Hn.
    apply H'; auto. by apply all_hours_elem.
  - split; [|done]. intros _ _ _ _ ? [= <-] h Hh. by apply Hs, all_hours_elem.
Qed.

(** A run that returns and admits exactly under [P]. *)
Definition run_decides (r : go FilterDecision) (P : Prop) : Prop :=
  exists d, r = Ret d /\ (Allowed d = true <-> P).

Lemma run_decides_iff r P Q : (P <-> Q) -> run_decides r P -> run_decides r Q.
Proof. intros HPQ (d & Hd & H). exists d. split; [done|]. by rewrite H. Qed.

Lemma RunAll_nil profile node : run_decides (RunAllConstraints [] profile node) True.
Proof. eexists. split; [done|]. done. Qed.

(** One constraint of the chain: a denial stops it. *)
Lemma RunAll_cons c cs profile node P Q :
  run_decides (fc_Check c profile node) P ->
  (P -> run_decides (RunAllConstraints cs profile node) Q) ->
  run_decides (RunAllConstraints (c :: cs) profile node) (P /\ Q).
Proof.
  intros (d & Hd & HP) HQ. cbn [RunAllConstraints]. rewrite Hd. cbn.
  destruct (Allowed d) eqn:E; cbn [negb].
  - eapply run_decides_iff; [|by apply HQ, HP]. intuition.
  - eexists. split; [done|]. cbn. split; [done|]. intros [H _]. by apply HP in H.
Qed.

(** The five constraints together decide admissibility. *)
Lemma Filter_decides profile node : run_decides (Filter profile node) (admissible profile node).
Proof.
  apply (run_decides_iff _ ((exists p n available, profile = Some p /\ node = Some n /\
    nodeIsReady node = true /\ nst_Available (np_Status n) = Some available) /\
    admissible profile node)).
  { split; [by intros [_ H]|]. intros H. split; [|done].
    destruct H as (p & n & a & ? & ? & ? & ? & _). by exists p, n, a. }
  apply RunAll_cons; [eexists; split; [done|apply Base_Allowed]|].
  intros (p & n & a & -> & -> & R & A).
  eapply run_decides_iff; [|apply RunAll_cons; [eexists; split; [done|apply Runtime_Allowed]|]; intros _;
    apply RunAll_cons; [eexists; split; [done|apply Capability_Allowed]|]; intros _;
    apply RunAll_cons; [by apply RequiredFit_Allowed|]; intros _;
    apply RunAll_cons; [eexists; split; [done|apply Envelope_Allowed]|]; intros _;
    apply RunAll_nil].
  unfold admissible. split.
  - intros (? & ? & ? & ? & _). by exists p, n, a.
  - intros (? & ? & ? & [= <-] & [= <-] & _ & A' & H). rewrite A in A'. injection A' as <-. tauto.
Qed.

(** ** Properties *)

(** C4: the filter chain never panics, although two of its constraints
    dereference pointers unchecked, and it admits a node exactly when the
    placement is admissible: profile and ready node with known availability,
    runtime and capability support, required resources within availability,
    and every hour of the day within the node's capacity, possibly after
    reclaiming from lower-priority delay-tolerant allocations. *)
Theorem Filter_admits_iff_admissible
    (profile : option AIWorkloadProfile) (node : option AINodeResourceProfile) :
  exists d, Filter profile node = Ret d /\ (Allowed d = true <-> admissible profile node).
Proof. apply Filter_decides. Qed.
