(* ===== verification/PolicyScore.v ===== *)
(** * PolicyScore: soft scoring of the central scheduler

    internal/scheduler/policy/scorer.go, demand_shape.go and the scoring half
    of simple_policy.go.  A [Scorer] is a record of its two methods, a
    composer the list of its scorers with the demand-shape mapping.  Go ranges
    over maps in an unspecified order: the loops that do so are folds over an
    enumeration, applied to [map_to_list]. *)

From stdpp Require Import strings gmap.
From S2P Require Import Prelude GoString GoFloat ApiTypes Samples Resources PolicyWindow.
Local Open Scope string_scope.
Local Open Scope list_scope.
Local Open Scope Z_scope.

(** ** demand_shape.go *)

Definition normalizedDemandShape (shape : string) : string :=
  if bool_decide (shape = DemandShapeDecodeHeavy) || bool_decide (shape = DemandShapePrefillHeavy)
     || bool_decide (shape = DemandShapeKVHeavy) || bool_decide (shape = DemandShapeMixed)
  then shape else DemandShapeMixed.

Definition DemandShapeResourceWeights := gmap string float64.
Definition DemandShapeResourceMapping := gmap string DemandShapeResourceWeights.

Definition DefaultDemandShapeResourceMapping : DemandShapeResourceMapping :=
  {[ DemandShapeDecodeHeavy := {[ ResourceDecodeTokensPerSec := hundredths 40 ]};
     DemandShapePrefillHeavy := {[ ResourcePrefillTokensPerSec := hundredths 40 ]};
     DemandShapeKVHeavy := {[ ResourceKVCacheGiB := hundredths 40 ]};
     DemandShapeMixed := {[ ResourceBalancedResourceFocus := hundredths 40 ]} ]}.

(** The loop that looks for the heaviest resource. *)
Fixpoint best_weight (bestResource : string) (bestWeight : float64) (weights : list (string * float64))
    : string :=
  match weights with
  | [] => bestResource
  | (resource, weight) :: rest =>
      if fgtb weight bestWeight then best_weight resource weight rest
      else best_weight bestResource bestWeight rest
  end.

Definition FocusedResource (m : DemandShapeResourceMapping) (demandShape : string) : string :=
  let weights := default ∅ (m !! normalizedDemandShape demandShape) in
  if bool_decide (weights = ∅) then ResourceBalancedResourceFocus
  else
    let bestResource := best_weight "" f0 (map_to_list weights) in
    if bool_decide (bestResource = "") then ResourceBalancedResourceFocus else bestResource.

Definition focusedResourceForDemandShape (demandShape : string) : string :=
  FocusedResource DefaultDemandShapeResourceMapping demandShape.

Definition resourceHeadroomWeight (key resourceName : string) : float64 :=
  if bool_decide (key = ResourceBalancedResourceFocus) || bool_decide (key = "") then hundredths 40
  else if decide (resourceName = key) then hundredths 40
  else hundredths 30.

(** ** simple_policy.go: scoring helpers *)

Definition MaxNodeScore : Z := 100.

(** The tables [{name, preferred, available}] the loops below range over. *)
Definition resource_table (preferred available : ResourceSummary) : list (string * Z * Z) :=
  [(ResourceGPUCount, GPUCount preferred, GPUCount available);
   (ResourceGPUMemoryGiB, GPUMemoryGiB preferred, GPUMemoryGiB available);
   (ResourceKVCacheGiB, KVCacheGiB preferred, KVCacheGiB available);
   (ResourcePrefillTokensPerSec, PrefillTokensPerSecond preferred, PrefillTokensPerSecond available);
   (ResourceDecodeTokensPerSec, DecodeTokensPerSecond preferred, DecodeTokensPerSecond available);
   (ResourceTotalTokensPerSecond, TotalTokensPerSecond preferred, TotalTokensPerSecond available)].

(** [(matched, total)] *)
Definition preferredMatchCount (preferred available : ResourceSummary) : Z * Z :=
  fold_left (fun '(matched, total) '(_, p, a) =>
    if p <=? 0 then (matched, total)
    else (if a >=? p then matched + 1 else matched, total + 1))
    (resource_table preferred available) (0, 0).

(** [(preferred, available)] of the key resource *)
Definition keyResourceValues (key : string) (preferred available : ResourceSummary) : Z * Z :=
  if decide (key = ResourceDecodeTokensPerSec)
  then (DecodeTokensPerSecond preferred, DecodeTokensPerSecond available)
  else if decide (key = ResourcePrefillTokensPerSec)
  then (PrefillTokensPerSecond preferred, PrefillTokensPerSecond available)
  else if decide (key = ResourceKVCacheGiB) then (KVCacheGiB preferred, KVCacheGiB available)
  else (0, 0).

Definition keyResourceMatched (key : string) (preferred available : ResourceSummary) : bool :=
  let '(preferredValue, availableValue) := keyResourceValues key preferred available in
  if preferredValue <=? 0 then false else availableValue >=? preferredValue.

Definition cappedHeadroomPercent (available preferred : Z) : Z :=
  if (preferred <=? 0) || (available <=? preferred) then 0
  else
    let score := quot64 (mul64 (available -₃₂ preferred) 100) preferred in
    if score >? 100 then 100 else score.

Definition otherHeadroomScore (key : string) (preferred available : ResourceSummary) : Z :=
  let '(total, count) :=
    fold_left (fun '(total, count) '(name, p, a) =>
      if bool_decide (name = key) || (p <=? 0) || (a <=? p) then (total, count)
      else (add64 total (cappedHeadroomPercent a p), count + 1))
      (resource_table preferred available) (0, 0) in
  if count =? 0 then 0 else quot64 total count.

Definition keyResourceHeadroom (key : string) (preferred available : ResourceSummary) : Z :=
  if decide (key = ResourceBalancedResourceFocus)
  then wrap32 (otherHeadroomScore key preferred available)
  else
    let '(preferredValue, availableValue) := keyResourceValues key preferred available in
    if (preferredValue <=? 0) || (availableValue <=? preferredValue) then 0
    else availableValue -₃₂ preferredValue.

Definition normalizedHeadroom (available preferred : Z) : float64 :=
  if (preferred <=? 0) || (available <=? preferred) then f0
  else
    let headroom := fdiv (float64_of_int (available -₃₂ preferred)) (float64_of_int preferred) in
    if fgtb headroom f1 then f1 else headroom.

(** The loop accumulating [(weightedSum, weightSum)]. *)
Definition weighted_sums (key : string) (table : list (string * Z * Z)) : float64 * float64 :=
  fold_left (fun '(weightedSum, weightSum) '(name, p, a) =>
    if p <=? 0 then (weightedSum, weightSum)
    else
      let weight := resourceHeadroomWeight key name in
      (fadd weightedSum (fmul weight (normalizedHeadroom a p)), fadd weightSum weight))
    table (f0, f0).

Definition weightedHeadroomScore (key : string) (preferred available : ResourceSummary) : Z :=
  let '(weightedSum, weightSum) := weighted_sums key (resource_table preferred available) in
  if feqb weightSum f0 then 0
  else int64_of_round (fmul (fdiv weightedSum weightSum) (float64_of_int MaxNodeScore)).

(** [(comparedWindowCount, overlapCount, manageableOverlapCount)] *)
Definition window_counts (profile : AIWorkloadProfile) (allocations : list NodeAllocationStatus)
    : Z * Z * Z :=
  fold_left (fun '(compared, overlap, manageable) allocation =>
    match nas_TimeWindows allocation with
    | [] => (compared, overlap, manageable)
    | windows =>
        if negb (timeWindowsOverlap (wps_TimeWindows (wp_Spec profile)) windows)
        then (compared + 1, overlap, manageable)
        else (compared + 1, overlap + 1,
              if canCurrentWorkloadReclaimFrom (Some profile) allocation
              then manageable + 1 else manageable)
    end) allocations (0, 0, 0).

Definition timeWindowMultiplier (profile : option AIWorkloadProfile) (node : option AINodeResourceProfile)
    : float64 * string :=
  match profile, node with
  | Some p, Some n =>
      if decide (wps_TimeWindows (wp_Spec p) = []) then (hundredths 100, "workload has no time window")
      else if decide (length (nst_Allocations (np_Status n)) = 0%nat)
      then (hundredths 102, "node has no existing workload window")
      else
        let '(compared, overlap, manageable) := window_counts p (nst_Allocations (np_Status n)) in
        if compared =? 0 then (hundredths 102, "node has no comparable existing workload window")
        else if overlap =? 0 then (hundredths 105, "time windows are staggered with existing allocations")
        else if overlap =? manageable then
          (hundredths 102, "time window overlaps only with lower-priority delay-tolerant workloads: overlap="
             +:+ show_Z overlap)
        else
          (hundredths 95, "time window overlaps with competing online or same-priority workloads: overlap="
             +:+ show_Z overlap +:+ " manageable=" +:+ show_Z manageable)
  | _, _ => (hundredths 100, "missing profile or node")
  end.

(** [counts[shape]++] *)
Definition bump (shape : string) (counts : gmap string Z) : gmap string Z :=
  <[shape := default 0 (counts !! shape) + 1]> counts.

Definition demandShapeCounts (allocations : list NodeAllocationStatus) : gmap string Z :=
  fold_left (fun counts allocation =>
    let shape := normalizedDemandShape (nas_DemandShape allocation) in
    if decide (shape = DemandShapeDecodeHeavy) then bump DemandShapeDecodeHeavy counts
    else if decide (shape = DemandShapePrefillHeavy) then bump DemandShapePrefillHeavy counts
    else if decide (shape = DemandShapeKVHeavy) then bump DemandShapeKVHeavy counts
    else bump DemandShapeKVHeavy (bump DemandShapePrefillHeavy (bump DemandShapeDecodeHeavy counts)))
    allocations
    {[ DemandShapeDecodeHeavy := 0; DemandShapePrefillHeavy := 0; DemandShapeKVHeavy := 0 ]}.

Definition max_count (counts : list (string * Z)) : Z :=
  fold_left (fun maxCount kv => if kv.2 >? maxCount then kv.2 else maxCount) counts 0.

Definition maxDemandShapeCount (counts : gmap string Z) : Z := max_count (map_to_list counts).

Definition mixBalanceMultiplier (profile : option AIWorkloadProfile) (node : option AINodeResourceProfile)
    : float64 * string :=
  match profile, node with
  | Some p, Some n =>
      let currentShape := normalizedDemandShape (wps_DemandShape (wp_Spec p)) in
      if decide (currentShape = DemandShapeMixed)
      then (hundredths 100, "mixed workload has no focused resource shape")
      else
        let counts := demandShapeCounts (nst_Allocations (np_Status n)) in
        let maxCount := maxDemandShapeCount counts in
        let currentCount := default 0 (counts !! currentShape) in
        if currentCount <? maxCount then
          (hundredths 105, "underrepresented demandShape=" +:+ currentShape +:+ " count="
             +:+ show_Z currentCount +:+ " max=" +:+ show_Z maxCount)
        else
          (hundredths 100, "demandShape=" +:+ currentShape +:+ " count="
             +:+ show_Z currentCount +:+ " max=" +:+ show_Z maxCount)
  | _, _ => (hundredths 100, "missing profile or node")
  end.

Definition runtimeRiskPenalty (node : option AINodeResourceProfile) : Z :=
  match node with
  | Some n =>
      match nst_Runtime (np_Status n) with
      | Some r =>
          match rst_Pressure r with
          | Some pressure =>
              let risk := ToLower (pr_SLORisk pressure) in
              if decide (risk = SLORiskHigh) then 15
              else if decide (risk = SLORiskMedium) then 8
              else 0
          | None => 0
          end
      | None => 0
      end
  | None => 0
  end.

Definition applyMultiplier (score : Z) (multiplier : float64) : Z :=
  let multiplier := if fleb multiplier f0 then f1 else multiplier in
  int64_of_round (fmul (float64_of_int score) multiplier).

Definition clampScore (score : Z) : Z :=
  if score <? 0 then 0 else if score >? MaxNodeScore then MaxNodeScore else score.

Definition allocationResourceValue (required preferred available : Z) : Z :=
  let target := if preferred <=? 0 then required else preferred in
  if available >=? target then target else required.

Definition AllocationResources (profile : option AIWorkloadProfile) (node : option AINodeResourceProfile)
    : ResourceSummary :=
  let required := requiredResources profile in
  match profile, node with
  | Some _, Some n =>
      match nst_Available (np_Status n) with
      | Some available =>
          let preferred := preferredResources profile in
          {| GPUCount := allocationResourceValue (GPUCount required) (GPUCount preferred) (GPUCount available);
             GPUMemoryGiB := allocationResourceValue (GPUMemoryGiB required) (GPUMemoryGiB preferred)
                               (GPUMemoryGiB available);
             KVCacheGiB := allocationResourceValue (KVCacheGiB required) (KVCacheGiB preferred)
                             (KVCacheGiB available);
             PrefillTokensPerSecond :=
               allocationResourceValue (PrefillTokensPerSecond required) (PrefillTokensPerSecond preferred)
                 (PrefillTokensPerSecond available);
             DecodeTokensPerSecond :=
               allocationResourceValue (DecodeTokensPerSecond required) (DecodeTokensPerSecond preferred)
                 (DecodeTokensPerSecond available);
             TotalTokensPerSecond :=
               allocationResourceValue (TotalTokensPerSecond required) (TotalTokensPerSecond preferred)
                 (TotalTokensPerSecond available) |}
      | None => required
      end
  | _, _ => required
  end.

Definition AllocationType (profile : option AIWorkloadProfile) (resources : ResourceSummary) : string :=
  let required := requiredResources profile in
  if (GPUCount resources >? GPUCount required)
     || (GPUMemoryGiB resources >? GPUMemoryGiB required)
     || (KVCacheGiB resources >? KVCacheGiB required)
     || (PrefillTokensPerSecond resources >? PrefillTokensPerSecond required)
     || (DecodeTokensPerSecond resources >? DecodeTokensPerSecond required)
     || (TotalTokensPerSecond resources >? TotalTokensPerSecond required)
  then "preferred" else "guaranteed".

(** ** scorer.go *)

Record ScoringContext := {
  sc_Profile : option AIWorkloadProfile;
  sc_Node : option AINodeResourceProfile;
  sc_Preferred : ResourceSummary;
  sc_Available : ResourceSummary;
  sc_Key : string
}.

Record ScoreContribution := {
  ctb_Name : string;
  ctb_Score : Z;
  ctb_OtherScore : Z;
  ctb_Multiplier : float64;
  ctb_Penalty : Z;
  ctb_Reason : string
}.

Record Scorer := {
  sr_Name : string;
  sr_Score : ScoringContext -> ScoreContribution
}.

Record ScoreDecision := { sd_Score : Z; sd_Reason : string }.

Record NodeScoreDetail := {
  NodeName : string;
  PreferredMatched : Z;
  PreferredTotal : Z;
  KeyResource : string;
  KeyResourcePreferredMatched : bool;
  KeyResourceHeadroom : Z;
  OtherHeadroomScore : Z;
  WeightedHeadroomScore : Z;
  TimeWindowMultiplier : float64;
  TimeWindowReason : string;
  MixBalanceMultiplier : float64;
  MixBalanceReason : string;
  RuntimeRiskPenalty : Z;
  ExtraScore : Z;
  ExtraMultiplier : float64;
  ExtraPenalty : Z;
  nsd_Reason : string
}.

Definition zero_NodeScoreDetail : NodeScoreDetail :=
  {| NodeName := ""; PreferredMatched := 0; PreferredTotal := 0; KeyResource := "";
     KeyResourcePreferredMatched := false; KeyResourceHeadroom := 0; OtherHeadroomScore := 0;
     WeightedHeadroomScore := 0; TimeWindowMultiplier := f0; TimeWindowReason := "";
     MixBalanceMultiplier := f0; MixBalanceReason := ""; RuntimeRiskPenalty := 0; ExtraScore := 0;
     ExtraMultiplier := f0; ExtraPenalty := 0; nsd_Reason := "" |}.

Record ScoreComposer := {
  scorers : list Scorer;
  demandShapeMapping : DemandShapeResourceMapping
}.

Definition boolMultiplier (value : bool) : float64 := if value then f1 else f0.

Definition PreferredCoverageScorer : Scorer :=
  {| sr_Name := "PreferredCoverageScorer";
     sr_Score := fun ctx =>
       let '(matched, total) := preferredMatchCount (sc_Preferred ctx) (sc_Available ctx) in
       {| ctb_Name := "PreferredCoverageScorer"; ctb_Score := matched; ctb_OtherScore := 0;
          ctb_Multiplier := f0; ctb_Penalty := total;
          ctb_Reason := "preferredMatched=" +:+ show_Z matched +:+ "/" +:+ show_Z total |} |}.

Definition KeyResourceHeadroomScorer : Scorer :=
  {| sr_Name := "KeyResourceHeadroomScorer";
     sr_Score := fun ctx =>
       let key := sc_Key ctx in
       let matched := keyResourceMatched key (sc_Preferred ctx) (sc_Available ctx) in
       let headroom := keyResourceHeadroom key (sc_Preferred ctx) (sc_Available ctx) in
       let other := otherHeadroomScore key (sc_Preferred ctx) (sc_Available ctx) in
       let weighted := weightedHeadroomScore key (sc_Preferred ctx) (sc_Available ctx) in
       {| ctb_Name := "KeyResourceHeadroomScorer"; ctb_Score := weighted; ctb_OtherScore := other;
          ctb_Multiplier := boolMultiplier matched; ctb_Penalty := headroom;
          ctb_Reason := if decide (key = "") then ResourceBalancedResourceFocus else key |} |}.

Definition TimeWindowScorer : Scorer :=
  {| sr_Name := "TimeWindowScorer";
     sr_Score := fun ctx =>
       let '(multiplier, reason) := timeWindowMultiplier (sc_Profile ctx) (sc_Node ctx) in
       {| ctb_Name := "TimeWindowScorer"; ctb_Score := 0; ctb_OtherScore := 0;
          ctb_Multiplier := multiplier; ctb_Penalty := 0; ctb_Reason := reason |} |}.

Definition WorkloadMixScorer : Scorer :=
  {| sr_Name := "WorkloadMixScorer";
     sr_Score := fun ctx =>
       let '(multiplier, reason) := mixBalanceMultiplier (sc_Profile ctx) (sc_Node ctx) in
       {| ctb_Name := "WorkloadMixScorer"; ctb_Score := 0; ctb_OtherScore := 0;
          ctb_Multiplier := multiplier; ctb_Penalty := 0; ctb_Reason := reason |} |}.

Definition SLORiskScorer : Scorer :=
  {| sr_Name := "SLORiskScorer";
     sr_Score := fun ctx =>
       let penalty := runtimeRiskPenalty (sc_Node ctx) in
       {| ctb_Name := "SLORiskScorer"; ctb_Score := 0; ctb_OtherScore := 0; ctb_Multiplier := f0;
          ctb_Penalty := penalty; ctb_Reason := "runtimeRiskPenalty=" +:+ show_Z penalty |} |}.

Definition DefaultScorers : list Scorer :=
  [PreferredCoverageScorer; KeyResourceHeadroomScorer; TimeWindowScorer; WorkloadMixScorer; SLORiskScorer].

Definition NewScoreComposerWithOptions (options_Scorers : list Scorer)
    (options_DemandShapeMapping : DemandShapeResourceMapping) : ScoreComposer :=
  {| scorers := match options_Scorers with [] => DefaultScorers | s => s end;
     demandShapeMapping := if decide (options_DemandShapeMapping = ∅)
                           then DefaultDemandShapeResourceMapping
                           else options_DemandShapeMapping |}.

Definition NewScoreComposer (s : list Scorer) : ScoreComposer := NewScoreComposerWithOptions s ∅.

(** The [switch] on the contribution's name. *)
Definition applyContribution (detail : NodeScoreDetail) (c : ScoreContribution) : NodeScoreDetail :=
  let '(Build_NodeScoreDetail nodeName pm pt kr krm krh ohs whs twm twr mbm mbr rrp es em ep reason) := detail in
  if decide (ctb_Name c = sr_Name PreferredCoverageScorer) then
    Build_NodeScoreDetail nodeName (ctb_Score c) (ctb_Penalty c)
      kr krm krh ohs whs twm twr mbm mbr rrp es em ep reason
  else if decide (ctb_Name c = sr_Name KeyResourceHeadroomScorer) then
    Build_NodeScoreDetail nodeName pm pt
      (ctb_Reason c) (fgtb (ctb_Multiplier c) f0) (wrap32 (ctb_Penalty c)) (ctb_OtherScore c) (ctb_Score c)
      twm twr mbm mbr rrp es em ep reason
  else if decide (ctb_Name c = sr_Name TimeWindowScorer) then
    Build_NodeScoreDetail nodeName pm pt kr krm krh ohs whs
      (ctb_Multiplier c) (ctb_Reason c) mbm mbr rrp es em ep reason
  else if decide (ctb_Name c = sr_Name WorkloadMixScorer) then
    Build_NodeScoreDetail nodeName pm pt kr krm krh ohs whs twm twr
      (ctb_Multiplier c) (ctb_Reason c) rrp es em ep reason
  else if decide (ctb_Name c = sr_Name SLORiskScorer) then
    Build_NodeScoreDetail nodeName pm pt kr krm krh ohs whs twm twr mbm mbr
      (ctb_Penalty c) es em ep reason
  else
    Build_NodeScoreDetail nodeName pm pt kr krm krh ohs whs twm twr mbm mbr rrp
      (add64 es (ctb_Score c))
      (if fgtb (ctb_Multiplier c) f0
       then fmul (if fleb em f0 then f1 else em) (ctb_Multiplier c) else em)
      (add64 ep (ctb_Penalty c)) reason.

Definition contribution_of (scorer : Scorer) (ctx : ScoringContext) : ScoreContribution :=
  let c := sr_Score scorer ctx in
  {| ctb_Name := if decide (ctb_Name c = "") then sr_Name scorer else ctb_Name c;
     ctb_Score := ctb_Score c; ctb_OtherScore := ctb_OtherScore c; ctb_Multiplier := ctb_Multiplier c;
     ctb_Penalty := ctb_Penalty c; ctb_Reason := ctb_Reason c |}.

(** The loop over the scorers, with the reasons collected. *)
Fixpoint run_scorers (ss : list Scorer) (ctx : ScoringContext) (detail : NodeScoreDetail)
    (reasons : list string) : NodeScoreDetail * list string :=
  match ss with
  | [] => (detail, reasons)
  | scorer :: rest =>
      let c := contribution_of scorer ctx in
      run_scorers rest ctx (applyContribution detail c)
        (if decide (ctb_Reason c = "") then reasons else reasons ++ [ctb_Name c +:+ "=" +:+ ctb_Reason c])
  end.

Definition with_detail_reason (d : NodeScoreDetail) (reason : string) : NodeScoreDetail :=
  let '(Build_NodeScoreDetail nodeName pm pt kr krm krh ohs whs twm twr mbm mbr rrp es em ep _) := d in
  Build_NodeScoreDetail nodeName pm pt kr krm krh ohs whs twm twr mbm mbr rrp es em ep reason.

Definition detail_text (d : NodeScoreDetail) (reasons : list string) : string :=
  "preferredMatched=" +:+ show_Z (PreferredMatched d) +:+ "/" +:+ show_Z (PreferredTotal d)
  +:+ " keyResource=" +:+ KeyResource d
  +:+ " keyPreferredMatched=" +:+ show_bool (KeyResourcePreferredMatched d)
  +:+ " keyHeadroom=" +:+ show_Z (KeyResourceHeadroom d)
  +:+ " otherHeadroom=" +:+ show_Z (OtherHeadroomScore d)
  +:+ " weightedHeadroom=" +:+ show_Z (WeightedHeadroomScore d)
  +:+ " timeMultiplier=" +:+ show_2f (TimeWindowMultiplier d)
  +:+ " timeReason=" +:+ TimeWindowReason d
  +:+ " mixMultiplier=" +:+ show_2f (MixBalanceMultiplier d)
  +:+ " mixReason=" +:+ MixBalanceReason d
  +:+ " runtimeRiskPenalty=" +:+ show_Z (RuntimeRiskPenalty d)
  +:+ " extraScore=" +:+ show_Z (ExtraScore d)
  +:+ " extraMultiplier=" +:+ show_2f (ExtraMultiplier d)
  +:+ " extraPenalty=" +:+ show_Z (ExtraPenalty d)
  +:+ " contributions=[" +:+ Join reasons "; " +:+ "]".

(** The node's name in a detail: the spec's, or the object's. *)
Definition detail_node_name (node : option AINodeResourceProfile) : string :=
  match node with
  | Some n => if decide (ns_NodeName (np_Spec n) = "") then Name (np_Meta n) else ns_NodeName (np_Spec n)
  | None => ""
  end.

Definition start_detail (nodeName : string) (multiplier : float64) (reason : string) : NodeScoreDetail :=
  {| NodeName := nodeName; PreferredMatched := 0; PreferredTotal := 0; KeyResource := "";
     KeyResourcePreferredMatched := false; KeyResourceHeadroom := 0; OtherHeadroomScore := 0;
     WeightedHeadroomScore := 0; TimeWindowMultiplier := multiplier; TimeWindowReason := "";
     MixBalanceMultiplier := multiplier; MixBalanceReason := ""; RuntimeRiskPenalty := 0;
     ExtraScore := 0; ExtraMultiplier := multiplier; ExtraPenalty := 0; nsd_Reason := reason |}.

Definition BuildDetail (c : ScoreComposer) (profile : option AIWorkloadProfile)
    (node : option AINodeResourceProfile) : NodeScoreDetail :=
  let missing := start_detail (detail_node_name node) f0 "missing profile, node, or node availability" in
  match profile, node with
  | Some p, Some n =>
      match nst_Available (np_Status n) with
      | Some available =>
          let ctx :=
            {| sc_Profile := profile; sc_Node := node; sc_Preferred := preferredResources profile;
               sc_Available := available;
               sc_Key := FocusedResource (demandShapeMapping c) (wps_DemandShape (wp_Spec p)) |} in
          let '(detail, reasons) :=
            run_scorers (scorers c) ctx (start_detail (detail_node_name node) f1 "") [] in
          with_detail_reason detail (detail_text detail reasons)
      | None => missing
      end
  | _, _ => missing
  end.

(** The body of [Normalize]'s loop, for one node. *)
Definition normalize_detail (detail : NodeScoreDetail) : ScoreDecision :=
  let score := applyMultiplier (WeightedHeadroomScore detail) (TimeWindowMultiplier detail) in
  let score := applyMultiplier score (MixBalanceMultiplier detail) in
  let score := add64 score (ExtraScore detail) in
  let score := applyMultiplier score (ExtraMultiplier detail) in
  let totalPenalty := add64 (RuntimeRiskPenalty detail) (ExtraPenalty detail) in
  {| sd_Score := clampScore (sub64 score totalPenalty);
     sd_Reason := Join ([nsd_Reason detail;
                         "weightedHeadroomScore=" +:+ show_Z (WeightedHeadroomScore detail);
                         "adjustedScore=" +:+ show_Z score]
                        ++ (if totalPenalty >? 0 then ["totalPenalty=" +:+ show_Z totalPenalty] else []))
                    "; " |}.

Definition Normalize (details : gmap string NodeScoreDetail) : gmap string ScoreDecision :=
  normalize_detail <$> details.

(** ** simple_policy.go: the policy object *)

Record SimplePolicy := { scoreComposer : ScoreComposer }.

Definition NewSimplePolicy : SimplePolicy := {| scoreComposer := NewScoreComposer [] |}.
Definition NewSimplePolicyWithScorers (s : list Scorer) : SimplePolicy :=
  {| scoreComposer := NewScoreComposer s |}.

Definition NewSimplePolicyWithScoreComposerOptions (options_Scorers : list Scorer)
    (options_DemandShapeMapping : DemandShapeResourceMapping) : SimplePolicy :=
  {| scoreComposer := NewScoreComposerWithOptions options_Scorers options_DemandShapeMapping |}.

Definition ScoreDetail (p : SimplePolicy) (profile : option AIWorkloadProfile)
    (node : option AINodeResourceProfile) : NodeScoreDetail :=
  BuildDetail (scoreComposer p) profile node.

Definition NormalizeScoreDetails (details : gmap string NodeScoreDetail) : gmap string ScoreDecision :=
  Normalize details.
