(* ===== verification/ScoreOrder.v ===== *)
(** * ScoreOrder: what the scores of the central scheduler mean

    The theorems about scorer.go and the scoring half of simple_policy.go,
    binary64 rounding included: the weighted headroom is a percentage that
    grows with the free resources of the node, so does the policy's score of
    the node (before NormalizeScore relates it to the other candidates), and
    what is allocated on an admitted node fits it. *)

From stdpp Require Import strings gmap.
From S2P Require Import Prelude GoString GoFloat FloatFacts ApiTypes Samples Resources PolicyWindow.
From S2P Require Import PolicyFilter PolicyScore.
Local Open Scope string_scope.
Local Open Scope list_scope.
Local Open Scope Z_scope.

(** ** Lemmas: constants *)

Definition one : Z := 2 ^ scale.

Lemma one_pos : 0 < one.
Proof. by apply pow_pos. Qed.

Lemma one_limit n : 0 <= n <= 2 ^ 53 -> n * one <= limit.
Proof.
  intros Hn. unfold limit. rewrite pow_split by done. fold one. pose proof one_pos.
  pose proof (pow_le 53 1000). apply Z.mul_le_mono_nonneg_r; lia.
Qed.

(** A float in the unit interval, as weights and headrooms are. *)
Definition unit_float (x : float64) : Prop := nneg x /\ value x <= one.

Lemma f0_unit : unit_float f0.
Proof. split; [done|]. cbn [value f0]. pose proof one_pos. lia. Qed.

Lemma f1_value : nneg f1 /\ value f1 = one.
Proof.
  destruct (float64_of_int_value 1) as [H E]; [lia|]. split; [done|].
  unfold f1. rewrite E. unfold one. lia.
Qed.

Lemma f1_unit : unit_float f1.
Proof. destruct f1_value as [H E]. split; [done|]. lia. Qed.

(** The facts about a literal are computed. *)
Lemma literal_unit x : nneg x -> fleb x f1 = true -> unit_float x.
Proof.
  intros H E. destruct f1_value as [H1 E1]. rewrite fleb_value in E by done. split; [done|]. lia.
Qed.

Lemma literal_pos x : nneg x -> fgtb x f0 = true -> 0 < value x.
Proof. intros H E. rewrite fgtb_value in E by done. cbn [value f0] in E. lia. Qed.

(** ** Lemmas: the weighted headroom *)

Lemma weight_facts key name :
  unit_float (resourceHeadroomWeight key name) /\ 0 < value (resourceHeadroomWeight key name).
Proof.
  assert (W : forall x, x = hundredths 40 \/ x = hundredths 30 -> unit_float x /\ 0 < value x).
  { intros x [->| ->]; (split; [apply literal_unit|apply literal_pos]); vm_compute; done. }
  unfold resourceHeadroomWeight. apply W. destruct (_ || _); [auto|]. case_decide; auto.
Qed.

(** The ratio before it is capped. *)
Lemma headroom_ratio a p :
  in_int32 a -> 0 < p < a ->
  let q := fdiv (float64_of_int (a -₃₂ p)) (float64_of_int p) in
  nneg q /\ nearest q (p * one) ((a - p) * one * one).
Proof.
  intros Ha Hp. rewrite sub32_exact by i32. pose proof one_pos as Ho. unfold in_int32 in Ha.
  destruct (float64_of_int_value (a - p)) as [H E]; [lia|]. destruct (float64_of_int_value p) as [H' E']; [lia|].
  fold one in E, E'. rewrite <- E, <- E'. apply fdiv_nearest; [done|done|rewrite E'; nia|].
  rewrite E, E'. fold one. pose proof (one_limit (a - p) ltac:(lia)) as L.
  assert ((a - p) * one * one <= limit * one) by (apply Z.mul_le_mono_nonneg_r; lia).
  assert (1 * one * limit <= p * one * limit); [|lia].
  assert (0 <= limit) by (pose proof (one_limit 0); lia).
  apply Z.mul_le_mono_nonneg_r; [done|]. apply Z.mul_le_mono_nonneg_r; lia.
Qed.

Lemma headroom_cases a p :
  in_int32 a ->
  (p <= 0 \/ a <= p) /\ normalizedHeadroom a p = f0 \/
  (0 < p < a /\ exists q, nneg q /\ nearest q (p * one) ((a - p) * one * one) /\
     normalizedHeadroom a p = if value q >? one then f1 else q).
Proof.
  intros Ha. unfold normalizedHeadroom. destruct ((p <=? 0) || (a <=? p)) eqn:E.
  - left. split; [|done]. zbool. lia.
  - right. assert (0 < p < a) as Hp by (zbool; lia). split; [done|].
    destruct (headroom_ratio a p Ha Hp) as [H N]. eexists. split; [exact H|]. split; [exact N|].
    destruct f1_value as [H1 E1]. by rewrite fgtb_value, E1 by done.
Qed.

Lemma headroom_unit a p : in_int32 a -> unit_float (normalizedHeadroom a p).
Proof.
  intros Ha. destruct (headroom_cases a p Ha) as [[_ ->]|(_ & q & Hq & _ & ->)]; [apply f0_unit|].
  destruct (Z.gtb_spec (value q) one); [apply f1_unit|]. split; [done|]. lia.
Qed.

Lemma headroom_mono a a' p :
  in_int32 a -> in_int32 a' -> a <= a' ->
  value (normalizedHeadroom a p) <= value (normalizedHeadroom a' p).
Proof.
  intros Ha Ha' Hle. destruct (decide (a = a')) as [->|]; [done|].
  pose proof one_pos as Ho. destruct f1_value as [H1 E1].
  destruct (headroom_cases a p Ha) as [[_ ->]|(Hp & q & Hq & N & ->)]; [apply value_nonneg|].
  destruct (headroom_cases a' p Ha') as [[? _]|(Hp' & q' & Hq' & N' & ->)]; [lia|].
  assert (0 < p * one) by nia.
  assert (value q <= value q').
  { eapply nearest_mono; [| | | |exact N|exact N'|]; try done.
    apply Z.mul_lt_mono_pos_r; [done|]. do 2 (apply Z.mul_lt_mono_pos_r; [done|]). lia. }
  destruct (Z.gtb_spec (value q) one), (Z.gtb_spec (value q') one); lia.
Qed.

Lemma headroom_full a p : in_int32 a -> 0 < p -> 2 * p <= a -> normalizedHeadroom a p = f1.
Proof.
  intros Ha Hp Hle. pose proof one_pos as Ho. destruct f1_value as [H1 E1].
  destruct (headroom_cases a p Ha) as [[? _]|(_ & q & Hq & N & ->)]; [lia|].
  destruct (Z.gtb_spec (value q) one); [done|]. apply value_inj; [done..|]. rewrite E1.
  apply Z.le_antisymm; [lia|]. rewrite <- E1. apply (nearest_ge q f1 (p * one) _ ltac:(nia) Hq H1 N).
  rewrite E1. replace (one * (p * one)) with (p * one * one) by ring.
  do 2 (apply Z.mul_le_mono_nonneg_r; [lia|]). lia.
Qed.

(** Each row adds its weighted headroom, and stays below its weight. *)
Lemma weighted_unit w h : unit_float w -> unit_float h -> nneg (fmul w h) /\ value (fmul w h) <= value w.
Proof.
  intros [Hw Lw] [Hh Lh]. pose proof one_pos. pose proof (value_nonneg w). pose proof (one_limit 1).
  assert (value w * value h <= value w * one) by (apply Z.mul_le_mono_nonneg_l; lia).
  destruct (fmul_nearest w h) as [Hm N]; [done|done| |].
  { fold one. assert (value w * one <= limit * one) by (apply Z.mul_le_mono_nonneg_r; lia). lia. }
  split; [done|]. fold one in N. by apply (nearest_le _ w one _ ltac:(done) Hm Hw N).
Qed.

Lemma weighted_one w : unit_float w -> fmul w f1 = w.
Proof.
  intros Hw. destruct f1_value as [H1 E1]. destruct (weighted_unit w f1 Hw f1_unit) as [Hm _]. destruct Hw as [Hw Lw].
  pose proof one_pos. pose proof (one_limit 1).
  destruct (fmul_nearest w f1) as [_ N]; [done|done| |].
  { rewrite E1. fold one. assert (value w * one <= limit * one) by (apply Z.mul_le_mono_nonneg_r; lia). lia. }
  apply value_inj; [done..|]. apply (nearest_exact _ w _ _ ltac:(done) Hm Hw N). by rewrite E1.
Qed.

(** Sums of [k] numbers of the unit interval. *)
Definition sum_float (k : Z) (x : float64) : Prop := nneg x /\ value x <= k * one.

Lemma sum_add k x y : 0 <= k < 2 ^ 50 -> sum_float k x -> unit_float y -> sum_float (k + 1) (fadd x y).
Proof.
  intros Hk [Hx Lx] [Hy Ly]. pose proof (one_limit (k + 1)). pose proof one_pos.
  destruct (fadd_nearest x y) as [Hs N]; [done|done|lia|]. split; [done|].
  destruct (float64_of_int_value (k + 1)) as [Hi Ei]; [lia|]. fold one in Ei. rewrite <- Ei.
  apply (nearest_le _ _ 1 _ ltac:(done) Hs Hi N). rewrite Ei. lia.
Qed.

(** A row of the table and the same row with more available. *)
Definition row_le (r r' : string * Z * Z) : Prop :=
  r.1 = r'.1 /\ r.2 <= r'.2 /\ in_int32 r.2 /\ in_int32 r'.2.

(** The loop of [weightedHeadroomScore] from given sums. *)
Definition sums_from (key : string) (acc : float64 * float64) (table : list (string * Z * Z)) : float64 * float64 :=
  fold_left (fun '(weightedSum, weightSum) '(name, p, a) =>
    if p <=? 0 then (weightedSum, weightSum)
    else
      let weight := resourceHeadroomWeight key name in
      (fadd weightedSum (fmul weight (normalizedHeadroom a p)), fadd weightSum weight))
    table acc.

(** The two runs of the loop: same weights, ordered sums below the weights. *)
Definition sums_ordered (k : Z) (acc acc' : float64 * float64) : Prop :=
  acc.2 = acc'.2 /\ nneg acc.1 /\ nneg acc'.1 /\ sum_float k acc.2 /\
  value acc.1 <= value acc'.1 <= value acc.2.

Lemma sums_step key k acc acc' r r' :
  0 <= k < 2 ^ 50 -> sums_ordered k acc acc' -> row_le r r' ->
  sums_ordered (k + 1) (sums_from key acc [r]) (sums_from key acc' [r']).
Proof.
  destruct acc as [ws wt], acc' as [ws' wt'], r as [[name p] a], r' as [[name' p'] a'].
  intros Hk (E & H & H' & [Ht Lt] & L1 & L2) (Er & La & Ia & Ia'). cbn [fst snd] in *.
  subst wt'. injection Er as <- <-. cbn [sums_from fold_left]. pose proof one_pos as Ho.
  destruct (p <=? 0); [split_and!; try done; split; [done|]; cbn [fst snd]; lia|].
  destruct (weight_facts key name) as [Hw _].
  destruct (weighted_unit _ _ Hw (headroom_unit a p Ia)) as [F1 F2].
  destruct (weighted_unit _ _ Hw (headroom_unit a' p Ia')) as [F1' F2'].
  pose proof (one_limit (k + 1)) as Lim. pose proof (one_limit 1) as Lim1.
  assert (value (fmul (resourceHeadroomWeight key name) (normalizedHeadroom a p)) <=
          value (fmul (resourceHeadroomWeight key name) (normalizedHeadroom a' p))) as Lm.
  { destruct Hw as [Hw Lw]. destruct (headroom_unit a p Ia) as [Hh _], (headroom_unit a' p Ia') as [Hh' Lh'].
    apply fmul_mono; try first [assumption|apply Z.le_refl]; [by apply headroom_mono|]. fold one.
    apply Z.mul_le_mono_nonneg; try apply value_nonneg; lia. }
  destruct (sum_add k wt (resourceHeadroomWeight key name)) as [S1 S2]; [done..|].
  destruct Hw as [Hw Lw].
  split_and!; cbn [fst snd]; try done.
  - apply fadd_nearest; [done..|]. lia.
  - apply fadd_nearest; [done..|]. lia.
  - apply fadd_mono; try done. lia.
  - apply fadd_mono; try done. lia.
Qed.

Lemma sums_loop key table table' k acc acc' :
  0 <= k -> k + Z.of_nat (length table) < 2 ^ 50 ->
  sums_ordered k acc acc' -> Forall2 row_le table table' ->
  sums_ordered (k + Z.of_nat (length table)) (sums_from key acc table) (sums_from key acc' table').
Proof.
  intros Hk Hlen HO HF. revert k acc acc' Hk Hlen HO.
  induction HF as [|r r' table table' Hr HF IH]; intros k acc acc' Hk Hlen HO; cbn [length] in *.
  { by rewrite Z.add_0_r. }
  replace (k + Z.of_nat (S (length table))) with (k + 1 + Z.of_nat (length table)) by lia.
  change (sums_from key acc (r :: table)) with (sums_from key (sums_from key acc [r]) table).
  change (sums_from key acc' (r' :: table')) with (sums_from key (sums_from key acc' [r']) table').
  apply IH; [lia..|]. apply sums_step; [lia|done|done].
Qed.

(** The share of the weights that is headroom, as a percentage. *)
Lemma share_ordered ws ws' wt k :
  sums_ordered k (ws, wt) (ws', wt) -> 0 < value wt ->
  let percent x := int64_of_round (fmul (fdiv x wt) (float64_of_int MaxNodeScore)) in
  0 <= percent ws <= percent ws' /\ percent ws' <= 100 /\ (ws' = wt -> percent ws' = 100).
Proof.
  intros (_ & H & H' & [Ht _] & L1 & L2) Hpos. cbn [fst snd] in *. pose proof one_pos as Ho.
  destruct f1_value as [H1 E1]. destruct (float64_of_int_value MaxNodeScore) as [Hc Ec]; [done|]. fold one in Ec.
  pose proof (one_limit 1) as Lim1. pose proof (one_limit 100) as Lim.
  assert (D : forall x, nneg x -> value x <= value wt -> unit_float (fdiv x wt) /\
                value x * 2 ^ scale <= value wt * limit).
  { intros x Hx Lx. pose proof (value_nonneg x).
    assert (B : value x * one <= value wt * limit) by (apply Z.mul_le_mono_nonneg; lia).
    split; [|done]. destruct (fdiv_nearest x wt) as [Hd N]; [done..|]. split; [done|]. rewrite <- E1.
    apply (nearest_le _ f1 _ _ Hpos Hd H1 N). rewrite E1. fold one. rewrite Z.mul_comm.
    apply Z.mul_le_mono_nonneg_l; lia. }
  assert (M : forall x, nneg x -> value x <= value wt -> nneg (fmul (fdiv x wt) (float64_of_int MaxNodeScore)) /\
                value (fmul (fdiv x wt) (float64_of_int MaxNodeScore)) <= 100 * one /\
                value (fdiv x wt) * value (float64_of_int MaxNodeScore) <= one * limit).
  { intros x Hx Lx. destruct (D x Hx Lx) as [[Hd Ld] _]. pose proof (value_nonneg (fdiv x wt)).
    assert (B : value (fdiv x wt) * value (float64_of_int MaxNodeScore) <= one * limit)
      by (apply Z.mul_le_mono_nonneg; change MaxNodeScore with 100 in *; lia).
    destruct (fmul_nearest (fdiv x wt) (float64_of_int MaxNodeScore)) as [Hm N]; [done..|].
    split; [done|]. split; [|done]. change 100 with MaxNodeScore. rewrite <- Ec.
    apply (nearest_le _ (float64_of_int MaxNodeScore) _ _ Ho Hm Hc N). rewrite Z.mul_comm.
    apply Z.mul_le_mono_nonneg_l; [apply value_nonneg|lia]. }
  destruct (D ws H ltac:(lia)) as [[Hd Ld] _], (D ws' H' L2) as [[Hd' Ld'] B'].
  destruct (M ws H ltac:(lia)) as (Hm & Lm & _), (M ws' H' L2) as (Hm' & Lm' & Bm').
  assert (Hh : int64_of_round (float64_of_int MaxNodeScore) = 100) by (vm_compute; reflexivity).
  assert (Ls : value (fmul (fdiv ws wt) (float64_of_int MaxNodeScore)) <=
               value (fmul (fdiv ws' wt) (float64_of_int MaxNodeScore))).
  { apply fmul_mono; try first [assumption|apply Z.le_refl]. by apply fdiv_mono. }
  split; [apply int64_of_round_mono; try assumption; fold one; lia|]. split.
  - rewrite <- Hh. apply int64_of_round_mono; try assumption; fold one; rewrite Ec; change MaxNodeScore with 100; lia.
  - intros ->. apply int64_of_round_int; [done|lia|]. fold one.
    assert (Eone : fdiv wt wt = f1).
    { apply value_inj; [done..|]. destruct (fdiv_nearest wt wt) as [_ N]; [done..|].
      apply (nearest_exact _ _ _ _ Hpos Hd' H1 N). rewrite E1. unfold one. lia. }
    rewrite Eone. destruct (fmul_nearest f1 (float64_of_int MaxNodeScore)) as [H2 N]; [done|done| |].
    { by rewrite <- Eone. }
    change 100 with MaxNodeScore. rewrite <- Ec. apply (nearest_exact _ _ _ _ Ho H2 Hc N). rewrite E1. lia.
Qed.

Lemma table_le preferred available more :
  rs_wf available -> rs_wf more -> rs_le available more ->
  Forall2 row_le (resource_table preferred available) (resource_table preferred more).
Proof.
  intros Ha Hm Hle. unfold resource_table. repeat constructor; cbn [fst snd]; rs_solve.
Qed.

(** A property of all rows, row by row. *)
Ltac by_rows :=
  unfold resource_table; repeat (apply Forall_cons; split); try apply Forall_nil; cbn [fst snd]; rs_solve.

(** The weights only grow, and a row that is asked for counts. *)
Lemma weights_grow key table k acc :
  0 <= k -> k + Z.of_nat (length table) < 2 ^ 50 -> sum_float k acc.2 ->
  value acc.2 <= value (sums_from key acc table).2 /\
  ((exists r, r ∈ table /\ 0 < r.1.2) -> 0 < value (sums_from key acc table).2).
Proof.
  revert k acc. induction table as [|[[name p] a] table IH]; intros k [ws wt] Hk Hlen Hs; cbn [length] in *.
  { split; [done|]. intros (? & H & _). by apply elem_of_nil in H. }
  change (sums_from key (ws, wt) ((name, p, a) :: table)) with
    (sums_from key (sums_from key (ws, wt) [(name, p, a)]) table).
  cbn [sums_from fold_left]. fold (sums_from key). cbn [snd] in *. destruct (Z.leb_spec p 0).
  - destruct (IH k (ws, wt)) as [G1 G2]; [lia|lia|done|]. split; [done|].
    intros (r & Hr & Hp). apply G2. exists r. split; [|done].
    apply elem_of_cons in Hr as [->|]; [cbn in Hp; lia|done].
  - destruct (weight_facts key name) as [Hw Lw]. pose proof one_pos.
    destruct (sum_add k wt (resourceHeadroomWeight key name)) as [S1 S2]; [lia|done..|].
    pose proof (one_limit (k + 1)) as Lim. destruct Hs as [Ht Lt], Hw as [Hw Uw].
    destruct (fadd_nearest wt (resourceHeadroomWeight key name)) as [_ N]; [done|done|lia|].
    pose proof (value_nonneg wt).
    pose proof (nearest_ge _ wt _ _ Z.lt_0_1 S1 Ht N ltac:(lia)).
    pose proof (nearest_ge _ _ _ _ Z.lt_0_1 S1 Hw N ltac:(lia)).
    destruct (IH (k + 1) (fadd ws (fmul (resourceHeadroomWeight key name) (normalizedHeadroom a p)),
                          fadd wt (resourceHeadroomWeight key name))) as [G1 _]; [lia|lia|done|].
    cbn [snd] in *. unfold sums_from in *. split; [lia|]. intros _. lia.
Qed.

(** Twice the preferred amount everywhere: the sums are equal. *)
Lemma sums_full key table acc :
  acc.1 = acc.2 -> Forall (fun r => in_int32 r.2 /\ (r.1.2 <= 0 \/ 2 * r.1.2 <= r.2)) table ->
  (sums_from key acc table).1 = (sums_from key acc table).2.
Proof.
  intros E HF. revert acc E. induction HF as [|[[name p] a] table [Ia Hr] HF IH]; intros [ws wt] E; [done|].
  cbn [fst snd] in *. subst ws. unfold sums_from in *. cbn [fold_left].
  destruct (Z.leb_spec p 0); apply IH; [done|]. cbn [fst snd].
  rewrite headroom_full by (done || lia). rewrite weighted_one; [done|]. apply weight_facts.
Qed.

(** Nothing beyond the preferred amount anywhere: no headroom. *)
Lemma sums_none key table wt :
  Forall (fun r => r.2 <= r.1.2) table -> (sums_from key (f0, wt) table).1 = f0.
Proof.
  intros HF. revert wt. induction HF as [|[[name p] a] table Hr HF IH]; intros wt; [done|].
  cbn [fst snd] in *. unfold sums_from in *. cbn [fold_left]. destruct (Z.leb_spec p 0); [apply IH|].
  replace (fadd f0 (fmul (resourceHeadroomWeight key name) (normalizedHeadroom a p))) with f0; [apply IH|].
  unfold normalizedHeadroom. rewrite (proj2 (Z.leb_le a p)), orb_true_r by lia.
  destruct (weight_facts key name) as [[Hw _] _]. by destruct (resourceHeadroomWeight key name) as [[]| | |[]].
Qed.

Lemma start_ordered : sums_ordered 0 (f0, f0) (f0, f0).
Proof. by split_and!. Qed.

Lemma table_ordered key preferred available more :
  rs_wf available -> rs_wf more -> rs_le available more ->
  sums_ordered 6 (sums_from key (f0, f0) (resource_table preferred available))
    (sums_from key (f0, f0) (resource_table preferred more)).
Proof.
  intros Ha Hm Hle. apply (sums_loop key (resource_table preferred available) _ 0); [done|done|apply start_ordered|].
  by apply table_le.
Qed.

Lemma score_ordered key preferred available more :
  rs_wf available -> rs_wf more -> rs_le available more ->
  let score := weightedHeadroomScore key preferred in
  0 <= score available <= score more /\ score more <= 100.
Proof.
  intros Ha Hm Hle. cbv zeta. unfold weightedHeadroomScore.
  pose proof (table_ordered key preferred _ _ Ha Hm Hle) as S.
  change (weighted_sums key ?t) with (sums_from key (f0, f0) t).
  destruct (sums_from key _ (resource_table preferred available)) as [ws wt].
  destruct (sums_from key _ (resource_table preferred more)) as [ws' wt'].
  pose proof S as (E & _ & _ & [Ht _] & _). cbn [fst snd] in E, Ht. subst wt'.
  rewrite feqb_value by done. change (value f0) with 0. destruct (Z.eqb_spec (value wt) 0); [lia|].
  pose proof (value_nonneg wt). apply share_ordered in S; [|lia]. cbv zeta in S. tauto.
Qed.

(** C27: the weighted headroom score, computed in floating point, is a
    percentage that orders nodes the way it should: it lies in 0..100, never
    falls when the node has more of a resource, is 0 when nothing exceeds the
    preferred amounts and, if some preferred amount is positive, 100 when
    everything is at least twice of them. *)
Theorem weightedHeadroomScore_is_percentage key preferred available :
  rs_wf available ->
  let score := weightedHeadroomScore key preferred in
  0 <= score available <= 100 /\
  (forall more, rs_wf more -> rs_le available more -> score available <= score more) /\
  (rs_le available preferred -> score available = 0) /\
  (rs_le (rs_plus preferred preferred) available -> ~ rs_all (fun z => z <= 0) preferred ->
   score available = 100).
Proof.
  intros Ha. cbv zeta. assert (Hr : rs_le available available) by rs_solve.
  split; [|split; [|split]].
  - destruct (score_ordered key preferred _ _ Ha Ha Hr). lia.
  - intros more Hm Hle. by apply score_ordered.
  - intros Hle. unfold weightedHeadroomScore. change (weighted_sums key ?t) with (sums_from key (f0, f0) t).
    pose proof (table_ordered key preferred _ _ Ha Ha Hr) as S.
    assert (N : (sums_from key (f0, f0) (resource_table preferred available)).1 = f0)
      by (apply sums_none; by_rows).
    destruct (sums_from key _ _) as [ws wt]. cbn [fst] in N. subst ws.
    destruct S as (_ & _ & _ & [Ht _] & _). by destruct wt as [[]| | |[]].
  - intros Hle Hp. unfold weightedHeadroomScore. change (weighted_sums key ?t) with (sums_from key (f0, f0) t).
    pose proof (table_ordered key preferred _ _ Ha Ha Hr) as S.
    assert (F : (sums_from key (f0, f0) (resource_table preferred available)).1 =
                (sums_from key (f0, f0) (resource_table preferred available)).2).
    { apply sums_full; [done|]. by_rows. }
    destruct (weights_grow key (resource_table preferred available) 0 (f0, f0)) as [_ G]; [done..|by split|].
    destruct (sums_from key _ _) as [ws wt]. cbn [fst snd] in *. subst ws.
    assert (0 < value wt).
    { apply G, Exists_exists. apply dec_stable. intros N%Forall_Exists_neg. apply Hp.
      unfold resource_table in N. rewrite !Forall_cons in N. cbn [fst snd] in N. rs_solve. }
    pose proof S as (_ & _ & _ & [Ht _] & _). apply share_ordered in S as (_ & _ & S); [|done].
    rewrite feqb_value by done. change (value f0) with 0. destruct (Z.eqb_spec (value wt) 0); [lia|]. by apply S.
Qed.

Lemma weightedHeadroomScore_is_percentage_witness :
  rs_wf (res 3) /\
  0 <= weightedHeadroomScore ResourceKVCacheGiB (res 2) (res 3) <= 100 /\
  weightedHeadroomScore ResourceKVCacheGiB (res 2) (res 3) <= weightedHeadroomScore ResourceKVCacheGiB (res 2) (res 5) /\
  weightedHeadroomScore ResourceKVCacheGiB (res 3) (res 3) = 0 /\
  weightedHeadroomScore ResourceKVCacheGiB (res 1) (res 3) = 100.
Proof.
  assert (W : rs_wf (res 3)) by compute_decide. split; [exact W|].
  destruct (weightedHeadroomScore_is_percentage ResourceKVCacheGiB (res 2) (res 3) W) as (H1 & H2 & _).
  destruct (weightedHeadroomScore_is_percentage ResourceKVCacheGiB (res 3) (res 3) W) as (_ & _ & H3 & _).
  destruct (weightedHeadroomScore_is_percentage ResourceKVCacheGiB (res 1) (res 3) W) as (_ & _ & _ & H4).
  split; [exact H1|]. split; [apply H2; compute_decide|]. split; [apply H3; compute_decide|].
  apply H4; [compute_decide|]. intros [H _]. cbn in H. lia.
Defined.

(** ** Lemmas: the policy's score *)

(** The multipliers of the default scorers. *)
Definition factor (x : float64) : Prop := nneg x /\ 0 < value x <= 2 * one.

Lemma literal_factor x : nneg x -> fgtb x f0 = true -> fleb x (float64_of_int 2) = true -> factor x.
Proof.
  intros H P E. destruct (float64_of_int_value 2) as [H2 E2]; [lia|]. fold one in E2.
  rewrite fleb_value in E by done. split; [done|]. split; [by apply literal_pos|]. lia.
Qed.

Ltac literal := apply literal_factor; vm_compute; done.

Lemma timeWindow_factor profile node : factor (timeWindowMultiplier profile node).1.
Proof.
  unfold timeWindowMultiplier. destruct profile as [p|]; [|literal]. destruct node as [n|]; [|literal].
  case_decide; [literal|]. case_decide; [literal|].
  destruct (window_counts _ _) as [[compared overlap] manageable].
  destruct (compared =? 0); [literal|]. destruct (overlap =? 0); [literal|]. destruct (overlap =? manageable); literal.
Qed.

Lemma mixBalance_factor profile node : factor (mixBalanceMultiplier profile node).1.
Proof.
  unfold mixBalanceMultiplier. destruct profile as [p|]; [|literal]. destruct node as [n|]; [|literal].
  case_decide; [literal|]. cbv zeta. destruct (_ <? _); literal.
Qed.

Lemma applyMultiplier_mono s s' x :
  0 <= s <= s' -> s' <= 2 ^ 40 -> factor x ->
  0 <= applyMultiplier s x <= applyMultiplier s' x /\ applyMultiplier s' x <= 2 * s'.
Proof.
  intros Hs Hs' (Hx & Px & Lx). pose proof one_pos as Ho. unfold applyMultiplier.
  rewrite fleb_value by done. change (value f0) with 0. rewrite (proj2 (Z.leb_gt (value x) 0)) by lia.
  destruct (float64_of_int_value s) as [H E]; [lia|]. destruct (float64_of_int_value s') as [H' E']; [lia|].
  destruct (float64_of_int_value (2 * s')) as [H2 E2]; [lia|]. fold one in E, E', E2.
  pose proof (one_limit (2 * s') ltac:(lia)) as Lim.
  assert (B : value (float64_of_int s') * value x <= 2 * s' * one * one).
  { rewrite E'. replace (2 * s' * one * one) with (s' * one * (2 * one)) by ring.
    apply Z.mul_le_mono_nonneg_l; [nia|lia]. }
  assert (B' : value (float64_of_int s') * value x <= one * limit).
  { etransitivity; [exact B|]. rewrite Z.mul_comm. apply Z.mul_le_mono_nonneg_l; lia. }
  destruct (fmul_nearest (float64_of_int s') x) as [Hm' N']; [done|done|done|].
  assert (value (float64_of_int s) <= value (float64_of_int s')) as Le by (rewrite E, E'; nia).
  destruct (fmul_nearest (float64_of_int s) x) as [Hm N]; [done|done| |].
  { etransitivity; [|exact B']. apply Z.mul_le_mono_nonneg_r; lia. }
  assert (U : value (fmul (float64_of_int s') x) <= value (float64_of_int (2 * s'))).
  { apply (nearest_le _ _ _ _ Ho Hm' H2 N'). by rewrite E2. }
  assert (L60 : value (float64_of_int (2 * s')) <= 2 ^ 60 * one) by (rewrite E2; nia).
  split; [apply int64_of_round_mono; try assumption; [by apply fmul_mono; try first [assumption|apply Z.le_refl]|fold one; lia]|].
  rewrite <- (int64_of_round_int (float64_of_int (2 * s')) (2 * s')) by (done || lia).
  apply int64_of_round_mono; done.
Qed.

(** The loop over the scorers applies their contributions in turn. *)
Lemma run_scorers_fold ss ctx d reasons :
  (run_scorers ss ctx d reasons).1 = fold_left (fun d s => applyContribution d (contribution_of s ctx)) ss d.
Proof. revert d reasons. induction ss as [|s ss IH]; intros d reasons; [done|apply IH]. Qed.

(** What the five default scorers leave in the detail. *)
Lemma default_detail p n available :
  nst_Available (np_Status n) = Some available ->
  let profile := Some p in
  let node := Some n in
  let d := ScoreDetail NewSimplePolicy profile node in
  let key := focusedResourceForDemandShape (wps_DemandShape (wp_Spec p)) in
  (PreferredMatched d, PreferredTotal d) = preferredMatchCount (preferredResources profile) available /\
  WeightedHeadroomScore d = weightedHeadroomScore key (preferredResources profile) available /\
  TimeWindowMultiplier d = (timeWindowMultiplier profile node).1 /\
  MixBalanceMultiplier d = (mixBalanceMultiplier profile node).1 /\
  RuntimeRiskPenalty d = runtimeRiskPenalty node /\
  ExtraScore d = 0 /\ ExtraMultiplier d = f1 /\ ExtraPenalty d = 0.
Proof.
  intros A profile node d key. subst d. unfold ScoreDetail, BuildDetail, profile, node. rewrite A.
  change (FocusedResource _ _) with key. generalize key. intros k.
  match goal with |- context [run_scorers ?s ?c ?d ?r] =>
    pose proof (run_scorers_fold s c d r) as E; destruct (run_scorers s c d r) as [x reasons] end.
  cbn [fst] in E. generalize (detail_text x reasons). intros text. subst x.
  change (scorers _) with DefaultScorers. unfold DefaultScorers, contribution_of. cbn [fold_left].
  cbn [sr_Score PreferredCoverageScorer KeyResourceHeadroomScorer TimeWindowScorer WorkloadMixScorer SLORiskScorer
       sc_Profile sc_Node sc_Preferred sc_Available sc_Key].
  destruct (preferredMatchCount _ _) as [matched total], (timeWindowMultiplier _ _) as [window why],
    (mixBalanceMultiplier _ _) as [mix why'].
  generalize (weightedHeadroomScore k (preferredResources (Some p)) available), (runtimeRiskPenalty (Some n)).
  intros weighted penalty. by split_and!.
Qed.

Lemma matchCount_mono preferred available more :
  rs_wf available -> rs_wf more -> rs_le available more ->
  (preferredMatchCount preferred available).1 <= (preferredMatchCount preferred more).1 /\
  (preferredMatchCount preferred available).2 = (preferredMatchCount preferred more).2.
Proof.
  intros Ha Hm Hle. pose proof (table_le preferred _ _ Ha Hm Hle) as F. unfold preferredMatchCount.
  assert (G : forall acc acc' : Z * Z, acc.1 <= acc'.1 -> acc.2 = acc'.2 ->
    let count := fold_left (fun '(matched, total) '(_, p, a) =>
      if p <=? 0 then (matched, total) else (if a >=? p then matched + 1 else matched, total + 1)) in
    (count (resource_table preferred available) acc).1 <= (count (resource_table preferred more) acc').1 /\
    (count (resource_table preferred available) acc).2 = (count (resource_table preferred more) acc').2);
    [|by apply G].
  induction F as [|[[name p] a] [[name' p'] a'] t t' Hr F IH]; intros [m c] [m' c'] L E; [done|].
  destruct Hr as (Er & La & _). cbn [fst snd] in *. injection Er as <- <-. cbn [fold_left].
  apply IH; (destruct (p <=? 0); [done|]); cbn [fst snd]; [|lia].
  destruct (Z.geb_spec a p), (Z.geb_spec a' p); lia.
Qed.

Lemma runtimeRiskPenalty_range node : 0 <= runtimeRiskPenalty node <= 15.
Proof.
  unfold runtimeRiskPenalty. destruct node as [n|]; [|lia]. destruct (nst_Runtime _) as [r|]; [|lia].
  destruct (rst_Pressure r) as [pr|]; [|lia]. case_decide; [lia|]. case_decide; lia.
Qed.

(** The score of a detail without extra scorers grows with its headroom. *)
Lemma normalize_mono d d' :
  0 <= WeightedHeadroomScore d <= WeightedHeadroomScore d' -> WeightedHeadroomScore d' <= 100 ->
  TimeWindowMultiplier d = TimeWindowMultiplier d' -> MixBalanceMultiplier d = MixBalanceMultiplier d' ->
  factor (TimeWindowMultiplier d') -> factor (MixBalanceMultiplier d') ->
  RuntimeRiskPenalty d = RuntimeRiskPenalty d' -> 0 <= RuntimeRiskPenalty d' <= 15 ->
  ExtraScore d = 0 -> ExtraMultiplier d = f1 -> ExtraPenalty d = 0 ->
  ExtraScore d' = 0 -> ExtraMultiplier d' = f1 -> ExtraPenalty d' = 0 ->
  sd_Score (normalize_detail d) <= sd_Score (normalize_detail d').
Proof.
  intros W W' Et Em Ft Fm Er Hr X1 X2 X3 Y1 Y2 Y3. unfold normalize_detail. cbn [sd_Score].
  rewrite X1, X2, X3, Y1, Y2, Y3, Et, Em, Er.
  set (t := TimeWindowMultiplier d') in *. set (m := MixBalanceMultiplier d') in *.
  destruct (applyMultiplier_mono _ _ t W) as [A B]; [lia|done|].
  destruct (applyMultiplier_mono _ _ m A) as [A1 B1]; [lia|done|].
  assert (F1 : factor f1) by literal.
  assert (add64_0 : forall z, 0 <= z <= 400 -> add64 z 0 = z).
  { intros z Hz. unfold add64. rewrite wrap64_id; [lia|]. unfold in_int64. lia. }
  rewrite !add64_0 by lia.
  destruct (applyMultiplier_mono _ _ f1 A1) as [A2 B2]; [lia|done|].
  unfold sub64. rewrite !wrap64_id by (unfold in_int64; lia).
  unfold clampScore, MaxNodeScore.
  repeat match goal with |- context [?a <? ?b] => destruct (Z.ltb_spec a b) | |- context [?a >? ?b] => destruct (Z.gtb_spec a b) end; lia.
Qed.

(** [n] with other free resources. *)
Definition with_available (n : AINodeResourceProfile) (available : ResourceSummary) : AINodeResourceProfile :=
  let s := np_Status n in
  {| np_Meta := np_Meta n; np_Spec := np_Spec n;
     np_Status := {| nst_Phase := nst_Phase s; nst_ObservedAt := nst_ObservedAt s; nst_GPUs := nst_GPUs s;
                     nst_Allocatable := nst_Allocatable s; nst_Allocated := nst_Allocated s;
                     nst_Available := Some available; nst_HourlyForecast := nst_HourlyForecast s;
                     nst_Runtime := nst_Runtime s; nst_Allocations := nst_Allocations s;
                     nst_Conditions := nst_Conditions s |} |}.

(** More free resources never make the detail of a node worse: everything
    else equal, the count of matched preferences, which decides the tier, and
    the policy's score of the detail, which decides within the tier, both stay
    or grow. *)
Lemma detail_mono p n available more :
  rs_wf available -> rs_wf more -> rs_le available more ->
  let detail a := ScoreDetail NewSimplePolicy (Some p) (Some (with_available n a)) in
  PreferredMatched (detail available) <= PreferredMatched (detail more) /\
  sd_Score (normalize_detail (detail available)) <= sd_Score (normalize_detail (detail more)).
Proof.
  intros Ha Hm Hle detail.
  destruct (default_detail p (with_available n available) available eq_refl) as (C & W & T & M & R & X1 & X2 & X3).
  destruct (default_detail p (with_available n more) more eq_refl) as (C' & W' & T' & M' & R' & Y1 & Y2 & Y3).
  fold (detail available) in *. fold (detail more) in *.
  destruct (matchCount_mono (preferredResources (Some p)) available more) as [L _]; [done..|].
  rewrite <- C, <- C' in L. split; [done|].
  destruct (score_ordered (focusedResourceForDemandShape (wps_DemandShape (wp_Spec p)))
    (preferredResources (Some p)) available more) as [S S']; [done..|]. rewrite <- W, <- W' in S. rewrite <- W' in S'.
  apply normalize_mono; [exact S|exact S'|rewrite T, T'; reflexivity|rewrite M, M'; reflexivity|
    rewrite T'; apply timeWindow_factor|rewrite M'; apply mixBalance_factor|rewrite R, R'; reflexivity|
    rewrite R'; apply runtimeRiskPenalty_range|exact X1|exact X2|exact X3|exact Y1|exact Y2|exact Y3].
Qed.

Example sample_scores :
  let score a := sd_Score (normalize_detail (ScoreDetail NewSimplePolicy
    (Some (workload "chat" "high" [daytime] 1 2 3)) (Some (with_available (node_with 8 4 []) a)))) in
  (score (res 2), score (res 3), score (res 4)) = (0, 51, 100).
Proof. vm_compute. reflexivity. Qed.

(** ** What is allocated *)

(** [granted] is what one dimension gets of what was asked and is there. *)
Definition granted_value (required preferred available granted : Z) : Prop :=
  granted <= available /\
  (0 < preferred <= available -> granted = preferred) /\
  (available < preferred \/ preferred <= 0 -> granted = required).

Lemma allocationResourceValue_spec required preferred available :
  required <= available ->
  granted_value required preferred available (allocationResourceValue required preferred available).
Proof.
  intros H. unfold granted_value, allocationResourceValue.
  destruct (Z.leb_spec preferred 0), (Z.geb_spec available preferred), (Z.geb_spec available required); lia.
Qed.

Definition rs_all4 (P : Z -> Z -> Z -> Z -> Prop) (a b c d : ResourceSummary) : Prop :=
  P (GPUCount a) (GPUCount b) (GPUCount c) (GPUCount d) /\
  P (GPUMemoryGiB a) (GPUMemoryGiB b) (GPUMemoryGiB c) (GPUMemoryGiB d) /\
  P (KVCacheGiB a) (KVCacheGiB b) (KVCacheGiB c) (KVCacheGiB d) /\
  P (PrefillTokensPerSecond a) (PrefillTokensPerSecond b) (PrefillTokensPerSecond c) (PrefillTokensPerSecond d) /\
  P (DecodeTokensPerSecond a) (DecodeTokensPerSecond b) (DecodeTokensPerSecond c) (DecodeTokensPerSecond d) /\
  P (TotalTokensPerSecond a) (TotalTokensPerSecond b) (TotalTokensPerSecond c) (TotalTokensPerSecond d).

Lemma AllocationType_spec profile resources :
  AllocationType profile resources = "guaranteed" <-> rs_le resources (requiredResources profile).
Proof.
  unfold AllocationType.
  match goal with |- (if ?b then _ else _) = _ <-> _ =>
    assert (E : b = false <-> rs_le resources (requiredResources profile)); [|destruct b; intuition congruence] end.
  rewrite !orb_false_iff, !Z.gtb_ltb, !Z.ltb_ge. unfold rs_le, rs_all2. tauto.
Qed.

Lemma admitted_grants profile node d :
  Filter profile node = Ret d -> Allowed d = true ->
  exists n available, node = Some n /\ nst_Available (np_Status n) = Some available /\
    rs_all4 granted_value (requiredResources profile) (preferredResources profile) available
      (AllocationResources profile node).
Proof.
  intros HF HA. destruct (Filter_decides profile node) as (d' & HF' & Hiff). rewrite HF in HF'. injection HF' as <-.
  apply Hiff in HA as (p & n & available & -> & -> & _ & A & _ & _ & Hreq & _).
  exists n, available. split; [done|]. split; [done|].
  unfold AllocationResources. rewrite A. destruct Hreq as (? & ? & ? & ? & ? & ?).
  repeat split; by apply allocationResourceValue_spec.
Qed.

(** C17: what the scheduler allocates on a node it admitted is there: in every
    dimension the workload gets its preferred amount if the node has it free
    and its required amount otherwise, never more than is free, and the
    allocation is called guaranteed exactly when nothing exceeds the required
    amounts. *)
Theorem admitted_allocation_fits profile node d :
  Filter profile node = Ret d -> Allowed d = true ->
  exists n available, node = Some n /\ nst_Available (np_Status n) = Some available /\
    let resources := AllocationResources profile node in
    rs_le resources available /\
    rs_all4 granted_value (requiredResources profile) (preferredResources profile) available resources /\
    (AllocationType profile resources = "guaranteed" <-> rs_le resources (requiredResources profile)).
Proof.
  intros HF HA. destruct (admitted_grants _ _ _ HF HA) as (n & available & E & A & G).
  exists n, available. split; [done|]. split; [done|]. split; [|split; [done|apply AllocationType_spec]].
  destruct G as ((? & _) & (? & _) & (? & _) & (? & _) & (? & _) & (? & _)). by split_and!.
Qed.

Lemma admitted_allocation_fits_witness :
  let profile := Some (workload "chat" "high" [daytime] 1 2 3) in
  let node := Some (node_with 8 4 []) in
  (exists d, Filter profile node = Ret d /\ Allowed d = true) /\
  rs_le (AllocationResources profile node) (res 4) /\ AllocationType profile (AllocationResources profile node) = "preferred".
Proof.
  intros profile node.
  assert (exists d, Filter profile node = Ret d /\ Allowed d = true) as (d & HF & HA)
    by (eexists; split; [vm_compute; reflexivity|reflexivity]).
  split; [exists d; split; assumption|].
  destruct (admitted_allocation_fits profile node d HF HA) as (n & available & E & A & Hle & _).
  unfold node in E. injection E as <-. cbn in A. injection A as <-.
  split; [exact Hle|]. vm_compute. reflexivity.
Defined.

(** A preferred amount below the required one wins: the workload is given less
    than it requires. *)
Theorem small_preference_undercuts_required :
  let profile := Some (workload "chat" "high" [] 2 1 3) in
  let node := Some (node_with 8 4 []) in
  (exists d, Filter profile node = Ret d /\ Allowed d = true) /\ AllocationResources profile node = res 1.
Proof. split; [eexists; split; [vm_compute; reflexivity|reflexivity]|vm_compute; reflexivity]. Qed.
