(* ===== verification/PluginState.v ===== *)
(** * PluginState: the per-pod scheduling state and the scoring hooks

    internal/scheduler/plugin/state.go, plugin.go, resolver.go, filter.go and
    score.go.  [schedulingState] is shared through a pointer kept in the
    framework's [CycleState]; every hook reads it, and writes it back, so the
    hooks pass the cycle state explicitly.  Its mutex makes each method one
    atomic step, and Score runs concurrently for the candidate nodes, so an
    execution is a sequence of [recordScoreDetail] steps in some order.

    Parameters: the API reads of the client ([Reader]), and the text of the
    error [CycleState.Read] returns for a missing key. *)

From stdpp Require Import strings gmap sorting.
From S2P Require Import Prelude GoString GoFloat ApiTypes Samples Resources PolicyWindow PolicyFilter PolicyScore.
Local Open Scope string_scope.
Local Open Scope list_scope.
Local Open Scope Z_scope.

(** ** Framework objects the hooks use *)

Inductive Code := CodeError | CodeUnschedulable | CodeUnschedulableAndUnresolvable | CodeSkip.
Record Status := { st_Code : Code; st_Message : string }.

(** The fields of a pod the program reads or writes; [pod_Rest] stands for
    the rest of its spec, which is only ever copied. *)
Record Pod := {
  pod_Meta : ObjectMeta;
  pod_SchedulerName : string;
  pod_NodeName : string;
  pod_Phase : string;
  pod_Rest : string
}.

(** [framework.MaxNodeScore] *)
Definition framework_MaxNodeScore : Z := 100.

(** ** state.go *)

Record schedulingState := {
  profile : option AIWorkloadProfile;
  nodeResources : gmap string AINodeResourceProfile;
  scoreDetails : gmap string NodeScoreDetail;
  scoreDecisions : gmap string ScoreDecision;
  bestPreferredMatched : Z;
  bestPreferredScore : Z;
  bestPreferredNodes : gset string
}.

Definition newSchedulingState (p : option AIWorkloadProfile) : schedulingState :=
  {| profile := p; nodeResources := ∅; scoreDetails := ∅; scoreDecisions := ∅;
     bestPreferredMatched := -1; bestPreferredScore := 1; bestPreferredNodes := ∅ |}.

(** A copy shares nothing with the original that either may change. *)
Definition Clone (s : option schedulingState) : schedulingState :=
  match s with
  | None => newSchedulingState None
  | Some s =>
      {| profile := profile s; nodeResources := nodeResources s; scoreDetails := scoreDetails s;
         scoreDecisions := scoreDecisions s; bestPreferredMatched := bestPreferredMatched s;
         bestPreferredScore := bestPreferredScore s; bestPreferredNodes := bestPreferredNodes s |}
  end.

Definition setProfile (s : schedulingState) (p : option AIWorkloadProfile) : schedulingState :=
  {| profile := p; nodeResources := nodeResources s; scoreDetails := scoreDetails s;
     scoreDecisions := scoreDecisions s; bestPreferredMatched := bestPreferredMatched s;
     bestPreferredScore := bestPreferredScore s; bestPreferredNodes := bestPreferredNodes s |}.

Definition getNodeResource (s : schedulingState) (nodeName : string) : option AINodeResourceProfile :=
  nodeResources s !! nodeName.

Definition setNodeResource (s : schedulingState) (nodeName : string) (r : AINodeResourceProfile)
    : schedulingState :=
  {| profile := profile s; nodeResources := <[nodeName := r]> (nodeResources s);
     scoreDetails := scoreDetails s; scoreDecisions := scoreDecisions s;
     bestPreferredMatched := bestPreferredMatched s; bestPreferredScore := bestPreferredScore s;
     bestPreferredNodes := bestPreferredNodes s |}.

Definition recordScoreDetail (s : schedulingState) (nodeName : string) (detail : NodeScoreDetail)
    : schedulingState * Z :=
  let details := <[nodeName := detail]> (scoreDetails s) in
  let update matched score nodes :=
    {| profile := profile s; nodeResources := nodeResources s; scoreDetails := details;
       scoreDecisions := scoreDecisions s; bestPreferredMatched := matched;
       bestPreferredScore := score; bestPreferredNodes := nodes |} in
  if PreferredMatched detail >? bestPreferredMatched s then
    let score := add64 (bestPreferredScore s) 1 in
    (update (PreferredMatched detail) score {[ nodeName ]}, score)
  else if PreferredMatched detail =? bestPreferredMatched s then
    (update (bestPreferredMatched s) (bestPreferredScore s) ({[ nodeName ]} ∪ bestPreferredNodes s),
     bestPreferredScore s)
  else
    (update (bestPreferredMatched s) (bestPreferredScore s) (bestPreferredNodes s),
     sub64 (bestPreferredScore s) 1).

Definition scoreDetailSnapshot (s : schedulingState) : gmap string NodeScoreDetail := scoreDetails s.

(** The recorded details of the best nodes. *)
Definition bestScoreDetailSnapshot (s : schedulingState) : gmap string NodeScoreDetail :=
  filter (fun kv => kv.1 ∈ bestPreferredNodes s) (scoreDetails s).

Definition setScoreDecision (s : schedulingState) (nodeName : string) (d : ScoreDecision)
    : schedulingState :=
  {| profile := profile s; nodeResources := nodeResources s; scoreDetails := scoreDetails s;
     scoreDecisions := <[nodeName := d]> (scoreDecisions s);
     bestPreferredMatched := bestPreferredMatched s; bestPreferredScore := bestPreferredScore s;
     bestPreferredNodes := bestPreferredNodes s |}.

Definition getScoreDecision (s : schedulingState) (nodeName : string) : option ScoreDecision :=
  scoreDecisions s !! nodeName.

(** What the cycle state holds under [schedulingStateKey]. *)
Inductive CycleState := CycleEmpty | CycleData (s : schedulingState) | CycleOther.

Definition readSchedulingState (missing : string) (state : CycleState) : schedulingState + Status :=
  match state with
  | CycleEmpty =>
      inr {| st_Code := CodeError;
             st_Message := "read Astra scheduling state failed: " +:+ missing |}
  | CycleOther =>
      inr {| st_Code := CodeError; st_Message := "Astra scheduling state has unexpected type" |}
  | CycleData s => inl s
  end.

(** ** plugin.go *)

Definition plugin_Name : string := "AstraScheduler".
Definition DefaultNodeResourceNamespace : string := "astra-system".

(** The environment variable's value is the argument. *)
Definition nodeResourceNamespace (env : string) : string :=
  if decide (env = "") then DefaultNodeResourceNamespace else env.

(** ** resolver.go *)

Definition SchedulerName : string := "astra-scheduler".
Definition WorkloadProfileAnnotation : string := "astra.aiinfra.io/workload-profile".

Inductive ApiError := NotFound (text : string) | AlreadyExists (text : string) | Conflict (text : string)
  | OtherError (text : string).
Definition error_text (e : ApiError) : string :=
  match e with NotFound t | AlreadyExists t | Conflict t | OtherError t => t end.
Definition IsNotFound (e : ApiError) : bool := match e with NotFound _ => true | _ => false end.
Definition IsAlreadyExists (e : ApiError) : bool := match e with AlreadyExists _ => true | _ => false end.
Definition IsConflict (e : ApiError) : bool := match e with Conflict _ => true | _ => false end.

(** The reads the plugin makes through its client, by namespace and name. *)
Record Reader := {
  get_profile : string -> string -> AIWorkloadProfile + ApiError;
  get_node : string -> string -> AINodeResourceProfile + ApiError
}.

Record AstraScheduler := {
  client : Reader;
  policy : SimplePolicy;
  nodeNamespace : string;
  missing_key : string
}.

Definition resolveProfile (p : AstraScheduler) (pod : Pod) : AIWorkloadProfile + Status :=
  let profileName := map_get (Annotations (pod_Meta pod)) WorkloadProfileAnnotation in
  if decide (profileName = "") then
    inr {| st_Code := CodeUnschedulableAndUnresolvable;
           st_Message := "missing annotation " +:+ WorkloadProfileAnnotation |}
  else
    match get_profile (client p) (Namespace (pod_Meta pod)) profileName with
    | inl prof => inl prof
    | inr err =>
        if IsNotFound err then
          inr {| st_Code := CodeUnschedulableAndUnresolvable;
                 st_Message := "AIWorkloadProfile " +:+ Namespace (pod_Meta pod) +:+ "/" +:+ profileName
                               +:+ " not found" |}
        else inr {| st_Code := CodeError; st_Message := "get AIWorkloadProfile failed: " +:+ error_text err |}
    end.

Definition profileForPod (p : AstraScheduler) (state : CycleState) (pod : Pod)
    : CycleState * (AIWorkloadProfile + Status) :=
  let resolve (k : AIWorkloadProfile -> CycleState) :=
    match resolveProfile p pod with
    | inr status => (state, inr status)
    | inl prof => (k prof, inl prof)
    end in
  match readSchedulingState (missing_key p) state with
  | inl s =>
      match profile s with
      | Some prof => (state, inl prof)
      | None => resolve (fun prof => CycleData (setProfile s (Some prof)))
      end
  | inr _ => resolve (fun _ => state)
  end.

Definition resolveNodeResource (p : AstraScheduler) (nodeName : string) : AINodeResourceProfile + Status :=
  if decide (nodeName = "") then
    inr {| st_Code := CodeError; st_Message := "candidate node name is empty" |}
  else
    match get_node (client p) (nodeNamespace p) nodeName with
    | inl r => inl r
    | inr err =>
        if IsNotFound err then
          inr {| st_Code := CodeUnschedulable;
                 st_Message := "AINodeResourceProfile " +:+ nodeNamespace p +:+ "/" +:+ nodeName
                               +:+ " not found" |}
        else inr {| st_Code := CodeError;
                    st_Message := "get AINodeResourceProfile failed: " +:+ error_text err |}
    end.

Definition nodeResourceForNode (p : AstraScheduler) (state : CycleState) (nodeName : string)
    : CycleState * (AINodeResourceProfile + Status) :=
  let resolve (k : AINodeResourceProfile -> CycleState) :=
    match resolveNodeResource p nodeName with
    | inr status => (state, inr status)
    | inl r => (k r, inl r)
    end in
  match readSchedulingState (missing_key p) state with
  | inl s =>
      match getNodeResource s nodeName with
      | Some r => (state, inl r)
      | None => resolve (fun r => CycleData (setNodeResource s nodeName r))
      end
  | inr _ => resolve (fun _ => state)
  end.

(** ** filter.go *)

Definition ours (pod : Pod) : bool := bool_decide (pod_SchedulerName pod = SchedulerName).

Definition PreFilter (p : AstraScheduler) (state : CycleState) (pod : Pod) : CycleState * option Status :=
  if negb (ours pod) then (state, Some {| st_Code := CodeSkip; st_Message := "" |})
  else
    match resolveProfile p pod with
    | inr status => (state, Some status)
    | inl prof => (CycleData (newSchedulingState (Some prof)), None)
    end.

Definition nil_node : Status := {| st_Code := CodeError; st_Message := "nodeInfo has nil node" |}.

(** [None] is a nil status: the node passes.  [node] is the name of
    [nodeInfo.Node()], if it is not nil. *)
Definition Filter (p : AstraScheduler) (state : CycleState) (pod : Pod) (node : option string)
    : go (CycleState * option Status) :=
  if negb (ours pod) then Ret (state, None)
  else
    match node with
    | None => Ret (state, Some nil_node)
    | Some nodeName =>
        let '(state, prof) := profileForPod p state pod in
        match prof with
        | inr status => Ret (state, Some status)
        | inl prof =>
            let '(state, r) := nodeResourceForNode p state nodeName in
            match r with
            | inr status => Ret (state, Some status)
            | inl nodeResource =>
                decision <-! PolicyFilter.Filter (Some prof) (Some nodeResource);
                Ret (state, if negb (Allowed decision)
                            then Some {| st_Code := CodeUnschedulable; st_Message := fd_Reason decision |}
                            else None)
            end
        end
    end.

(** ** score.go *)

Definition PreScore (p : AstraScheduler) (state : CycleState) (pod : Pod) : CycleState * option Status :=
  if negb (ours pod) then (state, Some {| st_Code := CodeSkip; st_Message := "" |})
  else
    match readSchedulingState (missing_key p) state with
    | inr _ => (CycleData (newSchedulingState None), None)
    | inl _ => (state, None)
    end.

(** [detail.NodeName = node.Name] *)
Definition with_node_name (d : NodeScoreDetail) (nodeName : string) : NodeScoreDetail :=
  let '(Build_NodeScoreDetail _ pm pt kr krm krh ohs whs twm twr mbm mbr rrp es em ep reason) := d in
  Build_NodeScoreDetail nodeName pm pt kr krm krh ohs whs twm twr mbm mbr rrp es em ep reason.

Definition Score (p : AstraScheduler) (state : CycleState) (pod : Pod) (node : option string)
    : CycleState * (Z * option Status) :=
  if negb (ours pod) then (state, (0, None))
  else
    match node with
    | None => (state, (0, Some nil_node))
    | Some nodeName =>
        let '(state, prof) := profileForPod p state pod in
        match prof with
        | inr status => (state, (0, Some status))
        | inl prof =>
            let '(state, r) := nodeResourceForNode p state nodeName in
            match r with
            | inr status => (state, (0, Some status))
            | inl nodeResource =>
                let detail := with_node_name (ScoreDetail (policy p) (Some prof) (Some nodeResource)) nodeName in
                match readSchedulingState (missing_key p) state with
                | inr status => (state, (0, Some status))
                | inl s =>
                    let '(s, initialScore) := recordScoreDetail s nodeName detail in
                    (CycleData s, (initialScore, None))
                end
            end
        end
    end.

(** The minimum of the map's scores: the iteration order does not matter. *)
Definition min_score (bestDecisions : list (string * ScoreDecision)) : Z :=
  fold_left (fun minScore kv => if sd_Score kv.2 <? minScore then sd_Score kv.2 else minScore)
    bestDecisions framework_MaxNodeScore.

Definition nonBestPreferredTierScore (bestDecisions : gmap string ScoreDecision) : Z :=
  if decide (bestDecisions = ∅) then 0
  else
    let minScore := min_score (map_to_list bestDecisions) in
    if minScore <=? 0 then 0 else quot64 minScore 2.

(** The loop over [scores]: the state, the new list, and whether some node
    was scored by the policy. *)
Fixpoint normalize_loop (allDetails : gmap string NodeScoreDetail) (scoreByNode : gmap string ScoreDecision)
    (loserScore : Z) (s : schedulingState) (scores : list (string * Z))
    : schedulingState * list (string * Z) * bool :=
  match scores with
  | [] => (s, [], false)
  | (name, _) :: rest =>
      let '(s, score, scored) :=
        match scoreByNode !! name with
        | Some decision => (setScoreDecision s name decision, sd_Score decision, true)
        | None =>
            match allDetails !! name with
            | Some detail =>
                let decision := {| sd_Score := loserScore;
                                   sd_Reason := nsd_Reason detail +:+ "; not in best preferred-match tier" |} in
                (setScoreDecision s name decision, loserScore, false)
            | None => (s, 0, false)
            end
        end in
      let '(s, rest', scored') := normalize_loop allDetails scoreByNode loserScore s rest in
      (s, (name, score) :: rest', scored || scored')
  end.

Definition NormalizeScore (p : AstraScheduler) (state : CycleState) (pod : Pod) (scores : list (string * Z))
    : CycleState * list (string * Z) * option Status :=
  if negb (ours pod) then (state, scores, None)
  else
    match readSchedulingState (missing_key p) state with
    | inr status => (state, scores, Some status)
    | inl s =>
        let allDetails := scoreDetailSnapshot s in
        let bestDetails := bestScoreDetailSnapshot s in
        let scoreByNode := NormalizeScoreDetails bestDetails in
        let loserScore := nonBestPreferredTierScore scoreByNode in
        let '(s, scores', scored) := normalize_loop allDetails scoreByNode loserScore s scores in
        (CycleData s, scores',
         if negb scored && (0 <? Z.of_nat (length scores))
         then Some {| st_Code := CodeError; st_Message := "no Astra node score details were recorded" |}
         else None)
    end.

(** ** Recording sequences *)

(** The concurrent Score calls of one pod, in the order in which they take
    the lock: the final state and the scores returned. *)
Fixpoint record_all (s : schedulingState) (recs : list (string * NodeScoreDetail))
    : schedulingState * list (string * Z) :=
  match recs with
  | [] => (s, [])
  | (n, d) :: rest =>
      let '(s, z) := recordScoreDetail s n d in
      let '(s, out) := record_all s rest in
      (s, (n, z) :: out)
  end.

(** The best tier is what it should be: the nodes whose detail has the
    highest match count of all the recorded ones. *)
Record tiers_ok (s : schedulingState) : Prop := {
  tier_upper : forall n d, scoreDetails s !! n = Some d ->
    0 <= PreferredMatched d <= bestPreferredMatched s;
  tier_nodes : forall n, n ∈ bestPreferredNodes s <->
    exists d, scoreDetails s !! n = Some d /\ PreferredMatched d = bestPreferredMatched s;
  tier_attained : bestPreferredNodes s = ∅ -> scoreDetails s = ∅ /\ bestPreferredMatched s = -1
}.

(** The scores handed out so far separate the best tier from the others. *)
Definition issued_ok (s : schedulingState) (out : list (string * Z)) : Prop :=
  forall n z, (n, z) ∈ out ->
    (n ∈ bestPreferredNodes s -> z = bestPreferredScore s) /\
    (n ∉ bestPreferredNodes s -> z < bestPreferredScore s).

Lemma newSchedulingState_tiers p : tiers_ok (newSchedulingState p).
Proof.
  split; cbn; [set_solver| |done]. intros n. split; [set_solver|]. by intros (d & H & _).
Qed.

Lemma record_tiers s n d :
  tiers_ok s -> scoreDetails s !! n = None -> 0 <= PreferredMatched d ->
  tiers_ok (recordScoreDetail s n d).1.
Proof.
  intros [Hu Hn Ha] Hfresh Hd. unfold recordScoreDetail.
  assert (Hnb : n ∉ bestPreferredNodes s).
  { rewrite Hn. intros (d' & H & _). by rewrite Hfresh in H. }
  destruct (Z.gtb_spec (PreferredMatched d) (bestPreferredMatched s)) as [Hgt|Hle];
    [|destruct (Z.eqb_spec (PreferredMatched d) (bestPreferredMatched s)) as [Heq|Hne]]; split; cbn.
  all: try (intros m d' [[-> ->]|[Hm Hd']]%lookup_insert_Some;
            [lia | destruct (Hu _ _ Hd'); lia]).
  - intros m. rewrite elem_of_singleton. split.
    + intros ->. exists d. by rewrite lookup_insert_eq.
    + intros (d' & [[-> ->]|[Hm Hd']]%lookup_insert_Some & He); [done|]. destruct (Hu _ _ Hd'). lia.
  - intros H. by apply (non_empty_singleton_L n) in H.
  - intros m. rewrite elem_of_union, elem_of_singleton, Hn. split.
    + intros [->|(d' & Hd' & He)]; [exists d; by rewrite lookup_insert_eq|].
      exists d'. rewrite lookup_insert_ne by congruence. done.
    + intros (d' & [[-> ->]|[Hm Hd']]%lookup_insert_Some & He); eauto.
  - intros H. apply empty_union_L in H as [H _]. by apply (non_empty_singleton_L n) in H.
  - intros m. rewrite Hn. split.
    + intros (d' & Hd' & He). exists d'. rewrite lookup_insert_ne by congruence. done.
    + intros (d' & [[-> ->]|[Hm Hd']]%lookup_insert_Some & He); [done|eauto].
  - intros H. destruct (Ha H) as [_ ?]. lia.
Qed.

Lemma record_details s n d :
  scoreDetails (recordScoreDetail s n d).1 = <[n := d]> (scoreDetails s).
Proof. unfold recordScoreDetail. by repeat case_match. Qed.

Lemma record_all_details s recs :
  NoDup recs.*1 -> (forall n, n ∈ recs.*1 -> scoreDetails s !! n = None) ->
  scoreDetails (record_all s recs).1 = list_to_map recs ∪ scoreDetails s.
Proof.
  revert s. induction recs as [|[n d] recs IH]; intros s Hnd Hf; cbn; [by rewrite (left_id_L ∅ (∪))|].
  apply NoDup_cons in Hnd as [Hn Hnd].
  pose proof (record_details s n d) as Hr. destruct (recordScoreDetail s n d) as [s1 z]. cbn in Hr.
  specialize (IH s1 Hnd). destruct (record_all s1 recs) as [s2 out]. cbn in *. rewrite IH, Hr.
  - rewrite <- insert_union_r, insert_union_l; [done|]. by apply not_elem_of_list_to_map_1.
  - intros m Hm. rewrite Hr, lookup_insert_ne; [apply Hf; by right|]. by intros ->.
Qed.

Lemma record_all_tiers s recs :
  tiers_ok s -> NoDup recs.*1 -> (forall n, n ∈ recs.*1 -> scoreDetails s !! n = None) ->
  Forall (fun r => 0 <= PreferredMatched r.2) recs -> tiers_ok (record_all s recs).1.
Proof.
  intros Hs Hnd Hf Hpm. revert s Hs Hf. induction Hpm as [|[n d] recs Hd _ IH]; intros s Hs Hf; [done|].
  cbn in *. apply NoDup_cons in Hnd as [Hn Hnd].
  pose proof (record_details s n d) as Hr.
  pose proof (record_tiers s n d Hs (Hf n ltac:(by left)) Hd) as Ht.
  destruct (recordScoreDetail s n d) as [s1 z]. cbn in Hr, Ht. specialize (IH Hnd s1 Ht).
  destruct (record_all s1 recs) as [s2 out]. apply IH.
  intros m Hm. rewrite Hr, lookup_insert_ne; [apply Hf; by right|]. by intros ->.
Qed.

(** The tier is a function of the recorded details. *)
Lemma tiers_determined s t :
  tiers_ok s -> tiers_ok t -> scoreDetails s = scoreDetails t ->
  bestPreferredMatched s = bestPreferredMatched t /\ bestPreferredNodes s = bestPreferredNodes t.
Proof.
  intros [Hus Hns Has] [Hut Hnt Hat] Hd. rewrite <- Hd in *.
  assert (Hm : bestPreferredMatched s = bestPreferredMatched t).
  { destruct (decide (bestPreferredNodes s = ∅)) as [Es|Es], (decide (bestPreferredNodes t = ∅)) as [Et|Et].
    - destruct (Has Es), (Hat Et). congruence.
    - apply set_choose_L in Et as (n & (d & Hn & _)%Hnt). destruct (Has Es) as [E _]. by rewrite E in Hn.
    - apply set_choose_L in Es as (n & (d & Hn & _)%Hns). destruct (Hat Et) as [E _]. by rewrite E in Hn.
    - apply set_choose_L in Es as (n & (d & Hn & En)%Hns). apply set_choose_L in Et as (m & (e & Hm & Em)%Hnt).
      pose proof (Hut _ _ Hn). pose proof (Hus _ _ Hm). lia. }
  split; [done|]. apply set_eq. intros n. by rewrite Hns, Hnt, Hm.
Qed.

Lemma record_issued s n d out :
  tiers_ok s -> scoreDetails s !! n = None -> (forall m z, (m, z) ∈ out -> m <> n) ->
  1 <= bestPreferredScore s < 2 ^ 62 -> issued_ok s out ->
  let '(s', z) := recordScoreDetail s n d in
  issued_ok s' ((n, z) :: out) /\ 1 <= bestPreferredScore s' <= bestPreferredScore s + 1.
Proof.
  intros Ht Hf Hout Hb Hi. unfold recordScoreDetail.
  assert (Hadd : add64 (bestPreferredScore s) 1 = bestPreferredScore s + 1) by (apply wrap64_id; i32).
  assert (Hsub : sub64 (bestPreferredScore s) 1 = bestPreferredScore s - 1) by (apply wrap64_id; i32).
  assert (Hnb : n ∉ bestPreferredNodes s).
  { rewrite (tier_nodes _ Ht). intros (d' & H & _). by rewrite Hf in H. }
  assert (Hold : forall m z, (m, z) ∈ out -> m <> n /\ z <= bestPreferredScore s).
  { intros m z Hm. split; [by eapply Hout|]. destruct (Hi _ _ Hm) as [H1 H2].
    destruct (decide (m ∈ bestPreferredNodes s)) as [E|E]; [rewrite (H1 E)|specialize (H2 E)]; lia. }
  rewrite Hadd, Hsub.
  destruct (PreferredMatched d >? _); [|destruct (_ =? _)]; (split; [|cbn; lia]);
    intros m z [[= -> ->]|Hm]%elem_of_cons; cbn.
  - by rewrite elem_of_singleton.
  - destruct (Hold _ _ Hm). rewrite elem_of_singleton. split; [done|lia].
  - rewrite elem_of_union, elem_of_singleton. split; [done|]. tauto.
  - destruct (Hold _ _ Hm), (Hi _ _ Hm) as [H1 H2]. rewrite elem_of_union, elem_of_singleton.
    split; [intros [?|?]; [done|auto]|]. intros Hn. apply H2. tauto.
  - split; [done|lia].
  - by apply Hi.
Qed.

Lemma record_all_issued s recs out0 :
  tiers_ok s -> NoDup recs.*1 -> (forall n, n ∈ recs.*1 -> scoreDetails s !! n = None) ->
  Forall (fun r => 0 <= PreferredMatched r.2) recs ->
  (forall m z, (m, z) ∈ out0 -> m ∉ recs.*1) ->
  1 <= bestPreferredScore s -> bestPreferredScore s + Z.of_nat (length recs) < 2 ^ 62 -> issued_ok s out0 ->
  let '(s', out) := record_all s recs in
  issued_ok s' (reverse out ++ out0) /\ (forall n, n ∈ recs.*1 -> exists z, (n, z) ∈ out).
Proof.
  intros Hs Hnd Hf Hpm. revert s out0 Hs Hf.
  induction Hpm as [|[n d] recs Hd _ IH]; intros s out0 Hs Hf Ho Hb1 Hb2 Hi; cbn in *.
  { split; [done|]. by intros n ?%elem_of_nil. }
  apply NoDup_cons in Hnd as [Hn Hnd].
  assert (Hfr : scoreDetails s !! n = None) by (apply Hf; by left).
  pose proof (record_details s n d) as Hr.
  pose proof (record_tiers s n d Hs Hfr Hd) as Ht.
  pose proof (record_issued s n d out0 Hs Hfr) as Hst.
  destruct (recordScoreDetail s n d) as [s1 z]. cbn in Hr, Ht.
  destruct Hst as [Hi1 Hb3]; [intros m y Hm ->; apply (Ho _ _ Hm); by left|lia|done|].
  specialize (IH Hnd s1 ((n, z) :: out0) Ht).
  destruct (record_all s1 recs) as [s2 out]. destruct IH as [H1 H2]; try done; try lia.
  - intros m Hm. rewrite Hr, lookup_insert_ne; [apply Hf; by right|]. by intros ->.
  - intros m y [[= -> ->]|Hm]%elem_of_cons; [done|]. intros Hin. apply (Ho _ _ Hm). by right.
  - split.
    + by rewrite reverse_cons, <- app_assoc.
    + intros m [->|Hm]%elem_of_cons; [exists z; by left|]. destruct (H2 _ Hm) as [y Hy]. exists y. by right.
Qed.

(** ** Lemmas: normalisation *)

Lemma clampScore_range z : 0 <= clampScore z <= 100.
Proof. unfold clampScore, MaxNodeScore. if_split; zbool; lia. Qed.

Lemma min_score_le l : min_score l <= 100 /\ forall n d, (n, d) ∈ l -> min_score l <= sd_Score d.
Proof.
  unfold min_score, framework_MaxNodeScore. generalize 100. induction l as [|[k x] l IH]; intros acc; cbn.
  - split; [lia|]. by intros n d ?%elem_of_nil.
  - destruct (Z.ltb_spec (sd_Score x) acc) as [Hlt|Hge].
    + destruct (IH (sd_Score x)) as [H1 H2]. split; [lia|]. intros n d [[= -> ->]|H]%elem_of_cons; eauto.
    + destruct (IH acc) as [H1 H2]. split; [lia|]. intros n d [[= -> ->]|H]%elem_of_cons; [lia|eauto].
Qed.

Lemma loser_score_spec best n d :
  best !! n = Some d -> 0 <= sd_Score d ->
  0 <= nonBestPreferredTierScore best <= sd_Score d /\
  (0 < sd_Score d -> nonBestPreferredTierScore best < sd_Score d).
Proof.
  intros Hd Hpos. unfold nonBestPreferredTierScore.
  destruct (decide (best = ∅)) as [->|_]; [done|].
  destruct (min_score_le (map_to_list best)) as [H1 H2].
  specialize (H2 n d (proj2 (elem_of_map_to_list _ _ _) Hd)).
  destruct (Z.leb_spec (min_score (map_to_list best)) 0) as [Hm|Hm]; [lia|].
  set (m := min_score (map_to_list best)) in *. unfold quot64. rewrite Z.quot_div_nonneg by lia.
  assert (0 <= m / 2) by (apply Z.div_pos; lia).
  assert (m / 2 < m) by (apply Z.div_lt; lia).
  rewrite wrap64_id by (unfold in_int64; lia).
  lia.
Qed.

(** What [NormalizeScore] gives one node. *)
Definition final_score (s : schedulingState) (n : string) : Z :=
  match scoreDetails s !! n with
  | None => 0
  | Some d =>
      if decide (n ∈ bestPreferredNodes s) then sd_Score (normalize_detail d)
      else nonBestPreferredTierScore (NormalizeScoreDetails (bestScoreDetailSnapshot s))
  end.

Lemma best_snapshot_lookup s n :
  bestScoreDetailSnapshot s !! n =
  if decide (n ∈ bestPreferredNodes s) then scoreDetails s !! n else None.
Proof.
  unfold bestScoreDetailSnapshot. destruct (decide (n ∈ bestPreferredNodes s)) as [H|H].
  - destruct (scoreDetails s !! n) as [d|] eqn:E.
    + by apply map_lookup_filter_Some.
    + apply map_lookup_filter_None. by left.
  - apply map_lookup_filter_None. right. by intros d _.
Qed.

Lemma normalize_loop_scores all s s0 scores best loser :
  best = NormalizeScoreDetails (bestScoreDetailSnapshot s) -> all = scoreDetails s ->
  loser = nonBestPreferredTierScore best ->
  (normalize_loop all best loser s0 scores).1.2 = (fun '(n, _) => (n, final_score s n)) <$> scores.
Proof.
  intros -> -> ->. revert s0. induction scores as [|[n z] scores IH]; intros s0; [done|]. cbn.
  unfold NormalizeScoreDetails at 1 3, Normalize. rewrite lookup_fmap, best_snapshot_lookup. unfold final_score at 1.
  destruct (decide (n ∈ bestPreferredNodes s)), (scoreDetails s !! n) as [d|]; cbn;
    match goal with |- context [normalize_loop ?a ?b ?c ?t scores] => specialize (IH t);
      destruct (normalize_loop a b c t scores) as [[s1 l] f] end; cbn in *; by rewrite IH.
Qed.

(** Some node of the list has a decision of the policy. *)
Lemma normalize_loop_flag all best loser s scores n :
  n ∈ scores.*1 -> is_Some (best !! n) -> (normalize_loop all best loser s scores).2 = true.
Proof.
  revert s. induction scores as [|[m z] scores IH]; intros s; cbn; [by intros ?%elem_of_nil|].
  intros Hn Hs.
  assert (Hgo : forall t b score, (b = true \/ n ∈ scores.*1) ->
    (let '(s, rest', scored') := normalize_loop all best loser t scores in
     (s, (m, score) :: rest', b || scored')).2 = true).
  { intros t b score [->|Hin]; [by destruct (normalize_loop _ _ _ t scores) as [[? ?] ?]|].
    specialize (IH t Hin Hs). destruct (normalize_loop _ _ _ t scores) as [[? ?] ?]. cbn in *. subst.
    by rewrite orb_true_r. }
  apply elem_of_cons in Hn as [->|Hn].
  - destruct Hs as [d ->]. apply Hgo. by left.
  - destruct (best !! m); [|destruct (all !! m)]; apply Hgo; by right.
Qed.

(** ** Lemmas: the hooks and the cached objects *)

(** The cache only grows, and the profile never changes once it is there. *)
Definition cache_le (s t : schedulingState) : Prop :=
  (forall p, profile s = Some p -> profile t = Some p) /\ nodeResources s ⊆ nodeResources t.

#[export] Instance cache_le_preorder : PreOrder cache_le.
Proof.
  split.
  - intros s. by split.
  - intros s t u [H1 H2] [H3 H4]. split; [auto|]. by etrans.
Qed.

Lemma record_cache s n d : cache_le s (recordScoreDetail s n d).1.
Proof. unfold recordScoreDetail. by repeat case_match. Qed.

Lemma normalize_loop_cache all best loser s scores : cache_le s (normalize_loop all best loser s scores).1.1.
Proof.
  revert s. induction scores as [|[m z] scores IH]; intros s; cbn; [done|].
  destruct (best !! m) as [d|]; [|destruct (all !! m) as [d|]];
    match goal with |- context [normalize_loop _ _ _ ?t scores] => specialize (IH t);
      destruct (normalize_loop all best loser t scores) as [[? ?] ?] end; cbn in *; done.
Qed.

(** A cached profile is returned whatever the client would say now. *)
Lemma profileForPod_cached p s pod prof :
  profile s = Some prof -> profileForPod p (CycleData s) pod = (CycleData s, inl prof).
Proof. intros H. unfold profileForPod. cbn. by rewrite H. Qed.

Lemma nodeResourceForNode_cached p s nodeName n :
  nodeResources s !! nodeName = Some n ->
  nodeResourceForNode p (CycleData s) nodeName = (CycleData s, inl n).
Proof. intros H. unfold nodeResourceForNode, getNodeResource. cbn. by rewrite H. Qed.

Lemma nodeResourceForNode_cache p s nodeName :
  exists s' r, nodeResourceForNode p (CycleData s) nodeName = (CycleData s', r) /\ cache_le s s' /\
    (forall n, r = inl n -> nodeResources s' !! nodeName = Some n).
Proof.
  unfold nodeResourceForNode. cbn. unfold getNodeResource.
  destruct (nodeResources s !! nodeName) as [n|] eqn:E.
  { do 2 eexists. split; [done|]. split; [done|]. by intros ? [= <-]. }
  destruct (resolveNodeResource p nodeName) as [n|st]; do 2 eexists; (split; [done|]); split; try done.
  - split; [done|]. cbn. by apply insert_subseteq.
  - intros ? [= <-]. cbn. apply lookup_insert_eq.
Qed.

Lemma preferredMatchCount_nonneg preferred available : 0 <= (preferredMatchCount preferred available).1.
Proof.
  unfold preferredMatchCount. assert (H : 0 <= fst (0, 0)) by (cbn; lia). revert H.
  generalize (0, 0) as acc. induction (resource_table preferred available) as [|[[n p] a] l IH];
    intros [m t] H; [done|]. cbn in *. apply IH. if_split; cbn; lia.
Qed.

(** ** Lemmas: final scores *)

Lemma final_score_best s b :
  tiers_ok s -> b ∈ bestPreferredNodes s -> exists d,
    NormalizeScoreDetails (bestScoreDetailSnapshot s) !! b = Some d /\ final_score s b = sd_Score d /\
    0 <= sd_Score d <= 100.
Proof.
  intros Ht Hb. destruct (proj1 (tier_nodes _ Ht b) Hb) as (d & Hd & _).
  exists (normalize_detail d). unfold NormalizeScoreDetails, Normalize, final_score.
  rewrite lookup_fmap, best_snapshot_lookup, Hd. rewrite !decide_True by done.
  split_and!; [done..| |]; apply clampScore_range.
Qed.

Lemma final_score_loser s b l :
  tiers_ok s -> b ∈ bestPreferredNodes s -> l ∉ bestPreferredNodes s ->
  0 <= final_score s l <= final_score s b /\ (0 < final_score s b -> final_score s l < final_score s b).
Proof.
  intros Ht Hb Hnl. destruct (final_score_best s b Ht Hb) as (d & Hd & -> & Hr).
  destruct (loser_score_spec _ _ _ Hd) as [H1 H2]; [lia|].
  unfold final_score. destruct (scoreDetails s !! l); [|lia]. by rewrite decide_False by done.
Qed.

(** ** Theorems *)

(** C19: whatever the order in which the concurrent Score calls take the lock,
    the tier they leave behind is exactly the set of nodes whose match count
    is the highest of all the scored nodes. *)
Theorem best_tier_is_argmax p recs n :
  NoDup recs.*1 -> Forall (fun r => 0 <= PreferredMatched r.2) recs ->
  n ∈ bestPreferredNodes (record_all (newSchedulingState p) recs).1 <->
  exists d, (n, d) ∈ recs /\ forall m e, (m, e) ∈ recs -> PreferredMatched e <= PreferredMatched d.
Proof.
  intros Hnd Hpm. set (s := (record_all (newSchedulingState p) recs).1).
  assert (Ht : tiers_ok s) by (apply record_all_tiers; auto using newSchedulingState_tiers).
  assert (Hd : forall m e, scoreDetails s !! m = Some e <-> (m, e) ∈ recs).
  { intros m e. unfold s. rewrite record_all_details by done. cbn. rewrite (right_id_L ∅ (∪)).
    by rewrite elem_of_list_to_map. }
  rewrite (tier_nodes _ Ht). split.
  - intros (d & H & E). exists d. rewrite <- Hd. split; [done|]. intros m e He%Hd.
    rewrite E. by eapply tier_upper.
  - intros (d & H & Hmax). exists d. split; [by apply Hd|].
    destruct (decide (bestPreferredNodes s = ∅)) as [E|E].
    { destruct (tier_attained _ Ht E) as [E' _]. apply Hd in H. by rewrite E' in H. }
    apply set_choose_L in E as (m & (e & He & Ee)%(tier_nodes _ Ht)).
    apply Hd in H as H'. pose proof (tier_upper _ Ht _ _ H'). apply Hd, Hmax in He. lia.
Qed.

(** the intermediate scores returned while nodes are still being scored
    already separate the final tiers: all the nodes of the final best tier got
    the same score, and every other node got a lower one. *)
Theorem intermediate_scores_separate_tiers p recs :
  NoDup recs.*1 -> Forall (fun r => 0 <= PreferredMatched r.2) recs -> Z.of_nat (length recs) < 2 ^ 61 ->
  let '(s, out) := record_all (newSchedulingState p) recs in
  forall n, n ∈ recs.*1 -> exists z, (n, z) ∈ out /\
    (n ∈ bestPreferredNodes s -> z = bestPreferredScore s) /\
    (n ∉ bestPreferredNodes s -> z < bestPreferredScore s).
Proof.
  intros Hnd Hpm Hlen.
  pose proof (record_all_issued (newSchedulingState p) recs [] (newSchedulingState_tiers p) Hnd) as H.
  destruct (record_all (newSchedulingState p) recs) as [s out].
  destruct H as [H1 H2]; try done; cbn; try lia; try (by intros m z ?%elem_of_nil).
  intros n Hn. destruct (H2 n Hn) as [z Hz]. exists z. split; [done|]. apply H1.
  rewrite app_nil_r. by apply elem_of_reverse.
Qed.

(** C15: final scores lie between 0 and 100, and a node outside the best tier
    never outranks a node of the best tier; it is strictly below it unless the
    best node itself has score 0. *)
Theorem NormalizeScore_respects_tiers p s pod scores :
  ours pod = true -> tiers_ok s ->
  exists s' status,
    NormalizeScore p (CycleData s) pod scores =
      (CycleData s', (fun '(n, _) => (n, final_score s n)) <$> scores, status) /\
    (forall b, b ∈ bestPreferredNodes s -> b ∈ scores.*1 -> status = None) /\
    (forall n, 0 <= final_score s n <= 100) /\
    forall b l, b ∈ bestPreferredNodes s -> l ∉ bestPreferredNodes s ->
      final_score s l <= final_score s b /\ (0 < final_score s b -> final_score s l < final_score s b).
Proof.
  intros Ho Ht. unfold NormalizeScore. rewrite Ho. cbn.
  pose proof (normalize_loop_scores (scoreDetails s) s s scores _ _ eq_refl eq_refl eq_refl) as Hl.
  pose proof (normalize_loop_flag (scoreDetails s) (NormalizeScoreDetails (bestScoreDetailSnapshot s))
    (nonBestPreferredTierScore (NormalizeScoreDetails (bestScoreDetailSnapshot s))) s scores) as Hf.
  destruct (normalize_loop _ _ _ s scores) as [[s' scores'] f]. cbn in Hl, Hf. subst scores'.
  pose proof (fun b => final_score_best s b Ht) as Hbest.
  pose proof (fun b l => final_score_loser s b l Ht) as Hloser.
  do 2 eexists. split; [done|]. split; [|split].
  - intros b Hb Hin. destruct (Hbest b Hb) as (d & Hd & _). rewrite (Hf b Hin) by eauto. done.
  - intros n. destruct (decide (n ∈ bestPreferredNodes s)) as [Hn|Hn].
    + destruct (Hbest n Hn) as (d & _ & -> & Hr). done.
    + destruct (decide (bestPreferredNodes s = ∅)) as [E|(b & Hb)%set_choose_L].
      * destruct (tier_attained _ Ht E) as [E' _]. unfold final_score. rewrite E', lookup_empty. lia.
      * destruct (Hbest b Hb) as (d & _ & Hb' & Hr). destruct (Hloser b n Hb Hn). lia.
  - intros b l Hb Hnl. destruct (Hloser b l Hb Hnl). split; [lia|done].
Qed.

(** the Filter hook never panics and, on the profile and node it works
    with, passes a node exactly when the placement is admissible. *)
Theorem Filter_hook_correct p s pod nodeName prof n :
  ours pod = true -> profile s = Some prof -> nodeResources s !! nodeName = Some n ->
  exists status, Filter p (CycleData s) pod (Some nodeName) = Ret (CycleData s, status) /\
    (status = None <-> admissible (Some prof) (Some n)).
Proof.
  intros Ho Hp Hn. unfold Filter. rewrite Ho. cbn [negb].
  rewrite (profileForPod_cached _ _ _ _ Hp), (nodeResourceForNode_cached _ _ _ _ Hn).
  destruct (Filter_decides (Some prof) (Some n)) as (d & -> & H). cbn [go_bind].
  eexists. split; [done|].
  rewrite <- H. by destruct (Allowed d).
Qed.

(** ** Sample inputs *)

Definition sample_detail (name : string) (matched weighted : Z) : NodeScoreDetail :=
  Build_NodeScoreDetail name matched 6 "balanced" true 0 0 weighted f1 "" f1 "" 0 0 f1 0 "".
Definition sample_records : list (string * NodeScoreDetail) :=
  [("a", sample_detail "a" 2 40); ("b", sample_detail "b" 5 60); ("c", sample_detail "c" 5 80)].
Definition sample_pod : Pod :=
  {| pod_Meta := {| Name := "chat-0"; Namespace := "default"; UID := "u1"; Labels := ∅;
                    Annotations := {[ WorkloadProfileAnnotation := "chat" ]};
                    CreationTimestamp := None; DeletionTimestamp := None |};
     pod_SchedulerName := SchedulerName; pod_NodeName := ""; pod_Phase := "Pending"; pod_Rest := "" |}.
Definition sample_profile : AIWorkloadProfile := workload "chat" "high" [daytime] 2 3 4.
Definition sample_reader : Reader :=
  {| get_profile := fun _ _ => inl sample_profile; get_node := fun _ _ => inl (node_with 8 8 []) |}.
Definition sample_plugin : AstraScheduler :=
  {| client := sample_reader; policy := NewSimplePolicy; nodeNamespace := "astra-system";
     missing_key := "not found" |}.
Definition sample_cycle : schedulingState := newSchedulingState (Some sample_profile).

Lemma best_tier_is_argmax_witness :
  "c" ∈ bestPreferredNodes (record_all sample_cycle sample_records).1 <->
  exists d, ("c", d) ∈ sample_records /\
    forall m e, (m, e) ∈ sample_records -> PreferredMatched e <= PreferredMatched d.
Proof. apply best_tier_is_argmax; compute_decide. Defined.

Lemma intermediate_scores_separate_tiers_witness :
  let '(s, out) := record_all sample_cycle sample_records in
  forall n, n ∈ sample_records.*1 -> exists z, (n, z) ∈ out /\
    (n ∈ bestPreferredNodes s -> z = bestPreferredScore s) /\
    (n ∉ bestPreferredNodes s -> z < bestPreferredScore s).
Proof. apply intermediate_scores_separate_tiers; [compute_decide..|]. cbn. lia. Defined.

Lemma NormalizeScore_respects_tiers_witness :
  let s := (record_all sample_cycle sample_records).1 in
  exists s' status,
    NormalizeScore sample_plugin (CycleData s) sample_pod [("a", 2); ("b", 3); ("c", 3)] =
      (CycleData s', [("a", final_score s "a"); ("b", final_score s "b"); ("c", final_score s "c")], status) /\
    (forall b, b ∈ bestPreferredNodes s -> b ∈ ["a"; "b"; "c"] -> status = None) /\
    (forall n, 0 <= final_score s n <= 100) /\
    forall b l, b ∈ bestPreferredNodes s -> l ∉ bestPreferredNodes s ->
      final_score s l <= final_score s b /\ (0 < final_score s b -> final_score s l < final_score s b).
Proof.
  apply (NormalizeScore_respects_tiers sample_plugin _ sample_pod [("a", 2); ("b", 3); ("c", 3)]).
  - reflexivity.
  - apply record_all_tiers; [apply newSchedulingState_tiers|compute_decide| |compute_decide].
    intros n _. reflexivity.
Defined.

Lemma Filter_hook_correct_witness :
  let s := setNodeResource sample_cycle "node-a" (node_with 8 8 []) in
  exists status, Filter sample_plugin (CycleData s) sample_pod (Some "node-a") = Ret (CycleData s, status) /\
    (status = None <-> admissible (Some sample_profile) (Some (node_with 8 8 []))).
Proof. apply Filter_hook_correct; reflexivity. Defined.
