(* ===== verification/PluginReserve.v ===== *)
(** * PluginReserve: the node allocation ledger in the API server

    internal/scheduler/plugin/reserve.go.  The ledger of a node is one
    AIResourceAllocation object that Reserve and Unreserve read, change and
    write back under [retry.RetryOnConflict].

    The API server is a parameter, [ApiServer]: its stored objects with their
    resource versions, the four calls, and [environment], the steps of other
    clients.  [ApiServerLaws] states the documented behaviour: an update
    succeeds only on the version it read, and an object that changed has
    another version.  An attempt is a Get, any number of foreign steps, and
    the write the function decides on from what it read; [retry_run] is every
    execution [RetryOnConflict] may have. *)

From stdpp Require Import strings gmap relations.
From S2P Require Import Prelude GoString GoFloat Sha256 ApiTypes Samples.
From S2P Require Import Resources PolicyWindow PolicyFilter PolicyScore PluginState.
Local Open Scope string_scope.
Local Open Scope list_scope.
Local Open Scope Z_scope.

(** ** Names and labels *)

Definition AllocationLabelManagedBy : string := "astra.aiinfra.io/managed-by".
Definition AllocationLabelWorkloadNamespace : string := "astra.aiinfra.io/workload-namespace".
Definition AllocationLabelWorkloadName : string := "astra.aiinfra.io/workload-name".
Definition AllocationLabelNodeName : string := "astra.aiinfra.io/node-name".
Definition AllocationLabelPriority : string := "astra.aiinfra.io/priority".
Definition AllocationAnnotationSourcePodName : string := "astra.aiinfra.io/source-pod-name".
Definition AllocationAnnotationSourcePodUID : string := "astra.aiinfra.io/source-pod-uid".

Definition name_char (r : Z) : bool := between 97 122 r || between 48 57 r || (r =? 45) || (r =? 46).
(** The cutset of the calls of [strings.Trim]: dash and dot. *)
Definition dash_dot : list Z := [45; 46].

Definition sanitizeName (value : string) : string :=
  TrimCut dash_dot (of_bytes ((fun r => if name_char r then r else 45) <$> runes (ToLower value))).

Definition labelValue (value : string) : string :=
  let value := sanitizeName value in
  if (String.length value <=? 63)%nat then value else TrimCut dash_dot (prefix_n 63 value).

Definition buildAllocationName (nodeName : string) : string :=
  let hash := Sum256 (bytes nodeName) in
  let suffix := prefix_n 8 (EncodeToString hash) in
  let base := sanitizeName (nodeName +:+ "-allocation") in
  if (String.length base <=? 253)%nat then base
  else TrimCut dash_dot (prefix_n 244 base) +:+ "-" +:+ suffix.

(** A nil map reads as the empty one. *)
Definition mergeLabels (existing labels : gmap string string) : gmap string string := labels ∪ existing.

(** ** Ledger entries *)

Definition workloadEntryName (pod : Pod) (prof : option AIWorkloadProfile) : string :=
  let namespace := Namespace (pod_Meta pod) in
  let name := Name (pod_Meta pod) in
  let namespace := match prof with
    | Some q => if decide (namespace = "") then Namespace (wp_Meta q) else namespace
    | None => namespace
    end in
  let name := match prof with
    | Some q => if decide (name = "") then Name (wp_Meta q) else name
    | None => name
    end in
  sanitizeName (namespace +:+ "/" +:+ name).

Definition allocationActions (prof : option AIWorkloadProfile) : AllocationActions :=
  match prof with
  | Some q =>
      match wps_Policy (wp_Spec q) with
      | Some pol => {| act_Reclaimable := pol_AllowBorrowing pol; act_Throttleable := pol_Throttleable pol;
                       act_Pauseable := pol_Pauseable pol; act_Evictable := pol_Evictable pol |}
      | None => zero_AllocationActions
      end
  | None => zero_AllocationActions
  end.

Definition allocationWorkloadSpec (pod : Pod) (prof : AIWorkloadProfile) (resources : ResourceSummary)
    (allocationType reason : string) : AllocationWorkloadSpec :=
  {| aws_Name := workloadEntryName pod (Some prof);
     aws_WorkloadRef := {| ref_APIVersion := GroupVersion_String; ref_Kind := "AIWorkloadProfile";
                           ref_Name := Name (wp_Meta prof); ref_Namespace := Namespace (wp_Meta prof) |};
     aws_SourcePodName := Name (pod_Meta pod);
     aws_SourcePodUID := UID (pod_Meta pod);
     aws_WorkloadType := wps_WorkloadType (wp_Spec prof);
     aws_Priority := wps_Priority (wp_Spec prof);
     aws_DemandShape := wps_DemandShape (wp_Spec prof);
     aws_TimeWindows := wps_TimeWindows (wp_Spec prof);
     aws_ResourceRequest := wps_Resources (wp_Spec prof);
     aws_AssignedGPU := None;
     aws_Resources := Some resources;
     aws_Desired := Some resources;
     aws_AllocationType := allocationType;
     aws_Actions := Some (allocationActions (Some prof));
     aws_Reason := reason |}.

Definition upsertAllocationWorkload (workloads : list AllocationWorkloadSpec) (entry : AllocationWorkloadSpec)
    : list AllocationWorkloadSpec :=
  upsert_by aws_Name workloads entry.

Definition removeAllocationWorkload (workloads : list AllocationWorkloadSpec) (name : string)
    : list AllocationWorkloadSpec :=
  List.filter (fun w => negb (bool_decide (aws_Name w = name))) workloads.

Definition with_workloads (a : AIResourceAllocation) (ws : list AllocationWorkloadSpec) : AIResourceAllocation :=
  let s := al_Spec a in
  {| al_Meta := al_Meta a;
     al_Spec := {| as_NodeName := as_NodeName s; as_Workloads := ws;
                   as_Reason := as_Reason s; as_WorkloadRef := as_WorkloadRef s;
                   as_WorkloadType := as_WorkloadType s; as_Priority := as_Priority s;
                   as_DemandShape := as_DemandShape s; as_TimeWindows := as_TimeWindows s;
                   as_ResourceRequest := as_ResourceRequest s; as_AssignedGPU := as_AssignedGPU s;
                   as_Resources := as_Resources s; as_AllocationType := as_AllocationType s;
                   as_Actions := as_Actions s |};
     al_Status := al_Status a |}.

Definition fillAllocation (a : AIResourceAllocation) (pod : Pod) (prof : AIWorkloadProfile) (nodeName : string)
    (resources : ResourceSummary) (allocationType reason : string) : AIResourceAllocation :=
  let m := al_Meta a in
  let entry := allocationWorkloadSpec pod prof resources allocationType reason in
  {| al_Meta :=
       {| Name := Name m; Namespace := Namespace m; UID := UID m;
          Labels := mergeLabels (Labels m)
            {[ AllocationLabelManagedBy := "astra-scheduler";
               AllocationLabelWorkloadNamespace := labelValue (Namespace (pod_Meta pod));
               AllocationLabelWorkloadName := labelValue (Name (pod_Meta pod));
               AllocationLabelNodeName := labelValue nodeName;
               AllocationLabelPriority := labelValue (wps_Priority (wp_Spec prof)) ]};
          Annotations := mergeLabels (Annotations m)
            {[ AllocationAnnotationSourcePodName := Name (pod_Meta pod);
               AllocationAnnotationSourcePodUID := UID (pod_Meta pod) ]};
          CreationTimestamp := CreationTimestamp m; DeletionTimestamp := DeletionTimestamp m |};
     al_Spec :=
       {| as_NodeName := nodeName;
          as_Workloads := upsertAllocationWorkload (as_Workloads (al_Spec a)) entry;
          as_Reason := reason;
          as_WorkloadRef := aws_WorkloadRef entry;
          as_WorkloadType := aws_WorkloadType entry;
          as_Priority := aws_Priority entry;
          as_DemandShape := aws_DemandShape entry;
          as_TimeWindows := aws_TimeWindows entry;
          as_ResourceRequest := aws_ResourceRequest entry;
          as_AssignedGPU := as_AssignedGPU (al_Spec a);
          as_Resources := aws_Resources entry;
          as_AllocationType := aws_AllocationType entry;
          as_Actions := aws_Actions entry |};
     al_Status := al_Status a |}.

Definition policyDecisionForNode (missing : string) (state : CycleState) (nodeName : string) : ScoreDecision :=
  let fallback := {| sd_Score := 0; sd_Reason := "scheduled by AstraScheduler" |} in
  match readSchedulingState missing state with
  | inr _ => fallback
  | inl s =>
      match getScoreDecision s nodeName with
      | Some d => if decide (sd_Reason d = "") then fallback else d
      | None => fallback
      end
  end.

(** ** The API server *)

Definition Key := (string * string)%type.

Class ApiServer (S : Type) := {
  stored : S -> gmap Key (AIResourceAllocation * Z);
  srv_Get : Key -> S -> S * (AIResourceAllocation * Z + ApiError);
  srv_Create : Key -> AIResourceAllocation -> S -> S * option ApiError;
  srv_Update : Key -> Z -> AIResourceAllocation -> S -> S * option ApiError;
  srv_Delete : Key -> S -> S * option ApiError;
  environment : S -> S -> Prop;
  (** the text of [apierrors.NewConflict] *)
  NewConflict : string * string -> string -> ApiError -> string
}.

Class ApiServerLaws (S : Type) `{ApiServer S} : Prop := {
  (** reading does not change anything and returns what is stored *)
  get_stored : forall k s s' r, srv_Get k s = (s', r) -> stored s' = stored s /\
    match r with
    | inl av => stored s !! k = Some av
    | inr e => IsNotFound e = true -> stored s !! k = None
    end;
  (** creation succeeds only for a new name and stores the object *)
  create_stored : forall k a s s' r, srv_Create k a s = (s', r) ->
    match r with
    | None => stored s !! k = None /\ exists v, stored s' = <[k := (a, v)]> (stored s)
    | Some _ => stored s' = stored s
    end;
  (** an update succeeds only on the stored version *)
  update_stored : forall k v a s s' r, srv_Update k v a s = (s', r) ->
    match r with
    | None => (exists b, stored s !! k = Some (b, v)) /\ exists v', stored s' = <[k := (a, v')]> (stored s)
    | Some _ => stored s' = stored s
    end;
  (** a deletion names the object, not a version *)
  delete_stored : forall k s s' r, srv_Delete k s = (s', r) ->
    match r with
    | None => stored s' = delete k (stored s)
    | Some _ => stored s' = stored s
    end;
  (** others' writes: an object with the same version has the same content *)
  environment_versions : forall k s s' a b v, rtc environment s s' ->
    stored s !! k = Some (a, v) -> stored s' !! k = Some (b, v) -> a = b
}.

(** The write a function decides on after its Get. *)
Inductive Write :=
  | Stop (r : option ApiError)
  | DoCreate (a : AIResourceAllocation)
  | DoUpdate (version : Z) (a : AIResourceAllocation)
  | DoDelete.

(** ** Reserve *)

Definition allocationGroupResource : string * string := (GroupVersion_Group, "airesourceallocations").

(** The body of the closure of Reserve after the Get: the object to write. *)
Definition reserve_decide (key : Key) (fill : AIResourceAllocation -> AIResourceAllocation)
    (got : AIResourceAllocation * Z + ApiError) : Write :=
  match got with
  | inl (a, v) => DoUpdate v (fill a)
  | inr err =>
      if negb (IsNotFound err) then Stop (Some err)
      else DoCreate (fill {| al_Meta := {| Name := key.2; Namespace := key.1; UID := ""; Labels := ∅;
                                           Annotations := ∅; CreationTimestamp := None;
                                           DeletionTimestamp := None |};
                             al_Spec := zero_AIResourceAllocationSpec;
                             al_Status := zero_AIResourceAllocationStatus |})
  end.

(** Reserve up to its retry loop: a final status, or the key and the function
    that fills the ledger object. *)
Definition reserve_prepare (p : AstraScheduler) (state : CycleState) (pod : Pod) (nodeName : string)
    : CycleState * (option Status + Key * (AIResourceAllocation -> AIResourceAllocation)) :=
  if negb (ours pod) then (state, inl None)
  else if decide (nodeName = "") then
    (state, inl (Some {| st_Code := CodeError; st_Message := "reserve received empty nodeName" |}))
  else
    let '(state, prof) := profileForPod p state pod in
    match prof with
    | inr status => (state, inl (Some status))
    | inl prof =>
        let '(state, r) := nodeResourceForNode p state nodeName in
        match r with
        | inr status => (state, inl (Some status))
        | inl nodeResource =>
            let resources := AllocationResources (Some prof) (Some nodeResource) in
            let decision := policyDecisionForNode (missing_key p) state nodeName in
            (state, inr ((nodeNamespace p, buildAllocationName nodeName),
                         fun a => fillAllocation a pod prof nodeName resources
                                    (AllocationType (Some prof) resources) (sd_Reason decision)))
        end
    end.

Definition reserve_status (r : option ApiError) : option Status :=
  match r with
  | None => None
  | Some e => Some {| st_Code := CodeError;
                      st_Message := "reserve AIResourceAllocation failed: " +:+ error_text e |}
  end.

(** ** Unreserve *)

Definition unreserve_decide (entryName : string) (got : AIResourceAllocation * Z + ApiError) : Write :=
  match got with
  | inr err => if IsNotFound err then Stop None else Stop (Some err)
  | inl (a, v) =>
      let ws := removeAllocationWorkload (as_Workloads (al_Spec a)) entryName in
      match ws with
      | [] => DoDelete
      | _ => DoUpdate v (with_workloads a ws)
      end
  end.

Section Server.
Context {S : Type} `{ApiServer S}.

(** Performing the write: what the closure returns. *)
Definition perform (key : Key) (w : Write) (s : S) : S * option ApiError :=
  match w with
  | Stop r => (s, r)
  | DoCreate a =>
      let '(s, r) := srv_Create key a s in
      (s, match r with
          | Some e => if IsAlreadyExists e then Some (Conflict (NewConflict allocationGroupResource key.2 e)) else Some e
          | None => None
          end)
  | DoUpdate v a => srv_Update key v a s
  | DoDelete =>
      let '(s, r) := srv_Delete key s in
      (s, match r with
          | Some e => if IsNotFound e then None else Some e
          | None => None
          end)
  end.

(** One execution of the closure: [before] is the state its write meets. *)
Definition attempt (key : Key) (dec : AIResourceAllocation * Z + ApiError -> Write) (s before s' : S)
    (r : option ApiError) : Prop :=
  exists s1 got, srv_Get key s = (s1, got) /\ rtc environment s1 before /\
    perform key (dec got) before = (s', r).

(** Every execution of [RetryOnConflict]: a conflict is retried, any other
    outcome is final, and it may give up after a conflict. *)
Inductive retry_run (key : Key) (dec : AIResourceAllocation * Z + ApiError -> Write)
    : S -> S -> S -> option ApiError -> Prop :=
  | retry_final s before s' r : attempt key dec s before s' r -> retry_run key dec s before s' r
  | retry_conflict s before1 s1 s2 before s' t r :
      attempt key dec s before1 s1 (Some (Conflict t)) -> rtc environment s1 s2 ->
      retry_run key dec s2 before s' r -> retry_run key dec s before s' r.

(** Reserve from the cycle state and the server state [s]; a run that reaches
    the retry loop records in [before] the state its last write met. *)
Inductive Reserve (p : AstraScheduler) (state : CycleState) (pod : Pod) (nodeName : string) (s : S)
    : option S -> CycleState -> S -> option Status -> Prop :=
  | Reserve_stop state' status :
      reserve_prepare p state pod nodeName = (state', inl status) ->
      Reserve p state pod nodeName s None state' s status
  | Reserve_write state' key fill before s' r :
      reserve_prepare p state pod nodeName = (state', inr (key, fill)) ->
      retry_run key (reserve_decide key fill) s before s' r ->
      Reserve p state pod nodeName s (Some before) state' s' (reserve_status r).

Inductive Unreserve (p : AstraScheduler) (pod : Pod) (nodeName : string) (s : S) : S -> Prop :=
  | Unreserve_skip : ours pod = false -> Unreserve p pod nodeName s s
  | Unreserve_write before s' r :
      ours pod = true ->
      retry_run (nodeNamespace p, buildAllocationName nodeName)
        (unreserve_decide (workloadEntryName pod None)) s before s' r ->
      Unreserve p pod nodeName s s'.
End Server.

(** ** A server: a map with a version counter *)

Record Store := { store_objects : gmap Key (AIResourceAllocation * Z); store_next : Z }.

(** Every version was handed out in the past. *)
Definition store_wf (st : Store) : Prop :=
  map_Forall (fun _ av => av.2 < store_next st) (store_objects st).

Definition store_put (k : Key) (a : AIResourceAllocation) (st : Store) : Store :=
  {| store_objects := <[k := (a, store_next st)]> (store_objects st); store_next := store_next st + 1 |}.
Definition store_delete (k : Key) (st : Store) : Store :=
  {| store_objects := delete k (store_objects st); store_next := store_next st + 1 |}.

(** Another client writes or deletes an object; versions are never reused. *)
Inductive store_env : Store -> Store -> Prop :=
  | env_put k a st : store_wf st -> store_env st (store_put k a st)
  | env_delete k st : store_wf st -> store_env st (store_delete k st).

#[export] Instance Store_server : ApiServer Store := {
  stored := store_objects;
  srv_Get k st := (st, match store_objects st !! k with
                       | Some av => inl av
                       | None => inr (NotFound "not found")
                       end);
  srv_Create k a st := match store_objects st !! k with
                       | Some _ => (st, Some (AlreadyExists "already exists"))
                       | None => (store_put k a st, None)
                       end;
  srv_Update k v a st := match store_objects st !! k with
                         | Some (_, w) => if decide (v = w) then (store_put k a st, None)
                                          else (st, Some (Conflict "version mismatch"))
                         | None => (st, Some (NotFound "not found"))
                         end;
  srv_Delete k st := match store_objects st !! k with
                     | Some _ => (store_delete k st, None)
                     | None => (st, Some (NotFound "not found"))
                     end;
  environment := store_env;
  NewConflict _ name _ := name
}.

(** ** Lemmas: the sample server obeys the laws *)

Lemma store_env_versions k s s' :
  rtc store_env s s' -> store_wf s ->
  store_next s <= store_next s' /\
  forall b v, store_objects s' !! k = Some (b, v) -> v < store_next s -> store_objects s !! k = Some (b, v).
Proof.
  intros H. revert s' H. apply (rtc_ind_r (fun s' => store_wf s -> store_next s <= store_next s' /\
    forall b v, store_objects s' !! k = Some (b, v) -> v < store_next s -> store_objects s !! k = Some (b, v))).
  - intros _. split; [lia|]. auto.
  - intros t u _ Hstep IH Hwf. destruct (IH Hwf) as [H1 H2].
    destruct Hstep as [k' a t _|k' t _]; cbn; (split; [lia|]); intros b v.
    + intros [[_ [= <- <-]]|[_ Hb]]%lookup_insert_Some; [lia|auto].
    + intros [_ Hb]%lookup_delete_Some. auto.
Qed.

#[export] Instance Store_laws : ApiServerLaws Store.
Proof.
  split; cbn.
  - intros k s s' r [= <- <-]. split; [done|]. by destruct (store_objects s !! k).
  - intros k a s s' r. destruct (store_objects s !! k) eqn:E; intros [= <- <-]; cbn; eauto.
  - intros k v a s s' r. destruct (store_objects s !! k) as [[b w]|] eqn:E; [|by intros [= <- <-]].
    case_decide; intros [= <- <-]; subst; cbn; eauto.
  - intros k s s' r. by destruct (store_objects s !! k) eqn:E; intros [= <- <-].
  - intros k s s' a b v H Ha Hb. inversion H as [|x y z Hxy Hyz]; subst; [congruence|].
    assert (Hwf : store_wf s) by (by inversion Hxy). 
    destruct (store_env_versions k s s' H Hwf) as [_ H2].
    rewrite (H2 _ _ Hb) in Ha; [congruence|]. exact (Hwf _ _ Ha).
Qed.

(** ** Lemmas: entries *)

Lemma elem_of_remove l name w : w ∈ removeAllocationWorkload l name <-> w ∈ l /\ aws_Name w <> name.
Proof.
  unfold removeAllocationWorkload. rewrite !list_elem_of_In, filter_In, negb_true_iff, bool_decide_eq_false.
  done.
Qed.

(** Undoing a fresh reservation gives the old entries back. *)
Lemma remove_upsert l e :
  aws_Name e ∉ aws_Name <$> l ->
  removeAllocationWorkload (upsertAllocationWorkload l e) (aws_Name e) = l.
Proof.
  unfold upsertAllocationWorkload. induction l as [|w l IH]; cbn; intros Hn.
  - by rewrite bool_decide_true by done.
  - rewrite elem_of_cons in Hn. rewrite decide_False by (intros ?; apply Hn; auto). cbn.
    rewrite bool_decide_false by (intros ?; apply Hn; auto). cbn. f_equal. apply IH. tauto.
Qed.

(** ** Lemmas: writes *)

Section Linearize.
Context {S : Type} `{ApiServerLaws S}.

(** A write that succeeds is applied to the object as it was stored then. *)
Lemma attempt_reserve key fill s before s' :
  attempt key (reserve_decide key fill) s before s' None ->
  exists a v, stored s' = <[key := (fill a, v)]> (stored before) /\
    match stored before !! key with
    | Some (b, _) => a = b
    | None => as_Workloads (al_Spec a) = [] /\ al_Meta a =
        {| Name := key.2; Namespace := key.1; UID := ""; Labels := ∅; Annotations := ∅;
           CreationTimestamp := None; DeletionTimestamp := None |}
    end.
Proof.
  intros (s1 & got & Hget & Henv & Hw). apply get_stored in Hget as [Hs1 Hget].
  destruct got as [[a v]|err]; cbn in Hw.
  - destruct (update_stored _ _ _ _ _ _ Hw) as [(b & Hb) (v' & Hs')].
    exists a, v'. split; [done|]. rewrite Hb. rewrite <- Hs1 in Hget.
    by eapply environment_versions.
  - destruct (IsNotFound err) eqn:Hnf; cbn in Hw; [|done].
    destruct (srv_Create _ _ before) as [s2 r] eqn:Hc. apply create_stored in Hc.
    destruct r as [e|]; [by destruct (IsAlreadyExists e)|]. injection Hw as <-.
    destruct Hc as [Hnone (v & Hs')]. do 2 eexists. split; [exact Hs'|]. by rewrite Hnone.
Qed.

Lemma retry_last key dec s before s' r :
  retry_run key dec s before s' r -> exists s0, attempt key dec s0 before s' r.
Proof. induction 1 as [s before s' r Ha|]; eauto. Qed.

Lemma attempt_unreserve_update key name s before s' v a :
  attempt key (unreserve_decide name) s before s' None ->
  stored s' !! key = Some (a, v) -> stored before !! key <> stored s' !! key ->
  exists b w, stored before !! key = Some (b, w) /\ a = with_workloads b (removeAllocationWorkload (as_Workloads (al_Spec b)) name) /\
    stored s' = <[key := (a, v)]> (stored before).
Proof.
  intros (s1 & got & Hget & Henv & Hw) Ha Hne. apply get_stored in Hget as [Hs1 Hget].
  destruct got as [[b w]|err]; cbn in Hw; [|destruct (IsNotFound err); cbn in Hw; by simplify_eq].
  destruct (removeAllocationWorkload _ name) as [|x xs] eqn:Hr; cbn in Hw.
  - destruct (srv_Delete key before) as [s2 r] eqn:Hd. apply delete_stored in Hd.
    injection Hw as <- _. destruct r as [e|]; rewrite Hd in *; [done|].
    by rewrite lookup_delete_eq in Ha.
  - destruct (update_stored _ _ _ _ _ _ Hw) as [(c & Hc) (v' & Hs')].
    rewrite <- Hs1 in Hget. pose proof (environment_versions _ _ _ _ _ _ Henv Hget Hc) as <-.
    rewrite Hs', lookup_insert_eq in Ha. injection Ha as <- <-. exists b, w. rewrite Hr. done.
Qed.
End Linearize.

(** ** Lemmas: names *)

Definition cut (b : Z) : bool := bool_decide (b ∈ dash_dot).
Definition valid_chars (s : string) : Prop := Forall (fun b => name_char b = true) (bytes s).

(** A name or label segment: the allowed characters, no dash or dot at either
    end. *)
Record clean (s : string) : Prop := {
  clean_chars : valid_chars s;
  clean_head : forall b t, bytes s = b :: t -> cut b = false;
  clean_last : forall b t, bytes s = t ++ [b] -> cut b = false
}.

Lemma name_char_range b : name_char b = true -> 45 <= b <= 122.
Proof.
  unfold name_char, between. intros Hb. repeat (apply orb_true_iff in Hb as [Hb|Hb]); zbool; lia.
Qed.

Lemma name_char_bytes l : Forall (fun b => name_char b = true) l -> Forall is_byte l.
Proof. intros Hl. eapply Forall_impl; [exact Hl|]. intros b Hb%name_char_range. unfold is_byte. lia. Qed.

Lemma bytes_TrimCut set s : bytes (TrimCut set s) = trim_bytes (fun b => bool_decide (b ∈ set)) (bytes s).
Proof. unfold TrimCut. apply bytes_of_bytes, Forall_trim_bytes, bytes_range. Qed.

Lemma sanitized_chars v :
  Forall (fun b => name_char b = true) ((fun r => if name_char r then r else 45) <$> runes (ToLower v)).
Proof.
  apply Forall_fmap, Forall_true. intros r. unfold compose. cbn. by destruct (name_char r) eqn:E.
Qed.

Lemma bytes_sanitizeName v :
  bytes (sanitizeName v) =
  trim_bytes cut ((fun r => if name_char r then r else 45) <$> runes (ToLower v)).
Proof. unfold sanitizeName. rewrite bytes_TrimCut, bytes_of_bytes; [done|]. apply name_char_bytes, sanitized_chars. Qed.

(** Trimming a string of allowed characters leaves a clean one. *)
Lemma TrimCut_clean s : valid_chars s -> clean (TrimCut dash_dot s).
Proof.
  intros Hs. split.
  - unfold valid_chars. rewrite bytes_TrimCut. by apply Forall_trim_bytes.
  - intros b t. rewrite bytes_TrimCut. apply (trim_bytes_head cut).
  - intros b t. rewrite bytes_TrimCut. apply (trim_bytes_last cut).
Qed.

Lemma sanitizeName_clean v : clean (sanitizeName v).
Proof.
  apply TrimCut_clean. unfold valid_chars. rewrite bytes_of_bytes; [apply sanitized_chars|].
  apply name_char_bytes, sanitized_chars.
Qed.

Lemma bytes_prefix_n n s : bytes (prefix_n n s) = take n (bytes s).
Proof.
  unfold prefix_n. revert n. induction s as [|c s IH]; intros [|n]; try done.
  change (String.substring 0 (S n) (String c s)) with (String c (String.substring 0 n s)).
  change (byte_of c :: bytes (String.substring 0 n s) = byte_of c :: take n (bytes s)). by rewrite IH.
Qed.

Lemma prefix_n_chars n s : valid_chars s -> valid_chars (prefix_n n s).
Proof. unfold valid_chars. rewrite bytes_prefix_n. apply Forall_take. Qed.

Lemma length_TrimCut set s : (String.length (TrimCut set s) <= String.length s)%nat.
Proof. rewrite <- !length_bytes, bytes_TrimCut. apply length_trim_bytes. Qed.

Lemma length_prefix_n n s : (String.length (prefix_n n s) <= n)%nat.
Proof. rewrite <- length_bytes, bytes_prefix_n, length_take. lia. Qed.

Lemma rune_lower_name_char b : name_char b = true -> rune_lower b = b.
Proof. intros Hb. unfold name_char, rune_lower, between in *. if_split; zbool; lia. Qed.

Lemma ToLower_id s : valid_chars s -> ToLower s = s.
Proof.
  intros Hs. unfold ToLower. rewrite runes_ascii.
  2:{ eapply Forall_impl; [exact Hs|]. intros b Hb%name_char_range. lia. }
  rewrite <- (of_bytes_bytes s) at 2. f_equal.
  induction Hs as [|b l Hb _ IH]; [done|]. cbn [fmap list_fmap concat]. fold (fmap (encode_rune ∘ rune_lower) l).
  rewrite IH. unfold compose. rewrite rune_lower_name_char by done. unfold encode_rune. pose proof (name_char_range b Hb).
  by destruct (Z.ltb_spec b 128); [|lia].
Qed.

(** A clean name is left alone. *)
Lemma sanitizeName_id s : clean s -> sanitizeName s = s.
Proof.
  intros [Hc Hh Hl]. apply bytes_inj. rewrite bytes_sanitizeName, ToLower_id by done.
  rewrite runes_ascii.
  2:{ eapply Forall_impl; [exact Hc|]. intros b Hb%name_char_range. lia. }
  rewrite (list_fmap_ext _ id), list_fmap_id; [by apply trim_bytes_id|].
  intros i b Hb. apply list_elem_of_lookup_2 in Hb. unfold valid_chars in Hc. rewrite Forall_forall in Hc.
  by rewrite (Hc _ Hb).
Qed.

Lemma valid_chars_app s t : valid_chars s -> valid_chars t -> valid_chars (s +:+ t).
Proof. unfold valid_chars. rewrite bytes_app. intros. by apply Forall_app. Qed.

Lemma clean_app s t : clean s -> clean t -> s <> "" -> t <> "" -> forall m, valid_chars m -> clean (s +:+ m +:+ t).
Proof.
  intros [Hs Hh _] [Ht _ Hl] Hne1 Hne2 m Hm. split.
  - auto using valid_chars_app.
  - intros b u. rewrite bytes_app. destruct (bytes s) as [|c l] eqn:E.
    + exfalso. apply Hne1, bytes_inj. by rewrite E.
    + intros [= <- _]. by eapply Hh.
  - intros b u. rewrite !bytes_app.
    destruct (bytes t) as [|c l _] eqn:E using rev_ind.
    + exfalso. apply Hne2, bytes_inj. by rewrite E.
    + rewrite !app_assoc. intros [_ [= <-]]%app_inj_tail. by eapply Hl.
Qed.

Definition hex_bytes (l : list Z) : list Z :=
  l ≫= fun b => [Sha256.hex_digit (b / 16); Sha256.hex_digit (b mod 16)].

Lemma hex_bytes_Forall (P : Z -> Prop) l :
  (forall n, 0 <= n < 16 -> P (Sha256.hex_digit n)) -> Forall is_byte l -> Forall P (hex_bytes l).
Proof.
  intros HP. induction 1 as [|b l Hb _ IH]; [constructor|]. unfold is_byte in Hb.
  constructor; [|constructor; [|exact IH]]; apply HP.
  - split; [apply Z.div_pos; lia|apply Z.div_lt_upper_bound; lia].
  - apply Z.mod_pos_bound. lia.
Qed.

Lemma hex_digit_name_char n : 0 <= n < 16 -> name_char (Sha256.hex_digit n) = true.
Proof. intros Hn. unfold Sha256.hex_digit, name_char, between. destruct (Z.ltb_spec n 10); lia. Qed.

Lemma bytes_hex l : Forall is_byte l -> bytes (EncodeToString l) = hex_bytes l.
Proof.
  intros Hl. unfold EncodeToString. apply bytes_of_bytes, name_char_bytes.
  apply hex_bytes_Forall; [exact hex_digit_name_char|done].
Qed.

Lemma hex_chars l : Forall is_byte l -> valid_chars (EncodeToString l).
Proof.
  intros Hl. unfold valid_chars. rewrite bytes_hex by done. by apply hex_bytes_Forall; [exact hex_digit_name_char|].
Qed.

Lemma Sum256_bytes msg : Forall is_byte (Sum256 msg).
Proof.
  unfold Sum256. apply Forall_bind, Forall_true. intros w. unfold bytes_of_word, is_byte.
  repeat constructor; apply Z.mod_pos_bound; lia.
Qed.

Lemma hex_digit_not_cut n : 0 <= n < 16 -> cut (Sha256.hex_digit n) = false.
Proof.
  intros Hn. unfold cut, dash_dot. apply bool_decide_false.
  rewrite elem_of_cons, list_elem_of_singleton. unfold Sha256.hex_digit.
  destruct (Z.ltb_spec n 10); lia.
Qed.

Lemma hex_not_cut l : Forall is_byte l -> Forall (fun b => cut b = false) (bytes (EncodeToString l)).
Proof. intros Hl. rewrite bytes_hex by done. by apply hex_bytes_Forall; [exact hex_digit_not_cut|]. Qed.

Lemma not_cut_clean s : valid_chars s -> Forall (fun b => cut b = false) (bytes s) -> clean s.
Proof.
  intros Hv Hc. split; [done|..]; intros b t E; rewrite E in Hc.
  - by apply Forall_cons in Hc as [? _].
  - by apply Forall_app in Hc as [_ [? _]%Forall_cons].
Qed.

(** The digest suffix of a long name. *)
Definition name_suffix (nodeName : string) : string := prefix_n 8 (EncodeToString (Sum256 (bytes nodeName))).

Lemma name_suffix_clean nodeName : clean (name_suffix nodeName) /\ String.length (name_suffix nodeName) = 8%nat.
Proof.
  unfold name_suffix. set (h := Sum256 (bytes nodeName)).
  assert (Hh : Forall is_byte h) by apply Sum256_bytes. split.
  - apply not_cut_clean; [by apply prefix_n_chars, hex_chars|].
    rewrite bytes_prefix_n. by apply Forall_take, hex_not_cut.
  - rewrite <- length_bytes, bytes_prefix_n, length_take, length_bytes. unfold EncodeToString.
    rewrite length_of_bytes, (bind_length_const _ 2) by done. unfold h. by rewrite Sum256_length.
Qed.

(** Cutting a clean name and trimming it again leaves its first character. *)
Lemma trimmed_prefix_nonempty n s :
  clean s -> s <> "" -> (0 < n)%nat -> TrimCut dash_dot (prefix_n n s) <> "".
Proof.
  intros [_ Hh _] Hs Hn E. apply (f_equal bytes) in E. rewrite bytes_TrimCut, bytes_prefix_n in E.
  apply trim_bytes_nil in E. destruct (bytes s) as [|b l] eqn:Eb; [apply Hs, bytes_inj; by rewrite Eb|].
  destruct n as [|n]; [lia|]. cbn [take] in E. apply Forall_cons in E as [E _].
  specialize (Hh b l eq_refl). unfold cut in Hh. congruence.
Qed.

Lemma length_append s t : String.length (s +:+ t) = (String.length s + String.length t)%nat.
Proof. rewrite <- !length_bytes, bytes_app. apply length_app. Qed.

(** ** Theorems: names *)

(** the name of a node's ledger object is always a legal object name: at
    most 253 characters of the allowed set, with no dash or dot at its ends;
    and a label value has at most 63 of them. *)
Theorem allocation_names_are_legal nodeName value :
  clean (buildAllocationName nodeName) /\ (String.length (buildAllocationName nodeName) <= 253)%nat /\
  clean (labelValue value) /\ (String.length (labelValue value) <= 63)%nat.
Proof.
  assert (Hl : clean (labelValue value) /\ (String.length (labelValue value) <= 63)%nat).
  { unfold labelValue. destruct (Nat.leb_spec (String.length (sanitizeName value)) 63) as [Hle|_].
    - split; [apply sanitizeName_clean|done].
    - split; [apply TrimCut_clean, prefix_n_chars, clean_chars, sanitizeName_clean|].
      etrans; [apply length_TrimCut|apply length_prefix_n]. }
  split; [|split; [|done]]; unfold buildAllocationName; fold (name_suffix nodeName);
    set (base := sanitizeName _);
    destruct (name_suffix_clean nodeName) as [Hc H8];
    pose proof (sanitizeName_clean (nodeName +:+ "-allocation")) as Hb; fold base in Hb;
    (destruct (Nat.leb_spec (String.length base) 253) as [Hle|Hgt]; [done|]).
  - apply clean_app; [..|repeat constructor]; try done.
    + apply TrimCut_clean, prefix_n_chars, Hb.
    + apply trimmed_prefix_nonempty; [done| |lia]. intros E. rewrite E in Hgt. cbn in Hgt. lia.
    + intros E. by rewrite E in H8.
  - rewrite !length_append, H8. change (String.length "-") with 1%nat.
    pose proof (length_TrimCut dash_dot (prefix_n 244 base)). pose proof (length_prefix_n 244 base). lia.
Qed.

(** for a legal node name the ledger's name is the node name with a fixed
    suffix, so two nodes never share a ledger, and up to 63 characters the
    node label is the node name itself, which is what the agent selects by. *)
Theorem legal_node_names n m :
  clean n -> n <> "" -> (String.length n <= 242)%nat ->
  buildAllocationName n = n +:+ "-allocation" /\
  ((String.length n <= 63)%nat -> labelValue n = n) /\
  (clean m -> m <> "" -> (String.length m <= 242)%nat ->
   buildAllocationName m = buildAllocationName n -> m = n).
Proof.
  assert (Hname : forall x, clean x -> x <> "" -> (String.length x <= 242)%nat ->
            buildAllocationName x = x +:+ "-allocation").
  { intros x Hx Hne Hlen. unfold buildAllocationName.
    assert (Hc : clean (x +:+ "-" +:+ "allocation")).
    { apply clean_app; try done; [|repeat constructor].
      apply not_cut_clean; repeat constructor. }
    change ("-" +:+ "allocation") with "-allocation" in Hc. rewrite sanitizeName_id by done.
    rewrite length_append. change (String.length "-allocation") with 11%nat.
    destruct (Nat.leb_spec (String.length x + 11) 253); [done|lia]. }
  intros Hn Hne Hlen. split; [auto|]. split.
  - intros H63. unfold labelValue. rewrite sanitizeName_id by done.
    destruct (Nat.leb_spec (String.length n) 63); [done|lia].
  - intros Hm Hme Hml. rewrite !Hname by done. intros E. apply bytes_inj.
    apply (f_equal bytes) in E. rewrite !bytes_app in E. by apply app_inv_tail in E.
Qed.

Lemma legal_node_names_witness :
  buildAllocationName "gpu-node-1" = "gpu-node-1-allocation" /\
  ((String.length "gpu-node-1" <= 63)%nat -> labelValue "gpu-node-1" = "gpu-node-1") /\
  (clean "gpu-node-2" -> "gpu-node-2" <> "" -> (String.length "gpu-node-2" <= 242)%nat ->
   buildAllocationName "gpu-node-2" = buildAllocationName "gpu-node-1" -> "gpu-node-2" = "gpu-node-1").
Proof.
  apply (legal_node_names "gpu-node-1" "gpu-node-2").
  - refine (eq_ind _ clean (sanitizeName_clean "gpu-node-1") _ _). vm_compute. reflexivity.
  - discriminate.
  - cbn. lia.
Defined.

(** ** Theorems: the ledger *)

(** The entries of the ledger stored under a key. *)
Definition ledger_entries {S} `{ApiServer S} (s : S) (key : Key) : list AllocationWorkloadSpec :=
  match stored s !! key with
  | Some (a, _) => as_Workloads (al_Spec a)
  | None => []
  end.

(** The profile of the pod and the node profile [Reserve] works with: those
    of the cycle state where it has them, else those the client reads. *)
Definition reserve_inputs (p : AstraScheduler) (state : CycleState) (pod : Pod) (nodeName : string)
    (prof : AIWorkloadProfile) (node : AINodeResourceProfile) : Prop :=
  exists state1 state2,
    profileForPod p state pod = (state1, inl prof) /\
    nodeResourceForNode p state1 nodeName = (state2, inl node).

(** The object a successful Reserve writes, on top of what was stored at the
    moment of the write. *)
Lemma Reserve_writes {S} `{ApiServerLaws S} p state pod nodeName s before state' s' :
  Reserve p state pod nodeName s (Some before) state' s' None ->
  let key : Key := (nodeNamespace p, buildAllocationName nodeName) in
  exists prof node reason a v,
    let resources := AllocationResources (Some prof) (Some node) in
    reserve_inputs p state pod nodeName prof node /\
    stored s' = <[key := (fillAllocation a pod prof nodeName resources
                            (AllocationType (Some prof) resources) reason, v)]> (stored before) /\
    as_Workloads (al_Spec a) = ledger_entries before key.
Proof.
  intros Hr key. inversion Hr as [|state1 key' fill before' s1 r Hprep Hrun E1 E2 E3 E4]; subst.
  destruct r; [done|].
  unfold reserve_prepare in Hprep. destruct (negb (ours pod)); [done|]. destruct (decide (nodeName = "")); [done|].
  destruct (profileForPod p state pod) as [st1 [prof|]] eqn:Eprof; [|done].
  destruct (nodeResourceForNode p st1 nodeName) as [st2 [node|]] eqn:Enode; [|done].
  injection Hprep as <- <- <-. fold key in Hrun.
  apply retry_last in Hrun as (s0 & Ha%attempt_reserve). destruct Ha as (a & v & Hs' & Ha).
  exists prof, node, (sd_Reason (policyDecisionForNode (missing_key p) st2 nodeName)), a, v.
  split; [by exists st1, st2|]. split; [done|].
  unfold ledger_entries. destruct (stored before !! key) as [[b w]|]; [by rewrite Ha|]. by destruct Ha as [-> _].
Qed.

(** C5: a Reserve that reports success has put the pod's entry into the
    node's ledger as it was at that very moment: whatever other clients wrote
    meanwhile, no other workload's entry is lost or changed, no other object
    is touched, and the entry carries the resources the policy grants. *)
Theorem Reserve_keeps_other_reservations {S} `{ApiServerLaws S} p state pod nodeName s before state' s' :
  Reserve p state pod nodeName s (Some before) state' s' None ->
  let key : Key := (nodeNamespace p, buildAllocationName nodeName) in
  exists prof node reason,
    let resources := AllocationResources (Some prof) (Some node) in
    let entry := allocationWorkloadSpec pod prof resources (AllocationType (Some prof) resources) reason in
    ledger_entries s' key = upsertAllocationWorkload (ledger_entries before key) entry /\
    entry ∈ ledger_entries s' key /\
    (forall w, aws_Name w <> aws_Name entry -> w ∈ ledger_entries s' key <-> w ∈ ledger_entries before key) /\
    (forall k, k <> key -> stored s' !! k = stored before !! k).
Proof.
  intros Hr key. apply Reserve_writes in Hr as (prof & node & reason & a & v & _ & Hs' & Ha). fold key in Hs', Ha.
  exists prof, node, reason. cbn zeta. set (entry := allocationWorkloadSpec pod prof _ _ _).
  assert (He : ledger_entries s' key = upsertAllocationWorkload (ledger_entries before key) entry).
  { unfold ledger_entries at 1. rewrite Hs', lookup_insert_eq. cbn [fillAllocation al_Spec as_Workloads].
    by rewrite Ha. }
  rewrite He. split_and!; [done|apply upsert_by_in| |].
  - intros w Hw. by apply upsert_by_others.
  - intros k Hk. rewrite Hs'. by apply lookup_insert_ne.
Qed.

(** C25: for a pod with a namespace and a name, Unreserve removes exactly the
    entry Reserve added: on a ledger that had no entry of that name the two
    cancel out. *)
Theorem Unreserve_undoes_Reserve pod prof resources allocationType reason entries :
  Namespace (pod_Meta pod) <> "" -> Name (pod_Meta pod) <> "" ->
  workloadEntryName pod None ∉ aws_Name <$> entries ->
  removeAllocationWorkload
    (upsertAllocationWorkload entries (allocationWorkloadSpec pod prof resources allocationType reason))
    (workloadEntryName pod None) = entries.
Proof.
  intros Hns Hn Hfresh.
  assert (He : workloadEntryName pod None =
               aws_Name (allocationWorkloadSpec pod prof resources allocationType reason)).
  { cbn. unfold workloadEntryName. by rewrite !decide_False by done. }
  rewrite He in *. by apply remove_upsert.
Qed.

Lemma Unreserve_undoes_Reserve_witness :
  removeAllocationWorkload
    (upsertAllocationWorkload [] (allocationWorkloadSpec sample_pod sample_profile (res 2) "guaranteed" ""))
    (workloadEntryName sample_pod None) = [].
Proof.
  apply Unreserve_undoes_Reserve; [discriminate|discriminate|]. apply not_elem_of_nil.
Defined.

(** ** A run on the sample server *)

Definition node_key : Key := ("astra-system", "node-a-allocation").
Definition empty_store : Store := {| store_objects := ∅; store_next := 0 |}.

Lemma node_key_eq : (nodeNamespace sample_plugin, buildAllocationName "node-a") = node_key.
Proof. vm_compute. reflexivity. Qed.

(** With the objects in the cache Reserve reaches its retry loop. *)
Lemma reserve_prepare_cached p s pod nodeName prof node :
  ours pod = true -> nodeName <> "" -> profile s = Some prof -> nodeResources s !! nodeName = Some node ->
  exists fill, reserve_prepare p (CycleData s) pod nodeName =
    (CycleData s, inr ((nodeNamespace p, buildAllocationName nodeName), fill)).
Proof.
  intros Ho Hn Hp Hr. unfold reserve_prepare. rewrite Ho, decide_False by done. cbn [negb].
  rewrite (profileForPod_cached _ _ _ _ Hp), (nodeResourceForNode_cached _ _ _ _ Hr). eauto.
Qed.

Lemma store_reserve_run key fill (st : Store) :
  exists s', retry_run key (reserve_decide key fill) st st s' None.
Proof.
  destruct (store_objects st !! key) as [[a v]|] eqn:E; eexists; apply retry_final;
    do 2 eexists; (split; [reflexivity|]); (split; [apply rtc_refl|]); cbn; rewrite E; cbn; rewrite E; cbn;
    [by rewrite decide_True by done|done].
Qed.

(** with nobody interfering, Reserve succeeds: once the profile and the
    node profile are cached, there is a run that reports success. *)
Theorem Reserve_succeeds_alone p s pod nodeName prof node (st : Store) :
  ours pod = true -> nodeName <> "" -> profile s = Some prof -> nodeResources s !! nodeName = Some node ->
  exists st', Reserve p (CycleData s) pod nodeName st (Some st) (CycleData s) st' None.
Proof.
  intros Ho Hn Hp Hr. destruct (reserve_prepare_cached p s pod nodeName prof node Ho Hn Hp Hr) as [fill Hprep].
  destruct (store_reserve_run (nodeNamespace p, buildAllocationName nodeName) fill st) as [st' Hrun].
  exists st'. exact (Reserve_write _ _ _ _ _ _ _ _ _ _ None Hprep Hrun).
Qed.

Definition cached_cycle : schedulingState := setNodeResource sample_cycle "node-a" (node_with 8 8 []).

Lemma Reserve_succeeds_alone_witness : exists st',
  Reserve sample_plugin (CycleData cached_cycle) sample_pod "node-a" empty_store (Some empty_store)
    (CycleData cached_cycle) st' None.
Proof.
  apply (Reserve_succeeds_alone sample_plugin cached_cycle sample_pod "node-a" sample_profile (node_with 8 8 []));
    [reflexivity|discriminate|reflexivity|reflexivity].
Defined.

Lemma sample_reserve_run : exists st',
  Reserve sample_plugin (CycleData cached_cycle) sample_pod "node-a" empty_store (Some empty_store)
    (CycleData cached_cycle) st' None.
Proof.
  destruct (reserve_prepare_cached sample_plugin cached_cycle sample_pod "node-a" sample_profile (node_with 8 8 []))
    as [fill Hprep]; [reflexivity|discriminate|reflexivity|reflexivity|].
  destruct (store_reserve_run (nodeNamespace sample_plugin, buildAllocationName "node-a") fill empty_store)
    as [st' Hrun].
  exists st'. exact (Reserve_write _ _ _ _ _ _ _ _ _ _ None Hprep Hrun).
Qed.

Lemma Reserve_keeps_other_reservations_witness :
  exists s', let key : Key := (nodeNamespace sample_plugin, buildAllocationName "node-a") in
  exists prof node reason,
    let resources := AllocationResources (Some prof) (Some node) in
    let entry := allocationWorkloadSpec sample_pod prof resources (AllocationType (Some prof) resources) reason in
    ledger_entries s' key = upsertAllocationWorkload (ledger_entries empty_store key) entry /\
    entry ∈ ledger_entries s' key /\
    (forall w, aws_Name w <> aws_Name entry -> w ∈ ledger_entries s' key <-> w ∈ ledger_entries empty_store key) /\
    (forall k, k <> key -> stored s' !! k = stored empty_store !! k).
Proof.
  destruct sample_reserve_run as [st' Hrun]. exists st'.
  exact (Reserve_keeps_other_reservations _ _ _ _ _ _ _ _ Hrun).
Defined.

(** Two pods whose names differ only in where the slash falls. *)
Definition pod_named (namespace name : string) : Pod :=
  {| pod_Meta := {| Name := name; Namespace := namespace; UID := namespace +:+ "/" +:+ name; Labels := ∅;
                    Annotations := ∅; CreationTimestamp := None; DeletionTimestamp := None |};
     pod_SchedulerName := SchedulerName; pod_NodeName := ""; pod_Phase := "Pending"; pod_Rest := "" |}.

(** the entry name does not identify the pod: [a/b-c] and [a-b/c] get the
    same one, so reserving for the second replaces the first one's entry, and
    unreserving the second removes it. *)
Theorem entry_names_collide :
  let p1 := pod_named "a" "b-c" in
  let p2 := pod_named "a-b" "c" in
  let e1 := allocationWorkloadSpec p1 sample_profile (res 2) "guaranteed" "" in
  let e2 := allocationWorkloadSpec p2 sample_profile (res 1) "guaranteed" "" in
  upsertAllocationWorkload [e1] e2 = [e2] /\
  removeAllocationWorkload [e1] (workloadEntryName p2 None) = [].
Proof. split; vm_compute; reflexivity. Qed.

(** ** The deletion race *)

Definition entry_of (pod : Pod) : AllocationWorkloadSpec :=
  allocationWorkloadSpec pod sample_profile (res 2) "guaranteed" "".
Definition ledger_with (entries : list AllocationWorkloadSpec) : AIResourceAllocation :=
  with_workloads {| al_Meta := named "node-a-allocation"; al_Spec := zero_AIResourceAllocationSpec;
                    al_Status := zero_AIResourceAllocationStatus |} entries.
Definition store_with (entries : list AllocationWorkloadSpec) : Store :=
  {| store_objects := {[ node_key := (ledger_with entries, 0) ]}; store_next := 1 |}.

(** C38: the deletion in Unreserve carries no version: an Unreserve that read
    the ledger when its own entry was the only one deletes the whole object,
    with the entry another pod reserved between the read and the deletion. *)
Theorem Unreserve_may_delete_a_reservation :
  let p1 := pod_named "default" "one" in
  let p2 := pod_named "default" "two" in
  let meanwhile := store_put node_key (ledger_with [entry_of p1; entry_of p2]) (store_with [entry_of p1]) in
  exists s', retry_run node_key (unreserve_decide (workloadEntryName p1 None))
               (store_with [entry_of p1]) meanwhile s' None /\
    Unreserve sample_plugin p1 "node-a" (store_with [entry_of p1]) s' /\
    entry_of p2 ∈ ledger_entries meanwhile node_key /\
    aws_Name (entry_of p1) <> aws_Name (entry_of p2) /\
    stored s' !! node_key = None.
Proof.
  cbn zeta. eexists.
  match goal with |- ?A /\ _ => assert (HA : A) end.
  { apply retry_final. do 2 eexists. split; [reflexivity|]. split.
    - apply rtc_once, env_put, map_Forall_singleton. reflexivity.
    - vm_compute. reflexivity. }
  split; [exact HA|]. split; [|split; [|split]].
  - eapply Unreserve_write; [reflexivity|]. rewrite node_key_eq. exact HA.
  - compute_decide.
  - compute_decide.
  - vm_compute. reflexivity.
Qed.

(** a node whose name is longer than 63 characters gets a label that is
    not its name, so a selection of the ledgers by the node's name does not
    find it. *)
Theorem long_node_name_label_differs :
  let node := "ip-10-0-0-1.very-long-availability-zone-name.compute.internal.example" in
  clean node /\ (String.length node <= 242)%nat /\ labelValue node <> node.
Proof.
  cbn zeta. split; [|split].
  - refine (eq_ind _ clean (sanitizeName_clean
      "ip-10-0-0-1.very-long-availability-zone-name.compute.internal.example") _ _).
    vm_compute. reflexivity.
  - vm_compute. lia.
  - compute_decide.
Qed.
