(* ===== verification/PluginCycle.v ===== *)
(** * PluginCycle: one pod through the hooks of the scheduler

    The hooks of internal/scheduler/plugin share one cycle state: filter.go,
    score.go and reserve.go resolve the pod's profile and the node profiles
    through it.  This file runs them in any order, against an API server that
    may answer differently every time, and shows that the whole cycle works on
    the objects it resolved first. *)

From stdpp Require Import strings gmap.
From S2P Require Import Prelude GoString ApiTypes Samples Resources PolicyWindow PolicyFilter PolicyScore ScoreOrder.
From S2P Require Import PluginState PluginReserve.
Local Open Scope string_scope.
Local Open Scope list_scope.
Local Open Scope Z_scope.

Section Cycle.
Context {S : Type} `{ApiServerLaws S}.

(** One hook of the scheduling cycle after PreFilter.  The plugin [p] may be
    another one at every step: its client answers what the API server says at
    that time. *)
Inductive hook (pod : Pod) : schedulingState -> schedulingState -> Prop :=
  | hook_Filter p s node s' status :
      Filter p (CycleData s) pod node = Ret (CycleData s', status) -> hook pod s s'
  | hook_PreScore p s s' status :
      PreScore p (CycleData s) pod = (CycleData s', status) -> hook pod s s'
  | hook_Score p s node s' result :
      Score p (CycleData s) pod node = (CycleData s', result) -> hook pod s s'
  | hook_Normalize p s scores s' scores' status :
      NormalizeScore p (CycleData s) pod scores = (CycleData s', scores', status) -> hook pod s s'
  | hook_Reserve p s nodeName (server : S) before s' server' status :
      Reserve p (CycleData s) pod nodeName server before (CycleData s') server' status -> hook pod s s'.

(** ** Lemmas: the cache survives every hook *)

Lemma Filter_cache p s pod prof node s' status :
  profile s = Some prof -> Filter p (CycleData s) pod node = Ret (CycleData s', status) -> cache_le s s'.
Proof.
  intros Hp Hf. unfold Filter in Hf.
  destruct (negb (ours pod)); [by simplify_eq|]. destruct node as [node|]; [|by simplify_eq].
  rewrite (profileForPod_cached _ _ _ _ Hp) in Hf.
  destruct (nodeResourceForNode_cache p s node) as (s1 & r & E & Hle & _). rewrite E in Hf.
  destruct r as [n|]; [|by simplify_eq].
  destruct (PolicyFilter.Filter _ _) as [d|]; cbn in Hf; by simplify_eq.
Qed.

Lemma Score_cache p s pod prof node s' result :
  profile s = Some prof -> Score p (CycleData s) pod node = (CycleData s', result) -> cache_le s s'.
Proof.
  intros Hp Hs. unfold Score in Hs.
  destruct (negb (ours pod)); [by simplify_eq|]. destruct node as [node|]; [|by simplify_eq].
  rewrite (profileForPod_cached _ _ _ _ Hp) in Hs.
  destruct (nodeResourceForNode_cache p s node) as (s1 & r & E & Hle & _). rewrite E in Hs.
  destruct r as [n|]; [|by simplify_eq]. cbn [readSchedulingState] in Hs.
  set (d := with_node_name _ _) in Hs. pose proof (record_cache s1 node d) as Hr.
  destruct (recordScoreDetail s1 node d). cbn in *. simplify_eq. by etrans.
Qed.

Lemma NormalizeScore_cache p s pod scores s' scores' status :
  NormalizeScore p (CycleData s) pod scores = (CycleData s', scores', status) -> cache_le s s'.
Proof.
  intros Hn. unfold NormalizeScore in Hn. destruct (negb (ours pod)); [by simplify_eq|].
  cbn [readSchedulingState] in Hn.
  match type of Hn with context [normalize_loop ?a ?b ?c s scores] =>
    pose proof (normalize_loop_cache a b c s scores) as Hl; destruct (normalize_loop a b c s scores) as [[? ?] ?] end.
  by simplify_eq.
Qed.

Lemma reserve_prepare_cache p s pod prof nodeName s' r :
  profile s = Some prof -> reserve_prepare p (CycleData s) pod nodeName = (CycleData s', r) -> cache_le s s'.
Proof.
  intros Hp Hr. unfold reserve_prepare in Hr. destruct (negb (ours pod)); [by simplify_eq|].
  case_decide; [by simplify_eq|]. rewrite (profileForPod_cached _ _ _ _ Hp) in Hr.
  destruct (nodeResourceForNode_cache p s nodeName) as (s1 & q & E & Hle & _). rewrite E in Hr.
  destruct q; by simplify_eq.
Qed.

Lemma hook_cache pod prof s s' : profile s = Some prof -> hook pod s s' -> cache_le s s'.
Proof.
  intros Hp Hh. destruct Hh as [p s node s' status Hh|p s s' status Hh|p s node s' result Hh
    |p s scores s' scores' status Hh|p s nodeName server before s' server' status Hh].
  - by eapply Filter_cache.
  - unfold PreScore in Hh. destruct (negb (ours pod)); cbn in Hh; by simplify_eq.
  - by eapply Score_cache.
  - by eapply NormalizeScore_cache.
  - inversion Hh; subst; by eapply reserve_prepare_cache.
Qed.

Lemma hooks_cache pod prof s t : profile s = Some prof -> rtc (hook pod) s t -> cache_le s t.
Proof.
  intros Hs. induction 1 as [|a b c Hab _ IH]; [done|].
  pose proof (hook_cache _ _ _ _ Hs Hab) as Hle. etrans; [exact Hle|]. apply IH. by apply Hle.
Qed.

(** ** Lemmas: what the hooks compute from the cache *)

(** The result of every hook on the node is that of the profile [prof] and the
    node profile [n], whatever the client of the plugin [q] would answer. *)
Record decided_by (t : schedulingState) (pod : Pod) (nodeName : string)
    (prof : AIWorkloadProfile) (n : AINodeResourceProfile) (q : AstraScheduler) : Prop := {
  decided_Filter : exists status,
    Filter q (CycleData t) pod (Some nodeName) = Ret (CycleData t, status) /\
    (status = None <-> admissible (Some prof) (Some n));
  decided_Score :
    let detail := with_node_name (ScoreDetail (policy q) (Some prof) (Some n)) nodeName in
    Score q (CycleData t) pod (Some nodeName) =
      (CycleData (recordScoreDetail t nodeName detail).1,
       ((recordScoreDetail t nodeName detail).2, None));
  decided_Reserve (server before : S) state' server' :
    Reserve q (CycleData t) pod nodeName server (Some before) state' server' None ->
    exists reason,
      let resources := AllocationResources (Some prof) (Some n) in
      allocationWorkloadSpec pod prof resources (AllocationType (Some prof) resources) reason
        ∈ ledger_entries server' (nodeNamespace q, buildAllocationName nodeName)
}.

Lemma cached_decides t pod nodeName prof n q :
  ours pod = true -> profile t = Some prof -> nodeResources t !! nodeName = Some n ->
  decided_by t pod nodeName prof n q.
Proof.
  intros Ho Hp Hn. split.
  - unfold Filter. rewrite Ho. cbn [negb].
    rewrite (profileForPod_cached _ _ _ _ Hp), (nodeResourceForNode_cached _ _ _ _ Hn).
    destruct (Filter_decides (Some prof) (Some n)) as (d & -> & Hd). cbn [go_bind].
    eexists. split; [done|]. rewrite <- Hd. by destruct (Allowed d).
  - cbn zeta. unfold Score. rewrite Ho. cbn [negb].
    rewrite (profileForPod_cached _ _ _ _ Hp), (nodeResourceForNode_cached _ _ _ _ Hn).
    cbn [readSchedulingState]. by destruct (recordScoreDetail t nodeName _).
  - intros server before state' server' (prof' & node' & reason & a & v & Hin & Hs & _)%Reserve_writes.
    destruct Hin as (s1 & s2 & E1 & E2). rewrite (profileForPod_cached _ _ _ _ Hp) in E1.
    injection E1 as <- <-. rewrite (nodeResourceForNode_cached _ _ _ _ Hn) in E2. injection E2 as <- <-.
    exists reason. cbn zeta. unfold ledger_entries. rewrite Hs, lookup_insert_eq.
    cbn [fillAllocation al_Spec as_Workloads]. apply upsert_by_in.
Qed.

(** ** Theorems *)

(** C35: a scheduling cycle decides on one version of every object.  Let
    PreFilter resolve the profile [prof]; then after any sequence of Filter,
    PreScore, Score, NormalizeScore and Reserve calls, with clients that answer
    anything at each of them, the profile is still [prof]; the first Filter of
    a node puts the node profile it reads into the cycle state; and from the
    moment [n] is there for a node, at every later point of the cycle Filter
    admits the node exactly when [prof] may be placed on [n], Score records the
    detail of [prof] on [n], and a successful Reserve writes the entry of
    [prof] with the resources granted on [n], whatever the API server would
    answer by then. *)
Theorem cycle_snapshot_stable p pod s0 s t prof :
  PreFilter p CycleEmpty pod = (CycleData s0, None) -> resolveProfile p pod = inl prof ->
  rtc (hook pod) s0 s -> rtc (hook pod) s t ->
  profile t = Some prof /\
  (forall q nodeName n, nodeName <> "" -> nodeResources t !! nodeName = None ->
     get_node (client q) (nodeNamespace q) nodeName = inl n ->
     exists t' status, Filter q (CycleData t) pod (Some nodeName) = Ret (CycleData t', status) /\
       nodeResources t' !! nodeName = Some n) /\
  (forall nodeName n, nodeResources s !! nodeName = Some n ->
     nodeResources t !! nodeName = Some n /\ forall q, decided_by t pod nodeName prof n q).
Proof.
  intros Hpre Hres H1 H2.
  assert (ours pod = true /\ profile s0 = Some prof) as [Ho Hp0].
  { unfold PreFilter in Hpre. destruct (ours pod); [|done]. cbn in Hpre. rewrite Hres in Hpre. by simplify_eq. }
  assert (Hps : profile s = Some prof) by by apply (hooks_cache _ _ _ _ Hp0 H1).
  destruct (hooks_cache _ _ _ _ Hps H2) as [H3 H4]. pose proof (H3 _ Hps) as Hpt. split; [done|]. split.
  - intros q nodeName n Hne Hnone Hget. unfold Filter. rewrite Ho. cbn [negb].
    rewrite (profileForPod_cached _ _ _ _ Hpt). unfold nodeResourceForNode, resolveNodeResource, getNodeResource.
    cbn [readSchedulingState]. rewrite Hnone, decide_False, Hget by done.
    destruct (Filter_decides (Some prof) (Some n)) as (d & -> & _). cbn [go_bind].
    do 2 eexists. split; [done|]. cbn. apply lookup_insert_eq.
  - intros nodeName n Hn. assert (Hn' : nodeResources t !! nodeName = Some n) by by eapply lookup_weaken.
    split; [done|]. intros q. by apply cached_decides.
Qed.
End Cycle.

(** The node profile is read once, by Filter, and Score works on it although
    the API server has another one by then. *)
Lemma cycle_snapshot_stable_witness :
  let q := {| client := {| get_profile := get_profile sample_reader;
                           get_node := fun _ _ => inl (node_with 1 1 []) |};
              policy := NewSimplePolicy; nodeNamespace := "astra-system"; missing_key := "not found" |} in
  Score q (CycleData cached_cycle) sample_pod (Some "node-a") =
  Score sample_plugin (CycleData cached_cycle) sample_pod (Some "node-a").
Proof.
  assert (H : forall q, decided_by (S := Store) cached_cycle sample_pod "node-a" sample_profile (node_with 8 8 []) q).
  { apply (cycle_snapshot_stable (S := Store) sample_plugin sample_pod sample_cycle cached_cycle cached_cycle
             sample_profile); [reflexivity..| |apply rtc_refl|reflexivity].
    apply rtc_once. apply (hook_Filter sample_pod sample_plugin sample_cycle (Some "node-a") _ None).
    vm_compute. reflexivity. }
  intros q. etrans; [exact (decided_Score _ _ _ _ _ _ (H q))|].
  symmetry. exact (decided_Score _ _ _ _ _ _ (H sample_plugin)).
Defined.

(** ** The ranking of the candidates *)

(** What Score records for the candidate nodes of a pod. *)
Definition scored (prof : AIWorkloadProfile) (nodes : list (string * AINodeResourceProfile))
    : list (string * NodeScoreDetail) :=
  (fun '(name, n) => (name, with_node_name (ScoreDetail NewSimplePolicy (Some prof) (Some n)) name)) <$> nodes.

Lemma with_node_name_score d name :
  PreferredMatched (with_node_name d name) = PreferredMatched d /\
  sd_Score (normalize_detail (with_node_name d name)) = sd_Score (normalize_detail d).
Proof.
  destruct d as [a1 a2 a3 a4 a5 a6 a7 a8 a9 b1 b2 b3 b4 b5 b6 b7 b8]. unfold normalize_detail.
  cbn [sd_Score with_node_name PreferredMatched WeightedHeadroomScore TimeWindowMultiplier MixBalanceMultiplier
       ExtraScore ExtraMultiplier RuntimeRiskPenalty ExtraPenalty].
  split; reflexivity.
Qed.

Lemma ScoreDetail_matched_nonneg prof n :
  0 <= PreferredMatched (ScoreDetail NewSimplePolicy (Some prof) (Some n)).
Proof.
  destruct (nst_Available (np_Status n)) as [available|] eqn:E.
  - destruct (default_detail prof n available E) as [C _]. cbn zeta in C.
    pose proof (preferredMatchCount_nonneg (preferredResources (Some prof)) available) as H.
    rewrite <- C in H. cbn [fst] in H. exact H.
  - unfold ScoreDetail, BuildDetail. rewrite E. cbn [start_detail PreferredMatched]. lia.
Qed.

Lemma scored_names prof nodes : (scored prof nodes).*1 = nodes.*1.
Proof. unfold scored. rewrite <- list_fmap_compose. apply list_fmap_ext. by intros i [name n] _. Qed.

Lemma scored_tiers prof nodes p :
  NoDup nodes.*1 -> tiers_ok (record_all (newSchedulingState p) (scored prof nodes)).1.
Proof.
  intros Hnd. apply record_all_tiers; [apply newSchedulingState_tiers|by rewrite scored_names|done|].
  apply Forall_fmap, Forall_forall. intros [name n] _. cbn [compose snd].
  rewrite (proj1 (with_node_name_score _ _)). apply ScoreDetail_matched_nonneg.
Qed.

Lemma scored_lookup prof nodes p name n :
  NoDup nodes.*1 -> (name, n) ∈ nodes ->
  scoreDetails (record_all (newSchedulingState p) (scored prof nodes)).1 !! name =
  Some (with_node_name (ScoreDetail NewSimplePolicy (Some prof) (Some n)) name).
Proof.
  intros Hnd Hin. rewrite record_all_details by (by rewrite ?scored_names).
  cbn [newSchedulingState scoreDetails]. rewrite (right_id_L ∅ (∪)).
  apply elem_of_list_to_map; [by rewrite scored_names|].
  exact (list_elem_of_fmap_2 _ _ _ Hin).
Qed.

(** Of two recorded nodes, the one with the larger count and the larger score
    of the policy has the larger final score. *)
Lemma final_score_mono s a b d e :
  tiers_ok s -> scoreDetails s !! a = Some d -> scoreDetails s !! b = Some e ->
  PreferredMatched d <= PreferredMatched e ->
  sd_Score (normalize_detail d) <= sd_Score (normalize_detail e) ->
  final_score s a <= final_score s b.
Proof.
  intros Ht Ha Hb Hm Hs.
  assert (Hup : a ∈ bestPreferredNodes s -> b ∈ bestPreferredNodes s).
  { rewrite !(tier_nodes _ Ht). intros (d' & Hd' & E). exists e. split; [done|].
    pose proof (tier_upper _ Ht _ _ Hb). simplify_eq. lia. }
  destruct (decide (b ∈ bestPreferredNodes s)) as [Ib|Ib].
  - destruct (decide (a ∈ bestPreferredNodes s)) as [Ia|Ia].
    + unfold final_score. by rewrite Ha, Hb, !decide_True.
    + by apply (final_score_loser s b a Ht).
  - unfold final_score. rewrite Ha, Hb, !decide_False by auto. done.
Qed.

(** C16: more free resources never make a node rank lower.  Score any candidate
    nodes, in any order, and normalize: of two candidates that differ only in
    the resources they have free, the one with more in every dimension gets a
    final score that is at least as high, floating-point rounding included. *)
Theorem more_resources_never_rank_lower q pod prof nodes scores n available more a b :
  ours pod = true -> NoDup nodes.*1 ->
  (a, with_available n available) ∈ nodes -> (b, with_available n more) ∈ nodes ->
  rs_wf available -> rs_wf more -> rs_le available more ->
  let s := (record_all (newSchedulingState (Some prof)) (scored prof nodes)).1 in
  exists s' final status,
    NormalizeScore q (CycleData s) pod scores = (CycleData s', final, status) /\
    final.*1 = scores.*1 /\
    forall x y, (a, x) ∈ final -> (b, y) ∈ final -> x <= y.
Proof.
  intros Ho Hnd Ha Hb Wa Wb Hle s.
  pose proof (scored_tiers prof nodes (Some prof) Hnd) as Ht. fold s in Ht.
  assert (Hmono : final_score s a <= final_score s b).
  { destruct (detail_mono prof n available more Wa Wb Hle) as [Hm Hs].
    eapply final_score_mono; [exact Ht|exact (scored_lookup _ _ _ _ _ Hnd Ha)|exact (scored_lookup _ _ _ _ _ Hnd Hb)| |].
    - rewrite !(proj1 (with_node_name_score _ _)). exact Hm.
    - rewrite !(proj2 (with_node_name_score _ _)). exact Hs. }
  unfold NormalizeScore. rewrite Ho. cbn [negb readSchedulingState].
  pose proof (normalize_loop_scores (scoreDetails s) s s scores _ _ eq_refl eq_refl eq_refl) as Hl.
  unfold scoreDetailSnapshot. destruct (normalize_loop _ _ _ s scores) as [[s' final] f]. cbn in Hl. subst final.
  do 3 eexists. split; [done|]. split.
  - rewrite <- list_fmap_compose. apply list_fmap_ext. by intros i [m z] _.
  - intros x y ([m z] & Ex & _)%list_elem_of_fmap ([m' z'] & Ey & _)%list_elem_of_fmap. by simplify_eq.
Qed.

(** Three candidates, the third in a tier of its own below the others. *)
Lemma more_resources_never_rank_lower_witness :
  let prof := workload "chat" "high" [daytime] 1 2 3 in
  let nodes := [("a", with_available (node_with 8 4 []) (res 3)); ("b", with_available (node_with 8 4 []) (res 4));
                ("c", with_available (node_with 8 4 []) (res 1))] in
  let s := (record_all (newSchedulingState (Some prof)) (scored prof nodes)).1 in
  (exists s' final status,
    NormalizeScore sample_plugin (CycleData s) sample_pod [("a", 2); ("b", 2); ("c", 1)] = (CycleData s', final, status) /\
    final.*1 = ["a"; "b"; "c"] /\ forall x y, ("a", x) ∈ final -> ("b", y) ∈ final -> x <= y) /\
  (NormalizeScore sample_plugin (CycleData s) sample_pod [("a", 2); ("b", 2); ("c", 1)]).1.2
    = [("a", 51); ("b", 100); ("c", 25)].
Proof.
  cbn zeta. split; [|vm_compute; reflexivity].
  apply (more_resources_never_rank_lower sample_plugin sample_pod _ _ [("a", 2); ("b", 2); ("c", 1)]
    (node_with 8 4 []) (res 3) (res 4));
    try compute_decide; [left|right; left].
Defined.
