(* ===== verification/AgentResources.v ===== *)
(** * AgentResources: resource managers and local constraints of the agent

    internal/agent/resources and internal/agent/constraints.  The two Go
    interfaces are records of methods; [Observe]'s error result is the right
    injection of a sum.  Contexts are dropped. *)

From stdpp Require Import strings gmap.
From S2P Require Import Prelude GoString ApiTypes Resources.
Local Open Scope string_scope.
Local Open Scope list_scope.
Local Open Scope Z_scope.

(** ** resources/manager.go *)

Record Snapshot := {
  sn_Name : string;
  sn_Capacity : ResourceSummary;
  sn_Allocated : ResourceSummary;
  sn_Available : ResourceSummary;
  sn_Description : string
}.

(** Reading an absent key of [map[string]Snapshot]. *)
Definition zero_Snapshot : Snapshot :=
  {| sn_Name := ""; sn_Capacity := zero_ResourceSummary; sn_Allocated := zero_ResourceSummary;
     sn_Available := zero_ResourceSummary; sn_Description := "" |}.

Record NodeState := {
  st_Node : option AINodeResourceProfile;
  st_Allocations : list AIResourceAllocation;
  st_Snapshots : gmap string Snapshot
}.

Record ValidationRequest := {
  vr_Node : option AINodeResourceProfile;
  vr_Allocation : option AIResourceAllocation;
  vr_Snapshot : Snapshot
}.

Record ValidationResult := { vres_Allowed : bool; vres_Reason : string }.

Record Manager := {
  mgr_Name : string;
  mgr_Observe : option AINodeResourceProfile -> list AIResourceAllocation -> Snapshot + string;
  mgr_Validate : ValidationRequest -> ValidationResult
}.

Definition allocationSum (allocations : list AIResourceAllocation) : ResourceSummary :=
  fold_left (fun summary allocation =>
    match as_Resources (al_Spec allocation) with
    | None => summary
    | Some r =>
        {| GPUCount := GPUCount summary +₃₂ GPUCount r;
           GPUMemoryGiB := GPUMemoryGiB summary +₃₂ GPUMemoryGiB r;
           KVCacheGiB := KVCacheGiB summary +₃₂ KVCacheGiB r;
           PrefillTokensPerSecond := PrefillTokensPerSecond summary +₃₂ PrefillTokensPerSecond r;
           DecodeTokensPerSecond := DecodeTokensPerSecond summary +₃₂ DecodeTokensPerSecond r;
           TotalTokensPerSecond := TotalTokensPerSecond summary +₃₂ TotalTokensPerSecond r |}
    end) allocations zero_ResourceSummary.

(** ** resources/gpu_manager.go *)

Definition GPUManagerName : string := "gpu".

(** A summary with only the GPU fields set. *)
Definition gpu_summary (count memory : Z) : ResourceSummary :=
  {| GPUCount := count; GPUMemoryGiB := memory; KVCacheGiB := 0;
     PrefillTokensPerSecond := 0; DecodeTokensPerSecond := 0; TotalTokensPerSecond := 0 |}.

(** [int32(len(node.Spec.GPUs))] and the int32 sum of the GPU memories. *)
Definition gpu_count (gpus : list GPUDeviceSpec) : Z := wrap32 (Z.of_nat (length gpus)).
Definition gpu_memory (start : Z) (gpus : list GPUDeviceSpec) : Z :=
  fold_left (fun acc gpu => acc +₃₂ gds_MemoryGiB gpu) gpus start.

Definition GPUManager_Observe (node : option AINodeResourceProfile)
    (allocations : list AIResourceAllocation) : Snapshot + string :=
  let '(count, memory) :=
    match node with
    | Some n =>
        match nst_Allocatable (np_Status n) with
        | Some a => (GPUCount a, GPUMemoryGiB a)
        | None => (0, 0)
        end
    | None => (0, 0)
    end in
  let count := match node with
    | Some n => if count =? 0 then gpu_count (ns_GPUs (np_Spec n)) else count
    | None => count
    end in
  let memory := match node with
    | Some n => if memory =? 0 then gpu_memory memory (ns_GPUs (np_Spec n)) else memory
    | None => memory
    end in
  let sum := allocationSum allocations in
  let allocated := gpu_summary (GPUCount sum) (GPUMemoryGiB sum) in
  inl {| sn_Name := GPUManagerName;
         sn_Capacity := gpu_summary count memory;
         sn_Allocated := allocated;
         sn_Available := gpu_summary (nonNegative (count -₃₂ GPUCount allocated))
                           (nonNegative (memory -₃₂ GPUMemoryGiB allocated));
         sn_Description := "GPU count and memory budget" |}.

Definition GPUManager_Validate (req : ValidationRequest) : ValidationResult :=
  let s := vr_Snapshot req in
  if GPUCount (sn_Allocated s) >? GPUCount (sn_Capacity s) then
    {| vres_Allowed := false;
       vres_Reason := "local GPU count over capacity: allocated=" +:+ show_Z (GPUCount (sn_Allocated s))
                      +:+ " capacity=" +:+ show_Z (GPUCount (sn_Capacity s)) |}
  else if GPUMemoryGiB (sn_Allocated s) >? GPUMemoryGiB (sn_Capacity s) then
    {| vres_Allowed := false;
       vres_Reason := "local GPU memory over capacity: allocated="
                      +:+ show_Z (GPUMemoryGiB (sn_Allocated s)) +:+ "GiB capacity="
                      +:+ show_Z (GPUMemoryGiB (sn_Capacity s)) +:+ "GiB" |}
  else {| vres_Allowed := true; vres_Reason := "GPU desired budget fits local capacity" |}.

Definition NewGPUManager : Manager :=
  {| mgr_Name := GPUManagerName; mgr_Observe := GPUManager_Observe;
     mgr_Validate := GPUManager_Validate |}.

(** ** resources/kv_cache_manager.go *)

Definition KVCacheManagerName : string := "kv-cache".

Definition kv_summary (kv : Z) : ResourceSummary :=
  {| GPUCount := 0; GPUMemoryGiB := 0; KVCacheGiB := kv;
     PrefillTokensPerSecond := 0; DecodeTokensPerSecond := 0; TotalTokensPerSecond := 0 |}.

(** [node.Spec.Runtime.Capacity] behind its two nil checks. *)
Definition runtime_capacity (node : option AINodeResourceProfile) : option RuntimeCapacity :=
  match node with
  | Some n => match ns_Runtime (np_Spec n) with
              | Some r => rsp_Capacity r
              | None => None
              end
  | None => None
  end.

Definition KVCacheManager_Observe (node : option AINodeResourceProfile)
    (allocations : list AIResourceAllocation) : Snapshot + string :=
  let kv := match node with
    | Some n => match nst_Allocatable (np_Status n) with
                | Some a => KVCacheGiB a
                | None => 0
                end
    | None => 0
    end in
  let kv := match runtime_capacity node with
    | Some c => if kv =? 0 then rc_KVCacheGiB c else kv
    | None => kv
    end in
  let allocated := kv_summary (KVCacheGiB (allocationSum allocations)) in
  inl {| sn_Name := KVCacheManagerName;
         sn_Capacity := kv_summary kv;
         sn_Allocated := allocated;
         sn_Available := kv_summary (nonNegative (kv -₃₂ KVCacheGiB allocated));
         sn_Description := "runtime KV cache budget" |}.

Definition KVCacheManager_Validate (req : ValidationRequest) : ValidationResult :=
  let s := vr_Snapshot req in
  if KVCacheGiB (sn_Allocated s) >? KVCacheGiB (sn_Capacity s) then
    {| vres_Allowed := false;
       vres_Reason := "local KV cache over capacity: allocated="
                      +:+ show_Z (KVCacheGiB (sn_Allocated s)) +:+ "GiB capacity="
                      +:+ show_Z (KVCacheGiB (sn_Capacity s)) +:+ "GiB" |}
  else {| vres_Allowed := true; vres_Reason := "KV cache desired budget fits local capacity" |}.

Definition NewKVCacheManager : Manager :=
  {| mgr_Name := KVCacheManagerName; mgr_Observe := KVCacheManager_Observe;
     mgr_Validate := KVCacheManager_Validate |}.

(** ** resources/token_throughput_manager.go *)

Definition TokenThroughputManagerName : string := "token-throughput".

Definition token_summary (prefill decode total : Z) : ResourceSummary :=
  {| GPUCount := 0; GPUMemoryGiB := 0; KVCacheGiB := 0;
     PrefillTokensPerSecond := prefill; DecodeTokensPerSecond := decode;
     TotalTokensPerSecond := total |}.

Definition TokenThroughputManager_Observe (node : option AINodeResourceProfile)
    (allocations : list AIResourceAllocation) : Snapshot + string :=
  let '(prefill, decode, total) :=
    match node with
    | Some n => match nst_Allocatable (np_Status n) with
                | Some a => (PrefillTokensPerSecond a, DecodeTokensPerSecond a, TotalTokensPerSecond a)
                | None => (0, 0, 0)
                end
    | None => (0, 0, 0)
    end in
  let '(prefill, decode, total) :=
    match runtime_capacity node with
    | Some c =>
        match rc_TokenThroughput c with
        | Some t =>
            (if prefill =? 0 then tt_PrefillTokensPerSecond t else prefill,
             if decode =? 0 then tt_DecodeTokensPerSecond t else decode,
             if total =? 0 then tt_TotalTokensPerSecond t else total)
        | None => (prefill, decode, total)
        end
    | None => (prefill, decode, total)
    end in
  let sum := allocationSum allocations in
  let allocated := token_summary (PrefillTokensPerSecond sum) (DecodeTokensPerSecond sum)
                     (TotalTokensPerSecond sum) in
  inl {| sn_Name := TokenThroughputManagerName;
         sn_Capacity := token_summary prefill decode total;
         sn_Allocated := allocated;
         sn_Available := token_summary
           (nonNegative (prefill -₃₂ PrefillTokensPerSecond allocated))
           (nonNegative (decode -₃₂ DecodeTokensPerSecond allocated))
           (nonNegative (total -₃₂ TotalTokensPerSecond allocated));
         sn_Description := "prefill/decode token throughput budget" |}.

Definition TokenThroughputManager_Validate (req : ValidationRequest) : ValidationResult :=
  let a := sn_Allocated (vr_Snapshot req) in
  let c := sn_Capacity (vr_Snapshot req) in
  if PrefillTokensPerSecond a >? PrefillTokensPerSecond c then
    {| vres_Allowed := false;
       vres_Reason := "local prefill token throughput over capacity: allocated="
                      +:+ show_Z (PrefillTokensPerSecond a) +:+ " capacity="
                      +:+ show_Z (PrefillTokensPerSecond c) |}
  else if DecodeTokensPerSecond a >? DecodeTokensPerSecond c then
    {| vres_Allowed := false;
       vres_Reason := "local decode token throughput over capacity: allocated="
                      +:+ show_Z (DecodeTokensPerSecond a) +:+ " capacity="
                      +:+ show_Z (DecodeTokensPerSecond c) |}
  else if TotalTokensPerSecond a >? TotalTokensPerSecond c then
    {| vres_Allowed := false;
       vres_Reason := "local total token throughput over capacity: allocated="
                      +:+ show_Z (TotalTokensPerSecond a) +:+ " capacity="
                      +:+ show_Z (TotalTokensPerSecond c) |}
  else {| vres_Allowed := true; vres_Reason := "token throughput desired budget fits local capacity" |}.

Definition NewTokenThroughputManager : Manager :=
  {| mgr_Name := TokenThroughputManagerName; mgr_Observe := TokenThroughputManager_Observe;
     mgr_Validate := TokenThroughputManager_Validate |}.

(** ** constraints/constraint.go *)

Record CheckRequest := {
  cr_Node : option AINodeResourceProfile;
  cr_Allocation : option AIResourceAllocation;
  cr_Action : string;
  cr_Snapshots : gmap string Snapshot
}.

Record CheckResult := { cres_Allowed : bool; cres_Reason : string }.

Record Constraint := {
  c_Name : string;
  c_Check : CheckRequest -> CheckResult
}.

(** ** constraints/token_gpu_constraint.go *)

Definition TokenThroughputRequiresGPU_Check (req : CheckRequest) : CheckResult :=
  match cr_Allocation req with
  | None => {| cres_Allowed := true; cres_Reason := "" |}
  | Some allocation =>
      match as_Resources (al_Spec allocation) with
      | None => {| cres_Allowed := true; cres_Reason := "" |}
      | Some requested =>
          let needsTokenBudget :=
            (PrefillTokensPerSecond requested >? 0) || (DecodeTokensPerSecond requested >? 0) ||
            (TotalTokensPerSecond requested >? 0) in
          if negb needsTokenBudget then {| cres_Allowed := true; cres_Reason := "" |}
          else
            let gpuSnapshot := default zero_Snapshot (cr_Snapshots req !! GPUManagerName) in
            if GPUCount (sn_Capacity gpuSnapshot) <=? 0 then
              {| cres_Allowed := false;
                 cres_Reason := "token throughput allocation requires GPU capacity on the node" |}
            else {| cres_Allowed := true; cres_Reason := "token throughput has GPU capacity backing" |}
      end
  end.

Definition NewTokenThroughputRequiresGPU : Constraint :=
  {| c_Name := "token-throughput-requires-gpu"; c_Check := TokenThroughputRequiresGPU_Check |}.

(** ** constraints/runtime_action_constraint.go *)

Definition RuntimeActionCapability_Check (req : CheckRequest) : CheckResult :=
  let satisfied := {| cres_Allowed := true; cres_Reason := "runtime action capability is satisfied" |} in
  match cr_Node req with
  | None => {| cres_Allowed := true; cres_Reason := "" |}
  | Some n =>
      match ns_Capabilities (np_Spec n) with
      | None => {| cres_Allowed := true; cres_Reason := "" |}
      | Some capabilities =>
          let action := ToLower (cr_Action req) in
          if decide (action = AllocationActionThrottle) then
            if negb (cap_Throttling capabilities) then
              {| cres_Allowed := false; cres_Reason := "node backend does not support throttling action" |}
            else satisfied
          else if decide (action = AllocationActionPause) then
            if negb (cap_PauseResume capabilities) then
              {| cres_Allowed := false; cres_Reason := "node backend does not support pause action" |}
            else satisfied
          else if decide (action = AllocationActionEvict) then
            if negb (cap_Eviction capabilities) then
              {| cres_Allowed := false; cres_Reason := "node backend does not support eviction action" |}
            else satisfied
          else satisfied
      end
  end.

Definition NewRuntimeActionCapability : Constraint :=
  {| c_Name := "runtime-action-capability"; c_Check := RuntimeActionCapability_Check |}.

(** ** Typing: the int32 fields of a node profile are int32 values *)

Definition node_typed (n : AINodeResourceProfile) : Prop :=
  (forall a, nst_Allocatable (np_Status n) = Some a -> rs_wf a) /\
  (forall c, runtime_capacity (Some n) = Some c ->
     in_int32 (rc_KVCacheGiB c) /\
     forall t, rc_TokenThroughput c = Some t ->
       in_int32 (tt_PrefillTokensPerSecond t) /\ in_int32 (tt_DecodeTokensPerSecond t) /\
       in_int32 (tt_TotalTokensPerSecond t)).

(** What the three managers promise the local scheduler: observation never
    fails, and a snapshot of a typed node has a typed capacity. *)
Class ManagerLaws (m : Manager) : Prop := {
  observe_total : forall node allocations, exists s, mgr_Observe m node allocations = inl s;
  observe_capacity_wf : forall node allocations s,
    (forall n, node = Some n -> node_typed n) ->
    mgr_Observe m node allocations = inl s -> rs_wf (sn_Capacity s);
  (** the capacity a manager reports does not depend on the allocations *)
  observe_capacity_indep : forall node l k s t,
    mgr_Observe m node l = inl s -> mgr_Observe m node k = inl t -> sn_Capacity s = sn_Capacity t;
  (** validation compares the requested budget with that capacity only *)
  validate_indep : forall r r',
    sn_Capacity (vr_Snapshot r) = sn_Capacity (vr_Snapshot r') ->
    sn_Allocated (vr_Snapshot r) = sn_Allocated (vr_Snapshot r') ->
    mgr_Validate m r = mgr_Validate m r'
}.

(** What a local constraint promises: it reads the node, the planned
    allocation, the action and the snapshots' capacities. *)
Class ConstraintLaws (c : Constraint) : Prop := {
  check_indep : forall r r',
    cr_Node r = cr_Node r' -> cr_Allocation r = cr_Allocation r' -> cr_Action r = cr_Action r' ->
    sn_Capacity <$> cr_Snapshots r = sn_Capacity <$> cr_Snapshots r' ->
    c_Check c r = c_Check c r'
}.

(** ** Lemmas *)

Lemma in_int32_0 : in_int32 0.
Proof. i32. Qed.
#[export] Hint Resolve in_int32_0 : go.

Lemma gpu_memory_range start gpus : in_int32 start -> in_int32 (gpu_memory start gpus).
Proof.
  revert start. induction gpus as [|g gpus IH]; intros start H; [done|].
  cbn. apply IH. auto with go.
Qed.

Lemma gpu_summary_wf a b : in_int32 a -> in_int32 b -> rs_wf (gpu_summary a b).
Proof. intros. rs_open. cbn. split_and!; auto with go. Qed.

Lemma kv_summary_wf a : in_int32 a -> rs_wf (kv_summary a).
Proof. intros. rs_open. cbn. split_and!; auto with go. Qed.

Lemma token_summary_wf a b c : in_int32 a -> in_int32 b -> in_int32 c -> rs_wf (token_summary a b c).
Proof. intros. rs_open. cbn. split_and!; auto with go. Qed.

#[export] Instance GPUManager_laws : ManagerLaws NewGPUManager.
Proof.
  split; cbn; unfold GPUManager_Observe.
  - intros node l. repeat case_match; eauto.
  - intros node l s Hn H. destruct node as [n|].
    + destruct (Hn n eq_refl) as [Ha _]. clear Hn. unfold gpu_count in H.
      destruct (nst_Allocatable (np_Status n)) as [a|];
        [specialize (Ha a eq_refl); unfold rs_wf, rs_all in Ha|]; simplify_eq; cbn;
        apply gpu_summary_wf; if_split; try apply wrap32_range; try apply gpu_memory_range; zbool;
        tauto || auto with go.
    + simplify_eq. cbn. apply gpu_summary_wf; auto with go.
  - intros node l k s t H1 H2. repeat case_match; by simplify_eq.
  - intros r r' Hc Ha. unfold GPUManager_Validate. by rewrite Hc, Ha.
Qed.

#[export] Instance KVCacheManager_laws : ManagerLaws NewKVCacheManager.
Proof.
  split; cbn; unfold KVCacheManager_Observe.
  - intros node l. eauto.
  - intros node l s Hn H. injection H as <-. cbn. apply kv_summary_wf.
    destruct node as [n|]; cbn; [|auto with go].
    destruct (Hn n eq_refl) as [Ha Hc]. cbn in Hc.
    destruct (nst_Allocatable (np_Status n)) as [a|];
      [specialize (Ha a eq_refl); unfold rs_wf, rs_all in Ha|];
      destruct (ns_Runtime (np_Spec n)) as [[? ? [c|]]|]; cbn in *;
      try (destruct (Hc c eq_refl) as [? _]); if_split; tauto || auto with go.
  - intros node l k s t H1 H2. by simplify_eq.
  - intros r r' Hc Ha. unfold KVCacheManager_Validate. by rewrite Hc, Ha.
Qed.

#[export] Instance TokenThroughputManager_laws : ManagerLaws NewTokenThroughputManager.
Proof.
  split; cbn; unfold TokenThroughputManager_Observe.
  - intros node l. repeat case_match; eauto.
  - intros node l s Hn H. destruct node as [n|]; cbn in *.
    + destruct (Hn n eq_refl) as [Ha Hc]. cbn in Hc.
      destruct (nst_Allocatable (np_Status n)) as [a|];
        [specialize (Ha a eq_refl); unfold rs_wf, rs_all in Ha|];
        destruct (ns_Runtime (np_Spec n)) as [[? ? [c|]]|]; cbn in *;
        try (destruct (Hc c eq_refl) as [_ Ht]);
        try (destruct (rc_TokenThroughput c) as [t|];
             [destruct (Ht t eq_refl) as (? & ? & ?)|]); simplify_eq; cbn;
        apply token_summary_wf; if_split; tauto || auto with go.
    + simplify_eq. cbn. apply token_summary_wf; auto with go.
  - intros node l k s t H1 H2. repeat case_match; by simplify_eq.
  - intros r r' Hc Ha. unfold TokenThroughputManager_Validate. by rewrite Hc, Ha.
Qed.

#[export] Instance TokenThroughputRequiresGPU_laws : ConstraintLaws NewTokenThroughputRequiresGPU.
Proof.
  split. intros r r' Hn Ha Hact Hs. cbn. unfold TokenThroughputRequiresGPU_Check.
  rewrite Ha. repeat case_match; try done.
  all: apply (f_equal (lookup GPUManagerName)) in Hs; rewrite !lookup_fmap in Hs;
    destruct (cr_Snapshots r !! GPUManagerName), (cr_Snapshots r' !! GPUManagerName);
    cbn in *; simplify_eq; congruence.
Qed.

#[export] Instance RuntimeActionCapability_laws : ConstraintLaws NewRuntimeActionCapability.
Proof.
  split. intros r r' Hn Ha Hact Hs. cbn. unfold RuntimeActionCapability_Check. by rewrite Hn, Hact.
Qed.
