(* ===== verification/LocalLedger.v ===== *)
(** * LocalLedger: the node-local resource ledger

    internal/agent/local/ledger.go (the helpers on [ResourceSummary] are in
    Resources).  The mutable ledger is passed explicitly.  [time.Now()] and
    the IANA time-zone database are parameters: a [Clock] gives the wall-clock
    hour and minute of the instant in its own location, and in the location
    [time.LoadLocation] finds for a name, [None] being its error. *)

From stdpp Require Import strings gmap sorting.
From S2P Require Import Prelude GoString ApiTypes Samples Resources AgentResources.
Local Open Scope string_scope.
Local Open Scope list_scope.
Local Open Scope Z_scope.

(** ** The ledger *)

Record ledger := {
  l_Capacity : ResourceSummary;
  l_Remaining : ResourceSummary;
  l_Reserved : gmap string ResourceSummary
}.

Record budgetCandidate := {
  bc_Tier : string;
  bc_Resources : ResourceSummary
}.

Definition newLedger (capacity : ResourceSummary) : ledger :=
  {| l_Capacity := capacity; l_Remaining := capacity; l_Reserved := ∅ |}.

(** The candidate loop of [reserve]: the first candidate that is not zero and
    fits, with its tier. *)
Fixpoint pick_candidate (remaining : ResourceSummary) (candidates : list budgetCandidate)
    : option (ResourceSummary * string) :=
  match candidates with
  | [] => None
  | candidate :: rest =>
      if isZeroResource (bc_Resources candidate) then pick_candidate remaining rest
      else if fits (bc_Resources candidate) remaining
           then Some (bc_Resources candidate, bc_Tier candidate)
           else pick_candidate remaining rest
  end.

(** The results are [(assigned, tier, ok)]. *)
Definition reserve (l : ledger) (key : string) (required : ResourceSummary)
    (candidates : list budgetCandidate) : ledger * (ResourceSummary * string * bool) :=
  if negb (fits required (l_Remaining l)) then
    (l, (zero_ResourceSummary, AllocationTierRejected, false))
  else
    let '(assigned, tier) :=
      default (required, AllocationTierRequired) (pick_candidate (l_Remaining l) candidates) in
    ({| l_Capacity := l_Capacity l;
        l_Remaining := subtractResource (l_Remaining l) assigned;
        l_Reserved := <[key := assigned]> (l_Reserved l) |},
     (assigned, tier, true)).

Definition release (l : ledger) (key : string) : ledger :=
  match l_Reserved l !! key with
  | None => l
  | Some reserved =>
      {| l_Capacity := l_Capacity l;
         l_Remaining := addResource (l_Remaining l) reserved;
         l_Reserved := delete key (l_Reserved l) |}
  end.

(** Go ranges over the snapshot map in an unspecified order: [capacity_fold]
    is the loop over one enumeration of it. *)
Definition capacity_fold (snapshots : list (string * Snapshot)) : ResourceSummary :=
  fold_left (fun capacity kv => maxResource capacity (sn_Capacity kv.2)) snapshots
    zero_ResourceSummary.

Definition capacityFromState (state : NodeState) : ResourceSummary :=
  capacity_fold (map_to_list (st_Snapshots state)).

(** ** Budgets of an allocation *)

Definition requiredBudget (allocation : AIResourceAllocation) : ResourceSummary :=
  let fallback := from_ptr zero_ResourceSummary (as_Resources (al_Spec allocation)) in
  match as_ResourceRequest (al_Spec allocation) with
  | Some r => match wrr_Required r with Some v => v | None => fallback end
  | None => fallback
  end.

Definition preferredBudget (allocation : AIResourceAllocation) : ResourceSummary :=
  match as_ResourceRequest (al_Spec allocation) with
  | Some r => match wrr_Preferred r with Some v => v | None => requiredBudget allocation end
  | None => requiredBudget allocation
  end.

Definition maxBudget (allocation : AIResourceAllocation) : ResourceSummary :=
  match as_ResourceRequest (al_Spec allocation) with
  | Some r => match wrr_Max r with Some v => v | None => preferredBudget allocation end
  | None => preferredBudget allocation
  end.

(** ** Time windows *)

Record Clock := {
  clock_local : Z * Z;
  clock_in : string -> option (Z * Z)
}.

Definition parseMinuteOfDay (value : string) : option Z :=
  match parse_clock value with
  | Some (h, m) => Some (h * 60 + m)
  | None => None
  end.

Definition minuteInWindow (current start end_ : Z) : bool :=
  if start =? end_ then true
  else if start <? end_ then (start <=? current) && (current <? end_)
  else (start <=? current) || (current <? end_).

(** The current minute of the day in the window's location. *)
Definition window_minute (now : Clock) (window : TimeWindow) : Z :=
  let '(h, m) :=
    if decide (tw_Timezone window = "") then clock_local now
    else default (clock_local now) (clock_in now (tw_Timezone window)) in
  h * 60 + m.

Fixpoint activeTimeWindow (windows : list TimeWindow) (now : Clock) : string :=
  match windows with
  | [] => ""
  | window :: rest =>
      match parseMinuteOfDay (tw_Start window) with
      | None => activeTimeWindow rest now
      | Some start =>
          match parseMinuteOfDay (tw_End window) with
          | None => activeTimeWindow rest now
          | Some end_ =>
              if minuteInWindow (window_minute now window) start end_ then tw_Name window
              else activeTimeWindow rest now
          end
      end
  end.

Definition is_active (now : Clock) (allocation : AIResourceAllocation) : bool :=
  negb (bool_decide (activeTimeWindow (as_TimeWindows (al_Spec allocation)) now = "")).

Definition hasAnyActiveTimeWindow (allocations : list AIResourceAllocation) (now : Clock) : bool :=
  existsb (is_active now) allocations.

(** ** Ordering and grouping *)

(** scheduler.go *)
Definition priorityRank (priority : string) : Z :=
  let p := ToLower priority in
  if decide (p = WorkloadPriorityCritical) then 4
  else if decide (p = WorkloadPriorityHigh) then 3
  else if decide (p = WorkloadPriorityMedium) then 2
  else if decide (p = WorkloadPriorityLow) then 1
  else 0.

Definition priorityOf (allocation : AIResourceAllocation) : string :=
  if decide (as_Priority (al_Spec allocation) = "")
  then map_get (Labels (al_Meta allocation)) "astra.aiinfra.io/priority"
  else as_Priority (al_Spec allocation).

(** The comparison function given to [sort.SliceStable]. *)
Definition less (now : Clock) (left right : AIResourceAllocation) : bool :=
  let leftPriority := priorityRank (priorityOf left) in
  let rightPriority := priorityRank (priorityOf right) in
  if negb (leftPriority =? rightPriority) then leftPriority >? rightPriority
  else
    let leftActive := is_active now left in
    let rightActive := is_active now right in
    if negb (Bool.eqb leftActive rightActive) then leftActive
    else
      match CreationTimestamp (al_Meta left), CreationTimestamp (al_Meta right) with
      | Some a, Some b =>
          if negb (a =? b) then a <? b else str_ltb (Name (al_Meta left)) (Name (al_Meta right))
      | Some _, None => true
      | None, Some _ => false
      | None, None => str_ltb (Name (al_Meta left)) (Name (al_Meta right))
      end.

(** [sort.SliceStable]: a stable sort is determined by the comparison, so any
    stable algorithm gives the slice Go computes; this is insertion sort. *)
Fixpoint stable_insert {A} (lt : A -> A -> bool) (x : A) (l : list A) : list A :=
  match l with
  | [] => [x]
  | y :: t => if lt y x then y :: stable_insert lt x t else x :: l
  end.

Definition SliceStable {A} (lt : A -> A -> bool) (l : list A) : list A :=
  foldr (stable_insert lt) [] l.

Definition orderAllocationsByPriorityAndWindow
    (allocations : list AIResourceAllocation) (now : Clock) : list AIResourceAllocation :=
  SliceStable (less now) allocations.

(** The loop of [groupAllocationsByPriority] with its three accumulators. *)
Fixpoint group_loop (groups : list (list AIResourceAllocation)) (currentPriority : string)
    (current : list AIResourceAllocation) (allocations : list AIResourceAllocation)
    : list (list AIResourceAllocation) :=
  match allocations with
  | [] => groups ++ [current]
  | allocation :: rest =>
      if decide (priorityOf allocation = currentPriority)
      then group_loop groups currentPriority (current ++ [allocation]) rest
      else group_loop (groups ++ [current]) (priorityOf allocation) [allocation] rest
  end.

Definition groupAllocationsByPriority (allocations : list AIResourceAllocation)
    : list (list AIResourceAllocation) :=
  match allocations with
  | [] => []
  | a :: _ => group_loop [] (priorityOf a) [] allocations
  end.

Definition canYieldResources (allocation : AIResourceAllocation) : bool :=
  match as_Actions (al_Spec allocation) with
  | None => false
  | Some a => act_Reclaimable a || act_Throttleable a || act_Pauseable a || act_Evictable a
  end.

Definition allocationKey (allocation : AIResourceAllocation) : string :=
  let fallback :=
    if decide (Namespace (al_Meta allocation) = "") then Name (al_Meta allocation)
    else Namespace (al_Meta allocation) +:+ "/" +:+ Name (al_Meta allocation) in
  match as_Workloads (al_Spec allocation) with
  | [w] => if decide (aws_Name w = "") then fallback else aws_Name w
  | _ => fallback
  end.

(** ** The ledger invariant *)

(** The amounts on record under the keys in use. *)
Definition reserved_total (l : ledger) : ResourceSummary :=
  rs_sum (snd <$> map_to_list (l_Reserved l)).

(** What remains, what is reserved and what was [lost] make up the capacity,
    exactly, and none of them is negative. *)
Record ledger_ok (lost : ResourceSummary) (l : ledger) : Prop := {
  ok_capacity_wf : rs_wf (l_Capacity l);
  ok_remaining_nonneg : rs_nonneg (l_Remaining l);
  ok_reserved_nonneg : map_Forall (fun _ r => rs_nonneg r) (l_Reserved l);
  ok_lost_nonneg : rs_nonneg lost;
  ok_balance : rs_plus (rs_plus (l_Remaining l) (reserved_total l)) lost = l_Capacity l
}.

(** An operation on the ledger, with any key and any amounts. *)
Inductive ledger_op :=
  | OpReserve (key : string) (required : ResourceSummary) (candidates : list budgetCandidate)
  | OpRelease (key : string).

Definition run_op (l : ledger) (op : ledger_op) : ledger :=
  match op with
  | OpReserve key required candidates => (reserve l key required candidates).1
  | OpRelease key => release l key
  end.

Definition run_ops (l : ledger) (ops : list ledger_op) : ledger := foldl run_op l ops.

(** [Reserved[key] = assigned] replaces what the key held before: the amount
    an operation drops from the books. *)
Definition overwritten (l : ledger) (op : ledger_op) : ResourceSummary :=
  match op with
  | OpReserve key required _ =>
      if fits required (l_Remaining l)
      then default zero_ResourceSummary (l_Reserved l !! key)
      else zero_ResourceSummary
  | OpRelease _ => zero_ResourceSummary
  end.

Fixpoint overwritten_total (l : ledger) (ops : list ledger_op) : ResourceSummary :=
  match ops with
  | [] => zero_ResourceSummary
  | op :: rest => rs_plus (overwritten l op) (overwritten_total (run_op l op) rest)
  end.

(** The operation reserves under a key that holds nothing, or releases. *)
Definition key_free (l : ledger) (op : ledger_op) : Prop :=
  match op with
  | OpReserve key _ _ => l_Reserved l !! key = None
  | OpRelease _ => True
  end.

Fixpoint keys_free (l : ledger) (ops : list ledger_op) : Prop :=
  match ops with
  | [] => True
  | op :: rest => key_free l op /\ keys_free (run_op l op) rest
  end.

Definition op_nonneg (op : ledger_op) : Prop :=
  match op with
  | OpReserve _ required candidates =>
      rs_nonneg required /\ Forall (fun c => rs_nonneg (bc_Resources c)) candidates
  | OpRelease _ => True
  end.

(** ** Lemmas: ordering *)

(** The comparison is the lexicographic order of these keys. *)
Definition sort_key (now : Clock) (a : AIResourceAllocation) : Z * Z * Z * Z :=
  (- priorityRank (priorityOf a),
   if is_active now a then 0 else 1,
   match CreationTimestamp (al_Meta a) with Some _ => 0 | None => 1 end,
   match CreationTimestamp (al_Meta a) with Some t => t | None => 0 end).

Definition key_lt (x y : Z * Z * Z * Z) (P : Prop) : Prop :=
  let '(a, b, c, d) := x in
  let '(a', b', c', d') := y in
  a < a' \/ (a = a' /\ (b < b' \/ (b = b' /\ (c < c' \/ (c = c' /\ (d < d' \/ (d = d' /\ P))))))).

(** [lia] does not track opaque propositions: give it a truth value. *)
Lemma as_true (P : Prop) : P -> P <-> 0 = 0.
Proof. tauto. Qed.
Lemma as_false (P : Prop) : ~ P -> P <-> 0 = 1.
Proof. intros H. split; [done|lia]. Qed.
Ltac decide_atom P :=
  let H := fresh in
  destruct (decide P) as [H|H]; [rewrite ?(as_true P H) in *|rewrite ?(as_false P H) in *].

Lemma str_ltb_spec a b : str_ltb a b = true <-> ~ String.le b a.
Proof.
  unfold str_ltb, String.ltb, String.le, String.leb.
  rewrite (String.compare_antisym b a).
  destruct (String.compare a b); cbn; intuition congruence.
Qed.

Lemma less_spec now x y :
  less now x y = true <->
  key_lt (sort_key now x) (sort_key now y) (str_ltb (Name (al_Meta x)) (Name (al_Meta y)) = true).
Proof.
  unfold less, sort_key, key_lt. cbn.
  destruct (Z.eqb_spec (priorityRank (priorityOf x)) (priorityRank (priorityOf y))) as [->|Hr];
    cbn [negb]; [|rewrite Z.gtb_ltb, Z.ltb_lt; lia].
  destruct (is_active now x), (is_active now y); cbn; try (split; [lia|done]);
    try (split; [done|lia]).
  all: destruct (CreationTimestamp (al_Meta x)) as [a|], (CreationTimestamp (al_Meta y)) as [b|];
    try (split; [lia|done]); try (split; [done|lia]);
    try (destruct (Z.eqb_spec a b); cbn [negb]; [|rewrite Z.ltb_lt]); intuition lia.
Qed.

(** [leq x y]: [y] may stand after [x]. *)
Definition leq (now : Clock) (x y : AIResourceAllocation) : Prop := less now y x = false.

Lemma leq_spec now x y :
  leq now x y <->
  key_lt (sort_key now x) (sort_key now y) (String.le (Name (al_Meta x)) (Name (al_Meta y))).
Proof.
  unfold leq. rewrite <- not_true_iff_false, less_spec. unfold key_lt.
  destruct (sort_key now x) as [[[a b] c] d], (sort_key now y) as [[[a' b'] c'] d'].
  rewrite str_ltb_spec.
  decide_atom (String.le (Name (al_Meta x)) (Name (al_Meta y))); lia.
Qed.

(** The order the planning promises, written without the code's comparator:
    the four named priorities from the most to the least urgent and then every
    other string; within a priority the allocations in a time window; then the
    older ones, those without a creation time last; then by name. *)
Definition urgency (a : AIResourceAllocation) : nat :=
  let p := ToLower (priorityOf a) in
  if decide (p = "critical") then 0 else if decide (p = "high") then 1
  else if decide (p = "medium") then 2 else if decide (p = "low") then 3 else 4.

Definition created_before (x y : option Z) : Prop :=
  match x, y with
  | Some a, Some b => a < b
  | Some _, None => True
  | None, _ => False
  end.

Definition planned_before (now : Clock) (x y : AIResourceAllocation) : Prop :=
  (urgency x < urgency y)%nat \/
  urgency x = urgency y /\
    (is_active now x = true /\ is_active now y = false \/
     is_active now x = is_active now y /\
       (created_before (CreationTimestamp (al_Meta x)) (CreationTimestamp (al_Meta y)) \/
        CreationTimestamp (al_Meta x) = CreationTimestamp (al_Meta y) /\
          String.le (Name (al_Meta x)) (Name (al_Meta y)))).

Lemma priorityRank_urgency a : priorityRank (priorityOf a) = 4 - Z.of_nat (urgency a).
Proof.
  unfold priorityRank, urgency, WorkloadPriorityCritical, WorkloadPriorityHigh,
    WorkloadPriorityMedium, WorkloadPriorityLow.
  repeat case_decide; done.
Qed.

Lemma leq_planned_before now x y : leq now x y -> planned_before now x y.
Proof.
  rewrite leq_spec. unfold key_lt, sort_key, planned_before. rewrite !priorityRank_urgency.
  destruct (is_active now x), (is_active now y), (CreationTimestamp (al_Meta x)) as [a|],
    (CreationTimestamp (al_Meta y)) as [b|]; cbn [created_before]; intros H;
    (destruct H as [H|(E & H)]; [left; lia|right; split; [lia|]]);
    destruct_or?; destruct_and?; try lia; intuition (try lia; try congruence).
Qed.

#[export] Instance leq_trans now : Transitive (leq now).
Proof.
  intros x y z. rewrite !leq_spec. unfold key_lt.
  destruct (sort_key now x) as [[[? ?] ?] ?], (sort_key now y) as [[[? ?] ?] ?],
    (sort_key now z) as [[[? ?] ?] ?].
  assert (String.le (Name (al_Meta x)) (Name (al_Meta y)) ->
          String.le (Name (al_Meta y)) (Name (al_Meta z)) ->
          String.le (Name (al_Meta x)) (Name (al_Meta z))) by apply transitivity.
  decide_atom (String.le (Name (al_Meta x)) (Name (al_Meta y)));
    decide_atom (String.le (Name (al_Meta y)) (Name (al_Meta z)));
    decide_atom (String.le (Name (al_Meta x)) (Name (al_Meta z))); lia.
Qed.

Lemma less_leq now x y : less now x y = true -> leq now x y.
Proof.
  rewrite less_spec, leq_spec. unfold key_lt.
  destruct (sort_key now x) as [[[a b] c] d], (sort_key now y) as [[[a' b'] c'] d'].
  rewrite str_ltb_spec.
  pose proof (total String.le (Name (al_Meta x)) (Name (al_Meta y))).
  decide_atom (String.le (Name (al_Meta x)) (Name (al_Meta y)));
    decide_atom (String.le (Name (al_Meta y)) (Name (al_Meta x))); lia.
Qed.

Lemma stable_insert_perm {A} (lt : A -> A -> bool) x l : stable_insert lt x l ≡ₚ x :: l.
Proof.
  induction l as [|y l IH]; [done|]. cbn. destruct (lt y x); [|done].
  rewrite IH. apply Permutation_swap.
Qed.

Lemma SliceStable_perm {A} (lt : A -> A -> bool) l : SliceStable lt l ≡ₚ l.
Proof. induction l as [|x l IH]; [done|]. cbn. by rewrite stable_insert_perm, IH. Qed.

Section StableSort.
Context {A : Type} (lt : A -> A -> bool).
Hypothesis lt_neg_trans : Transitive (fun x y => lt y x = false).
Hypothesis lt_asym : forall x y, lt x y = true -> lt y x = false.

Lemma stable_insert_sorted x l :
  StronglySorted (fun x y => lt y x = false) l ->
  StronglySorted (fun x y => lt y x = false) (stable_insert lt x l).
Proof.
  induction 1 as [|y l Hl IH Hy]; cbn; [by repeat constructor|].
  destruct (lt y x) eqn:E.
  - constructor; [done|]. rewrite stable_insert_perm. constructor; [by apply lt_asym|done].
  - constructor; [by constructor|]. constructor; [done|].
    eapply Forall_impl; [exact Hy|]. intros z Hz. by eapply lt_neg_trans.
Qed.

Lemma SliceStable_sorted l : StronglySorted (fun x y => lt y x = false) (SliceStable lt l).
Proof. induction l; cbn; [constructor|]. by apply stable_insert_sorted. Qed.

(** Stability: elements that compare equal with [x] keep their order. *)
Lemma stable_insert_filter (p : A -> bool) x l :
  (forall a b, p a = true -> p b = true -> lt a b = false) ->
  List.filter p (stable_insert lt x l) = List.filter p (x :: l).
Proof.
  intros Hp. induction l as [|y l IH]; [done|]. cbn [stable_insert].
  destruct (lt y x) eqn:E; [|done]. cbn [List.filter] in *. rewrite IH.
  destruct (p y) eqn:Py, (p x) eqn:Px; try done. by rewrite Hp in E.
Qed.

Lemma SliceStable_stable (p : A -> bool) l :
  (forall a b, p a = true -> p b = true -> lt a b = false) ->
  List.filter p (SliceStable lt l) = List.filter p l.
Proof.
  intros Hp. induction l as [|x l IH]; [done|]. cbn [SliceStable foldr].
  rewrite stable_insert_filter by done. cbn. fold (SliceStable lt l). by rewrite IH.
Qed.

(** Sorting a list split at a strict boundary sorts the two parts. *)
Lemma stable_insert_app_l x l k :
  Forall (fun y => lt x y = true) k -> Forall (fun y => lt y x = false) k ->
  stable_insert lt x (l ++ k) = stable_insert lt x l ++ k.
Proof.
  intros Hk1 Hk2. induction l as [|y l IH]; cbn.
  - destruct Hk2 as [|y k Hy]; [done|]. cbn. by rewrite Hy.
  - destruct (lt y x); [|done]. by rewrite IH.
Qed.

Lemma stable_insert_app_r x l k :
  Forall (fun y => lt y x = true) l -> stable_insert lt x (l ++ k) = l ++ stable_insert lt x k.
Proof. induction 1 as [|y l Hy _ IH]; [done|]. cbn. by rewrite Hy, IH. Qed.

Lemma SliceStable_split (hi : A -> bool) l :
  (forall a b, hi a = true -> hi b = false -> lt a b = true) ->
  SliceStable lt l = SliceStable lt (List.filter hi l)
                     ++ SliceStable lt (List.filter (fun a => negb (hi a)) l).
Proof.
  intros Hb. induction l as [|x l IH]; [done|]. cbn [SliceStable foldr List.filter].
  fold (SliceStable lt l). rewrite IH.
  assert (Hlo : Forall (fun y => hi y = false) (SliceStable lt (List.filter (fun a => negb (hi a)) l))).
  { rewrite SliceStable_perm. apply List.Forall_forall. intros y [_ Hy]%filter_In.
    by apply negb_true_iff. }
  assert (Hhi : Forall (fun y => hi y = true) (SliceStable lt (List.filter hi l))).
  { rewrite SliceStable_perm. apply List.Forall_forall. by intros y [_ Hy]%filter_In. }
  destruct (hi x) eqn:Hx; cbn [negb SliceStable foldr].
  - apply stable_insert_app_l; (eapply Forall_impl; [exact Hlo|]); cbn; intros y Hy; auto.
  - apply stable_insert_app_r. eapply Forall_impl; [exact Hhi|]. cbn. intros y Hy. auto.
Qed.
End StableSort.

(** ** Lemmas: grouping *)

Lemma group_loop_concat groups p current l :
  concat (group_loop groups p current l) = concat groups ++ current ++ l.
Proof.
  revert groups p current. induction l as [|a l IH]; intros groups p current; cbn.
  - by rewrite concat_app.
  - case_decide; rewrite IH.
    + by rewrite <- app_assoc.
    + rewrite concat_app. cbn. by rewrite app_nil_r, <- !app_assoc.
Qed.

Lemma groupAllocationsByPriority_concat l : concat (groupAllocationsByPriority l) = l.
Proof. destruct l as [|a l]; [done|]. apply group_loop_concat. Qed.

(** ** Lemmas: reservations *)

Lemma pick_candidate_Some remaining cs r t :
  pick_candidate remaining cs = Some (r, t) ->
  rs_le r remaining /\ r <> zero_ResourceSummary /\
  exists c, c ∈ cs /\ bc_Resources c = r /\ bc_Tier c = t.
Proof.
  induction cs as [|c cs IH]; [done|]. cbn.
  pose proof (isZero_spec (bc_Resources c)) as Hz. change resourceSummaryIsZero with isZeroResource in Hz.
  destruct (isZeroResource (bc_Resources c)) eqn:Z.
  { intros H. destruct (IH H) as (? & ? & c' & ? & ?). setoid_rewrite elem_of_cons. eauto 8. }
  destruct (fits (bc_Resources c) remaining) eqn:F.
  - intros [= <- <-]. apply fits_spec in F. split; [done|].
    split; [intros E; by apply Hz in E|].
    exists c. rewrite elem_of_cons. auto.
  - intros H. destruct (IH H) as (? & ? & c' & ? & ?). setoid_rewrite elem_of_cons. eauto 8.
Qed.

Lemma pick_candidate_None remaining cs :
  pick_candidate remaining cs = None ->
  forall c, c ∈ cs -> bc_Resources c = zero_ResourceSummary \/ ~ rs_le (bc_Resources c) remaining.
Proof.
  induction cs as [|c cs IH]; [by intros _ c ?%elem_of_nil|]. cbn.
  pose proof (isZero_spec (bc_Resources c)) as Hz. change resourceSummaryIsZero with isZeroResource in Hz.
  destruct (isZeroResource (bc_Resources c)) eqn:Z; [|destruct (fits _ _) eqn:F; [done|]];
    intros H c' [->|Hc']%elem_of_cons; auto; [left|right].
  - by apply Hz.
  - rewrite <- fits_spec. by rewrite F.
Qed.

(** The two outcomes of [reserve]. *)
Lemma reserve_cases l key required cs l' assigned tier ok :
  reserve l key required cs = (l', (assigned, tier, ok)) ->
  (ok = false /\ l' = l /\ assigned = zero_ResourceSummary /\ tier = AllocationTierRejected /\
   ~ rs_le required (l_Remaining l)) \/
  (ok = true /\ rs_le required (l_Remaining l) /\ rs_le assigned (l_Remaining l) /\
   l' = {| l_Capacity := l_Capacity l;
           l_Remaining := subtractResource (l_Remaining l) assigned;
           l_Reserved := <[key := assigned]> (l_Reserved l) |} /\
   ((assigned = required /\ tier = AllocationTierRequired /\
     forall c, c ∈ cs -> bc_Resources c = zero_ResourceSummary \/
                         ~ rs_le (bc_Resources c) (l_Remaining l)) \/
    exists c, c ∈ cs /\ bc_Resources c = assigned /\ bc_Tier c = tier /\
              assigned <> zero_ResourceSummary)).
Proof.
  unfold reserve. pose proof (fits_spec required (l_Remaining l)) as Hf.
  destruct (fits required (l_Remaining l)) eqn:F; cbn [negb].
  2:{ intros [= <- <- <- <-]. left. rewrite <- Hf. auto. }
  assert (rs_le required (l_Remaining l)) by by apply Hf.
  destruct (pick_candidate (l_Remaining l) cs) as [[r t]|] eqn:P; cbn; intros [= <- <- <- <-]; right.
  - destruct (pick_candidate_Some _ _ _ _ P) as (? & ? & c & ? & ? & ?). eauto 12.
  - pose proof (pick_candidate_None _ _ P). eauto 12.
Qed.

Lemma reserved_total_nonneg l :
  map_Forall (fun _ r => rs_nonneg r) (l_Reserved l) -> rs_nonneg (reserved_total l).
Proof.
  intros Hr. apply rs_sum_nonneg, Forall_fmap, Forall_forall. intros [k r] H.
  apply elem_of_map_to_list in H. by eapply Hr.
Qed.

(** The entry of a key and the entries of the others. *)
Lemma reserved_total_delete l key :
  reserved_total l = rs_plus (default zero_ResourceSummary (l_Reserved l !! key))
                             (rs_sum (snd <$> map_to_list (delete key (l_Reserved l)))).
Proof.
  unfold reserved_total. destruct (l_Reserved l !! key) as [r|] eqn:E; cbn.
  - rewrite <- (insert_delete_id (l_Reserved l) key r) at 1 by done.
    by rewrite map_to_list_insert by apply lookup_delete_eq.
  - by rewrite delete_id, rs_plus_0_l.
Qed.

Lemma ok_remaining_wf lost l : ledger_ok lost l -> rs_wf (l_Remaining l).
Proof.
  intros [Hw Hn Hr Hl Hb]. apply (rs_wf_le _ (l_Capacity l)); [done| |done].
  rewrite <- Hb, <- rs_plus_assoc. apply rs_le_plus_r, rs_plus_nonneg; [|done].
  by apply reserved_total_nonneg.
Qed.

Lemma newLedger_ok capacity :
  rs_wf capacity -> rs_nonneg capacity -> ledger_ok zero_ResourceSummary (newLedger capacity).
Proof.
  intros. split; cbn; auto with go; [apply map_Forall_empty|]. unfold reserved_total. cbn.
  by rewrite map_to_list_empty, !rs_plus_0_r.
Qed.

(** Reserving under any key keeps the books balanced, the entry it replaces
    counted as lost. *)
Lemma reserve_ok lost l key required cs :
  ledger_ok lost l -> op_nonneg (OpReserve key required cs) ->
  ledger_ok (rs_plus lost (overwritten l (OpReserve key required cs))) (reserve l key required cs).1.
Proof.
  intros Hok [Hreq Hcs]. destruct (reserve l key required cs) as [l' [[assigned tier] ok]] eqn:H.
  cbn [overwritten fst]. pose proof (fits_spec required (l_Remaining l)) as Hf.
  destruct (reserve_cases _ _ _ _ _ _ _ _ H) as [(_ & -> & _ & _ & Hno)|(_ & Hle & Ha & -> & Hch)].
  { destruct (fits required (l_Remaining l)); [tauto|]. by rewrite rs_plus_0_r. }
  destruct (fits required (l_Remaining l)); [|by apply Hf in Hle].
  assert (rs_nonneg assigned) as Hna.
  { destruct Hch as [[-> _]|(c & Hc & <- & _)]; [done|]. rewrite Forall_forall in Hcs. auto. }
  pose proof (ok_remaining_wf _ _ Hok). destruct Hok as [Hw Hn Hr Hl Hb].
  rewrite subtractResource_subtractResourceSummary, subtractResourceSummary_exact by done.
  rewrite (reserved_total_delete l key) in Hb.
  split; cbn; auto with go.
  - by apply map_Forall_insert_2.
  - apply rs_plus_nonneg; [done|]. destruct (l_Reserved l !! key) as [r|] eqn:E; cbn; [|auto with go].
    by eapply Hr.
  - rewrite <- Hb. rewrite (reserved_total_delete _ key). cbn.
    rewrite lookup_insert_eq, delete_insert_eq. cbn. clear. apply rs_ext; rs_solve.
Qed.

(** Releasing any key keeps the books balanced. *)
Lemma release_ok lost l key : ledger_ok lost l -> ledger_ok lost (release l key).
Proof.
  intros Hok. unfold release. destruct (l_Reserved l !! key) as [r|] eqn:E; [|done].
  destruct Hok as [Hw Hn Hr Hl Hb]. rewrite (reserved_total_delete l key), E in Hb. cbn in Hb.
  assert (Hdel : map_Forall (fun _ q => rs_nonneg q) (delete key (l_Reserved l)))
    by by apply map_Forall_delete.
  assert (Hrest : rs_nonneg (rs_sum (snd <$> map_to_list (delete key (l_Reserved l)))))
    by exact (reserved_total_nonneg {| l_Capacity := l_Capacity l; l_Remaining := l_Remaining l;
                                       l_Reserved := delete key (l_Reserved l) |} Hdel).
  assert (rs_nonneg r) by by eapply Hr.
  assert (Hle : rs_le (rs_plus (l_Remaining l) r) (l_Capacity l)) by (rewrite <- Hb; rs_solve).
  rewrite addResource_addResourceSummary, addResourceSummary_exact.
  2:{ eapply rs_wf_le; [|exact Hle|done]. by apply rs_plus_nonneg. }
  split; cbn; auto with go. unfold reserved_total. cbn. rewrite <- Hb. clear. apply rs_ext; rs_solve.
Qed.

(** Releasing what was just reserved gives the remaining budget back, whether
    or not the key was in use before. *)
Lemma reserve_release_remaining l key required cs l' assigned tier :
  rs_wf (l_Remaining l) -> rs_nonneg required ->
  Forall (fun c => rs_nonneg (bc_Resources c)) cs ->
  reserve l key required cs = (l', (assigned, tier, true)) ->
  l_Remaining (release l' key) = l_Remaining l /\ l_Capacity (release l' key) = l_Capacity l.
Proof.
  intros Hw Hreq Hcs H.
  destruct (reserve_cases _ _ _ _ _ _ _ _ H) as [(? & _)|(_ & Hle & Ha & -> & Hch)]; [done|].
  assert (rs_nonneg assigned) as Hna.
  { destruct Hch as [[-> _]|(c & Hc & <- & _)]; [done|]. rewrite Forall_forall in Hcs. auto. }
  unfold release. cbn. rewrite lookup_insert_eq. cbn. split; [|done].
  rewrite subtractResource_subtractResourceSummary, subtractResourceSummary_exact by done.
  rewrite addResource_addResourceSummary, addResourceSummary_exact; rewrite rs_minus_plus; done.
Qed.

(** ** Lemmas: the capacity of a state *)

(** The loop commutes, so the iteration order of the map is irrelevant. *)
Lemma capacity_fold_perm l k : l ≡ₚ k -> capacity_fold l = capacity_fold k.
Proof.
  unfold capacity_fold. generalize zero_ResourceSummary.
  intros acc H. revert acc.
  induction H as [|x l k _ IH|x y l|l k m _ IH1 _ IH2]; intros acc; cbn; auto.
  - f_equal. rewrite <- !maxResource_assoc. f_equal. apply maxResource_comm.
  - by rewrite IH1.
Qed.

Lemma capacity_fold_insert (m : gmap string Snapshot) k s :
  m !! k = None ->
  capacity_fold (map_to_list (<[k := s]> m)) = maxResource (capacity_fold (map_to_list m)) (sn_Capacity s).
Proof.
  intros H. rewrite (capacity_fold_perm _ (map_to_list m ++ [(k, s)])).
  - unfold capacity_fold. by rewrite fold_left_app.
  - by rewrite map_to_list_insert, Permutation_cons_append.
Qed.

Lemma capacity_fold_bounds l :
  Forall (fun kv => rs_wf (sn_Capacity kv.2)) l ->
  rs_wf (capacity_fold l) /\ rs_nonneg (capacity_fold l).
Proof.
  intros Hl. unfold capacity_fold.
  assert (H0 : rs_wf zero_ResourceSummary /\ rs_nonneg zero_ResourceSummary) by auto with go.
  revert H0. generalize zero_ResourceSummary.
  induction Hl as [|[k s] l Hs _ IH]; intros acc [Hw Hn]; cbn; [done|].
  apply IH. split; [by apply maxResource_wf|].
  rewrite maxResource_spec. rs_solve.
Qed.

(** ** Sequences of operations *)

Lemma run_op_ok lost l op :
  ledger_ok lost l -> op_nonneg op ->
  ledger_ok (rs_plus lost (overwritten l op)) (run_op l op) /\ l_Capacity (run_op l op) = l_Capacity l.
Proof.
  intros Hok Hop. destruct op as [key required cs|key]; cbn [run_op].
  - split; [by apply reserve_ok|].
    destruct (reserve l key required cs) as [l' [[a t] b]] eqn:E.
    by destruct (reserve_cases _ _ _ _ _ _ _ _ E) as [(_ & -> & _)|(_ & _ & _ & -> & _)].
  - cbn. rewrite rs_plus_0_r. split; [by apply release_ok|]. unfold release. by case_match.
Qed.

Lemma run_ops_ok lost l ops :
  ledger_ok lost l -> Forall op_nonneg ops ->
  ledger_ok (rs_plus lost (overwritten_total l ops)) (run_ops l ops) /\
  l_Capacity (run_ops l ops) = l_Capacity l.
Proof.
  intros Hok Hops. revert lost l Hok.
  induction Hops as [|op ops Hop _ IH]; intros lost l Hok; cbn [overwritten_total run_ops foldl].
  - by rewrite rs_plus_0_r.
  - destruct (run_op_ok _ _ _ Hok Hop) as [Hok' Hc]. destruct (IH _ _ Hok') as [H1 H2].
    by rewrite rs_plus_assoc, <- Hc.
Qed.

Lemma keys_free_loses_nothing l ops :
  keys_free l ops -> overwritten_total l ops = zero_ResourceSummary.
Proof.
  revert l. induction ops as [|op ops IH]; intros l; [done|]. intros [Hop Hops]. cbn.
  rewrite IH by done. rewrite rs_plus_0_r. destruct op; cbn in *; [|done].
  rewrite Hop. by case_match.
Qed.

(** C26: the ledger keeps its books under every sequence of reservations and
    releases, under any keys, of non-negative amounts.  What is left, what is
    reserved and what was overwritten (the entry a key held when it was
    reserved again) add up to the capacity exactly and none is negative, so no
    unit is ever invented and a reservation never reaches beyond the capacity;
    where no key in use is reserved again nothing is lost either, and what is
    left and what is reserved make up the capacity. *)
Theorem ledger_reachable_ok capacity ops :
  rs_wf capacity -> rs_nonneg capacity -> Forall op_nonneg ops ->
  let l := run_ops (newLedger capacity) ops in
  let lost := overwritten_total (newLedger capacity) ops in
  l_Capacity l = capacity /\
  rs_plus (rs_plus (l_Remaining l) (reserved_total l)) lost = capacity /\
  rs_nonneg (l_Remaining l) /\ map_Forall (fun _ r => rs_nonneg r) (l_Reserved l) /\
  rs_nonneg lost /\
  (keys_free (newLedger capacity) ops -> rs_plus (l_Remaining l) (reserved_total l) = capacity).
Proof.
  intros Hw Hn Hops l lost.
  destruct (run_ops_ok _ _ _ (newLedger_ok capacity Hw Hn) Hops) as [[_ H1 H2 H3 H4] Hc].
  rewrite Hc, rs_plus_0_l in *. fold lost l in H1, H2, H3, H4.
  split; [exact Hc|]. do 4 (split; [done|]).
  intros Hfree. unfold lost in H4. rewrite (keys_free_loses_nothing _ _ Hfree), rs_plus_0_r in H4. done.
Qed.

(** Two reservations under one key: three units are lost, and the books show it. *)
Lemma ledger_reachable_ok_witness :
  let ops := [OpReserve "a" (res 3) []; OpReserve "a" (res 4) []; OpRelease "a"] in
  let l := run_ops (newLedger (res 8)) ops in
  rs_plus (rs_plus (l_Remaining l) (reserved_total l)) (overwritten_total (newLedger (res 8)) ops) = res 8 /\
  overwritten_total (newLedger (res 8)) ops = res 3 /\ l_Remaining l = res 5.
Proof.
  split; [|by vm_compute]. apply (ledger_reachable_ok (res 8)); [compute_decide..|].
  repeat constructor; compute_decide.
Defined.
