(* ===== verification/LocalScheduler.v ===== *)
(** * LocalScheduler: node-local planning

    internal/agent/local/scheduler.go and action_policy.go.  [BuildPlans] is
    [BuildPlansAt] at the current time; the clock is the parameter.  The
    ledger the Go code mutates through a pointer is threaded through the
    loop.  Properties: no plan set exceeds the node's capacity, every
    allocation gets exactly one plan, higher priorities are planned first and
    independently of lower ones, and the budget tier follows the window. *)

From stdpp Require Import strings gmap sorting.
From S2P Require Import Prelude GoString ApiTypes Samples Resources AgentResources LocalLedger.
Local Open Scope string_scope.
Local Open Scope list_scope.
Local Open Scope Z_scope.

(** ** scheduler.go: constants and data *)

Definition ActionApply : string := AllocationActionApply.
Definition ActionThrottle : string := AllocationActionThrottle.
Definition ActionPause : string := AllocationActionPause.
Definition ActionEvict : string := AllocationActionEvict.
Definition PlanPhasePendingApply : string := AllocationPhasePendingApply.
Definition PlanPhaseApplied : string := AllocationPhaseApplied.
Definition PlanPhaseFailed : string := AllocationPhaseFailed.

Record Plan := {
  pl_Allocation : AIResourceAllocation;
  pl_Action : string;
  pl_Reason : string;
  pl_TargetPhase : string;
  pl_AllocationTier : string;
  pl_RequestedResources : ResourceSummary;
  pl_AssignedResources : ResourceSummary;
  pl_ActiveWindow : string
}.

(** ** action_policy.go *)

Record ActionPolicy := {
  ActionFor : AIResourceAllocation -> string * string;
  FallbackFor : AIResourceAllocation -> string
}.

Definition DefaultActionPolicy_ActionFor (_ : AIResourceAllocation) : string * string :=
  (ActionApply, "local scheduler accepted central allocation"%string).

Definition DefaultActionPolicy_FallbackFor (allocation : AIResourceAllocation) : string :=
  match as_Actions (al_Spec allocation) with
  | Some a =>
      if act_Throttleable a then ActionThrottle
      else if act_Pauseable a then ActionPause
      else if act_Evictable a then ActionEvict
      else ActionApply
  | None => ActionApply
  end.

Definition DefaultActionPolicy : ActionPolicy :=
  {| ActionFor := DefaultActionPolicy_ActionFor; FallbackFor := DefaultActionPolicy_FallbackFor |}.

(** ** scheduler.go: the scheduler *)

Record Scheduler := {
  resourceManagers : list Manager;
  constraints : list Constraint;
  actionPolicy : ActionPolicy
}.

Definition NewScheduler (managers : list Manager) (cs : list Constraint) : Scheduler :=
  {| resourceManagers := managers; constraints := cs; actionPolicy := DefaultActionPolicy |}.

Definition NewDefaultScheduler : Scheduler :=
  NewScheduler [NewGPUManager; NewKVCacheManager; NewTokenThroughputManager]
    [NewTokenThroughputRequiresGPU; NewRuntimeActionCapability].

(** The observation loop, filling the snapshot map. *)
Fixpoint observe_managers (managers : list Manager) (node : option AINodeResourceProfile)
    (allocations : list AIResourceAllocation) (snapshots : gmap string Snapshot)
    : gmap string Snapshot + string :=
  match managers with
  | [] => inl snapshots
  | manager :: rest =>
      match mgr_Observe manager node allocations with
      | inr err => inr ("observe " +:+ mgr_Name manager +:+ ": " +:+ err)
      | inl snapshot => observe_managers rest node allocations (<[mgr_Name manager := snapshot]> snapshots)
      end
  end.

Definition observe (s : Scheduler) (node : option AINodeResourceProfile)
    (allocations : list AIResourceAllocation) : NodeState + string :=
  match observe_managers (resourceManagers s) node allocations ∅ with
  | inr err => inr err
  | inl snapshots => inl {| st_Node := node; st_Allocations := allocations; st_Snapshots := snapshots |}
  end.

Fixpoint validate_loop (managers : list Manager) (state : NodeState)
    (allocation : AIResourceAllocation) (reasons : list string) : ValidationResult :=
  match managers with
  | [] => {| vres_Allowed := true; vres_Reason := Join reasons "; " |}
  | manager :: rest =>
      let snapshot := default zero_Snapshot (st_Snapshots state !! mgr_Name manager) in
      let snapshot :=
        match as_Resources (al_Spec allocation) with
        | Some r =>
            {| sn_Name := sn_Name snapshot; sn_Capacity := sn_Capacity snapshot;
               sn_Allocated := r;
               sn_Available := subtractResource (sn_Capacity snapshot) r;
               sn_Description := sn_Description snapshot |}
        | None => snapshot
        end in
      let result := mgr_Validate manager
        {| vr_Node := st_Node state; vr_Allocation := Some allocation; vr_Snapshot := snapshot |} in
      if negb (vres_Allowed result) then result
      else validate_loop rest state allocation
             (if decide (vres_Reason result = "") then reasons else reasons ++ [vres_Reason result])
  end.

Definition validateResources (s : Scheduler) (state : NodeState) (allocation : AIResourceAllocation)
    : ValidationResult :=
  validate_loop (resourceManagers s) state allocation [].

Fixpoint check_loop (cs : list Constraint) (request : CheckRequest) (reasons : list string) : CheckResult :=
  match cs with
  | [] => {| cres_Allowed := true; cres_Reason := Join reasons "; " |}
  | c :: rest =>
      let result := c_Check c request in
      if negb (cres_Allowed result) then result
      else check_loop rest request
             (if decide (cres_Reason result = "") then reasons else reasons ++ [cres_Reason result])
  end.

Definition checkConstraints (s : Scheduler) (request : CheckRequest) : CheckResult :=
  check_loop (constraints s) request [].

(** [plannedAllocation]: a deep copy with the assigned resources. *)
Definition with_resources (a : AIResourceAllocation) (r : ResourceSummary) : AIResourceAllocation :=
  let s := al_Spec a in
  {| al_Meta := al_Meta a;
     al_Spec := {| as_NodeName := as_NodeName s; as_Workloads := as_Workloads s;
                   as_Reason := as_Reason s; as_WorkloadRef := as_WorkloadRef s;
                   as_WorkloadType := as_WorkloadType s; as_Priority := as_Priority s;
                   as_DemandShape := as_DemandShape s; as_TimeWindows := as_TimeWindows s;
                   as_ResourceRequest := as_ResourceRequest s; as_AssignedGPU := as_AssignedGPU s;
                   as_Resources := Some r; as_AllocationType := as_AllocationType s;
                   as_Actions := as_Actions s |};
     al_Status := al_Status a |}.

(** The [switch] of [buildPlanForAllocation]: the target, the budget that must
    fit, the candidates and the reason. *)
Definition choose_budget (allocation : AIResourceAllocation) (activeWindow : string)
    (groupHasActiveWindow : bool) (reason : string)
    : ResourceSummary * ResourceSummary * list budgetCandidate * string :=
  let required := requiredBudget allocation in
  let preferred := preferredBudget allocation in
  let maximum := maxBudget allocation in
  if negb (bool_decide (activeWindow = "")) && negb (isZeroResource maximum) then
    (maximum, maximum, [{| bc_Tier := AllocationTierMax; bc_Resources := maximum |}],
     reason +:+ "; active time window " +:+ Quote activeWindow +:+ " requires max budget")
  else if groupHasActiveWindow && canYieldResources allocation then
    (required, required, [],
     reason +:+ "; same-priority active workload exists, reclaimable workload keeps required budget")
  else if groupHasActiveWindow then
    (required, required, [],
     reason +:+ "; same-priority active workload exists, workload keeps required budget to match central time-window envelope")
  else if isZeroResource preferred then
    (required, required, [], reason)
  else
    (preferred, required, [{| bc_Tier := AllocationTierPreferred; bc_Resources := preferred |}], reason).

Definition buildPlanForAllocation (s : Scheduler) (node : option AINodeResourceProfile)
    (state : NodeState) (l : ledger) (allocation : AIResourceAllocation) (now : Clock)
    (groupHasActiveWindow : bool) : ledger * Plan :=
  let '(action, reason) := ActionFor (actionPolicy s) allocation in
  let activeWindow := activeTimeWindow (as_TimeWindows (al_Spec allocation)) now in
  let '(target, requiredForFit, candidates, reason) :=
    choose_budget allocation activeWindow groupHasActiveWindow reason in
  let '(l, (assigned, assignedTier, ok)) := reserve l (allocationKey allocation) requiredForFit candidates in
  if negb ok then
    (l, {| pl_Allocation := allocation;
           pl_Action := FallbackFor (actionPolicy s) allocation;
           pl_Reason := "budget does not fit local ledger: required=" +:+ describeResource requiredForFit
                        +:+ " remaining=" +:+ describeResource (l_Remaining l);
           pl_TargetPhase := PlanPhaseFailed;
           pl_AllocationTier := AllocationTierRejected;
           pl_RequestedResources := requiredForFit;
           pl_AssignedResources := zero_ResourceSummary;
           pl_ActiveWindow := activeWindow |})
  else
    let plannedAllocation := with_resources allocation assigned in
    let degraded reason :=
      (release l (allocationKey allocation),
       {| pl_Allocation := allocation;
          pl_Action := FallbackFor (actionPolicy s) allocation;
          pl_Reason := reason;
          pl_TargetPhase := PlanPhaseFailed;
          pl_AllocationTier := AllocationTierDegraded;
          pl_RequestedResources := target;
          pl_AssignedResources := assigned;
          pl_ActiveWindow := activeWindow |}) in
    let result := validateResources s state plannedAllocation in
    if negb (vres_Allowed result) then degraded (vres_Reason result)
    else
      let result := checkConstraints s
        {| cr_Node := node; cr_Allocation := Some plannedAllocation; cr_Action := action;
           cr_Snapshots := st_Snapshots state |} in
      if negb (cres_Allowed result) then degraded (cres_Reason result)
      else
        (l, {| pl_Allocation := allocation;
               pl_Action := action;
               pl_Reason := reason +:+ "; assigned " +:+ assignedTier +:+ " budget";
               pl_TargetPhase := PlanPhasePendingApply;
               pl_AllocationTier := assignedTier;
               pl_RequestedResources := target;
               pl_AssignedResources := assigned;
               pl_ActiveWindow := activeWindow |}).

(** The inner loop over one priority group. *)
Fixpoint plan_group (s : Scheduler) (node : option AINodeResourceProfile) (state : NodeState)
    (now : Clock) (groupHasActiveWindow : bool) (l : ledger) (group : list AIResourceAllocation)
    : ledger * list Plan :=
  match group with
  | [] => (l, [])
  | allocation :: rest =>
      let '(l, plan) := buildPlanForAllocation s node state l allocation now groupHasActiveWindow in
      let '(l, plans) := plan_group s node state now groupHasActiveWindow l rest in
      (l, plan :: plans)
  end.

(** The outer loop over the groups. *)
Fixpoint plan_groups (s : Scheduler) (node : option AINodeResourceProfile) (state : NodeState)
    (now : Clock) (l : ledger) (groups : list (list AIResourceAllocation)) : ledger * list Plan :=
  match groups with
  | [] => (l, [])
  | group :: rest =>
      let '(l, plans) := plan_group s node state now (hasAnyActiveTimeWindow group now) l group in
      let '(l, more) := plan_groups s node state now l rest in
      (l, plans ++ more)
  end.

Definition BuildPlansAt (s : Scheduler) (node : option AINodeResourceProfile)
    (allocations : list AIResourceAllocation) (now : Clock) : list Plan + string :=
  let ordered := orderAllocationsByPriorityAndWindow allocations now in
  match observe s node ordered with
  | inr err => inr err
  | inl state =>
      inl (plan_groups s node state now (newLedger (capacityFromState state))
             (groupAllocationsByPriority ordered)).2
  end.

(** ** Specification vocabulary *)

Definition accepted (p : Plan) : bool := bool_decide (pl_TargetPhase p = PlanPhasePendingApply).

(** What the accepted plans of a list take from the node. *)
Definition accepted_total (plans : list Plan) : ResourceSummary :=
  rs_sum (pl_AssignedResources <$> List.filter accepted plans).

(** Every budget of an allocation is a non-negative vector. *)
Definition budgets_nonneg (a : AIResourceAllocation) : Prop :=
  rs_nonneg (requiredBudget a) /\ rs_nonneg (preferredBudget a) /\ rs_nonneg (maxBudget a).

#[export] Instance budgets_nonneg_dec a : Decision (budgets_nonneg a).
Proof. unfold budgets_nonneg. apply _. Defined.

(** The capacity the ledger starts from. *)
Definition plan_capacity (s : Scheduler) (node : option AINodeResourceProfile) : ResourceSummary :=
  match observe s node [] with
  | inl state => capacityFromState state
  | inr _ => zero_ResourceSummary
  end.

(** ** Lemmas: observation *)

Lemma capacity_fold_fmap (m : gmap string Snapshot) :
  capacity_fold (map_to_list m) =
  fold_left (fun c kv => maxResource c kv.2) (map_to_list (sn_Capacity <$> m)) zero_ResourceSummary.
Proof.
  rewrite map_to_list_fmap. unfold capacity_fold. generalize zero_ResourceSummary.
  induction (map_to_list m) as [|[k x] l IH]; intros acc; [done|]. cbn. apply IH.
Qed.

Lemma observe_managers_caps ms node l k m m' :
  Forall ManagerLaws ms -> sn_Capacity <$> m = sn_Capacity <$> m' ->
  exists r r', observe_managers ms node l m = inl r /\ observe_managers ms node k m' = inl r' /\
    sn_Capacity <$> r = sn_Capacity <$> r'.
Proof.
  intros Hms. revert m m'. induction Hms as [|mg ms Hmg _ IH]; intros m m' Hm; cbn; [eauto|].
  destruct (observe_total node l) as [x Hx]. destruct (observe_total node k) as [y Hy].
  rewrite Hx, Hy. apply IH. rewrite !fmap_insert. f_equal; [|done].
  by eapply observe_capacity_indep.
Qed.

Lemma observe_managers_wf ms node l m r :
  Forall ManagerLaws ms -> (forall n, node = Some n -> node_typed n) ->
  map_Forall (fun _ s => rs_wf (sn_Capacity s)) m ->
  observe_managers ms node l m = inl r -> map_Forall (fun _ s => rs_wf (sn_Capacity s)) r.
Proof.
  intros Hms Hn. revert m. induction Hms as [|mg ms Hmg _ IH]; intros m Hm H; cbn in H; [by simplify_eq|].
  destruct (observe_total node l) as [x Hx]. rewrite Hx in H. eapply IH; [|exact H].
  apply map_Forall_insert_2; [|done]. by eapply observe_capacity_wf.
Qed.

(** Two states that agree on the node and on the capacities. *)
Definition state_equiv (a b : NodeState) : Prop :=
  st_Node a = st_Node b /\ sn_Capacity <$> st_Snapshots a = sn_Capacity <$> st_Snapshots b.

#[export] Instance state_equiv_equivalence : Equivalence state_equiv.
Proof.
  split.
  - by intros a.
  - intros a b [H1 H2]. by split.
  - intros a b c [H1 H2] [H3 H4]. split; congruence.
Qed.

#[export] Instance capacityFromState_proper : Proper (state_equiv ==> (=)) capacityFromState.
Proof. intros a b [_ H]. unfold capacityFromState. by rewrite !capacity_fold_fmap, H. Qed.

Lemma observe_equiv s node l k :
  Forall ManagerLaws (resourceManagers s) ->
  exists a b, observe s node l = inl a /\ observe s node k = inl b /\ state_equiv a b.
Proof.
  intros Hs. unfold observe.
  destruct (observe_managers_caps _ node l k ∅ ∅ Hs eq_refl) as (r & r' & -> & -> & H).
  do 2 eexists. split; [done|]. split; [done|]. by split.
Qed.

Lemma observe_capacity s node l st :
  Forall ManagerLaws (resourceManagers s) -> observe s node l = inl st ->
  capacityFromState st = plan_capacity s node.
Proof.
  intros Hs H. unfold plan_capacity.
  destruct (observe_equiv s node l [] Hs) as (a & b & Ha & Hb & Hab).
  rewrite Hb. rewrite H in Ha. injection Ha as <-. by rewrite Hab.
Qed.

Lemma plan_capacity_bounds s node :
  Forall ManagerLaws (resourceManagers s) -> (forall n, node = Some n -> node_typed n) ->
  rs_wf (plan_capacity s node) /\ rs_nonneg (plan_capacity s node).
Proof.
  intros Hs Hn. unfold plan_capacity, observe.
  destruct (observe_managers _ node [] ∅) as [r|] eqn:E; [|auto with go].
  apply capacity_fold_bounds. apply Forall_forall. intros [k x] H%elem_of_map_to_list.
  eapply (observe_managers_wf _ _ _ _ _ Hs Hn (map_Forall_empty _) E). exact H.
Qed.

(** ** Lemmas: planning one allocation *)

Lemma validate_loop_equiv ms a b al rs :
  Forall ManagerLaws ms -> state_equiv a b -> is_Some (as_Resources (al_Spec al)) ->
  validate_loop ms a al rs = validate_loop ms b al rs.
Proof.
  intros Hms [_ Hab] [r Hr]. revert rs. induction Hms as [|m ms Hm _ IH]; intros rs; [done|].
  cbn. rewrite Hr.
  assert (Hc : sn_Capacity (default zero_Snapshot (st_Snapshots a !! mgr_Name m)) =
               sn_Capacity (default zero_Snapshot (st_Snapshots b !! mgr_Name m))).
  { apply (f_equal (lookup (mgr_Name m))) in Hab. rewrite !lookup_fmap in Hab.
    destruct (st_Snapshots a !! mgr_Name m), (st_Snapshots b !! mgr_Name m); cbn in *; congruence. }
  lazymatch goal with
  | |- (if negb (vres_Allowed ?x) then _ else _) = (if negb (vres_Allowed ?y) then _ else _) =>
      replace x with y by (symmetry; apply validate_indep; [exact Hc|done])
  end.
  by rewrite IH.
Qed.

Lemma check_loop_equiv cs node al act sa sb rs :
  Forall ConstraintLaws cs -> sn_Capacity <$> sa = sn_Capacity <$> sb ->
  check_loop cs {| cr_Node := node; cr_Allocation := al; cr_Action := act; cr_Snapshots := sa |} rs =
  check_loop cs {| cr_Node := node; cr_Allocation := al; cr_Action := act; cr_Snapshots := sb |} rs.
Proof.
  intros Hcs Hs. revert rs. induction Hcs as [|c cs Hc _ IH]; intros rs; [done|].
  cbn [check_loop].
  rewrite (check_indep {| cr_Node := node; cr_Allocation := al; cr_Action := act; cr_Snapshots := sa |}
             {| cr_Node := node; cr_Allocation := al; cr_Action := act; cr_Snapshots := sb |}
             eq_refl eq_refl eq_refl Hs).
  if_split; auto.
Qed.

(** A plan depends on the observed state only through the capacities. *)
Lemma buildPlan_equiv s node a b l al now g :
  Forall ManagerLaws (resourceManagers s) -> Forall ConstraintLaws (constraints s) ->
  state_equiv a b ->
  buildPlanForAllocation s node a l al now g = buildPlanForAllocation s node b l al now g.
Proof.
  intros Hm Hc Hab. unfold buildPlanForAllocation, validateResources, checkConstraints.
  destruct (ActionFor _ al) as [action reason], (choose_budget _ _ _ _) as [[[t r] cs] rsn],
    (reserve _ _ _ _) as [l' [[assigned tier] ok]].
  rewrite (validate_loop_equiv _ a b) by (try done; by eexists).
  rewrite (check_loop_equiv _ _ _ _ (st_Snapshots a) (st_Snapshots b)) by (try done; apply Hab).
  done.
Qed.

Lemma choose_budget_nonneg al w g rsn t r cs rsn' :
  budgets_nonneg al -> choose_budget al w g rsn = (t, r, cs, rsn') ->
  rs_nonneg r /\ Forall (fun c => rs_nonneg (bc_Resources c)) cs.
Proof.
  intros (H1 & H2 & H3). unfold choose_budget. intros H.
  repeat case_match; simplify_eq; split; auto; repeat constructor; done.
Qed.

(** The effect of one planning step on the ledger. *)
Lemma buildPlan_accounts s node st l al now g l' p :
  rs_wf (l_Remaining l) -> rs_nonneg (l_Remaining l) -> budgets_nonneg al ->
  buildPlanForAllocation s node st l al now g = (l', p) ->
  pl_Allocation p = al /\ l_Capacity l' = l_Capacity l /\ rs_nonneg (l_Remaining l') /\
  rs_plus (l_Remaining l') (if accepted p then pl_AssignedResources p else zero_ResourceSummary)
    = l_Remaining l.
Proof.
  intros Hw Hn Hb. unfold buildPlanForAllocation.
  destruct (ActionFor _ al) as [action reason].
  destruct (choose_budget _ _ _ _) as [[[t r] cs] rsn] eqn:Hcb.
  destruct (choose_budget_nonneg _ _ _ _ _ _ _ _ Hb Hcb) as [Hr Hcs].
  destruct (reserve _ _ _ _) as [l1 [[assigned tier] ok]] eqn:Hres.
  destruct (reserve_cases _ _ _ _ _ _ _ _ Hres) as [(-> & -> & _)|(-> & Hle & Ha & El & Hch)]; cbn [negb].
  { intros [= <- <-]. cbn. split_and!; auto. apply rs_plus_0_r. }
  assert (rs_nonneg assigned) as Hna.
  { destruct Hch as [[-> _]|(c & Hc & <- & _)]; [done|]. rewrite Forall_forall in Hcs. auto. }
  destruct (reserve_release_remaining _ _ _ _ _ _ _ Hw Hr Hcs Hres) as [Hrel Hcap].
  assert (Hl1 : l_Remaining l1 = rs_minus (l_Remaining l) assigned).
  { rewrite El. cbn. by rewrite subtractResource_subtractResourceSummary, subtractResourceSummary_exact. }
  destruct (negb (vres_Allowed _)); [|destruct (negb (cres_Allowed _))]; intros [= <- <-];
    unfold accepted; cbn [pl_Allocation pl_TargetPhase pl_AssignedResources].
  1,2: rewrite Hrel, Hcap; split_and!; auto; apply rs_plus_0_r.
  split_and!; auto.
  - by rewrite El.
  - rewrite Hl1. by apply rs_minus_nonneg.
  - rewrite Hl1. apply rs_minus_plus.
Qed.

(** What an accepted plan assigns is one of the allocation's own budgets. *)
Lemma buildPlan_assigned s node st l al now g l' p :
  buildPlanForAllocation s node st l al now g = (l', p) ->
  pl_AssignedResources p = zero_ResourceSummary \/ pl_AssignedResources p = requiredBudget al \/
  pl_AssignedResources p = preferredBudget al \/ pl_AssignedResources p = maxBudget al.
Proof.
  unfold buildPlanForAllocation. destruct (ActionFor _ al) as [action reason].
  destruct (choose_budget _ _ _ _) as [[[t r] cs] rsn] eqn:Hcb.
  destruct (reserve _ _ _ _) as [l1 [[assigned tier] ok]] eqn:Hres. intros H.
  assert (pl_AssignedResources p = assigned \/ pl_AssignedResources p = zero_ResourceSummary) as [Hp|Hp]
    by (repeat case_match; simplify_eq; auto); [|auto]. rewrite Hp. clear H Hp.
  destruct (reserve_cases _ _ _ _ _ _ _ _ Hres) as [(_ & _ & -> & _)|(_ & _ & _ & _ & Hch)]; [auto|].
  unfold choose_budget in Hcb.
  repeat case_match; simplify_eq;
    destruct Hch as [[-> _]|(c & Hc & <- & _)]; auto;
    rewrite ?elem_of_cons, ?elem_of_nil in Hc; destruct_or?; subst; auto; done.
Qed.

Lemma buildPlan_assigned_nonneg s node st l al now g l' p :
  budgets_nonneg al -> buildPlanForAllocation s node st l al now g = (l', p) ->
  rs_nonneg (pl_AssignedResources p).
Proof.
  intros (H1 & H2 & H3) H. destruct (buildPlan_assigned _ _ _ _ _ _ _ _ _ H) as [->|[->|[->| ->]]]; auto with go.
Qed.

(** ** Lemmas: planning a whole list *)

(** The plans of a list of allocations, each with the flag of its group. *)
Fixpoint plan_seq (s : Scheduler) (node : option AINodeResourceProfile) (state : NodeState)
    (now : Clock) (l : ledger) (xs : list (bool * AIResourceAllocation)) : ledger * list Plan :=
  match xs with
  | [] => (l, [])
  | (g, a) :: rest =>
      let '(l, plan) := buildPlanForAllocation s node state l a now g in
      let '(l, plans) := plan_seq s node state now l rest in
      (l, plan :: plans)
  end.

(** The groups flattened, each allocation with its group's flag. *)
Definition flagged (now : Clock) (groups : list (list AIResourceAllocation))
    : list (bool * AIResourceAllocation) :=
  groups ≫= fun group => pair (hasAnyActiveTimeWindow group now) <$> group.

Lemma flagged_snd now groups : snd <$> flagged now groups = concat groups.
Proof.
  unfold flagged. induction groups as [|g gs IH]; [done|]. cbn. rewrite fmap_app, <- list_fmap_compose.
  unfold compose. cbn. rewrite list_fmap_id. by f_equal.
Qed.

Lemma flagged_app now gs hs : flagged now (gs ++ hs) = flagged now gs ++ flagged now hs.
Proof. unfold flagged. apply bind_app. Qed.

Lemma plan_seq_app s node st now l xs ys :
  plan_seq s node st now l (xs ++ ys) =
  let '(l1, p1) := plan_seq s node st now l xs in
  let '(l2, p2) := plan_seq s node st now l1 ys in (l2, p1 ++ p2).
Proof.
  revert l. induction xs as [|[g a] xs IH]; intros l; cbn.
  - by destruct (plan_seq s node st now l ys).
  - destruct (buildPlanForAllocation s node st l a now g) as [l1 p]. rewrite IH.
    destruct (plan_seq s node st now l1 xs) as [l2 p1].
    by destruct (plan_seq s node st now l2 ys).
Qed.

Lemma plan_group_seq s node st now g l group :
  plan_group s node st now g l group = plan_seq s node st now l (pair g <$> group).
Proof.
  revert l. induction group as [|a group IH]; intros l; cbn; [done|].
  destruct (buildPlanForAllocation s node st l a now g) as [l1 p]. by rewrite IH.
Qed.

Lemma plan_groups_seq s node st now l groups :
  plan_groups s node st now l groups = plan_seq s node st now l (flagged now groups).
Proof.
  revert l. induction groups as [|g gs IH]; intros l; [done|].
  change (flagged now (g :: gs)) with (flagged now ([g] ++ gs)).
  rewrite flagged_app, plan_seq_app. unfold flagged at 1. cbn. rewrite app_nil_r, plan_group_seq.
  destruct (plan_seq s node st now l _) as [l1 p1]. by rewrite IH.
Qed.

Lemma buildPlan_allocation s node st l al now g l' p :
  buildPlanForAllocation s node st l al now g = (l', p) -> pl_Allocation p = al.
Proof.
  unfold buildPlanForAllocation. intros H. repeat case_match; simplify_eq; done.
Qed.

Lemma plan_seq_allocations s node st now l xs :
  pl_Allocation <$> (plan_seq s node st now l xs).2 = snd <$> xs.
Proof.
  revert l. induction xs as [|[g a] xs IH]; intros l; [done|]. cbn.
  destruct (buildPlanForAllocation s node st l a now g) as [l1 p] eqn:E.
  specialize (IH l1). destruct (plan_seq s node st now l1 xs). cbn in *. rewrite IH.
  by rewrite (buildPlan_allocation _ _ _ _ _ _ _ _ _ E).
Qed.

Lemma accepted_total_cons p ps :
  accepted_total (p :: ps) =
  rs_plus (if accepted p then pl_AssignedResources p else zero_ResourceSummary) (accepted_total ps).
Proof. unfold accepted_total. cbn. destruct (accepted p); [done|]. by rewrite rs_plus_0_l. Qed.

(** Every unit of the starting ledger is either still free or held by an
    accepted plan. *)
Lemma plan_seq_accounts s node st now l xs l' ps :
  rs_wf (l_Remaining l) -> rs_nonneg (l_Remaining l) -> Forall (fun x => budgets_nonneg x.2) xs ->
  plan_seq s node st now l xs = (l', ps) ->
  rs_nonneg (l_Remaining l') /\ rs_plus (l_Remaining l') (accepted_total ps) = l_Remaining l.
Proof.
  intros Hw Hn Hx. revert l l' ps Hw Hn.
  induction Hx as [|[g a] xs Ha _ IH]; intros l l' ps Hw Hn; cbn.
  { intros [= <- <-]. split; [done|]. apply rs_plus_0_r. }
  destruct (buildPlanForAllocation s node st l a now g) as [l1 p] eqn:E.
  destruct (plan_seq s node st now l1 xs) as [l2 ps'] eqn:E2. intros [= <- <-].
  destruct (buildPlan_accounts _ _ _ _ _ _ _ _ _ Hw Hn Ha E) as (_ & _ & Hn1 & Hb1).
  assert (Hle : rs_le (l_Remaining l1) (l_Remaining l)).
  { destruct (accepted p) eqn:Hp; [|rewrite <- Hb1, rs_plus_0_r; done].
    rewrite <- Hb1. apply rs_le_plus_r. by eapply buildPlan_assigned_nonneg. }
  destruct (IH l1 l2 ps' (rs_wf_le _ _ Hn1 Hle Hw) Hn1 E2) as [Hn2 Hb2].
  split; [done|]. rewrite accepted_total_cons, <- Hb1, <- Hb2.
  rewrite <- !rs_plus_assoc. f_equal. apply rs_plus_comm.
Qed.

(** ** Lemmas: priority levels *)

Lemma group_loop_prefix gs p current l :
  group_loop gs p current l = gs ++ group_loop [] p current l.
Proof.
  revert gs p current. induction l as [|a l IH]; intros gs p current; cbn; [done|].
  case_decide; [apply IH|]. rewrite IH, (IH [current]). by rewrite app_assoc.
Qed.

(** A list whose second part starts with another priority is grouped part by
    part. *)
Lemma group_loop_app p current l b k :
  Forall (fun a => priorityOf a <> priorityOf b) l -> p <> priorityOf b ->
  group_loop [] p current (l ++ b :: k) =
  group_loop [] p current l ++ group_loop [] (priorityOf b) [] (b :: k).
Proof.
  intros Hl. revert p current. induction Hl as [|a l Ha _ IH]; intros p current Hp; cbn.
  - case_decide; [by subst|]. case_decide; [|done]. cbn.
    by rewrite group_loop_prefix.
  - case_decide; [by apply IH|].
    rewrite (group_loop_prefix _ _ _ (l ++ b :: k)), (group_loop_prefix _ _ _ l), IH by done.
    cbn. by rewrite decide_True by done.
Qed.

Lemma groupAllocationsByPriority_app l k :
  (forall a b, a ∈ l -> b ∈ k -> priorityOf a <> priorityOf b) ->
  groupAllocationsByPriority (l ++ k) = groupAllocationsByPriority l ++ groupAllocationsByPriority k.
Proof.
  intros H. destruct l as [|a l]; [done|]. destruct k as [|b k]; [by rewrite !app_nil_r|].
  cbn [groupAllocationsByPriority app].
  change (a :: l ++ b :: k) with ((a :: l) ++ b :: k). apply group_loop_app.
  - apply Forall_forall. intros x Hx. apply H; [done|by left].
  - apply H; by left.
Qed.

(** The allocations of rank at least [k]. *)
Definition rank_ge (k : Z) (a : AIResourceAllocation) : bool := k <=? priorityRank (priorityOf a).

Lemma order_split now k l :
  orderAllocationsByPriorityAndWindow l now =
  orderAllocationsByPriorityAndWindow (List.filter (rank_ge k) l) now ++
  orderAllocationsByPriorityAndWindow (List.filter (fun a => negb (rank_ge k a)) l) now.
Proof.
  apply SliceStable_split.
  - intros x y Hxy. by apply less_leq.
  - intros a b Ha Hb. unfold rank_ge in *. zbool. unfold less.
    destruct (Z.eqb_spec (priorityRank (priorityOf a)) (priorityRank (priorityOf b))); [lia|].
    cbn. rewrite Z.gtb_ltb. apply Z.ltb_lt. lia.
Qed.

Lemma elem_of_order now p l a :
  a ∈ orderAllocationsByPriorityAndWindow (List.filter p l) now -> p a = true.
Proof.
  unfold orderAllocationsByPriorityAndWindow. rewrite SliceStable_perm, list_elem_of_In.
  by intros [_ H]%filter_In.
Qed.

Lemma groups_split now k l :
  groupAllocationsByPriority (orderAllocationsByPriorityAndWindow l now) =
  groupAllocationsByPriority (orderAllocationsByPriorityAndWindow (List.filter (rank_ge k) l) now) ++
  groupAllocationsByPriority
    (orderAllocationsByPriorityAndWindow (List.filter (fun a => negb (rank_ge k a)) l) now).
Proof.
  rewrite (order_split now k l). apply groupAllocationsByPriority_app.
  intros a b Ha%elem_of_order Hb%elem_of_order Hp. unfold rank_ge in *. rewrite Hp in Ha. by rewrite Ha in Hb.
Qed.

Lemma plan_seq_equiv s node a b l now xs :
  Forall ManagerLaws (resourceManagers s) -> Forall ConstraintLaws (constraints s) ->
  state_equiv a b -> plan_seq s node a now l xs = plan_seq s node b now l xs.
Proof.
  intros Hm Hc Hab. revert l. induction xs as [|[g x] xs IH]; intros l; [done|]. cbn.
  rewrite (buildPlan_equiv s node a b) by done.
  destruct (buildPlanForAllocation s node b l x now g) as [l1 p]. by rewrite IH.
Qed.

(** [BuildPlansAt] as one pass over the flagged list. *)
Lemma BuildPlansAt_seq s node allocations now st :
  observe s node (orderAllocationsByPriorityAndWindow allocations now) = inl st ->
  BuildPlansAt s node allocations now =
  inl (plan_seq s node st now (newLedger (capacityFromState st))
         (flagged now (groupAllocationsByPriority (orderAllocationsByPriorityAndWindow allocations now)))).2.
Proof. intros H. unfold BuildPlansAt. by rewrite H, plan_groups_seq. Qed.

(** ** Lemmas: demand that fits is served *)

(** The largest budget a plan may ask for, per resource. *)
Definition peak_budget (a : AIResourceAllocation) : ResourceSummary :=
  maxResource (requiredBudget a) (maxResource (preferredBudget a) (maxBudget a)).

Lemma peak_budget_ge a :
  rs_le (requiredBudget a) (peak_budget a) /\ rs_le (preferredBudget a) (peak_budget a) /\
  rs_le (maxBudget a) (peak_budget a).
Proof. unfold peak_budget. rewrite !maxResource_spec. split_and!; rs_solve. Qed.

Lemma peak_budget_nonneg a : budgets_nonneg a -> rs_nonneg (peak_budget a).
Proof. intros (H & _). unfold peak_budget. rewrite !maxResource_spec. rs_solve. Qed.

Lemma choose_budget_peak al w g rsn t r cs rsn' :
  choose_budget al w g rsn = (t, r, cs, rsn') -> rs_le r (peak_budget al).
Proof.
  destruct (peak_budget_ge al) as (? & ? & ?). unfold choose_budget. intros.
  repeat case_match; by simplify_eq.
Qed.

(** A plan is rejected exactly when the budget its branch insists on does not
    fit what the ledger has left. *)
Lemma buildPlan_rejected s node st l al now g l' p :
  buildPlanForAllocation s node st l al now g = (l', p) ->
  (pl_AllocationTier p = AllocationTierRejected <->
   exists t r cs rsn,
     choose_budget al (activeTimeWindow (as_TimeWindows (al_Spec al)) now) g
       (ActionFor (actionPolicy s) al).2 = (t, r, cs, rsn) /\ ~ rs_le r (l_Remaining l)).
Proof.
  unfold buildPlanForAllocation. destruct (ActionFor _ al) as [action reason]. cbn [snd].
  destruct (choose_budget _ _ _ _) as [[[t r] cs] rsn] eqn:Hcb.
  destruct (reserve _ _ _ _) as [l1 [[assigned tier] ok]] eqn:Hres. intros H.
  destruct (reserve_cases _ _ _ _ _ _ _ _ Hres) as [(-> & -> & _ & _ & Hr)|(-> & Hr & _ & _ & Hch)].
  - cbn in H. injection H as <- <-. cbn. split; [|done]. intros _. do 4 eexists. by split.
  - assert (tier <> AllocationTierRejected).
    { destruct Hch as [(_ & -> & _)|(c & Hc & _ & <- & _)]; [done|].
      unfold choose_budget in Hcb. repeat case_match; simplify_eq;
        rewrite ?elem_of_cons, ?elem_of_nil in Hc; destruct_or?; subst; done. }
    split; [|intros (? & ? & ? & ? & [= <- <- <- <-] & ?); done].
    intros Ht. exfalso. repeat case_match; simplify_eq; done.
Qed.

Lemma peak_sum_nonneg (xs : list (bool * AIResourceAllocation)) :
  Forall (fun x => budgets_nonneg x.2) xs -> rs_nonneg (rs_sum ((fun x => peak_budget x.2) <$> xs)).
Proof.
  intros H. apply rs_sum_nonneg, Forall_fmap. eapply Forall_impl; [exact H|].
  intros [g a] Ha. by apply peak_budget_nonneg.
Qed.

Lemma plan_seq_no_reject s node st now l xs l' ps :
  rs_wf (l_Remaining l) -> rs_nonneg (l_Remaining l) -> Forall (fun x => budgets_nonneg x.2) xs ->
  rs_le (rs_sum ((fun x => peak_budget x.2) <$> xs)) (l_Remaining l) ->
  plan_seq s node st now l xs = (l', ps) ->
  Forall (fun p => pl_AllocationTier p <> AllocationTierRejected) ps.
Proof.
  intros Hw Hn Hx. revert l l' ps Hw Hn.
  induction Hx as [|[g a] xs Ha Hxs IH]; intros l l' ps Hw Hn Hsum; cbn in *.
  { by intros [= <- <-]. }
  destruct (buildPlanForAllocation s node st l a now g) as [l1 p] eqn:E.
  destruct (plan_seq s node st now l1 xs) as [l2 ps'] eqn:E2. intros [= <- <-].
  destruct (buildPlan_accounts _ _ _ _ _ _ _ _ _ Hw Hn Ha E) as (_ & _ & Hn1 & Hb1).
  pose proof (peak_sum_nonneg xs Hxs) as Hrest.
  pose proof (peak_budget_nonneg a Ha) as Hpeak.
  pose proof (buildPlan_assigned_nonneg _ _ _ _ _ _ _ _ _ Ha E) as Has.
  assert (Hap : rs_le (pl_AssignedResources p) (peak_budget a)).
  { destruct (peak_budget_ge a) as (? & ? & ?).
    destruct (buildPlan_assigned _ _ _ _ _ _ _ _ _ E) as [->|[->|[->| ->]]]; auto. }
  constructor.
  - rewrite (buildPlan_rejected _ _ _ _ _ _ _ _ _ E). intros (t & r & cs & rsn & Hcb & Hnot).
    apply Hnot. etrans; [by eapply choose_budget_peak|]. etrans; [|exact Hsum]. by apply rs_le_plus_r.
  - assert (Hle : rs_le (l_Remaining l1) (l_Remaining l)).
    { rewrite <- Hb1. apply rs_le_plus_r. destruct (accepted p); auto with go. }
    eapply (IH l1); [by eapply rs_wf_le|done| |exact E2].
    rewrite <- Hb1 in Hsum. eapply rs_plus_cancel_le; [exact Hsum|].
    destruct (accepted p); [done|by apply rs_zero_le].
Qed.

(** ** Lemmas: a group is a priority class *)







(** ** Sample inputs *)

Definition ten_o_clock : Clock := {| clock_local := (10, 0); clock_in := fun _ => None |}.
Definition sample_node : AINodeResourceProfile := node_with 8 8 [].
(** One active high-priority allocation among two that are not active. *)
Definition sample_allocations : list AIResourceAllocation :=
  [allocation "batch" "low" [] 2 4 6; allocation "chat" "high" [daytime] 2 3 4;
   allocation "search" "high" [nighttime] 1 3 5].

Lemma default_managers_lawful : Forall ManagerLaws (resourceManagers NewDefaultScheduler).
Proof. repeat (apply List.Forall_cons; [apply _|]). apply List.Forall_nil. Qed.
Lemma default_constraints_lawful : Forall ConstraintLaws (constraints NewDefaultScheduler).
Proof. repeat (apply List.Forall_cons; [apply _|]). apply List.Forall_nil. Qed.

Ltac sample_typed := intros ? [= <-]; split; [intros ? [= <-]; compute_decide|intros ? [=]].

(** ** Theorems *)

(** The ledger of the planner accounts for every accepted plan. *)
Lemma plans_within_capacity s node allocations now :
  Forall ManagerLaws (resourceManagers s) -> (forall n, node = Some n -> node_typed n) ->
  Forall budgets_nonneg allocations ->
  exists plans, BuildPlansAt s node allocations now = inl plans /\
    rs_le (accepted_total plans) (plan_capacity s node).
Proof.
  intros Hs Hn Hb. set (o := orderAllocationsByPriorityAndWindow allocations now).
  destruct (observe_equiv s node o [] Hs) as (st & _ & Ho & _).
  eexists. split; [by apply BuildPlansAt_seq|]. fold o.
  destruct (plan_capacity_bounds s node Hs Hn) as [Hw Hp].
  rewrite (observe_capacity _ _ _ _ Hs Ho).
  destruct (plan_seq _ _ _ _ _ _) as [l ps] eqn:E. cbn.
  eapply plan_seq_accounts in E as [Hl E]; cbn in *; auto.
  - rewrite <- E, rs_plus_comm. by apply rs_le_plus_r.
  - apply (Forall_fmap (A := bool * AIResourceAllocation) snd budgets_nonneg).
    rewrite flagged_snd, groupAllocationsByPriority_concat.
    unfold o, orderAllocationsByPriorityAndWindow. by rewrite SliceStable_perm.
Qed.

(** C1: the plans accepted for a node never take more than the capacity the
    resource managers observe on it, in any of the six resources, whatever
    allocations with non-negative budgets were admitted; and planning always
    succeeds. *)
Theorem BuildPlansAt_within_capacity s node allocations now :
  Forall ManagerLaws (resourceManagers s) -> (forall n, node = Some n -> node_typed n) ->
  Forall budgets_nonneg allocations ->
  exists plans, BuildPlansAt s node allocations now = inl plans /\
    rs_le (accepted_total plans) (plan_capacity s node).
Proof. apply plans_within_capacity. Qed.

Lemma BuildPlansAt_within_capacity_witness :
  exists plans, BuildPlansAt NewDefaultScheduler (Some sample_node) sample_allocations ten_o_clock = inl plans /\
    rs_le (accepted_total plans) (plan_capacity NewDefaultScheduler (Some sample_node)).
Proof.
  apply BuildPlansAt_within_capacity.
  - exact default_managers_lawful.
  - sample_typed.
  - compute_decide.
Defined.

Lemma BuildPlansAt_allocations s node allocations now plans :
  BuildPlansAt s node allocations now = inl plans ->
  pl_Allocation <$> plans = orderAllocationsByPriorityAndWindow allocations now.
Proof.
  intros H. unfold BuildPlansAt in H. destruct (observe _ _ _) as [st|]; [|done].
  injection H as <-. by rewrite plan_groups_seq, plan_seq_allocations, flagged_snd,
    groupAllocationsByPriority_concat.
Qed.

(** C23: planning gives exactly one plan per allocation (none lost, none
    planned twice), and the plans come in the order of [planned_before]:
    critical, high, medium, low and then any other priority; within a priority
    the allocations in their time window first; then by age; then by name. *)
Theorem BuildPlansAt_one_plan_each s node allocations now plans :
  BuildPlansAt s node allocations now = inl plans ->
  (pl_Allocation <$> plans) ≡ₚ allocations /\
  StronglySorted (planned_before now) (pl_Allocation <$> plans).
Proof.
  intros ->%BuildPlansAt_allocations. split; [apply SliceStable_perm|].
  eapply StronglySorted_impl; [apply leq_planned_before|].
  apply SliceStable_sorted; [apply leq_trans|apply less_leq].
Qed.

Lemma BuildPlansAt_one_plan_each_witness : exists plans,
  BuildPlansAt NewDefaultScheduler (Some sample_node) sample_allocations ten_o_clock = inl plans /\
  (pl_Allocation <$> plans) ≡ₚ sample_allocations /\
  StronglySorted (planned_before ten_o_clock) (pl_Allocation <$> plans).
Proof.
  eexists. split; [vm_compute; reflexivity|].
  apply (BuildPlansAt_one_plan_each NewDefaultScheduler (Some sample_node)). vm_compute. reflexivity.
Defined.

(** C18: the plans of the allocations of rank at least [k] are what they would
    be without the lower-priority allocations: these never take a budget away
    from a higher priority, and never change its plan. *)
Theorem BuildPlansAt_priority_isolation s node allocations now k :
  Forall ManagerLaws (resourceManagers s) -> Forall ConstraintLaws (constraints s) ->
  exists high low,
    BuildPlansAt s node allocations now = inl (high ++ low) /\
    BuildPlansAt s node (List.filter (rank_ge k) allocations) now = inl high /\
    Forall (fun p => rank_ge k (pl_Allocation p) = false) low.
Proof.
  intros Hm Hc.
  set (hi := List.filter (rank_ge k) allocations).
  destruct (observe_equiv s node (orderAllocationsByPriorityAndWindow allocations now)
              (orderAllocationsByPriorityAndWindow hi now) Hm) as (a & b & Ha & Hb & Hab).
  rewrite (BuildPlansAt_seq _ _ _ _ _ Ha), (BuildPlansAt_seq _ _ _ _ _ Hb), (groups_split now k allocations).
  fold hi. rewrite flagged_app, plan_seq_app, <- (plan_seq_equiv s node a b) by done.
  rewrite <- (capacityFromState_proper _ _ Hab).
  destruct (plan_seq s node a now (newLedger (capacityFromState a)) _) as [l1 p1].
  destruct (plan_seq s node a now l1 _) as [l2 p2] eqn:E. cbn.
  exists p1, p2. split_and!; [done..|].
  pose proof (plan_seq_allocations s node a now l1
    (flagged now (groupAllocationsByPriority (orderAllocationsByPriorityAndWindow
      (List.filter (fun a => negb (rank_ge k a)) allocations) now)))) as Hp.
  rewrite E, flagged_snd, groupAllocationsByPriority_concat in Hp. cbn in Hp.
  apply (Forall_fmap pl_Allocation (fun x => rank_ge k x = false)).
  rewrite Hp. apply Forall_forall. intros x Hx%elem_of_order. by apply negb_true_iff.
Qed.

Lemma BuildPlansAt_priority_isolation_witness : exists high low,
  BuildPlansAt NewDefaultScheduler (Some sample_node) sample_allocations ten_o_clock = inl (high ++ low) /\
  BuildPlansAt NewDefaultScheduler (Some sample_node)
    (List.filter (rank_ge 3) sample_allocations) ten_o_clock = inl high /\
  Forall (fun p => rank_ge 3 (pl_Allocation p) = false) low.
Proof.
  apply BuildPlansAt_priority_isolation;
    [exact default_managers_lawful|exact default_constraints_lawful].
Defined.

(** C24: when the sum of the allocations' largest budgets fits the observed
    capacity, no plan is rejected for lack of budget. *)
Theorem BuildPlansAt_serves_fitting_demand s node allocations now :
  Forall ManagerLaws (resourceManagers s) -> (forall n, node = Some n -> node_typed n) ->
  Forall budgets_nonneg allocations ->
  rs_le (rs_sum (peak_budget <$> allocations)) (plan_capacity s node) ->
  exists plans, BuildPlansAt s node allocations now = inl plans /\
    Forall (fun p => pl_AllocationTier p <> AllocationTierRejected) plans.
Proof.
  intros Hs Hn Hb Hsum. set (o := orderAllocationsByPriorityAndWindow allocations now).
  assert (Hperm : o ≡ₚ allocations) by apply SliceStable_perm.
  destruct (observe_equiv s node o [] Hs) as (st & _ & Ho & _).
  eexists. split; [by apply BuildPlansAt_seq|]. fold o.
  destruct (plan_capacity_bounds s node Hs Hn) as [Hw Hp].
  rewrite (observe_capacity _ _ _ _ Hs Ho).
  destruct (plan_seq _ _ _ _ _ _) as [l ps] eqn:E. cbn.
  eapply plan_seq_no_reject; [..|exact E]; cbn; auto.
  - apply (Forall_fmap (A := bool * AIResourceAllocation) snd budgets_nonneg).
    by rewrite flagged_snd, groupAllocationsByPriority_concat, Hperm.
  - change (fun x : bool * AIResourceAllocation => peak_budget x.2) with (peak_budget ∘ snd (A := bool)).
    by rewrite (list_fmap_compose snd peak_budget), flagged_snd, groupAllocationsByPriority_concat, Hperm.
Qed.

Lemma BuildPlansAt_serves_fitting_demand_witness : exists plans,
  BuildPlansAt NewDefaultScheduler (Some (node_with 20 20 [])) sample_allocations ten_o_clock = inl plans /\
  Forall (fun p => pl_AllocationTier p <> AllocationTierRejected) plans.
Proof.
  apply BuildPlansAt_serves_fitting_demand.
  - exact default_managers_lawful.
  - sample_typed.
  - compute_decide.
  - compute_decide.
Defined.

(** ** Theorems: budget tiers *)






Lemma plan_seq_elem s node st now l xs p :
  p ∈ (plan_seq s node st now l xs).2 ->
  exists g a l1 l2, (g, a) ∈ xs /\ buildPlanForAllocation s node st l1 a now g = (l2, p).
Proof.
  revert l. induction xs as [|[g a] xs IH]; intros l; cbn; [by intros ?%elem_of_nil|].
  destruct (buildPlanForAllocation s node st l a now g) as [l1 q] eqn:E.
  specialize (IH l1). destruct (plan_seq s node st now l1 xs) as [l2 ps]. cbn in *.
  intros [->|Hp]%elem_of_cons.
  - exists g, a, l, l1. split; [by left|done].
  - destruct (IH Hp) as (g' & a' & l3 & l4 & H1 & H2). exists g', a', l3, l4. split; [by right|done].
Qed.

Lemma buildPlan_phase s node st l al now g l' p :
  buildPlanForAllocation s node st l al now g = (l', p) ->
  pl_TargetPhase p = PlanPhasePendingApply \/ pl_TargetPhase p = PlanPhaseFailed.
Proof. unfold buildPlanForAllocation. intros H. repeat case_match; simplify_eq; auto. Qed.

(** Every plan belongs to an allocation of the input and grants one of its
    budgets. *)
Lemma BuildPlansAt_elem s node allocations now plans p :
  BuildPlansAt s node allocations now = inl plans -> p ∈ plans ->
  pl_Allocation p ∈ allocations /\
  (pl_TargetPhase p = PlanPhasePendingApply \/ pl_TargetPhase p = PlanPhaseFailed) /\
  (budgets_nonneg (pl_Allocation p) -> rs_nonneg (pl_AssignedResources p)).
Proof.
  intros H Hp. destruct (observe s node (orderAllocationsByPriorityAndWindow allocations now)) as [st|err] eqn:Ho.
  - rewrite (BuildPlansAt_seq _ _ _ _ _ Ho) in H. injection H as <-.
    apply plan_seq_elem in Hp as (g & a & l1 & l2 & Hin & E).
    rewrite (buildPlan_allocation _ _ _ _ _ _ _ _ _ E). split_and!.
    + apply (list_elem_of_fmap_2 snd) in Hin. cbn in Hin.
      rewrite flagged_snd, groupAllocationsByPriority_concat in Hin.
      unfold orderAllocationsByPriorityAndWindow in Hin. by rewrite SliceStable_perm in Hin.
    + by eapply buildPlan_phase.
    + intros Hb. by eapply buildPlan_assigned_nonneg.
  - unfold BuildPlansAt in H. by rewrite Ho in H.
Qed.






(** The bound on the accepted plans counts negative budgets too: an allocation
    of -10 GPUs makes room for two allocations of 8 on a node that has 8. *)
Theorem negative_budget_overcommits :
  let a := allocation "odd" "critical" [] (-10) (-10) (-10) in
  let b := allocation "one" "high" [] 8 8 8 in
  let c := allocation "two" "high" [] 8 8 8 in
  exists p q r, BuildPlansAt NewDefaultScheduler (Some (node_with 8 8 [])) [a; b; c] ten_o_clock = inl [p; q; r] /\
    plan_capacity NewDefaultScheduler (Some (node_with 8 8 [])) = res 8 /\
    accepted q = true /\ accepted r = true /\
    pl_AssignedResources q = res 8 /\ pl_AssignedResources r = res 8.
Proof. cbn zeta. do 3 eexists. split; [vm_compute; reflexivity|]. split_and!; vm_compute; reflexivity. Qed.

(** without uniform spelling the rule fails: two allocations of the same
    rank, spelled High and high, are planned in separate groups, and the one
    outside its window keeps its preferred budget although a same-priority
    allocation is active. *)
Theorem spelling_variants_split_the_group :
  let a := allocation "chat" "High" [daytime] 2 3 4 in
  let b := allocation "search" "high" [nighttime] 1 3 5 in
  priorityRank (priorityOf a) = priorityRank (priorityOf b) /\
  groupAllocationsByPriority [a; b] = [[a]; [b]] /\
  exists p q, BuildPlansAt NewDefaultScheduler (Some sample_node) [a; b] ten_o_clock = inl [p; q] /\
    is_active ten_o_clock (pl_Allocation p) = true /\
    pl_Allocation q = b /\ pl_AllocationTier q = AllocationTierPreferred.
Proof.
  cbn zeta. split; [reflexivity|]. split; [reflexivity|].
  do 2 eexists. split; [vm_compute; reflexivity|]. split_and!; reflexivity.
Qed.

(** ** The default scheduler's capacity *)

(** A dimension of the node: what the status says is allocatable, or the
    fallback from the spec when the status says zero or nothing. *)
Definition observed (status fallback : Z) : Z := Z.max 0 (if status =? 0 then fallback else status).

(** the capacity the default scheduler plans against is, dimension by
    dimension, the node's reported allocatable amount, or, where that is zero
    or missing, the device list's and runtime's declared capacity; a negative
    amount counts as zero. *)
Theorem default_plan_capacity n :
  let a := from_ptr zero_ResourceSummary (nst_Allocatable (np_Status n)) in
  let t := match runtime_capacity (Some n) with
           | Some c => from_ptr {| tt_PrefillTokensPerSecond := 0; tt_DecodeTokensPerSecond := 0;
                                   tt_TotalTokensPerSecond := 0 |} (rc_TokenThroughput c)
           | None => {| tt_PrefillTokensPerSecond := 0; tt_DecodeTokensPerSecond := 0;
                        tt_TotalTokensPerSecond := 0 |}
           end in
  plan_capacity NewDefaultScheduler (Some n) =
  {| GPUCount := observed (GPUCount a) (gpu_count (ns_GPUs (np_Spec n)));
     GPUMemoryGiB := observed (GPUMemoryGiB a) (gpu_memory 0 (ns_GPUs (np_Spec n)));
     KVCacheGiB := observed (KVCacheGiB a)
       match runtime_capacity (Some n) with Some c => rc_KVCacheGiB c | None => 0 end;
     PrefillTokensPerSecond := observed (PrefillTokensPerSecond a) (tt_PrefillTokensPerSecond t);
     DecodeTokensPerSecond := observed (DecodeTokensPerSecond a) (tt_DecodeTokensPerSecond t);
     TotalTokensPerSecond := observed (TotalTokensPerSecond a) (tt_TotalTokensPerSecond t) |}.
Proof.
  cbn zeta. unfold plan_capacity, observe, capacityFromState, NewDefaultScheduler.
  cbn -[runtime_capacity]. unfold GPUManager_Observe, TokenThroughputManager_Observe.
  destruct (nst_Allocatable (np_Status n)) as [a|], (runtime_capacity (Some n)) as [c|];
    try destruct (rc_TokenThroughput c) as [t|]; cbn;
    rewrite !capacity_fold_insert by (vm_compute; reflexivity);
    rewrite map_to_list_empty, !maxResource_spec; unfold observed;
    apply rs_ext; cbn; repeat case_match; zbool;
    repeat match goal with E : _ = 0 |- _ => rewrite ?E in *; clear E end; lia.
Qed.
