(* ===== verification/AgentLedger.v ===== *)
(** * AgentLedger: the agent's view of the node ledgers

    internal/agent/allocation_ledger.go and hourly_forecast.go.  A node ledger
    is one AIResourceAllocation with an entry per workload; the agent expands
    it into one allocation per workload, and folds the workloads' statuses
    back into the ledger's totals and hourly forecast. *)

From stdpp Require Import strings gmap.
From S2P Require Import Prelude GoString ApiTypes Samples Resources.
From S2P Require Import PolicyWindow PluginState PluginReserve AgentResources LocalLedger.
Local Open Scope string_scope.
Local Open Scope list_scope.
Local Open Scope Z_scope.

(** ** allocation_ledger.go *)

Fixpoint firstResourceSummary (values : list (option ResourceSummary)) : option ResourceSummary :=
  match values with
  | [] => None
  | Some v :: _ => Some v
  | None :: rest => firstResourceSummary rest
  end.

Definition workloadStatusByName (statuses : list AllocationWorkloadStatus) (name : string)
    : option AllocationWorkloadStatus :=
  find_by awst_Name statuses name.

(** The body of the inner loop: the allocation of one workload. *)
Definition expand_workload (ledger : AIResourceAllocation) (w : AllocationWorkloadSpec) : AIResourceAllocation :=
  let m := al_Meta ledger in
  let s := al_Status ledger in
  let annotations := Annotations m in
  let annotations := if decide (aws_SourcePodName w = "") then annotations
    else <[AllocationAnnotationSourcePodName := aws_SourcePodName w]> annotations in
  let annotations := if decide (aws_SourcePodUID w = "") then annotations
    else <[AllocationAnnotationSourcePodUID := aws_SourcePodUID w]> annotations in
  {| al_Meta := {| Name := Name m; Namespace := Namespace m; UID := UID m; Labels := Labels m;
                   Annotations := annotations; CreationTimestamp := CreationTimestamp m;
                   DeletionTimestamp := DeletionTimestamp m |};
     al_Spec := {| as_NodeName := as_NodeName (al_Spec ledger); as_Workloads := [w];
                   as_Reason := aws_Reason w; as_WorkloadRef := aws_WorkloadRef w;
                   as_WorkloadType := aws_WorkloadType w; as_Priority := aws_Priority w;
                   as_DemandShape := aws_DemandShape w; as_TimeWindows := aws_TimeWindows w;
                   as_ResourceRequest := aws_ResourceRequest w; as_AssignedGPU := aws_AssignedGPU w;
                   as_Resources := firstResourceSummary [aws_Desired w; aws_Resources w];
                   as_AllocationType := aws_AllocationType w; as_Actions := aws_Actions w |};
     al_Status :=
       match workloadStatusByName (ast_Workloads s) (aws_Name w) with
       | Some status =>
           {| ast_Phase := awst_Phase status; ast_ObservedAt := ast_ObservedAt s;
              ast_AppliedAt := ast_AppliedAt s; ast_NodeLedger := ast_NodeLedger s;
              ast_Workloads := ast_Workloads s; ast_ObservedResources := awst_Applied status;
              ast_Current := awst_Applied status; ast_HourlyForecast := awst_HourlyForecast status;
              ast_Message := awst_Message status; ast_Conditions := ast_Conditions s |}
       | None => zero_AIResourceAllocationStatus
       end |}.

Definition expandNodeAllocationLedgers (ledgers : list AIResourceAllocation) : list AIResourceAllocation :=
  ledgers ≫= fun ledger =>
    match as_Workloads (al_Spec ledger) with
    | [] => [ledger]
    | ws => expand_workload ledger <$> ws
    end.

(** The same code as the plugin's [sanitizeName]. *)
Definition sanitizeLedgerKey (value : string) : string :=
  TrimCut dash_dot (of_bytes ((fun r => if name_char r then r else 45) <$> runes (ToLower value))).

Definition workloadEntryNameFromAllocation (a : AIResourceAllocation) : string :=
  let fallback :=
    let namespace := ref_Namespace (as_WorkloadRef (al_Spec a)) in
    let namespace := if decide (namespace = "") then Namespace (al_Meta a) else namespace in
    let name := map_get (Annotations (al_Meta a)) AllocationAnnotationSourcePodName in
    let name := if decide (name = "") then map_get (Labels (al_Meta a)) AllocationLabelWorkloadName else name in
    let name := if decide (name = "") then ref_Name (as_WorkloadRef (al_Spec a)) else name in
    sanitizeLedgerKey (namespace +:+ "/" +:+ name) in
  match as_Workloads (al_Spec a) with
  | [w] => if decide (aws_Name w = "") then fallback else aws_Name w
  | _ => fallback
  end.

Definition objectRefCopy (ref : KubernetesObjectRef) : option KubernetesObjectRef :=
  if decide (ref_Name ref = "") then None else Some ref.

Definition workloadStatusFromAllocation (a : AIResourceAllocation) (desired applied : option ResourceSummary)
    (action message : string) : AllocationWorkloadStatus :=
  {| awst_Name := workloadEntryNameFromAllocation a;
     awst_WorkloadRef := objectRefCopy (as_WorkloadRef (al_Spec a));
     awst_SourcePodName := map_get (Annotations (al_Meta a)) AllocationAnnotationSourcePodName;
     awst_Phase := ast_Phase (al_Status a);
     awst_Priority := as_Priority (al_Spec a);
     awst_DemandShape := as_DemandShape (al_Spec a);
     awst_ActiveWindow := false;
     awst_Desired := desired;
     awst_Applied := applied;
     awst_HourlyForecast := ast_HourlyForecast (al_Status a);
     awst_AssignedGPU := as_AssignedGPU (al_Spec a);
     awst_Action := action;
     awst_Message := message |}.

Definition mergeWorkloadStatus (statuses : list AllocationWorkloadStatus) (entry : AllocationWorkloadStatus)
    : list AllocationWorkloadStatus :=
  upsert_by awst_Name statuses entry.

Definition status_released (s : AllocationWorkloadStatus) : bool :=
  EqualFold (awst_Phase s) AllocationPhaseReleased.

(** [allocated] of the loop; the field-wise [+=] is [addResourceSummary]. *)
Definition ledger_allocated (statuses : list AllocationWorkloadStatus) : ResourceSummary :=
  fold_left (fun allocated s =>
    match awst_Applied s with
    | None => allocated
    | Some applied => if status_released s then allocated else addResourceSummary allocated applied
    end) statuses zero_ResourceSummary.

Definition allocationLedgerSummary (statuses : list AllocationWorkloadStatus) : NodeAllocationLedger :=
  {| nal_Total := None; nal_Allocated := Some (ledger_allocated statuses); nal_Available := None |}.

(** [buckets[hour] = add(buckets[hour], values[hour])] for the hours both have. *)
Fixpoint add_buckets (buckets values : list ResourceSummary) : list ResourceSummary :=
  match buckets, values with
  | b :: bs, v :: vs => addResourceSummary b v :: add_buckets bs vs
  | bs, _ => bs
  end.

Definition zero_buckets : list ResourceSummary := replicate 24 zero_ResourceSummary.

(** One iteration of the loop, with its three accumulators. *)
Definition aggregate_step (acc : option Time * string * list ResourceSummary) (s : AllocationWorkloadStatus)
    : option Time * string * list ResourceSummary :=
  let '(generatedAt, timezone, buckets) := acc in
  if status_released s then acc
  else
    match awst_HourlyForecast s with
    | None => acc
    | Some f =>
        (match generatedAt with None => hf_GeneratedAt f | Some _ => generatedAt end,
         if decide (timezone = "") then hf_Timezone f else timezone,
         add_buckets buckets (hf_ResourceBuckets f))
    end.

Definition aggregateHourlyForecastFromStatuses (statuses : list AllocationWorkloadStatus)
    : HourlyResourceForecast :=
  let '(generatedAt, timezone, buckets) := fold_left aggregate_step statuses (None, "", zero_buckets) in
  {| hf_GeneratedAt := generatedAt; hf_Timezone := timezone; hf_ResourceBuckets := buckets |}.

(** ** hourly_forecast.go *)

Definition hourlyForecastBucketCount : nat := 24.

Definition emptyHourlyForecast (generatedAt : option Time) : HourlyResourceForecast :=
  {| hf_GeneratedAt := generatedAt; hf_Timezone := "";
     hf_ResourceBuckets := replicate hourlyForecastBucketCount zero_ResourceSummary |}.

Definition requiredForecastResources (a : AIResourceAllocation) : ResourceSummary :=
  let fallback := match as_Resources (al_Spec a) with Some r => r | None => zero_ResourceSummary end in
  match as_ResourceRequest (al_Spec a) with
  | Some r => match wrr_Required r with Some v => v | None => fallback end
  | None => fallback
  end.

Definition maxForecastResources (a : AIResourceAllocation) : ResourceSummary :=
  match as_ResourceRequest (al_Spec a) with
  | Some r =>
      match wrr_Max r with
      | Some v => v
      | None => match wrr_Preferred r with Some v => v | None => requiredForecastResources a end
      end
  | None => requiredForecastResources a
  end.

Fixpoint forecastTimezone (windows : list TimeWindow) : string :=
  match windows with
  | [] => ""
  | w :: rest => if decide (tw_Timezone w = "") then forecastTimezone rest else tw_Timezone w
  end.

Definition parseForecastMinute (value : string) : option Z :=
  match parse_clock value with Some (h, m) => Some (h * 60 + m) | None => None end.

Definition minuteInForecastWindow (current start end_ : Z) : bool :=
  if start =? end_ then true
  else if start <? end_ then (current >=? start) && (current <? end_)
  else (current >=? start) || (current <? end_).

Definition hourInForecastWindows (windows : list TimeWindow) (hour : Z) : bool :=
  if (hour <? 0) || (hour >? 23) then false
  else
    let minute := hour * 60 in
    existsb (fun window =>
      match parseForecastMinute (tw_Start window) with
      | None => false
      | Some start =>
          match parseForecastMinute (tw_End window) with
          | None => false
          | Some end_ => minuteInForecastWindow minute start end_
          end
      end) windows.

Definition forecast_bucket (a : AIResourceAllocation) (hour : Z) : ResourceSummary :=
  if hourInForecastWindows (as_TimeWindows (al_Spec a)) hour
     && negb (resourceSummaryIsZero (maxForecastResources a))
  then maxForecastResources a else requiredForecastResources a.

Definition buildHourlyForecast (a : option AIResourceAllocation) (generatedAt : option Time)
    : HourlyResourceForecast :=
  match a with
  | None => emptyHourlyForecast generatedAt
  | Some a =>
      {| hf_GeneratedAt := generatedAt;
         hf_Timezone := forecastTimezone (as_TimeWindows (al_Spec a));
         hf_ResourceBuckets := (fun h => forecast_bucket a (Z.of_nat h)) <$> seq 0 hourlyForecastBucketCount |}
  end.

(** ** Lemmas: sums *)

(** The applied budgets of the workloads that are not released. *)
Definition live_applied (statuses : list AllocationWorkloadStatus) : list ResourceSummary :=
  omap (fun s => if status_released s then None else awst_Applied s) statuses.

Lemma ledger_allocated_fold statuses :
  ledger_allocated statuses = fold_left addResourceSummary (live_applied statuses) zero_ResourceSummary.
Proof.
  unfold ledger_allocated. generalize zero_ResourceSummary.
  induction statuses as [|s l IH]; intros acc; cbn; [done|].
  destruct (awst_Applied s), (status_released s); cbn; apply IH.
Qed.

(** The forecasts of the workloads that are not released. *)
Definition live_forecasts (statuses : list AllocationWorkloadStatus) : list HourlyResourceForecast :=
  omap (fun s => if status_released s then None else awst_HourlyForecast s) statuses.

Lemma add_buckets_length bs vs : length (add_buckets bs vs) = length bs.
Proof. revert vs. induction bs as [|b bs IH]; intros [|v vs]; cbn; auto. Qed.

Lemma add_buckets_lookup bs vs i b :
  bs !! i = Some b -> add_buckets bs vs !! i = Some (match vs !! i with Some v => addResourceSummary b v | None => b end).
Proof.
  revert vs i. induction bs as [|x bs IH]; intros [|v vs] [|i] H; cbn in *; simplify_eq; auto.
Qed.

Lemma aggregate_fold statuses g t bs :
  (fold_left aggregate_step statuses (g, t, bs)).2 =
  fold_left add_buckets (hf_ResourceBuckets <$> live_forecasts statuses) bs.
Proof.
  revert g t bs. induction statuses as [|s l IH]; intros g t bs; cbn; [done|].
  destruct (status_released s); [apply IH|]. destruct (awst_HourlyForecast s); apply IH.
Qed.

Lemma fold_add_buckets_lookup vss bs i b :
  bs !! i = Some b ->
  fold_left add_buckets vss bs !! i = Some (fold_left addResourceSummary (omap (fun vs => vs !! i) vss) b).
Proof.
  revert bs b. induction vss as [|vs vss IH]; intros bs b H; cbn; [done|].
  rewrite (IH _ _ (add_buckets_lookup _ vs _ _ H)). by destruct (vs !! i).
Qed.

Lemma fold_add_buckets_length vss bs : length (fold_left add_buckets vss bs) = length bs.
Proof. revert bs. induction vss as [|vs vss IH]; intros bs; cbn; [done|]. by rewrite IH, add_buckets_length. Qed.

(** ** Lemmas: the two parsers of a clock time *)

Lemma digit_cases b : is_digit b = true ->
  b = 48 \/ b = 49 \/ b = 50 \/ b = 51 \/ b = 52 \/ b = 53 \/ b = 54 \/ b = 55 \/ b = 56 \/ b = 57.
Proof. unfold is_digit, between. lia. Qed.

Lemma Atoi_digits ds :
  ds <> [] -> Forall (fun b => is_digit b = true) ds -> (length ds <= 2)%nat ->
  Atoi (of_bytes ds) = Some (digits_value ds).
Proof.
  intros Hne Hd Hlen. unfold Atoi, ParseInt.
  rewrite bytes_of_bytes by (eapply Forall_impl; [exact Hd|]; intros b Hb%digit_cases; unfold is_byte; lia).
  destruct ds as [|a [|b [|]]]; cbn in Hlen; try done; try lia.
  - apply Forall_cons in Hd as [Ha _]. destruct (digit_cases a Ha) as [->|Ha']; [done|].
    by destruct_or! Ha'; subst.
  - apply Forall_cons in Hd as [Ha [Hb _]%Forall_cons].
    destruct (digit_cases a Ha) as [->|Ha']; destruct (digit_cases b Hb) as [->|Hb'];
      destruct_or?; subst; done.
Qed.

Lemma split_digits l : Forall (fun b => is_digit b = true) l -> split_bytes 58 l = [l].
Proof.
  induction 1 as [|b l Hb _ IH]; [done|]. cbn. rewrite IH.
  destruct (Z.eqb_spec b 58) as [->|]; done.
Qed.

Lemma split_digits_colon l k :
  Forall (fun b => is_digit b = true) l -> split_bytes 58 (l ++ 58 :: k) = l :: split_bytes 58 k.
Proof.
  induction 1 as [|b l Hb _ IH]; [done|]. cbn [split_bytes app]. rewrite IH.
  destruct (Z.eqb_spec b 58) as [->|]; done.
Qed.

(** The shape of a clock time the agent accepts. *)
Lemma parse_clock_shape v h m :
  parse_clock v = Some (h, m) ->
  exists hs ms, bytes v = hs ++ 58 :: ms /\ hs <> [] /\ ms <> [] /\
    (length hs <= 2)%nat /\ (length ms <= 2)%nat /\
    Forall (fun b => is_digit b = true) hs /\ Forall (fun b => is_digit b = true) ms /\
    h = digits_value hs /\ m = digits_value ms /\ 0 <= h <= 23 /\ 0 <= m <= 59.
Proof.
  unfold parse_clock. destruct (bytes v) as [|h1 t1] eqn:E; [done|].
  destruct (is_digit h1) eqn:D1; [|done]. destruct t1 as [|h2 t2]; [done|].
  pose proof (digit_cases h1 D1) as C1. destruct (is_digit h2) eqn:D2.
  - pose proof (digit_cases h2 D2) as C2.
    destruct (Z.ltb_spec ((h1 - 48) * 10 + (h2 - 48)) 24) as [Hh|]; [|done].
    destruct t2 as [|c [|m1 [|m2 [|]]]]; try done.
    destruct ((c =? 58) && is_digit m1 && is_digit m2) eqn:B; [|done]. zbool. subst.
    pose proof (digit_cases m1 H1) as C3. pose proof (digit_cases m2 H0) as C4.
    destruct (Z.ltb_spec ((m1 - 48) * 10 + (m2 - 48)) 60) as [Hm|]; [|done]. intros [= <- <-].
    exists [h1; h2], [m1; m2]. cbn. split_and!; auto; unfold digits_value; cbn; lia.
  - destruct t2 as [|m1 [|m2 [|]]]; try done.
    destruct ((h2 =? 58) && is_digit m1 && is_digit m2) eqn:B; [|done]. zbool. subst.
    pose proof (digit_cases m1 H1) as C3. pose proof (digit_cases m2 H0) as C4.
    destruct (Z.ltb_spec ((m1 - 48) * 10 + (m2 - 48)) 60) as [Hm|]; [|done]. intros [= <- <-].
    exists [h1], [m1; m2]. cbn. split_and!; auto; unfold digits_value; cbn; lia.
Qed.

(** What the agent reads as a clock time, the central scheduler reads as the
    same minute. *)
Lemma parse_clock_parseHHMM v h m : parse_clock v = Some (h, m) -> parseHHMM v = Some (h * 60 + m).
Proof.
  intros (hs & ms & E & Hh0 & Hm0 & Hhl & Hml & Hhd & Hmd & -> & -> & Hh & Hm)%parse_clock_shape.
  unfold parseHHMM, Split, parsePositiveInt. rewrite E, split_digits_colon, split_digits by done. cbn [fmap list_fmap].
  rewrite !Atoi_digits by done.
  destruct (Z.ltb_spec (digits_value hs) 0), (Z.gtb_spec (digits_value hs) 23); try lia. cbn [orb].
  destruct (Z.ltb_spec (digits_value ms) 0), (Z.gtb_spec (digits_value ms) 59); try lia. done.
Qed.

(** A window the agent can read. *)
Definition window_parses (w : TimeWindow) : Prop :=
  is_Some (parse_clock (tw_Start w)) /\ is_Some (parse_clock (tw_End w)).

Lemma minuteInForecastWindow_spec t s e : minuteInForecastWindow t s e = true <-> minute_in_window t s e.
Proof. unfold minuteInForecastWindow, minute_in_window. if_split; zbool; rewrite ?Z.geb_leb; lia. Qed.

(** Whether the agent counts an hour as inside a window. *)
Definition forecast_covers (w : TimeWindow) (t : Z) : Prop :=
  exists s e, parseForecastMinute (tw_Start w) = Some s /\ parseForecastMinute (tw_End w) = Some e /\
    minute_in_window t s e.

Lemma hourInForecastWindows_spec windows hour :
  0 <= hour <= 23 ->
  hourInForecastWindows windows hour = true <-> exists w, w ∈ windows /\ forecast_covers w (hour * 60).
Proof.
  intros Hh. unfold hourInForecastWindows.
  destruct (Z.ltb_spec hour 0), (Z.gtb_spec hour 23); try lia. cbn [orb].
  apply existsb_iff. intros w. unfold forecast_covers.
  destruct (parseForecastMinute (tw_Start w)) as [s|]; [|split; [done|by intros (? & ? & ? & _)]].
  destruct (parseForecastMinute (tw_End w)) as [e|]; [|split; [done|by intros (? & ? & _ & ? & _)]].
  rewrite minuteInForecastWindow_spec. split; [by exists s, e|]. by intros (? & ? & [= <-] & [= <-] & ?).
Qed.

Lemma parseForecastMinute_parseHHMM v t : parseForecastMinute v = Some t -> parseHHMM v = Some t.
Proof.
  unfold parseForecastMinute. destruct (parse_clock v) as [[h m]|] eqn:E; [|done]. intros [= <-].
  by apply parse_clock_parseHHMM.
Qed.

Lemma forecast_covers_central w t : is_minute t -> forecast_covers w t -> window_covers w t.
Proof.
  intros Ht (s & e & Hs & He & Hin). exists s, e. split_and!; auto using parseForecastMinute_parseHHMM.
Qed.

Lemma central_covers_forecast w t : window_parses w -> window_covers w t -> forecast_covers w t.
Proof.
  intros [[[h m] Hs] [[h' m'] He]] (s & e & Hs' & He' & Hin).
  rewrite (parse_clock_parseHHMM _ _ _ Hs) in Hs'. rewrite (parse_clock_parseHHMM _ _ _ He) in He'.
  simplify_eq. exists (h * 60 + m), (h' * 60 + m'). unfold parseForecastMinute. rewrite Hs, He.
  by split_and!.
Qed.

(** ** Lemmas: budgets *)

Lemma requiredForecast_requiredBudget a : requiredForecastResources a = requiredBudget a.
Proof. unfold requiredForecastResources, requiredBudget. by repeat case_match. Qed.

Lemma maxForecast_maxBudget a : maxForecastResources a = maxBudget a.
Proof.
  unfold maxForecastResources, maxBudget, preferredBudget. rewrite requiredForecast_requiredBudget.
  destruct (as_ResourceRequest (al_Spec a)) as [[r p [m|]]|]; cbn; [done|by destruct p|done].
Qed.

(** The minute check of the local scheduler is the one of the forecast. *)
Lemma activeTimeWindow_forecast windows h :
  0 <= h <= 23 -> Forall (fun w => tw_Name w <> "" /\ tw_Timezone w = "") windows ->
  hourInForecastWindows windows h =
  negb (bool_decide (activeTimeWindow windows {| clock_local := (h, 0); clock_in := fun _ => None |} = "")).
Proof.
  intros Hh Hw. unfold hourInForecastWindows.
  destruct (Z.ltb_spec h 0), (Z.gtb_spec h 23); try lia. cbn [orb].
  induction Hw as [|w ws [Hn Htz] _ IH]; [done|]. cbn [existsb activeTimeWindow].
  unfold parseForecastMinute at 1 2. unfold parseMinuteOfDay.
  destruct (parse_clock (tw_Start w)) as [[sh sm]|]; [|exact IH].
  destruct (parse_clock (tw_End w)) as [[eh em]|]; [|exact IH].
  unfold window_minute. rewrite decide_True by done. cbn [clock_local]. rewrite Z.add_0_r.
  replace (minuteInForecastWindow (h * 60) (sh * 60 + sm) (eh * 60 + em))
    with (minuteInWindow (h * 60) (sh * 60 + sm) (eh * 60 + em))
    by (unfold minuteInForecastWindow, minuteInWindow; by rewrite !Z.geb_leb).
  destruct (minuteInWindow _ _ _); [|exact IH]. cbn [orb]. by rewrite bool_decide_false.
Qed.

(** ** Theorems *)

(** The agent's bucket of an hour, from its own readings of the windows and
    of the request. *)
Lemma buildHourlyForecast_bucket a t h :
  (h < 24)%nat -> hf_ResourceBuckets (buildHourlyForecast (Some a) t) !! h = Some (forecast_bucket a (Z.of_nat h)).
Proof.
  intros Hh. cbn [buildHourlyForecast hf_ResourceBuckets].
  by rewrite list_lookup_fmap, lookup_seq_lt by (unfold hourlyForecastBucketCount; lia).
Qed.

Lemma hourInForecastWindows_central windows h :
  Forall window_parses windows -> (h < 24)%nat ->
  hourInForecastWindows windows (Z.of_nat h) = hourInTimeWindows windows (Z.of_nat h).
Proof.
  intros Hw Hh. apply eq_true_iff_eq. rewrite hourInTimeWindows_spec, hourInForecastWindows_spec by lia.
  split; intros (w & Hin & Hc); exists w; (split; [done|]).
  - apply forecast_covers_central; [unfold is_minute; lia|done].
  - rewrite Forall_forall in Hw. apply central_covers_forecast; auto.
Qed.

(** What the central envelope check adds for a workload in one hour
    (filter_constraint.go). *)
Definition central_demand (prof : AIWorkloadProfile) (hour : Z) : ResourceSummary :=
  resourcesForHour (wps_TimeWindows (wp_Spec prof)) (requiredResources (Some prof)) (maxResources (Some prof)) hour.

(** C34: the agent forecasts what the central scheduler counted.  For the entry
    the scheduler writes for a pod of the profile [prof], whose windows the
    agent can read (HH:MM) and which states its required budget, every hour of
    the forecast the agent publishes is what the central envelope check added
    for [prof] in that hour; and the reclaim side of the next check, which reads the
    forecast published for the workload, counts it with that amount. *)
Theorem forecast_matches_central_envelope ledger pod prof request resources kind reason t h status :
  wps_Resources (wp_Spec prof) = Some request -> is_Some (wrr_Required request) ->
  Forall window_parses (wps_TimeWindows (wp_Spec prof)) -> (h < 24)%nat ->
  let a := expand_workload ledger (allocationWorkloadSpec pod prof resources kind reason) in
  let forecast := buildHourlyForecast (Some a) t in
  hf_ResourceBuckets forecast !! h = Some (central_demand prof (Z.of_nat h)) /\
  (nas_HourlyForecast status = Some forecast ->
   allocationResourceForHour status (Z.of_nat h) = central_demand prof (Z.of_nat h)).
Proof.
  intros Hr [required Hreq] Hw Hh a forecast.
  assert (Hb : hf_ResourceBuckets forecast !! h = Some (central_demand prof (Z.of_nat h))).
  { unfold forecast. rewrite buildHourlyForecast_bucket by done. f_equal.
    unfold forecast_bucket, central_demand, resourcesForHour.
    change (as_TimeWindows (al_Spec a)) with (wps_TimeWindows (wp_Spec prof)).
    rewrite hourInForecastWindows_central by done.
    assert (Er : as_ResourceRequest (al_Spec a) = Some request) by exact Hr.
    unfold maxForecastResources, requiredForecastResources, maxResources, requiredResources.
    rewrite Er, Hr, Hreq. cbn. rewrite Hreq. by destruct (wrr_Max request), (wrr_Preferred request). }
  split; [done|]. intros Hs. unfold allocationResourceForHour. rewrite Hs.
  assert (Hok : hour_ok (Z.of_nat h) = true) by (unfold hour_ok; zbool; lia).
  unfold bucket. by rewrite Hok, Nat2Z.id, Hb.
Qed.

Lemma forecast_matches_central_envelope_witness :
  let prof := workload "chat" "high" [daytime; nighttime] 2 3 4 in
  let a := expand_workload (allocation "chat" "high" [] 1 1 1)
             (allocationWorkloadSpec sample_pod prof (res 3) "preferred" "") in
  hf_ResourceBuckets (buildHourlyForecast (Some a) None) !! 10%nat = Some (central_demand prof 10) /\
  central_demand prof 10 = res 4.
Proof.
  split; [|vm_compute; reflexivity].
  eapply (forecast_matches_central_envelope (allocation "chat" "high" [] 1 1 1) sample_pod
    (workload "chat" "high" [daytime; nighttime] 2 3 4) _ (res 3) "preferred" "" None 10
    {| nas_Name := "a"; nas_Namespace := ""; nas_WorkloadName := ""; nas_WorkloadType := ""; nas_Priority := "";
       nas_DemandShape := ""; nas_TimeWindows := []; nas_ResourceRequest := None; nas_AssignedGPU := None;
       nas_Resources := None; nas_Current := None; nas_HourlyForecast := None; nas_Actions := None;
       nas_Phase := "" |}); [reflexivity|by eexists| |lia].
  repeat constructor; eexists; vm_compute; reflexivity.
Defined.

(** the forecast agrees with the local scheduler: at the start of every
    hour, the bucket is the max budget exactly when the planner finds the
    allocation in an active window and grants the max budget, and the required
    budget otherwise. *)
Theorem forecast_matches_local_plan a t h :
  Forall (fun w => tw_Name w <> "" /\ tw_Timezone w = "") (as_TimeWindows (al_Spec a)) -> (h < 24)%nat ->
  let now := {| clock_local := (Z.of_nat h, 0); clock_in := fun _ => None |} in
  hf_ResourceBuckets (buildHourlyForecast (Some a) t) !! h =
  Some (if is_active now a && negb (isZeroResource (maxBudget a)) then maxBudget a else requiredBudget a).
Proof.
  intros Hw Hh now. cbn [buildHourlyForecast hf_ResourceBuckets].
  rewrite list_lookup_fmap, lookup_seq_lt by (unfold hourlyForecastBucketCount; lia). cbn [fmap option_fmap option_map].
  f_equal. unfold forecast_bucket. rewrite Nat.add_0_l, (activeTimeWindow_forecast _ (Z.of_nat h)) by (done || lia).
  by rewrite requiredForecast_requiredBudget, maxForecast_maxBudget.
Qed.

Lemma forecast_matches_local_plan_witness :
  let a := allocation "chat" "high" [daytime; nighttime] 2 3 4 in
  let now := {| clock_local := (10, 0); clock_in := fun _ => None |} in
  hf_ResourceBuckets (buildHourlyForecast (Some a) None) !! 10%nat =
  Some (if is_active now a && negb (isZeroResource (maxBudget a)) then maxBudget a else requiredBudget a).
Proof.
  apply (forecast_matches_local_plan (allocation "chat" "high" [daytime; nighttime] 2 3 4)); [|lia].
  compute_decide.
Defined.

Lemma ledger_allocated_exact statuses :
  Forall rs_nonneg (live_applied statuses) -> rs_wf (rs_sum (live_applied statuses)) ->
  ledger_allocated statuses = rs_sum (live_applied statuses).
Proof.
  intros Ha Hwa. rewrite ledger_allocated_fold, fold_add_exact; rewrite ?rs_plus_0_l; auto with go.
Qed.

Lemma aggregated_length statuses :
  length (hf_ResourceBuckets (aggregateHourlyForecastFromStatuses statuses)) = 24%nat.
Proof.
  unfold aggregateHourlyForecastFromStatuses. pose proof (aggregate_fold statuses None "" zero_buckets) as E.
  destruct (fold_left aggregate_step statuses (None, "", zero_buckets)) as [[g tz] bs].
  cbn [hf_ResourceBuckets]. cbn [snd] in E. subst bs. by rewrite fold_add_buckets_length.
Qed.

Lemma aggregated_hour_exact statuses h :
  (h < 24)%nat -> let hour := omap (fun f => hf_ResourceBuckets f !! h) (live_forecasts statuses) in
  Forall rs_nonneg hour -> rs_wf (rs_sum hour) ->
  hf_ResourceBuckets (aggregateHourlyForecastFromStatuses statuses) !! h = Some (rs_sum hour).
Proof.
  intros Hh hour Hf Hwf. unfold aggregateHourlyForecastFromStatuses.
  pose proof (aggregate_fold statuses None "" zero_buckets) as E.
  destruct (fold_left aggregate_step statuses (None, "", zero_buckets)) as [[g tz] bs].
  cbn [hf_ResourceBuckets]. cbn [snd] in E. subst bs.
  rewrite (fold_add_buckets_lookup _ _ _ zero_ResourceSummary) by (by apply (lookup_replicate_2 24)).
  f_equal. replace (omap (fun vs => vs !! h) (hf_ResourceBuckets <$> live_forecasts statuses)) with hour.
  - rewrite fold_add_exact; rewrite ?rs_plus_0_l; auto with go.
  - unfold hour. clear. induction (live_forecasts statuses) as [|f l IH]; [done|]. cbn.
    destruct (hf_ResourceBuckets f !! h); [f_equal|]; exact IH.
Qed.

(** the ledger's totals are exact: as long as they fit in 32 bits, the
    allocated amount is the sum of the applied budgets of the workloads that
    are not released, and every hour of the aggregated forecast is the sum of
    those workloads' forecasts for that hour. *)
Theorem ledger_totals_exact statuses h :
  (h < 24)%nat -> Forall rs_nonneg (live_applied statuses) -> rs_wf (rs_sum (live_applied statuses)) ->
  let hour := omap (fun f => hf_ResourceBuckets f !! h) (live_forecasts statuses) in
  Forall rs_nonneg hour -> rs_wf (rs_sum hour) ->
  nal_Allocated (allocationLedgerSummary statuses) = Some (rs_sum (live_applied statuses)) /\
  length (hf_ResourceBuckets (aggregateHourlyForecastFromStatuses statuses)) = 24%nat /\
  hf_ResourceBuckets (aggregateHourlyForecastFromStatuses statuses) !! h = Some (rs_sum hour).
Proof.
  intros Hh Ha Hwa hour Hf Hwf. split_and!.
  - cbn. by rewrite ledger_allocated_exact.
  - apply aggregated_length.
  - by apply aggregated_hour_exact.
Qed.

Definition sample_status (name phase : string) (g : Z) : AllocationWorkloadStatus :=
  {| awst_Name := name; awst_WorkloadRef := None; awst_SourcePodName := name; awst_Phase := phase;
     awst_Priority := "high"; awst_DemandShape := "mixed"; awst_ActiveWindow := false;
     awst_Desired := Some (res g); awst_Applied := Some (res g);
     awst_HourlyForecast := Some {| hf_GeneratedAt := None; hf_Timezone := "";
                                    hf_ResourceBuckets := replicate 24 (res g) |};
     awst_AssignedGPU := None; awst_Action := "apply"; awst_Message := "" |}.

Lemma ledger_totals_exact_witness :
  let statuses := [sample_status "a" "Applied" 2; sample_status "b" "released" 3; sample_status "c" "Failed" 1] in
  let hour := omap (fun f => hf_ResourceBuckets f !! 5%nat) (live_forecasts statuses) in
  nal_Allocated (allocationLedgerSummary statuses) = Some (rs_sum (live_applied statuses)) /\
  length (hf_ResourceBuckets (aggregateHourlyForecastFromStatuses statuses)) = 24%nat /\
  hf_ResourceBuckets (aggregateHourlyForecastFromStatuses statuses) !! 5%nat = Some (rs_sum hour).
Proof. apply ledger_totals_exact; [lia|compute_decide..]. Defined.

(** a window that contains no full hour is in no bucket of the forecast,
    although the local scheduler grants the max budget inside it. *)
Theorem short_window_not_forecast :
  let w := {| tw_Name := "burst"; tw_Start := "09:10"; tw_End := "09:50"; tw_Timezone := "" |} in
  let a := allocation "chat" "high" [w] 1 2 8 in
  hf_ResourceBuckets (buildHourlyForecast (Some a) None) = replicate 24 (res 1) /\
  (forall h, 0 <= h <= 23 -> hourInTimeWindows [w] h = false) /\
  activeTimeWindow [w] {| clock_local := (9, 30); clock_in := fun _ => None |} = "burst" /\
  maxBudget a = res 8.
Proof.
  cbn zeta. split; [vm_compute; reflexivity|]. split; [|split; reflexivity].
  intros h Hh.
  assert (Hall : Forall (fun h => hourInTimeWindows
    [{| tw_Name := "burst"; tw_Start := "09:10"; tw_End := "09:50"; tw_Timezone := "" |}] h = false)
    (Z.of_nat <$> seq 0 24)) by compute_decide.
  rewrite Forall_forall in Hall. apply Hall. apply list_elem_of_fmap. exists (Z.to_nat h).
  split; [lia|]. apply elem_of_seq. lia.
Qed.

(** the central scheduler reads clock times the agent rejects, so a
    window written 9:5 counts in the central envelope and is never active on
    the node. *)
Theorem parsers_disagree_on_loose_times :
  parseHHMM "9:5" = Some 545 /\ parseMinuteOfDay "9:5" = None /\
  parseHHMM "+9:05" = Some 545 /\ parseMinuteOfDay "+9:05" = None.
Proof. split_and!; vm_compute; reflexivity. Qed.
