(* ===== verification/Backend.v ===== *)
(** * Backend: what the agent's backends observe and apply

    internal/agent/backend: backend.go and fake.go.  A Go error is its text.
    Parameters: the reader of ConfigMaps and the YAML decoder.
    [FakeBackend_Snapshot] also returns the
    node it was given: the status it builds shares the [Runtime] pointer with
    the node's own status, and filling in a missing pressure writes through
    it. *)

From stdpp Require Import strings gmap.
From S2P Require Import Prelude GoString ApiTypes Samples Resources AgentResources.
Local Open Scope string_scope.
Local Open Scope list_scope.
Local Open Scope Z_scope.

(** ** backend.go *)

Record ApplyRequest := {
  areq_Node : option AINodeResourceProfile;
  areq_Allocation : option AIResourceAllocation;
  areq_Action : string;
  areq_DesiredResources : option ResourceSummary;
  areq_AllocationTier : string;
  areq_TargetPhase : string;
  areq_Reason : string
}.

Record ApplyResult := { ares_ObservedResources : option ResourceSummary; ares_Message : string }.

(** The reader for ConfigMaps: their data by namespace and name. *)
Record Options := {
  opt_Client : option (string -> string -> gmap string string + string);
  opt_NodeName : string;
  opt_ConfigMapNamespace : string;
  opt_ConfigMapName : string
}.

(** The interface: the result of Apply, and of Snapshot at a time with the
    node as the call leaves it. *)
Record Backend := {
  be_Apply : ApplyRequest -> ApplyResult + string;
  be_Snapshot : Time -> option AINodeResourceProfile -> list AIResourceAllocation ->
                (AINodeResourceProfileStatus + string) * option AINodeResourceProfile
}.

(** ** fake.go: shared helpers *)

Definition backend_nonNegative (value : Z) : Z := if value <? 0 then 0 else value.

Definition percent (value total : Z) : Z :=
  if total <=? 0 then 0 else backend_nonNegative (quot32 (mul32 value 100) total).

Definition addResources (target value : ResourceSummary) : ResourceSummary :=
  {| GPUCount := GPUCount target +₃₂ GPUCount value;
     GPUMemoryGiB := GPUMemoryGiB target +₃₂ GPUMemoryGiB value;
     KVCacheGiB := KVCacheGiB target +₃₂ KVCacheGiB value;
     PrefillTokensPerSecond := PrefillTokensPerSecond target +₃₂ PrefillTokensPerSecond value;
     DecodeTokensPerSecond := DecodeTokensPerSecond target +₃₂ DecodeTokensPerSecond value;
     TotalTokensPerSecond := TotalTokensPerSecond target +₃₂ TotalTokensPerSecond value |}.

Definition subtractResources (total used : option ResourceSummary) : ResourceSummary :=
  match total with
  | None => zero_ResourceSummary
  | Some total =>
      match used with
      | None => total
      | Some used =>
          {| GPUCount := backend_nonNegative (GPUCount total -₃₂ GPUCount used);
             GPUMemoryGiB := backend_nonNegative (GPUMemoryGiB total -₃₂ GPUMemoryGiB used);
             KVCacheGiB := backend_nonNegative (KVCacheGiB total -₃₂ KVCacheGiB used);
             PrefillTokensPerSecond :=
               backend_nonNegative (PrefillTokensPerSecond total -₃₂ PrefillTokensPerSecond used);
             DecodeTokensPerSecond :=
               backend_nonNegative (DecodeTokensPerSecond total -₃₂ DecodeTokensPerSecond used);
             TotalTokensPerSecond :=
               backend_nonNegative (TotalTokensPerSecond total -₃₂ TotalTokensPerSecond used) |}
      end
  end.

(** [summary] with the runtime's declared capacity filled in. *)
Definition with_runtime_capacity (n : AINodeResourceProfile) (gpus memory : Z) : ResourceSummary :=
  match ns_Runtime (np_Spec n) with
  | Some {| rsp_Capacity := Some c |} =>
      {| GPUCount := gpus; GPUMemoryGiB := memory; KVCacheGiB := rc_KVCacheGiB c;
         PrefillTokensPerSecond := match rc_TokenThroughput c with
                                   | Some t => tt_PrefillTokensPerSecond t | None => 0 end;
         DecodeTokensPerSecond := match rc_TokenThroughput c with
                                  | Some t => tt_DecodeTokensPerSecond t | None => 0 end;
         TotalTokensPerSecond := match rc_TokenThroughput c with
                                 | Some t => tt_TotalTokensPerSecond t | None => 0 end |}
  | _ => {| GPUCount := gpus; GPUMemoryGiB := memory; KVCacheGiB := 0; PrefillTokensPerSecond := 0;
            DecodeTokensPerSecond := 0; TotalTokensPerSecond := 0 |}
  end.

Definition allocatableFromNode (n : AINodeResourceProfile) : ResourceSummary :=
  with_runtime_capacity n (gpu_count (ns_GPUs (np_Spec n))) (gpu_memory 0 (ns_GPUs (np_Spec n))).

Definition allocationResources (a : AIResourceAllocation) : option ResourceSummary :=
  match ast_Current (al_Status a) with
  | Some r => Some r
  | None =>
      match ast_ObservedResources (al_Status a) with
      | Some r => Some r
      | None => as_Resources (al_Spec a)
      end
  end.

(** The loop repeats the case analysis of [allocationResources]. *)
Definition allocatedFromAllocations (allocations : list AIResourceAllocation) : ResourceSummary :=
  fold_left (fun summary a =>
    let resources := ast_Current (al_Status a) in
    let resources := match resources with None => ast_ObservedResources (al_Status a) | _ => resources end in
    let resources := match resources with None => as_Resources (al_Spec a) | _ => resources end in
    match resources with None => summary | Some r => addResources summary r end)
    allocations zero_ResourceSummary.

Definition nodeAllocationStatus (a : AIResourceAllocation) : NodeAllocationStatus :=
  {| nas_Name := Name (al_Meta a);
     nas_Namespace := if decide (ref_Namespace (as_WorkloadRef (al_Spec a)) = "")
                      then Namespace (al_Meta a) else ref_Namespace (as_WorkloadRef (al_Spec a));
     nas_WorkloadName := ref_Name (as_WorkloadRef (al_Spec a));
     nas_WorkloadType := as_WorkloadType (al_Spec a);
     nas_Priority := as_Priority (al_Spec a);
     nas_DemandShape := as_DemandShape (al_Spec a);
     nas_TimeWindows := as_TimeWindows (al_Spec a);
     nas_ResourceRequest := as_ResourceRequest (al_Spec a);
     nas_AssignedGPU := as_AssignedGPU (al_Spec a);
     nas_Resources := allocationResources a;
     nas_Current := ast_Current (al_Status a);
     nas_HourlyForecast := ast_HourlyForecast (al_Status a);
     nas_Actions := as_Actions (al_Spec a);
     nas_Phase := ast_Phase (al_Status a) |}.

Definition nodeAllocationStatuses (allocations : list AIResourceAllocation) : list NodeAllocationStatus :=
  nodeAllocationStatus <$> allocations.

(** [addResources(&buckets[hour], value)] for the hours both have. *)
Fixpoint add_hours (buckets values : list ResourceSummary) : list ResourceSummary :=
  match buckets, values with
  | b :: bs, v :: vs => addResources b v :: add_hours bs vs
  | bs, _ => bs
  end.

Definition forecast_step (acc : string * list ResourceSummary) (a : AIResourceAllocation)
    : string * list ResourceSummary :=
  let '(timezone, buckets) := acc in
  if EqualFold (ast_Phase (al_Status a)) AllocationPhaseReleased then acc
  else
    match ast_HourlyForecast (al_Status a) with
    | Some f => (if decide (timezone = "") then hf_Timezone f else timezone,
                 add_hours buckets (hf_ResourceBuckets f))
    | None =>
        match allocationResources a with
        | None => acc
        | Some r => (timezone, (fun b => addResources b r) <$> buckets)
        end
    end.

Definition hourlyForecastFromAllocations (allocations : list AIResourceAllocation) : HourlyResourceForecast :=
  let '(timezone, buckets) :=
    fold_left forecast_step allocations ("", replicate 24 zero_ResourceSummary) in
  {| hf_GeneratedAt := None; hf_Timezone := timezone; hf_ResourceBuckets := buckets |}.

Definition fakePressure (total used : ResourceSummary) : RuntimePressure :=
  {| pr_GPUUtilizationPercent := percent (GPUCount used) (GPUCount total);
     pr_GPUMemoryUtilizationPercent := percent (GPUMemoryGiB used) (GPUMemoryGiB total);
     pr_KVCacheUtilizationPercent := percent (KVCacheGiB used) (KVCacheGiB total);
     pr_PrefillUtilizationPercent := percent (PrefillTokensPerSecond used) (PrefillTokensPerSecond total);
     pr_DecodeUtilizationPercent := percent (DecodeTokensPerSecond used) (DecodeTokensPerSecond total);
     pr_QueueDepth := 0; pr_TTFTP95Ms := 0; pr_TPOTP95Ms := 0; pr_LatencyP99Ms := 0;
     pr_SLORisk := "low" |}.

(** ** fake.go: the backend *)

Record FakeNodeResourceConfig := {
  fc_Allocatable : option ResourceSummary;
  fc_Runtime : option RuntimeStatus
}.

Definition FakeBackend_Apply (req : ApplyRequest) : ApplyResult + string :=
  match areq_Allocation req with
  | None => inr "missing allocation"
  | Some a =>
      inl {| ares_ObservedResources := match areq_DesiredResources req with
                                       | Some r => Some r
                                       | None => as_Resources (al_Spec a)
                                       end;
             ares_Message := "fake backend accepted action " +:+ Quote (areq_Action req)
               +:+ " tier=" +:+ Quote (areq_AllocationTier req)
               +:+ " targetPhase=" +:+ Quote (areq_TargetPhase req) +:+ " reason=" +:+ areq_Reason req |}
  end.

Fixpoint first_key (data : gmap string string) (keys : list string) : option string :=
  match keys with
  | [] => None
  | k :: rest => match data !! k with Some v => Some v | None => first_key data rest end
  end.

Definition nodeConfigMapValue (data : gmap string string) (nodeName : string) : option string :=
  first_key data [nodeName +:+ ".yaml"; nodeName +:+ ".yml"; nodeName; "resources.yaml"; "resources.yml"].

(** Where the ConfigMap is looked for. *)
Definition configMapNamespaceFor (o : Options) (n : AINodeResourceProfile) : string :=
  let namespace := opt_ConfigMapNamespace o in
  let namespace := if decide (namespace = "") then Namespace (np_Meta n) else namespace in
  if decide (namespace = "") then "astra-system" else namespace.

Section Fake.
(** [yaml.Unmarshal] into a FakeNodeResourceConfig. *)
Variable yaml_Unmarshal : string -> FakeNodeResourceConfig + string.

Definition nodeResourceConfig (o : Options) (n : AINodeResourceProfile)
    : option FakeNodeResourceConfig + string :=
  match opt_Client o with
  | None => inl None
  | Some get =>
      if decide (opt_ConfigMapName o = "") then inl None
      else
        let namespace := configMapNamespaceFor o n in
        match get namespace (opt_ConfigMapName o) with
        | inr err => inr ("get fake node resource ConfigMap " +:+ namespace +:+ "/" +:+ opt_ConfigMapName o
                          +:+ ": " +:+ err)
        | inl data =>
            let nodeName := opt_NodeName o in
            let nodeName := if decide (nodeName = "") then ns_NodeName (np_Spec n) else nodeName in
            let nodeName := if decide (nodeName = "") then Name (np_Meta n) else nodeName in
            match nodeConfigMapValue data nodeName with
            | None => inl None
            | Some value =>
                match yaml_Unmarshal value with
                | inr err => inr ("parse fake node resource config for node " +:+ Quote nodeName +:+ ": " +:+ err)
                | inl config => inl (Some config)
                end
            end
        end
  end.

Definition with_node_runtime (n : AINodeResourceProfile) (r : option RuntimeStatus) : AINodeResourceProfile :=
  let s := np_Status n in
  {| np_Meta := np_Meta n; np_Spec := np_Spec n;
     np_Status := {| nst_Phase := nst_Phase s; nst_ObservedAt := nst_ObservedAt s; nst_GPUs := nst_GPUs s;
                     nst_Allocatable := nst_Allocatable s; nst_Allocated := nst_Allocated s;
                     nst_Available := nst_Available s; nst_HourlyForecast := nst_HourlyForecast s;
                     nst_Runtime := r; nst_Allocations := nst_Allocations s;
                     nst_Conditions := nst_Conditions s |} |}.

(** The new status, and the node as the call leaves it. *)
Definition FakeBackend_Snapshot (o : Options) (node : option AINodeResourceProfile)
    (allocations : list AIResourceAllocation)
    : (AINodeResourceProfileStatus + string) * option AINodeResourceProfile :=
  match node with
  | None => (inr "missing node profile", node)
  | Some n =>
      match nodeResourceConfig o n with
      | inr err => (inr err, node)
      | inl config =>
          let allocatable := match config with
            | Some {| fc_Allocatable := Some a |} => a
            | _ => allocatableFromNode n
            end in
          let allocated := allocatedFromAllocations allocations in
          let shared := match config with
            | Some {| fc_Runtime := Some _ |} => false
            | _ => true
            end in
          let runtime := match config with
            | Some {| fc_Runtime := Some r |} => r
            | _ => from_ptr {| rst_Pressure := None |} (nst_Runtime (np_Status n))
            end in
          let runtime' := match rst_Pressure runtime with
            | Some _ => runtime
            | None => {| rst_Pressure := Some (fakePressure allocatable allocated) |}
            end in
          let s := np_Status n in
          (inl {| nst_Phase := nst_Phase s; nst_ObservedAt := nst_ObservedAt s; nst_GPUs := nst_GPUs s;
                  nst_Allocatable := Some allocatable;
                  nst_Allocated := Some allocated;
                  nst_Available := Some (subtractResources (Some allocatable) (Some allocated));
                  nst_HourlyForecast := Some (hourlyForecastFromAllocations allocations);
                  nst_Runtime := Some runtime';
                  nst_Allocations := nodeAllocationStatuses allocations;
                  nst_Conditions := nst_Conditions s |},
           Some (match nst_Runtime s with
                 | Some _ => if shared then with_node_runtime n (Some runtime') else n
                 | None => n
                 end))
      end
  end.

Definition NewFakeBackend (o : Options) : Backend :=
  {| be_Apply := FakeBackend_Apply; be_Snapshot _ := FakeBackend_Snapshot o |}.
End Fake.

(** ** The books of a snapshot *)

(** What the allocations hold. *)
Definition held (allocations : list AIResourceAllocation) : list ResourceSummary :=
  omap allocationResources allocations.

(** What an allocation is expected to need in an hour. *)
Definition hourly_demand (h : nat) (a : AIResourceAllocation) : option ResourceSummary :=
  if EqualFold (ast_Phase (al_Status a)) AllocationPhaseReleased then None
  else match ast_HourlyForecast (al_Status a) with
       | Some f => hf_ResourceBuckets f !! h
       | None => allocationResources a
       end.

(** A status whose totals are right: what is allocated is the sum of what the
    allocations hold, what is available is the rest of the allocatable amount
    (and nothing where that is exceeded), and each hour of the forecast is the
    sum of the allocations' demands. *)
Definition balanced (allocations : list AIResourceAllocation) (s : AINodeResourceProfileStatus) : Prop :=
  nst_Allocated s = Some (rs_sum (held allocations)) /\
  (exists total available, nst_Allocatable s = Some total /\ nst_Available s = Some available /\
    rs_nonneg available /\
    (rs_wf total -> rs_nonneg total ->
     available = rs_map2 (fun t u => Z.max 0 (t - u)) total (rs_sum (held allocations)))) /\
  nst_Allocations s = nodeAllocationStatuses allocations /\
  exists f, nst_HourlyForecast s = Some f /\ length (hf_ResourceBuckets f) = 24%nat /\
    forall h, (h < 24)%nat -> Forall rs_nonneg (omap (hourly_demand h) allocations) ->
      rs_wf (rs_sum (omap (hourly_demand h) allocations)) ->
      hf_ResourceBuckets f !! h = Some (rs_sum (omap (hourly_demand h) allocations)).

(** *** Lemmas *)

Lemma addResources_addResourceSummary a b : addResources a b = addResourceSummary a b.
Proof. done. Qed.

Lemma subtractResources_spec t u :
  subtractResources (Some t) (Some u) = subtractResourceSummary t u.
Proof. done. Qed.

Lemma subtractResourceSummary_max t u :
  rs_wf t -> rs_nonneg t -> rs_wf u -> rs_nonneg u ->
  subtractResourceSummary t u = rs_map2 (fun t u => Z.max 0 (t - u)) t u.
Proof.
  intros Ht Ht' Hu Hu'. rs_open. destruct_and?.
  apply rs_ext; cbn; rewrite nonNegative_spec, sub32_exact; auto; i32.
Qed.

Lemma allocatedFromAllocations_fold allocations :
  allocatedFromAllocations allocations = fold_left addResourceSummary (held allocations) zero_ResourceSummary.
Proof.
  unfold allocatedFromAllocations, held. generalize zero_ResourceSummary as acc.
  induction allocations as [|a l IH]; intros acc; cbn [fold_left omap list_omap]; [done|].
  rewrite IH. unfold allocationResources. destruct (ast_Current (al_Status a)); [done|].
  destruct (ast_ObservedResources (al_Status a)); [done|]. by destruct (as_Resources (al_Spec a)).
Qed.

Lemma allocatedFromAllocations_exact allocations :
  Forall rs_nonneg (held allocations) -> rs_wf (rs_sum (held allocations)) ->
  allocatedFromAllocations allocations = rs_sum (held allocations).
Proof.
  intros Hn Hw. rewrite allocatedFromAllocations_fold, fold_add_exact; rewrite ?rs_plus_0_l; auto with go.
Qed.

Lemma add_hours_lookup bs vs h b :
  bs !! h = Some b ->
  add_hours bs vs !! h = Some (match vs !! h with Some v => addResourceSummary b v | None => b end).
Proof.
  revert vs h. induction bs as [|x bs IH]; intros [|v vs] [|h] H; cbn in *; try done; simplify_eq; auto.
Qed.

Lemma add_hours_length bs vs : length (add_hours bs vs) = length bs.
Proof. revert vs. induction bs; intros [|v vs]; cbn; auto. Qed.

Lemma forecast_fold_lookup allocations h b acc :
  acc.2 !! h = Some b ->
  (fold_left forecast_step allocations acc).2 !! h =
  Some (fold_left addResourceSummary (omap (hourly_demand h) allocations) b).
Proof.
  revert acc b. induction allocations as [|a l IH]; intros [tz bs] b H; cbn [fold_left omap list_omap snd] in *;
    [done|].
  unfold hourly_demand at 1. unfold forecast_step at 2.
  destruct (EqualFold (ast_Phase (al_Status a)) AllocationPhaseReleased); [by apply IH|].
  destruct (ast_HourlyForecast (al_Status a)) as [f|].
  - erewrite IH by (by apply add_hours_lookup). by destruct (hf_ResourceBuckets f !! h).
  - destruct (allocationResources a) as [r|]; [|by apply IH].
    erewrite IH; [done|]. cbn. by rewrite list_lookup_fmap, H.
Qed.

Lemma forecast_fold_length allocations acc :
  length (fold_left forecast_step allocations acc).2 = length acc.2.
Proof.
  revert acc. induction allocations as [|a l IH]; intros [tz bs]; cbn [fold_left]; [done|].
  rewrite IH. unfold forecast_step.
  destruct (EqualFold (ast_Phase (al_Status a)) AllocationPhaseReleased); [done|].
  destruct (ast_HourlyForecast (al_Status a)); [apply add_hours_length|].
  destruct (allocationResources a); [apply length_fmap|done].
Qed.

Lemma hourlyForecast_exact allocations :
  length (hf_ResourceBuckets (hourlyForecastFromAllocations allocations)) = 24%nat /\
  forall h, (h < 24)%nat -> Forall rs_nonneg (omap (hourly_demand h) allocations) ->
    rs_wf (rs_sum (omap (hourly_demand h) allocations)) ->
    hf_ResourceBuckets (hourlyForecastFromAllocations allocations) !! h =
    Some (rs_sum (omap (hourly_demand h) allocations)).
Proof.
  unfold hourlyForecastFromAllocations.
  pose proof (forecast_fold_length allocations ("", replicate 24 zero_ResourceSummary)) as L.
  pose proof (fun h b => forecast_fold_lookup allocations h b ("", replicate 24 zero_ResourceSummary)) as F.
  destruct (fold_left forecast_step allocations _) as [tz bs]. cbn [snd hf_ResourceBuckets] in *.
  split; [done|]. intros h Hh Hn Hw.
  rewrite (F h zero_ResourceSummary) by (by apply lookup_replicate_2).
  f_equal. rewrite fold_add_exact; rewrite ?rs_plus_0_l; auto with go.
Qed.

(** The part the two backends share. *)
Lemma balanced_intro allocations s total :
  Forall rs_nonneg (held allocations) -> rs_wf (rs_sum (held allocations)) ->
  nst_Allocatable s = Some total -> nst_Allocated s = Some (allocatedFromAllocations allocations) ->
  nst_Available s = Some (subtractResources (nst_Allocatable s) (nst_Allocated s)) ->
  nst_Allocations s = nodeAllocationStatuses allocations ->
  nst_HourlyForecast s = Some (hourlyForecastFromAllocations allocations) ->
  balanced allocations s.
Proof.
  intros Hn Hw Ht Hu Ha Hs Hf. rewrite Ht, Hu, subtractResources_spec in Ha.
  rewrite allocatedFromAllocations_exact in * by done. split_and!; [done| |done|].
  - exists total, (subtractResourceSummary total (rs_sum (held allocations))). split_and!; auto with go.
    intros. apply subtractResourceSummary_max; auto using rs_sum_nonneg.
  - eexists. split; [done|]. apply hourlyForecast_exact.
Qed.

Lemma FakeBackend_balanced yaml o now n allocations s n' :
  Forall rs_nonneg (held allocations) -> rs_wf (rs_sum (held allocations)) ->
  be_Snapshot (NewFakeBackend yaml o) now (Some n) allocations = (inl s, n') -> balanced allocations s.
Proof.
  intros Hn Hw H. cbn [be_Snapshot NewFakeBackend FakeBackend_Snapshot] in H.
  destruct (nodeResourceConfig yaml o n) as [config|err]; simplify_eq. by eapply balanced_intro.
Qed.

(** ** Pressure *)

(** The largest amount whose hundredfold fits in 32 bits. *)
Definition percent_limit : Z := 21474836.

Lemma percent_exact value total :
  0 <= value <= percent_limit -> 0 < total -> in_int32 total -> percent value total = value * 100 / total.
Proof.
  unfold percent_limit. intros Hv Ht Hi. unfold percent. rewrite (proj2 (Z.leb_gt total 0)) by lia.
  unfold mul32. rewrite wrap32_id by i32. unfold quot32.
  rewrite Z.quot_div_nonneg by lia.
  assert (0 <= value * 100 / total <= value * 100).
  { split; [apply Z.div_pos; lia|]. apply Z.div_le_upper_bound; nia. }
  rewrite wrap32_id by i32. unfold backend_nonNegative. if_split; lia.
Qed.

Lemma percent_range value total :
  0 <= value <= total -> total <= percent_limit -> 0 <= percent value total <= 100.
Proof.
  intros Hv Hl. unfold percent_limit in Hl. destruct (decide (total = 0)) as [->|Hn]; [done|].
  rewrite percent_exact by (unfold percent_limit; i32). split.
  - apply Z.div_pos; lia.
  - apply Z.div_le_upper_bound; lia.
Qed.

Definition pressure_in_range (p : RuntimePressure) : Prop :=
  0 <= pr_GPUUtilizationPercent p <= 100 /\ 0 <= pr_GPUMemoryUtilizationPercent p <= 100 /\
  0 <= pr_KVCacheUtilizationPercent p <= 100 /\ 0 <= pr_PrefillUtilizationPercent p <= 100 /\
  0 <= pr_DecodeUtilizationPercent p <= 100.

Lemma fakePressure_in_range total used :
  rs_nonneg used -> rs_le used total -> rs_all (fun z => z <= percent_limit) total ->
  pressure_in_range (fakePressure total used).
Proof.
  intros Hn Hle Hl. rs_open. destruct_and?. unfold pressure_in_range. split_and!; apply percent_range; cbn; lia.
Qed.

(** the fake backend computes the pressure once: after its status has been
    published, later snapshots repeat it whatever the allocations have become,
    unless the ConfigMap gives one. *)
Theorem FakeBackend_pressure_is_sticky yaml o now now' n allocations s n' later later_allocations s' n'' :
  be_Snapshot (NewFakeBackend yaml o) now (Some n) allocations = (inl s, n') ->
  np_Status later = s ->
  (forall config, nodeResourceConfig yaml o later = inl (Some config) -> fc_Runtime config = None) ->
  be_Snapshot (NewFakeBackend yaml o) now' (Some later) later_allocations = (inl s', n'') ->
  nst_Runtime s' = nst_Runtime s.
Proof.
  cbn [be_Snapshot NewFakeBackend FakeBackend_Snapshot]. intros H1 <- Hc H2.
  destruct (nodeResourceConfig yaml o n) as [c1|]; [|done].
  destruct (nodeResourceConfig yaml o later) as [c2|] eqn:E2; [|done].
  injection H1 as H1 _. injection H2 as <- _. cbn [nst_Runtime].
  set (r1 := match rst_Pressure _ with Some _ => _ | None => _ end) in H1.
  assert (P : exists p, rst_Pressure r1 = Some p)
    by (unfold r1; destruct (rst_Pressure _) eqn:E; eauto).
  rewrite <- H1. destruct P as [p P]. cbn [nst_Runtime from_ptr].
  destruct c2 as [[al rt]|]; [specialize (Hc _ eq_refl); cbn in Hc; subst rt|]; by rewrite P.
Qed.

Lemma FakeBackend_pressure_is_sticky_witness :
  exists be s s', be = NewFakeBackend (fun _ => inr "") (Build_Options None "" "" "") /\
    (be_Snapshot be 1 (Some (node_with 8 6 [])) []).1 = inl s /\
    let later := {| np_Meta := named "node-a"; np_Spec := np_Spec (node_with 8 6 []); np_Status := s |} in
    (be_Snapshot be 2 (Some later) [holding (res 8) (allocation "chat" "high" [] 8 8 8)]).1 = inl s' /\
    nst_Runtime s' = nst_Runtime s.
Proof.
  do 3 eexists. split; [reflexivity|]. split; [reflexivity|]. split; [reflexivity|].
  eapply (FakeBackend_pressure_is_sticky (fun _ => inr "") (Build_Options None "" "" "") 1 2
            (node_with 8 6 []) [] _ _
            {| np_Meta := named "node-a"; np_Spec := np_Spec (node_with 8 6 []); np_Status := _ |}
            [holding (res 8) (allocation "chat" "high" [] 8 8 8)]);
    [reflexivity|reflexivity| |reflexivity].
  intros config H. discriminate H.
Defined.
