(* ===== verification/RealBackend.v ===== *)
(** * RealBackend: the backend that drives real hardware

    internal/agent/backend: real.go, isolation.go, low_level_resource.go and
    the choice of a backend in backend.go.  The operating system is a
    parameter: environment variables, the search path, and what running a
    command prints and whether it fails.  The Go interfaces [commandRunner],
    [ResourceIsolator] and [LowLevelResourceDriver] are records of
    operations. *)

From stdpp Require Import strings gmap.
From S2P Require Import Prelude GoString ApiTypes Samples Resources AgentResources Backend.
Local Open Scope string_scope.
Local Open Scope list_scope.
Local Open Scope Z_scope.

(** ** real.go: the table of operations *)

Definition RealOperationObserveGPU : string := "observe_gpu".
Definition RealOperationObserveMIG : string := "observe_mig".
Definition RealOperationConfigureMIG : string := "configure_mig".
Definition RealOperationObserveRuntime : string := "observe_runtime".
Definition RealOperationThrottleRuntime : string := "throttle_runtime".
Definition RealOperationPauseRuntime : string := "pause_runtime".
Definition RealOperationEvictWorkload : string := "evict_workload".
Definition RealOperationObserveCRI : string := "observe_cri".
Definition RealOperationUpdatePodResource : string := "update_pod_resource".

Record RealOperationSupport := {
  ros_Operation : string;
  ros_Layer : string;
  ros_Backend : string;
  ros_ReadOnly : bool;
  ros_Supported : bool;
  ros_Notes : string
}.

(** What a missing key of the table reads as. *)
Definition zero_Support : RealOperationSupport :=
  {| ros_Operation := ""; ros_Layer := ""; ros_Backend := ""; ros_ReadOnly := false;
     ros_Supported := false; ros_Notes := "" |}.

Definition defaultRealOperationSupport : gmap string RealOperationSupport :=
  <[RealOperationObserveGPU :=
      {| ros_Operation := RealOperationObserveGPU; ros_Layer := "node-metrics";
         ros_Backend := "NVML/DCGM/NVIDIA device plugin"; ros_ReadOnly := true; ros_Supported := true;
         ros_Notes := "GPU UUID, memory, utilization, and health can be observed through NVML/DCGM "
           +:+ "or Kubernetes device plugin state." |}]>(
  <[RealOperationObserveMIG :=
      {| ros_Operation := RealOperationObserveMIG; ros_Layer := "node-metrics";
         ros_Backend := "NVML/NVIDIA device plugin"; ros_ReadOnly := true; ros_Supported := true;
         ros_Notes := "MIG device identity and capacity can be observed through NVIDIA tooling and "
           +:+ "device-plugin advertised resources." |}]>(
  <[RealOperationConfigureMIG :=
      {| ros_Operation := RealOperationConfigureMIG; ros_Layer := "gpu-management";
         ros_Backend := "NVML/nvidia-smi/GPU Operator"; ros_ReadOnly := false; ros_Supported := true;
         ros_Notes := "Dynamic MIG reconfiguration is hardware and cluster-policy dependent, so it "
           +:+ "should be guarded and usually handled outside the hot scheduling path." |}]>(
  <[RealOperationObserveRuntime :=
      {| ros_Operation := RealOperationObserveRuntime; ros_Layer := "inference-runtime";
         ros_Backend := "vLLM/SGLang/TGI/Triton metrics"; ros_ReadOnly := true; ros_Supported := true;
         ros_Notes := "Queue depth, TTFT, TPOT, KV cache usage, and token throughput are usually "
           +:+ "available through runtime metrics or Prometheus exporters." |}]>(
  <[RealOperationThrottleRuntime :=
      {| ros_Operation := RealOperationThrottleRuntime; ros_Layer := "inference-runtime";
         ros_Backend := "runtime-specific adapter"; ros_ReadOnly := false; ros_Supported := true;
         ros_Notes := "Throttle can be implemented by controlling concurrency, request admission, "
           +:+ "token budget, or gateway routing, but APIs are runtime-specific." |}]>(
  <[RealOperationPauseRuntime :=
      {| ros_Operation := RealOperationPauseRuntime; ros_Layer := "workload-control";
         ros_Backend := "job queue/runtime adapter"; ros_ReadOnly := false; ros_Supported := true;
         ros_Notes := "Pause/resume is realistic for batch, embedding, evaluation, and fine-tuning "
           +:+ "jobs, but not for most online inference requests." |}]>(
  <[RealOperationEvictWorkload :=
      {| ros_Operation := RealOperationEvictWorkload; ros_Layer := "kubernetes-control";
         ros_Backend := "Kubernetes eviction/delete APIs"; ros_ReadOnly := false; ros_Supported := true;
         ros_Notes := "Eviction is supported by Kubernetes, but should be used as a last-resort "
           +:+ "policy action." |}]>(
  <[RealOperationObserveCRI :=
      {| ros_Operation := RealOperationObserveCRI; ros_Layer := "container-runtime";
         ros_Backend := "CRI/containerd"; ros_ReadOnly := true; ros_Supported := true;
         ros_Notes := "CRI/containerd can observe container and sandbox state; fine-grained GPU "
           +:+ "sharing is usually delegated to device plugins/runtime hooks." |}]>(
  <[RealOperationUpdatePodResource :=
      {| ros_Operation := RealOperationUpdatePodResource; ros_Layer := "kubernetes-resource";
         ros_Backend := "DRA/device-plugin/runtime adapter"; ros_ReadOnly := false; ros_Supported := true;
         ros_Notes := "Post-scheduling resource updates require integration with Kubernetes DRA, "
           +:+ "device plugin semantics, or runtime-level admission rather than plain Pod "
           +:+ "spec mutation." |}]> ∅)))))))).

(** ** real.go: parsing what nvidia-smi prints *)

Record observedGPU := {
  og_Index : string;
  og_UUID : string;
  og_Product : string;
  og_MemoryTotalMiB : Z;
  og_MemoryUsedMiB : Z;
  og_UtilizationGPUPct : Z
}.

Definition parseInt32 (value : string) : Z + string :=
  match ParseInt 32 (TrimSpace value) with
  | Some v => inl v
  | None => inr (ParseInt_error 32 (TrimSpace value))
  end.

(** One line, already trimmed and not empty. *)
Definition parse_gpu_line (line : string) : observedGPU + string :=
  match TrimSpace <$> Split 44 line with
  | [index; uuid; product; p3; p4; p5] =>
      match parseInt32 p3 with
      | inr err => inr ("parse GPU memory.total from " +:+ Quote line +:+ ": " +:+ err)
      | inl total =>
          match parseInt32 p4 with
          | inr err => inr ("parse GPU memory.used from " +:+ Quote line +:+ ": " +:+ err)
          | inl used =>
              match parseInt32 p5 with
              | inr err => inr ("parse GPU utilization from " +:+ Quote line +:+ ": " +:+ err)
              | inl utilization =>
                  inl {| og_Index := index; og_UUID := uuid; og_Product := product;
                         og_MemoryTotalMiB := total; og_MemoryUsedMiB := used;
                         og_UtilizationGPUPct := utilization |}
              end
          end
      end
  | _ => inr ("unexpected nvidia-smi csv line " +:+ Quote line)
  end.

(** The loop over the lines: the first bad line ends it. *)
Fixpoint parse_gpu_lines (lines : list string) : list observedGPU + string :=
  match lines with
  | [] => inl []
  | line :: rest =>
      let line := TrimSpace line in
      if decide (line = "") then parse_gpu_lines rest
      else
        match parse_gpu_line line with
        | inr err => inr err
        | inl gpu =>
            match parse_gpu_lines rest with
            | inr err => inr err
            | inl gpus => inl (gpu :: gpus)
            end
        end
  end.

Definition parseNvidiaSMI (output : string) : list observedGPU + string :=
  match parse_gpu_lines (Split 10 (TrimSpace output)) with
  | inr err => inr err
  | inl [] => inr "nvidia-smi returned no GPU rows"
  | inl gpus => inl gpus
  end.

(** ** real.go: what is observed *)

Definition mibToGiB (value : Z) : Z :=
  if value <=? 0 then 0 else quot32 (value +₃₂ 1023) 1024.

Definition average (total count : Z) : Z :=
  if count <=? 0 then 0 else quot32 total count.

Definition observedSLORisk (gpuUtilizationPercent memoryUtilizationPercent : Z) : string :=
  if (gpuUtilizationPercent >=? 90) || (memoryUtilizationPercent >=? 90) then SLORiskHigh
  else if (gpuUtilizationPercent >=? 70) || (memoryUtilizationPercent >=? 75) then SLORiskMedium
  else SLORiskLow.

Definition observedGPUStatuses (gpus : list observedGPU) : list GPUDeviceStatus :=
  (fun g => {| gst_ID := og_Index g; gst_UUID := og_UUID g; gst_Allocated := false;
               gst_MIGEnabled := false; gst_AllocatedTo := None; gst_MIGSlices := [] |}) <$> gpus.

(** A running [int32] total over the GPUs. *)
Definition sum32 (f : observedGPU -> Z) (gpus : list observedGPU) : Z :=
  fold_left (fun acc g => acc +₃₂ f g) gpus 0.

Definition observedAllocatable (n : AINodeResourceProfile) (gpus : list observedGPU) : ResourceSummary :=
  with_runtime_capacity n (wrap32 (Z.of_nat (length gpus)))
    (sum32 (fun g => mibToGiB (og_MemoryTotalMiB g)) gpus).

Definition observedRuntimeStatus (n : AINodeResourceProfile) (gpus : list observedGPU)
    (allocations : list AIResourceAllocation) : RuntimeStatus :=
  let totalMemory := sum32 og_MemoryTotalMiB gpus in
  let usedMemory := sum32 og_MemoryUsedMiB gpus in
  let totalUtilization := sum32 og_UtilizationGPUPct gpus in
  let count := wrap32 (Z.of_nat (length gpus)) in
  let allocatable := observedAllocatable n gpus in
  let allocated := allocatedFromAllocations allocations in
  {| rst_Pressure := Some
       {| pr_GPUUtilizationPercent := average totalUtilization count;
          pr_GPUMemoryUtilizationPercent := percent usedMemory totalMemory;
          pr_KVCacheUtilizationPercent := percent (KVCacheGiB allocated) (KVCacheGiB allocatable);
          pr_PrefillUtilizationPercent :=
            percent (PrefillTokensPerSecond allocated) (PrefillTokensPerSecond allocatable);
          pr_DecodeUtilizationPercent :=
            percent (DecodeTokensPerSecond allocated) (DecodeTokensPerSecond allocatable);
          pr_QueueDepth := 0; pr_TTFTP95Ms := 0; pr_TPOTP95Ms := 0; pr_LatencyP99Ms := 0;
          pr_SLORisk := observedSLORisk (average totalUtilization count) (percent usedMemory totalMemory) |} |}.

Definition fallbackRuntimeStatus (n : AINodeResourceProfile) (allocations : list AIResourceAllocation)
    : RuntimeStatus :=
  {| rst_Pressure := Some (fakePressure (allocatableFromNode n) (allocatedFromAllocations allocations)) |}.

(** ** isolation.go *)

Definition isolationCommandApply : string := "ASTRA_ISOLATION_APPLY_COMMAND".
Definition isolationCommandThrottle : string := "ASTRA_ISOLATION_THROTTLE_COMMAND".
Definition isolationCommandPause : string := "ASTRA_ISOLATION_PAUSE_COMMAND".
Definition isolationCommandEvict : string := "ASTRA_ISOLATION_EVICT_COMMAND".

(** Also [LowLevelApplyRequest], which has the same fields. *)
Record IsolationRequest := {
  ir_Node : option AINodeResourceProfile;
  ir_Allocation : option AIResourceAllocation;
  ir_Action : string;
  ir_DesiredResources : option ResourceSummary;
  ir_Reason : string
}.

(** Also [LowLevelApplyResult]. *)
Record IsolationResult := { ires_Applied : bool; ires_Message : string }.

Definition ResourceIsolator : Type := IsolationRequest -> IsolationResult + string.

(** [commandRunner]: combined output and error of a command; the path of a
    program. *)
Record commandRunner := {
  Run : string -> list string -> string * option string;
  LookPath : string -> string + string
}.

(** The operating system: the environment, and running a command without
    arguments in an environment. *)
Record Os := {
  Getenv : string -> string;
  Environ : list string;
  exec : string -> list string -> string * option string;
  os_runner : commandRunner
}.

Definition isolationEnv (req : IsolationRequest) (allocation : AIResourceAllocation) : list string :=
  let spec := al_Spec allocation in
  let resources := match ir_DesiredResources req with
    | Some r => r
    | None => from_ptr zero_ResourceSummary (as_Resources spec)
    end in
  let nodeName := match ir_Node req with
    | None => ""
    | Some n => if decide (ns_NodeName (np_Spec n) = "") then Name (np_Meta n) else ns_NodeName (np_Spec n)
    end in
  let workloadName := ref_Name (as_WorkloadRef spec) in
  let workloadNamespace := ref_Namespace (as_WorkloadRef spec) in
  let workloadNamespace :=
    if decide (workloadNamespace = "") then Namespace (al_Meta allocation) else workloadNamespace in
  let assigned := match as_Workloads spec with
    | {| aws_AssignedGPU := Some g |} :: _ => Some g
    | _ => as_AssignedGPU spec
    end in
  let gpuID := match assigned with Some g => ag_GPUID g | None => "" end in
  let migSliceID := match assigned with Some g => ag_MIGSliceID g | None => "" end in
  ["ASTRA_NODE_NAME=" +:+ nodeName;
   "ASTRA_ALLOCATION_NAMESPACE=" +:+ Namespace (al_Meta allocation);
   "ASTRA_ALLOCATION_NAME=" +:+ Name (al_Meta allocation);
   "ASTRA_WORKLOAD_NAMESPACE=" +:+ workloadNamespace;
   "ASTRA_WORKLOAD_NAME=" +:+ workloadName;
   "ASTRA_ACTION=" +:+ ir_Action req;
   "ASTRA_REASON=" +:+ ir_Reason req;
   "ASTRA_GPU_ID=" +:+ gpuID;
   "ASTRA_MIG_SLICE_ID=" +:+ migSliceID;
   "ASTRA_GPU_COUNT=" +:+ show_Z (GPUCount resources);
   "ASTRA_GPU_MEMORY_GIB=" +:+ show_Z (GPUMemoryGiB resources);
   "ASTRA_KV_CACHE_GIB=" +:+ show_Z (KVCacheGiB resources);
   "ASTRA_PREFILL_TOKENS_PER_SECOND=" +:+ show_Z (PrefillTokensPerSecond resources);
   "ASTRA_DECODE_TOKENS_PER_SECOND=" +:+ show_Z (DecodeTokensPerSecond resources);
   "ASTRA_TOTAL_TOKENS_PER_SECOND=" +:+ show_Z (TotalTokensPerSecond resources)].

Record CommandResourceIsolator := { commands : gmap string string }.

Definition NewCommandResourceIsolator (os : Os) : CommandResourceIsolator :=
  {| commands :=
       <[AllocationActionApply := Getenv os isolationCommandApply]>
       (<[AllocationActionThrottle := Getenv os isolationCommandThrottle]>
       (<[AllocationActionPause := Getenv os isolationCommandPause]>
       (<[AllocationActionEvict := Getenv os isolationCommandEvict]> ∅))) |}.

Definition ApplyIsolation (os : Os) (i : CommandResourceIsolator) (req : IsolationRequest)
    : IsolationResult + string :=
  match ir_Allocation req with
  | None => inr "missing allocation"
  | Some allocation =>
      let action := ToLower (ir_Action req) in
      let command := default "" (commands i !! action) in
      if decide (command = "") then
        inl {| ires_Applied := false;
               ires_Message := "no isolation command configured for action " +:+ Quote (ir_Action req)
                 +:+ "; recorded desired resources only" |}
      else
        let '(output, err) := exec os command (Environ os ++ isolationEnv req allocation) in
        let message := TrimSpace output in
        match err with
        | Some err => inr ("run isolation command " +:+ command +:+ " for action " +:+ Quote (ir_Action req)
                           +:+ ": " +:+ err +:+ " output=" +:+ message)
        | None =>
            inl {| ires_Applied := true;
                   ires_Message := if decide (message = "")
                     then "isolation command " +:+ command +:+ " completed for action " +:+ Quote (ir_Action req)
                     else message |}
        end
  end.

(** ** low_level_resource.go *)

Record LowLevelObserveResult := {
  lor_GPUs : list observedGPU;
  lor_Allocatable : option ResourceSummary;
  lor_Runtime : option RuntimeStatus;
  lor_Message : string
}.

Record LowLevelResourceDriver := {
  drv_Observe : option AINodeResourceProfile -> list AIResourceAllocation -> LowLevelObserveResult + string;
  drv_Apply : IsolationRequest -> IsolationResult + string;
  drv_Capabilities : list RealOperationSupport
}.

Record CommonLowLevelResourceDriver := {
  cd_runner : commandRunner;
  cd_isolator : option ResourceIsolator;
  cd_operation : gmap string RealOperationSupport
}.

(** A nil argument selects the default. *)
Definition NewCommonLowLevelResourceDriver (os : Os) (runner : option commandRunner)
    (isolator : option ResourceIsolator) : CommonLowLevelResourceDriver :=
  {| cd_runner := default (os_runner os) runner;
     cd_isolator := Some (default (ApplyIsolation os (NewCommandResourceIsolator os)) isolator);
     cd_operation := defaultRealOperationSupport |}.

Definition queryNvidiaSMI (os : Os) (d : CommonLowLevelResourceDriver) : list observedGPU + string :=
  let path := Getenv os "NVIDIA_SMI_PATH" in
  match (if decide (path = "") then LookPath (cd_runner d) "nvidia-smi" else inl path) with
  | inr err => inr ("nvidia-smi not found: " +:+ err)
  | inl path =>
      let '(output, err) :=
        Run (cd_runner d) path
          ["--query-gpu=index,uuid,name,memory.total,memory.used,utilization.gpu";
           "--format=csv,noheader,nounits"] in
      match err with
      | Some err => inr ("run nvidia-smi query: " +:+ err +:+ " output=" +:+ TrimSpace output)
      | None => parseNvidiaSMI output
      end
  end.

Definition CommonLowLevelResourceDriver_Observe (os : Os) (d : CommonLowLevelResourceDriver)
    (node : option AINodeResourceProfile) (allocations : list AIResourceAllocation)
    : LowLevelObserveResult + string :=
  match node with
  | None => inr "missing node profile"
  | Some n =>
      match queryNvidiaSMI os d with
      | inr err => inr err
      | inl gpus =>
          inl {| lor_GPUs := gpus;
                 lor_Allocatable := Some (observedAllocatable n gpus);
                 lor_Runtime := Some (observedRuntimeStatus n gpus allocations);
                 lor_Message := "observed GPU resources through nvidia-smi" |}
      end
  end.

Definition CommonLowLevelResourceDriver_Apply (d : CommonLowLevelResourceDriver) (req : IsolationRequest)
    : IsolationResult + string :=
  match ir_Allocation req with
  | None => inr "missing allocation"
  | Some _ =>
      match cd_isolator d with
      | None => inl {| ires_Applied := false;
                       ires_Message := "no resource isolator configured; desired resources recorded only" |}
      | Some isolate => isolate req
      end
  end.

(** In some order: Go ranges over the map. *)
Definition CommonLowLevelResourceDriver_Capabilities (d : CommonLowLevelResourceDriver)
    : list RealOperationSupport :=
  (map_to_list (cd_operation d)).*2.

Definition common_driver (os : Os) (d : CommonLowLevelResourceDriver) : LowLevelResourceDriver :=
  {| drv_Observe := CommonLowLevelResourceDriver_Observe os d;
     drv_Apply := CommonLowLevelResourceDriver_Apply d;
     drv_Capabilities := CommonLowLevelResourceDriver_Capabilities d |}.

(** ** real.go: the backend *)

Record RealBackend := {
  rb_name : string;
  rb_options : Options;
  rb_operation : gmap string RealOperationSupport;
  rb_driver : option LowLevelResourceDriver
}.

Definition NewRealBackend (os : Os) (name : string) (options : Options) : RealBackend :=
  {| rb_name := if decide (name = "") then "real" else name;
     rb_options := options;
     rb_operation := defaultRealOperationSupport;
     rb_driver := Some (common_driver os (NewCommonLowLevelResourceDriver os (Some (os_runner os))
                    (Some (ApplyIsolation os (NewCommandResourceIsolator os))))) |}.

(** [req.Allocation] is the [allocation], which the caller has checked. *)
Definition recordDesiredResources (b : RealBackend) (req : ApplyRequest) (allocation : AIResourceAllocation)
    (operation : string) : ApplyResult :=
  let observed := match areq_DesiredResources req with
    | Some r => Some r
    | None => as_Resources (al_Spec allocation)
    end in
  let support := default zero_Support (rb_operation b !! operation) in
  let message := "real backend recorded action " +:+ Quote (areq_Action req)
    +:+ " tier=" +:+ Quote (areq_AllocationTier req)
    +:+ " targetPhase=" +:+ Quote (areq_TargetPhase req) +:+ " reason=" +:+ areq_Reason req in
  let message :=
    if negb (bool_decide (ros_Operation support = "")) && negb (ros_ReadOnly support)
    then message +:+ "; lower-level adapter=" +:+ ros_Layer support +:+ "/" +:+ ros_Backend support
    else message in
  {| ares_ObservedResources := observed; ares_Message := message |}.

Definition applyWithIsolation (b : RealBackend) (req : ApplyRequest) (allocation : AIResourceAllocation)
    (operation : string) : ApplyResult + string :=
  let result := recordDesiredResources b req allocation operation in
  match rb_driver b with
  | None => inl result
  | Some d =>
      match drv_Apply d {| ir_Node := areq_Node req; ir_Allocation := areq_Allocation req;
                           ir_Action := areq_Action req; ir_DesiredResources := areq_DesiredResources req;
                           ir_Reason := areq_Reason req |} with
      | inr err => inr err
      | inl isolation =>
          let message := ares_Message result in
          let message := if decide (ires_Message isolation = "") then message
                         else message +:+ "; isolation=" +:+ ires_Message isolation in
          let message := if ires_Applied isolation then message +:+ "; isolationApplied=true" else message in
          inl {| ares_ObservedResources := ares_ObservedResources result; ares_Message := message |}
      end
  end.

Definition RealBackend_Apply (b : RealBackend) (req : ApplyRequest) : ApplyResult + string :=
  match areq_Allocation req with
  | None => inr "missing allocation"
  | Some allocation =>
      let action := ToLower (areq_Action req) in
      if decide (action = AllocationActionApply) then
        applyWithIsolation b req allocation RealOperationUpdatePodResource
      else if decide (action = AllocationActionThrottle) then
        applyWithIsolation b req allocation RealOperationThrottleRuntime
      else if decide (action = AllocationActionPause) then
        applyWithIsolation b req allocation RealOperationPauseRuntime
      else if decide (action = AllocationActionEvict) then
        applyWithIsolation b req allocation RealOperationEvictWorkload
      else inr ("real backend does not recognize action " +:+ Quote (areq_Action req))
  end.

Definition RealBackend_Snapshot (b : RealBackend) (now : Time) (node : option AINodeResourceProfile)
    (allocations : list AIResourceAllocation) : AINodeResourceProfileStatus + string :=
  match node with
  | None => inr "missing node profile"
  | Some n =>
      let s := np_Status n in
      let observed := match rb_driver b with
        | None => inr "no low-level resource driver configured"
        | Some d => drv_Observe d node allocations
        end in
      let '(phase, gpus, allocatable, runtime) :=
        match observed with
        | inl o =>
            if (0 <? length (lor_GPUs o))%nat
            then ("Ready", observedGPUStatuses (lor_GPUs o), lor_Allocatable o, lor_Runtime o)
            else ("Degraded", nst_GPUs s, Some (allocatableFromNode n), Some (fallbackRuntimeStatus n allocations))
        | inr _ => ("Degraded", nst_GPUs s, Some (allocatableFromNode n), Some (fallbackRuntimeStatus n allocations))
        end in
      let allocated := allocatedFromAllocations allocations in
      let pressure := match runtime with
        | Some {| rst_Pressure := Some p |} => p
        | _ => {| pr_GPUUtilizationPercent := 0; pr_GPUMemoryUtilizationPercent := 0;
                  pr_KVCacheUtilizationPercent := 0; pr_PrefillUtilizationPercent := 0;
                  pr_DecodeUtilizationPercent := 0; pr_QueueDepth := 0; pr_TTFTP95Ms := 0;
                  pr_TPOTP95Ms := 0; pr_LatencyP99Ms := 0; pr_SLORisk := "unknown" |}
        end in
      let pressure := match observed with
        | inl _ => pressure
        | inr _ => {| pr_GPUUtilizationPercent := pr_GPUUtilizationPercent pressure;
                      pr_GPUMemoryUtilizationPercent := pr_GPUMemoryUtilizationPercent pressure;
                      pr_KVCacheUtilizationPercent := pr_KVCacheUtilizationPercent pressure;
                      pr_PrefillUtilizationPercent := pr_PrefillUtilizationPercent pressure;
                      pr_DecodeUtilizationPercent := pr_DecodeUtilizationPercent pressure;
                      pr_QueueDepth := pr_QueueDepth pressure; pr_TTFTP95Ms := pr_TTFTP95Ms pressure;
                      pr_TPOTP95Ms := pr_TPOTP95Ms pressure; pr_LatencyP99Ms := pr_LatencyP99Ms pressure;
                      pr_SLORisk := "unknown" |}
        end in
      inl {| nst_Phase := phase; nst_ObservedAt := Some now; nst_GPUs := gpus;
             nst_Allocatable := allocatable;
             nst_Allocated := Some allocated;
             nst_Available := Some (subtractResources allocatable (Some allocated));
             nst_HourlyForecast := Some (hourlyForecastFromAllocations allocations);
             nst_Runtime := Some {| rst_Pressure := Some pressure |};
             nst_Allocations := nodeAllocationStatuses allocations;
             nst_Conditions := nst_Conditions s |}
  end.

(** In some order, from the driver or from the backend's own table. *)
Definition OperationSupport (b : RealBackend) : list RealOperationSupport :=
  match rb_driver b with
  | Some d => drv_Capabilities d
  | None => (map_to_list (rb_operation b)).*2
  end.

Definition notImplemented (b : RealBackend) (operation message : string) : string :=
  match rb_operation b !! operation with
  | None => rb_name b +:+ " backend operation " +:+ Quote operation +:+ " is not mapped: " +:+ message
  | Some support =>
      rb_name b +:+ " backend operation " +:+ Quote operation +:+ " is mapped to " +:+ ros_Layer support
      +:+ "/" +:+ ros_Backend support +:+ " but not implemented yet: " +:+ message
      +:+ "; notes=" +:+ ros_Notes support
  end.

(** ** backend.go: the choice *)

Definition real_backend (b : RealBackend) : Backend :=
  {| be_Apply := RealBackend_Apply b;
     be_Snapshot now node allocations := (RealBackend_Snapshot b now node allocations, node) |}.

Definition NewWithOptions (yaml_Unmarshal : string -> FakeNodeResourceConfig + string) (os : Os)
    (name : string) (options : Options) : Backend + string :=
  if bool_decide (name = "") || bool_decide (name = "fake") then inl (NewFakeBackend yaml_Unmarshal options)
  else if bool_decide (name = "real") || bool_decide (name = "nvidia")
          || bool_decide (name = "runtime") || bool_decide (name = "cri")
  then inl (real_backend (NewRealBackend os name options))
  else inr ("unsupported agent backend " +:+ Quote name).

(** ** What nvidia-smi prints

    One line per GPU, the queried fields separated by a comma and a space. *)

Definition gpu_line (g : observedGPU) : string :=
  og_Index g +:+ ", " +:+ og_UUID g +:+ ", " +:+ og_Product g +:+ ", " +:+ show_Z (og_MemoryTotalMiB g)
  +:+ ", " +:+ show_Z (og_MemoryUsedMiB g) +:+ ", " +:+ show_Z (og_UtilizationGPUPct g).

Definition newline : string := of_bytes [10].

Fixpoint smi_output (gpus : list observedGPU) : string :=
  match gpus with
  | [] => ""
  | g :: rest => gpu_line g +:+ newline +:+ smi_output rest
  end.

(** A text field has no separator and no space at its ends. *)
Definition plain (s : string) : Prop := (44 ∉ bytes s) /\ (10 ∉ bytes s) /\ TrimSpace s = s.

Definition gpu_ok (g : observedGPU) : Prop :=
  plain (og_Index g) /\ plain (og_UUID g) /\ plain (og_Product g) /\ og_Index g <> "" /\
  in_int32 (og_MemoryTotalMiB g) /\ in_int32 (og_MemoryUsedMiB g) /\ in_int32 (og_UtilizationGPUPct g).

(** *** Lemmas: the fields of a line *)

Lemma show_Z_plain z : plain (show_Z z) /\ show_Z z <> "".
Proof.
  assert (D : exists pre ds, bytes (show_Z z) = pre ++ ds /\ (pre = [] \/ pre = [45]) /\
                Forall (fun b => is_digit b = true) ds /\ ds <> []).
  { destruct (decide (0 <= z)) as [H|H].
    - destruct (show_nonneg_digits z H) as (ds & E & Hd & _ & Hn). exists [], ds. auto.
    - destruct (show_nonneg_digits (- z) ltac:(lia)) as (ds & E & Hd & _ & Hn).
      exists [45], ds. rewrite show_neg, bytes_app, E by lia. auto. }
  destruct D as (pre & ds & E & Hp & Hd & Hn).
  assert (A : Forall (fun b => b = 45 \/ is_digit b = true) (pre ++ ds)).
  { apply Forall_app. split; [destruct Hp as [->| ->]; repeat constructor; auto|].
    eapply Forall_impl; [exact Hd|]. auto. }
  assert (N : forall c, c <> 45 -> is_digit c = false -> c ∉ bytes (show_Z z)).
  { intros c Hc Hc' Hin. rewrite E in Hin. rewrite Forall_forall in A.
    destruct (A c Hin); congruence. }
  assert (S : forall b, b ∈ bytes (show_Z z) -> is_space b = false).
  { intros b Hb. rewrite E in Hb. rewrite Forall_forall in A. destruct (A b Hb) as [->|Hb']; [done|].
    unfold is_digit, between in Hb'. unfold is_space, between. zbool.
    apply orb_false_iff. rewrite andb_false_iff, Z.eqb_neq, !Z.leb_gt. lia. }
  unfold plain. split_and!.
  - by apply N.
  - by apply N.
  - unfold TrimSpace. rewrite trim_bytes_id; [apply of_bytes_bytes| |]; intros b t Eb; apply S; rewrite Eb.
    + apply elem_of_cons; auto.
    + apply elem_of_app. right. by apply list_elem_of_singleton.
  - intros H0. apply (f_equal bytes) in H0. rewrite E in H0. change (bytes "") with (@nil Z) in H0.
    apply app_eq_nil in H0 as [_ ?]. done.
Qed.

Lemma Split_field a rest :
  44 ∉ bytes a -> Split 44 (" " +:+ a +:+ ", " +:+ rest) = (" " +:+ a) :: Split 44 (" " +:+ rest).
Proof.
  intros H. unfold Split. rewrite !bytes_app. change (bytes ", ") with [44; 32]. change (bytes " ") with [32].
  cbn [app]. change (32 :: bytes a ++ 44 :: 32 :: bytes rest) with ((32 :: bytes a) ++ 44 :: 32 :: bytes rest).
  rewrite split_bytes_app by (rewrite not_elem_of_cons; split; [done|exact H]).
  cbn [fmap list_fmap]. f_equal. change (32 :: bytes a) with (bytes " " ++ bytes a).
  by rewrite <- bytes_app, of_bytes_bytes.
Qed.

Lemma Split_first a rest :
  44 ∉ bytes a -> Split 44 (a +:+ ", " +:+ rest) = a :: Split 44 (" " +:+ rest).
Proof.
  intros H. unfold Split. rewrite !bytes_app. change (bytes ", ") with [44; 32]. change (bytes " ") with [32].
  cbn [app]. rewrite split_bytes_app by done. cbn [fmap list_fmap]. by rewrite of_bytes_bytes.
Qed.

Lemma Split_last a : 44 ∉ bytes a -> Split 44 (" " +:+ a) = [" " +:+ a].
Proof.
  intros H. unfold Split. rewrite split_bytes_none.
  - cbn. by rewrite of_bytes_bytes.
  - rewrite bytes_app. change (bytes " ") with [32]. cbn [app].
    rewrite not_elem_of_cons. split; [done|exact H].
Qed.

Lemma parseInt32_show z : in_int32 z -> parseInt32 (show_Z z) = inl z.
Proof.
  intros H. unfold parseInt32. destruct (show_Z_plain z) as [(_ & _ & ->) _].
  by rewrite ParseInt_show_Z.
Qed.

Lemma parse_printed_line g : gpu_ok g -> parse_gpu_line (gpu_line g) = inl g.
Proof.
  intros ((Hi & _ & Ti) & (Hu & _ & Tu) & (Hp & _ & Tp) & _ & Ht & Hm & Hg).
  destruct (show_Z_plain (og_MemoryTotalMiB g)) as [(C1 & _ & T1) _].
  destruct (show_Z_plain (og_MemoryUsedMiB g)) as [(C2 & _ & T2) _].
  destruct (show_Z_plain (og_UtilizationGPUPct g)) as [(C3 & _ & T3) _].
  unfold parse_gpu_line, gpu_line.
  rewrite Split_first, !Split_field, Split_last by done. cbn [fmap list_fmap].
  rewrite !TrimSpace_space, Ti, Tu, Tp, T1, T2, T3, !parseInt32_show by done. by destruct g.
Qed.

(** *** Lemmas: the lines *)

Lemma gpu_line_solid g : gpu_ok g -> solid (bytes (gpu_line g)).
Proof.
  intros ((_ & _ & Ti) & _ & _ & Hi & _).
  destruct (show_Z_plain (og_UtilizationGPUPct g)) as [(_ & _ & Tg) Hg].
  unfold gpu_line. rewrite bytes_app.
  assert (E : exists m, bytes (", " +:+ og_UUID g +:+ ", " +:+ og_Product g +:+ ", "
    +:+ show_Z (og_MemoryTotalMiB g) +:+ ", " +:+ show_Z (og_MemoryUsedMiB g)
    +:+ ", " +:+ show_Z (og_UtilizationGPUPct g)) = m ++ bytes (show_Z (og_UtilizationGPUPct g))).
  { rewrite !bytes_app. eexists. rewrite !app_assoc. done. }
  destruct E as [m ->]. apply solid_app; by apply trimmed_solid.
Qed.

Lemma gpu_line_one_line g : gpu_ok g -> 10 ∉ bytes (gpu_line g).
Proof.
  intros ((_ & Hi & _) & (_ & Hu & _) & (_ & Hp & _) & _).
  destruct (show_Z_plain (og_MemoryTotalMiB g)) as [(_ & C1 & _) _].
  destruct (show_Z_plain (og_MemoryUsedMiB g)) as [(_ & C2 & _) _].
  destruct (show_Z_plain (og_UtilizationGPUPct g)) as [(_ & C3 & _) _].
  assert (C : 10 ∉ bytes ", ") by compute_decide.
  unfold gpu_line. rewrite !bytes_app, !not_elem_of_app. auto 20.
Qed.

(** The output without its last newline splits into the lines. *)
Lemma smi_output_body gpus :
  gpus <> [] -> Forall gpu_ok gpus ->
  exists body, bytes (smi_output gpus) = body ++ [10] /\ solid body /\
    of_bytes <$> split_bytes 10 body = gpu_line <$> gpus.
Proof.
  intros Hne H. induction H as [|g gpus Hg Hok IH]; [done|].
  cbn [smi_output]. rewrite !bytes_app. change (bytes newline) with [10].
  pose proof (gpu_line_solid g Hg) as Hs. pose proof (gpu_line_one_line g Hg) as Ho.
  destruct gpus as [|g' gpus].
  - exists (bytes (gpu_line g)). rewrite app_nil_r, split_bytes_none by done. cbn. by rewrite of_bytes_bytes.
  - destruct IH as (body & Eb & Sb & Lb); [done|].
    exists (bytes (gpu_line g) ++ [10] ++ body). rewrite Eb. split_and!.
    + by rewrite <- !app_assoc.
    + by apply solid_app.
    + cbn [app]. rewrite split_bytes_app by done. cbn [fmap list_fmap]. rewrite of_bytes_bytes. f_equal. exact Lb.
Qed.

Lemma parse_printed_lines gpus :
  Forall gpu_ok gpus -> parse_gpu_lines (gpu_line <$> gpus) = inl gpus.
Proof.
  induction 1 as [|g gpus Hg _ IH]; [done|]. cbn [fmap list_fmap parse_gpu_lines].
  pose proof (gpu_line_solid g Hg) as Hs.
  assert (E : TrimSpace (gpu_line g) = gpu_line g).
  { apply bytes_inj. rewrite bytes_TrimSpace. by apply solid_trim. }
  rewrite E, decide_False.
  - rewrite parse_printed_line by done. rewrite IH. done.
  - intros H0. rewrite H0 in Hs. by destruct Hs as [(? & ? & [=] & _) _].
Qed.

(** C29: what nvidia-smi reports is what the agent sees: parsing the printed
    table of a node's GPUs, at least one and with plain text fields, gives the
    same GPUs, all of them and in order. *)
Theorem parseNvidiaSMI_reads_output gpus :
  gpus <> [] -> Forall gpu_ok gpus -> parseNvidiaSMI (smi_output gpus) = inl gpus.
Proof.
  intros Hne H. destruct (smi_output_body gpus Hne H) as (body & Eb & Sb & Lb).
  unfold parseNvidiaSMI, Split. rewrite bytes_TrimSpace, Eb, trim_bytes_snoc, solid_trim, Lb by done.
  rewrite parse_printed_lines by done. by destruct gpus.
Qed.

Definition sample_gpus : list observedGPU :=
  [{| og_Index := "0"; og_UUID := "GPU-4a7b"; og_Product := "NVIDIA A100-SXM4-80GB";
      og_MemoryTotalMiB := 81920; og_MemoryUsedMiB := 40960; og_UtilizationGPUPct := 75 |};
   {| og_Index := "1"; og_UUID := "GPU-91c2"; og_Product := "NVIDIA A100-SXM4-80GB";
      og_MemoryTotalMiB := 81920; og_MemoryUsedMiB := 0; og_UtilizationGPUPct := 0 |}].

Lemma sample_gpus_ok : Forall gpu_ok sample_gpus.
Proof. repeat (apply Forall_cons; split); [| |done]; unfold gpu_ok, plain; split_and!; compute_decide. Qed.

Lemma parseNvidiaSMI_reads_output_witness : parseNvidiaSMI (smi_output sample_gpus) = inl sample_gpus.
Proof. apply parseNvidiaSMI_reads_output; [done|apply sample_gpus_ok]. Defined.

(** ** Snapshots *)

(** The table of GPUs the driver of a new real backend reads. *)
Definition query (os : Os) : list observedGPU + string :=
  queryNvidiaSMI os (NewCommonLowLevelResourceDriver os (Some (os_runner os))
    (Some (ApplyIsolation os (NewCommandResourceIsolator os)))).

Lemma parseNvidiaSMI_nonempty out gpus : parseNvidiaSMI out = inl gpus -> gpus <> [].
Proof. unfold parseNvidiaSMI. destruct (parse_gpu_lines _) as [[|]|]; intros; by simplify_eq. Qed.

Lemma query_nonempty os gpus : query os = inl gpus -> gpus <> [].
Proof.
  unfold query, queryNvidiaSMI. destruct (if decide _ then _ else _) as [path|err]; [|done].
  destruct (Run _ _ _) as [out [err|]]; [done|]. apply parseNvidiaSMI_nonempty.
Qed.

Definition with_risk (risk : string) (p : RuntimePressure) : RuntimePressure :=
  {| pr_GPUUtilizationPercent := pr_GPUUtilizationPercent p;
     pr_GPUMemoryUtilizationPercent := pr_GPUMemoryUtilizationPercent p;
     pr_KVCacheUtilizationPercent := pr_KVCacheUtilizationPercent p;
     pr_PrefillUtilizationPercent := pr_PrefillUtilizationPercent p;
     pr_DecodeUtilizationPercent := pr_DecodeUtilizationPercent p;
     pr_QueueDepth := pr_QueueDepth p; pr_TTFTP95Ms := pr_TTFTP95Ms p; pr_TPOTP95Ms := pr_TPOTP95Ms p;
     pr_LatencyP99Ms := pr_LatencyP99Ms p; pr_SLORisk := risk |}.

(** the real backend never fails to take a snapshot of a node: when
    nvidia-smi can be read the node is Ready with what it reports, and
    otherwise Degraded, with the declared capacity, the GPUs last seen and an
    unknown risk. *)
Theorem RealBackend_Snapshot_degrades os name o now n allocations :
  exists s, RealBackend_Snapshot (NewRealBackend os name o) now (Some n) allocations = inl s /\
    nst_ObservedAt s = Some now /\
    match query os with
    | inl gpus =>
        nst_Phase s = "Ready" /\ nst_GPUs s = observedGPUStatuses gpus /\
        nst_Allocatable s = Some (observedAllocatable n gpus) /\
        nst_Runtime s = Some (observedRuntimeStatus n gpus allocations)
    | inr _ =>
        nst_Phase s = "Degraded" /\ nst_GPUs s = nst_GPUs (np_Status n) /\
        nst_Allocatable s = Some (allocatableFromNode n) /\
        nst_Runtime s = Some {| rst_Pressure := Some (with_risk "unknown"
          (fakePressure (allocatableFromNode n) (allocatedFromAllocations allocations))) |}
    end.
Proof.
  cbn [RealBackend_Snapshot rb_driver NewRealBackend drv_Observe common_driver CommonLowLevelResourceDriver_Observe].
  fold (query os). destruct (query os) as [gpus|err] eqn:Q.
  - apply query_nonempty in Q. destruct gpus as [|g gpus]; [done|]. by eexists.
  - by eexists.
Qed.

Lemma RealBackend_balanced os name o now n allocations s :
  Forall rs_nonneg (held allocations) -> rs_wf (rs_sum (held allocations)) ->
  RealBackend_Snapshot (NewRealBackend os name o) now (Some n) allocations = inl s -> balanced allocations s.
Proof.
  intros Hn Hw.
  cbn [RealBackend_Snapshot rb_driver NewRealBackend drv_Observe common_driver CommonLowLevelResourceDriver_Observe].
  fold (query os). destruct (query os) as [gpus|err] eqn:Q.
  - apply query_nonempty in Q. destruct gpus as [|g gpus]; [done|]. cbn [lor_GPUs length Nat.ltb].
    intros [= <-]. by eapply balanced_intro.
  - intros [= <-]. by eapply balanced_intro.
Qed.

Lemma snapshot_books yaml os name o be now n allocations s n' :
  NewWithOptions yaml os name o = inl be ->
  Forall rs_nonneg (held allocations) -> rs_wf (rs_sum (held allocations)) ->
  be_Snapshot be now (Some n) allocations = (inl s, n') -> balanced allocations s.
Proof.
  unfold NewWithOptions. intros Hbe Hn Hw Hs.
  destruct (_ || _); [simplify_eq; by eapply FakeBackend_balanced|].
  destruct (_ || _); simplify_eq. cbn [be_Snapshot real_backend] in Hs. simplify_eq.
  by eapply RealBackend_balanced.
Qed.

(** C28: whichever backend the agent is started with, the books of the status
    it publishes balance: allocated is the sum of what the allocations hold,
    available is the rest of allocatable, and every hour of the forecast is
    the sum of the allocations' demands for it (for non-negative held amounts
    whose sums fit 32 bits). *)
Theorem Snapshot_balanced yaml os name o be now n allocations s n' :
  NewWithOptions yaml os name o = inl be ->
  Forall rs_nonneg (held allocations) -> rs_wf (rs_sum (held allocations)) ->
  be_Snapshot be now (Some n) allocations = (inl s, n') -> balanced allocations s.
Proof. apply snapshot_books. Qed.

(** A system without nvidia-smi and without isolation commands. *)
Definition bare_os : Os :=
  {| Getenv _ := ""; Environ := []; exec _ _ := ("", Some "exec: no command");
     os_runner := {| Run _ _ := ("", Some "exit status 1"); LookPath _ := inr "executable file not found" |} |}.

Definition no_options : Options :=
  {| opt_Client := None; opt_NodeName := ""; opt_ConfigMapNamespace := ""; opt_ConfigMapName := "" |}.

Lemma Snapshot_balanced_witness :
  let allocations := [holding (res 3) (allocation "chat" "high" [daytime] 2 3 4);
                      holding (res 1) (allocation "batch" "low" [] 1 1 1)] in
  exists be s n', NewWithOptions (fun _ => inr "") bare_os "nvidia" no_options = inl be /\
    be_Snapshot be 7 (Some (node_with 8 6 [])) allocations = (inl s, n') /\
    balanced allocations s.
Proof.
  intros allocations. do 3 eexists. split; [reflexivity|]. split; [reflexivity|].
  eapply (Snapshot_balanced (fun _ => inr "") bare_os "nvidia" no_options _ 7 (node_with 8 6 []));
    [reflexivity| | |reflexivity].
  - apply Forall_forall. intros r Hr. vm_compute in Hr. 
    repeat (apply elem_of_cons in Hr as [->|Hr]; [compute_decide|]). by apply not_elem_of_nil in Hr.
  - compute_decide.
Defined.

(** ** Applying a plan *)

(** The variable that names the isolation command of an action. *)
Definition command_variable (action : string) : option string :=
  let a := ToLower action in
  if decide (a = "apply") then Some "ASTRA_ISOLATION_APPLY_COMMAND"
  else if decide (a = "throttle") then Some "ASTRA_ISOLATION_THROTTLE_COMMAND"
  else if decide (a = "pause") then Some "ASTRA_ISOLATION_PAUSE_COMMAND"
  else if decide (a = "evict") then Some "ASTRA_ISOLATION_EVICT_COMMAND"
  else None.

Definition isolation_request (req : ApplyRequest) : IsolationRequest :=
  {| ir_Node := areq_Node req; ir_Allocation := areq_Allocation req; ir_Action := areq_Action req;
     ir_DesiredResources := areq_DesiredResources req; ir_Reason := areq_Reason req |}.

Lemma command_lookup os action v :
  command_variable action = Some v ->
  default "" (commands (NewCommandResourceIsolator os) !! ToLower action) = Getenv os v.
Proof.
  unfold command_variable, NewCommandResourceIsolator. cbn [commands].
  generalize (ToLower action) as a. intros a.
  repeat (case_decide; [intros [= <-]; subst a; reflexivity|]). done.
Qed.

Lemma RealBackend_Apply_command os name o req a :
  areq_Allocation req = Some a ->
  RealBackend_Apply (NewRealBackend os name o) req =
  match command_variable (areq_Action req) with
  | None => inr ("real backend does not recognize action " +:+ Quote (areq_Action req))
  | Some _ =>
      applyWithIsolation (NewRealBackend os name o) req a
        (let action := ToLower (areq_Action req) in
         if decide (action = AllocationActionApply) then RealOperationUpdatePodResource
         else if decide (action = AllocationActionThrottle) then RealOperationThrottleRuntime
         else if decide (action = AllocationActionPause) then RealOperationPauseRuntime
         else RealOperationEvictWorkload)
  end.
Proof.
  intros Ha. unfold RealBackend_Apply, command_variable. rewrite Ha.
  unfold AllocationActionApply, AllocationActionThrottle, AllocationActionPause, AllocationActionEvict.
  repeat case_decide; done.
Qed.

Lemma applyWithIsolation_cases os name o req a op :
  areq_Allocation req = Some a ->
  match ApplyIsolation os (NewCommandResourceIsolator os) (isolation_request req) with
  | inr err => applyWithIsolation (NewRealBackend os name o) req a op = inr err
  | inl _ => exists m, applyWithIsolation (NewRealBackend os name o) req a op =
      inl {| ares_ObservedResources :=
               match areq_DesiredResources req with Some d => Some d | None => as_Resources (al_Spec a) end;
             ares_Message := m |}
  end.
Proof.
  intros Ha. unfold applyWithIsolation. cbn [rb_driver NewRealBackend drv_Apply common_driver].
  fold (isolation_request req). unfold CommonLowLevelResourceDriver_Apply.
  change (ir_Allocation (isolation_request req)) with (areq_Allocation req). rewrite Ha.
  cbn [cd_isolator NewCommonLowLevelResourceDriver default from_option id].
  destruct (ApplyIsolation _ _ _); [eexists; reflexivity|done].
Qed.

(** What the command is told of a plan, variable by variable. *)
Definition or_else (x y : string) : string := if decide (x = "") then y else x.

Definition plan_variables (req : ApplyRequest) (a : AIResourceAllocation) : list (string * string) :=
  let budget := match areq_DesiredResources req with
    | Some r => r
    | None => default zero_ResourceSummary (as_Resources (al_Spec a))
    end in
  let gpu := match as_Workloads (al_Spec a) with
    | w :: _ => match aws_AssignedGPU w with Some g => Some g | None => as_AssignedGPU (al_Spec a) end
    | [] => as_AssignedGPU (al_Spec a)
    end in
  [("ASTRA_NODE_NAME",
     match areq_Node req with Some n => or_else (ns_NodeName (np_Spec n)) (Name (np_Meta n)) | None => "" end);
   ("ASTRA_ALLOCATION_NAMESPACE", Namespace (al_Meta a));
   ("ASTRA_ALLOCATION_NAME", Name (al_Meta a));
   ("ASTRA_WORKLOAD_NAMESPACE", or_else (ref_Namespace (as_WorkloadRef (al_Spec a))) (Namespace (al_Meta a)));
   ("ASTRA_WORKLOAD_NAME", ref_Name (as_WorkloadRef (al_Spec a)));
   ("ASTRA_ACTION", areq_Action req);
   ("ASTRA_REASON", areq_Reason req);
   ("ASTRA_GPU_ID", match gpu with Some g => ag_GPUID g | None => "" end);
   ("ASTRA_MIG_SLICE_ID", match gpu with Some g => ag_MIGSliceID g | None => "" end);
   ("ASTRA_GPU_COUNT", show_Z (GPUCount budget));
   ("ASTRA_GPU_MEMORY_GIB", show_Z (GPUMemoryGiB budget));
   ("ASTRA_KV_CACHE_GIB", show_Z (KVCacheGiB budget));
   ("ASTRA_PREFILL_TOKENS_PER_SECOND", show_Z (PrefillTokensPerSecond budget));
   ("ASTRA_DECODE_TOKENS_PER_SECOND", show_Z (DecodeTokensPerSecond budget));
   ("ASTRA_TOTAL_TOKENS_PER_SECOND", show_Z (TotalTokensPerSecond budget))].

Definition plan_environment (req : ApplyRequest) (a : AIResourceAllocation) : list string :=
  (fun '(name, value) => name +:+ "=" +:+ value) <$> plan_variables req a.

Lemma isolationEnv_plan req a : isolationEnv (isolation_request req) a = plan_environment req a.
Proof.
  unfold isolationEnv, plan_environment, plan_variables, isolation_request, or_else.
  cbn [ir_Node ir_Action ir_DesiredResources ir_Reason].
  destruct (areq_Node req), (areq_DesiredResources req), (as_Resources (al_Spec a)),
    (as_Workloads (al_Spec a)) as [|w ws]; try reflexivity; by destruct w as [? ? ? ? ? ? ? ? ? [g|]].
Qed.

Lemma ApplyIsolation_outcome os req a v :
  areq_Allocation req = Some a -> command_variable (areq_Action req) = Some v ->
  (exists r, ApplyIsolation os (NewCommandResourceIsolator os) (isolation_request req) = inl r) <->
  Getenv os v = "" \/ (exec os (Getenv os v) (Environ os ++ plan_environment req a)).2 = None.
Proof.
  intros Ha Hv. rewrite <- isolationEnv_plan. unfold ApplyIsolation.
  change (ir_Allocation (isolation_request req)) with (areq_Allocation req). rewrite Ha.
  change (ir_Action (isolation_request req)) with (areq_Action req). rewrite (command_lookup os _ v Hv).
  case_decide as Hd; [split; [auto|by eexists]|].
  destruct (exec _ _ _) as [out [err|]]; cbn; split; intros H; try destruct H; eauto; done.
Qed.

(** C32: the real backend applies a plan exactly when the action, in any
    letter case, is one of the four it knows and the isolation command the
    operator configured for it, if any, succeeds in the environment of the
    agent extended with the fifteen variables of [plan_variables], which name
    the node, the allocation, the workload, the action and the reason, the
    assigned GPU and the six amounts of the desired (else granted) budget; what
    it then reports as observed is the desired budget, or the granted one if
    there is none.  Without a configured command a known action therefore
    succeeds and changes nothing on the node. *)
Theorem RealBackend_Apply_succeeds_iff os name o req a :
  areq_Allocation req = Some a ->
  let outcome := RealBackend_Apply (NewRealBackend os name o) req in
  ((exists r, outcome = inl r) <->
   exists v, command_variable (areq_Action req) = Some v /\
     (Getenv os v = "" \/ (exec os (Getenv os v) (Environ os ++ plan_environment req a)).2 = None)) /\
  forall r, outcome = inl r ->
    ares_ObservedResources r =
    match areq_DesiredResources req with Some d => Some d | None => as_Resources (al_Spec a) end.
Proof.
  intros Ha outcome. unfold outcome. rewrite (RealBackend_Apply_command _ _ _ _ a) by done.
  destruct (command_variable (areq_Action req)) as [v|] eqn:Hv.
  - pose proof (ApplyIsolation_outcome os req a v Ha Hv) as I.
    match goal with |- context [applyWithIsolation _ _ _ ?op] =>
      pose proof (applyWithIsolation_cases os name o req a op Ha) as C end.
    destruct (ApplyIsolation _ _ _) as [i|err].
    + destruct C as [m ->]. split; [|by intros r [= <-]].
      split; [intros _|by eexists]. exists v. split; [done|]. apply I. by eexists.
    + rewrite C. split; [|done]. split; [by intros [? ?]|]. intros (v' & [= <-] & H).
      apply I in H as [? ?]. done.
  - split; [|done]. split; [by intros [? ?]|]. by intros (? & ? & _).
Qed.

Definition sample_request (action : string) : ApplyRequest :=
  {| areq_Node := Some (node_with 8 6 []); areq_Allocation := Some (allocation "chat" "high" [daytime] 2 3 4);
     areq_Action := action; areq_DesiredResources := Some (res 3); areq_AllocationTier := "preferred";
     areq_TargetPhase := "PendingApply"; areq_Reason := "fits" |}.

Lemma RealBackend_Apply_succeeds_iff_witness :
  exists r, RealBackend_Apply (NewRealBackend bare_os "nvidia" no_options) (sample_request "Throttle") = inl r.
Proof.
  apply (RealBackend_Apply_succeeds_iff bare_os "nvidia" no_options (sample_request "Throttle")
           (allocation "chat" "high" [daytime] 2 3 4) eq_refl).
  exists isolationCommandThrottle. split; [vm_compute; reflexivity|left; reflexivity].
Defined.

(** ** What is observed on the GPUs *)

Definition total_of (f : observedGPU -> Z) (gpus : list observedGPU) : Z :=
  foldr (fun g acc => f g + acc) 0 gpus.

Lemma total_of_nonneg f gpus : Forall (fun g => 0 <= f g) gpus -> 0 <= total_of f gpus.
Proof. unfold total_of. induction 1; cbn; lia. Qed.

Lemma sum32_exact f gpus :
  Forall (fun g => 0 <= f g) gpus -> total_of f gpus < 2 ^ 31 -> sum32 f gpus = total_of f gpus.
Proof.
  intros Hf Hs. unfold sum32.
  enough (E : forall acc, 0 <= acc -> acc + total_of f gpus < 2 ^ 31 ->
    fold_left (fun acc g => acc +₃₂ f g) gpus acc = acc + total_of f gpus) by (apply E; lia).
  clear Hs. induction Hf as [|g gpus Hg Hf IH]; intros acc Ha Hs; cbn in *; [lia|].
  pose proof (total_of_nonneg f gpus Hf). unfold total_of in *. rewrite add32_exact by i32. rewrite IH; lia.
Qed.

Lemma total_of_le f g gpus : Forall (fun x => f x <= g x) gpus -> total_of f gpus <= total_of g gpus.
Proof. unfold total_of. induction 1; cbn; lia. Qed.

Lemma total_of_const c gpus : total_of (fun _ => c) gpus = c * Z.of_nat (length gpus).
Proof. unfold total_of. induction gpus; cbn -[Z.of_nat]; lia. Qed.

Lemma average_range total count : 0 <= total <= 100 * count -> count < 2 ^ 24 -> 0 <= average total count <= 100.
Proof.
  intros Ht Hc. unfold average. if_split; [lia|]. unfold quot32.
  rewrite Z.quot_div_nonneg by lia.
  assert (0 <= total / count <= 100).
  { split; [apply Z.div_pos; lia|]. apply Z.div_le_upper_bound; lia. }
  rewrite wrap32_id by i32. lia.
Qed.

(** The least number of GiB that holds [m] MiB. *)
Definition gib_ceil (m : Z) : Z := (m + 1023) / 1024.

Lemma mibToGiB_ceil m : 0 <= m <= 2 ^ 31 - 1024 -> mibToGiB m = gib_ceil m.
Proof.
  intros Hm. unfold mibToGiB, gib_ceil. if_split.
  - assert (m = 0) as -> by lia. reflexivity.
  - rewrite add32_exact by i32. unfold quot32. rewrite Z.quot_div_nonneg by lia.
    pose proof (Z.div_mod (m + 1023) 1024 ltac:(lia)). pose proof (Z.mod_pos_bound (m + 1023) 1024 ltac:(lia)).
    apply wrap32_id. i32.
Qed.

Lemma gib_ceil_bounds m : 0 <= m -> 0 <= gib_ceil m <= m.
Proof.
  intros Hm. unfold gib_ceil. pose proof (Z.div_mod (m + 1023) 1024 ltac:(lia)).
  pose proof (Z.mod_pos_bound (m + 1023) 1024 ltac:(lia)). lia.
Qed.

(** A sane reading of one GPU. *)
Definition reading_ok (g : observedGPU) : Prop :=
  0 <= og_MemoryUsedMiB g <= og_MemoryTotalMiB g /\ 0 <= og_UtilizationGPUPct g <= 100.

Lemma observed_memory_pressure gpus :
  Forall reading_ok gpus -> total_of og_MemoryTotalMiB gpus <= percent_limit ->
  Z.of_nat (length gpus) < 2 ^ 24 ->
  0 <= average (sum32 og_UtilizationGPUPct gpus) (wrap32 (Z.of_nat (length gpus))) <= 100 /\
  0 <= percent (sum32 og_MemoryUsedMiB gpus) (sum32 og_MemoryTotalMiB gpus) <= 100.
Proof.
  intros Hr Hm Hl. unfold percent_limit in *.
  assert (HU : total_of og_MemoryUsedMiB gpus <= total_of og_MemoryTotalMiB gpus).
  { apply total_of_le. eapply Forall_impl; [exact Hr|]. unfold reading_ok. lia. }
  assert (HG : total_of og_UtilizationGPUPct gpus <= 100 * Z.of_nat (length gpus)).
  { rewrite <- total_of_const. apply total_of_le. eapply Forall_impl; [exact Hr|]. unfold reading_ok. lia. }
  assert (N : forall f, (forall g, reading_ok g -> 0 <= f g) -> Forall (fun g => 0 <= f g) gpus).
  { intros f Hf. eapply Forall_impl; [exact Hr|]. auto. }
  assert (NU := N og_MemoryUsedMiB ltac:(unfold reading_ok; lia)).
  assert (NT := N og_MemoryTotalMiB ltac:(unfold reading_ok; lia)).
  assert (NG := N og_UtilizationGPUPct ltac:(unfold reading_ok; lia)).
  pose proof (total_of_nonneg _ _ NU). pose proof (total_of_nonneg _ _ NG).
  rewrite !sum32_exact, wrap32_id by first [done | unfold in_int32; lia]. split.
  - apply average_range; lia.
  - apply percent_range; unfold percent_limit; lia.
Qed.

(** The GPU memory of the observed node: each GPU's memory rounded up. *)
Lemma observed_memory gpus :
  Forall reading_ok gpus -> total_of og_MemoryTotalMiB gpus <= percent_limit ->
  sum32 (fun g => mibToGiB (og_MemoryTotalMiB g)) gpus = total_of (fun g => gib_ceil (og_MemoryTotalMiB g)) gpus.
Proof.
  intros Hr Hm.
  assert (B : total_of (fun g => mibToGiB (og_MemoryTotalMiB g)) gpus
                = total_of (fun g => gib_ceil (og_MemoryTotalMiB g)) gpus /\
    total_of (fun g => gib_ceil (og_MemoryTotalMiB g)) gpus <= total_of og_MemoryTotalMiB gpus /\
    Forall (fun g => 0 <= mibToGiB (og_MemoryTotalMiB g)) gpus).
  { induction Hr as [|g gpus [Hg _] Hr IH]; cbn -[Z.of_nat] in *; [repeat constructor; lia|].
    assert (0 <= total_of og_MemoryTotalMiB gpus).
    { apply total_of_nonneg. eapply Forall_impl; [exact Hr|]. unfold reading_ok. lia. }
    unfold percent_limit, total_of in *. destruct (IH ltac:(lia)) as (IH1 & IH2 & IH3).
    pose proof (gib_ceil_bounds (og_MemoryTotalMiB g) ltac:(lia)).
    rewrite mibToGiB_ceil by lia. split_and!; [lia..|]. constructor; [rewrite mibToGiB_ceil; lia|done]. }
  destruct B as (B1 & B2 & B3). unfold percent_limit in *. rewrite sum32_exact; [done|done|lia].
Qed.

(** C37: the status the real backend observes is sound.  With sane readings
    (used memory within the total, utilization a percentage), a total memory of
    at most 21,474,836 MiB, allocatable amounts of at most 21,474,836 units and
    allocations within them, all five pressure figures are percentages between 0
    and 100, the GPU count is the number of GPUs, and the published GPU memory
    is exactly the sum over the GPUs of their memory in MiB divided by 1024 and
    rounded up, GPU by GPU.  Above that limit the product in [percent] wraps
    around. *)
Theorem observed_status_sound n gpus allocations :
  Forall reading_ok gpus -> total_of og_MemoryTotalMiB gpus <= percent_limit ->
  Z.of_nat (length gpus) < 2 ^ 20 ->
  Forall rs_nonneg (held allocations) -> rs_le (rs_sum (held allocations)) (observedAllocatable n gpus) ->
  rs_all (fun z => z <= percent_limit) (observedAllocatable n gpus) ->
  (exists p, rst_Pressure (observedRuntimeStatus n gpus allocations) = Some p /\ pressure_in_range p) /\
  GPUCount (observedAllocatable n gpus) = Z.of_nat (length gpus) /\
  GPUMemoryGiB (observedAllocatable n gpus) = total_of (fun g => gib_ceil (og_MemoryTotalMiB g)) gpus.
Proof.
  intros Hr Hm Hl Hn Hle Hlim.
  assert (Hs : rs_nonneg (rs_sum (held allocations))) by (by apply rs_sum_nonneg).
  assert (Hw : rs_wf (rs_sum (held allocations))).
  { revert Hs Hle Hlim. unfold percent_limit. generalize (rs_sum (held allocations)), (observedAllocatable n gpus).
    intros u t ???. rs_open. destruct_and?. split_and!; i32. }
  split; [|split].
  - eexists. split; [reflexivity|]. destruct (observed_memory_pressure gpus Hr Hm ltac:(lia)) as [P1 P2].
    unfold pressure_in_range. cbn [pr_GPUUtilizationPercent pr_GPUMemoryUtilizationPercent
      pr_KVCacheUtilizationPercent pr_PrefillUtilizationPercent pr_DecodeUtilizationPercent].
    rewrite allocatedFromAllocations_exact by done. rs_open. destruct_and?.
    split_and!; try done; try (apply percent_range; lia); lia.
  - assert (E : GPUCount (observedAllocatable n gpus) = wrap32 (Z.of_nat (length gpus)))
      by (unfold observedAllocatable, with_runtime_capacity; by repeat case_match).
    rewrite E. apply wrap32_id. i32.
  - assert (E : GPUMemoryGiB (observedAllocatable n gpus) = sum32 (fun g => mibToGiB (og_MemoryTotalMiB g)) gpus)
      by (unfold observedAllocatable, with_runtime_capacity; by repeat case_match).
    rewrite E. by apply observed_memory.
Qed.

Lemma observed_status_sound_witness :
  let n := node_with 8 6 [] in
  let half := {| GPUCount := 1; GPUMemoryGiB := 40; KVCacheGiB := 0; PrefillTokensPerSecond := 0;
                 DecodeTokensPerSecond := 0; TotalTokensPerSecond := 0 |} in
  let allocations := [holding half (allocation "chat" "high" [] 1 1 1)] in
  (exists p, rst_Pressure (observedRuntimeStatus n sample_gpus allocations) = Some p /\ pressure_in_range p) /\
  GPUCount (observedAllocatable n sample_gpus) = 2 /\ 
  GPUMemoryGiB (observedAllocatable n sample_gpus)
    = total_of (fun g => gib_ceil (og_MemoryTotalMiB g)) sample_gpus.
Proof.
  apply observed_status_sound; [|compute_decide|reflexivity| |compute_decide|compute_decide].
  - repeat (apply Forall_cons; split); [| |done]; unfold reading_ok; cbn; lia.
  - apply Forall_singleton. compute_decide.
Defined.

(** A full device of more than 21 million units reads as unused: the product
    wraps around and the negative percentage is cut to 0. *)
Theorem percent_wraps : percent 21474836 21474836 = 100 /\ percent 21474837 21474837 = 0.
Proof. split; vm_compute; reflexivity. Qed.
