(* ===== verification/AgentNames.v ===== *)
(** * AgentNames: the names of replacement pods

    internal/agent/controller.go: replacementPodName and sanitizeDNSLabel.  A
    pod that is migrated gets a replacement whose name is made of its own name
    and a digest of the allocation's. *)

From stdpp Require Import strings gmap.
From S2P Require Import Prelude GoString Sha256 PluginReserve.
Local Open Scope string_scope.
Local Open Scope list_scope.
Local Open Scope Z_scope.

Definition label_char (r : Z) : bool := between 97 122 r || between 48 57 r || (r =? 45).

Definition sanitizeDNSLabel (value : string) : string :=
  TrimCut [45] (of_bytes ((fun r => if label_char r then r else 45) <$> runes (ToLower value))).

Definition replacementPodName (sourcePodName allocationName : string) : string :=
  let suffix := prefix_n 8 (EncodeToString (Sum256 (bytes allocationName))) in
  let base := sanitizeDNSLabel sourcePodName in
  let maxBaseLen := (63 - String.length "-astra-" - String.length suffix)%nat in
  let base := if decide (maxBaseLen < String.length base)%nat
              then TrimCut [45] (prefix_n maxBaseLen base) else base in
  let base := if decide (base = "") then "pod" else base in
  base +:+ "-astra-" +:+ suffix.

(** ** Legal pod names *)

(** Letters, digits and dashes, no dash at the ends. *)
Record dashed (s : string) : Prop := {
  dashed_chars : Forall (fun b => label_char b = true) (bytes s);
  dashed_head : forall b t, bytes s = b :: t -> b <> 45;
  dashed_last : forall b t, bytes s = t ++ [b] -> b <> 45
}.

Definition dns_label (s : string) : Prop := dashed s /\ (0 < String.length s <= 63)%nat.

(** *** Lemmas *)

Lemma label_name_char b : label_char b = true -> name_char b = true.
Proof. unfold label_char, name_char. intros H. by rewrite H. Qed.

Lemma label_valid l : Forall (fun b => label_char b = true) l -> Forall (fun b => name_char b = true) l.
Proof. intros H. eapply Forall_impl; [exact H|]. apply label_name_char. Qed.

Lemma dash_cut b : bool_decide (b ∈ [45]) = bool_decide (b = 45).
Proof. apply bool_decide_ext. apply list_elem_of_singleton. Qed.

Lemma TrimDash_dashed s : Forall (fun b => label_char b = true) (bytes s) -> dashed (TrimCut [45] s).
Proof.
  intros H. split.
  - rewrite bytes_TrimCut. by apply Forall_trim_bytes.
  - intros b t. rewrite bytes_TrimCut. intros E%trim_bytes_head. rewrite dash_cut in E. by apply bool_decide_eq_false in E.
  - intros b t. rewrite bytes_TrimCut. intros E%trim_bytes_last. rewrite dash_cut in E. by apply bool_decide_eq_false in E.
Qed.

Lemma TrimDash_id s : dashed s -> TrimCut [45] s = s.
Proof.
  intros [_ Hh Hl]. apply bytes_inj. rewrite bytes_TrimCut. apply trim_bytes_id; intros b t E;
    rewrite dash_cut; apply bool_decide_eq_false; eauto.
Qed.

Lemma sanitized_label_chars v :
  Forall (fun b => label_char b = true) ((fun r => if label_char r then r else 45) <$> runes (ToLower v)).
Proof. apply Forall_fmap, Forall_true. intros r. unfold compose. cbn. by destruct (label_char r) eqn:E. Qed.

Lemma sanitizeDNSLabel_dashed v : dashed (sanitizeDNSLabel v).
Proof.
  apply TrimDash_dashed. rewrite bytes_of_bytes; [apply sanitized_label_chars|].
  apply name_char_bytes, label_valid, sanitized_label_chars.
Qed.

(** A legal name is left alone. *)
Lemma sanitizeDNSLabel_id s : dashed s -> sanitizeDNSLabel s = s.
Proof.
  intros Hs. pose proof (dashed_chars _ Hs) as Hc. unfold sanitizeDNSLabel.
  rewrite ToLower_id by (by apply label_valid).
  rewrite runes_ascii.
  2:{ eapply Forall_impl; [exact Hc|]. intros b Hb%label_name_char%name_char_range. lia. }
  rewrite (list_fmap_ext _ id), list_fmap_id, of_bytes_bytes; [by apply TrimDash_id|].
  intros i b Hb. apply list_elem_of_lookup_2 in Hb. rewrite Forall_forall in Hc. by rewrite (Hc _ Hb).
Qed.

Lemma dashed_app s m t : dashed s -> dashed t -> s <> "" -> t <> "" ->
  Forall (fun b => label_char b = true) (bytes m) -> dashed (s +:+ m +:+ t).
Proof.
  intros [Hs Hh _] [Ht _ Hl] Hne1 Hne2 Hm. split.
  - rewrite !bytes_app. repeat (apply Forall_app; split); done.
  - intros b u. rewrite bytes_app. destruct (bytes s) as [|c l] eqn:E.
    + exfalso. apply Hne1, bytes_inj. by rewrite E.
    + intros [= <- _]. by eapply Hh.
  - intros b u. rewrite !bytes_app. destruct (bytes t) as [|c l _] eqn:E using rev_ind.
    + exfalso. apply Hne2, bytes_inj. by rewrite E.
    + rewrite !app_assoc. intros [_ [= <-]]%app_inj_tail. by eapply Hl.
Qed.

Lemma suffix_dashed a : dashed (name_suffix a) /\ String.length (name_suffix a) = 8%nat.
Proof.
  destruct (name_suffix_clean a) as [_ H8]. split; [|done].
  assert (D : Forall (fun b => label_char b = true /\ b <> 45) (bytes (name_suffix a))).
  { unfold name_suffix. rewrite bytes_prefix_n, bytes_hex by apply Sum256_bytes.
    apply Forall_take, hex_bytes_Forall; [|apply Sum256_bytes]. intros n Hn.
    unfold Sha256.hex_digit, label_char, between. destruct (Z.ltb_spec n 10); split; lia. }
  split.
  - eapply Forall_impl; [exact D|]. by intros b [? _].
  - intros b t E. rewrite E in D. apply Forall_cons in D as [[_ ?] _]. done.
  - intros b t E. rewrite E in D. apply Forall_app in D as [_ [[_ ?] _]%Forall_cons]. done.
Qed.

(** The first part of the name. *)
Definition name_base (sourcePodName : string) : string :=
  let base := sanitizeDNSLabel sourcePodName in
  let base := if decide (48 < String.length base)%nat then TrimCut [45] (prefix_n 48 base) else base in
  if decide (base = "") then "pod" else base.

Lemma replacementPodName_eq s a : replacementPodName s a = name_base s +:+ "-astra-" +:+ name_suffix a.
Proof.
  unfold replacementPodName, name_base. fold (name_suffix a). destruct (suffix_dashed a) as [_ ->]. done.
Qed.

Lemma name_base_dashed s : dashed (name_base s) /\ (0 < String.length (name_base s) <= 48)%nat.
Proof.
  unfold name_base. set (base := sanitizeDNSLabel s). pose proof (sanitizeDNSLabel_dashed s : dashed base) as Hb.
  set (cut := if decide (48 < String.length base)%nat then TrimCut [45] (prefix_n 48 base) else base).
  assert (C : dashed cut /\ (String.length cut <= 48)%nat).
  { unfold cut. case_decide as H; [|split; [done|lia]]. split.
    - apply TrimDash_dashed. rewrite bytes_prefix_n. apply Forall_take, Hb.
    - etrans; [apply length_TrimCut|apply length_prefix_n]. }
  destruct C as [C1 C2]. case_decide as He.
  - split; [|cbn; lia]. split; [compute_decide|intros b t [= <- _]; by vm_compute|].
    intros b t E. apply (f_equal reverse) in E. rewrite reverse_app in E. injection E as <- _. by vm_compute.
  - split; [done|]. split; [|done]. destruct cut; [done|cbn; lia].
Qed.

Lemma replacement_name_legal sourcePodName allocationName :
  dns_label (replacementPodName sourcePodName allocationName).
Proof.
  rewrite replacementPodName_eq. destruct (name_base_dashed sourcePodName) as [Hb [Hb1 Hb2]].
  destruct (suffix_dashed allocationName) as [Hs H8]. split.
  - apply dashed_app; try done; [..|repeat constructor].
    + intros E. rewrite E in Hb1. cbn in Hb1. lia.
    + intros E. by rewrite E in H8.
  - rewrite !length_append, H8. change (String.length "-astra-") with 7%nat. lia.
Qed.

(** ** Theorems *)

(** a replacement pod always has a legal name: 16 to 63 lower-case
    letters, digits and dashes, with no dash at its ends. *)
Theorem replacement_name_is_legal sourcePodName allocationName :
  dns_label (replacementPodName sourcePodName allocationName).
Proof. apply replacement_name_legal. Qed.

(** A pod with a legal name of at most 48 characters gets a replacement of
    another name. *)
Lemma replacement_name_new sourcePodName allocationName :
  dashed sourcePodName -> (String.length sourcePodName <= 48)%nat ->
  replacementPodName sourcePodName allocationName <> sourcePodName.
Proof.
  intros Hd Hl E. destruct (suffix_dashed allocationName) as [Hs H8].
  apply (f_equal String.length) in E. rewrite replacementPodName_eq, !length_append, H8 in E.
  change (String.length "-astra-") with 7%nat in E. unfold name_base in E. rewrite sanitizeDNSLabel_id in E by done.
  destruct (decide (48 < String.length sourcePodName)%nat); [lia|]. case_decide as H0; [rewrite H0 in E; cbn in E|]; lia.
Qed.

(** a pod with a legal name of at most 48 characters gets a replacement of
    another name; but the replacement of a pod with a longer name that is
    migrated again from the same node gets its own name: the agent finds the
    pod itself, running, in place of its replacement. *)
Theorem replacement_name_fixpoint sourcePodName allocationName :
  dashed sourcePodName ->
  ((String.length sourcePodName <= 48)%nat -> replacementPodName sourcePodName allocationName <> sourcePodName) /\
  (String.length (name_base sourcePodName) = 48%nat ->
   let replacement := replacementPodName sourcePodName allocationName in
   replacementPodName replacement allocationName = replacement).
Proof.
  intros Hd. destruct (suffix_dashed allocationName) as [Hs H8]. split; [by apply replacement_name_new|].
  intros H48 replacement.
    assert (Hr : dashed replacement) by (destruct (replacement_name_legal sourcePodName allocationName); done).
    rewrite replacementPodName_eq. unfold replacement at 2. rewrite replacementPodName_eq. f_equal.
    unfold name_base at 1. rewrite sanitizeDNSLabel_id by done.
    assert (L : String.length replacement = 63%nat).
    { unfold replacement. rewrite replacementPodName_eq, !length_append, H8, H48. done. }
    destruct (decide (48 < String.length replacement)%nat); [|lia].
    assert (P : prefix_n 48 replacement = name_base sourcePodName).
    { apply bytes_inj. rewrite bytes_prefix_n. unfold replacement. rewrite replacementPodName_eq, bytes_app.
      rewrite <- H48 at 1. rewrite <- length_bytes. apply take_app_length. }
    rewrite P. destruct (name_base_dashed sourcePodName) as [Hb _]. rewrite TrimDash_id by done.
    rewrite decide_False; [done|]. intros E. rewrite E in H48. done.
Qed.

Definition long_pod_name : string := "llm-inference-gateway-production-deployment-7d9f8b6c5d-x2x9k".

Lemma long_pod_name_dashed : dashed long_pod_name.
Proof.
  assert (E : sanitizeDNSLabel long_pod_name = long_pod_name) by (vm_compute; reflexivity).
  rewrite <- E. apply sanitizeDNSLabel_dashed.
Qed.

Lemma replacement_name_fixpoint_witness :
  let replacement := replacementPodName long_pod_name "node-a-allocation" in
  replacementPodName replacement "node-a-allocation" = replacement.
Proof.
  apply (replacement_name_fixpoint long_pod_name "node-a-allocation" long_pod_name_dashed).
  vm_compute. reflexivity.
Defined.
