(* ===== verification/AgentProg.v ===== *)
(** * AgentProg: programs that talk to the cluster

    The agent's controller reads and writes objects of the API server, calls
    its backend and reads the clock.  Such code is a [prog]: a tree of calls,
    each continued by the answer it gets.  [run] executes a program against an
    oracle that answers every call from the whole history of calls and
    answers, so any behaviour of the server, of other clients writing to it
    and of the backend is some oracle.  [traces] is the set of all sequences
    of calls and answers of a program.

    Programs are inductive trees: every run ends. *)

From stdpp Require Import strings gmap.
From S2P Require Import Prelude GoString ApiTypes PluginState PluginReserve LocalLedger Backend.
Local Open Scope string_scope.
Local Open Scope list_scope.
Local Open Scope Z_scope.

(** ** Calls and answers *)

Inductive call :=
  | Now
  | ReadClock
  | GetAllocation (key : Key)
  | UpdateAllocationStatus (key : Key) (version : Z) (a : AIResourceAllocation)
  | ListAllocations (labels : gmap string string)
  | GetNodeProfile (key : Key)
  | ListNodeProfiles
  | CreateNodeProfile (n : AINodeResourceProfile)
  | UpdateNodeProfileStatus (key : Key) (version : Z) (n : AINodeResourceProfile)
  | GetPod (key : Key)
  | CreatePod (p : Pod)
  | DeletePod (key : Key)
  | BackendApply (req : ApplyRequest)
  | BackendSnapshot (node : AINodeResourceProfile) (allocations : list AIResourceAllocation).

(** An object comes with its resource version.  [Snapshot] also returns the
    node profile as it leaves it. *)
Definition answer (c : call) : Type :=
  match c with
  | Now => Time
  | ReadClock => Clock
  | GetAllocation _ => (AIResourceAllocation * Z + ApiError)%type
  | ListAllocations _ => (list AIResourceAllocation + ApiError)%type
  | GetNodeProfile _ => (AINodeResourceProfile * Z + ApiError)%type
  | ListNodeProfiles => (list AINodeResourceProfile + ApiError)%type
  | GetPod _ => (Pod + ApiError)%type
  | UpdateAllocationStatus _ _ _ | CreateNodeProfile _ | UpdateNodeProfileStatus _ _ _
  | CreatePod _ | DeletePod _ => option ApiError
  | BackendApply _ => (ApplyResult + string)%type
  | BackendSnapshot _ _ => ((AINodeResourceProfileStatus + string) * AINodeResourceProfile)%type
  end.

Inductive event := Event (c : call) (r : answer c).
Definition history := list event.

(** ** Programs *)

Inductive prog (A : Type) : Type :=
  | Done (a : A)
  | Do (c : call) (k : answer c -> prog A).
Arguments Done {A} _.
Arguments Do {A} _ _.

Fixpoint prog_bind {A B} (p : prog A) (f : A -> prog B) : prog B :=
  match p with
  | Done a => f a
  | Do c k => Do c (fun r => prog_bind (k r) f)
  end.

#[export] Instance prog_mbind : MBind prog := fun A B f p => prog_bind p f.

(** One call. *)
Definition ask (c : call) : prog (answer c) := Do c Done.

(** [retry.RetryOnConflict]: up to [steps] executions of the body, as long as
    they end in a conflict. *)
Fixpoint RetryOnConflict (steps : nat) (body : prog (option ApiError)) : prog (option ApiError) :=
  match steps with
  | O => Done None
  | S steps =>
      r ← body;
      match r with
      | Some (Conflict t) => match steps with O => Done r | _ => RetryOnConflict steps body end
      | _ => Done r
      end
  end.

(** [fmt.Errorf("<prefix>: %w", err)]: the kind of the error is kept. *)
Definition wrap_error (prefix : string) (e : ApiError) : ApiError :=
  match e with
  | NotFound t => NotFound (prefix +:+ ": " +:+ t)
  | AlreadyExists t => AlreadyExists (prefix +:+ ": " +:+ t)
  | Conflict t => Conflict (prefix +:+ ": " +:+ t)
  | OtherError t => OtherError (prefix +:+ ": " +:+ t)
  end.

(** ** Execution *)

Definition oracle := history -> forall c, answer c.

Fixpoint run {A} (o : oracle) (p : prog A) (h : history) : A * history :=
  match p with
  | Done a => (a, h)
  | Do c k => let r := o h c in run o (k r) (h ++ [Event c r])
  end.

(** ** Traces

    [traces p t a]: with some answers, [p] makes the calls [t] and returns
    [a]. *)
Fixpoint traces {A} (p : prog A) (t : history) (a : A) : Prop :=
  match p with
  | Done x => t = [] /\ a = x
  | Do c k => exists r t', t = Event c r :: t' /\ traces (k r) t' a
  end.

(** Every execution is a trace. *)
Lemma run_traces {A} (o : oracle) (p : prog A) h :
  exists t, (run o p h).2 = h ++ t /\ traces p t (run o p h).1.
Proof.
  revert h. induction p as [a|c k IH]; intros h; cbn.
  - exists []. by rewrite app_nil_r.
  - destruct (IH (o h c) (h ++ [Event c (o h c)])) as (t & E & T).
    exists (Event c (o h c) :: t). rewrite E, <- app_assoc. split; [done|]. by exists (o h c), t.
Qed.

Lemma traces_run {A} (o : oracle) (p : prog A) : traces p (run o p []).2 (run o p []).1.
Proof. destruct (run_traces o p []) as (t & E & T). cbn in E. by rewrite E. Qed.

(** What holds of every answer of the oracle holds of every event. *)
Lemma run_forall {A} (o : oracle) (p : prog A) (P : event -> Prop) :
  (forall h c, P (Event c (o h c))) -> Forall P (run o p []).2.
Proof.
  intros HP. enough (E : forall h, Forall P h -> Forall P (run o p h).2) by (apply E; constructor).
  induction p as [a|c k IH]; intros h Hh; cbn; [done|]. apply IH. apply Forall_app. split; [done|]. by repeat constructor.
Qed.

Lemma traces_done {A} (x a : A) t : traces (Done x) t a <-> t = [] /\ a = x.
Proof. done. Qed.

Lemma traces_ask c t (r : answer c) : traces (ask c) t r <-> t = [Event c r].
Proof.
  split.
  - intros (r' & t' & -> & -> & ->). done.
  - intros ->. by exists r, [].
Qed.

Lemma traces_bind {A B} (p : prog A) (f : A -> prog B) t b :
  traces (p ≫= f) t b <-> exists a t1 t2, t = t1 ++ t2 /\ traces p t1 a /\ traces (f a) t2 b.
Proof.
  revert t. induction p as [x|c k IH]; intros t.
  - split.
    + intros H. by exists x, [], t.
    + intros (a & t1 & t2 & -> & [-> ->] & H). done.
  - split.
    + intros (r & t' & -> & H). apply IH in H as (a & t1 & t2 & -> & H1 & H2).
      exists a, (Event c r :: t1), t2. split; [done|]. split; [|done]. by exists r, t1.
    + intros (a & t1 & t2 & -> & (r & t' & -> & H1) & H2). exists r, (t' ++ t2). split; [done|].
      apply IH. by exists a, t', t2.
Qed.

(** What every execution of the body does holds of every piece of a trace of
    the loop, and the outcome is that of the last piece. *)
Lemma traces_retry steps body t r (P : history -> Prop) (Q : option ApiError -> history -> Prop) :
  (0 < steps)%nat ->
  (forall t r, traces body t r -> P t /\ Q r t) ->
  P [] -> (forall t1 t2, P t1 -> P t2 -> P (t1 ++ t2)) ->
  traces (RetryOnConflict steps body) t r ->
  P t /\ exists t1 t2, t = t1 ++ t2 /\ Q r t2.
Proof.
  intros Hs Hb P0 Papp. revert t. induction steps as [|n IH]; [lia|]. intros t. cbn [RetryOnConflict].
  rewrite traces_bind. intros (r1 & t1 & t2 & -> & H1 & H2). destruct (Hb _ _ H1) as [Hp Hq].
  assert (Done_case : traces (Done r1) t2 r -> P (t1 ++ t2) /\ exists u1 u2, t1 ++ t2 = u1 ++ u2 /\ Q r u2).
  { intros [-> ->]. rewrite app_nil_r. split; [done|]. by exists [], t1. }
  destruct r1 as [[]|]; auto. destruct n; [auto|].
  apply IH in H2 as (Hp2 & u1 & u2 & -> & HQ); [|lia]. split; [auto|]. exists (t1 ++ u1), u2.
  by rewrite app_assoc.
Qed.

(** Calls in a trace. *)
Definition calls (e : event) : call := match e with Event c _ => c end.

(** The first event with a property. *)
Lemma first_event (f : event -> bool) (t : history) :
  existsb f t = true -> exists t1 ev t2, t = t1 ++ ev :: t2 /\ f ev = true.
Proof.
  induction t as [|ev t IH]; cbn; [done|]. destruct (f ev) eqn:E; intros H; [by exists [], ev, t|].
  destruct (IH H) as (t1 & ev' & t2 & -> & Hf). by exists (ev :: t1), ev', t2.
Qed.

(** Take apart a trace of a program. *)
Ltac trace_step :=
  match goal with
  | H : traces (_ ≫= _) _ _ |- _ => apply traces_bind in H as (? & ? & ? & -> & ? & ?)
  | H : traces (Done _) _ _ |- _ => apply traces_done in H as [-> H]
  | H : traces (ask _) _ _ |- _ => apply traces_ask in H as ->
  end.
