(* ===== verification/AgentStatus.v ===== *)
(** * AgentStatus: recording what became of a plan

    internal/agent/status_recorder.go.  The [mark] functions set the status of
    the allocation they are given and write it to the ledger object; they
    return the allocation as they leave it and the error, because the caller
    goes on with the same object.  The resource version of the retry loop's
    read travels with the object. *)

From stdpp Require Import strings gmap.
From S2P Require Import Prelude GoString ApiTypes Samples Resources PluginState PluginReserve.
From S2P Require Import LocalLedger LocalScheduler AgentLedger Backend AgentProg.
Local Open Scope string_scope.
Local Open Scope list_scope.
Local Open Scope Z_scope.

(** ** controller.go: the message of a plan *)

Definition planStatusMessage (plan : Plan) : string :=
  let message := "plan action=" +:+ pl_Action plan +:+ " tier=" +:+ pl_AllocationTier plan
    +:+ " phase=" +:+ pl_TargetPhase plan
    +:+ " requested=(" +:+ describeResource (pl_RequestedResources plan)
    +:+ ") assigned=(" +:+ describeResource (pl_AssignedResources plan) +:+ ")" in
  let message := if decide (pl_ActiveWindow plan = "") then message
                 else message +:+ " activeWindow=" +:+ pl_ActiveWindow plan in
  if decide (pl_Reason plan = "") then message else message +:+ "; " +:+ pl_Reason plan.

(** ** status_recorder.go *)

Definition with_status (a : AIResourceAllocation) (s : AIResourceAllocationStatus) : AIResourceAllocation :=
  {| al_Meta := al_Meta a; al_Spec := al_Spec a; al_Status := s |}.

Definition setWorkloadStatus (a : AIResourceAllocation) (desired applied : option ResourceSummary)
    (action message : string) : AIResourceAllocation :=
  let entry := workloadStatusFromAllocation a desired applied action message in
  let s := al_Status a in
  let workloads := mergeWorkloadStatus (ast_Workloads s) entry in
  with_status a
    {| ast_Phase := ast_Phase s; ast_ObservedAt := ast_ObservedAt s; ast_AppliedAt := ast_AppliedAt s;
       ast_NodeLedger := Some (allocationLedgerSummary workloads); ast_Workloads := workloads;
       ast_ObservedResources := ast_ObservedResources s; ast_Current := ast_Current s;
       ast_HourlyForecast := ast_HourlyForecast s; ast_Message := ast_Message s;
       ast_Conditions := ast_Conditions s |}.

Definition setWorkloadStatusFromPlan (a : AIResourceAllocation) (plan : Plan) (action message : string)
    : AIResourceAllocation :=
  setWorkloadStatus a (Some (pl_AssignedResources plan)) (Some (pl_AssignedResources plan)) action message.

(** The status the second closure writes over the [latest] one: the first
    entry of the allocation's list of workloads is merged in. *)
Definition merged_status (latest status : AIResourceAllocationStatus) (entry : AllocationWorkloadStatus)
    : AIResourceAllocationStatus :=
  let workloads := mergeWorkloadStatus (ast_Workloads latest) entry in
  let ledger := allocationLedgerSummary workloads in
  {| ast_Phase := ast_Phase status; ast_ObservedAt := ast_ObservedAt status;
     ast_AppliedAt := ast_AppliedAt status; ast_NodeLedger := Some ledger; ast_Workloads := workloads;
     ast_ObservedResources := nal_Allocated ledger; ast_Current := nal_Allocated ledger;
     ast_HourlyForecast := Some (aggregateHourlyForecastFromStatuses workloads);
     ast_Message := ast_Message status; ast_Conditions := ast_Conditions latest |}.

(** The status to write, from the latest one. *)
Definition next_status (status latest : AIResourceAllocationStatus) : AIResourceAllocationStatus :=
  match ast_Workloads status with
  | [] => status
  | entry :: _ => merged_status latest status entry
  end.

Definition object_key (m : ObjectMeta) : Key := (Namespace m, Name m).

(** The closure given to the retry loop. *)
Definition update_attempt (a : AIResourceAllocation) (action : string) : prog (option ApiError) :=
  let prefix := action +:+ " " +:+ Namespace (al_Meta a) +:+ "/" +:+ Name (al_Meta a) in
  got ← ask (GetAllocation (object_key (al_Meta a)));
  match got with
  | inr err => Done (if IsNotFound err then None else Some (wrap_error prefix err))
  | inl (latest, version) =>
      r ← ask (UpdateAllocationStatus (object_key (al_Meta a)) version
                 (with_status latest (next_status (al_Status a) (al_Status latest))));
      match r with
      | None => Done None
      | Some err => Done (if IsNotFound err then None else Some (wrap_error prefix err))
      end
  end.

Section Recorder.
(** [retry.DefaultRetry.Steps] *)
Variable steps : nat.

Definition updateAllocationStatus (a : AIResourceAllocation) (action : string) : prog (option ApiError) :=
  RetryOnConflict steps (update_attempt a action).

(** The status a plan gives in the phases that show its budget. *)
Definition planned_status (a : AIResourceAllocation) (plan : Plan) (phase : string) (now : Time)
    (message : string) : AIResourceAllocationStatus :=
  let s := al_Status a in
  {| ast_Phase := phase; ast_ObservedAt := Some now; ast_AppliedAt := ast_AppliedAt s;
     ast_NodeLedger := ast_NodeLedger s; ast_Workloads := ast_Workloads s;
     ast_ObservedResources := Some (pl_AssignedResources plan);
     ast_Current := Some (pl_AssignedResources plan);
     ast_HourlyForecast := Some (buildHourlyForecast (Some a) (Some now));
     ast_Message := message; ast_Conditions := ast_Conditions s |}.

(** The allocation a [mark] function writes. *)
Definition pending_allocation (a : AIResourceAllocation) (plan : Plan) (now : Time) : AIResourceAllocation :=
  setWorkloadStatusFromPlan
    (with_status a (planned_status a plan AllocationPhasePendingApply now (planStatusMessage plan)))
    plan (pl_Action plan) (planStatusMessage plan).

Definition markPendingApply (a : AIResourceAllocation) (plan : Plan)
    : prog (AIResourceAllocation * option ApiError) :=
  now ← ask Now;
  let a := pending_allocation a plan now in
  r ← updateAllocationStatus a "mark allocation pending apply";
  Done (a, r).

Definition applying_allocation (a : AIResourceAllocation) (plan : Plan) (now : Time) : AIResourceAllocation :=
  let s := al_Status a in
  setWorkloadStatusFromPlan
    (with_status a
       {| ast_Phase := AllocationPhaseApplying; ast_ObservedAt := Some now; ast_AppliedAt := ast_AppliedAt s;
          ast_NodeLedger := ast_NodeLedger s; ast_Workloads := ast_Workloads s;
          ast_ObservedResources := ast_ObservedResources s; ast_Current := ast_Current s;
          ast_HourlyForecast := ast_HourlyForecast s; ast_Message := planStatusMessage plan;
          ast_Conditions := ast_Conditions s |})
    plan (pl_Action plan) (planStatusMessage plan).

Definition markApplying (a : AIResourceAllocation) (plan : Plan)
    : prog (AIResourceAllocation * option ApiError) :=
  now ← ask Now;
  let a := applying_allocation a plan now in
  r ← updateAllocationStatus a "mark allocation applying";
  Done (a, r).

Definition applied_allocation (a : AIResourceAllocation) (plan : Plan) (result : ApplyResult) (now : Time)
    : AIResourceAllocation :=
  let s := al_Status a in
  setWorkloadStatus
    (with_status a
       {| ast_Phase := AllocationPhaseApplied; ast_ObservedAt := Some now; ast_AppliedAt := Some now;
          ast_NodeLedger := ast_NodeLedger s; ast_Workloads := ast_Workloads s;
          ast_ObservedResources := ares_ObservedResources result;
          ast_Current := ares_ObservedResources result;
          ast_HourlyForecast := Some (buildHourlyForecast (Some a) (Some now));
          ast_Message := ares_Message result; ast_Conditions := ast_Conditions s |})
    (Some (pl_AssignedResources plan)) (ares_ObservedResources result) (pl_Action plan) (ares_Message result).

Definition markApplied (a : AIResourceAllocation) (plan : Plan) (result : ApplyResult)
    : prog (AIResourceAllocation * option ApiError) :=
  now ← ask Now;
  let a := applied_allocation a plan result now in
  r ← updateAllocationStatus a "mark allocation applied";
  Done (a, r).

Definition migrating_allocation (a : AIResourceAllocation) (plan : Plan) (now : Time) : AIResourceAllocation :=
  setWorkloadStatusFromPlan
    (with_status a (planned_status a plan AllocationPhaseMigrating now (planStatusMessage plan)))
    plan ActionEvict (planStatusMessage plan).

Definition markMigrating (a : AIResourceAllocation) (plan : Plan)
    : prog (AIResourceAllocation * option ApiError) :=
  now ← ask Now;
  let a := migrating_allocation a plan now in
  r ← updateAllocationStatus a "mark allocation migrating";
  Done (a, r).

Definition released_allocation (a : AIResourceAllocation) (message : string) (now : Time)
    : AIResourceAllocation :=
  let s := al_Status a in
  setWorkloadStatus
    (with_status a
       {| ast_Phase := AllocationPhaseReleased; ast_ObservedAt := Some now; ast_AppliedAt := ast_AppliedAt s;
          ast_NodeLedger := ast_NodeLedger s; ast_Workloads := ast_Workloads s;
          ast_ObservedResources := Some zero_ResourceSummary; ast_Current := Some zero_ResourceSummary;
          ast_HourlyForecast := Some (emptyHourlyForecast (Some now));
          ast_Message := message; ast_Conditions := ast_Conditions s |})
    (Some zero_ResourceSummary) (Some zero_ResourceSummary) ActionEvict message.

Definition markReleased (a : AIResourceAllocation) (message : string)
    : prog (AIResourceAllocation * option ApiError) :=
  now ← ask Now;
  let a := released_allocation a message now in
  r ← updateAllocationStatus a "mark allocation released";
  Done (a, r).

Definition failed_allocation (a : AIResourceAllocation) (plan : Plan) (message : string) (now : Time)
    : AIResourceAllocation :=
  setWorkloadStatusFromPlan
    (with_status a (planned_status a plan AllocationPhaseFailed now message)) plan (pl_Action plan) message.

Definition markPlanFailed (a : AIResourceAllocation) (plan : Plan)
    : prog (AIResourceAllocation * option ApiError) :=
  now ← ask Now;
  let a := failed_allocation a plan (planStatusMessage plan) now in
  r ← updateAllocationStatus a "mark allocation plan failed";
  Done (a, r).

(** The error of the write is dropped. *)
Definition markFailed (a : AIResourceAllocation) (plan : Plan) (err : string) : prog AIResourceAllocation :=
  now ← ask Now;
  let a := failed_allocation a plan err now in
  _ ← updateAllocationStatus a "mark allocation failed";
  Done a.
End Recorder.

(** ** What a recorder does, call by call *)

(** Calls of a recorder for the object [k] and a phase. *)
Definition recorder_call (k : Key) (phase : string) (c : call) : Prop :=
  match c with
  | Now => True
  | GetAllocation k' => k' = k
  | UpdateAllocationStatus k' _ b => k' = k /\ ast_Phase (al_Status b) = phase
  | _ => False
  end.

(** The phase was written: the server took a status of this phase. *)
Definition written (k : Key) (phase : string) (e : event) : Prop :=
  match e with
  | Event (UpdateAllocationStatus k' _ b) None => k' = k /\ ast_Phase (al_Status b) = phase
  | _ => False
  end.

(** The server reported that the object does not exist; the recorder then
    returns without an error and without having written. *)
Definition reported_gone (k : Key) (e : event) : Prop :=
  match e with
  | Event (GetAllocation k') (inr err) | Event (UpdateAllocationStatus k' _ _) (Some err) =>
      k' = k /\ IsNotFound err = true
  | _ => False
  end.

(** A read or a status write of the object was refused for another reason. *)
Definition refused (k : Key) (e : event) : Prop :=
  match e with
  | Event (GetAllocation k') (inr err) | Event (UpdateAllocationStatus k' _ _) (Some err) =>
      k' = k /\ IsNotFound err = false
  | _ => False
  end.

(** How a recorder ends: without an error the phase was written or the object
    is gone, and with one a call was refused. *)
Definition record_result (k : Key) (phase : string) (t : history) (e : option ApiError) : Prop :=
  match e with
  | None => Exists (written k phase) t \/ Exists (reported_gone k) t
  | Some _ => Exists (refused k) t
  end.

Definition recording (k : Key) (phase : string) (t : history) (e : option ApiError) : Prop :=
  Forall (fun ev => recorder_call k phase (calls ev)) t /\ record_result k phase t e.

Lemma record_result_app k phase t1 t2 e : record_result k phase t2 e -> record_result k phase (t1 ++ t2) e.
Proof. unfold record_result. destruct e; rewrite !Exists_app; tauto. Qed.

Lemma next_status_phase status latest : ast_Phase (next_status status latest) = ast_Phase status.
Proof. unfold next_status. by destruct (ast_Workloads status). Qed.

Lemma update_attempt_trace a action t r :
  traces (update_attempt a action) t r ->
  recording (object_key (al_Meta a)) (ast_Phase (al_Status a)) t r.
Proof.
  unfold update_attempt. intros H. trace_step. trace_step.
  match goal with H : traces (match ?g with _ => _ end) _ _ |- _ => destruct g as [[latest version]|err] end.
  - trace_step. trace_step.
    match goal with H : traces (match ?g with _ => _ end) _ _ |- _ => destruct g as [err|] eqn:E end;
      trace_step; subst r; (split; [repeat constructor; apply next_status_phase|]).
    + apply (record_result_app _ _ [_]). destruct (IsNotFound err) eqn:En; cbn.
      * right. apply Exists_cons_hd. done.
      * apply Exists_cons_hd. done.
    + apply (record_result_app _ _ [_]). left. apply Exists_cons_hd. split; [done|apply next_status_phase].
  - trace_step. subst r. split; [by repeat constructor|].
    destruct (IsNotFound err) eqn:En; cbn; [right|]; by apply Exists_cons_hd.
Qed.

Lemma updateAllocationStatus_trace steps a action t r :
  (0 < steps)%nat -> traces (updateAllocationStatus steps a action) t r ->
  recording (object_key (al_Meta a)) (ast_Phase (al_Status a)) t r.
Proof.
  intros Hs H. unfold updateAllocationStatus in H.
  apply (traces_retry _ _ _ _ (Forall (fun ev => recorder_call (object_key (al_Meta a)) (ast_Phase (al_Status a)) (calls ev)))
    (fun r t => record_result (object_key (al_Meta a)) (ast_Phase (al_Status a)) t r)) in H.
  - destruct H as (H1 & t1 & t2 & -> & H2). split; [done|]. by apply record_result_app.
  - done.
  - intros t' r' Ht. by apply update_attempt_trace in Ht.
  - done.
  - intros t1 t2 H1 H2. by apply Forall_app.
Qed.

(** All the [mark] functions have this shape. *)
Lemma mark_trace steps (f : Time -> AIResourceAllocation) action k phase t res :
  (0 < steps)%nat ->
  (forall now, object_key (al_Meta (f now)) = k /\ ast_Phase (al_Status (f now)) = phase) ->
  traces (now ← ask Now; r ← updateAllocationStatus steps (f now) action; Done (f now, r)) t res ->
  recording k phase t res.2 /\ exists now, res.1 = f now.
Proof.
  intros Hs Hf H. trace_step. trace_step. trace_step. trace_step. subst res.
  match goal with H : traces (updateAllocationStatus _ (f ?now) _) _ _ |- _ =>
    apply updateAllocationStatus_trace in H as [H1 H2]; [|done]; destruct (Hf now) as [E1 E2]; rewrite E1, E2 in H1, H2 end.
  split; [|by eexists]. rewrite app_nil_r. split.
  - constructor; done.
  - by apply (record_result_app _ _ [_]).
Qed.

Lemma setWorkloadStatus_keeps a d p action message :
  let b := setWorkloadStatus a d p action message in
  al_Meta b = al_Meta a /\ al_Spec b = al_Spec a /\ ast_Phase (al_Status b) = ast_Phase (al_Status a).
Proof. done. Qed.

(** ** What is written *)

(** Every status write of a trace puts the next status on an object read
    before at that version. *)
Definition writes_next (status : AIResourceAllocationStatus) (t : history) : Prop :=
  forall k v b ans, Event (UpdateAllocationStatus k v b) ans ∈ t ->
    exists latest, Event (GetAllocation k) (inl (latest, v)) ∈ t /\
      b = with_status latest (next_status status (al_Status latest)).

Lemma update_attempt_writes a action t r :
  traces (update_attempt a action) t r -> writes_next (al_Status a) t.
Proof.
  unfold update_attempt. intros H. trace_step. trace_step.
  match goal with H : traces (match ?g with _ => _ end) _ _ |- _ => destruct g as [[latest version]|err] end.
  - trace_step. trace_step. intros k v b ans Hin.
    match goal with H : traces (match ?g with _ => _ end) ?t _ |- _ => assert (Et : t = []) by
      (by destruct g; trace_step) end. subst. rewrite app_nil_r in Hin.
    cbn in Hin. apply elem_of_cons in Hin as [[=]|Hin]. apply list_elem_of_singleton in Hin.
    injection Hin as -> -> -> _. exists latest. split; [apply list_elem_of_here|done].
  - trace_step. intros k v b ans Hin. apply list_elem_of_singleton in Hin. done.
Qed.

Lemma writes_next_app status t1 t2 : writes_next status t1 -> writes_next status t2 -> writes_next status (t1 ++ t2).
Proof.
  intros H1 H2 k v b ans [Hin|Hin]%elem_of_app; [destruct (H1 _ _ _ _ Hin) as (l & ? & ->)|
    destruct (H2 _ _ _ _ Hin) as (l & ? & ->)]; exists l; rewrite elem_of_app; auto.
Qed.

Lemma update_writes steps a action t r :
  (0 < steps)%nat -> traces (updateAllocationStatus steps a action) t r -> writes_next (al_Status a) t.
Proof.
  intros Hs H. apply (traces_retry _ _ _ _ (writes_next (al_Status a)) (fun _ _ => True)) in H as [H _]; auto.
  - intros t' r' Ht. split; [by apply update_attempt_writes in Ht|done].
  - by intros k v b ans Hin%elem_of_nil.
  - intros. by apply writes_next_app.
Qed.

(** The entry of an allocation's own workload leads the statuses it was
    listed with, or there is none yet. *)
Definition leads (a : AIResourceAllocation) : Prop :=
  match ast_Workloads (al_Status a) with
  | [] => True
  | first :: _ => awst_Name first = workloadEntryNameFromAllocation a
  end.

Lemma setWorkloadStatus_leads a desired applied action message :
  leads a -> exists rest,
    ast_Workloads (al_Status (setWorkloadStatus a desired applied action message)) =
    workloadStatusFromAllocation a desired applied action message :: rest.
Proof.
  unfold leads. cbn. unfold mergeWorkloadStatus. intros H.
  destruct (ast_Workloads (al_Status a)) as [|first rest]; cbn; [by eexists|].
  rewrite decide_True by done. by eexists.
Qed.

(** C14: recording the outcome of a workload is exact when the workload's own
    entry leads the statuses the allocation carries (or there are none): every
    status write, at whatever retry and whatever other clients did in between,
    replaces the stored entry of this workload by the new one, keeps the entries
    of the other workloads as they are stored at the version it writes to, and
    writes exact totals and an exact forecast, the sums over the workloads that
    are not released (where the amounts are non-negative and the sums fit 32
    bits). *)
Theorem status_writes_are_consistent steps a desired applied act message action t r k v b ans :
  (0 < steps)%nat -> leads a ->
  traces (updateAllocationStatus steps (setWorkloadStatus a desired applied act message) action) t r ->
  Event (UpdateAllocationStatus k v b) ans ∈ t ->
  let entry := workloadStatusFromAllocation a desired applied act message in
  exists latest, Event (GetAllocation k) (inl (latest, v)) ∈ t /\
    al_Meta b = al_Meta latest /\ al_Spec b = al_Spec latest /\
    let before := ast_Workloads (al_Status latest) in
    let after := ast_Workloads (al_Status b) in
    awst_Name entry = workloadEntryNameFromAllocation a /\
    awst_Desired entry = desired /\ awst_Applied entry = applied /\
    entry ∈ after /\ (forall w, awst_Name w <> awst_Name entry -> w ∈ after <-> w ∈ before) /\
    (NoDup (awst_Name <$> before) -> NoDup (awst_Name <$> after)) /\
    (Forall rs_nonneg (live_applied after) -> rs_wf (rs_sum (live_applied after)) ->
     ast_Current (al_Status b) = Some (rs_sum (live_applied after)) /\
     ast_ObservedResources (al_Status b) = Some (rs_sum (live_applied after))) /\
    exists f, ast_HourlyForecast (al_Status b) = Some f /\ forall h, (h < 24)%nat ->
      let hour := omap (fun f => hf_ResourceBuckets f !! h) (live_forecasts after) in
      Forall rs_nonneg hour -> rs_wf (rs_sum hour) -> hf_ResourceBuckets f !! h = Some (rs_sum hour).
Proof.
  intros Hs Hl Ht Hin entry. destruct (setWorkloadStatus_leads a desired applied act message Hl) as [rest Hw].
  fold entry in Hw. destruct (update_writes _ _ _ _ _ Hs Ht _ _ _ _ Hin) as (latest & Hg & ->).
  exists latest. split; [done|]. unfold next_status. rewrite Hw. cbn [al_Meta al_Spec al_Status with_status].
  do 5 (split; [done|]). cbn [merged_status ast_Workloads ast_Current ast_ObservedResources ast_HourlyForecast].
  unfold mergeWorkloadStatus. split_and!.
  - apply upsert_by_in.
  - intros w. apply upsert_by_others.
  - apply upsert_by_NoDup.
  - intros Hn Hf. pose proof (ledger_allocated_exact _ Hn Hf) as E. cbn [nal_Allocated allocationLedgerSummary].
    by rewrite E.
  - eexists. split; [done|]. intros h Hh Hn Hf. by apply aggregated_hour_exact.
Qed.

(** An oracle for a server that holds one ledger object. *)
Definition ledger_oracle (a : AIResourceAllocation) : oracle := fun _ c =>
  match c with
  | Now => 100
  | ReadClock => {| clock_local := (10, 0); clock_in := fun _ => None |}
  | GetAllocation _ => inl (a, 7)
  | ListAllocations _ => inl [a]
  | GetNodeProfile _ => inl (node_with 8 6 [], 3)
  | ListNodeProfiles => inl []
  | GetPod _ => inr (NotFound "pod not found")
  | UpdateAllocationStatus _ _ _ | CreateNodeProfile _ | UpdateNodeProfileStatus _ _ _
  | CreatePod _ | DeletePod _ => None
  | BackendApply req => FakeBackend_Apply req
  | BackendSnapshot _ _ => (inl (np_Status (node_with 8 6 [])), node_with 8 6 [])
  end.

Definition status_with (workloads : list AllocationWorkloadStatus) : AIResourceAllocationStatus :=
  {| ast_Phase := "Applied"; ast_ObservedAt := None; ast_AppliedAt := None; ast_NodeLedger := None;
     ast_Workloads := workloads; ast_ObservedResources := None; ast_Current := None;
     ast_HourlyForecast := None; ast_Message := ""; ast_Conditions := [] |}.

Definition ledger_with_statuses (workloads : list AllocationWorkloadStatus) : AIResourceAllocation :=
  with_status (allocation "node-a-allocation" "high" [] 1 2 3) (status_with workloads).

(** The entry of another workload, as it is stored at the time, survives. *)
Lemma status_writes_are_consistent_witness :
  let a := allocation "node-a-allocation" "high" [] 1 2 3 in
  let stored := ledger_with_statuses [sample_status "two" "Applied" 1] in
  let recorded := setWorkloadStatus a (Some (res 2)) (Some (res 2)) "apply" "done" in
  let t := (run (ledger_oracle stored) (updateAllocationStatus 5 recorded "mark") []).2 in
  exists k v b ans, Event (UpdateAllocationStatus k v b) ans ∈ t /\
    workloadStatusFromAllocation a (Some (res 2)) (Some (res 2)) "apply" "done" ∈ ast_Workloads (al_Status b).
Proof.
  intros a stored recorded t.
  assert (Hin : exists k v b ans, Event (UpdateAllocationStatus k v b) ans ∈ t)
    by (do 4 eexists; apply list_elem_of_further, list_elem_of_here).
  destruct Hin as (k & v & b & ans & Hin). exists k, v, b, ans. split; [exact Hin|].
  destruct (status_writes_are_consistent 5 a (Some (res 2)) (Some (res 2)) "apply" "done" "mark" t None k v b ans)
    as (latest & _ & _ & _ & _ & _ & _ & He & _); [lia|exact I| |exact Hin|exact He].
  exact (traces_run (ledger_oracle stored) (updateAllocationStatus 5 recorded "mark")).
Defined.

(** Where another workload leads, its entry is written back as the agent read
    it: recording "two" puts the stale entry of "one" over the newer stored one
    and leaves "two" as it was. *)
Theorem trailing_record_restores_a_stale_entry :
  let w := {| aws_Name := "two"; aws_WorkloadRef := {| ref_APIVersion := ""; ref_Kind := ""; ref_Name := "two";
                ref_Namespace := "default" |}; aws_SourcePodName := ""; aws_SourcePodUID := "";
              aws_WorkloadType := "online"; aws_Priority := "high"; aws_DemandShape := "mixed";
              aws_TimeWindows := []; aws_ResourceRequest := None; aws_AssignedGPU := None;
              aws_Resources := Some (res 1); aws_Desired := None; aws_AllocationType := "";
              aws_Actions := None; aws_Reason := "" |} in
  let read := ledger_with_statuses [sample_status "one" "Applied" 2; sample_status "two" "Applying" 1] in
  let stored := ledger_with_statuses [sample_status "one" "Applied" 5; sample_status "two" "Applying" 1] in
  let a := setWorkloadStatus (expand_workload read w) (Some (res 1)) (Some (res 1)) "apply" "done" in
  match (run (ledger_oracle stored) (updateAllocationStatus 5 a "mark") []).2 with
  | [_; Event (UpdateAllocationStatus _ _ b) _] =>
      ast_Workloads (al_Status b) = [sample_status "one" "Applied" 2; sample_status "two" "Applying" 1]
  | _ => False
  end.
Proof. vm_compute. reflexivity. Qed.

Definition sample_plan (a : AIResourceAllocation) : Plan :=
  {| pl_Allocation := a; pl_Action := "apply"; pl_Reason := ""; pl_TargetPhase := PlanPhasePendingApply;
     pl_AllocationTier := "max"; pl_RequestedResources := res 3; pl_AssignedResources := res 3;
     pl_ActiveWindow := "" |}.
