(* ===== verification/AgentController.v ===== *)
(** * AgentController: the reconcile loop of the node agent

    internal/agent/controller.go: reading the node's profile and ledgers,
    planning, applying each plan through the backend with its status recorded
    step by step, migrating what cannot be kept, and publishing the node's
    status.  All of it as programs over the calls of [AgentProg].  Registration
    with the controller manager is the table of the requests it enqueues. *)

From stdpp Require Import strings gmap.
From S2P Require Import Prelude GoString Sha256 ApiTypes Samples Resources PluginState PluginReserve.
From S2P Require Import AgentResources LocalLedger LocalScheduler AgentLedger Backend.
From S2P Require Import AgentProg AgentStatus AgentNames.
Local Open Scope string_scope.
Local Open Scope list_scope.
Local Open Scope Z_scope.

Definition nodePhaseReady : string := "Ready".

(** Seconds. *)
Definition defaultRequeueAfter : Z := 60.

Record Config := {
  cfg_NodeName : string;
  cfg_NodeProfileNamespace : string;
  cfg_FakeResourceConfigMap : string;
  cfg_FakeResourceConfigMapNS : string
}.

(** The client and the backend are the calls; [steps] is the number of
    attempts of [retry.DefaultRetry]. *)
Record Reconciler := {
  config : Config;
  local : Scheduler;
  steps : nat
}.

Definition NewReconciler (c : Config) (steps : nat) : Reconciler :=
  {| config := c; local := NewDefaultScheduler; steps := steps |}.

(** ** SetupWithManager: which objects wake the agent *)

Definition nodePredicate (c : Config) (m : ObjectMeta) : bool :=
  bool_decide (map_get (Labels m) AllocationLabelNodeName = cfg_NodeName c).

Definition nodeProfilePredicate (c : Config) (n : AINodeResourceProfile) : bool :=
  bool_decide (ns_NodeName (np_Spec n) = cfg_NodeName c) || bool_decide (Name (np_Meta n) = cfg_NodeName c).

Definition fakeConfigMapPredicate (c : Config) (m : ObjectMeta) : bool :=
  if decide (cfg_FakeResourceConfigMap c = "") then false
  else bool_decide (Name m = cfg_FakeResourceConfigMap c) &&
       (bool_decide (cfg_FakeResourceConfigMapNS c = "")
        || bool_decide (Namespace m = cfg_FakeResourceConfigMapNS c)).

Definition nodeRequest (c : Config) : Key := (cfg_NodeProfileNamespace c, cfg_NodeName c).

(** An event of a watch, and the version of the object the predicates above
    look at. *)
Inductive change (A : Type) := Created (a : A) | Updated (old new : A) | Deleted (a : A).
Arguments Created {A} a.
Arguments Updated {A} old new.
Arguments Deleted {A} a.

Definition newest {A} (e : change A) : A :=
  match e with Created a | Updated _ a | Deleted a => a end.

(** The request each event enqueues, if any.  An allocation is reconciled
    under its own key, the other objects under [nodeRequest]. *)
Record Watches := {
  on_allocation : change AIResourceAllocation -> option Key;
  on_node_profile : change AINodeResourceProfile -> option Key;
  on_config_map : change ObjectMeta -> option Key
}.

Section Watching.
(** predicate.GenerationChangedPredicate *)
Variable GenerationChanged : forall {A : Type}, change A -> bool.

Definition allocationChangePredicate (c : Config) (e : change AIResourceAllocation) : bool :=
  nodePredicate c (al_Meta (newest e)) && GenerationChanged e.

Definition nodeProfileChangePredicate (c : Config) (e : change AINodeResourceProfile) : bool :=
  nodeProfilePredicate c (newest e) && GenerationChanged e.

Definition SetupWithManager (r : Reconciler) : Watches :=
  let c := config r in
  {| on_allocation e :=
       if allocationChangePredicate c e then Some (Namespace (al_Meta (newest e)), Name (al_Meta (newest e))) else None;
     on_node_profile e := if nodeProfileChangePredicate c e then Some (nodeRequest c) else None;
     on_config_map e := if fakeConfigMapPredicate c (newest e) then Some (nodeRequest c) else None |}.
End Watching.

(** A nil map and an empty one are the same here. *)
Definition copyStringMap (source : gmap string string) : gmap string string := source.

(** ** Reading *)

Definition getNodeProfile (r : Reconciler) : prog (AINodeResourceProfile + ApiError) :=
  let c := config r in
  let key := (cfg_NodeProfileNamespace c, cfg_NodeName c) in
  got ← ask (GetNodeProfile key);
  match got with
  | inl (n, _) => Done (inl n)
  | inr err =>
      if negb (IsNotFound err) then Done (inr err)
      else
        items ← ask ListNodeProfiles;
        match items with
        | inr err => Done (inr err)
        | inl items =>
            match List.find (nodeProfilePredicate c) items with
            | Some item => Done (inl item)
            | None =>
                created ← ask (CreateNodeProfile
                  {| np_Meta := {| Name := cfg_NodeName c; Namespace := cfg_NodeProfileNamespace c; UID := "";
                                   Labels := ∅; Annotations := ∅; CreationTimestamp := None;
                                   DeletionTimestamp := None |};
                     np_Spec := {| ns_NodeName := cfg_NodeName c; ns_BackendType := "fake"; ns_GPUs := [];
                                   ns_Runtime := None; ns_Capabilities := None |};
                     np_Status := zero_AINodeResourceProfileStatus |});
                let again :=
                  got ← ask (GetNodeProfile key);
                  match got with
                  | inl (n, _) => Done (inl n)
                  | inr err => Done (inr err)
                  end in
                match created with
                | Some err =>
                    if negb (IsAlreadyExists err)
                    then Done (inr (wrap_error ("create AINodeResourceProfile for node "
                                                +:+ Quote (cfg_NodeName c)) err))
                    else again
                | None => again
                end
            end
        end
  end.

(** The ledgers kept by the loop. *)
Definition live_ledger (c : Config) (a : AIResourceAllocation) : bool :=
  bool_decide (as_NodeName (al_Spec a) = cfg_NodeName c) &&
  negb (bool_decide (ast_Phase (al_Status a) = AllocationPhaseReleased)).

Definition listNodeAllocations (r : Reconciler) : prog (list AIResourceAllocation + ApiError) :=
  items ← ask (ListAllocations {[ AllocationLabelManagedBy := "astra-scheduler";
                                  AllocationLabelNodeName := cfg_NodeName (config r) ]});
  match items with
  | inr err => Done (inr err)
  | inl items => Done (inl (expandNodeAllocationLedgers (List.filter (live_ledger (config r)) items)))
  end.

(** ** Publishing the node's status *)

Definition node_attempt (key : Key) (status : AINodeResourceProfileStatus) : prog (option ApiError) :=
  got ← ask (GetNodeProfile key);
  match got with
  | inr err => Done (Some err)
  | inl (latest, version) =>
      ask (UpdateNodeProfileStatus key version
             {| np_Meta := np_Meta latest; np_Spec := np_Spec latest; np_Status := status |})
  end.

Definition updateNodeProfileStatus (r : Reconciler) (nodeProfile : AINodeResourceProfile)
    (status : AINodeResourceProfileStatus) : prog (option ApiError) :=
  RetryOnConflict (steps r) (node_attempt (object_key (np_Meta nodeProfile)) status).

(** [status] as it is published. *)
Definition published (status : AINodeResourceProfileStatus) (now : Time) : AINodeResourceProfileStatus :=
  {| nst_Phase := nodePhaseReady; nst_ObservedAt := Some now; nst_GPUs := nst_GPUs status;
     nst_Allocatable := nst_Allocatable status; nst_Allocated := nst_Allocated status;
     nst_Available := nst_Available status; nst_HourlyForecast := nst_HourlyForecast status;
     nst_Runtime := nst_Runtime status; nst_Allocations := nst_Allocations status;
     nst_Conditions := nst_Conditions status |}.

(** The node profile as the snapshot leaves it is returned: the caller goes on
    with that object. *)
Definition syncNodeStatus (r : Reconciler) (nodeProfile : AINodeResourceProfile)
    (allocations : list AIResourceAllocation) : prog (AINodeResourceProfile * option ApiError) :=
  snapshot ← ask (BackendSnapshot nodeProfile allocations);
  let '(result, nodeProfile) := snapshot in
  match result with
  | inr err => Done (nodeProfile, Some (OtherError err))
  | inl status =>
      now ← ask Now;
      e ← updateNodeProfileStatus r nodeProfile (published status now);
      Done (nodeProfile, e)
  end.

Definition is_applied (a : AIResourceAllocation) : bool :=
  bool_decide (ast_Phase (al_Status a) = AllocationPhaseApplied).

(** After the list, the code is that of [syncNodeStatus]. *)
Definition refreshNodeStatus (r : Reconciler) (nodeProfile : AINodeResourceProfile) : prog (option ApiError) :=
  allocations ← listNodeAllocations r;
  match allocations with
  | inr err => Done (Some err)
  | inl allocations =>
      res ← syncNodeStatus r nodeProfile (List.filter is_applied allocations);
      Done res.2
  end.

(** ** Migration *)

Definition sourcePodKey (a : AIResourceAllocation) : Key + ApiError :=
  let m := al_Meta a in
  let podName := map_get (Annotations m) AllocationAnnotationSourcePodName in
  let podName := if decide (podName = "") then map_get (Labels m) AllocationLabelWorkloadName else podName in
  if decide (podName = "") then
    inr (OtherError ("allocation " +:+ Namespace m +:+ "/" +:+ Name m +:+ " has no source pod reference"))
  else
    let ns := ref_Namespace (as_WorkloadRef (al_Spec a)) in
    let ns := if decide (ns = "") then
                match as_Workloads (al_Spec a) with [w] => ref_Namespace (aws_WorkloadRef w) | _ => ns end
              else ns in
    let ns := if decide (ns = "") then map_get (Labels m) AllocationLabelWorkloadNamespace else ns in
    let ns := if decide (ns = "") then Namespace m else ns in
    inl (ns, podName).

Definition sourcePodForAllocation (a : AIResourceAllocation) : prog (Pod + ApiError) :=
  match sourcePodKey a with
  | inr err => Done (inr err)
  | inl key => ask (GetPod key)
  end.

(** The pod to create. *)
Definition replacement_pod (name allocationName : string) (source : Pod) : Pod :=
  let m := pod_Meta source in
  {| pod_Meta :=
       {| Name := name; Namespace := Namespace m; UID := "";
          Labels := <["astra.aiinfra.io/replacement-for-pod" := Name m]>
                    (<["astra.aiinfra.io/replacement-for-allocation" := allocationName]>
                     (copyStringMap (Labels m)));
          Annotations := <["astra.aiinfra.io/replacement-reason" := "node-local-migration"]>
                         (copyStringMap (Annotations m));
          CreationTimestamp := None; DeletionTimestamp := None |};
     pod_SchedulerName := SchedulerName; pod_NodeName := ""; pod_Phase := pod_Phase source;
     pod_Rest := pod_Rest source |}.

Definition ensureReplacementPod (a : AIResourceAllocation) (source : Pod) : prog (Pod + ApiError) :=
  let name := replacementPodName (Name (pod_Meta source)) (Name (al_Meta a)) in
  let key := (Namespace (pod_Meta source), name) in
  got ← ask (GetPod key);
  match got with
  | inl replacement => Done (inl replacement)
  | inr err =>
      if negb (IsNotFound err) then Done (inr err)
      else
        created ← ask (CreatePod (replacement_pod name (Name (al_Meta a)) source));
        match created with
        | Some err => if negb (IsAlreadyExists err) then Done (inr err) else ask (GetPod key)
        | None => ask (GetPod key)
        end
  end.

Definition PodRunning : string := "Running".

(** Once the phase is recorded. *)
Definition migrate (r : Reconciler) (a : AIResourceAllocation) : prog (option ApiError) :=
  source ← sourcePodForAllocation a;
  match source with
  | inr err =>
      if IsNotFound err then
        res ← markReleased (steps r) a "source pod is already gone; allocation released";
        Done res.2
      else Done (Some err)
  | inl source =>
      replacement ← ensureReplacementPod a source;
      match replacement with
      | inr err => Done (Some err)
      | inl replacement =>
          if decide (pod_Phase replacement = PodRunning) then
            let release :=
              res ← markReleased (steps r) a ("replacement pod " +:+ Namespace (pod_Meta replacement)
                +:+ "/" +:+ Name (pod_Meta replacement) +:+ " is running; source pod released");
              Done res.2 in
            match DeletionTimestamp (pod_Meta source) with
            | Some _ => release
            | None =>
                deleted ← ask (DeletePod (object_key (pod_Meta source)));
                match deleted with
                | Some err => if IsNotFound err then release else Done (Some err)
                | None => release
                end
            end
          else Done None
      end
  end.

Definition handleMigrationPlan (r : Reconciler) (a : AIResourceAllocation) (plan : Plan)
    : prog (option ApiError) :=
  marked ← (if decide (ast_Phase (al_Status a) = AllocationPhaseMigrating) then Done (a, None)
            else markMigrating (steps r) a plan);
  let '(a, e) := marked in
  match e with
  | Some err => Done (Some err)
  | None => migrate r a
  end.

(** ** Applying plans *)

(** The plan is already in force.  Semantic equality of two resource
    summaries is equality. *)
Definition already_applied (plan : Plan) : bool :=
  let s := al_Status (pl_Allocation plan) in
  bool_decide (ast_Phase s = AllocationPhaseApplied) &&
  match ast_ObservedResources s, ast_Current s, ast_HourlyForecast s with
  | Some observed, Some _, Some _ => bool_decide (observed = pl_AssignedResources plan)
  | _, _, _ => false
  end.

Definition apply_request (nodeProfile : AINodeResourceProfile) (a : AIResourceAllocation) (plan : Plan)
    : ApplyRequest :=
  {| areq_Node := Some nodeProfile; areq_Allocation := Some a; areq_Action := pl_Action plan;
     areq_DesiredResources := Some (pl_AssignedResources plan);
     areq_AllocationTier := pl_AllocationTier plan; areq_TargetPhase := pl_TargetPhase plan;
     areq_Reason := pl_Reason plan |}.

Definition applyPlan (r : Reconciler) (nodeProfile : AINodeResourceProfile) (plan : Plan)
    : prog (option ApiError) :=
  let a := pl_Allocation plan in
  if already_applied plan then Done None
  else if decide (pl_TargetPhase plan = PlanPhaseFailed) then
    if decide (pl_Action plan = ActionEvict) then handleMigrationPlan r a plan
    else res ← markPlanFailed (steps r) a plan; Done res.2
  else
    pending ← markPendingApply (steps r) a plan;
    let '(a, e) := pending in
    match e with
    | Some err => Done (Some err)
    | None =>
        applying ← markApplying (steps r) a plan;
        let '(a, e) := applying in
        match e with
        | Some err => Done (Some err)
        | None =>
            result ← ask (BackendApply (apply_request nodeProfile a plan));
            match result with
            | inr err =>
                _ ← markFailed (steps r) a plan err;
                Done (Some (OtherError err))
            | inl result =>
                res ← markApplied (steps r) a plan result;
                Done res.2
            end
        end
    end.

(** The loop over the plans: the first error ends it. *)
Fixpoint applyPlans (r : Reconciler) (nodeProfile : AINodeResourceProfile) (plans : list Plan)
    : prog (option ApiError) :=
  match plans with
  | [] => Done None
  | plan :: rest =>
      e ← applyPlan r nodeProfile plan;
      match e with
      | Some err => Done (Some err)
      | None => applyPlans r nodeProfile rest
      end
  end.

(** ** Reconciling *)

(** [ctrl.Result]: the seconds until the next run, 0 for none, and the error. *)
Definition Outcome : Type := Z * option ApiError.

Definition reconcileNode (r : Reconciler) : prog Outcome :=
  node ← getNodeProfile r;
  match node with
  | inr err => Done (0, Some err)
  | inl nodeProfile =>
      allocations ← listNodeAllocations r;
      match allocations with
      | inr err => Done (0, Some err)
      | inl allocations =>
          synced ← syncNodeStatus r nodeProfile allocations;
          let '(nodeProfile, e) := synced in
          match e with
          | Some err => Done (5, Some err)
          | None =>
              now ← ask ReadClock;
              match BuildPlansAt (local r) (Some nodeProfile) allocations now with
              | inr err => Done (5, Some (OtherError err))
              | inl plans =>
                  e ← applyPlans r nodeProfile plans;
                  match e with
                  | Some err => Done (5, Some err)
                  | None =>
                      e ← refreshNodeStatus r nodeProfile;
                      match e with
                      | Some err => Done (5, Some err)
                      | None => Done (defaultRequeueAfter, None)
                      end
                  end
              end
          end
      end
  end.

Definition Reconcile (r : Reconciler) (req : Key) : prog Outcome :=
  got ← ask (GetAllocation req);
  match got with
  | inr err => if IsNotFound err then reconcileNode r else Done (0, Some err)
  | inl (a, _) =>
      if decide (as_NodeName (al_Spec a) = cfg_NodeName (config r)) then reconcileNode r
      else Done (0, None)
  end.

(** ** Lemmas: what a [mark] function does *)

Section Marks.
Context (n : nat) (Hn : (0 < n)%nat).

Local Ltac mark a phase f := intros H;
  apply (mark_trace n f _ (object_key (al_Meta a)) phase) in H as [H [now E]]; [|done|done];
  rewrite E; auto.

Lemma markPendingApply_trace a plan t res :
  traces (markPendingApply n a plan) t res ->
  recording (object_key (al_Meta a)) AllocationPhasePendingApply t res.2 /\
  al_Meta res.1 = al_Meta a /\ al_Spec res.1 = al_Spec a.
Proof. mark a AllocationPhasePendingApply (pending_allocation a plan). Qed.

Lemma markApplying_trace a plan t res :
  traces (markApplying n a plan) t res ->
  recording (object_key (al_Meta a)) AllocationPhaseApplying t res.2 /\
  al_Meta res.1 = al_Meta a /\ al_Spec res.1 = al_Spec a.
Proof. mark a AllocationPhaseApplying (applying_allocation a plan). Qed.

Lemma markApplied_trace a plan result t res :
  traces (markApplied n a plan result) t res ->
  recording (object_key (al_Meta a)) AllocationPhaseApplied t res.2 /\ al_Meta res.1 = al_Meta a.
Proof. mark a AllocationPhaseApplied (applied_allocation a plan result). Qed.

Lemma markMigrating_trace a plan t res :
  traces (markMigrating n a plan) t res ->
  recording (object_key (al_Meta a)) AllocationPhaseMigrating t res.2 /\
  al_Meta res.1 = al_Meta a /\ al_Spec res.1 = al_Spec a.
Proof. mark a AllocationPhaseMigrating (migrating_allocation a plan). Qed.

Lemma markReleased_trace a message t res :
  traces (markReleased n a message) t res ->
  recording (object_key (al_Meta a)) AllocationPhaseReleased t res.2 /\ al_Meta res.1 = al_Meta a.
Proof. mark a AllocationPhaseReleased (released_allocation a message). Qed.

Lemma markPlanFailed_trace a plan t res :
  traces (markPlanFailed n a plan) t res ->
  recording (object_key (al_Meta a)) AllocationPhaseFailed t res.2 /\ al_Meta res.1 = al_Meta a.
Proof. mark a AllocationPhaseFailed (failed_allocation a plan (planStatusMessage plan)). Qed.

Lemma markFailed_trace a plan err t a' :
  traces (markFailed n a plan err) t a' ->
  exists e, recording (object_key (al_Meta a)) AllocationPhaseFailed t e.
Proof.
  unfold markFailed. intros H. trace_step. trace_step. trace_step. trace_step.
  match goal with H : traces (updateAllocationStatus _ _ _) _ ?e |- _ => exists e;
    apply updateAllocationStatus_trace in H as [R1 R2]; [|done] end.
  rewrite app_nil_r. split; [constructor; done|]. by apply (record_result_app _ _ [_]).
Qed.
End Marks.

(** ** Lemmas: the cases of applyPlan *)

(** The trace of a plan that reached the backend: both phases recorded, one
    call, the outcome recorded. *)
Definition reached_backend (nodeProfile : AINodeResourceProfile) (plan : Plan) (t : history)
    (e : option ApiError) : Prop :=
  let k := object_key (al_Meta (pl_Allocation plan)) in
  exists t1 t2 t3 a ans,
    t = t1 ++ t2 ++ Event (BackendApply (apply_request nodeProfile a plan)) ans :: t3 /\
    al_Meta a = al_Meta (pl_Allocation plan) /\ al_Spec a = al_Spec (pl_Allocation plan) /\
    recording k AllocationPhasePendingApply t1 None /\ recording k AllocationPhaseApplying t2 None /\
    match ans with
    | inr err => e = Some (OtherError err) /\ exists e', recording k AllocationPhaseFailed t3 e'
    | inl _ => recording k AllocationPhaseApplied t3 e
    end.

Lemma applyPlan_cases r nodeProfile plan t e :
  (0 < steps r)%nat -> traces (applyPlan r nodeProfile plan) t e ->
  let k := object_key (al_Meta (pl_Allocation plan)) in
  (already_applied plan = true /\ t = [] /\ e = None) \/
  (already_applied plan = false /\ pl_TargetPhase plan = PlanPhaseFailed /\ pl_Action plan = ActionEvict /\
   traces (handleMigrationPlan r (pl_Allocation plan) plan) t e) \/
  (already_applied plan = false /\ pl_TargetPhase plan = PlanPhaseFailed /\ pl_Action plan <> ActionEvict /\
   recording k AllocationPhaseFailed t e) \/
  (already_applied plan = false /\ pl_TargetPhase plan <> PlanPhaseFailed /\
   ((is_Some e /\ recording k AllocationPhasePendingApply t e) \/
    (exists t1 t2, is_Some e /\ t = t1 ++ t2 /\ recording k AllocationPhasePendingApply t1 None /\
       recording k AllocationPhaseApplying t2 e) \/
    reached_backend nodeProfile plan t e)).
Proof.
  intros Hs H k. unfold applyPlan in H. destruct (already_applied plan); [left; by destruct H|]. right.
  case_decide as Hp; [|right; right; split; [done|]; split; [done|]].
  { case_decide as Ha; [left; auto|]. right. left. trace_step. trace_step. subst e.
    match goal with H : traces (markPlanFailed _ _ _) _ _ |- _ => apply markPlanFailed_trace in H as [H _]; [|done] end.
    rewrite app_nil_r. auto. }
  trace_step. match goal with H : traces (markPendingApply _ _ _) ?t ?x |- _ =>
    apply markPendingApply_trace in H as (R1 & M1 & S1); [|done]; destruct x as [a1 [err|]] end.
  { trace_step. subst e. left. rewrite app_nil_r. auto. }
  cbn [snd fst] in R1, M1, S1.
  trace_step. match goal with H : traces (markApplying _ _ _) ?t ?x |- _ =>
    apply markApplying_trace in H as (R2 & M2 & S2); [|done]; destruct x as [a2 [err|]] end;
    rewrite M1 in R2; cbn [snd fst] in R2, M2, S2.
  { trace_step. subst e. right. left. do 2 eexists. split; [done|]. split; [done|]. rewrite app_nil_r. auto. }
  trace_step. trace_step. right. right.
  match goal with H : traces (match ?x with _ => _ end) ?t3 _ |- reached_backend _ _ (?t1 ++ ?t2 ++ _) _ =>
    exists t1, t2, t3, a2, x; destruct x as [result|err] end;
    (split; [done|]; split; [by rewrite M2|]; split; [by rewrite S2|]; split; [done|]; split; [done|]);
    trace_step; trace_step; subst e; rewrite app_nil_r.
  - match goal with H : traces (markApplied _ _ _ _) _ _ |- _ => apply markApplied_trace in H as [H _]; [|done] end.
    by rewrite M2, M1 in *.
  - split; [done|]. match goal with H : traces (markFailed _ _ _ _) _ _ |- _ => apply markFailed_trace in H as [e' H]; [|done] end.
    exists e'. by rewrite M2, M1 in *.
Qed.

(** ** Lemmas: which calls a part of the program makes *)

Definition is_apply (c : call) : Prop := match c with BackendApply _ => True | _ => False end.
Definition is_delete (c : call) : Prop := match c with DeletePod _ => True | _ => False end.

Lemma recording_no_apply k phase t e : recording k phase t e -> Forall (fun ev => ~ is_apply (calls ev)) t.
Proof. intros [H _]. eapply Forall_impl; [exact H|]. intros [[] ?]; cbn; tauto. Qed.

Lemma recording_no_delete k phase t e : recording k phase t e -> Forall (fun ev => ~ is_delete (calls ev)) t.
Proof. intros [H _]. eapply Forall_impl; [exact H|]. intros [[] ?]; cbn; tauto. Qed.

(** Which status phases a part writes. *)
Definition writes_phase (phase : string) (c : call) : Prop :=
  match c with UpdateAllocationStatus _ _ b => ast_Phase (al_Status b) = phase | _ => False end.

Lemma recording_other_phase k phase phase' t e :
  phase <> phase' -> recording k phase t e -> Forall (fun ev => ~ writes_phase phase' (calls ev)) t.
Proof.
  intros Hne [H _]. eapply Forall_impl; [exact H|]. intros [[] ?]; cbn; try tauto.
  intros [_ ->]. done.
Qed.

(** ** Migration *)

(** The source pod was read, it is not being deleted, and its replacement was
    seen running. *)
Definition replaced (a : AIResourceAllocation) (source replacement : Pod) (t : history) : Prop :=
  (exists k, sourcePodKey a = inl k /\ Event (GetPod k) (inl source) ∈ t) /\
  Event (GetPod (Namespace (pod_Meta source),
                 replacementPodName (Name (pod_Meta source)) (Name (al_Meta a)))) (inl replacement) ∈ t /\
  pod_Phase replacement = PodRunning.

Definition source_gone (a : AIResourceAllocation) (t : history) : Prop :=
  exists k err, sourcePodKey a = inl k /\ Event (GetPod k) (inr err) ∈ t /\ IsNotFound err = true.

Lemma sourcePodKey_ext a b : al_Meta a = al_Meta b -> al_Spec a = al_Spec b -> sourcePodKey a = sourcePodKey b.
Proof. unfold sourcePodKey. by intros -> ->. Qed.

Definition pod_call (c : call) : Prop := match c with GetPod _ | CreatePod _ => True | _ => False end.

Lemma sourcePod_trace a t r :
  traces (sourcePodForAllocation a) t r ->
  (exists k, sourcePodKey a = inl k /\ t = [Event (GetPod k) r]) \/
  (exists err, sourcePodKey a = inr err /\ t = [] /\ r = inr err).
Proof.
  unfold sourcePodForAllocation. destruct (sourcePodKey a) as [k|err].
  - intros H. trace_step. left. by exists k.
  - intros [-> ->]. right. by exists err.
Qed.

Lemma ensureReplacementPod_trace a source t r :
  traces (ensureReplacementPod a source) t r ->
  Forall (fun ev => pod_call (calls ev)) t /\
  forall replacement, r = inl replacement ->
    Event (GetPod (Namespace (pod_Meta source),
                   replacementPodName (Name (pod_Meta source)) (Name (al_Meta a)))) (inl replacement) ∈ t.
Proof.
  unfold ensureReplacementPod. intros H. trace_step. trace_step.
  match goal with H : traces (match ?g with _ => _ end) _ _ |- _ => destruct g as [pod|err] end.
  { trace_step. subst r. split; [by repeat constructor|]. intros ? [= <-]. apply list_elem_of_here. }
  match goal with H : traces (if ?c then _ else _) _ _ |- _ => destruct c end.
  { trace_step. subst r. split; [by repeat constructor|]. done. }
  trace_step. trace_step.
  assert (G : forall key t r, traces (ask (GetPod key)) t r ->
    Forall (fun ev => pod_call (calls ev)) t /\ forall p, r = inl p -> Event (GetPod key) (inl p) ∈ t).
  { intros key t r' Ht. trace_step. split; [by repeat constructor|]. intros p ->. apply list_elem_of_here. }
  match goal with H : traces (match ?g with _ => _ end) _ _ |- _ => destruct g as [err2|] end;
    [match goal with H : traces (if ?c then _ else _) _ _ |- _ => destruct c end|].
  - trace_step. subst r. split; [by repeat constructor|]. done.
  - match goal with H : traces (ask _) _ _ |- _ => apply G in H as [H1 H2] end.
    split; [by repeat constructor|]. intros p Hp. do 2 apply list_elem_of_further. auto.
  - match goal with H : traces (ask _) _ _ |- _ => apply G in H as [H1 H2] end.
    split; [by repeat constructor|]. intros p Hp. do 2 apply list_elem_of_further. auto.
Qed.

Definition before_release (k : Key) (c : call) : Prop :=
  recorder_call k AllocationPhaseMigrating c \/ pod_call c.

(** A migration: first the phase and the pods, then, if the source is gone or
    replaced, its deletion and the release. *)
Definition release_part (k : Key) (a : AIResourceAllocation) (pre post : history) (e : option ApiError) : Prop :=
  post = [] \/
  (source_gone a pre /\ recording k AllocationPhaseReleased post e) \/
  exists source replacement, replaced a source replacement pre /\
    ((is_Some (DeletionTimestamp (pod_Meta source)) /\ recording k AllocationPhaseReleased post e) \/
     (DeletionTimestamp (pod_Meta source) = None /\ exists ans post',
        post = Event (DeletePod (object_key (pod_Meta source))) ans :: post' /\
        (post' = [] \/ recording k AllocationPhaseReleased post' e))).

Lemma release_trace n a message t e :
  (0 < n)%nat -> traces (res ← markReleased n a message; Done res.2) t e ->
  recording (object_key (al_Meta a)) AllocationPhaseReleased t e.
Proof.
  intros Hn H. trace_step. trace_step. subst e. rewrite app_nil_r.
  match goal with H : traces (markReleased _ _ _) _ _ |- _ => by apply markReleased_trace in H as [H _] end.
Qed.

Lemma sourcePodKey_error a err : sourcePodKey a = inr err -> IsNotFound err = false.
Proof. unfold sourcePodKey. intros H. repeat case_decide; by simplify_eq. Qed.

Lemma migrate_trace r a t e :
  (0 < steps r)%nat ->
  traces (migrate r a) t e ->
  exists pre post, t = pre ++ post /\ Forall (fun ev => pod_call (calls ev)) pre /\
    release_part (object_key (al_Meta a)) a pre post e.
Proof.
  intros Hs H. unfold migrate in H. trace_step.
  match goal with H : traces (sourcePodForAllocation _) ?p ?x |- _ => rename H into Hsrc; rename x into src; rename p into t1 end.
  match goal with H : traces (match src with _ => _ end) ?p _ |- _ => rename H into Hrest; rename p into t2 end.
  assert (Psrc : Forall (fun ev => pod_call (calls ev)) t1)
    by (destruct (sourcePod_trace _ _ _ Hsrc) as [(k & _ & ->)|(err & _ & -> & _)]; by repeat constructor).
  destruct src as [source|err].
  - trace_step. match goal with H : traces (ensureReplacementPod _ _) ?p ?x |- _ => rename H into Hrep; rename x into rep; rename p into t3 end.
    apply ensureReplacementPod_trace in Hrep as [Prep Hin].
    match goal with H : traces (match rep with _ => _ end) ?p _ |- _ => rename H into Hrest'; rename p into t4 end.
    exists (t1 ++ t3), t4. rewrite <- app_assoc. split; [done|]. split; [by apply Forall_app|].
    destruct rep as [rep|err]; [|left; by destruct Hrest']. specialize (Hin rep eq_refl).
    case_decide as Hrun; [|left; by destruct Hrest']. right. right. exists source, rep.
    assert (Hk : exists k, sourcePodKey a = inl k /\ Event (GetPod k) (inl source) ∈ t1).
    { destruct (sourcePod_trace _ _ _ Hsrc) as [(k & Hk & ->)|(err & _ & _ & [=])].
      exists k. split; [done|]. apply list_elem_of_here. }
    split.
    { destruct Hk as (k & Hk & Hk'). split_and!; [|by apply elem_of_app; right|done].
      exists k. split; [done|]. apply elem_of_app. by left. }
    cbv zeta in Hrest'. destruct (DeletionTimestamp (pod_Meta source)) as [ts|] eqn:Hd.
    + left. split; [done|]. by eapply release_trace.
    + right. split; [done|]. trace_step. trace_step.
      match goal with |- context [[Event _ ?ans] ++ ?post'] => exists ans, post'; split; [done|]; destruct ans as [err|] end.
      * destruct (IsNotFound err); [right; by eapply release_trace|]. left. trace_step. done.
      * right. by eapply release_trace.
  - exists t1, t2. split; [done|]. split; [done|].
    destruct (IsNotFound err) eqn:Hnf; [|left; by destruct Hrest]. right. left.
    split; [|by eapply release_trace].
    destruct (sourcePod_trace _ _ _ Hsrc) as [(k & Hk & ->)|(err' & Hk & _ & [= <-])].
    + exists k, err. split_and!; [done|apply list_elem_of_here|done].
    + apply sourcePodKey_error in Hk. congruence.
Qed.

Lemma migration_trace r a plan t e :
  (0 < steps r)%nat -> traces (handleMigrationPlan r a plan) t e ->
  exists pre post, t = pre ++ post /\ Forall (fun ev => before_release (object_key (al_Meta a)) (calls ev)) pre /\
    release_part (object_key (al_Meta a)) a pre post e.
Proof.
  intros Hs H. unfold handleMigrationPlan in H. trace_step.
  match goal with H : traces (if _ then _ else _) ?p ?x |- _ => rename H into Hm; rename x into m; rename p into t0 end.
  match goal with H : traces (let '_ := m in _) ?p _ |- _ => rename H into Hrest; rename p into t1 end.
  assert (M : Forall (fun ev => before_release (object_key (al_Meta a)) (calls ev)) t0 /\
              al_Meta m.1 = al_Meta a /\ al_Spec m.1 = al_Spec a).
  { case_decide; [by destruct Hm as [-> ->]|]. apply markMigrating_trace in Hm as ([Hm _] & E1 & E2); [|done].
    split; [|done]. eapply Forall_impl; [exact Hm|]. by left. }
  destruct M as (M1 & M2 & M3). destruct m as [a' [err|]]; cbn [fst snd] in *.
  { exists t0, t1. split; [done|]. split; [done|]. left. by destruct Hrest. }
  apply migrate_trace in Hrest as (pre & post & -> & Hpre & Hrel); [|done].
  exists (t0 ++ pre), post. rewrite app_assoc. split; [done|]. split.
  { apply Forall_app. split; [done|]. eapply Forall_impl; [exact Hpre|]. by right. }
  rewrite M2 in Hrel. pose proof (sourcePodKey_ext _ _ M2 M3) as EK.
  destruct Hrel as [->|[[(k & err & Hk & Hin & Hn) R]|(source & rep & [(k & Hk & Hin) [Hin2 Hrun]] & R)]].
  - by left.
  - right. left. split; [|done]. exists k, err. rewrite <- EK. split_and!; [done| |done]. apply elem_of_app. by right.
  - right. right. exists source, rep. split; [|done]. rewrite M2 in Hin2. split_and!; [|apply elem_of_app; by right|done].
    exists k. rewrite <- EK. split; [done|]. apply elem_of_app. by right.
Qed.

(** ** Lemmas: the parts around the plans *)

Definition node_call (c : call) : Prop :=
  match c with
  | Now | ReadClock | ListAllocations _ | GetNodeProfile _ | ListNodeProfiles | CreateNodeProfile _
  | UpdateNodeProfileStatus _ _ _ | BackendSnapshot _ _ => True
  | _ => False
  end.

Local Abbreviation node_calls := (Forall (fun ev => node_call (calls ev))).

Lemma getNodeProfile_trace r t x : traces (getNodeProfile r) t x -> node_calls t.
Proof.
  unfold getNodeProfile. intros H. trace_step. trace_step.
  match goal with H : traces (match ?g with _ => _ end) _ _ |- _ => destruct g as [[? ?]|err] end;
    [trace_step; by repeat constructor|].
  match goal with H : traces (if ?c then _ else _) _ _ |- _ => destruct c end; [trace_step; by repeat constructor|].
  trace_step. trace_step.
  match goal with H : traces (match ?g with _ => _ end) _ _ |- _ => destruct g as [items|err2] end;
    [|trace_step; by repeat constructor].
  match goal with H : traces (match ?g with _ => _ end) _ _ |- _ => destruct g end; [trace_step; by repeat constructor|].
  trace_step. trace_step.
  assert (G : forall key t x, traces (got ← ask (GetNodeProfile key);
    match got with inl (n, _) => Done (inl n) | inr err => Done (inr err) end) t x -> node_calls t).
  { intros key t x' Ht. trace_step. trace_step.
    match goal with H : traces (match ?g with _ => _ end) _ _ |- _ => destruct g as [[? ?]|?] end;
      trace_step; by repeat constructor. }
  repeat (apply Forall_app; split; [by repeat constructor|]).
  repeat match goal with H : traces (match ?g with _ => _ end) _ _ |- _ => destruct g end; try (by eapply G).
  trace_step. constructor.
Qed.

Lemma listNodeAllocations_trace r t x :
  traces (listNodeAllocations r) t x -> node_calls t /\
  forall allocations, x = inl allocations -> exists labels items,
    Event (ListAllocations labels) (inl items) ∈ t /\
    allocations = expandNodeAllocationLedgers (List.filter (live_ledger (config r)) items).
Proof.
  unfold listNodeAllocations. intros H. trace_step. trace_step.
  match goal with H : traces (match ?g with _ => _ end) _ _ |- _ => destruct g as [items|err] end; trace_step; subst x;
    (split; [by repeat constructor|]); intros ? [= <-].
  do 2 eexists. split; [apply list_elem_of_here|done].
Qed.

Lemma updateNodeProfileStatus_trace r n s t e :
  (0 < steps r)%nat -> traces (updateNodeProfileStatus r n s) t e -> node_calls t.
Proof.
  intros Hs H. unfold updateNodeProfileStatus in H.
  apply (traces_retry _ _ _ _ node_calls (fun _ _ => True)) in H as [H _]; auto.
  - intros t' r' Ht. unfold node_attempt in Ht. trace_step. trace_step. split; [|done].
    match goal with H : traces (match ?g with _ => _ end) _ _ |- _ => destruct g as [[? ?]|err] end;
      trace_step; by repeat constructor.
  - intros. by apply Forall_app.
Qed.

Lemma syncNodeStatus_trace r n allocations t x :
  (0 < steps r)%nat -> traces (syncNodeStatus r n allocations) t x ->
  node_calls t /\ exists s, Event (BackendSnapshot n allocations) (s, x.1) ∈ t.
Proof.
  unfold syncNodeStatus. intros Hs H. trace_step. trace_step.
  match goal with H : traces (let '_ := ?g in _) _ _ |- _ => destruct g as [[status|err] n'] end.
  - trace_step. trace_step. trace_step. trace_step. subst x.
    match goal with H : traces (updateNodeProfileStatus _ _ _) _ _ |- _ => apply updateNodeProfileStatus_trace in H; [|done] end.
    split.
    + repeat (apply Forall_app; split); try done; by repeat constructor.
    + eexists. apply list_elem_of_here.
  - trace_step. subst x. split; [by repeat constructor|]. eexists. apply list_elem_of_here.
Qed.

Lemma refreshNodeStatus_trace r n t e :
  (0 < steps r)%nat -> traces (refreshNodeStatus r n) t e -> node_calls t.
Proof.
  unfold refreshNodeStatus. intros Hs H. trace_step.
  match goal with H : traces (listNodeAllocations _) _ _ |- _ => apply listNodeAllocations_trace in H as [H1 _] end.
  apply Forall_app. split; [done|].
  match goal with H : traces (match ?g with _ => _ end) _ _ |- _ => destruct g as [allocations|err] end.
  - trace_step. trace_step. rewrite app_nil_r.
    match goal with H : traces (syncNodeStatus _ _ _) _ _ |- _ => by apply syncNodeStatus_trace in H as [H _] end.
  - trace_step. constructor.
Qed.

(** A reconcile: reading and publishing, then the plans, then publishing. *)
Definition plans_part (r : Reconciler) (before t : history) : Prop :=
  t = [] \/
  exists labels items n s n' now plans e,
    let allocations := expandNodeAllocationLedgers (List.filter (live_ledger (config r)) items) in
    Event (ListAllocations labels) (inl items) ∈ before /\
    Event (BackendSnapshot n allocations) (s, n') ∈ before /\ Event ReadClock now ∈ before /\
    BuildPlansAt (local r) (Some n') allocations now = inl plans /\
    traces (applyPlans r n' plans) t e.

Lemma reconcileNode_trace r t out :
  (0 < steps r)%nat -> traces (reconcileNode r) t out ->
  exists t1 t2 t3, t = t1 ++ t2 ++ t3 /\ node_calls t1 /\ node_calls t3 /\ plans_part r t1 t2.
Proof.
  intros Hs H. unfold reconcileNode in H. trace_step.
  match goal with H : traces (getNodeProfile _) ?p _ |- _ => rename p into t1; apply getNodeProfile_trace in H as N1 end.
  match goal with H : traces (match ?g with _ => _ end) _ _ |- _ => destruct g as [n|err] end;
    [|trace_step; exists t1, [], []; rewrite !app_nil_r; split_and!; try done; by left].
  trace_step.
  match goal with H : traces (listNodeAllocations _) ?p _ |- _ => rename p into t2; apply listNodeAllocations_trace in H as [N2 L] end.
  match goal with H : traces (match ?g with _ => _ end) _ _ |- _ => destruct g as [allocations|err] end;
    [|trace_step; exists (t1 ++ t2), [], []; rewrite !app_nil_r; split_and!; try done; [by apply Forall_app|by left]].
  destruct (L _ eq_refl) as (labels & items & Hl & Ea). clear L.
  trace_step.
  match goal with H : traces (syncNodeStatus _ _ _) ?p _ |- _ => rename p into t3;
    apply syncNodeStatus_trace in H as (N3 & s & Hsnap); [|done] end.
  match goal with H : traces (let '_ := ?g in _) _ _ |- _ => destruct g as [n' [err|]]; cbn [fst] in * end.
  { trace_step. exists (t1 ++ t2 ++ t3), [], []. rewrite !app_nil_r.
    split_and!; try done; [by repeat (apply Forall_app; split)|by left]. }
  trace_step. trace_step.
  match goal with |- context [[Event ReadClock ?now] ++ _] => rename now into now' end.
  set (before := t1 ++ t2 ++ t3 ++ [Event ReadClock now']).
  assert (NB : node_calls before) by (unfold before; repeat (apply Forall_app; split); try done; by repeat constructor).
  destruct (BuildPlansAt (local r) (Some n') allocations now') as [plans|err] eqn:Hp.
  2: { trace_step. exists before, [], []. unfold before. rewrite !app_nil_r. split_and!; try done. by left. }
  trace_step.
  match goal with H : traces (applyPlans _ _ _) ?p ?e |- _ => rename p into t4; rename H into HA; rename e into ea end.
  assert (PP : plans_part r before t4).
  { right. exists labels, items, n, s, n', now', plans, ea. subst allocations. unfold before.
    rewrite !elem_of_app, !list_elem_of_singleton. split_and!; auto 6. }
  match goal with H : traces (match ea with _ => _ end) ?p _ |- _ => rename p into t5; rename H into HR end.
  assert (N5 : node_calls t5).
  { destruct ea; [trace_step; constructor|]. trace_step.
    match goal with H : traces (refreshNodeStatus _ _) _ _ |- _ => apply refreshNodeStatus_trace in H; [|done] end.
    apply Forall_app. split; [done|].
    match goal with H : traces (match ?g with _ => _ end) _ _ |- _ => destruct g end; trace_step; constructor. }
  exists before, t4, t5. unfold before. rewrite <- !app_assoc. done.
Qed.

(** ** Order of events *)

(** Every event of a kind comes after what justifies it. *)
Definition justified (X : event -> Prop) (Y : event -> history -> Prop) (t : history) : Prop :=
  forall t1 ev t2, t = t1 ++ ev :: t2 -> X ev -> Y ev t1.

Section Justified.
Context (X : event -> Prop) (Y : event -> history -> Prop).
Context (Hmono : forall ev t u, Y ev t -> Y ev (u ++ t)) (Hmono' : forall ev t u, Y ev t -> Y ev (t ++ u)).

Lemma justified_none t : Forall (fun ev => ~ X ev) t -> justified X Y t.
Proof.
  intros H t1 ev t2 -> Hx. apply Forall_app in H as [_ H]. apply Forall_cons in H as [H _]. done.
Qed.

Lemma justified_app t u : justified X Y t -> justified X Y u -> justified X Y (t ++ u).
Proof.
  intros Ht Hu t1 ev t2 E Hx. apply app_eq_app in E as (l & [[-> E]|[-> E]]).
  - destruct l as [|z l]; cbn in E.
    + specialize (Hu [] ev t2 (eq_sym E) Hx). rewrite <- (app_nil_r t1). by apply Hmono.
    + injection E as <- ->. by eapply Ht.
  - apply Hmono. by eapply Hu.
Qed.

(** What is justified by a later part is so with the events before it. *)
Lemma justified_prefix Z pre post :
  Forall (fun ev => ~ X ev) pre -> justified X Y post -> (forall ev u, Y ev u -> Z ev (pre ++ u)) ->
  justified X Z (pre ++ post).
Proof.
  intros Hp HY HZ t1 ev t2 E Hx. destruct (split_after X _ _ _ _ _ E Hx Hp) as [u ->].
  apply HZ, (HY u ev t2); [|done]. rewrite <- app_assoc in E. by apply app_inv_head in E.
Qed.

(** When the justification comes first. *)
Lemma justified_after pre post :
  Forall (fun ev => ~ X ev) pre -> (forall ev, X ev -> ev ∈ post -> Y ev pre) -> justified X Y (pre ++ post).
Proof.
  intros Hp HY t1 ev t2 E Hx. destruct (split_after X _ _ _ _ _ E Hx Hp) as [u ->].
  apply Hmono'. apply HY; [done|]. rewrite <- app_assoc in E. apply app_inv_head in E. rewrite E.
  apply elem_of_app. right. apply list_elem_of_here.
Qed.
End Justified.

(** A deletion of a pod, and what justifies it: an allocation, of those [P]
    admits, whose source is the pod and is replaced. *)
Definition pod_deletion (ev : event) : Prop := is_delete (calls ev).
Definition after_replacement (P : AIResourceAllocation -> Prop) (ev : event) (t : history) : Prop :=
  exists a source replacement,
    calls ev = DeletePod (object_key (pod_Meta source)) /\ DeletionTimestamp (pod_Meta source) = None /\
    P a /\ replaced a source replacement t.

(** [a] is a workload of a ledger of this node that a listing returned: the
    ledger itself when it has no workload entries, else one of its entries. *)
Definition listed (c : Config) (t : history) (a : AIResourceAllocation) : Prop :=
  exists labels items ledger,
    Event (ListAllocations labels) (inl items) ∈ t /\ ledger ∈ items /\
    as_NodeName (al_Spec ledger) = cfg_NodeName c /\ ast_Phase (al_Status ledger) <> AllocationPhaseReleased /\
    (as_Workloads (al_Spec ledger) = [] /\ a = ledger \/
     exists w, w ∈ as_Workloads (al_Spec ledger) /\ a = expand_workload ledger w).

Definition deletion_due (c : Config) (ev : event) (t : history) : Prop := after_replacement (listed c t) ev t.

(** The record that a plan is applied, and what justifies it. *)
Definition applied_record (ev : event) : Prop := writes_phase AllocationPhaseApplied (calls ev).
Definition after_success (ev : event) (t : history) : Prop :=
  exists node a plan result v b, calls ev = UpdateAllocationStatus (object_key (al_Meta a)) v b /\
    Event (BackendApply (apply_request node a plan)) (inl result) ∈ t.

Lemma replaced_mono a s p t u : replaced a s p t -> replaced a s p (u ++ t) /\ replaced a s p (t ++ u).
Proof.
  intros [(k & Hk & Hin) [Hin2 Hrun]]. split; (split_and!; [exists k; split; [done|]| |done]); apply elem_of_app; auto.
Qed.

Lemma after_replacement_mono P ev t u : after_replacement P ev t -> after_replacement P ev (u ++ t).
Proof. intros (a & s & p & ? & ? & ? & H). exists a, s, p. by destruct (replaced_mono a s p t u H). Qed.
Lemma after_replacement_mono' P ev t u : after_replacement P ev t -> after_replacement P ev (t ++ u).
Proof. intros (a & s & p & ? & ? & ? & H). exists a, s, p. by destruct (replaced_mono a s p t u H). Qed.

Lemma listed_mono c t u a : t ⊆ u -> listed c t a -> listed c u a.
Proof. intros Hs (labels & items & ledger & Hl & H). exists labels, items, ledger. split; [by apply Hs|done]. Qed.

Lemma deletion_due_mono c ev t u : deletion_due c ev t -> deletion_due c ev (u ++ t).
Proof.
  intros (a & s & p & ? & ? & Hl & H). exists a, s, p. destruct (replaced_mono a s p t u H). split_and!; try done.
  eapply listed_mono; [|exact Hl]. intros x. rewrite elem_of_app. auto.
Qed.
Lemma after_success_mono ev t u : after_success ev t -> after_success ev (u ++ t).
Proof. intros (n & a & p & res & v & b & ? & ?). exists n, a, p, res, v, b. split; [done|]. apply elem_of_app. auto. Qed.
Lemma after_success_mono' ev t u : after_success ev t -> after_success ev (t ++ u).
Proof. intros (n & a & p & res & v & b & ? & ?). exists n, a, p, res, v, b. split; [done|]. apply elem_of_app. auto. Qed.

(** *** One plan *)

Lemma migration_calls k a pre post e :
  Forall (fun ev => before_release k (calls ev)) pre -> release_part k a pre post e ->
  Forall (fun ev => before_release k (calls ev) \/ is_delete (calls ev) \/
            recorder_call k AllocationPhaseReleased (calls ev)) (pre ++ post).
Proof.
  intros Hpre Hrel.
  assert (R : forall t e, recording k AllocationPhaseReleased t e ->
    Forall (fun ev => before_release k (calls ev) \/ is_delete (calls ev) \/
              recorder_call k AllocationPhaseReleased (calls ev)) t).
  { intros t e' [R _]. eapply Forall_impl; [exact R|]. auto. }
  apply Forall_app. split; [eapply Forall_impl; [exact Hpre|]; auto|].
  destruct Hrel as [->|[[_ H]|(s & p & _ & [[_ H]|(_ & ans & post' & -> & [->|H])])]]; eauto.
  - apply Forall_singleton. cbn. auto.
  - constructor; [cbn; auto|eauto].
Qed.

Lemma migration_no_applied k a pre post e :
  Forall (fun ev => before_release k (calls ev)) pre -> release_part k a pre post e ->
  Forall (fun ev => ~ applied_record ev) (pre ++ post).
Proof.
  intros Hpre Hrel. eapply Forall_impl; [by eapply migration_calls|]. unfold applied_record.
  intros [[] ?] [[H|H]|[H|H]]; cbn in *; try tauto; destruct H as [_ H]; rewrite H; done.
Qed.

Lemma migration_no_apply k a pre post e :
  Forall (fun ev => before_release k (calls ev)) pre -> release_part k a pre post e ->
  Forall (fun ev => ~ is_apply (calls ev)) (pre ++ post).
Proof.
  intros Hpre Hrel. eapply Forall_impl; [by eapply migration_calls|].
  intros [[] ?] [[H|H]|[H|H]]; cbn in *; tauto.
Qed.

Lemma migration_deletions (P : AIResourceAllocation -> Prop) k a pre post e :
  P a ->
  Forall (fun ev => before_release k (calls ev)) pre -> release_part k a pre post e ->
  justified pod_deletion (after_replacement P) (pre ++ post).
Proof.
  intros Hn Hpre Hrel.
  assert (Np : Forall (fun ev => ~ pod_deletion ev) pre).
  { eapply Forall_impl; [exact Hpre|]. intros [[] ?]; intros [H|H]; cbn in *; tauto. }
  destruct Hrel as [->|[[_ R]|(s & p & Hrep & [[_ R]|(Hd & ans & post' & -> & Hpost)])]].
  - apply justified_none. by rewrite app_nil_r.
  - apply justified_none, Forall_app. split; [done|]. by eapply recording_no_delete.
  - apply justified_none, Forall_app. split; [done|]. by eapply recording_no_delete.
  - apply justified_after; [apply after_replacement_mono'|done|].
    intros ev Hev [->|Hin]%elem_of_cons; [by exists a, s, p|]. exfalso.
    destruct Hpost as [->|R]; [by apply elem_of_nil in Hin|].
    apply recording_no_delete in R. rewrite Forall_forall in R. by apply (R ev).
Qed.

Lemma applyPlan_justified (P : AIResourceAllocation -> Prop) r n plan t e :
  (0 < steps r)%nat -> P (pl_Allocation plan) ->
  traces (applyPlan r n plan) t e ->
  justified pod_deletion (after_replacement P) t /\ justified applied_record after_success t.
Proof.
  intros Hs Hn H. apply applyPlan_cases in H; [|done].
  assert (Quiet : forall k phase t e, phase <> AllocationPhaseApplied -> recording k phase t e ->
    Forall (fun ev => ~ pod_deletion ev) t /\ Forall (fun ev => ~ applied_record ev) t).
  { intros k phase t' e' Hp R. split; [by eapply recording_no_delete|by eapply recording_other_phase]. }
  destruct H as [(_ & -> & _)|[(_ & _ & _ & H)|[(_ & _ & _ & R)|(_ & _ & H)]]].
  - split; by apply justified_none.
  - apply migration_trace in H as (pre & post & -> & Hpre & Hrel); [|done]. split.
    + by eapply migration_deletions.
    + apply justified_none. by eapply migration_no_applied.
  - apply Quiet in R as [R1 R2]; [|done]. split; by apply justified_none.
  - destruct H as [[_ R]|[(t1 & t2 & _ & -> & R1 & R2)|(t1 & t2 & t3 & a & ans & -> & M & _ & R1 & R2 & R3)]].
    + apply Quiet in R as [R1 R2]; [|done]. split; by apply justified_none.
    + apply Quiet in R1 as [R1 R1']; [|done]. apply Quiet in R2 as [R2 R2']; [|done].
      split; apply justified_none, Forall_app; done.
    + apply Quiet in R1 as [R1 R1']; [|done]. apply Quiet in R2 as [R2 R2']; [|done]. split.
      * apply justified_none. repeat (apply Forall_app; split; [done|]). constructor; [cbn; tauto|].
        destruct ans; [|destruct R3 as [_ [? R3]]]; by eapply recording_no_delete.
      * rewrite app_assoc. apply justified_app; [apply after_success_mono| |].
        { apply justified_none, Forall_app. done. }
        destruct ans as [result|err].
        { apply (justified_after _ _ after_success_mono' [_]); [repeat constructor; cbn; tauto|].
          intros ev Hev Hin. destruct R3 as [R3 _]. rewrite Forall_forall in R3. specialize (R3 _ Hin).
          destruct ev as [c x]. unfold applied_record in Hev. cbn in Hev, R3. destruct c; cbn in Hev, R3; try done.
          destruct R3 as [-> _]. exists n, a, plan, result, version, a0. rewrite M. split; [done|]. apply list_elem_of_here. }
        { destruct R3 as [_ [? R3]]. apply Quiet in R3 as [_ R3]; [|done]. apply justified_none.
          constructor; [cbn; tauto|done]. }
Qed.

(** *** All the plans of a reconcile *)

Lemma expanded_listed c items labels t a :
  Event (ListAllocations labels) (inl items) ∈ t ->
  a ∈ expandNodeAllocationLedgers (List.filter (live_ledger c) items) -> listed c t a.
Proof.
  intros Ht. unfold expandNodeAllocationLedgers. rewrite list_elem_of_bind. intros (l & Ha & Hl).
  rewrite list_elem_of_In, filter_In in Hl. destruct Hl as [Hin Hl]. unfold live_ledger in Hl.
  apply andb_true_iff in Hl as [Hl%bool_decide_eq_true Hr%negb_true_iff%bool_decide_eq_false].
  exists labels, items, l. rewrite list_elem_of_In. split_and!; [done..|].
  destruct (as_Workloads (al_Spec l)) as [|w ws].
  - left. by apply list_elem_of_singleton in Ha.
  - right. by apply list_elem_of_fmap in Ha as (w' & -> & Hw); exists w'.
Qed.

Lemma applyPlans_justified (P : AIResourceAllocation -> Prop) r n plans t e :
  (0 < steps r)%nat -> Forall (fun p => P (pl_Allocation p)) plans ->
  traces (applyPlans r n plans) t e ->
  justified pod_deletion (after_replacement P) t /\ justified applied_record after_success t.
Proof.
  intros Hs Hp. revert t. induction Hp as [|p plans Hn Hp IH]; intros t H; cbn [applyPlans] in H.
  { trace_step. split; by apply justified_none. }
  trace_step. match goal with H : traces (applyPlan _ _ _) _ _ |- _ =>
    apply (applyPlan_justified P) in H as [J1 J2]; [|done..] end.
  assert (J : forall t', (justified pod_deletion (after_replacement P) t' /\ justified applied_record after_success t') ->
    justified pod_deletion (after_replacement P) (x0 ++ t') /\ justified applied_record after_success (x0 ++ t')).
  { intros t' [J3 J4]. split; apply justified_app; auto using after_replacement_mono, after_success_mono. }
  apply J. match goal with H : traces (match ?g with _ => _ end) _ _ |- _ => destruct g; [trace_step; split; by apply justified_none|] end.
  by apply IH.
Qed.

Lemma reconcileNode_justified r t out :
  (0 < steps r)%nat -> traces (reconcileNode r) t out ->
  justified pod_deletion (deletion_due (config r)) t /\ justified applied_record after_success t.
Proof.
  intros Hs H. apply reconcileNode_trace in H as (t1 & t2 & t3 & -> & N1 & N3 & P); [|done].
  assert (Q : forall t, node_calls t -> Forall (fun ev => ~ pod_deletion ev) t /\ Forall (fun ev => ~ applied_record ev) t).
  { intros t N. split; (eapply Forall_impl; [exact N|]); unfold applied_record, pod_deletion; intros [[] ?]; cbn; tauto. }
  destruct (Q _ N1) as [Q1 Q1'], (Q _ N3) as [Q3 Q3'].
  assert (J : justified pod_deletion (after_replacement (listed (config r) t1)) t2 /\
              justified applied_record after_success t2).
  { destruct P as [->|(labels & items & n & s & n' & now & plans & e & Hl & _ & _ & Hb & Ht)].
    { split; by apply justified_none. }
    eapply applyPlans_justified; [done| |exact Ht]. apply Forall_forall. intros p Hp.
    eapply BuildPlansAt_elem in Hb as [Hin _]; [|exact Hp]. by eapply expanded_listed. }
  destruct J as [J1 J2]. split.
  - rewrite app_assoc. apply justified_app; [apply deletion_due_mono| |by apply justified_none].
    eapply justified_prefix; [done|exact J1|]. intros ev u (a & s & p & ? & ? & Hl & Hr). exists a, s, p.
    destruct (replaced_mono a s p u t1 Hr). split_and!; try done.
    eapply listed_mono; [|exact Hl]. intros x. rewrite elem_of_app. auto.
  - repeat (apply justified_app; [auto using after_success_mono| |]); try done; by apply justified_none.
Qed.

Lemma Reconcile_trace r req t out :
  traces (Reconcile r req) t out ->
  exists ans t', t = Event (GetAllocation req) ans :: t' /\ (t' = [] \/ traces (reconcileNode r) t' out).
Proof.
  unfold Reconcile. intros H. trace_step. trace_step. do 2 eexists. split; [done|].
  match goal with H : traces (match ?g with _ => _ end) _ _ |- _ => destruct g as [[a v]|err] end.
  - case_decide; [auto|left; by destruct H0].
  - destruct (IsNotFound err); [auto|left; by destruct H0].
Qed.

Lemma Reconcile_justified r req t out :
  (0 < steps r)%nat -> traces (Reconcile r req) t out ->
  justified pod_deletion (deletion_due (config r)) t /\ justified applied_record after_success t.
Proof.
  intros Hs H. apply Reconcile_trace in H as (ans & t' & -> & H).
  assert (J : justified pod_deletion (deletion_due (config r)) t' /\ justified applied_record after_success t').
  { destruct H as [->|H]; [split; by apply justified_none|]. by eapply reconcileNode_justified. }
  destruct J as [J1 J2]. change (Event (GetAllocation req) ans :: t') with ([Event (GetAllocation req) ans] ++ t').
  split; (apply justified_app; [auto using deletion_due_mono, after_success_mono| |done]);
    apply justified_none; repeat constructor; cbn; tauto.
Qed.

(** C3: the agent never takes a workload down before its replacement is up: in
    every reconcile, whatever the API server answers, a pod is deleted only
    after a listing returned a ledger of this node that is not Released and has
    a workload [a] with this pod as its source, the pod was read and is not
    being deleted, and the pod with the replacement's name was seen running; and
    for a source with a legal name of at most 48 characters that is another pod
    than the one deleted. *)
Theorem pods_are_deleted_after_replacement r req t out t1 key ans t2 :
  (0 < steps r)%nat -> traces (Reconcile r req) t out -> t = t1 ++ Event (DeletePod key) ans :: t2 ->
  exists labels items ledger a source replacement,
    Event (ListAllocations labels) (inl items) ∈ t1 /\ ledger ∈ items /\
    as_NodeName (al_Spec ledger) = cfg_NodeName (config r) /\
    ast_Phase (al_Status ledger) <> AllocationPhaseReleased /\
    (as_Workloads (al_Spec ledger) = [] /\ a = ledger \/
     exists w, w ∈ as_Workloads (al_Spec ledger) /\ a = expand_workload ledger w) /\
    key = object_key (pod_Meta source) /\
    DeletionTimestamp (pod_Meta source) = None /\ replaced a source replacement t1 /\
    (dashed (Name (pod_Meta source)) -> (String.length (Name (pod_Meta source)) <= 48)%nat ->
     (Namespace (pod_Meta source), replacementPodName (Name (pod_Meta source)) (Name (al_Meta a))) <> key).
Proof.
  intros Hs Ht E. destruct (Reconcile_justified _ _ _ _ Hs Ht) as [J _].
  destruct (J _ _ _ E I) as (a & source & rep & [= ->] & Hd & (labels & items & ledger & Hl) & Hr).
  destruct_and! Hl. exists labels, items, ledger, a, source, rep. split_and!; try done.
  intros Hdash Hlen [= Ek]. by eapply replacement_name_new.
Qed.

(** C8: a budget is never reported as applied unless the backend accepted it:
    in every reconcile, the write of the phase Applied to a ledger comes after
    a successful call of the backend for an allocation of that ledger. *)
Theorem applied_is_recorded_after_success r req t out t1 k v b ans t2 :
  (0 < steps r)%nat -> traces (Reconcile r req) t out ->
  t = t1 ++ Event (UpdateAllocationStatus k v b) ans :: t2 ->
  ast_Phase (al_Status b) = AllocationPhaseApplied ->
  exists node a plan result, k = object_key (al_Meta a) /\
    Event (BackendApply (apply_request node a plan)) (inl result) ∈ t1.
Proof.
  intros Hs Ht E Hp. destruct (Reconcile_justified _ _ _ _ Hs Ht) as [_ J].
  destruct (J _ _ _ E Hp) as (n & a & plan & result & v' & b' & [= -> _ _] & Hin). by exists n, a, plan, result.
Qed.

(** ** Budgets *)

(** The budgets a trace hands to the backend. *)
Definition granted (t : history) : list ResourceSummary :=
  omap (fun ev => match ev with Event (BackendApply req) _ => areq_DesiredResources req | _ => None end) t.

Lemma granted_none t : Forall (fun ev => ~ is_apply (calls ev)) t -> granted t = [].
Proof. unfold granted. induction 1 as [|[[] ?] t H _ IH]; cbn in *; tauto. Qed.

Lemma granted_app t u : granted (t ++ u) = granted t ++ granted u.
Proof. apply omap_app. Qed.

Lemma applyPlan_granted r n plan t e :
  (0 < steps r)%nat -> traces (applyPlan r n plan) t e ->
  granted t = [] \/ (pl_TargetPhase plan <> PlanPhaseFailed /\ granted t = [pl_AssignedResources plan]).
Proof.
  intros Hs H. apply applyPlan_cases in H; [|done].
  assert (Q : forall k phase t e, recording k phase t e -> granted t = [])
    by (intros; by eapply granted_none, recording_no_apply).
  destruct H as [(_ & -> & _)|[(_ & _ & _ & H)|[(_ & _ & _ & R)|(_ & Hp & H)]]]; [by left| |left; by eapply Q|].
  - left. apply migration_trace in H as (pre & post & -> & Hpre & Hrel); [|done].
    by eapply granted_none, migration_no_apply.
  - destruct H as [[_ R]|[(t1 & t2 & _ & -> & R1 & R2)|(t1 & t2 & t3 & a & ans & -> & _ & _ & R1 & R2 & R3)]].
    + left. by eapply Q.
    + left. by rewrite granted_app, (Q _ _ _ _ R1), (Q _ _ _ _ R2).
    + right. split; [done|]. rewrite !granted_app, (Q _ _ _ _ R1), (Q _ _ _ _ R2). cbn [app].
      change (granted (Event (BackendApply (apply_request n a plan)) ans :: t3))
        with (pl_AssignedResources plan :: granted t3).
      destruct ans; [|destruct R3 as [_ [? R3]]]; by rewrite (Q _ _ _ _ R3).
Qed.

Lemma applyPlans_granted r n plans t e :
  (0 < steps r)%nat ->
  Forall (fun p => rs_nonneg (pl_AssignedResources p) /\
            (pl_TargetPhase p = PlanPhasePendingApply \/ pl_TargetPhase p = PlanPhaseFailed)) plans ->
  traces (applyPlans r n plans) t e -> rs_le (rs_sum (granted t)) (accepted_total plans).
Proof.
  intros Hs Hp. revert t. induction Hp as [|p plans [Hn Hph] Hp IH]; intros t H; cbn [applyPlans] in H.
  { trace_step. by apply rs_zero_le, rs_zero_nonneg. }
  trace_step. rewrite granted_app, rs_sum_app, accepted_total_cons.
  assert (L : rs_le (rs_sum (granted x1)) (accepted_total plans)).
  { match goal with H : traces (match ?g with _ => _ end) _ _ |- _ => destruct g; [trace_step|by apply IH] end.
    apply rs_zero_le. unfold accepted_total. apply rs_sum_nonneg, Forall_fmap. apply Forall_forall.
    intros q Hq. rewrite list_elem_of_In, filter_In in Hq. destruct Hq as [Hq _].
    rewrite Forall_forall in Hp. rewrite <- list_elem_of_In in Hq. by apply Hp in Hq as [? _]. }
  match goal with H : traces (applyPlan _ _ _) _ _ |- _ => apply applyPlan_granted in H as [->|[Hne ->]]; [| |done] end.
  - cbn. rewrite rs_plus_0_l. revert L. destruct (accepted p); rewrite ?rs_plus_0_l; [|done]. clear -Hn. intros L.
    revert L Hn. generalize (rs_sum (granted x1)), (accepted_total plans), (pl_AssignedResources p). intros x y z ??. rs_solve.
  - assert (A : accepted p = true) by (unfold accepted; apply bool_decide_eq_true; by destruct Hph).
    rewrite A. cbn. rewrite rs_plus_0_r. clear -L. revert L.
    generalize (rs_sum (granted x1)), (accepted_total plans), (pl_AssignedResources p). intros x y z ?. rs_solve.
Qed.

(** C2: one reconcile never hands the backend more than the node has.  Provided
    every budget of the listed ledgers is non-negative (the API types set no
    minimum, and a negative budget does break the bound) and the snapshots of
    the backend leave a node profile within the 32-bit types, the budgets of all
    the backend calls of the reconcile together stay within the capacity
    observed on the node profile it planned for, however much the ledgers ask
    for and whatever the API server answers to the other calls. *)
Theorem reconcile_within_capacity c n req t out :
  let r := NewReconciler c n in
  (0 < n)%nat -> traces (Reconcile r req) t out ->
  (forall labels items, Event (ListAllocations labels) (inl items) ∈ t ->
     Forall budgets_nonneg (expandNodeAllocationLedgers items)) ->
  (forall node allocations s node', Event (BackendSnapshot node allocations) (s, node') ∈ t -> node_typed node') ->
  granted t = [] \/
  exists node allocations s node', Event (BackendSnapshot node allocations) (s, node') ∈ t /\
    rs_le (rs_sum (granted t)) (plan_capacity NewDefaultScheduler (Some node')).
Proof.
  intros r Hn Ht Hl Hs. apply Reconcile_trace in Ht as (ans & t' & -> & [->|Ht]); [by left|].
  apply reconcileNode_trace in Ht as (t1 & t2 & t3 & -> & N1 & N3 & P); [|done].
  assert (In1 : forall ev, ev ∈ t1 -> ev ∈ Event (GetAllocation req) ans :: t1 ++ t2 ++ t3)
    by (intros ev Hev; rewrite elem_of_cons, !elem_of_app; auto).
  assert (Q : forall t, node_calls t -> granted t = []).
  { intros t N. apply granted_none. eapply Forall_impl; [exact N|]. intros [[] ?]; cbn; tauto. }
  change (granted (Event (GetAllocation req) ans :: t1 ++ t2 ++ t3)) with (granted (t1 ++ t2 ++ t3)).
  rewrite !granted_app, (Q _ N1), (Q _ N3), app_nil_r. cbn [app].
  destruct P as [->|(labels & items & node & s & node' & now & plans & e & HL & HS & _ & Hb & Htr)]; [by left|].
  right. do 4 eexists. split; [by apply In1|].
  assert (Hneg : Forall budgets_nonneg (expandNodeAllocationLedgers (List.filter (live_ledger (config r)) items))).
  { specialize (Hl _ _ (In1 _ HL)). clear -Hl. unfold expandNodeAllocationLedgers in *.
    rewrite Forall_forall in *. intros a Ha. apply Hl. rewrite list_elem_of_bind in *.
    destruct Ha as (l & Ha & Hin). exists l. split; [done|].
    rewrite list_elem_of_In, filter_In in Hin. destruct Hin as [Hin _]. by apply list_elem_of_In. }
  assert (Hty : forall m, Some node' = Some m -> node_typed m).
  { intros m [= <-]. eapply Hs. by apply In1. }
  destruct (plans_within_capacity (local r) (Some node') _ now default_managers_lawful Hty Hneg) as (plans' & Hb' & Hle).
  rewrite Hb in Hb'. injection Hb' as <-.
  etrans; [|exact Hle]. apply (applyPlans_granted r node' plans t2 e Hn); [|exact Htr].
  apply Forall_forall. intros p Hp. eapply BuildPlansAt_elem in Hb as (Hin & Hph & Hnn); [|exact Hp].
  split; [|done]. apply Hnn. rewrite Forall_forall in Hneg. by apply Hneg.
Qed.

(** ** Example clusters *)

Definition sample_config : Config :=
  {| cfg_NodeName := "node-a"; cfg_NodeProfileNamespace := "astra-system"; cfg_FakeResourceConfigMap := "";
     cfg_FakeResourceConfigMapNS := "" |}.

Definition sample_workload (required preferred maximum : Z) (evict : bool) : AllocationWorkloadSpec :=
  {| aws_Name := "default-chat"; aws_WorkloadRef := zero_Ref; aws_SourcePodName := "chat"; aws_SourcePodUID := "";
     aws_WorkloadType := "online"; aws_Priority := "high"; aws_DemandShape := "mixed"; aws_TimeWindows := [];
     aws_ResourceRequest := Some (request required preferred maximum); aws_AssignedGPU := None;
     aws_Resources := Some (res preferred); aws_Desired := None; aws_AllocationType := "guaranteed";
     aws_Actions := Some {| act_Reclaimable := evict; act_Throttleable := false; act_Pauseable := false;
                            act_Evictable := evict |};
     aws_Reason := "" |}.

(** A node with capacity 8 and one ledger entry. *)
Definition sample_ledger (w : AllocationWorkloadSpec) : AIResourceAllocation :=
  with_workloads (allocation "node-a-allocation" "high" [] 1 2 3) [w].

(** A cluster in which every pod exists and runs. *)
Definition running_pod (key : Key) : Pod :=
  {| pod_Meta := {| Name := key.2; Namespace := key.1; UID := ""; Labels := ∅; Annotations := ∅;
                    CreationTimestamp := None; DeletionTimestamp := None |};
     pod_SchedulerName := SchedulerName; pod_NodeName := "node-a"; pod_Phase := "Running"; pod_Rest := "" |}.

Definition pods_oracle (a : AIResourceAllocation) : oracle := fun h c =>
  match c with
  | GetPod key => inl (running_pod key)
  | c => ledger_oracle a h c
  end.

Definition example_run (w : AllocationWorkloadSpec) : Outcome * history :=
  run (pods_oracle (sample_ledger w)) (Reconcile (NewReconciler sample_config 5) ("astra-system", "node-a")) [].

Definition answer_ok (ev : event) : Prop :=
  match ev with
  | Event (ListAllocations _) (inl items) => Forall budgets_nonneg (expandNodeAllocationLedgers items)
  | Event (BackendSnapshot _ _) (_, n) => node_typed n
  | _ => True
  end.

Lemma sample_node_typed : node_typed (node_with 8 6 []).
Proof. split; [|done]. intros a [= <-]. compute_decide. Qed.

Lemma pods_oracle_ok w :
  Forall budgets_nonneg (expandNodeAllocationLedgers [sample_ledger w]) ->
  forall h c, answer_ok (Event c (pods_oracle (sample_ledger w) h c)).
Proof. intros Hw h []; cbn; try done. apply sample_node_typed. Qed.

Lemma example_traces w :
  traces (Reconcile (NewReconciler sample_config 5) ("astra-system", "node-a")) (example_run w).2 (example_run w).1.
Proof. apply traces_run. Qed.

Lemma reconcile_within_capacity_witness :
  let t := (example_run (sample_workload 1 2 3 false)).2 in
  granted t <> [] /\
  exists node allocations s node', Event (BackendSnapshot node allocations) (s, node') ∈ t /\
    rs_le (rs_sum (granted t)) (plan_capacity NewDefaultScheduler (Some node')).
Proof.
  assert (Hw : Forall budgets_nonneg (expandNodeAllocationLedgers [sample_ledger (sample_workload 1 2 3 false)]))
    by (apply Forall_singleton; compute_decide).
  assert (Hok : Forall answer_ok (example_run (sample_workload 1 2 3 false)).2)
    by (apply run_forall, pods_oracle_ok, Hw).
  assert (G : granted (example_run (sample_workload 1 2 3 false)).2 <> []) by compute_decide.
  rewrite Forall_forall in Hok. split; [exact G|].
  destruct (reconcile_within_capacity sample_config 5 ("astra-system", "node-a")
              (example_run (sample_workload 1 2 3 false)).2 (example_run (sample_workload 1 2 3 false)).1)
    as [E|E]; [lia|apply example_traces| | |by destruct (G E)|exact E].
  - intros labels items Hin. exact (Hok _ Hin).
  - intros node allocations s node' Hin. exact (Hok _ Hin).
Defined.

Definition deletes (ev : event) : bool := match calls ev with DeletePod _ => true | _ => false end.

Lemma pods_are_deleted_after_replacement_witness :
  let t := (example_run (sample_workload 9 9 9 true)).2 in
  exists t1 key ans t2, t = t1 ++ Event (DeletePod key) ans :: t2 /\
    exists labels items ledger a source replacement,
      Event (ListAllocations labels) (inl items) ∈ t1 /\ ledger ∈ items /\
      as_NodeName (al_Spec ledger) = "node-a" /\
      key = object_key (pod_Meta source) /\ replaced a source replacement t1.
Proof.
  destruct (first_event deletes (example_run (sample_workload 9 9 9 true)).2) as (t1 & [c ans] & t2 & E & Hd);
    [vm_compute; reflexivity|].
  destruct c; try discriminate Hd. exists t1, key, ans, t2. split; [exact E|].
  destruct (pods_are_deleted_after_replacement (NewReconciler sample_config 5) ("astra-system", "node-a")
    (example_run (sample_workload 9 9 9 true)).2 (example_run (sample_workload 9 9 9 true)).1 t1 key ans t2)
    as (labels & items & ledger & a & source & replacement & Hl & Hi & Hn & _ & _ & Hk & _ & Hr & _);
    [cbn; lia|apply example_traces|exact E|].
  exists labels, items, ledger, a, source, replacement. auto.
Defined.

Definition marks_applied (ev : event) : bool :=
  match calls ev with
  | UpdateAllocationStatus _ _ b => bool_decide (ast_Phase (al_Status b) = AllocationPhaseApplied)
  | _ => false
  end.

Lemma applied_is_recorded_after_success_witness :
  let t := (example_run (sample_workload 1 2 3 false)).2 in
  exists t1 k v b ans t2, t = t1 ++ Event (UpdateAllocationStatus k v b) ans :: t2 /\
    exists node a plan result, k = object_key (al_Meta a) /\
      Event (BackendApply (apply_request node a plan)) (inl result) ∈ t1.
Proof.
  destruct (first_event marks_applied (example_run (sample_workload 1 2 3 false)).2) as (t1 & [c ans] & t2 & E & Hd);
    [vm_compute; reflexivity|].
  destruct c; try discriminate Hd. exists t1, key, version, a, ans, t2. split; [exact E|].
  apply (applied_is_recorded_after_success (NewReconciler sample_config 5) ("astra-system", "node-a")
    (example_run (sample_workload 1 2 3 false)).2 (example_run (sample_workload 1 2 3 false)).1
    t1 key version a ans t2); [cbn; lia|apply example_traces|exact E|].
  cbn in Hd. by apply bool_decide_eq_true in Hd.
Defined.

(** ** One plan at a time *)





(** ** A cluster that answers *)

(** The server knows the ledgers and takes the writes, the backend accepts. *)
Definition cooperative (o : oracle) : Prop :=
  forall h c, match c return answer c -> Prop with
    | GetAllocation _ => fun r => exists a v, r = inl (a, v)
    | UpdateAllocationStatus _ _ _ => fun r => r = None
    | BackendApply req => fun r => areq_Allocation req <> None -> exists result, r = inl result
    | _ => fun _ => True
    end (o h c).

Lemma run_bind {A B} o (p : prog A) (f : A -> prog B) h :
  run o (p ≫= f) h = run o (f (run o p h).1) (run o p h).2.
Proof. revert h. induction p as [a|c k IH]; intros h; cbn; [done|]. apply IH. Qed.

Lemma cooperative_update o n a action h :
  cooperative o -> (run o (updateAllocationStatus n a action) h).1 = None.
Proof.
  intros Ho. unfold updateAllocationStatus.
  assert (A : forall h, (run o (update_attempt a action) h).1 = None).
  { intros h'. unfold update_attempt. rewrite run_bind. cbn [run ask fst snd].
    destruct (Ho h' (GetAllocation (object_key (al_Meta a)))) as (b & v & ->). rewrite run_bind.
    cbn [run ask fst snd]. match goal with |- context [o ?h (UpdateAllocationStatus ?k ?v ?b)] =>
      pose proof (Ho h (UpdateAllocationStatus k v b)) as E end. cbn in E. by rewrite E. }
  destruct n as [|n]; [done|]. cbn [RetryOnConflict]. rewrite run_bind, A. done.
Qed.

Lemma cooperative_mark o n (f : Time -> AIResourceAllocation) action h :
  cooperative o ->
  (run o (now ← ask Now; r ← updateAllocationStatus n (f now) action; Done (f now, r)) h).1.2 = None.
Proof.
  intros Ho. rewrite run_bind. cbn [run ask fst snd]. rewrite run_bind. cbn. by apply cooperative_update.
Qed.

(** A server that knows the ledgers never reports one gone. *)
Lemma cooperative_not_gone {A} o (p : prog A) k : cooperative o -> ~ Exists (reported_gone k) (run o p []).2.
Proof.
  intros Ho. apply Forall_not_Exists, run_forall. intros h c Hg.
  pose proof (Ho h c) as Hc. destruct c; cbn in Hg, Hc; try done.
  - destruct Hc as (a & v & Hc). by rewrite Hc in Hg.
  - by rewrite Hc in Hg.
Qed.

(** C31: on a cluster that answers, an accepted plan is carried through: the
    run ends without error, the backend has been called with the plan's
    budget and the status Applied was taken by the server. *)
Theorem applyPlan_completes o r nodeProfile plan :
  cooperative o -> (0 < steps r)%nat ->
  already_applied plan = false -> pl_TargetPhase plan = PlanPhasePendingApply ->
  let '(e, t) := run o (applyPlan r nodeProfile plan) [] in
  e = None /\ granted t = [pl_AssignedResources plan] /\
  Exists (written (object_key (al_Meta (pl_Allocation plan))) AllocationPhaseApplied) t.
Proof.
  intros Ho Hs Ha Hp. destruct (run o (applyPlan r nodeProfile plan) []) as [e t] eqn:E.
  assert (He : e = None).
  { apply (f_equal fst) in E. cbn in E. rewrite <- E. unfold applyPlan. rewrite Ha, decide_False by (by rewrite Hp).
    rewrite run_bind. set (x := run o (markPendingApply _ _ _) _).
    assert (X : x.1.2 = None) by (by apply cooperative_mark). destruct x as [[a1 e1] h1]. cbn [fst snd] in X |- *. subst e1.
    rewrite run_bind. set (y := run o (markApplying _ _ _) _).
    assert (Y : y.1.2 = None) by (by apply cooperative_mark). destruct y as [[a2 e2] h2]. cbn [fst snd] in Y |- *. subst e2.
    rewrite run_bind. cbn [run ask fst snd].
    match goal with |- context [o ?h (BackendApply ?q)] => destruct (Ho h (BackendApply q)) as [result ->]; [done|] end.
    rewrite run_bind. cbn. by apply cooperative_mark. }
  split; [done|]. subst e.
  assert (T : traces (applyPlan r nodeProfile plan) t None).
  { pose proof (traces_run o (applyPlan r nodeProfile plan)) as T. by rewrite E in T. }
  apply applyPlan_cases in T; [|done]. rewrite Ha, Hp in T.
  destruct T as [(? & _)|[(_ & ? & _)|[(_ & ? & _)|(_ & _ & [[[? ?] _]|[(? & ? & [? ?] & _)|T]])]]]; try done.
  destruct T as (t1 & t2 & t3 & a & ans & -> & _ & _ & R1 & R2 & R3).
  destruct ans as [result|err]; [|by destruct R3].
  split.
  - rewrite !granted_app.
    change (granted (Event (BackendApply (apply_request nodeProfile a plan)) (inl result) :: t3))
      with (pl_AssignedResources plan :: granted t3).
    by rewrite !granted_none by (by eapply recording_no_apply).
  - pose proof (cooperative_not_gone o (applyPlan r nodeProfile plan)
      (object_key (al_Meta (pl_Allocation plan))) Ho) as Hng. rewrite E in Hng. cbn [snd] in Hng.
    rewrite !Exists_app, Exists_cons in Hng |- *. right. right. right. destruct R3 as [_ [R3|R3]]; tauto.
Qed.

Lemma applyPlan_completes_witness :
  let plan := sample_plan (sample_ledger (sample_workload 1 2 3 false)) in
  let '(e, t) := run (pods_oracle (pl_Allocation plan)) (applyPlan (NewReconciler sample_config 5) (node_with 8 6 []) plan) [] in
  e = None /\ granted t = [pl_AssignedResources plan] /\
  Exists (written (object_key (al_Meta (pl_Allocation plan))) AllocationPhaseApplied) t.
Proof.
  intros plan. apply (applyPlan_completes (pods_oracle (pl_Allocation plan)) (NewReconciler sample_config 5)).
  - intros h [] ; cbn; try done; [by do 2 eexists|]. intros Hq. unfold FakeBackend_Apply.
    destruct (areq_Allocation req); [by eexists|done].
  - cbn. lia.
  - vm_compute. reflexivity.
  - reflexivity.
Defined.

(** ** Two ways to lose a workload *)

(** C40: one released workload hides the others: the release of any workload of
    a ledger makes the phase of the whole ledger Released, and from then on the
    agent expands nothing from it, although its spec keeps all the workloads. *)
Theorem one_release_hides_the_ledger n a message t res k v b ans c :
  (0 < n)%nat -> traces (markReleased n a message) t res ->
  Event (UpdateAllocationStatus k v b) ans ∈ t ->
  (exists latest, Event (GetAllocation k) (inl (latest, v)) ∈ t /\ al_Spec b = al_Spec latest) /\
  expandNodeAllocationLedgers (List.filter (live_ledger c) [b]) = [].
Proof.
  intros Hn Ht Hin. pose proof (markReleased_trace n Hn _ _ _ _ Ht) as [[R _] _].
  rewrite Forall_forall in R. pose proof (R _ Hin) as [_ Hp]. split.
  - unfold markReleased in Ht. trace_step. trace_step. trace_step. trace_step. rewrite app_nil_r in Hin |- *.
    apply elem_of_cons in Hin as [[=]|Hin].
    match goal with H : traces (updateAllocationStatus _ _ _) _ _ |- _ =>
      destruct (update_writes _ _ _ _ _ Hn H _ _ _ _ Hin) as (latest & Hg & ->) end.
    exists latest. split; [by apply list_elem_of_further|done].
  - cbn [List.filter]. unfold live_ledger. rewrite Hp, (bool_decide_true (_ = AllocationPhaseReleased)) by done.
    by rewrite andb_false_r.
Qed.

Definition writes_status (ev : event) : bool :=
  match calls ev with UpdateAllocationStatus _ _ _ => true | _ => false end.

Lemma one_release_hides_the_ledger_witness :
  let ledger := with_workloads (sample_ledger (sample_workload 1 2 3 true))
                  [sample_workload 1 2 3 true; sample_workload 1 1 1 false] in
  let t := (run (ledger_oracle ledger) (markReleased 5 (sample_ledger (sample_workload 1 2 3 true)) "released") []).2 in
  exists k v b ans, Event (UpdateAllocationStatus k v b) ans ∈ t /\
    expandNodeAllocationLedgers (List.filter (live_ledger sample_config) [b]) = [].
Proof.
  intros ledger t. destruct (first_event writes_status t) as (t1 & [c ans] & t2 & E & Hd); [vm_compute; reflexivity|].
  destruct c; try discriminate Hd. exists key, version, a, ans.
  assert (Hin : Event (UpdateAllocationStatus key version a) ans ∈ t)
    by (rewrite E; apply elem_of_app; right; apply list_elem_of_here).
  split; [exact Hin|].
  apply (one_release_hides_the_ledger 5 (sample_ledger (sample_workload 1 2 3 true)) "released" t
    (run (ledger_oracle ledger) (markReleased 5 (sample_ledger (sample_workload 1 2 3 true)) "released") []).1
    key version a ans sample_config); [lia|apply traces_run|exact Hin].
Defined.

(** A replacement with a long name that has to move again is taken for its own
    replacement: it is deleted and no pod is created. *)
Theorem second_migration_loses_the_pod :
  let pod := replacementPodName long_pod_name "node-a-allocation" in
  let w := {| aws_Name := "default-chat"; aws_WorkloadRef := zero_Ref; aws_SourcePodName := pod;
              aws_SourcePodUID := ""; aws_WorkloadType := "online"; aws_Priority := "high";
              aws_DemandShape := "mixed"; aws_TimeWindows := [];
              aws_ResourceRequest := Some (request 9 9 9); aws_AssignedGPU := None;
              aws_Resources := Some (res 9); aws_Desired := None; aws_AllocationType := "guaranteed";
              aws_Actions := aws_Actions (sample_workload 9 9 9 true); aws_Reason := "" |} in
  let t := (example_run w).2 in
  omap (fun ev => match calls ev with DeletePod key => Some key.2 | _ => None end) t = [pod] /\
  existsb (fun ev => match calls ev with CreatePod _ => true | _ => false end) t = false.
Proof. split; vm_compute; reflexivity. Qed.
