(* ===== verification/AgentConvergence.v ===== *)
(** * AgentConvergence: how long a reconcile takes and when it has nothing to do

    About internal/agent as a whole, over the models of [AgentController] and
    [AgentStatus]: a bound on the calls of one reconcile; planning does not
    read the recorded status, so a plan that was carried out is found in force
    and left alone, and a reconcile that finds all plans in force only
    publishes the node's status; where the recorder misses, the plan is
    carried out again. *)

From stdpp Require Import strings gmap.
From S2P Require Import Prelude GoString ApiTypes Samples Resources PluginState PluginReserve.
From S2P Require Import AgentResources LocalLedger LocalScheduler AgentLedger Backend.
From S2P Require Import AgentProg AgentStatus AgentNames AgentController.
Local Open Scope string_scope.
Local Open Scope list_scope.
Local Open Scope Z_scope.

(** ** Counting calls *)

Section Bounds.
Local Open Scope nat_scope.

(** Whatever the answers, at most [n] calls. *)
Definition at_most {A} (n : nat) (p : prog A) : Prop := forall t a, traces p t a -> length t <= n.

Lemma at_most_done {A} n (a : A) : at_most n (Done a).
Proof. intros t b [-> _]. cbn. lia. Qed.

Lemma at_most_ask n c : 1 <= n -> at_most n (ask c).
Proof. intros Hn t r ->%traces_ask. done. Qed.

Lemma at_most_le {A} m n (p : prog A) : m <= n -> at_most m p -> at_most n p.
Proof. intros Hmn Hp t a Ht. specialize (Hp t a Ht). lia. Qed.

Lemma at_most_bind {A B} m n k (p : prog A) (f : A -> prog B) :
  at_most m p -> (forall a, at_most n (f a)) -> m + n <= k -> at_most k (p ≫= f).
Proof.
  intros Hp Hf Hk t b (a & t1 & t2 & -> & H1 & H2)%traces_bind. rewrite length_app.
  specialize (Hp _ _ H1). specialize (Hf _ _ _ H2). lia.
Qed.

Lemma at_most_call {B} n c (f : answer c -> prog B) :
  1 <= n -> (forall a, at_most (n - 1) (f a)) -> at_most n (ask c ≫= f).
Proof. intros Hn Hf. apply (at_most_bind 1 (n - 1)); [by apply at_most_ask|done|lia]. Qed.

Lemma at_most_retry m s body : at_most m body -> at_most (s * m) (RetryOnConflict s body).
Proof.
  intros Hb. induction s as [|s IH]; [apply at_most_done|]. cbn [RetryOnConflict].
  apply (at_most_bind m (s * m)); [done| |lia]. intros [[]|]; try apply at_most_done.
  by destruct s; [apply at_most_done|].
Qed.

End Bounds.

(** Straight-line code: calls one by one, all branches. *)
Ltac count :=
  repeat (cbv zeta; match goal with
    | |- at_most _ (Done _) => apply at_most_done
    | |- at_most ?n (ask ?c) => refine (at_most_ask n c _); lia
    | |- at_most _ (ask _ ≫= _) => apply at_most_call; [lia|intros ?]
    | |- at_most _ (match ?x with _ => _ end) => destruct x
    end).

Section ReconcileBounds.
Local Open Scope nat_scope.
Context (s : nat).

Lemma update_attempt_bound a action : at_most 2 (update_attempt a action).
Proof. unfold update_attempt. count. Qed.

Lemma updateAllocationStatus_bound a action : at_most (s * 2) (updateAllocationStatus s a action).
Proof. apply at_most_retry, update_attempt_bound. Qed.

(** All [mark] functions: the clock, then the write. *)
Lemma mark_bound {A} (f : Time -> AIResourceAllocation) action (g : Time -> option ApiError -> A) :
  at_most (1 + s * 2) (now ← ask Now; r ← updateAllocationStatus s (f now) action; Done (g now r)).
Proof.
  apply at_most_call; [lia|]. intros now.
  apply (at_most_bind (s * 2) 0); [apply updateAllocationStatus_bound|intros; apply at_most_done|lia].
Qed.

Lemma marked_bound {A B} n (f : Time -> AIResourceAllocation) action (g : Time -> option ApiError -> A)
    (k : A -> prog B) :
  1 + s * 2 <= n -> (forall a, at_most (n - (1 + s * 2)) (k a)) ->
  at_most n ((now ← ask Now; r ← updateAllocationStatus s (f now) action; Done (g now r)) ≫= k).
Proof. intros Hn Hk. eapply at_most_bind; [apply mark_bound|exact Hk|lia]. Qed.

Lemma ensureReplacementPod_bound a source : at_most 3 (ensureReplacementPod a source).
Proof. unfold ensureReplacementPod. count. Qed.

Lemma sourcePodForAllocation_bound a : at_most 1 (sourcePodForAllocation a).
Proof. unfold sourcePodForAllocation. count. Qed.

Lemma migrate_bound r a : steps r = s -> at_most (6 + s * 2) (migrate r a).
Proof.
  intros Es. unfold migrate. rewrite Es.
  apply (at_most_bind 1 (5 + s * 2)); [apply sourcePodForAllocation_bound| |lia].
  assert (Hrel : forall n message, 1 + s * 2 <= n ->
    at_most n (res ← markReleased s a message; Done res.2)).
  { intros n message Hn. apply marked_bound; [lia|]. intros; count. }
  intros [source|err]; [|count; apply Hrel; lia].
  apply (at_most_bind 3 (2 + s * 2)); [apply ensureReplacementPod_bound| |lia].
  intros [replacement|err]; count; apply Hrel; lia.
Qed.

Lemma handleMigrationPlan_bound r a plan : steps r = s -> at_most (7 + s * 4) (handleMigrationPlan r a plan).
Proof.
  intros Es. unfold handleMigrationPlan. apply (at_most_bind (1 + s * 2) (6 + s * 2)); [| |lia].
  - rewrite Es. case_decide; [apply at_most_done|apply mark_bound].
  - intros [b e]. destruct e; [apply at_most_done|]. by apply migrate_bound.
Qed.

(** One plan. *)
Lemma applyPlan_bound r n plan : steps r = s -> at_most (7 + s * 6) (applyPlan r n plan).
Proof.
  intros Es. unfold applyPlan. rewrite Es. destruct (already_applied plan); [apply at_most_done|].
  case_decide; [case_decide|].
  - apply (at_most_le (7 + s * 4)); [lia|]. by apply handleMigrationPlan_bound.
  - apply marked_bound; [lia|intros; apply at_most_done].
  - apply marked_bound; [lia|]. intros [b e]. destruct e; [apply at_most_done|].
    apply marked_bound; [lia|]. intros [b' e]. destruct e; [apply at_most_done|].
    apply at_most_call; [lia|]. intros [result|err]; (apply marked_bound; [lia|intros; apply at_most_done]).
Qed.

Lemma applyPlans_bound r n plans : steps r = s -> at_most (length plans * (7 + s * 6)) (applyPlans r n plans).
Proof.
  intros Es. induction plans as [|plan plans IH]; [apply at_most_done|]. cbn [applyPlans length].
  apply (at_most_bind (7 + s * 6) (length plans * (7 + s * 6))); [by apply applyPlan_bound| |lia].
  intros [err|]; [apply at_most_done|done].
Qed.

Lemma getNodeProfile_bound r : at_most 4 (getNodeProfile r).
Proof. unfold getNodeProfile. count. Qed.

Lemma updateNodeProfileStatus_bound r n status :
  steps r = s -> at_most (s * 2) (updateNodeProfileStatus r n status).
Proof. intros Es. unfold updateNodeProfileStatus. rewrite Es. apply at_most_retry. unfold node_attempt. count. Qed.

Lemma syncNodeStatus_bound r n l : steps r = s -> at_most (2 + s * 2) (syncNodeStatus r n l).
Proof.
  intros Es. unfold syncNodeStatus. apply at_most_call; [lia|]. intros [[status|err] n']; [|apply at_most_done].
  apply at_most_call; [lia|]. intros now.
  apply (at_most_bind (s * 2) 0); [by apply updateNodeProfileStatus_bound|intros; apply at_most_done|lia].
Qed.

Lemma listNodeAllocations_bound r : at_most 1 (listNodeAllocations r).
Proof. unfold listNodeAllocations. count. Qed.

Lemma refreshNodeStatus_bound r n : steps r = s -> at_most (3 + s * 2) (refreshNodeStatus r n).
Proof.
  intros Es. unfold refreshNodeStatus.
  apply (at_most_bind 1 (2 + s * 2)); [apply listNodeAllocations_bound| |lia].
  intros [l|err]; [|apply at_most_done].
  apply (at_most_bind (2 + s * 2) 0); [by apply syncNodeStatus_bound|intros; apply at_most_done|lia].
Qed.

End ReconcileBounds.

(** The workloads of the largest listing of a trace. *)
Definition workloads_listed (c : Config) (t : history) : nat :=
  list_max (omap (fun ev => match ev with
                            | Event (ListAllocations _) (inl items) =>
                                Some (length (expandNodeAllocationLedgers (List.filter (live_ledger c) items)))
                            | _ => None
                            end) t).

Lemma listed_le c t labels items :
  Event (ListAllocations labels) (inl items) ∈ t ->
  (length (expandNodeAllocationLedgers (List.filter (live_ledger c) items)) <= workloads_listed c t)%nat.
Proof.
  intros Hin. unfold workloads_listed.
  pose proof (proj1 (list_max_le _ _) (Nat.le_refl (list_max (omap (fun ev => match ev with
    | Event (ListAllocations _) (inl items) =>
        Some (length (expandNodeAllocationLedgers (List.filter (live_ledger c) items)))
    | _ => None end) t)))) as H.
  rewrite List.Forall_forall in H. apply H. apply list_elem_of_In, list_elem_of_omap.
  by exists (Event (ListAllocations labels) (inl items)).
Qed.

(** The results of a reconcile. *)
Definition reconcile_result (out : Outcome) : Prop :=
  out = (defaultRequeueAfter, None) \/ out = (0, None) \/ exists err, out = (0, Some err) \/ out = (5, Some err).

(** Whatever the answers, the result is in [Q]. *)
Definition returns {A} (Q : A -> Prop) (p : prog A) : Prop := forall t a, traces p t a -> Q a.

Lemma returns_done {A} (Q : A -> Prop) a : Q a -> returns Q (Done a).
Proof. by intros HQ t b [_ ->]. Qed.

Lemma returns_bind {A B} (Q : B -> Prop) (p : prog A) (f : A -> prog B) :
  (forall a, returns Q (f a)) -> returns Q (p ≫= f).
Proof. intros Hf t b (a & t1 & t2 & _ & _ & H)%traces_bind. by eapply Hf. Qed.

Lemma Reconcile_result r req : returns reconcile_result (Reconcile r req).
Proof.
  unfold Reconcile, reconcileNode, reconcile_result.
  repeat match goal with
    | |- returns _ (Done _) => apply returns_done; eauto 6
    | |- returns _ (_ ≫= _) => apply returns_bind; intros ?
    | |- returns _ (match ?x with _ => _ end) => destruct x
    end.
Qed.

Lemma reconcileNode_bound r t out :
  traces (reconcileNode r) t out ->
  (length t <= 11 + steps r * 4 + workloads_listed (config r) t * (7 + steps r * 6))%nat.
Proof.
  intros H. unfold reconcileNode in H.
  apply traces_bind in H as (node & t1 & t' & -> & H1 & H).
  pose proof (getNodeProfile_bound r _ _ H1) as B1. destruct node as [n|err].
  2: { trace_step. rewrite app_nil_r. lia. }
  apply traces_bind in H as (allocations & t2 & t'' & -> & H2 & H).
  pose proof (listNodeAllocations_bound r _ _ H2) as B2. apply listNodeAllocations_trace in H2 as [_ L].
  destruct allocations as [allocations|err].
  2: { trace_step. rewrite !length_app. cbn [length]. lia. }
  destruct (L _ eq_refl) as (labels & items & Hl & ->). clear L.
  apply traces_bind in H as (synced & t3 & t4 & -> & H3 & H).
  pose proof (syncNodeStatus_bound (steps r) r _ _ eq_refl _ _ H3) as B3.
  set (t := t1 ++ t2 ++ t3 ++ t4).
  assert (Hk : forall l, l = expandNodeAllocationLedgers (List.filter (live_ledger (config r)) items) ->
    (length l <= workloads_listed (config r) t)%nat).
  { intros l ->. apply (listed_le _ _ labels). unfold t. rewrite !elem_of_app. auto. }
  assert (B4 : (length t4 <= 4 + steps r * 2 + workloads_listed (config r) t * (7 + steps r * 6))%nat);
    [|unfold t in *; rewrite !length_app; lia].
  destruct synced as [n' [err|]]; [trace_step; cbn; lia|].
  trace_step. trace_step. match goal with H : traces (match BuildPlansAt _ _ _ ?now with _ => _ end) _ _ |- _ =>
    destruct (BuildPlansAt _ _ _ now) as [plans|err] eqn:Hp end; [|trace_step; cbn; lia].
  assert (Hn : length plans = length (expandNodeAllocationLedgers (List.filter (live_ledger (config r)) items))).
  { rewrite <- (length_fmap pl_Allocation), (BuildPlansAt_allocations _ _ _ _ _ Hp).
    apply Permutation_length, SliceStable_perm. }
  specialize (Hk _ eq_refl). rewrite <- Hn in Hk.
  match goal with H : traces (applyPlans _ _ _ ≫= _) _ _ |- _ => rename H into HA end.
  assert (HB : at_most (3 + steps r * 2 + length plans * (7 + steps r * 6))
    (e ← applyPlans r n' plans; match e with
      | Some err => Done (5, Some err)
      | None => e ← refreshNodeStatus r n'; match e with
          | Some err => Done (5, Some err) | None => Done (defaultRequeueAfter, None) end end)).
  { eapply at_most_bind; [by apply applyPlans_bound| |apply Nat.eq_le_incl, Nat.add_comm].
    intros [err|]; [apply at_most_done|].
    eapply at_most_bind; [by apply refreshNodeStatus_bound| |apply Nat.eq_le_incl, Nat.add_0_r].
    intros [err|]; apply at_most_done. }
  apply HB in HA. cbn [length app]. nia.
Qed.

(** C12: a reconcile always ends: whatever the API server, the clock and the
    backend answer, it returns one of its results after a bounded number of
    calls, linear in the number of workloads listed for the node and in the
    number of attempts of a retry loop. *)
Theorem reconcile_terminates r req o :
  let '(out, t) := run o (Reconcile r req) [] in
  reconcile_result out /\
  (length t <= 12 + steps r * 4 + workloads_listed (config r) t * (7 + steps r * 6))%nat.
Proof.
  pose proof (traces_run o (Reconcile r req)) as H. destruct (run o (Reconcile r req) []) as [out t]. cbn in H.
  split; [exact (Reconcile_result r req _ _ H)|].
  apply Reconcile_trace in H as (ans & t' & -> & [->|H]); [cbn; lia|].
  apply reconcileNode_bound in H. cbn [length].
  assert (E : workloads_listed (config r) (Event (GetAllocation req) ans :: t') = workloads_listed (config r) t') by done.
  rewrite E. lia.
Qed.

(** ** Planning does not read the recorded status *)

Section Blind.
Context (g : AIResourceAllocation -> AIResourceAllocationStatus).

(** The same allocation with another status, and its plan. *)
Definition restatus (a : AIResourceAllocation) : AIResourceAllocation := with_status a (g a).

Definition replan (p : Plan) : Plan :=
  {| pl_Allocation := restatus (pl_Allocation p); pl_Action := pl_Action p; pl_Reason := pl_Reason p;
     pl_TargetPhase := pl_TargetPhase p; pl_AllocationTier := pl_AllocationTier p;
     pl_RequestedResources := pl_RequestedResources p; pl_AssignedResources := pl_AssignedResources p;
     pl_ActiveWindow := pl_ActiveWindow p |}.

Lemma SliceStable_map {A} (lt : A -> A -> bool) (f : A -> A) l :
  (forall a b, lt (f a) (f b) = lt a b) -> SliceStable lt (map f l) = map f (SliceStable lt l).
Proof.
  intros Hf.
  assert (Hi : forall x l, stable_insert lt (f x) (map f l) = map f (stable_insert lt x l)).
  { intros x l'. induction l' as [|y l' IH]; cbn; [done|]. rewrite Hf. destruct (lt y x); cbn; [|done].
    f_equal. exact IH. }
  induction l as [|x l IH]; [done|]. cbn. fold (SliceStable lt (map f l)) (SliceStable lt l).
  rewrite IH. apply Hi.
Qed.

Lemma group_loop_restatus groups p current (l : list AIResourceAllocation) :
  group_loop (map (map restatus) groups) p (map restatus current) (map restatus l) =
  map (map restatus) (group_loop groups p current l).
Proof.
  revert groups p current. induction l as [|a l IH]; intros groups p current; cbn [map group_loop].
  - by rewrite map_app.
  - change (priorityOf (restatus a)) with (priorityOf a).
    case_decide; rewrite <- IH; by rewrite map_app.
Qed.

Lemma group_restatus l :
  groupAllocationsByPriority (map restatus l) = map (map restatus) (groupAllocationsByPriority l).
Proof. destruct l as [|a l]; [done|]. apply (group_loop_restatus [] _ []). Qed.

Lemma buildPlan_restatus node st l a now active :
  buildPlanForAllocation NewDefaultScheduler node st l (restatus a) now active =
  let '(l', p) := buildPlanForAllocation NewDefaultScheduler node st l a now active in (l', replan p).
Proof.
  unfold buildPlanForAllocation.
  change (ActionFor (actionPolicy NewDefaultScheduler) (restatus a))
    with (ActionFor (actionPolicy NewDefaultScheduler) a).
  destruct (ActionFor _ a) as [action reason].
  change (activeTimeWindow (as_TimeWindows (al_Spec (restatus a))) now)
    with (activeTimeWindow (as_TimeWindows (al_Spec a)) now).
  change (choose_budget (restatus a)) with (choose_budget a).
  destruct (choose_budget _ _ _ _) as [[[target fit] candidates] reason'].
  change (allocationKey (restatus a)) with (allocationKey a).
  destruct (reserve _ _ _ _) as [l' [[assigned tier] ok]]. destruct ok; [|done]. cbn [negb].
  change (validateResources NewDefaultScheduler st (with_resources (restatus a) assigned))
    with (validateResources NewDefaultScheduler st (with_resources a assigned)).
  destruct (vres_Allowed _); [|done]. cbn [negb].
  change (checkConstraints NewDefaultScheduler
    {| cr_Node := node; cr_Allocation := Some (with_resources (restatus a) assigned); cr_Action := action;
       cr_Snapshots := st_Snapshots st |})
    with (checkConstraints NewDefaultScheduler
    {| cr_Node := node; cr_Allocation := Some (with_resources a assigned); cr_Action := action;
       cr_Snapshots := st_Snapshots st |}).
  by destruct (cres_Allowed _).
Qed.
Lemma plan_group_restatus node st now active l group :
  plan_group NewDefaultScheduler node st now active l (map restatus group) =
  let '(l', plans) := plan_group NewDefaultScheduler node st now active l group in (l', map replan plans).
Proof.
  revert l. induction group as [|a group IH]; intros l; [done|]. cbn [map plan_group].
  rewrite buildPlan_restatus. destruct (buildPlanForAllocation _ _ _ _ _ _ _) as [l1 p].
  rewrite IH. by destruct (plan_group _ _ _ _ _ _ _).
Qed.

Lemma plan_groups_restatus node st now l groups :
  plan_groups NewDefaultScheduler node st now l (map (map restatus) groups) =
  let '(l', plans) := plan_groups NewDefaultScheduler node st now l groups in (l', map replan plans).
Proof.
  revert l. induction groups as [|group groups IH]; intros l; [done|]. cbn [map plan_groups].
  assert (E : hasAnyActiveTimeWindow (map restatus group) now = hasAnyActiveTimeWindow group now).
  { induction group as [|a group IHg]; [done|]. cbn. f_equal. exact IHg. }
  rewrite E, plan_group_restatus. destruct (plan_group _ _ _ _ _ _ _) as [l1 plans].
  rewrite IH. destruct (plan_groups _ _ _ _ _ _) as [l2 more]. by rewrite map_app.
Qed.

Lemma BuildPlansAt_restatus node allocations now :
  BuildPlansAt NewDefaultScheduler node (map restatus allocations) now =
  match BuildPlansAt NewDefaultScheduler node allocations now with
  | inl plans => inl (map replan plans)
  | inr err => inr err
  end.
Proof.
  unfold BuildPlansAt, orderAllocationsByPriorityAndWindow. rewrite SliceStable_map by done.
  set (ordered := SliceStable (less now) allocations).
  destruct (observe_equiv NewDefaultScheduler node (map restatus ordered) ordered default_managers_lawful)
    as (a & b & -> & -> & Hab).
  assert (Hcap : capacityFromState a = capacityFromState b) by (by rewrite Hab).
  rewrite Hcap, group_restatus, plan_groups_restatus. rewrite !plan_groups_seq,
    (plan_seq_equiv _ _ a b) by (done || apply default_managers_lawful || apply default_constraints_lawful).
  by destruct (plan_seq _ _ _ _ _ _).
Qed.

End Blind.

(** ** Nothing to do *)

(** The allocations a listing stands for. *)
Definition view (c : Config) (items : list AIResourceAllocation) : list AIResourceAllocation :=
  expandNodeAllocationLedgers (List.filter (live_ledger c) items).

(** The status of a plan that was carried out and recorded. *)
Definition in_force (p : Plan) (s : AIResourceAllocationStatus) : Prop :=
  ast_Phase s = AllocationPhaseApplied /\ ast_ObservedResources s = Some (pl_AssignedResources p) /\
  is_Some (ast_Current s) /\ is_Some (ast_HourlyForecast s).

Lemma in_force_applied p : in_force p (al_Status (pl_Allocation p)) -> already_applied p = true.
Proof.
  intros (H1 & H2 & [x H3] & [y H4]). unfold already_applied. rewrite H1, H2, H3, H4.
  by rewrite !bool_decide_eq_true_2.
Qed.

Lemma applyPlans_quiet r n plans :
  Forall (fun p => already_applied p = true) plans -> applyPlans r n plans = Done None.
Proof.
  induction 1 as [|p plans Hp _ IH]; [done|]. cbn [applyPlans]. unfold applyPlan. rewrite Hp. exact IH.
Qed.

(** The cluster holds still: ledgers, node profile and clock. *)
Definition still (items : list AIResourceAllocation) (n : AINodeResourceProfile) (now : Clock) (ev : event) : Prop :=
  match ev with
  | Event (ListAllocations _) r => r = inl items
  | Event (BackendSnapshot _ _) r => r.2 = n
  | Event ReadClock r => r = now
  | _ => True
  end.

(** C11: a node that is as planned is left alone: once the plans made for the
    listed ledgers are recorded as applied, a reconcile of the same ledgers at
    the same time and capacity neither calls the backend nor writes a ledger nor
    touches a pod; it reads, and publishes the node's status. *)
Theorem settled_reconcile_is_quiet c k req t out n now items items' plans g :
  (0 < k)%nat ->
  BuildPlansAt NewDefaultScheduler (Some n) (view c items) now = inl plans ->
  view c items' = map (restatus g) (view c items) ->
  Forall (fun p => in_force p (g (pl_Allocation p))) plans ->
  Forall (still items' n now) t ->
  traces (Reconcile (NewReconciler c k) req) t out ->
  Forall (fun ev => calls ev = GetAllocation req \/ node_call (calls ev)) t.
Proof.
  intros Hk Hplans Hview Hforce Hstill (ans & t' & -> & H)%Reconcile_trace.
  constructor; [by left|]. apply Forall_cons in Hstill as [_ Hstill].
  destruct H as [->|H]; [constructor|].
  apply reconcileNode_trace in H as (t1 & t2 & t3 & -> & N1 & N3 & P); [|done].
  assert (Hnode : forall u, Forall (fun ev => node_call (calls ev)) u ->
    Forall (fun ev => calls ev = GetAllocation req \/ node_call (calls ev)) u)
    by (intros u Hu; eapply Forall_impl; [exact Hu|by right]).
  assert (E : t2 = []); [|subst t2; apply Forall_app; split; auto].
  destruct P as [->|(labels & items0 & n0 & s0 & n' & now' & plans' & e & HL & HS & HC & Hb & Htr)]; [done|].
  apply Forall_app in Hstill as [Hstill _]. rewrite Forall_forall in Hstill.
  pose proof (Hstill _ HL) as [= ->]. pose proof (Hstill _ HS) as En. pose proof (Hstill _ HC) as Ec.
  cbn in En, Ec. subst n' now'.
  change (expandNodeAllocationLedgers (List.filter (live_ledger (config (NewReconciler c k))) items'))
    with (view c items') in Hb. change (local (NewReconciler c k)) with NewDefaultScheduler in Hb.
  rewrite Hview, BuildPlansAt_restatus, Hplans in Hb. injection Hb as <-.
  rewrite applyPlans_quiet in Htr; [by destruct Htr|].
  apply Forall_map. eapply Forall_impl; [exact Hforce|]. intros p Hp. by apply in_force_applied.
Qed.

(** ** What a plan that was carried out leaves behind *)

(** The allocation [markApplied] records, after the two marks before it. *)
Definition carried_out (plan : Plan) (result : ApplyResult) (now1 now2 now3 : Time) : AIResourceAllocation :=
  applied_allocation (applying_allocation (pending_allocation (pl_Allocation plan) plan now1) plan now2)
    plan result now3.

Lemma recording_not_applied k v b ans :
  ast_Phase (al_Status b) = AllocationPhaseApplied ->
  forall k' phase t e, recording k' phase t e -> phase <> AllocationPhaseApplied ->
    Event (UpdateAllocationStatus k v b) ans ∉ t.
Proof.
  intros Hb k' phase u e' [R _] Hp Hu. rewrite Forall_forall in R. destruct (R _ Hu) as [_ E]. congruence.
Qed.

(** In a trace of a plan the phase Applied is written only by [markApplied]. *)
Lemma applied_write r n plan t e k v b ans :
  (0 < steps r)%nat -> traces (applyPlan r n plan) t e ->
  Event (UpdateAllocationStatus k v b) ans ∈ t -> ast_Phase (al_Status b) = AllocationPhaseApplied ->
  exists latest req result now1 now2 now3,
    Event (GetAllocation k) (inl (latest, v)) ∈ t /\ Event (BackendApply req) (inl result) ∈ t /\
    b = with_status latest (next_status (al_Status (carried_out plan result now1 now2 now3)) (al_Status latest)).
Proof.
  intros Hs H Hin Hb.
  assert (Hnot := recording_not_applied k v b ans Hb).
  unfold applyPlan in H. destruct (already_applied plan); [by destruct H as [-> _]; apply elem_of_nil in Hin|].
  case_decide as Hp; [case_decide as Ha|].
  - apply migration_trace in H as (pre & post & -> & Hpre & Hrel); [|done].
    pose proof (migration_no_applied _ _ _ _ _ Hpre Hrel) as N. rewrite Forall_forall in N. by destruct (N _ Hin).
  - trace_step. trace_step. rewrite app_nil_r in Hin.
    match goal with H : traces (markPlanFailed _ _ _) _ _ |- _ => apply markPlanFailed_trace in H as [R _]; [|done] end.
    by destruct (Hnot _ _ _ _ R ltac:(done)).
  - apply traces_bind in H as (m1 & t1 & t' & -> & H1 & H).
    unfold markPendingApply in H1. apply (mark_trace _ _ _ (object_key (al_Meta (pl_Allocation plan)))
      AllocationPhasePendingApply) in H1 as [R1 [now1 E1]]; [|done|done].
    apply elem_of_app in Hin as [Hin|Hin]; [by destruct (Hnot _ _ _ _ R1 ltac:(done))|].
    destruct m1 as [a1 [err|]]; cbn [fst] in E1; [by destruct H as [-> _]; apply elem_of_nil in Hin|].
    apply traces_bind in H as (m2 & t2 & t'' & -> & H2 & H).
    unfold markApplying in H2. apply (mark_trace _ _ _ (object_key (al_Meta a1))
      AllocationPhaseApplying) in H2 as [R2 [now2 E2]]; [|done|done].
    apply elem_of_app in Hin as [Hin|Hin]; [by destruct (Hnot _ _ _ _ R2 ltac:(done))|].
    destruct m2 as [a2 [err|]]; cbn [fst] in E2; [by destruct H as [-> _]; apply elem_of_nil in Hin|].
    apply traces_bind in H as (result & t3 & t4 & -> & H3 & H). apply traces_ask in H3 as ->.
    apply elem_of_cons in Hin as [[=]|Hin]. destruct result as [result|err].
    + trace_step. trace_step. rewrite app_nil_r in Hin.
      match goal with H : traces (markApplied _ _ _ _) _ _ |- _ => rename H into H4; unfold markApplied in H4 end.
      trace_step. trace_step. trace_step. trace_step. rewrite app_nil_r in Hin.
      apply elem_of_cons in Hin as [[=]|Hin].
      match goal with H : traces (updateAllocationStatus _ (applied_allocation _ _ _ ?now) _) _ _ |- _ =>
        destruct (update_writes _ _ _ _ _ Hs H _ _ _ _ Hin) as (latest & Hg & ->);
        exists latest, (apply_request n a2 plan), result, now1, now2, now end.
      split_and!; [..|by rewrite E2, E1]; rewrite !elem_of_app, ?elem_of_cons; auto 10.
    + trace_step. trace_step. rewrite app_nil_r in Hin.
      match goal with H : traces (markFailed _ _ _ _) _ _ |- _ => apply markFailed_trace in H as [e' R]; [|done] end.
      by destruct (Hnot _ _ _ _ R ltac:(done)).
Qed.

Lemma leads_set a desired applied action message :
  leads a -> leads (setWorkloadStatus a desired applied action message).
Proof.
  intros H. destruct (setWorkloadStatus_leads a desired applied action message H) as [rest E].
  unfold leads. by rewrite E.
Qed.

Lemma expand_entry_name ledger w :
  aws_Name w <> "" -> workloadEntryNameFromAllocation (expand_workload ledger w) = aws_Name w.
Proof. intros H. unfold workloadEntryNameFromAllocation. cbn. by rewrite decide_False. Qed.

(** Another workload's entry comes first. *)
Definition behind (a : AIResourceAllocation) (first : AllocationWorkloadStatus) : Prop :=
  awst_Name first <> workloadEntryNameFromAllocation a /\
  exists rest, ast_Workloads (al_Status a) = first :: rest.

Lemma behind_set a first desired applied action message :
  behind a first -> behind (setWorkloadStatus a desired applied action message) first.
Proof.
  intros [Hn [rest E]]. split; [exact Hn|]. cbn. unfold mergeWorkloadStatus. rewrite E. cbn.
  rewrite decide_False by done. by eexists.
Qed.

Lemma carried_out_leads plan result now1 now2 now3 :
  leads (pl_Allocation plan) ->
  exists entry rest, ast_Workloads (al_Status (carried_out plan result now1 now2 now3)) = entry :: rest /\
    awst_Name entry = workloadEntryNameFromAllocation (pl_Allocation plan) /\
    awst_Phase entry = AllocationPhaseApplied /\ awst_Applied entry = ares_ObservedResources result /\
    is_Some (awst_HourlyForecast entry).
Proof.
  intros H.
  assert (H2 : leads (applying_allocation (pending_allocation (pl_Allocation plan) plan now1) plan now2)).
  { apply (leads_set (with_status (pending_allocation (pl_Allocation plan) plan now1) _)).
    by apply (leads_set (with_status (pl_Allocation plan) _)). }
  unfold carried_out, applied_allocation. lazymatch goal with
  | |- context [setWorkloadStatus ?a ?d ?p ?act ?msg] =>
      destruct (setWorkloadStatus_leads a d p act msg H2) as [rest ->] end.
  do 2 eexists. split; [done|]. by split_and!.
Qed.

Lemma carried_out_behind plan result now1 now2 now3 first :
  behind (pl_Allocation plan) first -> behind (carried_out plan result now1 now2 now3) first.
Proof.
  intros H. apply behind_set. apply (behind_set (with_status (pending_allocation (pl_Allocation plan) plan now1) _)).
  by apply (behind_set (with_status (pl_Allocation plan) _)).
Qed.

(** C10: a plan that was carried out is in force: when the backend reports the
    budget it was given and the workload's entry leads the ledger's statuses (or
    is the first to be recorded), the ledger as written expands to a workload
    whose next plan with that budget is left alone. *)
Theorem applied_plan_settles r n plan t e k v b ans ledger w next :
  (0 < steps r)%nat -> traces (applyPlan r n plan) t e ->
  Event (UpdateAllocationStatus k v b) ans ∈ t -> ast_Phase (al_Status b) = AllocationPhaseApplied ->
  (forall req result, Event (BackendApply req) (inl result) ∈ t ->
     ares_ObservedResources result = Some (pl_AssignedResources plan)) ->
  pl_Allocation plan = expand_workload ledger w -> aws_Name w <> "" -> leads (pl_Allocation plan) ->
  pl_Allocation next = expand_workload b w -> pl_AssignedResources next = pl_AssignedResources plan ->
  already_applied next = true.
Proof.
  intros Hs Ht Hin Hb Hrep Hal Hw Hlead Hnext Hass.
  destruct (applied_write _ _ _ _ _ _ _ _ _ Hs Ht Hin Hb) as (latest & req & result & n1 & n2 & n3 & _ & Hreq & ->).
  specialize (Hrep _ _ Hreq).
  destruct (carried_out_leads plan result n1 n2 n3 Hlead) as (entry & rest & E & Hname & Hph & Happ & Hf).
  rewrite Hal, expand_entry_name in Hname by done.
  apply in_force_applied. rewrite Hnext. unfold expand_workload, next_status. rewrite E.
  cbn [al_Status with_status merged_status ast_Workloads]. unfold workloadStatusByName, mergeWorkloadStatus.
  rewrite find_upsert_by, decide_True by done. rewrite Hrep in Happ. unfold in_force. cbn.
  rewrite Hph, Happ, Hass. by split_and!.
Qed.

(** C39: a workload that does not come first never settles: when another
    workload's entry leads the statuses, the ledger that records Applied shows
    this workload as it was before, so that the same plan for it is in force
    after being carried out exactly if it had been before. *)
Theorem trailing_workload_never_settles r n plan t e k v b ans first ledger w :
  (0 < steps r)%nat -> traces (applyPlan r n plan) t e ->
  Event (UpdateAllocationStatus k v b) ans ∈ t -> ast_Phase (al_Status b) = AllocationPhaseApplied ->
  pl_Allocation plan = expand_workload ledger w -> aws_Name w <> "" -> behind (pl_Allocation plan) first ->
  exists latest, Event (GetAllocation k) (inl (latest, v)) ∈ t /\
    forall before next, pl_Allocation before = expand_workload latest w -> pl_Allocation next = expand_workload b w ->
      pl_AssignedResources next = pl_AssignedResources before ->
      already_applied next = already_applied before.
Proof.
  intros Hs Ht Hin Hb Hal Hw Hbehind.
  destruct (applied_write _ _ _ _ _ _ _ _ _ Hs Ht Hin Hb) as (latest & req & result & n1 & n2 & n3 & Hg & _ & ->).
  exists latest. split; [done|]. intros before next Hbefore Hnext Hass.
  destruct (carried_out_behind plan result n1 n2 n3 first Hbehind) as [Hn [rest E]].
  change (workloadEntryNameFromAllocation (carried_out plan result n1 n2 n3))
    with (workloadEntryNameFromAllocation (pl_Allocation plan)) in Hn.
  rewrite Hal, expand_entry_name in Hn by done.
  unfold already_applied. rewrite Hbefore, Hnext, Hass. unfold expand_workload, next_status. rewrite E.
  cbn [al_Status with_status merged_status ast_Workloads]. unfold workloadStatusByName, mergeWorkloadStatus.
  rewrite find_upsert_by, decide_False by done. by destruct (find_by _ _ _).
Qed.

(** ** A cluster that remembers

    The server of [ledger_oracle], which keeps the ledger as it was last
    written. *)

Definition last_written (a : AIResourceAllocation) (h : history) : AIResourceAllocation :=
  fold_left (fun a ev => match ev with Event (UpdateAllocationStatus _ _ b) None => b | _ => a end) h a.

Definition store_oracle (a : AIResourceAllocation) : oracle := fun h c => ledger_oracle (last_written a h) h c.

(** The budgets handed to the backend in [n] reconciles one after the other. *)
Fixpoint reconciles (n : nat) (a : AIResourceAllocation) (h : history) : history :=
  match n with
  | O => h
  | S n => reconciles n a
             (run (store_oracle a) (Reconcile (NewReconciler sample_config 5) ("astra-system", "node-a")) h).2
  end.

(** One workload: applied by the first reconcile, left alone by the next two. *)
Example first_reconcile_settles :
  granted (reconciles 3 (sample_ledger (sample_workload 1 2 3 false)) []) = [res 2].
Proof. vm_compute. reflexivity. Qed.

(** Two workloads, the second one recorded with an older budget: it is applied
    again by every reconcile. *)
Definition named_workload (name : string) : AllocationWorkloadSpec :=
  {| aws_Name := name; aws_WorkloadRef := zero_Ref; aws_SourcePodName := name; aws_SourcePodUID := "";
     aws_WorkloadType := "online"; aws_Priority := "high"; aws_DemandShape := "mixed"; aws_TimeWindows := [];
     aws_ResourceRequest := Some (request 1 2 3); aws_AssignedGPU := None; aws_Resources := Some (res 2);
     aws_Desired := None; aws_AllocationType := "guaranteed"; aws_Actions := None; aws_Reason := "" |}.

Definition two_workloads : AIResourceAllocation :=
  with_status (with_workloads (allocation "node-a-allocation" "high" [] 1 2 3)
                 [named_workload "one"; named_workload "two"])
    (status_with [sample_status "one" "Applied" 2; sample_status "two" "Applied" 1]).

Example second_workload_is_applied_again : granted (reconciles 3 two_workloads []) = [res 2; res 2; res 2].
Proof. vm_compute. reflexivity. Qed.

(** ** Witnesses *)

Definition writes_applied (ev : event) : bool :=
  match calls ev with
  | UpdateAllocationStatus _ _ b => bool_decide (ast_Phase (al_Status b) = AllocationPhaseApplied)
  | _ => false
  end.

Definition reports_budget (budget : ResourceSummary) (ev : event) : bool :=
  match ev with
  | Event (BackendApply _) (inl result) => bool_decide (ares_ObservedResources result = Some budget)
  | _ => true
  end.

Lemma applied_plan_settles_witness :
  let w := sample_workload 1 2 3 false in
  let plan := sample_plan (expand_workload (sample_ledger w) w) in
  let t := (run (ledger_oracle (sample_ledger w)) (applyPlan (NewReconciler sample_config 5) (node_with 8 6 []) plan) []).2 in
  exists k v b ans, Event (UpdateAllocationStatus k v b) ans ∈ t /\
    already_applied (sample_plan (expand_workload b w)) = true.
Proof.
  intros w plan t. destruct (first_event writes_applied t) as (t1 & [c ans] & t2 & E & Hd); [vm_compute; reflexivity|].
  destruct c; try discriminate Hd. exists key, version, a, ans.
  assert (Hin : Event (UpdateAllocationStatus key version a) ans ∈ t)
    by (rewrite E; apply elem_of_app; right; apply list_elem_of_here).
  split; [exact Hin|].
  apply (applied_plan_settles (NewReconciler sample_config 5) (node_with 8 6 []) plan t
    (run (ledger_oracle (sample_ledger w)) (applyPlan (NewReconciler sample_config 5) (node_with 8 6 []) plan) []).1
    key version a ans (sample_ledger w) w).
  - cbn. lia.
  - apply traces_run.
  - exact Hin.
  - exact (bool_decide_eq_true_1 _ Hd).
  - assert (Hall : forallb (reports_budget (res 3)) t = true) by (vm_compute; reflexivity).
    intros req result Hr. apply list_elem_of_In in Hr.
    exact (bool_decide_eq_true_1 _ (proj1 (forallb_forall _ _) Hall _ Hr)).
  - reflexivity.
  - discriminate.
  - reflexivity.
  - reflexivity.
  - reflexivity.
Defined.

Lemma trailing_workload_never_settles_witness :
  let w := named_workload "two" in
  let plan := sample_plan (expand_workload two_workloads w) in
  let t := (run (ledger_oracle two_workloads) (applyPlan (NewReconciler sample_config 5) (node_with 8 6 []) plan) []).2 in
  exists k v b ans latest, Event (UpdateAllocationStatus k v b) ans ∈ t /\
    Event (GetAllocation k) (inl (latest, v)) ∈ t /\
    already_applied (sample_plan (expand_workload b w)) = already_applied (sample_plan (expand_workload latest w)).
Proof.
  intros w plan t. destruct (first_event writes_applied t) as (t1 & [c ans] & t2 & E & Hd); [vm_compute; reflexivity|].
  destruct c; try discriminate Hd. exists key, version, a, ans.
  assert (Hin : Event (UpdateAllocationStatus key version a) ans ∈ t)
    by (rewrite E; apply elem_of_app; right; apply list_elem_of_here).
  destruct (trailing_workload_never_settles (NewReconciler sample_config 5) (node_with 8 6 []) plan t
    (run (ledger_oracle two_workloads) (applyPlan (NewReconciler sample_config 5) (node_with 8 6 []) plan) []).1
    key version a ans (sample_status "one" "Applied" 2) two_workloads w) as (latest & Hg & Hsame).
  - cbn. lia.
  - apply traces_run.
  - exact Hin.
  - exact (bool_decide_eq_true_1 _ Hd).
  - reflexivity.
  - discriminate.
  - split; [discriminate|by eexists].
  - exists latest. split; [exact Hin|]. split; [exact Hg|]. by apply Hsame.
Defined.

(** The ledger of [sample_workload], as a reconcile leaves it. *)
Definition settled_ledger : AIResourceAllocation :=
  last_written (sample_ledger (sample_workload 1 2 3 false))
    (reconciles 1 (sample_ledger (sample_workload 1 2 3 false)) []).

Lemma settled_reconcile_is_quiet_witness :
  let req := ("astra-system", "node-a") in
  let t := (run (ledger_oracle settled_ledger) (Reconcile (NewReconciler sample_config 5) req) []).2 in
  (0 <? length t)%nat = true /\ Forall (fun ev => calls ev = GetAllocation req \/ node_call (calls ev)) t.
Proof.
  intros req t. split; [vm_compute; reflexivity|].
  set (w := sample_workload 1 2 3 false). set (now := {| clock_local := (10, 0); clock_in := fun _ => None |}).
  pose (plans := match BuildPlansAt NewDefaultScheduler (Some (node_with 8 6 [])) (view sample_config [sample_ledger w]) now
                 with inl p => p | inr _ => [] end).
  apply (settled_reconcile_is_quiet sample_config 5 req t
    (run (ledger_oracle settled_ledger) (Reconcile (NewReconciler sample_config 5) req) []).1
    (node_with 8 6 []) now [sample_ledger w] [settled_ledger] plans
    (fun _ => al_Status (expand_workload settled_ledger w))).
  - lia.
  - vm_compute. reflexivity.
  - vm_compute. reflexivity.
  - vm_compute. repeat constructor; eexists; reflexivity.
  - apply run_forall. intros h []; reflexivity || exact I.
  - apply traces_run.
Defined.
