(* ===== verification/Handover.v ===== *)
(** * Handover: from the scheduler's reservation to the agent's plan

    The two halves of the system meet in the ledger object: Reserve
    (plugin/reserve.go) writes it, listNodeAllocations (agent/controller.go)
    selects and expands it.  This file composes the two models. *)

From stdpp Require Import strings gmap.
From S2P Require Import Prelude GoString ApiTypes Samples Resources PolicyWindow PolicyScore PluginState PluginReserve.
From S2P Require Import LocalLedger AgentLedger AgentController.
Local Open Scope string_scope.
Local Open Scope list_scope.
Local Open Scope Z_scope.

(** The selector of [listNodeAllocations]. *)
Definition selected (c : Config) (a : AIResourceAllocation) : bool :=
  bool_decide (Labels (al_Meta a) !! AllocationLabelManagedBy = Some "astra-scheduler") &&
  bool_decide (Labels (al_Meta a) !! AllocationLabelNodeName = Some (cfg_NodeName c)).

(** What the agent of node [c] gets from a list of stored ledgers. *)
Definition agent_view (c : Config) (items : list AIResourceAllocation) : list AIResourceAllocation :=
  expandNodeAllocationLedgers (List.filter (live_ledger c) (List.filter (selected c) items)).

(** [a] is the workload of [pod], as it was profiled and granted [resources]. *)
Definition handed_over (pod : Pod) (prof : AIWorkloadProfile) (resources : ResourceSummary)
    (a : AIResourceAllocation) : Prop :=
  as_ResourceRequest (al_Spec a) = wps_Resources (wp_Spec prof) /\
  as_TimeWindows (al_Spec a) = wps_TimeWindows (wp_Spec prof) /\
  as_Priority (al_Spec a) = wps_Priority (wp_Spec prof) /\
  as_WorkloadType (al_Spec a) = wps_WorkloadType (wp_Spec prof) /\
  as_DemandShape (al_Spec a) = wps_DemandShape (wp_Spec prof) /\
  as_Resources (al_Spec a) = Some resources /\
  (workloadEntryName pod (Some prof) <> "" ->
   workloadEntryNameFromAllocation a = workloadEntryName pod (Some prof)) /\
  (Name (pod_Meta pod) <> "" -> Namespace (wp_Meta prof) <> "" ->
   sourcePodKey a = inl (Namespace (wp_Meta prof), Name (pod_Meta pod))).

(** ** Lemmas *)

Lemma expand_source_pod ledger w :
  aws_SourcePodName w <> "" ->
  map_get (Annotations (al_Meta (expand_workload ledger w))) AllocationAnnotationSourcePodName = aws_SourcePodName w.
Proof.
  intros H. unfold map_get. cbn [expand_workload al_Meta Annotations]. rewrite (decide_False (P := aws_SourcePodName w = "")) by done.
  case_decide; [|rewrite lookup_insert_ne by done]; by rewrite lookup_insert_eq.
Qed.

Lemma sourcePodKey_named a name :
  map_get (Annotations (al_Meta a)) AllocationAnnotationSourcePodName = name -> name <> "" ->
  ref_Namespace (as_WorkloadRef (al_Spec a)) <> "" ->
  sourcePodKey a = inl (ref_Namespace (as_WorkloadRef (al_Spec a)), name).
Proof.
  intros E Hn Hns. unfold sourcePodKey. rewrite E. rewrite (decide_False (P := name = "")) by done.
  by rewrite !(decide_False (P := ref_Namespace _ = "")), decide_False.
Qed.

Lemma expand_handed_over ledger pod prof resources kind reason :
  handed_over pod prof resources
    (expand_workload ledger (allocationWorkloadSpec pod prof resources kind reason)).
Proof.
  unfold handed_over, expand_workload. cbn [al_Spec as_ResourceRequest as_TimeWindows as_Priority as_WorkloadType
    as_DemandShape as_Resources aws_ResourceRequest allocationWorkloadSpec aws_TimeWindows aws_Priority
    aws_WorkloadType aws_DemandShape aws_Desired aws_Resources firstResourceSummary].
  split_and!; try done.
  - intros H. unfold workloadEntryNameFromAllocation. cbn [al_Spec as_Workloads aws_Name]. by rewrite decide_False.
  - intros Hn Hns. apply (sourcePodKey_named (expand_workload ledger
      (allocationWorkloadSpec pod prof resources kind reason))); [by apply expand_source_pod|done|done].
Qed.

(** C6: what the scheduler reserves is what the agent plans.  Let [prof] and
    [node] be the pod's workload profile and the node profile as Reserve
    resolved them (from the cycle state, else from the API server).  After a
    successful Reserve for a node with a legal name of at most 63 characters, a
    change of the ledger wakes the agent of that node, which selects it and,
    unless it is Released, expands every entry of it, among them the pod's
    workload with the request, windows, priority, type and shape of [prof] and
    the resources the policy grants [prof] on [node], under the entry's name
    and with a reference to the pod it came from. *)
Theorem reserved_workload_reaches_the_agent {S} `{ApiServerLaws S} p state pod nodeName s before state' s' c :
  Reserve p state pod nodeName s (Some before) state' s' None ->
  clean nodeName -> nodeName <> "" -> (String.length nodeName <= 63)%nat -> cfg_NodeName c = nodeName ->
  exists prof node ledger v,
    reserve_inputs p state pod nodeName prof node /\
    stored s' !! (nodeNamespace p, buildAllocationName nodeName) = Some (ledger, v) /\
    selected c ledger = true /\ nodePredicate c (al_Meta ledger) = true /\
    (ast_Phase (al_Status ledger) <> AllocationPhaseReleased ->
     agent_view c [ledger] = expand_workload ledger <$> as_Workloads (al_Spec ledger) /\
     Exists (handed_over pod prof (AllocationResources (Some prof) (Some node))) (agent_view c [ledger])).
Proof.
  intros Hr Hc Hne Hlen Ec. apply Reserve_writes in Hr as (prof & node & reason & a & v & Hin' & Hs' & _).
  set (resources := AllocationResources (Some prof) (Some node)) in *.
  set (kind := AllocationType (Some prof) resources) in *.
  set (ledger := fillAllocation a pod prof nodeName resources kind reason) in *.
  exists prof, node, ledger, v. rewrite Hs', lookup_insert_eq. split; [done|]. split; [done|].
  assert (Hsel : selected c ledger = true).
  { unfold selected. cbn [ledger fillAllocation al_Meta Labels]. unfold mergeLabels.
    assert (El : labelValue nodeName = nodeName).
    { unfold labelValue. rewrite sanitizeName_id by done. by rewrite (proj2 (Nat.leb_le _ 63)) by done. }
    rewrite !bool_decide_eq_true_2; [done|..]; apply lookup_union_Some_l; rewrite ?El, ?Ec.
    - do 3 rewrite lookup_insert_ne by done. apply lookup_insert_eq.
    - apply lookup_insert_eq. }
  assert (Hwake : nodePredicate c (al_Meta ledger) = true).
  { apply andb_true_iff in Hsel as [_ El%bool_decide_eq_true_1]. unfold nodePredicate, map_get.
    by rewrite El, bool_decide_eq_true_2. }
  assert (Hl : ast_Phase (al_Status ledger) <> AllocationPhaseReleased -> live_ledger c ledger = true).
  { intros Hlive. unfold live_ledger. rewrite bool_decide_eq_true_2, bool_decide_eq_false_2 by done. done. }
  split_and!; [done..|]. intros Hlive. unfold agent_view. cbn [List.filter]. rewrite Hsel. cbn [List.filter].
  rewrite (Hl Hlive).
  assert (Hin : allocationWorkloadSpec pod prof resources kind reason ∈ as_Workloads (al_Spec ledger)) by apply upsert_by_in.
  assert (He : expandNodeAllocationLedgers [ledger] = expand_workload ledger <$> as_Workloads (al_Spec ledger)).
  { unfold expandNodeAllocationLedgers. cbn [mbind list_bind]. rewrite app_nil_r.
    destruct (as_Workloads (al_Spec ledger)) eqn:E; [by apply elem_of_nil in Hin|done]. }
  rewrite He. split; [done|]. apply Exists_exists. eexists.
  split; [by apply list_elem_of_fmap_2|apply expand_handed_over].
Qed.

Lemma reserved_workload_reaches_the_agent_witness :
  exists s' : Store, exists prof node ledger v,
    let c := {| cfg_NodeName := "node-a"; cfg_NodeProfileNamespace := "astra-system";
                cfg_FakeResourceConfigMap := ""; cfg_FakeResourceConfigMapNS := "" |} in
    reserve_inputs sample_plugin (CycleData cached_cycle) sample_pod "node-a" prof node /\
    stored s' !! (nodeNamespace sample_plugin, buildAllocationName "node-a") = Some (ledger, v) /\
    selected c ledger = true /\ nodePredicate c (al_Meta ledger) = true /\
    (ast_Phase (al_Status ledger) <> AllocationPhaseReleased ->
     agent_view c [ledger] = expand_workload ledger <$> as_Workloads (al_Spec ledger) /\
     Exists (handed_over sample_pod prof (AllocationResources (Some prof) (Some node))) (agent_view c [ledger])).
Proof.
  destruct sample_reserve_run as [st' Hrun]. exists st'.
  apply (reserved_workload_reaches_the_agent _ _ _ _ _ _ _ _
    {| cfg_NodeName := "node-a"; cfg_NodeProfileNamespace := "astra-system";
       cfg_FakeResourceConfigMap := ""; cfg_FakeResourceConfigMapNS := "" |} Hrun).
  - refine (eq_ind _ clean (sanitizeName_clean "node-a") _ _). vm_compute. reflexivity.
  - discriminate.
  - cbn. lia.
  - reflexivity.
Defined.
