(* ===== verification/Placement.v ===== *)
(** * Placement: the published status bounds what the scheduler places

    The feedback loop of the system: the agent publishes what its node has
    left (backend snapshot, syncNodeStatus), the central scheduler admits a
    workload on that status (Filter) and grants it resources
    (AllocationResources), and the grant counts in the next snapshot.  Here
    the loop is composed from the models of its three parts. *)

From stdpp Require Import strings gmap.
From S2P Require Import Prelude GoString ApiTypes Samples Resources PolicyWindow PolicyFilter PolicyScore ScoreOrder.
From S2P Require Import AgentLedger Backend RealBackend AgentController.
Local Open Scope string_scope.
Local Open Scope list_scope.
Local Open Scope Z_scope.

(** A node profile with the status the agent publishes on it. *)
Definition with_published (latest : AINodeResourceProfile) (s : AINodeResourceProfileStatus) (now : Time)
    : AINodeResourceProfile :=
  {| np_Meta := np_Meta latest; np_Spec := np_Spec latest; np_Status := published s now |}.

Definition profile_nonneg (p : AIWorkloadProfile) : Prop :=
  rs_nonneg (requiredResources (Some p)) /\ rs_nonneg (preferredResources (Some p)).

(** [a] is admitted next to [allocations]: the backend's snapshot of them is
    published on the node's profile, the filter admits the workload on it, and
    [a] holds what the policy grants. *)
Definition admitted_beside (be : Backend) (capacity : ResourceSummary) (allocations : list AIResourceAllocation)
    (a : AIResourceAllocation) : Prop :=
  exists n n' latest s now observedAt p d,
    be_Snapshot be now (Some n) allocations = (inl s, n') /\ nst_Allocatable s = Some capacity /\
    let node := Some (with_published latest s observedAt) in
    profile_nonneg p /\ Filter (Some p) node = Ret d /\ Allowed d = true /\
    allocationResources a = Some (AllocationResources (Some p) node).

(** The allocations of a node of this capacity, as admissions and releases
    make them, the status being published between two admissions. *)
Inductive placed (be : Backend) (capacity : ResourceSummary) : list AIResourceAllocation -> Prop :=
  | placed_none : placed be capacity []
  | placed_admit allocations a :
      placed be capacity allocations -> admitted_beside be capacity allocations a ->
      placed be capacity (allocations ++ [a])
  | placed_release before a after :
      placed be capacity (before ++ a :: after) -> placed be capacity (before ++ after).

(** ** Lemmas *)

Lemma held_app l k : held (l ++ k) = held l ++ held k.
Proof. apply omap_app. Qed.

Lemma granted_nonneg p available granted :
  profile_nonneg p ->
  rs_all4 granted_value (requiredResources (Some p)) (preferredResources (Some p)) available granted ->
  rs_nonneg granted.
Proof.
  intros [Hr Hp] G. unfold rs_all4, granted_value, rs_nonneg, rs_all in *. destruct_and?. repeat split; lia.
Qed.

(** What is free on the published status is what the capacity leaves. *)
Lemma rest_of_capacity capacity used granted :
  rs_le used capacity -> rs_le granted (rs_map2 (fun t u => Z.max 0 (t - u)) capacity used) ->
  rs_le (rs_plus used granted) capacity.
Proof. intros Hu Hg. rs_open. destruct_and?. repeat split; lia. Qed.

Definition within (capacity : ResourceSummary) (allocations : list AIResourceAllocation) : Prop :=
  Forall rs_nonneg (held allocations) /\ rs_le (rs_sum (held allocations)) capacity.

Lemma admitted_within yaml os name o be capacity allocations a :
  NewWithOptions yaml os name o = inl be -> rs_wf capacity -> rs_nonneg capacity ->
  within capacity allocations -> admitted_beside be capacity allocations a -> within capacity (allocations ++ [a]).
Proof.
  intros Hbe Hwf Hcap [Hn Hle] (n & n' & latest & s & now & at_ & p & d & Hs & Hc & Hp & HF & HA & Hr).
  assert (Hw : rs_wf (rs_sum (held allocations))) by (eapply rs_wf_le; [by apply rs_sum_nonneg|done|done]).
  destruct (snapshot_books _ _ _ _ _ _ _ _ _ _ Hbe Hn Hw Hs) as (_ & (total & available & Et & Ea & _ & Hmax) & _).
  rewrite Hc in Et. injection Et as <-. specialize (Hmax Hwf Hcap).
  destruct (admitted_grants _ _ _ HF HA) as (m & available' & Em & Ea' & G).
  injection Em as <-. cbn [with_published np_Status published nst_Available] in Ea'.
  rewrite Ea in Ea'. injection Ea' as <-. subst available.
  assert (Hh : held [a] = [AllocationResources (Some p) (Some (with_published latest s at_))]).
  { unfold held. cbn. by rewrite Hr. }
  unfold within. rewrite held_app, Hh. split.
  - apply Forall_app. split; [done|]. apply Forall_singleton. by eapply granted_nonneg.
  - rewrite rs_sum_app. cbn [rs_sum foldr]. rewrite rs_plus_0_r. apply rest_of_capacity; [done|].
    destruct G as ((? & _) & (? & _) & (? & _) & (? & _) & (? & _) & (? & _)). by split_and!.
Qed.

Lemma release_within capacity before a after : within capacity (before ++ a :: after) -> within capacity (before ++ after).
Proof.
  unfold within. change (a :: after) with ([a] ++ after). rewrite !held_app. intros [Hn Hle].
  apply Forall_app in Hn as [Hb [Ha Hf]%Forall_app].
  split; [by apply Forall_app|]. rewrite !rs_sum_app in *.
  pose proof (rs_sum_nonneg _ Ha). revert Hle H. generalize (rs_sum (held before)), (rs_sum (held [a])), (rs_sum (held after)).
  intros x y z Hle Hy. rs_open. destruct_and?. repeat split; lia.
Qed.

(** C7: the scheduler never places more on a node than the node has, with
    whichever backend and for non-negative requests, as long as the agent publishes the node's status between
    two admissions: after any sequence of admissions and releases the
    allocations together hold at most the node's allocatable resources. *)
Theorem placements_within_capacity yaml os name o be capacity allocations :
  NewWithOptions yaml os name o = inl be -> rs_wf capacity -> rs_nonneg capacity ->
  placed be capacity allocations ->
  Forall rs_nonneg (held allocations) /\ rs_le (rs_sum (held allocations)) capacity.
Proof.
  intros Hbe Hwf Hcap H. induction H as [|allocations a _ IH Ha|before a after _ IH].
  - split; [constructor|]. by apply rs_zero_le.
  - by eapply (admitted_within yaml os name o).
  - by eapply release_within.
Qed.

(** ** A node of four GPUs *)

Definition gpu_node : AINodeResourceProfile :=
  {| np_Meta := named "node-a";
     np_Spec := {| ns_NodeName := "node-a"; ns_BackendType := "fake";
                   ns_GPUs := replicate 4 {| gds_ID := "gpu"; gds_UUID := ""; gds_Product := "A100"; gds_MemoryGiB := 80;
                                             gds_ComputeScore := 1; gds_MIGEnabled := false |};
                   ns_Runtime := Some {| rsp_Type := "vllm"; rsp_Supports := Some all_supports;
                     rsp_Capacity := Some {| rc_KVCacheGiB := 16; rc_MaxConcurrentRequests := 64;
                       rc_MaxBatchTokens := 8192;
                       rc_TokenThroughput := Some {| tt_PrefillTokensPerSecond := 400; tt_DecodeTokensPerSecond := 200;
                                                     tt_TotalTokensPerSecond := 600 |} |} |};
                   ns_Capabilities := Some all_capabilities |};
     np_Status := zero_AINodeResourceProfileStatus |}.

Definition gpu_capacity : ResourceSummary := allocatableFromNode gpu_node.
Definition fake_backend : Backend := NewFakeBackend (fun _ => inr "") no_options.

(** The status of the idle node, and what a workload of three GPUs is granted
    on it. *)
Definition idle_status : AINodeResourceProfileStatus :=
  match (be_Snapshot fake_backend 7 (Some gpu_node) []).1 with inl s => s | inr _ => np_Status gpu_node end.

Definition chat : AIWorkloadProfile := workload "chat" "high" [] 3 3 3.
Definition chat_allocation : AIResourceAllocation :=
  holding (AllocationResources (Some chat) (Some (with_published gpu_node idle_status 7)))
    (allocation "chat" "high" [] 3 3 3).

Lemma chat_admitted : admitted_beside fake_backend gpu_capacity [] chat_allocation.
Proof.
  exists gpu_node, (be_Snapshot fake_backend 7 (Some gpu_node) []).2, gpu_node, idle_status, 7, 7, chat.
  eexists. split; [reflexivity|]. split; [reflexivity|]. split; [split; compute_decide|].
  split; [vm_compute; reflexivity|]. split; reflexivity.
Qed.

Lemma placements_within_capacity_witness :
  held [chat_allocation] = [res 3] /\
  Forall rs_nonneg (held [chat_allocation]) /\ rs_le (rs_sum (held [chat_allocation])) gpu_capacity.
Proof.
  split; [vm_compute; reflexivity|].
  apply (placements_within_capacity (fun _ => inr "") bare_os "fake" no_options fake_backend gpu_capacity).
  - reflexivity.
  - compute_decide.
  - compute_decide.
  - apply (placed_admit _ _ []); [constructor|exact chat_admitted].
Defined.

(** Publishing in between matters: two workloads admitted on the same status
    hold more than the node has. *)
Theorem stale_status_overcommits :
  admitted_beside fake_backend gpu_capacity [] chat_allocation /\
  ~ rs_le (rs_sum (held [chat_allocation; chat_allocation])) gpu_capacity.
Proof. split; [exact chat_admitted|]. intros [H _]. vm_compute in H. by apply H. Qed.
