(* ===== verification/GoFlag.v ===== *)
(** * GoFlag: Go's command-line flags

    The package flag, as far as the binaries use it: registration, which
    panics on an illegal or repeated name, and [Parse] with its messages.  A
    flag writes one component of the program's settings [S]; the settings are
    what the variables bound by [flag.StringVar] and [flag.BoolVar] hold. *)

From Stdlib Require Import Ascii.
From stdpp Require Import strings gmap.
From S2P Require Import Prelude GoString.
Local Open Scope string_scope.
Local Open Scope list_scope.

(** strconv.ParseBool *)
Definition ParseBool (s : string) : option bool :=
  if decide (s ∈ ["1"; "t"; "T"; "true"; "TRUE"; "True"]) then Some true
  else if decide (s ∈ ["0"; "f"; "F"; "false"; "FALSE"; "False"]) then Some false
  else None.

(** ** Names and values on the command line *)

(** Up to the first equals sign, and what follows it. *)
Fixpoint cut_equals (s : string) : string * option string :=
  match s with
  | "" => ("", None)
  | String c s =>
      if decide (c = "="%char) then ("", Some s)
      else let '(name, value) := cut_equals s in (String c name, value)
  end.

(** The loop starts at the second character: equals cannot be first. *)
Definition split_flag (s : string) : string * option string :=
  match s with
  | "" => ("", None)
  | String c s => let '(name, value) := cut_equals s in (String c name, value)
  end.

(** What an argument is. *)
Inductive argument := NotAFlag | Terminator | BadSyntax | FlagArg (name : string) (value : option string).

Definition after_dashes (s : string) : argument :=
  match s with
  | "" => BadSyntax
  | String c _ =>
      if decide (c = "-"%char \/ c = "="%char) then BadSyntax
      else let '(name, value) := split_flag s in FlagArg name value
  end.

Definition classify (s : string) : argument :=
  match s with
  | String "-" "" => NotAFlag
  | String "-" (String "-" "") => Terminator
  | String "-" (String "-" s) => after_dashes s
  | String "-" s => after_dashes s
  | _ => NotAFlag
  end.

Section Flags.
Context {S : Type}.

(** A flag.Value: [Set], and whether it needs no argument. *)
Record Flag := { IsBoolFlag : bool; Set_ : string -> S -> S + string }.

Local Abbreviation FlagSet := (gmap string Flag).

Definition legal_name (name : string) : bool :=
  match name with String "-" _ => false | _ => bool_decide ((cut_equals name).2 = None) end.

(** FlagSet.Var *)
Definition Var (fs : FlagSet) (name : string) (f : Flag) : go FlagSet :=
  if negb (legal_name name) then Panic
  else match fs !! name with
       | Some _ => Panic
       | None => Ret (<[name := f]> fs)
       end.

Fixpoint Vars (fs : FlagSet) (l : list (string * Flag)) : go FlagSet :=
  match l with
  | [] => Ret fs
  | (name, f) :: l => fs <-! Var fs name f; Vars fs l
  end%astra.

Definition StringVar (write : string -> S -> S) : Flag :=
  {| IsBoolFlag := false; Set_ v st := inl (write v st) |}.

Definition BoolVar (write : bool -> S -> S) : Flag :=
  {| IsBoolFlag := true;
     Set_ v st := match ParseBool v with Some b => inl (write b st) | None => inr "parse error" end |}.

(** ** Parse *)

Inductive parse_result := Parsed (settings : S) (args : list string) | Help | ParseError (message : string).

Definition set_flag (name : string) (f : Flag) (value : option string) (st : S) : S + string :=
  let v := default "true" value in
  match Set_ f v st with
  | inl st => inl st
  | inr err =>
      inr (if IsBoolFlag f
           then match value with
                | Some v => "invalid boolean value " +:+ Quote v +:+ " for -" +:+ name +:+ ": " +:+ err
                | None => "invalid boolean flag " +:+ name +:+ ": " +:+ err
                end
           else "invalid value " +:+ Quote v +:+ " for flag -" +:+ name +:+ ": " +:+ err)
  end.

Fixpoint Parse (fs : FlagSet) (st : S) (args : list string) : parse_result :=
  match args with
  | [] => Parsed st []
  | s :: rest =>
      match classify s with
      | NotAFlag => Parsed st args
      | Terminator => Parsed st rest
      | BadSyntax => ParseError ("bad flag syntax: " +:+ s)
      | FlagArg name value =>
          match fs !! name with
          | None =>
              if decide (name = "help" \/ name = "h") then Help
              else ParseError ("flag provided but not defined: -" +:+ name)
          | Some f =>
              match value, IsBoolFlag f, rest with
              | None, false, [] => ParseError ("flag needs an argument: -" +:+ name)
              | None, false, v :: rest =>
                  match set_flag name f (Some v) st with
                  | inl st => Parse fs st rest
                  | inr err => ParseError err
                  end
              | _, _, _ =>
                  match set_flag name f value st with
                  | inl st => Parse fs st rest
                  | inr err => ParseError err
                  end
              end
          end
      end
  end.

(** ** Writing a command line

    The spellings Parse reads: [-name=value], [-name value] and, for a
    boolean flag, [-name], each with one dash or two. *)

Inductive assignment :=
  | Joined (two : bool) (name value : string)
  | Separate (two : bool) (name value : string)
  | Bare (two : bool) (name : string).

Definition dashes (two : bool) : string := if two then "--" else "-".

Definition print_assignment (a : assignment) : list string :=
  match a with
  | Joined two name value => [dashes two +:+ name +:+ "=" +:+ value]
  | Separate two name value => [dashes two +:+ name; value]
  | Bare two name => [dashes two +:+ name]
  end.

Definition assigned_name (a : assignment) : string :=
  match a with Joined _ name _ | Separate _ name _ | Bare _ name => name end.

Definition assigned_value (a : assignment) : option string :=
  match a with Joined _ _ value | Separate _ _ value => Some value | Bare _ _ => None end.

(** The flag is registered, and spelled as its kind allows. *)
Definition spelled (fs : FlagSet) (a : assignment) : Prop :=
  assigned_name a <> "" /\
  exists f, fs !! assigned_name a = Some f /\
    match a with Joined _ _ _ => True | Separate _ _ _ => IsBoolFlag f = false | Bare _ _ => IsBoolFlag f = true end.

(** What the assignments do, one after the other. *)
Fixpoint assign_all (fs : FlagSet) (st : S) (l : list assignment) : S + string :=
  match l with
  | [] => inl st
  | a :: l =>
      match fs !! assigned_name a with
      | None => inl st
      | Some f =>
          match set_flag (assigned_name a) f (assigned_value a) st with
          | inl st => assign_all fs st l
          | inr err => inr err
          end
      end
  end.

(** The positional arguments that end the flags. *)
Inductive tail_of : list string -> list string -> Prop :=
  | tail_nil : tail_of [] []
  | tail_plain s l : classify s = NotAFlag -> tail_of (s :: l) (s :: l)
  | tail_dashes l : tail_of ("--" :: l) l.

(** ** Facts *)

Lemma string_app_nil s : s +:+ "" = s.
Proof.
  induction s as [|c s IH]; [done|].
  change (String c s +:+ ?x) with (String c (s +:+ x)). by rewrite IH.
Qed.

Lemma cut_equals_app name value :
  (cut_equals name).2 = None -> cut_equals (name +:+ String "=" value) = (name, Some value).
Proof.
  induction name as [|c name IH]; [done|].
  change (String c name +:+ ?x) with (String c (name +:+ x)). cbn.
  case_decide; [done|]. destruct (cut_equals name) as [n v]. cbn in *.
  intros ->. by rewrite IH.
Qed.

Lemma cut_equals_plain name : (cut_equals name).2 = None -> cut_equals name = (name, None).
Proof.
  induction name as [|c name IH]; cbn; [done|].
  case_decide; [done|]. destruct (cut_equals name) as [n v]. cbn in *.
  intros ->. by injection (IH eq_refl) as ->.
Qed.

Lemma legal_name_inv c name :
  legal_name (String c name) = true ->
  c <> "-"%char /\ c <> "="%char /\ (cut_equals name).2 = None.
Proof.
  intros H.
  assert (Hd : c <> "-"%char) by (intros ->; done).
  assert (Hc : (cut_equals (String c name)).2 = None).
  { apply (bool_decide_eq_true_1 _). revert H. unfold legal_name.
    destruct c as [[] [] [] [] [] [] [] []]; first [exact id | done]. }
  cbn in Hc. case_decide; [done|]. by destruct (cut_equals name).
Qed.

Lemma after_dashes_name name (value : option string) :
  legal_name name = true -> name <> "" ->
  after_dashes (name +:+ match value with Some v => String "=" v | None => "" end) = FlagArg name value.
Proof.
  destruct name as [|c name]; [done|]. intros (Hd & He & Hn)%legal_name_inv _.
  change (String c name +:+ ?x) with (String c (name +:+ x)). cbn.
  rewrite decide_False by tauto. destruct value as [v|].
  - by rewrite cut_equals_app.
  - rewrite string_app_nil, cut_equals_plain by done. done.
Qed.

Lemma classify_dashes two c name :
  c <> "-"%char -> classify (dashes two +:+ String c name) = after_dashes (String c name).
Proof.
  intros Hc. destruct two; cbn [dashes].
  - reflexivity.
  - change ("-" +:+ String c name) with (String "-" (String c name)).
    destruct c as [[] [] [] [] [] [] [] []]; done.
Qed.

Lemma classify_assignment two name (value : option string) :
  legal_name name = true -> name <> "" ->
  classify (dashes two +:+ name +:+ match value with Some v => String "=" v | None => "" end)
  = FlagArg name value.
Proof.
  intros Hl Hn. destruct name as [|c name]; [done|].
  pose proof (legal_name_inv _ _ Hl) as (Hd & _).
  change (String c name +:+ ?x) with (String c (name +:+ x)).
  rewrite (classify_dashes two c _ Hd).
  by apply (after_dashes_name (String c name) value).
Qed.

(** Only legal names are registered. *)
Definition legal_set (fs : FlagSet) : Prop := forall name f, fs !! name = Some f -> legal_name name = true.

Lemma Var_legal fs name f fs' : legal_set fs -> Var fs name f = Ret fs' -> legal_set fs'.
Proof.
  unfold Var. intros Hl. destruct (legal_name name) eqn:E; [|done]. cbn.
  destruct (fs !! name); [done|]. intros [= <-] n g.
  destruct (decide (n = name)) as [->|Hn]; [by rewrite E|].
  rewrite lookup_insert_ne by done. apply Hl.
Qed.

Lemma Vars_legal fs l fs' : legal_set fs -> Vars fs l = Ret fs' -> legal_set fs'.
Proof.
  revert fs. induction l as [|[name f] l IH]; cbn; intros fs Hl.
  - by intros [= <-].
  - destruct (Var fs name f) eqn:E; [|done]. apply IH. by eapply Var_legal.
Qed.

Lemma empty_legal : legal_set ∅.
Proof. intros name f H. by rewrite lookup_empty in H. Qed.

Lemma Parse_assignment fs st a rest :
  legal_set fs -> spelled fs a ->
  Parse fs st (print_assignment a ++ rest) =
  match assign_all fs st [a] with inl st => Parse fs st rest | inr err => ParseError err end.
Proof.
  intros Hl [Hn (f & Hf & Hk)]. pose proof (Hl _ _ Hf) as Hlegal.
  assert (Hc : forall two v, classify (dashes two +:+ assigned_name a +:+
                 match v with Some v => String "=" v | None => "" end) = FlagArg (assigned_name a) v)
    by (intros; by apply classify_assignment).
  assert (Hc0 : forall two, classify (dashes two +:+ assigned_name a) = FlagArg (assigned_name a) None).
  { intros two. rewrite <- (Hc two None). by rewrite string_app_nil. }
  cbn [assign_all]. rewrite Hf.
  destruct a as [two name v|two name v|two name]; cbn [print_assignment app assigned_name assigned_value] in *.
  - change (dashes two +:+ name +:+ "=" +:+ v) with (dashes two +:+ name +:+ String "=" v).
    cbn [Parse]. rewrite (Hc two (Some v)), Hf. by destruct (set_flag name f (Some v) st).
  - cbn [Parse]. rewrite Hc0, Hf, Hk. by destruct (set_flag name f (Some v) st).
  - cbn [Parse]. rewrite Hc0, Hf, Hk. by destruct (set_flag name f None st).
Qed.

Lemma Parse_tail fs st all rest : tail_of all rest -> Parse fs st all = Parsed st rest.
Proof. intros [|s l H|l]; cbn; [done| |done]. by rewrite H. Qed.

(** A command line written in any of the accepted spellings is read back:
    every assignment takes effect in order, the first that is refused is
    reported, and the positional arguments are left over. *)
Lemma Parse_print fs st l all rest :
  legal_set fs -> Forall (spelled fs) l -> tail_of all rest ->
  Parse fs st ((l ≫= print_assignment) ++ all) =
  match assign_all fs st l with inl st => Parsed st rest | inr err => ParseError err end.
Proof.
  intros Hl Hs Ht. revert st. induction Hs as [|a l Ha Hs IH]; intros st.
  - by apply Parse_tail.
  - rewrite bind_cons, <- app_assoc, Parse_assignment by done.
    destruct Ha as [_ (f & Hf & _)]. cbn [assign_all]. rewrite Hf.
    destruct (set_flag _ _ _ _); [apply IH|done].
Qed.

(** What registration leaves behind: every flag of the list under its name,
    and nothing else. *)
Lemma Var_Ret fs name f fs' :
  Var fs name f = Ret fs' -> fs !! name = None /\ fs' = <[name := f]> fs.
Proof.
  unfold Var. destruct (legal_name name); [|done]. cbn. destruct (fs !! name); [done|]. by intros [= <-].
Qed.

Lemma Vars_keep fs l fs' n f : Vars fs l = Ret fs' -> fs !! n = Some f -> fs' !! n = Some f.
Proof.
  revert fs. induction l as [|[name g] l IH]; cbn; intros fs.
  - by intros [= <-].
  - destruct (Var fs name g) as [fs1|] eqn:E; [|done]. cbn. apply Var_Ret in E as [Hn ->].
    intros Hv Hf. apply (IH _ Hv). rewrite lookup_insert_ne; [done|congruence].
Qed.

Lemma Vars_lookup fs l fs' n f : Vars fs l = Ret fs' -> (n, f) ∈ l -> fs' !! n = Some f.
Proof.
  revert fs. induction l as [|[name g] l IH]; cbn; intros fs Hv Hin.
  - by apply elem_of_nil in Hin.
  - destruct (Var fs name g) as [fs1|] eqn:E; [|done]. cbn in Hv.
    apply elem_of_cons in Hin as [[= -> ->]|Hin]; [|by eapply IH].
    apply Var_Ret in E as [Hn ->]. eapply Vars_keep; [done|]. apply lookup_insert_eq.
Qed.

Lemma Vars_only fs l fs' n f :
  Vars fs l = Ret fs' -> fs' !! n = Some f -> (n, f) ∈ l \/ fs !! n = Some f.
Proof.
  revert fs. induction l as [|[name g] l IH]; cbn; intros fs.
  - intros [= <-]. by right.
  - destruct (Var fs name g) as [fs1|] eqn:E; [|done]. cbn. apply Var_Ret in E as [Hn ->].
    intros Hv Hf. destruct (IH _ Hv Hf) as [Hin|Hl]; [left; by right|].
    destruct (decide (n = name)) as [->|Hne].
    + rewrite lookup_insert_eq in Hl. injection Hl as ->. left. by left.
    + rewrite lookup_insert_ne in Hl by done. by right.
Qed.

(** [Parse] only writes through the flags the arguments name: what those keep
    is kept. *)
Lemma Parse_keeps (P : S -> Prop) fs st args st' rest :
  (forall name value f v st0 st1, FlagArg name value ∈ map classify args ->
     fs !! name = Some f -> P st0 -> Set_ f v st0 = inl st1 -> P st1) ->
  P st -> Parse fs st args = Parsed st' rest -> P st'.
Proof.
  remember (length args) as n eqn:En. revert st args En.
  induction (lt_wf n) as [n _ IH]. intros st args -> Hset HP.
  destruct args as [|s args]; cbn [Parse]; [by intros [= <- <-]|].
  destruct (classify s) as [| | |name value] eqn:Ec; try (by intros [= <- <-]).
  destruct (fs !! name) as [f|] eqn:Ef; [|by case_decide].
  assert (Hstep : forall v more, (length more < length (s :: args))%nat -> more ⊆ s :: args ->
    match set_flag name f v st with inl st => Parse fs st more | inr err => ParseError err end = Parsed st' rest ->
    P st').
  { intros v more Hlen Hsub. unfold set_flag. destruct (Set_ f _ st) as [st1|err] eqn:Es; [|done].
    assert (Hin : FlagArg name value ∈ map classify (s :: args)) by (cbn; rewrite Ec; by left).
    apply (IH (length more) Hlen st1 more eq_refl); [|by eapply Hset].
    intros n0 v0 f0 w0 a b Hn0. apply (Hset n0 v0 f0 w0 a b).
    revert Hn0. rewrite !list_elem_of_fmap. intros (y & -> & Hy). exists y. split; [done|by apply Hsub]. }
  assert (Hsub : args ⊆ s :: args) by (intros x Hx; by right).
  destruct value as [v|]; [|destruct (IsBoolFlag f)].
  - apply Hstep; [cbn; lia|done].
  - apply Hstep; [cbn; lia|done].
  - destruct args as [|v args]; [done|]. apply (Hstep (Some v)); [cbn; lia|].
    intros x Hx. by do 2 right.
Qed.

(** Help is only shown when an argument asks for it. *)
Lemma Parse_help fs st args :
  Parse fs st args = Help ->
  exists name value, FlagArg name value ∈ map classify args /\ (name = "help" \/ name = "h") /\ fs !! name = None.
Proof.
  remember (length args) as n eqn:En. revert st args En.
  induction (lt_wf n) as [n _ IH]. intros st args ->.
  destruct args as [|s args]; cbn [Parse]; [done|].
  destruct (classify s) as [| | |name value] eqn:Ec; try done.
  assert (Hin : FlagArg name value ∈ map classify (s :: args)) by (cbn; rewrite Ec; by left).
  destruct (fs !! name) as [f|] eqn:Ef.
  2:{ case_decide; [|done]. intros _. by exists name, value. }
  assert (Hstep : forall v more, (length more < length (s :: args))%nat -> more ⊆ s :: args ->
    match set_flag name f v st with inl st => Parse fs st more | inr err => ParseError err end = Help ->
    exists name value, FlagArg name value ∈ map classify (s :: args) /\ (name = "help" \/ name = "h") /\
      fs !! name = None).
  { intros v more Hlen Hsub. destruct (set_flag name f v st) as [st1|err]; [|done]. intros Hp.
    destruct (IH (length more) Hlen st1 more eq_refl Hp) as (name' & value' & Hin' & H). exists name', value'.
    split; [|done]. revert Hin'. rewrite !list_elem_of_fmap. intros (y & -> & Hy). exists y. auto. }
  assert (Hsub : args ⊆ s :: args) by (intros x Hx; by right).
  destruct value as [v|]; [|destruct (IsBoolFlag f)].
  - apply Hstep; [cbn; lia|done].
  - apply Hstep; [cbn; lia|done].
  - destruct args as [|v args]; [done|]. apply (Hstep (Some v)); [cbn; lia|].
    intros x Hx. by do 2 right.
Qed.

(** Registration succeeds for legal names that are all different. *)
Lemma Vars_registers fs l :
  Forall (fun n => legal_name n = true) l.*1 -> NoDup l.*1 -> (forall n, n ∈ l.*1 -> fs !! n = None) ->
  exists fs', Vars fs l = Ret fs'.
Proof.
  revert fs. induction l as [|[name f] l IH]; cbn; intros fs Hl Hn Hf; [by eexists|].
  apply Forall_cons in Hl as [Hl1 Hl2]. apply NoDup_cons in Hn as [Hn1 Hn2].
  unfold Var. rewrite Hl1, (Hf name) by by left. cbn. apply IH; [done..|].
  intros n Hin. rewrite lookup_insert_ne by (intros ->; done). apply Hf. by right.
Qed.

End Flags.

Arguments Flag : clear implicits.
Abbreviation FlagSet S := (gmap string (Flag S)).
Arguments parse_result : clear implicits.

(** ** The variables of a program

    String variables [X] and boolean variables [Y], and the declarations
    [flag.StringVar(&x, name, value, usage)] and [flag.BoolVar]. *)

Section Variables.
Context {X Y : Type} `{EqDecision X, EqDecision Y}.

Record Variables := { str : X -> string; flg : Y -> bool }.

Definition set_str (x : X) (v : string) (s : Variables) : Variables :=
  {| str y := if decide (y = x) then v else str s y; flg := flg s |}.

Definition set_flg (x : Y) (v : bool) (s : Variables) : Variables :=
  {| str := str s; flg y := if decide (y = x) then v else flg s y |}.

Inductive declaration :=
  | DeclString (x : X) (name value : string)
  | DeclBool (x : Y) (name : string) (value : bool).

Definition declared (d : declaration) : string * Flag Variables :=
  match d with
  | DeclString x name _ => (name, StringVar (set_str x))
  | DeclBool x name _ => (name, BoolVar (set_flg x))
  end.

(** A declaration also writes the variable's default. *)
Definition write_default (s : Variables) (d : declaration) : Variables :=
  match d with
  | DeclString x _ value => set_str x value s
  | DeclBool x _ value => set_flg x value s
  end.

Definition defaults (l : list declaration) : Variables :=
  fold_left write_default l {| str _ := ""; flg _ := false |}.

End Variables.

Arguments Variables : clear implicits.
Arguments declaration : clear implicits.
