(* ===== verification/Binaries.v ===== *)
(** * Binaries: the three programs

    cmd/agent/main.go, cmd/operator/main.go, cmd/scheduler/main.go and the
    construction of the plugin (plugin/plugin.go).  A program is what it does
    before it exits: the log lines, the calls into the controller runtime and
    the exit code.  Parameters: the answers of the controller runtime, the
    flags its packages register on the same command line, the environment. *)

From stdpp Require Import strings gmap.
From S2P Require Import Prelude GoString ApiTypes PolicyScore PluginState Backend RealBackend.
From S2P Require Import AgentController GoFlag.
Local Open Scope string_scope.
Local Open Scope list_scope.
Local Open Scope Z_scope.

(** ** The controller runtime, as the programs call it *)

(** tls.Config: the field the programs write. *)
Record TlsConfig := { NextProtos : list string }.

Inductive log_line := Info (message : string) | Error (message : string).

(** A func( *tls.Config): it logs, and changes the configuration. *)
Definition TlsOpt := TlsConfig -> list log_line * TlsConfig.

Inductive FilterProvider := WithAuthenticationAndAuthorization.

(** metricsserver.Options *)
Record MetricsOptions := {
  BindAddress : string;
  SecureServing : bool;
  TLSOpts : list TlsOpt;
  mo_FilterProvider : option FilterProvider;
  CertDir : string;
  CertName : string;
  KeyName : string
}.

(** webhook.Options; the server made of them is known by them. *)
Record WebhookOptions := {
  wh_TLSOpts : list TlsOpt;
  wh_CertDir : string;
  wh_CertName : string;
  wh_KeyName : string
}.

(** ctrl.Options *)
Record ManagerOptions := {
  Metrics : MetricsOptions;
  WebhookServer : option WebhookOptions;
  HealthProbeBindAddress : string;
  LeaderElection : bool;
  LeaderElectionID : string
}.

Inductive setup_call :=
  | NewManager (o : ManagerOptions)
  | SetupController (r : Reconciler) (b : Backend)
  | AddHealthzCheck (name : string)
  | AddReadyzCheck (name : string)
  | Start.

Inductive event := Logged (l : log_line) | Called (c : setup_call).

(** The flags of the imported packages write settings of their own, [L]. *)
Class World (L : Type) := {
  lib_settings : L;
  (** registered when the packages are loaded *)
  imported_flags : list (string * Flag L);
  (** zap.Options.BindFlags *)
  zap_flags : list (string * Flag L);
  clientgo_AddToScheme : option string;
  astra_AddToScheme : option string;
  (** ctrl.GetConfig, which reads --kubeconfig *)
  get_config : L -> option string;
  (** the error of a call, if any *)
  fails : setup_call -> option string;
  (** mgr.GetClient, as a reader of ConfigMaps *)
  GetClient : string -> string -> gmap string string + string;
  yaml : string -> FakeNodeResourceConfig + string;
  os : Os;
  retry_steps : nat
}.

(** ** Programs that log, call and exit *)

Definition prog (A : Type) : Type := list event * (A + Z).

Definition pure {A} (a : A) : prog A := ([], inl a).
Definition Exit {A} (code : Z) : prog A := ([], inr code).
Definition log_ (l : log_line) : prog () := ([Logged l], inl ()).
Definition bind_ {A B} (m : prog A) (k : A -> prog B) : prog B :=
  match m with
  | (events, inl a) => let '(more, r) := k a in (events ++ more, r)
  | (events, inr code) => (events, inr code)
  end.

Notation "x <-p m ; k" := (bind_ m (fun x => k))
  (at level 100, m at next level, right associativity) : astra_scope.
Local Open Scope astra_scope.

(** An error that ends the program: [setupLog.Error(err, message); os.Exit(1)]. *)
Definition or_exit (message : string) (err : option string) : prog () :=
  match err with
  | None => pure ()
  | Some _ => _ <-p log_ (Error message); Exit 1
  end.

(** A panic ends the program with status 2. *)
Definition or_panic (err : option string) : prog () :=
  match err with None => pure () | Some _ => Exit 2 end.

(** The events of a run and its exit code; returning from main exits with 0. *)
Definition exit_status (m : prog ()) : list event * Z :=
  (m.1, match m.2 with inl _ => 0 | inr code => code end).

Section Programs.
Context {L : Type} {w : World L}.

Definition do (c : setup_call) (message : string) : prog () :=
  _ <-p ([Called c], inl ()); or_exit message (fails c).

(** init, the same in both programs *)
Definition init : prog () :=
  _ <-p or_panic clientgo_AddToScheme; or_panic astra_AddToScheme.

(** ctrl.GetConfigOrDie *)
Definition GetConfigOrDie (l : L) : prog () := or_exit "unable to get kubeconfig" (get_config l).

Definition lib_flag {A} (nf : string * Flag L) : string * Flag (A * L) :=
  (nf.1, {| IsBoolFlag := IsBoolFlag nf.2;
            Set_ v st := match Set_ nf.2 v st.2 with inl l => inl (st.1, l) | inr err => inr err end |}).

Definition own_flag {A} (nf : string * Flag A) : string * Flag (A * L) :=
  (nf.1, {| IsBoolFlag := IsBoolFlag nf.2;
            Set_ v st := match Set_ nf.2 v st.1 with inl a => inl (a, st.2) | inr err => inr err end |}).

Section CommandLine.
Context {X Y : Type} `{EqDecision X, EqDecision Y}.

(** The flags of the packages, then those of the program, then zap's. *)
Definition command_line (own : list (declaration X Y)) : go (FlagSet (Variables X Y * L)) :=
  Vars ∅ (map lib_flag imported_flags ++ map (own_flag ∘ declared) own ++ map lib_flag zap_flags).

(** [flag.Parse] of the command line: exits with 0 after help, 2 after an
    error; positional arguments are ignored. *)
Definition parse_command_line (own : list (declaration X Y)) (args : list string)
    : prog (Variables X Y * L) :=
  match command_line own with
  | Panic => Exit 2
  | Ret fs =>
      match Parse fs (defaults own, lib_settings) args with
      | Parsed st _ => pure st
      | Help => Exit 0
      | ParseError _ => Exit 2
      end
  end.
End CommandLine.

(** ** cmd/agent/main.go *)

Inductive agent_variable :=
  | nodeName | nodeProfileNamespace | backendType | fakeResourceConfigMap
  | fakeResourceConfigMapNamespace | metricsAddr | probeAddr.
#[export] Instance agent_variable_eq : EqDecision agent_variable.
Proof. solve_decision. Defined.

Definition agent_flags : list (declaration agent_variable Empty_set) :=
  [DeclString nodeName "node-name" (Getenv os "NODE_NAME");
   DeclString nodeProfileNamespace "node-profile-namespace" "astra-system";
   DeclString backendType "backend" "fake";
   DeclString fakeResourceConfigMap "fake-resource-configmap" (Getenv os "FAKE_RESOURCE_CONFIGMAP");
   DeclString fakeResourceConfigMapNamespace "fake-resource-configmap-namespace"
     (Getenv os "FAKE_RESOURCE_CONFIGMAP_NAMESPACE");
   DeclString metricsAddr "metrics-bind-address" ":8080";
   DeclString probeAddr "health-probe-bind-address" ":8081"].

Local Abbreviation AgentSettings := (Variables agent_variable Empty_set).

(** The default of the ConfigMap's namespace. *)
Definition configMapNamespace (s : AgentSettings) : string :=
  if decide (str s fakeResourceConfigMapNamespace = "") then str s nodeProfileNamespace
  else str s fakeResourceConfigMapNamespace.

Definition agent_manager_options (s : AgentSettings) : ManagerOptions :=
  {| Metrics := {| BindAddress := str s metricsAddr; SecureServing := false; TLSOpts := [];
                   mo_FilterProvider := None; CertDir := ""; CertName := ""; KeyName := "" |};
     WebhookServer := None;
     HealthProbeBindAddress := str s probeAddr;
     LeaderElection := false;
     LeaderElectionID := "" |}.

Definition agent_backend_options (s : AgentSettings) : Options :=
  {| opt_Client := Some GetClient;
     opt_NodeName := str s nodeName;
     opt_ConfigMapNamespace := configMapNamespace s;
     opt_ConfigMapName := str s fakeResourceConfigMap |}.

Definition agent_config (s : AgentSettings) : Config :=
  {| cfg_NodeName := str s nodeName;
     cfg_NodeProfileNamespace := str s nodeProfileNamespace;
     cfg_FakeResourceConfigMap := str s fakeResourceConfigMap;
     cfg_FakeResourceConfigMapNS := configMapNamespace s |}.

Definition agent_run (s : AgentSettings) (l : L) : prog () :=
  _ <-p or_exit "Missing node name. Set --node-name or NODE_NAME."
          (if decide (str s nodeName = "") then Some "" else None);
  _ <-p GetConfigOrDie l;
  _ <-p do (NewManager (agent_manager_options s)) "Failed to create manager";
  match NewWithOptions yaml os (str s backendType) (agent_backend_options s) with
  | inr _ => _ <-p log_ (Error "Failed to create agent backend"); Exit 1
  | inl b =>
      _ <-p do (SetupController (NewReconciler (agent_config s) retry_steps) b) "Failed to set up agent controller";
      _ <-p do (AddHealthzCheck "healthz") "Failed to set up health check";
      _ <-p do (AddReadyzCheck "readyz") "Failed to set up ready check";
      _ <-p log_ (Info "Starting Astra agent");
      do Start "Failed to run agent"
  end.

Definition agent_main (args : list string) : list event * Z :=
  exit_status (
    _ <-p init;
    st <-p parse_command_line agent_flags args;
    agent_run st.1 st.2).

(** ** cmd/operator/main.go *)

Inductive operator_string :=
  | op_metricsAddr | metricsCertPath | metricsCertName | metricsCertKey
  | webhookCertPath | webhookCertName | webhookCertKey | op_probeAddr.
Inductive operator_bool := enableLeaderElection | secureMetrics | enableHTTP2.
#[export] Instance operator_string_eq : EqDecision operator_string.
Proof. solve_decision. Defined.
#[export] Instance operator_bool_eq : EqDecision operator_bool.
Proof. solve_decision. Defined.

Definition operator_flags : list (declaration operator_string operator_bool) :=
  [DeclString op_metricsAddr "metrics-bind-address" "0";
   DeclString op_probeAddr "health-probe-bind-address" ":8081";
   DeclBool enableLeaderElection "leader-elect" false;
   DeclBool secureMetrics "metrics-secure" true;
   DeclString webhookCertPath "webhook-cert-path" "";
   DeclString webhookCertName "webhook-cert-name" "tls.crt";
   DeclString webhookCertKey "webhook-cert-key" "tls.key";
   DeclString metricsCertPath "metrics-cert-path" "";
   DeclString metricsCertName "metrics-cert-name" "tls.crt";
   DeclString metricsCertKey "metrics-cert-key" "tls.key";
   DeclBool enableHTTP2 "enable-http2" false].

Local Abbreviation OperatorSettings := (Variables operator_string operator_bool).

Definition disableHTTP2 : TlsOpt := fun c => ([Info "Disabling HTTP/2"], {| NextProtos := ["http/1.1"] |}).

Definition tlsOpts (s : OperatorSettings) : list TlsOpt :=
  if negb (flg s enableHTTP2) then [] ++ [disableHTTP2] else [].

Definition webhookServerOptions (s : OperatorSettings) : prog WebhookOptions :=
  if decide (str s webhookCertPath = "") then
    pure {| wh_TLSOpts := tlsOpts s; wh_CertDir := ""; wh_CertName := ""; wh_KeyName := "" |}
  else
    _ <-p log_ (Info "Initializing webhook certificate watcher using provided certificates");
    pure {| wh_TLSOpts := tlsOpts s; wh_CertDir := str s webhookCertPath; wh_CertName := str s webhookCertName;
            wh_KeyName := str s webhookCertKey |}.

Definition metricsServerOptions (s : OperatorSettings) : prog MetricsOptions :=
  let filter := if flg s secureMetrics then Some WithAuthenticationAndAuthorization else None in
  let options dir cert key :=
    {| BindAddress := str s op_metricsAddr; SecureServing := flg s secureMetrics; TLSOpts := tlsOpts s;
       mo_FilterProvider := filter; CertDir := dir; CertName := cert; KeyName := key |} in
  if decide (str s metricsCertPath = "") then pure (options "" "" "")
  else
    _ <-p log_ (Info "Initializing metrics certificate watcher using provided certificates");
    pure (options (str s metricsCertPath) (str s metricsCertName) (str s metricsCertKey)).

Definition operator_run (s : OperatorSettings) (l : L) : prog () :=
  webhook <-p webhookServerOptions s;
  metrics <-p metricsServerOptions s;
  _ <-p GetConfigOrDie l;
  _ <-p do (NewManager {| Metrics := metrics; WebhookServer := Some webhook;
                          HealthProbeBindAddress := str s op_probeAddr;
                          LeaderElection := flg s enableLeaderElection;
                          LeaderElectionID := "a6ac0981.aiinfra.io" |}) "Failed to start manager";
  _ <-p do (AddHealthzCheck "healthz") "Failed to set up health check";
  _ <-p do (AddReadyzCheck "readyz") "Failed to set up ready check";
  _ <-p log_ (Info "Starting manager");
  do Start "Failed to run manager".

Definition operator_main (args : list string) : list event * Z :=
  exit_status (
    _ <-p init;
    st <-p parse_command_line operator_flags args;
    operator_run st.1 st.2).

End Programs.

(** ** plugin/plugin.go and cmd/scheduler/main.go *)

Definition PluginName : string := "AstraScheduler".
Definition NodeResourceNamespaceEnv : string := "ASTRA_NODE_RESOURCE_NAMESPACE".

(** The part of the rest.Config the plugin writes, and the rest of it. *)
Record RestConfig (R : Type) := { ContentType : string; rest_ : R }.
Arguments ContentType {R} _.
Arguments rest_ {R} _.

Section Scheduler.
Context {R : Type}.
(** [ctrlclient.New], and the text of the framework's error for a missing key *)
Variable ctrlclient_New : RestConfig R -> Reader + string.
Variable ErrNotFound : string.
Variable AddToScheme_error : option string.
Variable env : string -> string.

(** [KubeConfig] returns the scheduler's own configuration, which the plugin
    writes to: the second result is that configuration afterwards. *)
Definition New (config : RestConfig R) : (AstraScheduler + string) * RestConfig R :=
  match AddToScheme_error with
  | Some err => (inr err, config)
  | None =>
      let config := {| ContentType := "application/json"; rest_ := rest_ config |} in
      match ctrlclient_New config with
      | inr err => (inr err, config)
      | inl c =>
          (inl {| client := c; policy := NewSimplePolicy;
                  nodeNamespace := nodeResourceNamespace (env NodeResourceNamespaceEnv);
                  missing_key := ErrNotFound |}, config)
      end
  end.

(** The exit code: [cli.Run] of the command with the plugin registered. *)
Definition scheduler_main
    (Run : list (string * (RestConfig R -> (AstraScheduler + string) * RestConfig R)) -> Z) : Z :=
  Run [(PluginName, New)].

(** The plugin is built unless the scheme or the client cannot be; either way
    the configuration of the scheduler asks for JSON once a client was tried. *)
Lemma New_builds config :
  (exists p, (New config).1 = inl p /\ policy p = NewSimplePolicy /\ nodeNamespace p <> "") <->
  AddToScheme_error = None /\
  exists c, ctrlclient_New {| ContentType := "application/json"; rest_ := rest_ config |} = inl c.
Proof.
  unfold New. destruct AddToScheme_error; [split; [by intros (? & ? & _)|by intros [? _]]|].
  destruct (ctrlclient_New _) as [c|err]; cbn; [|split; [by intros (? & ? & _)|by intros [_ [? ?]]]].
  split; [eauto|]. intros _. eexists. split_and!; [done..|]. cbn. unfold nodeResourceNamespace. by case_decide.
Qed.
End Scheduler.

(** ** What the programs do *)

(** A command line that sets every declared variable as in [s]. *)
Definition print_settings {X Y} (own : list (declaration X Y)) (s : Variables X Y) : list string :=
  map (fun d => match d with
                | DeclString x name _ => "--" +:+ name +:+ "=" +:+ str s x
                | DeclBool x name _ => "--" +:+ name +:+ "=" +:+ show_bool (flg s x)
                end) own.

(** The TLS configuration a server ends up with. *)
Definition apply_opts (opts : list TlsOpt) (c : TlsConfig) : TlsConfig :=
  fold_left (fun c opt => (opt c).2) opts c.

(** No argument names the flag. *)
Definition unmentioned (name : string) (args : list string) : Prop :=
  forall value, FlagArg name value ∉ map classify args.

Section ProgramFacts.
Context {L : Type} {w : World L}.

Lemma elem_bind {A B} (m : prog A) (k : A -> prog B) e :
  e ∈ (bind_ m k).1 <-> e ∈ m.1 \/ exists a, m.2 = inl a /\ e ∈ (k a).1.
Proof.
  destruct m as [ev [a|code]]; cbn.
  - destruct (k a) as [more r] eqn:E. cbn. rewrite elem_of_app. split.
    + intros [H|H]; [by left|right]. exists a. by rewrite E.
    + intros [H|(? & [= <-] & H)]; [by left|right]. by rewrite E in H.
  - split; [by left|]. by intros [H|(? & ? & ?)].
Qed.

Lemma called_or_exit c msg err : Called c ∉ (or_exit msg err).1.
Proof. destruct err; cbn; rewrite ?elem_of_cons, elem_of_nil; [by intros [[=]|[]]|by intros []]. Qed.

Lemma called_do c c' msg : Called c ∈ (do c' msg).1 -> c = c'.
Proof.
  unfold do. intros [H|(_ & _ & H)]%elem_bind; [|by apply called_or_exit in H].
  apply elem_of_cons in H as [[= ->]|H]; [done|by apply elem_of_nil in H].
Qed.

Lemma called_log c l : Called c ∉ (log_ l).1.
Proof. cbn. rewrite elem_of_cons, elem_of_nil. by intros [[=]|[]]. Qed.

Lemma called_init c : Called c ∉ init.1.
Proof.
  unfold init. destruct clientgo_AddToScheme, astra_AddToScheme; apply not_elem_of_nil.
Qed.

Lemma called_parse {X Y} `{EqDecision X, EqDecision Y} (own : list (declaration X Y)) args c :
  Called c ∉ (parse_command_line own args).1.
Proof.
  unfold parse_command_line. destruct command_line; [|apply not_elem_of_nil].
  destruct Parse; apply not_elem_of_nil.
Qed.

Lemma parse_command_line_ok {X Y} `{EqDecision X, EqDecision Y} (own : list (declaration X Y)) args st :
  (parse_command_line own args).2 = inl st ->
  exists fs rest, command_line own = Ret fs /\ Parse fs (defaults own, lib_settings) args = Parsed st rest.
Proof.
  unfold parse_command_line. destruct command_line as [fs|]; [|done].
  destruct Parse as [st' rest| |] eqn:E; try done. intros [= <-]. by eexists _, _.
Qed.

End ProgramFacts.

(** Where a call came from: one half of a [bind_] at a time, the halves that
    cannot make it discarded. *)
Ltac no_call H :=
  first [by apply called_init in H | by apply called_parse in H | by apply called_or_exit in H
        | by apply called_log in H | by apply called_do in H | by apply not_elem_of_nil in H].
Ltac peel H :=
  let a := fresh "a" in let Ha := fresh "Ha" in
  apply elem_bind in H as [H|(a & Ha & H)]; cbv beta in H; try (exfalso; no_call H).

Section Starting.
Context {L : Type} {w : World L}.

(** An agent that gets as far as its controller. *)
Lemma agent_controller args r b :
  Called (SetupController r b) ∈ (agent_main args).1 ->
  exists s, str s nodeName <> "" /\ r = NewReconciler (agent_config s) retry_steps /\
    NewWithOptions yaml os (str s backendType) (agent_backend_options s) = inl b.
Proof.
  unfold agent_main, exit_status. cbn [fst]. intros H.
  peel H. peel H. destruct a0 as [s l]. unfold agent_run in H. cbn [fst snd] in *.
  do 3 peel H.
  destruct (NewWithOptions _ _ _ _) as [b'|err] eqn:Eb; [|by peel H].
  exists s. split; [intros Hn; by rewrite decide_True in Ha1|].
  peel H; [apply called_do in H; by injection H as -> ->|]. by do 4 peel H.
Qed.

(** C20: the agent's parts agree: whatever the command line and the
    environment, a controller is only set up for a named node, its backend
    serves the same node, and the ConfigMap the fake backend reads for that
    node is one whose changes wake the controller. *)
Theorem agent_wiring generation_changed args r b :
  Called (SetupController r b) ∈ (agent_main args).1 ->
  cfg_NodeName (config r) <> "" /\ local r = LocalScheduler.NewDefaultScheduler /\
  exists name o, NewWithOptions yaml os name o = inl b /\
    opt_NodeName o = cfg_NodeName (config r) /\
    forall n (e : change ObjectMeta),
      opt_ConfigMapName o <> "" ->
      Namespace (newest e) = configMapNamespaceFor o n -> ApiTypes.Name (newest e) = opt_ConfigMapName o ->
      on_config_map (SetupWithManager generation_changed r) e =
      Some (cfg_NodeProfileNamespace (config r), cfg_NodeName (config r)).
Proof.
  intros (s & Hn & -> & Hb)%agent_controller. split_and!; [done..|].
  exists (str s backendType), (agent_backend_options s). split_and!; [done..|].
  intros n e Hm Hns Hname. cbn [SetupWithManager on_config_map].
  assert (Hp : fakeConfigMapPredicate (agent_config s) (newest e) = true);
    [|cbn [NewReconciler config]; by rewrite Hp].
  unfold fakeConfigMapPredicate. cbn [agent_config cfg_FakeResourceConfigMap cfg_FakeResourceConfigMapNS].
  rewrite decide_False by done. rewrite (bool_decide_eq_true_2 _ Hname). cbn [andb].
  rewrite Hns. unfold configMapNamespaceFor. cbn [agent_backend_options opt_ConfigMapNamespace].
  destruct (decide (configMapNamespace s = "")) as [E|E].
  - by rewrite bool_decide_eq_true_2.
  - rewrite bool_decide_eq_false_2, decide_False by done. by rewrite bool_decide_eq_true_2.
Qed.

(** The flag of each boolean variable of the operator. *)
Definition flag_of (x : operator_bool) : string :=
  match x with
  | enableLeaderElection => "leader-elect"
  | secureMetrics => "metrics-secure"
  | enableHTTP2 => "enable-http2"
  end.

(** Which flags of a registered command line can write what. *)
Lemma command_line_lookup {X Y} `{EqDecision X, EqDecision Y} (own : list (declaration X Y)) fs d :
  command_line own = Ret fs -> d ∈ own ->
  fs !! (declared d).1 = Some (own_flag (declared d)).2.
Proof.
  intros Hc Hd. apply (Vars_lookup _ _ _ _ _ Hc), elem_of_app. right. apply elem_of_app. left.
  apply list_elem_of_fmap. exists d. split; [|done]. by destruct d.
Qed.

Lemma command_line_legal {X Y} `{EqDecision X, EqDecision Y} (own : list (declaration X Y)) fs :
  command_line own = Ret fs -> legal_set fs.
Proof. intros H. by apply (Vars_legal _ _ _ empty_legal H). Qed.

(** A flag of the command line is the program's or leaves its variables
    alone. *)
Lemma command_line_only {X Y} `{EqDecision X, EqDecision Y} (own : list (declaration X Y)) fs name f :
  command_line own = Ret fs -> fs !! name = Some f ->
  (exists d, d ∈ own /\ name = (declared d).1 /\ f = (own_flag (declared d)).2) \/
  (forall v st st', Set_ f v st = inl st' -> st'.1 = st.1).
Proof.
  intros Hc Hf. destruct (Vars_only _ _ _ _ _ Hc Hf) as [Hin|He]; [|by rewrite lookup_empty in He].
  assert (Hlib : forall l : list (string * Flag L), (name, f) ∈ map lib_flag l ->
    forall v (st st' : Variables X Y * L), Set_ f v st = inl st' -> st'.1 = st.1).
  { intros l ([n g] & [= -> ->] & _)%list_elem_of_fmap v st st'. cbn.
    destruct (Set_ g v st.2); [|done]. by intros [= <-]. }
  apply elem_of_app in Hin as [Hin|[Hin|Hin]%elem_of_app]; [right; by eapply Hlib| |right; by eapply Hlib].
  left. apply list_elem_of_fmap in Hin as (d & E & Hd). exists d. split; [done|].
  unfold compose, own_flag in E. by injection E as -> ->.
Qed.

(** A boolean variable that no argument names keeps its default. *)
Lemma unmentioned_bool {X Y} `{EqDecision X, EqDecision Y} (own : list (declaration X Y)) fs args st rest x name :
  command_line own = Ret fs ->
  (forall d, d ∈ own -> match d with DeclBool y n _ => y = x -> n = name | _ => True end) ->
  unmentioned name args ->
  Parse fs (defaults own, lib_settings) args = Parsed st rest ->
  flg st.1 x = flg (defaults own) x.
Proof.
  intros Hc Hx Hu. apply (Parse_keeps (fun st => flg st.1 x = flg (defaults own) x)); [|done].
  intros n value f v st0 st1 Hin Hf H0 Hset.
  destruct (command_line_only _ _ _ _ Hc Hf) as [(d & Hd & -> & ->)|Hlib]; [|by rewrite (Hlib _ _ _ Hset)].
  specialize (Hx d Hd). destruct d as [y n dv|y n dv]; cbn in Hset, Hin.
  - by injection Hset as <-.
  - destruct (ParseBool v) as [b|]; [|done]. injection Hset as <-. cbn.
    case_decide as E; [|done]. exfalso. apply (Hu value). by rewrite <- (Hx (eq_sym E)).
Qed.

(** An operator that gets as far as its manager. *)
Lemma operator_manager args o :
  Called (NewManager o) ∈ (operator_main args).1 ->
  exists fs s l rest, command_line operator_flags = Ret fs /\
    Parse fs (defaults operator_flags, lib_settings) args = Parsed (s, l) rest /\
    TLSOpts (Metrics o) = tlsOpts s /\ SecureServing (Metrics o) = flg s secureMetrics /\
    mo_FilterProvider (Metrics o) = (if flg s secureMetrics then Some WithAuthenticationAndAuthorization else None) /\
    exists wh, WebhookServer o = Some wh /\ wh_TLSOpts wh = tlsOpts s.
Proof.
  unfold operator_main, exit_status. cbn [fst]. intros H.
  peel H. peel H. destruct a0 as [s l]. apply parse_command_line_ok in Ha0 as (fs & rest & Hc & Hp).
  exists fs, s, l, rest. split; [done|]. split; [done|]. clear Hc Hp.
  unfold operator_run, webhookServerOptions, metricsServerOptions in H. cbn [fst snd] in H.
  peel H; [case_decide; [|peel H]; no_call H|]. peel H; [case_decide; [|peel H]; no_call H|].
  do 2 peel H; [|by do 4 peel H].
  apply called_do in H. injection H as ->. cbn [Metrics WebhookServer].
  destruct (decide (str s webhookCertPath = "")), (decide (str s metricsCertPath = ""));
    injection Ha0 as <-; injection Ha1 as <-; cbn; eauto 10.
Qed.

(** C21: the operator's endpoints are hardened unless the command line says
    otherwise: without -enable-http2 among the arguments neither the metrics
    nor the webhook server offers HTTP/2, and without -metrics-secure the
    metrics are served over TLS to authenticated and authorized clients. *)
Theorem operator_hardened_by_default args o :
  Called (NewManager o) ∈ (operator_main args).1 ->
  (unmentioned "enable-http2" args -> forall c wh, WebhookServer o = Some wh ->
     NextProtos (apply_opts (TLSOpts (Metrics o)) c) = ["http/1.1"] /\
     NextProtos (apply_opts (wh_TLSOpts wh) c) = ["http/1.1"]) /\
  (unmentioned "metrics-secure" args ->
     SecureServing (Metrics o) = true /\ mo_FilterProvider (Metrics o) = Some WithAuthenticationAndAuthorization) /\
  (SecureServing (Metrics o) = true <-> mo_FilterProvider (Metrics o) = Some WithAuthenticationAndAuthorization).
Proof.
  intros (fs & s & l & rest & Hc & Hp & Ht & Hs & Hf & wh & Hw & Hwt)%operator_manager.
  rewrite Ht, Hs, Hf, Hw.
  assert (Hkeep : forall x name, flag_of x = name -> unmentioned name args -> flg s x = flg (defaults operator_flags) x).
  { intros x name <- Hu. refine (unmentioned_bool _ fs args (s, l) rest x (flag_of x) Hc _ Hu Hp).
    apply Forall_forall. unfold operator_flags. repeat (constructor; [done || by intros <-|]). constructor. }
  split_and!.
  - intros Hu c wh' [= <-]. rewrite Hwt. unfold tlsOpts.
    by rewrite (Hkeep enableHTTP2 _ eq_refl Hu).
  - intros Hu. by rewrite (Hkeep secureMetrics _ eq_refl Hu).
  - by destruct (flg s secureMetrics).
Qed.

(** ** Exit codes *)

(** A stretch of main: on its way out it has reported an error, and while it
    goes on no call has failed. *)
Definition reports {A} (m : prog A) : Prop :=
  match m.2 with
  | inl _ => forall c, Called c ∈ m.1 -> fails c = None
  | inr code => code = 1 /\ exists before message, m.1 = before ++ [Logged (Error message)]
  end.

Lemma reports_bind {A B} (m : prog A) (k : A -> prog B) :
  reports m -> (forall a, reports (k a)) -> reports (bind_ m k).
Proof.
  unfold reports. destruct m as [ev [a|code]]; cbn [bind_ snd fst]; intros Hm Hk; [|done].
  specialize (Hk a). destruct (k a) as [more [b|code]]; cbn in *.
  - intros c [Hc|Hc]%elem_of_app; auto.
  - destruct Hk as [-> (before & message & ->)]. split; [done|].
    exists (ev ++ before), message. by rewrite app_assoc.
Qed.

Lemma reports_log l : reports (log_ l).
Proof. intros c H. by apply called_log in H. Qed.

Lemma reports_or_exit message err : reports (or_exit message err).
Proof.
  destruct err; cbn.
  - split; [done|]. by exists [], message.
  - intros c H. by apply not_elem_of_nil in H.
Qed.

Lemma reports_do c message : reports (do c message).
Proof.
  unfold do. destruct (fails c) eqn:E; cbn.
  - split; [done|]. by exists [Called c], message.
  - intros c' [[= ->]|H]%elem_of_cons; [done|by apply not_elem_of_nil in H].
Qed.

Lemma reports_pure {A} (a : A) : reports (pure a).
Proof. intros c H. by apply not_elem_of_nil in H. Qed.

Hint Resolve reports_log reports_or_exit reports_do reports_pure : go_exit.
Ltac reports :=
  repeat first [solve [auto with go_exit] | apply reports_bind; [|intros ?] | case_decide].

Lemma agent_run_reports s l : reports (agent_run s l).
Proof.
  unfold agent_run, GetConfigOrDie. reports.
  destruct NewWithOptions as [b|err]; [by reports|]. split; [done|]. by eexists [], _.
Qed.

Lemma operator_run_reports s l : reports (operator_run s l).
Proof. unfold operator_run, GetConfigOrDie, webhookServerOptions, metricsServerOptions. by reports. Qed.

(** Started: the manager's Start was called and everything asked of the
    controller runtime succeeded. *)
Definition ran (events : list event) : Prop :=
  Called Start ∈ events /\ forall c, Called c ∈ events -> fails c = None.

(** A program that only returns from Start. *)
Definition only_returns_from_Start (m : prog ()) : Prop := m.2 = inl () -> Called Start ∈ m.1.

Lemma starts_bind {A} (m : prog A) (k : A -> prog ()) :
  (forall a, only_returns_from_Start (k a)) -> only_returns_from_Start (bind_ m k).
Proof.
  intros Hk H. apply elem_bind. right. destruct m as [ev [a|code]]; [|done]. exists a. split; [done|].
  apply Hk. cbn in H. by destruct (k a).
Qed.

Lemma starts_do message : only_returns_from_Start (do Start message).
Proof. intros _. unfold do. apply elem_bind. left. by left. Qed.

Lemma agent_run_starts s l : only_returns_from_Start (agent_run s l).
Proof.
  unfold agent_run. do 3 (apply starts_bind; intros _).
  destruct NewWithOptions; [|done]. do 4 (apply starts_bind; intros _). apply starts_do.
Qed.

Lemma operator_run_starts s l : only_returns_from_Start (operator_run s l).
Proof. unfold operator_run. do 7 (apply starts_bind; intros ?). apply starts_do. Qed.

(** An argument asks for the usage message. *)
Definition help_asked {X Y} `{EqDecision X, EqDecision Y} (own : list (declaration X Y)) (args : list string) : Prop :=
  exists fs name value, command_line own = Ret fs /\ fs !! name = None /\
    (name = "help" \/ name = "h") /\ FlagArg name value ∈ map classify args.

(** The program cannot begin: a scheme or a flag does not register, or the
    command line has an error. *)
Definition cannot_begin {X Y} `{EqDecision X, EqDecision Y} (own : list (declaration X Y)) (args : list string) : Prop :=
  is_Some clientgo_AddToScheme \/ is_Some astra_AddToScheme \/ command_line own = Panic \/
  exists fs message, command_line own = Ret fs /\
    Parse fs (defaults own, lib_settings) args = ParseError message.

(** How a run may end. *)
Definition honest_exit {X Y} `{EqDecision X, EqDecision Y} (own : list (declaration X Y)) (args : list string)
    (run : list event * Z) : Prop :=
  let '(events, code) := run in
  (code = 0 /\ (ran events \/ (events = [] /\ help_asked own args))) \/
  (code = 1 /\ exists before message, events = before ++ [Logged (Error message)]) \/
  (code = 2 /\ events = [] /\ cannot_begin own args).

Lemma honest_main {X Y} `{EqDecision X, EqDecision Y} (own : list (declaration X Y)) args
    (body : Variables X Y -> L -> prog ()) :
  (forall s l, reports (body s l)) -> (forall s l, only_returns_from_Start (body s l)) ->
  honest_exit own args (exit_status (_ <-p init; st <-p parse_command_line own args; body st.1 st.2)).
Proof.
  intros Hr Hs. unfold init.
  assert (H2 : cannot_begin own args -> honest_exit own args ([], 2)) by (intros H; by right; right).
  destruct clientgo_AddToScheme eqn:E1; [apply H2; left; by rewrite E1|].
  destruct astra_AddToScheme eqn:E2; [apply H2; right; left; by rewrite E2|].
  unfold parse_command_line. destruct (command_line own) as [fs|] eqn:Ec; [|apply H2; by right; right; left].
  destruct (Parse fs (defaults own, lib_settings) args) as [[s l] rest| |message] eqn:Ep.
  - cbn. specialize (Hr s l). specialize (Hs s l). unfold reports in Hr. unfold only_returns_from_Start in Hs.
    destruct (body s l) as [ev [[]|code]]; cbn in *.
    + left. split; [done|]. left. split; auto.
    + right. left. destruct Hr as [-> Hr]. auto.
  - left. split; [done|]. right. split; [done|]. destruct (Parse_help _ _ _ Ep) as (name & value & Hin & Hn & Hf).
    by exists fs, name, value.
  - apply H2. right. right. right. by exists fs, message.
Qed.

(** C33: both programs end honestly, whatever the command line, the
    environment and the controller runtime do.  Exit code 0 means that Start
    was called and every call the program made succeeded, or that nothing was
    done because an argument asked for help; 1 that the last thing the program
    did was to log an error; 2 that it did nothing because a scheme or a flag
    could not be registered or the command line has an error. *)
Theorem programs_exit_honestly args :
  honest_exit agent_flags args (agent_main args) /\ honest_exit operator_flags args (operator_main args).
Proof.
  split; apply honest_main; auto using agent_run_reports, agent_run_starts, operator_run_reports, operator_run_starts.
Qed.

(** ** From the command line to the manager *)

(** What a declaration's variable is in two settings. *)
Definition same_value {X Y} (s s' : Variables X Y) (d : declaration X Y) : Prop :=
  match d with
  | DeclString x _ _ => str s x = str s' x
  | DeclBool x _ _ => flg s x = flg s' x
  end.

Definition named {X Y} (d : declaration X Y) : string :=
  match d with DeclString _ name _ | DeclBool _ name _ => name end.

Lemma ParseBool_show b : ParseBool (show_bool b) = Some b.
Proof. by destruct b. Qed.

(** One printed declaration sets its variable and nothing else. *)
Lemma Parse_setting {X Y} `{EqDecision X, EqDecision Y} (own : list (declaration X Y)) fs s d st args :
  command_line own = Ret fs -> d ∈ own -> named d <> "" ->
  exists st', Parse fs st (print_settings [d] s ++ args) = Parse fs st' args /\
    st'.2 = st.2 /\ same_value st'.1 s d /\
    forall d', same_value st.1 s d' -> same_value st'.1 s d'.
Proof.
  intros Hc Hd Hn. pose proof (command_line_lookup _ _ _ Hc Hd) as Hf.
  pose proof (command_line_legal _ _ Hc) as Hl.
  assert (Hset : exists v st', print_settings [d] s = print_assignment (Joined true (named d) v) /\
    Set_ (own_flag (L := L) (declared d)).2 v st = inl st' /\ st'.2 = st.2 /\ same_value st'.1 s d /\
    forall d', same_value st.1 s d' -> same_value st'.1 s d').
  { destruct d as [x name dv|x name dv]; cbn [named].
    - exists (str s x), (set_str x (str s x) st.1, st.2). split_and!; try done; cbn; [by rewrite decide_True|].
      intros [y ? ?|y ? ?]; cbn; [|done]. by case_decide as E; [subst y|].
    - exists (show_bool (flg s x)), (set_flg x (flg s x) st.1, st.2).
      split_and!; try done; cbn; [by rewrite ParseBool_show|by rewrite decide_True|].
      intros [y ? ?|y ? ?]; cbn; [done|]. by case_decide as E; [subst y|]. }
  destruct Hset as (v & st' & -> & Hset & H2 & Hv & Hkeep). exists st'. split; [|done].
  rewrite (Parse_assignment fs st (Joined true (named d) v) args Hl).
  - cbn [assign_all assigned_name assigned_value]. replace (declared d).1 with (named d) in Hf by by destruct d.
    rewrite Hf. unfold set_flag. change (default "true" (Some v)) with v. by rewrite Hset.
  - split; [done|]. eexists. split; [|done]. cbn [assigned_name].
    replace (declared d).1 with (named d) in Hf by by destruct d. exact Hf.
Qed.

Lemma Parse_settings {X Y} `{EqDecision X, EqDecision Y} (own l : list (declaration X Y)) fs s st :
  command_line own = Ret fs -> Forall (fun d => d ∈ own /\ named d <> "") l ->
  exists st', Parse fs st (print_settings l s) = Parsed st' [] /\ st'.2 = st.2 /\
    forall d, d ∈ l \/ same_value st.1 s d -> same_value st'.1 s d.
Proof.
  intros Hc Hl. revert st. induction Hl as [|d l [Hd Hn] Hl IH]; intros st.
  - exists st. split_and!; [done..|]. intros d [H|H]; [by apply not_elem_of_nil in H|done].
  - destruct (Parse_setting own fs s d st (print_settings l s) Hc Hd Hn) as (st1 & E & E2 & Hv & Hkeep).
    destruct (IH st1) as (st' & E' & E2' & Hall). exists st'. split_and!.
    + by rewrite <- E'.
    + congruence.
    + intros d' [[->|Hin]%elem_of_cons|Hs]; apply Hall; auto.
Qed.

Lemma agent_declares x : exists name v, DeclString x name v ∈ agent_flags.
Proof. destruct x; eexists _, _; unfold agent_flags; repeat constructor. Qed.

Lemma operator_declares :
  (forall x, exists name v, DeclString x name v ∈ operator_flags) /\
  (forall x, exists name v, DeclBool x name v ∈ operator_flags).
Proof. split; intros x; destruct x; eexists _, _; unfold operator_flags; repeat constructor. Qed.

Lemma agent_reads fs s :
  command_line agent_flags = Ret fs -> exists s',
    Parse fs (defaults agent_flags, lib_settings) (print_settings agent_flags s) = Parsed (s', lib_settings) [] /\
    forall x, str s' x = str s x.
Proof.
  intros Hc. destruct (Parse_settings agent_flags agent_flags fs s (defaults agent_flags, lib_settings) Hc)
    as ([s' l] & E & E2 & Hall).
  { unfold agent_flags. repeat (constructor; [split; [by repeat constructor|done]|]). constructor. }
  cbn in E2. subst l. exists s'. split; [done|]. intros x.
  destruct (agent_declares x) as (name & v & Hd). apply (Hall _ (or_introl Hd)).
Qed.

Lemma operator_reads fs s :
  command_line operator_flags = Ret fs -> exists s',
    Parse fs (defaults operator_flags, lib_settings) (print_settings operator_flags s) = Parsed (s', lib_settings) [] /\
    (forall x, str s' x = str s x) /\ forall x, flg s' x = flg s x.
Proof.
  intros Hc. destruct (Parse_settings operator_flags operator_flags fs s (defaults operator_flags, lib_settings) Hc)
    as ([s' l] & E & E2 & Hall).
  { unfold operator_flags. repeat (constructor; [split; [by repeat constructor|done]|]). constructor. }
  cbn in E2. subst l. exists s'. destruct operator_declares as [Hstr Hflg]. split_and!; [done|..]; intros x.
  - destruct (Hstr x) as (name & v & Hd). apply (Hall _ (or_introl Hd)).
  - destruct (Hflg x) as (name & v & Hd). apply (Hall _ (or_introl Hd)).
Qed.

(** The names the imported packages register are legal, all different and
    not those given. *)
Definition names_apart (names : list string) : Prop :=
  let lib := (imported_flags (L := L)).*1 ++ (zap_flags (L := L)).*1 in
  Forall (fun n => legal_name n = true) lib /\ NoDup lib /\ forall n, n ∈ lib -> n ∉ names.

Lemma command_line_registers {X Y} `{EqDecision X, EqDecision Y} (own : list (declaration X Y)) :
  Forall (fun n => legal_name n = true) (named <$> own) -> NoDup (named <$> own) -> names_apart (named <$> own) ->
  exists fs, command_line own = Ret fs.
Proof.
  intros Hl Hn (Ll & Ln & La). unfold command_line. apply Forall_app in Ll as [Ll1 Ll2].
  apply NoDup_app in Ln as (Ln1 & Ln12 & Ln2).
  assert (E : (map lib_flag imported_flags ++ map (own_flag ∘ declared) own ++ map lib_flag zap_flags).*1
              = (imported_flags (L := L)).*1 ++ (named <$> own) ++ (zap_flags (L := L)).*1).
  { assert (El : forall l : list (string * Flag L), (map (lib_flag (A := Variables X Y)) l).*1 = l.*1)
      by (induction l; cbn; congruence).
    assert (Eo : forall l : list (declaration X Y), (map (own_flag (L := L) ∘ declared) l).*1 = named <$> l).
    { induction l as [|[] l IH]; cbn; [done|..]; by rewrite <- IH. }
    by rewrite !fmap_app, !El, Eo. }
  apply Vars_registers; rewrite ?E.
  - rewrite !Forall_app. done.
  - apply NoDup_app. split_and!; [done| |apply NoDup_app; split_and!; [done| |done]].
    + intros n Hi [Ho|Hz]%elem_of_app; [eapply La; [|exact Ho]; apply elem_of_app; by left|by eapply Ln12].
    + intros n Ho Hz. eapply La; [|exact Ho]. apply elem_of_app. by right.
  - intros n _. apply lookup_empty.
Qed.

(** A machine on which nothing goes wrong. *)
Record healthy : Prop := {
  healthy_schemes : clientgo_AddToScheme = None /\ astra_AddToScheme = None;
  healthy_config : get_config lib_settings = None;
  healthy_calls c : fails c = None;
  healthy_flags : names_apart
    ["node-name"; "node-profile-namespace"; "backend"; "fake-resource-configmap";
     "fake-resource-configmap-namespace"; "metrics-bind-address"; "health-probe-bind-address";
     "leader-elect"; "metrics-secure"; "webhook-cert-path"; "webhook-cert-name"; "webhook-cert-key";
     "metrics-cert-path"; "metrics-cert-name"; "metrics-cert-key"; "enable-http2"]
}.

Lemma names_apart_weaken names names' : names ⊆ names' -> names_apart names' -> names_apart names.
Proof. intros Hs (H1 & H2 & H3). split_and!; [done..|]. intros n Hn Hin. by eapply H3, Hs. Qed.

Lemma do_healthy c message : healthy -> do c message = ([Called c], inl ()).
Proof. intros H. unfold do, or_exit. by rewrite (healthy_calls H c). Qed.

(** C30: the agent does what its command line says.  On a machine where nothing
    goes wrong, with any values of the seven flags of which the node name is
    not empty and the backend is one it can build, it makes exactly these calls,
    in this order, and exits with 0: a manager with the metrics and the probe
    address, the controller for this node, this profile namespace, this
    ConfigMap (in its namespace, by default that of the profile) with the
    backend of this type for the same node, the two checks, and Start. *)
Theorem agent_starts_as_configured name ns backend cm cmns metrics probe b :
  healthy -> name <> "" ->
  let cmns' := if decide (cmns = "") then ns else cmns in
  NewWithOptions yaml os backend
    {| opt_Client := Some GetClient; opt_NodeName := name; opt_ConfigMapNamespace := cmns';
       opt_ConfigMapName := cm |} = inl b ->
  agent_main ["--node-name=" +:+ name; "--node-profile-namespace=" +:+ ns; "--backend=" +:+ backend;
              "--fake-resource-configmap=" +:+ cm; "--fake-resource-configmap-namespace=" +:+ cmns;
              "--metrics-bind-address=" +:+ metrics; "--health-probe-bind-address=" +:+ probe] =
  ([Called (NewManager
      {| Metrics := {| BindAddress := metrics; SecureServing := false; TLSOpts := []; mo_FilterProvider := None;
                       CertDir := ""; CertName := ""; KeyName := "" |};
         WebhookServer := None; HealthProbeBindAddress := probe; LeaderElection := false; LeaderElectionID := "" |});
    Called (SetupController
      (NewReconciler {| cfg_NodeName := name; cfg_NodeProfileNamespace := ns; cfg_FakeResourceConfigMap := cm;
                        cfg_FakeResourceConfigMapNS := cmns' |} retry_steps) b);
    Called (AddHealthzCheck "healthz"); Called (AddReadyzCheck "readyz");
    Logged (Info "Starting Astra agent"); Called Start], 0).
Proof.
  intros Hh Hname cmns' Hb.
  assert (exists fs, command_line agent_flags = Ret fs) as [fs Hc].
  { apply command_line_registers; [repeat constructor|compute_decide|].
    eapply names_apart_weaken; [|exact (healthy_flags Hh)]. compute_decide. }
  set (s := {| str x := match x with
      | nodeName => name | nodeProfileNamespace => ns | backendType => backend | fakeResourceConfigMap => cm
      | fakeResourceConfigMapNamespace => cmns | metricsAddr => metrics | probeAddr => probe end;
      flg := fun y : Empty_set => match y with end |}).
  destruct (agent_reads fs s Hc) as (s' & Hp & Hs').
  change (["--node-name=" +:+ name; _; _; _; _; _; _]) with (print_settings agent_flags s).
  unfold agent_main, init. destruct (healthy_schemes Hh) as [-> ->].
  unfold parse_command_line. rewrite Hc, Hp. cbn [or_panic bind_ pure fst snd app].
  unfold agent_run, GetConfigOrDie, agent_backend_options, agent_config, agent_manager_options, configMapNamespace.
  rewrite !Hs'. cbn [s str]. rewrite decide_False by done. rewrite (healthy_config Hh). fold cmns'.
  rewrite Hb, !(do_healthy _ _ Hh). reflexivity.
Qed.

(** The operator likewise: with any values of its eleven flags, written in
    full, it makes these calls and exits with 0. *)
Theorem operator_starts_as_configured metrics probe whdir whcert whkey mdir mcert mkey
    (leader secure http2 : bool) :
  healthy ->
  let given (dir x : string) := if decide (dir = "") then "" else x in
  let note (dir what : string) := if decide (dir = "") then [] else
    [Logged (Info ("Initializing " +:+ what +:+ " certificate watcher using provided certificates"))] in
  let tls := if http2 then [] else [disableHTTP2] in
  operator_main
    ["--metrics-bind-address=" +:+ metrics; "--health-probe-bind-address=" +:+ probe;
     "--leader-elect=" +:+ show_bool leader; "--metrics-secure=" +:+ show_bool secure;
     "--webhook-cert-path=" +:+ whdir; "--webhook-cert-name=" +:+ whcert; "--webhook-cert-key=" +:+ whkey;
     "--metrics-cert-path=" +:+ mdir; "--metrics-cert-name=" +:+ mcert; "--metrics-cert-key=" +:+ mkey;
     "--enable-http2=" +:+ show_bool http2] =
  (note whdir "webhook" ++ note mdir "metrics" ++
   [Called (NewManager
      {| Metrics := {| BindAddress := metrics; SecureServing := secure; TLSOpts := tls;
                       mo_FilterProvider := if secure then Some WithAuthenticationAndAuthorization else None;
                       CertDir := mdir; CertName := given mdir mcert; KeyName := given mdir mkey |};
         WebhookServer := Some {| wh_TLSOpts := tls; wh_CertDir := whdir; wh_CertName := given whdir whcert;
                                  wh_KeyName := given whdir whkey |};
         HealthProbeBindAddress := probe; LeaderElection := leader; LeaderElectionID := "a6ac0981.aiinfra.io" |});
    Called (AddHealthzCheck "healthz"); Called (AddReadyzCheck "readyz");
    Logged (Info "Starting manager"); Called Start], 0).
Proof.
  intros Hh given note tls.
  assert (exists fs, command_line operator_flags = Ret fs) as [fs Hc].
  { apply command_line_registers; [repeat constructor|compute_decide|].
    eapply names_apart_weaken; [|exact (healthy_flags Hh)]. compute_decide. }
  set (s := {| str x := match x with
      | op_metricsAddr => metrics | metricsCertPath => mdir | metricsCertName => mcert | metricsCertKey => mkey
      | webhookCertPath => whdir | webhookCertName => whcert | webhookCertKey => whkey | op_probeAddr => probe end;
      flg y := match y with enableLeaderElection => leader | secureMetrics => secure | enableHTTP2 => http2 end |}).
  destruct (operator_reads fs s Hc) as (s' & Hp & Hs' & Hf').
  change (["--metrics-bind-address=" +:+ metrics; _; _; _; _; _; _; _; _; _; _]) with (print_settings operator_flags s).
  unfold operator_main, init. destruct (healthy_schemes Hh) as [-> ->].
  unfold parse_command_line. rewrite Hc, Hp. cbn [or_panic bind_ pure fst snd app].
  unfold operator_run, GetConfigOrDie, webhookServerOptions, metricsServerOptions, tlsOpts.
  rewrite !Hs', !Hf'. cbn [s str flg]. rewrite (healthy_config Hh).
  unfold note, given, tls. destruct http2; repeat case_decide; subst; cbn [bind_ pure log_ or_exit negb app];
    by rewrite !(do_healthy _ _ Hh).
Qed.

End Starting.

(** ** A world to run in

    The flags controller-runtime registers, a cluster that answers, and the
    environment of the given name. *)

Definition sample_flag : Flag () := {| IsBoolFlag := false; Set_ _ _ := inl () |}.

Definition sample_world (env : string -> string) : World () :=
  {| lib_settings := ();
     imported_flags := [("kubeconfig", sample_flag)];
     zap_flags := [("zap-devel", {| IsBoolFlag := true; Set_ _ _ := inl () |}); ("zap-encoder", sample_flag);
                   ("zap-log-level", sample_flag); ("zap-stacktrace-level", sample_flag);
                   ("zap-time-encoding", sample_flag)];
     clientgo_AddToScheme := None;
     astra_AddToScheme := None;
     get_config _ := None;
     fails _ := None;
     GetClient _ _ := inr "not found";
     yaml _ := inr "yaml: empty";
     os := {| Getenv := env; Environ := []; exec := exec bare_os; os_runner := os_runner bare_os |};
     retry_steps := 5 |}.

Definition sample_env (name : string) : string := if decide (name = "NODE_NAME") then "node-a" else "".

(** With nothing configured the scheduler writes its ledgers where the agent
    looks for them. *)
Lemma default_namespaces_agree {L} {w : World L} {R} mk nf err (config : RestConfig R) p :
  (New mk nf err (fun _ => "") config).1 = inl p ->
  nodeNamespace p = str (defaults agent_flags) nodeProfileNamespace.
Proof.
  unfold New. destruct err; [done|]. destruct (mk _) as [c|]; [|done]. by intros [= <-].
Qed.

Example agent_without_name :
  agent_main (w := sample_world (fun _ => "")) []
  = ([Logged (Error "Missing node name. Set --node-name or NODE_NAME.")], 1).
Proof. vm_compute. reflexivity. Qed.

Example agent_unknown_backend :
  (agent_main (w := sample_world sample_env) ["--backend"; "tpu"]).2 = 1.
Proof. vm_compute. reflexivity. Qed.

Example operator_bad_flag :
  (operator_main (w := sample_world sample_env) ["--metrics-secure=maybe"]).2 = 2.
Proof. vm_compute. reflexivity. Qed.

Lemma agent_wiring_witness :
  exists r b, cfg_NodeName (config r) = "node-a" /\
  (cfg_NodeName (config r) <> "" /\ local r = LocalScheduler.NewDefaultScheduler /\
   exists name o,
    NewWithOptions (yaml (World := sample_world sample_env)) (os (World := sample_world sample_env)) name o = inl b /\
    opt_NodeName o = cfg_NodeName (config r) /\
    forall n (e : change ObjectMeta),
      opt_ConfigMapName o <> "" ->
      Namespace (newest e) = configMapNamespaceFor o n -> ApiTypes.Name (newest e) = opt_ConfigMapName o ->
      on_config_map (SetupWithManager (fun _ _ => true) r) e =
      Some (cfg_NodeProfileNamespace (config r), cfg_NodeName (config r))).
Proof.
  set (w := sample_world sample_env).
  set (s := set_str fakeResourceConfigMap "pool" (defaults (agent_flags (w := w)))).
  exists (NewReconciler (agent_config s) 5), (NewFakeBackend (yaml (World := w)) (agent_backend_options (w := w) s)).
  split; [reflexivity|].
  apply (agent_wiring (w := w) _ ["-fake-resource-configmap=pool"]).
  apply (list_elem_of_lookup_2 _ 1). reflexivity.
Defined.

Lemma operator_hardened_by_default_witness :
  exists o, (unmentioned "enable-http2" [] -> forall c wh, WebhookServer o = Some wh ->
     NextProtos (apply_opts (TLSOpts (Metrics o)) c) = ["http/1.1"] /\
     NextProtos (apply_opts (wh_TLSOpts wh) c) = ["http/1.1"]) /\
  (unmentioned "metrics-secure" [] ->
     SecureServing (Metrics o) = true /\ mo_FilterProvider (Metrics o) = Some WithAuthenticationAndAuthorization) /\
  (SecureServing (Metrics o) = true <-> mo_FilterProvider (Metrics o) = Some WithAuthenticationAndAuthorization).
Proof.
  eexists. refine (operator_hardened_by_default (w := sample_world sample_env) [] _ _).
  apply (list_elem_of_lookup_2 _ 0). reflexivity.
Defined.

Lemma sample_world_healthy env : healthy (w := sample_world env).
Proof.
  split; [done..|]. split_and!; [repeat constructor|compute_decide|].
  apply Forall_forall. compute_decide.
Qed.

Lemma agent_starts_as_configured_witness :
  let w := sample_world sample_env in
  exists b, agent_main (w := w)
    ["--node-name=n1"; "--node-profile-namespace=astra"; "--backend=fake"; "--fake-resource-configmap=pool";
     "--fake-resource-configmap-namespace="; "--metrics-bind-address=:1"; "--health-probe-bind-address=:2"] =
  ([Called (NewManager
      {| Metrics := {| BindAddress := ":1"; SecureServing := false; TLSOpts := []; mo_FilterProvider := None;
                       CertDir := ""; CertName := ""; KeyName := "" |};
         WebhookServer := None; HealthProbeBindAddress := ":2"; LeaderElection := false; LeaderElectionID := "" |});
    Called (SetupController
      (NewReconciler {| cfg_NodeName := "n1"; cfg_NodeProfileNamespace := "astra"; cfg_FakeResourceConfigMap := "pool";
                        cfg_FakeResourceConfigMapNS := "astra" |} 5) b);
    Called (AddHealthzCheck "healthz"); Called (AddReadyzCheck "readyz");
    Logged (Info "Starting Astra agent"); Called Start], 0).
Proof.
  intros w. eexists.
  exact (agent_starts_as_configured (w := w) "n1" "astra" "fake" "pool" "" ":1" ":2" _
           (sample_world_healthy _) ltac:(discriminate) eq_refl).
Defined.
